(* ===== verification/_CoqProject ===== *)
-Q . S2P
Prelude.v
GoErrors.v
GoStd.v
Partition.v
PartitionSpec.v
PartitionSteps.v
WireStatus.v
WireProtocol.v
WireTypes.v
WireRecord.v
PbCommon.v
PbControl.v
PbData.v
RpcTypes.v
Codec.v
RpcConvert.v
RpcDedup.v
Exchange.v
L1.v
ControlTypes.v
ControlConvert.v
ConversionsExact.v
ControlSize.v
Heap.v
Owned.v
Ownership.v
RpcOwnership.v
ControlOwnership.v
OwnershipTrace.v
PbWire.v
PbGo.v
PbProto.v
PbEncoding.v
PbMessages.v
PbRuntime.v
PbReader.v
PbInit.v
PbMethods.v
GrpcLib.v
GrpcData.v
GrpcControl.v
GrpcCalls.v
PbAgreement.v
ControlStream.v
PbBytes.v
Remote.v
ErrorClasses.v
Conformance.v
