(* ===== verification/Prelude.v ===== *)
(** * GossipCache: a verification development

    GossipCache is a distributed cache: nodes keep a local copy (L1) and talk
    to a hub over two gRPC services, Data (reads and mutations) and Control
    (a stream of invalidations).  The repository at this commit holds the
    contracts of the system, not yet the hub and node processes: the shared
    wire models (src/internal/wire), the messages and conversions of the two
    planes (src/internal/rpc, src/internal/control), the node's hub-client
    seam (src/internal/l1), and the protobuf schema (src/api/proto) with the
    code generated from it (src/api/gen/gossipcache/v1).  This development models that code function
    by function and proves what the rest of the system relies on.

    ** How the parts interact

    A node turns an operation into a domain message, validates it and encodes
    it with a [ProtoX] function; the hub decodes it with [FromProtoX], which
    rejects what does not fit the domain types and then runs the same
    validator.  Keys are routed to partitions by [PartitionOf] on both sides.
    On the Control stream the messages travel in two envelopes, one per
    direction.  Values that cross a goroutine or a cache boundary are copied
    by [Clone].  The generated files carry the schema to the protobuf runtime:
    their init functions register the types, and their methods give the
    runtime access to messages, which it writes and reads as bytes.

    ** The files

    - [Prelude]: machine integers as [Z] with explicit wrap-around, bytes,
      the class [GoTyped] of values in the range of their Go type, tactics and
      hint databases.  [GoErrors]: error values, [errors.Is], panics as
      outcomes.  [GoStd]: what is used of encoding/binary, math/bits,
      strconv, strings and time.
    - [Partition], [PartitionSpec], [PartitionSteps] (wire/partition.go): the
      seeded xxHash64 and the routing; the reference [Ref.xxh64], its
      equivalence with the code, injectivity on one unit of input, the golden
      vectors of the repository's test data; the loops as a machine that
      terminates within a number of steps linear in the key.
    - [WireStatus] (wire/status.go), [WireProtocol] (wire/protocol.go),
      [WireTypes] (wire/types.go), [WireRecord] (wire/record.go): the shared
      models; every validator is characterised by an iff, negotiation refines
      a specification (the highest common version), identities and TTLs
      convert without loss.
    - [PbCommon], [PbControl], [PbData] (api/gen/.../*.pb.go): the generated
      enumerations with their name tables, structs and nil-safe getters.
    - [RpcTypes] (rpc/types.go, status.go, ports.go), [RpcConvert]
      (rpc/convert.go), [RpcDedup] (rpc/dedup.go): the Data plane.  The
      validators as iffs, the conversions as instances of [MessageCodec], the
      mutation codec as a bijection, the safety of retries, fingerprints.
    - [Codec]: the class [MessageCodec], the interface a conversion promises
      (round trip, soundness, ranges) to the code that composes conversions.
    - [Exchange]: the two sides composed.  A handshake ends in agreement on a
      version or in failure on both sides; the hub recognises retries by the
      messages on the wire, no more and no less.
    - [L1] (l1/hub.go, l1/fake_contract.go): the node's view of a read and
      its agreement with the Data plane.
    - [ControlTypes] (control/types.go), [ControlConvert]
      (control/convert.go): the Control plane; batches (contiguity without
      wrap-around), subscriptions, replay windows; the envelopes, proved
      against [MessageCodec].
    - [ConversionsExact]: every conversion of both planes inverted; encoding
      what a decoder accepted gives back the message it was decoded from.
    - [ControlSize]: the size bounds of encoded control messages against the
      class [ProtoSize] of the documented proto3 encoding rules, which the
      bytes of [PbBytes] satisfy ([schema_sizes]).
    - [PbGo] (api/gen/.../*.pb.go): the declarations the runtime reads, with
      the bytes of the embedded descriptors; [PbProto] (api/proto): the schema
      as data, and what protoc and protoc-gen-go are documented to make of it;
      [PbAgreement]: the generated files and the gRPC descriptions are what
      the schema declares, and the descriptors read back as the schema's.
    - [PbWire], [PbEncoding]: the published wire format, for records of every
      wire type and for the messages of a schema, read back from what is
      written.
      [PbMessages]: every generated message and both envelopes as bytes.
      [PbBytes]: the domain messages on the whole way through conversion and
      bytes and back, and what the Control stream carries, within its limit.
    - [PbRuntime] (api/gen/.../*.pb.go): the package variables of the message
      files, the init functions, the lazily compressed descriptors, and the
      bodies of the generated methods over the class [Protoimpl] of the
      runtime.  [PbReader]: a runtime that satisfies the laws.  [PbInit]: any
      sequence of init calls and accesses builds every file once, in order,
      meets what the runtime requires of a build, and never panics.  [PbMethods]: [Enum], [String], [Descriptor], [Type],
      [Number], [EnumDescriptor], [Reset], [ProtoMessage] and [ProtoReflect]
      of every type, and that each is wired to its own type.
    - [Heap], [Owned]: slices and pointers on a shared heap, and the class
      [Owned] with the lemmas that show that code returns a given value in
      new memory ([converts]).  [Ownership]: [CopyBytes] and every [Clone]
      method of the four packages.  [RpcOwnership], [ControlOwnership]: the
      conversions that handle slices and pointers, with their allocations and
      append loops, refine the functions of [RpcConvert] and [ControlConvert]
      and isolate the two sides.  [OwnershipTrace]: programs whose parties
      exchange values by cloning and by converting, as a step relation, with
      the invariant that their values stay in disjoint memory; a message
      survives the network under interference and can always be sent and
      received.
    - [GrpcLib], [GrpcData], [GrpcControl]
      (api/gen/.../data_grpc.pb.go, control_grpc.pb.go): the types of the gRPC
      module that the stubs name, the effect [go] in which calls run (a state
      of the world, a result or a panic), and the stubs of the two services:
      clients, unimplemented servers, handlers, descriptions, registration.
      [GrpcCalls]: a call through the client stub of a method that succeeds was
      answered by that method of the server, or by the server's interceptor,
      which is given that method; failures on either side.  [Remote]: the
      stubs composed with the conversions of [RpcConvert]; a remote call is a
      local call when the network has no faults and the messages can be sent,
      and over any network a response that a node accepts was given by the hub.
      [ControlStream]: the stream of the Control service and the envelopes on
      it as a step relation, with the invariant that what is received is what
      was sent, in order and once; that it arrives at all is not claimed.
    - [ErrorClasses]: which sentinel errors the validators and the decoders
      of the two planes wrap.  [Conformance]: the tables of the repository's
      own tests, evaluated on the model.

    ** Conventions

    A method [T.m] is the definition [T_m], a struct [T] the record [T] with
    prefixed fields; when two packages use a name, the package is a prefix
    ([wire_GetRequest], [rpc_GetRequest], [control_ErrInvalidNodeID]); the
    protobuf package is prefixed by [pb_].  A pair [(v, err)] is the Go result
    pair, the value on error paths included.  A sentinel error is identified
    by package and name; formatted errors keep format, operands and the
    wrapped error.  The Go loops are structural recursions over the slice they
    range over, or, where they consume a prefix, well-founded recursions on
    the length of the rest ([xxStripes], [xxWords]), so no fuel is needed; on
    the heap they recurse on the indices they run through.
    The one fuel in the development, of [trim_front_with] in [GoStd], is the
    length of the string, which suffices because each step drops at least one
    byte.

    ** What is not modelled, and why

    The protobuf runtime is third-party code.  Its functions that the generated
    files call are the fields of the class [Protoimpl], with the documented
    behaviour in [ProtoimplLaws] and the instance [reading_runtime]; its
    [Build] is partial, and returns for a builder that agrees with its
    descriptor ([describes]) and does not conflict with the files registered
    before ([registrable]), which [PbInit] proves of every call.  The text of a message and the state that reflection keeps in it
    are opaque.  Its encoder is specified, not modelled: [PbWire] and
    [PbEncoding] are the published wire format, with fields in the order of
    the schema, and the validity of UTF-8, which the runtime requires of
    strings, and the depth to which it follows groups are parameters, the
    class [FormatRules].  The reader takes varints of at most ten bytes and 64
    bits, skips records that the schema does not declare, or declares with
    another wire type, whatever their type, groups included, and refuses
    truncated bytes, field numbers out of range, unbalanced groups and strings
    that are not UTF-8.  The unexported fields [unknownFields] and [sizeCache] appear in the struct
    declarations only.  The gRPC runtime is third-party code too: its opaque
    types and functions are the fields of the class [GrpcLib], and what is
    documented of it enters theorems as hypotheses, each with a concrete
    instance: [GrpcLaws] of the status package; [dispatches], of a connection
    over any network, which says what a successful call has run; [lossless], of
    one without faults and interceptors, which carries what can be sent
    ([carriable]: UTF-8 strings, a size limit) and reports errors by code;
    [OrderedStream], which says that what a stream delivers is what was sent,
    in order and once, and does not say that it delivers.  The implementation of the [HubClient] interface and of the
    [FakeHooks] callbacks, the hub and the node are not in the repository, so
    no state machine of theirs is modelled; [OwnershipTrace], [Exchange],
    [Remote] and [ControlStream] are about any program that uses the contracts
    as documented.  The build and CI files have no
    program logic.  The conversion files treat slices as lists; aliasing is the
    subject of the heap files, which cover every function that copies a slice
    or a pointer.  The spare capacity that [append] may
    leave behind a copied slice is not represented, as nothing reslices. *)


From stdpp Require Export base list gmap strings numbers.
From Stdlib Require Export ZArith Lia ZifyBool.
From Stdlib.Strings Require Export Byte.
From Stdlib Require Import Zdiv Znumtheory.

#[global] Open Scope Z_scope.

(** ** Machine integers

    A Go integer of a fixed width is a [Z]; the operations that can leave
    the range of the type wrap explicitly. *)

Definition wrap (w z : Z) : Z := z mod 2 ^ w.

Definition u8 (z : Z) : Prop := 0 <= z < 2 ^ 8.
Definition u16 (z : Z) : Prop := 0 <= z < 2 ^ 16.
Definition u32 (z : Z) : Prop := 0 <= z < 2 ^ 32.
Definition u64 (z : Z) : Prop := 0 <= z < 2 ^ 64.
Definition i32 (z : Z) : Prop := - 2 ^ 31 <= z < 2 ^ 31.
Definition i64 (z : Z) : Prop := - 2 ^ 63 <= z < 2 ^ 63.

#[export] Instance u8_dec z : Decision (u8 z).
Proof. unfold u8. apply _. Defined.
#[export] Instance u16_dec z : Decision (u16 z).
Proof. unfold u16. apply _. Defined.
#[export] Instance u32_dec z : Decision (u32 z).
Proof. unfold u32. apply _. Defined.
#[export] Instance u64_dec z : Decision (u64 z).
Proof. unfold u64. apply _. Defined.
#[export] Instance i32_dec z : Decision (i32 z).
Proof. unfold i32. apply _. Defined.
#[export] Instance i64_dec z : Decision (i64 z).
Proof. unfold i64. apply _. Defined.

(** Conversions [uint16(x)], [uint32(x)], [uint64(x)], [int32(x)], [int64(x)]. *)
Definition to_uint16 (z : Z) : Z := wrap 16 z.
Definition to_uint32 (z : Z) : Z := wrap 32 z.
Definition to_uint64 (z : Z) : Z := wrap 64 z.
Definition to_int32 (z : Z) : Z := wrap 32 (z + 2 ^ 31) - 2 ^ 31.
Definition to_int64 (z : Z) : Z := wrap 64 (z + 2 ^ 63) - 2 ^ 63.

(** [uint64] arithmetic. *)
Definition add64 (a b : Z) : Z := wrap 64 (a + b).
Definition sub64 (a b : Z) : Z := wrap 64 (a - b).
Definition mul64 (a b : Z) : Z := wrap 64 (a * b).

Declare Scope go_scope.
Delimit Scope go_scope with go.
Notation "a +% b" := (add64 a b) (at level 50, left associativity) : go_scope.
Notation "a -% b" := (sub64 a b) (at level 50, left associativity) : go_scope.
Notation "a *% b" := (mul64 a b) (at level 40, left associativity) : go_scope.
Notation "a ^% b" := (Z.lxor a b) (at level 50, left associativity) : go_scope.
Notation "a >>% n" := (Z.shiftr a n) (at level 35, no associativity) : go_scope.

(** ** Bytes, slices and strings

    A [[]byte] value is the list of its bytes.  Go's [nil] and empty slices
    are both [[]]: the modelled code looks at a slice only through [len] and
    its elements.  The model in which they and the aliasing of backing arrays
    are distinguished is in [Heap]. *)

Abbreviation bytes := (list byte).

Definition len {A} (l : list A) : Z := Z.of_nat (length l).
Definition byte_Z (b : byte) : Z := Z.of_N (Byte.to_N b).
Definition string_bytes (s : string) : bytes := String.list_byte_of_string s.
Definition string_len (s : string) : Z := Z.of_nat (String.length s).

#[export] Instance byte_eq_decision : EqDecision byte := Byte.byte_eq_dec.

(** [zero_bytes n] is the zero value of the array type [[n]byte]. *)
Definition zero_bytes (n : nat) : bytes := replicate n x00.

(** ** Values that inhabit their Go type

    The integer fields of a modelled struct are [Z]; [go_typed] says they are
    in the range of their Go type, as every value of the running program is. *)
Class GoTyped (A : Type) := go_typed : A → Prop.

#[export] Instance list_typed {A} `{GoTyped A} : GoTyped (list A) := Forall go_typed.
#[export] Instance option_typed {A} `{GoTyped A} : GoTyped (option A) :=
  λ o, match o with Some a => go_typed a | None => True end.

Lemma go_typed_cons {A} `{GoTyped A} (a : A) l :
  go_typed (a :: l) ↔ go_typed a ∧ go_typed l.
Proof. apply list.Forall_cons. Qed.

(** ** Tactics *)

(** Splits on the scrutinee of one [if] of the goal or of a hypothesis. *)
Ltac case_if :=
  match goal with
  | |- context [if ?b then _ else _] =>
      lazymatch b with context [if _ then _ else _] => fail | _ => destruct b eqn:? end
  | H : context [if ?b then _ else _] |- _ =>
      lazymatch b with context [if _ then _ else _] => fail | _ => destruct b eqn:? end
  end.
Ltac case_ifs := repeat (case_if; try discriminate).

(** Splits hypotheses into their conjuncts and existential witnesses. *)
Ltac destruct_ands :=
  repeat match goal with
  | H : _ ∧ _ |- _ => destruct H
  | H : ∃ _, _ |- _ => destruct H
  | H : _ && _ = true |- _ => apply andb_true_iff in H
  end.

Ltac unfold_ints :=
  unfold u8, u16, u32, u64, i32, i64, to_uint16, to_uint32, to_uint64,
    to_int32, to_int64, add64, sub64, mul64, wrap in *.

(** Closes a goal about ranges and conversions of machine integers. *)
Ltac solve_int :=
  unfold_ints; repeat rewrite Z.mod_small by lia; try lia.

(** ** Integer lemmas *)

Create HintDb go_int.
Create Rewrite HintDb go_int_id.

Lemma wrap_range w z : 0 <= w → 0 <= wrap w z < 2 ^ w.
Proof. intros. apply Z.mod_pos_bound. lia. Qed.

Lemma wrap_small w z : 0 <= z < 2 ^ w → wrap w z = z.
Proof. intros. by apply Z.mod_small. Qed.

Lemma add64_u64 a b : u64 (add64 a b).
Proof. by apply (wrap_range 64). Qed.
Lemma sub64_u64 a b : u64 (sub64 a b).
Proof. by apply (wrap_range 64). Qed.
Lemma mul64_u64 a b : u64 (mul64 a b).
Proof. by apply (wrap_range 64). Qed.

Lemma to_uint16_id z : u16 z → to_uint16 z = z.
Proof. apply wrap_small. Qed.
Lemma to_uint32_id z : u32 z → to_uint32 z = z.
Proof. apply wrap_small. Qed.
Lemma to_uint64_id z : u64 z → to_uint64 z = z.
Proof. apply wrap_small. Qed.
Lemma to_int32_id z : i32 z → to_int32 z = z.
Proof. intros. solve_int. Qed.
Lemma to_int64_id z : i64 z → to_int64 z = z.
Proof. intros. solve_int. Qed.
Lemma u8_i32 z : u8 z → i32 z.
Proof. solve_int. Qed.
Lemma u16_i32 z : u16 z → i32 z.
Proof. solve_int. Qed.
Lemma u8_u32 z : u8 z → u32 z.
Proof. solve_int. Qed.
Lemma u16_u32 z : u16 z → u32 z.
Proof. solve_int. Qed.

#[export] Hint Resolve add64_u64 sub64_u64 mul64_u64 u8_i32 u16_i32 u8_u32 u16_u32 : go_int.
#[export] Hint Rewrite to_uint16_id to_uint32_id to_uint64_id to_int32_id to_int64_id
  using (eauto with go_int) : go_int_id.

(** ** Length lemmas *)

Lemma len_nonneg {A} (l : list A) : 0 <= len l.
Proof. unfold len. lia. Qed.
Lemma len_nil_iff {A} (l : list A) : len l = 0 ↔ l = [].
Proof. unfold len. split; [|by intros ->]. destruct l; simpl; [done|lia]. Qed.
Lemma len_app {A} (l k : list A) : len (l ++ k) = len l + len k.
Proof. unfold len. rewrite length_app. lia. Qed.
Lemma len_cons {A} (x : A) l : len (x :: l) = 1 + len l.
Proof. unfold len. simpl. lia. Qed.

Lemma byte_Z_range b : u8 (byte_Z b).
Proof. unfold byte_Z, u8. pose proof (Byte.to_N_bounded b). lia. Qed.

Lemma byte_Z_inj b c : byte_Z b = byte_Z c → b = c.
Proof.
  unfold byte_Z. intros H%N2Z.inj.
  pose proof (Byte.of_to_N b). pose proof (Byte.of_to_N c). congruence.
Qed.

Lemma length_zero_bytes n : length (zero_bytes n) = n.
Proof. apply length_replicate. Qed.
