(* ===== verification/GoErrors.v ===== *)
(** * Go error values

    An [error] is [option err]: [None] is Go's nil error.  A package-level
    sentinel made by [errors.New] is identified by its package and variable
    name, which stands for the identity of the pointer [errors.New] returns;
    an error made by [fmt.Errorf] keeps its format string and its formatted
    operands, and with the verb [%w] also the error it wraps. *)

From S2P Require Import Prelude.

(** Operands of a format string other than the wrapped error: integers, and
    strings (the result of a [String] method included). *)
Inductive fmt_arg :=
| AInt (z : Z)
| AStr (s : string).

Inductive err :=
| New (id : string) (text : string)
| Errorf (format : string) (args : list fmt_arg)
| Wrapf (format : string) (wrapped : err) (args : list fmt_arg).

Abbreviation error := (option err).

#[export] Instance fmt_arg_eq_dec : EqDecision fmt_arg.
Proof. solve_decision. Defined.
#[export] Instance err_eq_dec : EqDecision err.
Proof. solve_decision. Defined.

(** [errors.Is(e, target)] for a sentinel target: the chain of wrapped errors
    is searched for the sentinel. *)
Fixpoint errors_Is (e target : err) : bool :=
  match e with
  | New id _ => match target with New id' _ => String.eqb id id' | _ => false end
  | Errorf _ _ => false
  | Wrapf _ w _ => errors_Is w target
  end.

(** [is_error r t]: the call returned an error whose chain holds the sentinel. *)
Definition is_error (r : error) (target : err) : bool :=
  match r with Some e => errors_Is e target | None => false end.

(** A call that may panic. *)
Inductive outcome (A : Type) :=
| Returns (a : A)
| Panics (e : err).
Arguments Returns {A} a.
Arguments Panics {A} e.

#[export] Instance outcome_eq_dec {A} `{EqDecision A} : EqDecision (outcome A).
Proof. solve_decision. Defined.

(** The panic of a read through a nil pointer. *)
Definition nil_dereference : err :=
  New "runtime.memoryError" "invalid memory address or nil pointer dereference".

(** The idioms [if err := e; err != nil { return err }; k] and
    [x, err := r; if err != nil { return z, err }; k]. *)
Notation "'try' e ';;' k" :=
  (match e with Some er => Some er | None => k end)
  (at level 10, e at level 99, k at level 200) : go_scope.
Notation "'let?' x ':=' r 'or' z 'in' k" :=
  (match r with (x, None) => k | (_, Some er) => (z, Some er) end)
  (at level 10, x name, r at level 99, z at level 99, k at level 200) : go_scope.

Lemma errors_Is_refl id text : errors_Is (New id text) (New id text) = true.
Proof. simpl. apply String.eqb_refl. Qed.
