(* ===== verification/GoStd.v ===== *)
(** * The Go standard library functions the code uses

    [encoding/binary] byte orders, [math/bits.RotateLeft64], [bytes.Equal],
    [strings.TrimSpace], [strconv.FormatUint] in base 10 and the units of
    [time.Duration], as executable definitions. *)

From S2P Require Import Prelude.
From Stdlib Require Zbitwise.
From Stdlib Require DecimalString DecimalN.

Local Open Scope go_scope.

(** ** encoding/binary

    [binary.LittleEndian.Uint64(b)] and the like read the first bytes of [b];
    every caller passes a slice of exactly the width read. *)
Definition byte_at (b : bytes) (i : nat) : Z := byte_Z (nth i b x00).

Definition LittleEndian_Uint32 (b : bytes) : Z :=
  Z.lor (byte_at b 0) (Z.lor (Z.shiftl (byte_at b 1) 8)
    (Z.lor (Z.shiftl (byte_at b 2) 16) (Z.shiftl (byte_at b 3) 24))).

Definition LittleEndian_Uint64 (b : bytes) : Z :=
  Z.lor (byte_at b 0) (Z.lor (Z.shiftl (byte_at b 1) 8)
    (Z.lor (Z.shiftl (byte_at b 2) 16) (Z.lor (Z.shiftl (byte_at b 3) 24)
    (Z.lor (Z.shiftl (byte_at b 4) 32) (Z.lor (Z.shiftl (byte_at b 5) 40)
    (Z.lor (Z.shiftl (byte_at b 6) 48) (Z.shiftl (byte_at b 7) 56))))))).

Definition BigEndian_Uint64 (b : bytes) : Z :=
  Z.lor (byte_at b 7) (Z.lor (Z.shiftl (byte_at b 6) 8)
    (Z.lor (Z.shiftl (byte_at b 5) 16) (Z.lor (Z.shiftl (byte_at b 4) 24)
    (Z.lor (Z.shiftl (byte_at b 3) 32) (Z.lor (Z.shiftl (byte_at b 2) 40)
    (Z.lor (Z.shiftl (byte_at b 1) 48) (Z.shiftl (byte_at b 0) 56))))))).

(** [byte(z)], and the eight bytes [BigEndian.PutUint64] stores. *)
Definition to_byte (z : Z) : byte :=
  match Byte.of_N (Z.to_N (wrap 8 z)) with Some b => b | None => x00 end.

Definition BigEndian_PutUint64 (v : Z) : bytes :=
  [to_byte (v >>% 56); to_byte (v >>% 48); to_byte (v >>% 40); to_byte (v >>% 32);
   to_byte (v >>% 24); to_byte (v >>% 16); to_byte (v >>% 8); to_byte v].

(** ** math/bits *)
Definition RotateLeft64 (x k : Z) : Z :=
  let s := Z.land k 63 in
  Z.lor (wrap 64 (Z.shiftl x s)) (x >>% (64 - s)).

(** ** bytes *)
Definition bytes_Equal (a b : bytes) : bool := bool_decide (a = b).

(** ** time: a [Duration] is an [int64] count of nanoseconds *)
Definition Millisecond : Z := 1000000.
Definition Second : Z := 1000 * Millisecond.
Definition Minute : Z := 60 * Second.

(** ** strconv.FormatUint(i, 10) *)
Definition FormatUint10 (z : Z) : string :=
  DecimalString.NilZero.string_of_uint (N.to_uint (Z.to_N z)).

(** ** strings.TrimSpace

    The UTF-8 encodings of the code points with [unicode.IsSpace]: tab, line
    feed, vertical tab, form feed, carriage return, space, U+0085, U+00A0,
    U+1680, U+2000 to U+200A, U+2028, U+2029, U+202F, U+205F and U+3000. *)
Definition space_encodings : list bytes :=
  [[x09]; [x0a]; [x0b]; [x0c]; [x0d]; [x20]; [xc2; x85]; [xc2; xa0];
   [xe1; x9a; x80];
   [xe2; x80; x80]; [xe2; x80; x81]; [xe2; x80; x82]; [xe2; x80; x83];
   [xe2; x80; x84]; [xe2; x80; x85]; [xe2; x80; x86]; [xe2; x80; x87];
   [xe2; x80; x88]; [xe2; x80; x89]; [xe2; x80; x8a]; [xe2; x80; xa8];
   [xe2; x80; xa9]; [xe2; x80; xaf]; [xe2; x81; x9f]; [xe3; x80; x80]].

Fixpoint strip_prefix (p b : bytes) : option bytes :=
  match p, b with
  | [], _ => Some b
  | x :: p', y :: b' => if bool_decide (x = y) then strip_prefix p' b' else None
  | _ :: _, [] => None
  end.

Fixpoint strip_any (ps : list bytes) (b : bytes) : option bytes :=
  match ps with
  | [] => None
  | p :: ps' => match strip_prefix p b with Some b' => Some b' | None => strip_any ps' b end
  end.

(** Drops encodings from the front until none matches; every encoding is
    non-empty, so fuel [length b] suffices ([trim_front_fuel]). *)
Fixpoint trim_front_with (fuel : nat) (ps : list bytes) (b : bytes) : bytes :=
  match fuel with
  | O => b
  | S fuel' => match strip_any ps b with
               | Some b' => trim_front_with fuel' ps b'
               | None => b
               end
  end.
Definition trim_front (ps : list bytes) (b : bytes) : bytes :=
  trim_front_with (length b) ps b.

Definition TrimSpace_bytes (b : bytes) : bytes :=
  reverse (trim_front (map reverse space_encodings)
             (reverse (trim_front space_encodings b))).
Definition TrimSpace (s : string) : string :=
  String.string_of_list_byte (TrimSpace_bytes (string_bytes s)).

(** ** Lemmas: reading and writing words *)

Lemma byte_at_range b i : 0 <= byte_at b i < 256.
Proof. apply byte_Z_range. Qed.

Lemma byte_Z_to_byte z : byte_Z (to_byte z) = z mod 256.
Proof.
  unfold byte_Z, to_byte, wrap. pose proof (Z.mod_pos_bound z 256 ltac:(lia)) as Hb.
  change (2 ^ 8) with 256.
  destruct (Byte.of_N (Z.to_N (z mod 256))) as [b|] eqn:E.
  - apply Byte.to_of_N in E. rewrite E. lia.
  - apply Byte.of_N_None_iff in E. lia.
Qed.

(** A value below [2^k] and a multiple of [2^k] have no common bit. *)
Lemma lor_disjoint_add a c k :
  0 <= k → 0 <= a < 2 ^ k → (2 ^ k | c) → Z.lor a c = a + c.
Proof.
  intros Hk Ha [q ->].
  assert (Z.land a (q * 2 ^ k) = 0) as Hland.
  { apply Z.bits_inj'. intros i Hi. rewrite Z.land_spec, Z.bits_0.
    destruct (Z.lt_ge_cases i k).
    - rewrite Z.mul_pow2_bits_low by lia. apply andb_false_r.
    - rewrite <- (Z.mod_small a (2 ^ k)) by lia.
      rewrite Z.mod_pow2_bits_high by lia. done. }
  pose proof (Zbitwise.Z.add_lor_land a (q * 2 ^ k)). lia.
Qed.

Lemma lor_shiftl_add a b k :
  0 <= k → 0 <= a < 2 ^ k → Z.lor a (Z.shiftl b k) = a + b * 2 ^ k.
Proof.
  intros. rewrite Z.shiftl_mul_pow2 by lia.
  apply (lor_disjoint_add _ _ k); [lia|lia|]. by exists b.
Qed.

(** The value of a little-endian byte string. *)
Fixpoint le_value (b : bytes) : Z :=
  match b with
  | [] => 0
  | x :: b' => byte_Z x + 256 * le_value b'
  end.

Fixpoint le_lor (b : bytes) : Z :=
  match b with
  | [] => 0
  | x :: b' => Z.lor (byte_Z x) (Z.shiftl (le_lor b') 8)
  end.

Lemma le_lor_value b : le_lor b = le_value b.
Proof.
  induction b as [|x b IH]; [done|]. cbn [le_lor le_value].
  rewrite lor_shiftl_add, IH by (lia || apply byte_Z_range). lia.
Qed.

Lemma le_value_range b : 0 <= le_value b < 256 ^ len b.
Proof.
  induction b as [|x b IH]; [done|]. cbn [le_value].
  rewrite len_cons, Z.pow_add_r by (lia || apply len_nonneg).
  pose proof (byte_Z_range x) as Hx. unfold u8 in Hx. lia.
Qed.

Lemma le_value_inj b c : length b = length c → le_value b = le_value c → b = c.
Proof.
  revert c. induction b as [|x b IH]; intros [|y c] Hl Hv; try discriminate; [done|].
  cbn [le_value] in Hv. pose proof (byte_Z_range x) as Hx. pose proof (byte_Z_range y) as Hy.
  unfold u8 in *.
  f_equal; [apply byte_Z_inj; lia | apply IH; [simpl in Hl; lia | lia]].
Qed.

Ltac lor_horner :=
  cbn [le_lor rev app]; unfold byte_at; cbn [nth];
  rewrite ?Z.shiftl_lor, ?Z.shiftl_shiftl by lia; cbn [Z.add Pos.add Pos.succ];
  rewrite ?Z.shiftl_0_l, ?Z.lor_0_r; reflexivity.

Lemma LittleEndian_Uint32_value b : length b = 4%nat → LittleEndian_Uint32 b = le_value b.
Proof.
  intros H. do 4 (destruct b as [|? b]; [discriminate|]). destruct b; [|discriminate].
  rewrite <- le_lor_value. unfold LittleEndian_Uint32. lor_horner.
Qed.

Lemma LittleEndian_Uint64_value b : length b = 8%nat → LittleEndian_Uint64 b = le_value b.
Proof.
  intros H. do 8 (destruct b as [|? b]; [discriminate|]). destruct b; [|discriminate].
  rewrite <- le_lor_value. unfold LittleEndian_Uint64. lor_horner.
Qed.

Lemma BigEndian_Uint64_value b : length b = 8%nat → BigEndian_Uint64 b = le_value (rev b).
Proof.
  intros H. do 8 (destruct b as [|? b]; [discriminate|]). destruct b; [|discriminate].
  rewrite <- le_lor_value. unfold BigEndian_Uint64. lor_horner.
Qed.

(** The [n] low bytes of [v], least significant first. *)
Fixpoint le_bytes (n : nat) (v : Z) : bytes :=
  match n with
  | O => []
  | S n' => to_byte v :: le_bytes n' (v >>% 8)
  end.

Lemma le_value_le_bytes n v : le_value (le_bytes n v) = v mod 256 ^ Z.of_nat n.
Proof.
  revert v. induction n as [|n IH]; intros v; [by rewrite Z.mod_1_r|].
  cbn [le_bytes le_value]. rewrite IH, byte_Z_to_byte, Z.shiftr_div_pow2 by lia.
  rewrite Nat2Z.inj_succ, Z.pow_succ_r by lia.
  rewrite Z.rem_mul_r by lia. done.
Qed.

Lemma BigEndian_PutUint64_rev v : BigEndian_PutUint64 v = rev (le_bytes 8 v).
Proof.
  cbn [le_bytes rev app]. rewrite !Z.shiftr_shiftr by lia. reflexivity.
Qed.

Lemma length_BigEndian_PutUint64 v : length (BigEndian_PutUint64 v) = 8%nat.
Proof. done. Qed.

Lemma BigEndian_Uint64_PutUint64 v : u64 v → BigEndian_Uint64 (BigEndian_PutUint64 v) = v.
Proof.
  intros Hv. rewrite BigEndian_Uint64_value by done.
  rewrite BigEndian_PutUint64_rev, rev_involutive, le_value_le_bytes.
  apply Z.mod_small. exact Hv.
Qed.

Lemma BigEndian_Uint64_range b : length b = 8%nat → u64 (BigEndian_Uint64 b).
Proof.
  intros H. rewrite BigEndian_Uint64_value by done.
  pose proof (le_value_range (rev b)) as Hr. unfold len in Hr.
  rewrite length_rev, H in Hr. exact Hr.
Qed.

Lemma BigEndian_Uint64_inj b c :
  length b = 8%nat → length c = 8%nat → BigEndian_Uint64 b = BigEndian_Uint64 c → b = c.
Proof.
  intros Hb Hc H. rewrite !BigEndian_Uint64_value in H by done.
  apply le_value_inj in H; [|by rewrite !length_rev, Hb, Hc].
  by apply (f_equal (@rev byte)) in H; rewrite !rev_involutive in H.
Qed.

(** ** Lemmas: the 64-bit operations are injective *)

Lemma RotateLeft64_value x k :
  0 < k < 64 → u64 x →
  RotateLeft64 x k = (x mod 2 ^ (64 - k)) * 2 ^ k + x / 2 ^ (64 - k).
Proof.
  intros Hk Hx. unfold RotateLeft64, u64 in *.
  replace (Z.land k 63) with k
    by (change 63 with (Z.ones 6); rewrite Z.land_ones by lia; symmetry; apply Z.mod_small; lia).
  rewrite Z.shiftr_div_pow2, Z.shiftl_mul_pow2 by lia. unfold wrap.
  replace (2 ^ 64) with (2 ^ (64 - k) * 2 ^ k) in * by (rewrite <- Z.pow_add_r by lia; f_equal; lia).
  rewrite Z.mul_mod_distr_r by lia.
  rewrite Z.lor_comm, (lor_disjoint_add _ _ k); [lia|lia| |by eexists].
  split; [apply Z.div_pos; lia|]. apply Z.div_lt_upper_bound; lia.
Qed.

Lemma RotateLeft64_u64 x k : 0 < k < 64 → u64 x → u64 (RotateLeft64 x k).
Proof.
  intros Hk Hx. rewrite RotateLeft64_value by done. unfold u64 in *.
  replace (2 ^ 64) with (2 ^ (64 - k) * 2 ^ k) in *
    by (rewrite <- Z.pow_add_r by lia; f_equal; lia).
  assert (0 < 2 ^ k) by lia. assert (0 < 2 ^ (64 - k)) by lia.
  pose proof (Z.mod_pos_bound x (2 ^ (64 - k)) ltac:(lia)).
  assert (0 <= x / 2 ^ (64 - k) < 2 ^ k).
  { split; [apply Z.div_pos; lia|]. apply Z.div_lt_upper_bound; lia. }
  nia.
Qed.

Lemma RotateLeft64_inj x y k :
  0 < k < 64 → u64 x → u64 y → RotateLeft64 x k = RotateLeft64 y k → x = y.
Proof.
  intros Hk Hx Hy. rewrite !RotateLeft64_value by done. unfold u64 in *.
  replace (2 ^ 64) with (2 ^ k * 2 ^ (64 - k)) in *
    by (rewrite <- Z.pow_add_r by lia; f_equal; lia).
  assert (0 < 2 ^ (64 - k)) by lia.
  assert (∀ z, 0 <= z < 2 ^ k * 2 ^ (64 - k) → 0 <= z / 2 ^ (64 - k) < 2 ^ k) as Hq.
  { intros z Hz. split; [apply Z.div_pos; lia|]. apply Z.div_lt_upper_bound; lia. }
  pose proof (Hq x Hx). pose proof (Hq y Hy). intros Heq.
  rewrite !(Z.mul_comm _ (2 ^ k)) in Heq.
  apply Z.div_mod_unique in Heq as [Hm Hd]; [|lia|lia].
  rewrite (Z.div_mod x (2 ^ (64 - k))), (Z.div_mod y (2 ^ (64 - k))) by lia. congruence.
Qed.

(** Multiplication by [p] is undone by a multiplicative inverse [q] of [p]. *)
Lemma mul64_cancel p q x : wrap 64 (p * q) = 1 → u64 x → mul64 (mul64 x p) q = x.
Proof.
  unfold mul64, wrap, u64. intros Hpq Hx.
  rewrite Z.mul_mod_idemp_l, <- Z.mul_assoc, <- Z.mul_mod_idemp_r, Hpq by lia.
  rewrite Z.mul_1_r. by apply Z.mod_small.
Qed.

Lemma mul64_inj p q x y :
  wrap 64 (p * q) = 1 → u64 x → u64 y → mul64 x p = mul64 y p → x = y.
Proof.
  intros Hpq Hx Hy H. rewrite <- (mul64_cancel p q x), <- (mul64_cancel p q y) by done.
  by rewrite H.
Qed.

Lemma add64_inj_l c x y : u64 x → u64 y → add64 x c = add64 y c → x = y.
Proof.
  unfold add64, wrap, u64. intros Hx Hy H.
  rewrite <- (Z.mod_small x (2 ^ 64)), <- (Z.mod_small y (2 ^ 64)) by lia.
  replace x with (x + c - c) by lia. replace y with (y + c - c) by lia.
  by rewrite <- (Zminus_mod_idemp_l (x + c)), <- (Zminus_mod_idemp_l (y + c)), H.
Qed.

Lemma add64_comm a b : add64 a b = add64 b a.
Proof. unfold add64. by rewrite Z.add_comm. Qed.

Lemma add64_inj_r c x y : u64 x → u64 y → add64 c x = add64 c y → x = y.
Proof. rewrite !(add64_comm c). apply add64_inj_l. Qed.

Lemma lxor_u64 x y : u64 x → u64 y → u64 (Z.lxor x y).
Proof.
  unfold u64. intros Hx Hy.
  assert (0 <= Z.lxor x y) by (apply Z.lxor_nonneg; lia). split; [done|].
  destruct (Z.eq_dec (Z.lxor x y) 0) as [->|]; [lia|].
  apply Z.log2_lt_pow2; [lia|].
  pose proof (Z.log2_lxor x y ltac:(lia) ltac:(lia)).
  assert (∀ z, 0 <= z < 2 ^ 64 → Z.log2 z < 64) as Hl.
  { intros z Hz. destruct (Z.eq_dec z 0) as [->|]; [done|]. apply Z.log2_lt_pow2; lia. }
  pose proof (Hl x Hx). pose proof (Hl y Hy). lia.
Qed.

Lemma lxor_inj_r c x y : Z.lxor x c = Z.lxor y c → x = y.
Proof.
  intros H. apply (f_equal (λ z, Z.lxor z c)) in H.
  by rewrite !Z.lxor_assoc, !Z.lxor_nilpotent, !Z.lxor_0_r in H.
Qed.

Lemma lxor_inj_l c x y : Z.lxor c x = Z.lxor c y → x = y.
Proof. rewrite !(Z.lxor_comm c). apply lxor_inj_r. Qed.

Lemma shiftr_u64 x k : 0 <= k → u64 x → u64 (x >>% k).
Proof.
  intros Hk Hx. unfold u64 in *. rewrite Z.shiftr_div_pow2 by lia. split.
  - apply Z.div_pos; lia.
  - apply Z.le_lt_trans with x; [|lia]. apply Z.div_le_upper_bound; nia.
Qed.

(** The xor-shift [x ^ (x >> k)] loses nothing. *)
Lemma xorshift_inj k x y :
  0 < k → u64 x → u64 y → x ^% (x >>% k) = y ^% (y >>% k) → x = y.
Proof.
  intros Hk Hx Hy H. apply Z.lxor_eq.
  assert (0 <= Z.lxor x y) by (apply Z.lxor_nonneg; unfold u64 in *; lia).
  assert (Z.lxor x y = Z.lxor x y >>% k) as Hfix.
  { rewrite Z.shiftr_lxor. apply Z.lxor_eq. apply (f_equal (Z.lxor (y ^% (y >>% k)))) in H.
    rewrite Z.lxor_nilpotent in H. rewrite <- H.
    apply Z.bits_inj'. intros i Hi. rewrite !Z.lxor_spec.
    by destruct (Z.testbit x i), (Z.testbit y i), (Z.testbit (x >>% k) i),
      (Z.testbit (y >>% k) i). }
  rewrite Z.shiftr_div_pow2 in Hfix by lia.
  assert (1 < 2 ^ k) by (apply Z.pow_gt_1; lia).
  destruct (Z.eq_dec (Z.lxor x y) 0); [done|].
  pose proof (Z.div_lt (Z.lxor x y) (2 ^ k)). lia.
Qed.

Lemma byte_Z_u64 b : u64 (byte_Z b).
Proof. pose proof (byte_Z_range b). solve_int. Qed.

#[export] Hint Resolve lxor_u64 byte_Z_u64 : go_int.
#[export] Hint Extern 1 (u64 (Z.shiftr _ _)) => apply shiftr_u64; [lia|] : go_int.
#[export] Hint Extern 1 (u64 (RotateLeft64 _ _)) => apply RotateLeft64_u64; [lia|] : go_int.

(** ** Lemmas: decimal formatting and strings *)

Lemma to_uint_not_nil n : N.to_uint n ≠ Decimal.Nil.
Proof.
  intros H. destruct n as [|p]; [discriminate|].
  apply (f_equal N.of_uint) in H. rewrite DecimalN.Unsigned.of_to in H. discriminate.
Qed.

Lemma FormatUint10_inj a b : 0 <= a → 0 <= b → FormatUint10 a = FormatUint10 b → a = b.
Proof.
  unfold FormatUint10. intros Ha Hb H.
  apply (f_equal DecimalString.NilZero.uint_of_string) in H.
  rewrite !DecimalString.NilZero.usu in H by apply to_uint_not_nil.
  injection H as H. apply DecimalN.Unsigned.to_uint_inj in H. lia.
Qed.

Lemma string_length_app (a b : string) :
  String.length (a +:+ b) = (String.length a + String.length b)%nat.
Proof. induction a as [|c a IH]; [done|]. simpl. by rewrite IH. Qed.

Lemma string_app_inj_r (a b s : string) :
  (a +:+ s)%string = (b +:+ s)%string → a = b.
Proof.
  intros H. assert (String.length a = String.length b) as Hl.
  { apply (f_equal String.length) in H. rewrite !string_length_app in H. lia. }
  revert b Hl H. induction a as [|c a IH]; intros [|d b] Hl H; try discriminate; [done|].
  injection H as -> H. f_equal. apply IH; [simpl in Hl; lia|done].
Qed.

(** ** Lemmas: TrimSpace

    [blank b]: the bytes are a sequence of encoded white space characters. *)
Definition blank (b : bytes) : Prop :=
  ∃ ps, Forall (λ p, p ∈ space_encodings) ps ∧ b = concat ps.

Lemma strip_prefix_app p r : strip_prefix p (p ++ r) = Some r.
Proof.
  induction p as [|x p IH]; [by destruct r|]. cbn. by rewrite bool_decide_true.
Qed.

Lemma strip_prefix_Some p b r : strip_prefix p b = Some r → b = p ++ r.
Proof.
  revert b. induction p as [|x p IH]; intros b H; [by destruct b; injection H as <-|].
  destruct b as [|y b]; [discriminate|]. cbn in H. case_bool_decide; [|discriminate].
  subst. cbn. f_equal. by apply IH.
Qed.

Lemma strip_any_Some ps b r : strip_any ps b = Some r → ∃ p, p ∈ ps ∧ b = p ++ r.
Proof.
  induction ps as [|p ps IH]; [discriminate|]. cbn.
  destruct (strip_prefix p b) eqn:E; intros H.
  - injection H as <-. exists p. split; [by left|]. by apply strip_prefix_Some.
  - destruct (IH H) as (q & ? & ?). exists q. split; [by right|done].
Qed.

(** What [trim_front] removes is a sequence of the given encodings. *)
Lemma trim_front_with_split fuel ps b :
  ∃ qs, Forall (λ p, p ∈ ps) qs ∧ b = concat qs ++ trim_front_with fuel ps b.
Proof.
  revert b. induction fuel as [|fuel IH]; intros b; cbn; [by exists []|].
  destruct (strip_any ps b) as [b'|] eqn:E; [|by exists []].
  apply strip_any_Some in E as (p & Hp & ->).
  destruct (IH b') as (qs & Hqs & Heq). exists (p :: qs).
  split; [by constructor|]. cbn. rewrite <- app_assoc. by f_equal.
Qed.

(** No white space encoding is a proper prefix of another. *)
Lemma strip_any_encoding p r :
  p ∈ space_encodings → strip_any space_encodings (p ++ r) = Some r.
Proof.
  unfold space_encodings at 1.
  rewrite !list_elem_of_In. cbn [In]. intros H.
  repeat destruct H as [<-|H]; try done.
Qed.

Lemma trim_front_with_blank ps fuel :
  Forall (λ p, p ∈ space_encodings) ps → (length ps <= fuel)%nat →
  trim_front_with fuel space_encodings (concat ps) = [].
Proof.
  intros Hps. revert fuel. induction Hps as [|p ps Hp _ IH]; intros fuel Hf.
  - destruct fuel; done.
  - destruct fuel as [|fuel]; [simpl in Hf; lia|]. cbn [concat trim_front_with].
    rewrite strip_any_encoding by done. apply IH. simpl in Hf. lia.
Qed.

Lemma encoding_nonempty p : p ∈ space_encodings → (1 <= length p)%nat.
Proof.
  rewrite list_elem_of_In. cbn [space_encodings In]. intros H.
  repeat destruct H as [<-|H]; simpl; lia || done.
Qed.

Lemma length_concat_encodings ps :
  Forall (λ p, p ∈ space_encodings) ps → (length ps <= length (concat ps))%nat.
Proof.
  induction 1 as [|p ps Hp _ IH]; [done|]. cbn. rewrite length_app.
  pose proof (encoding_nonempty p Hp). lia.
Qed.

Lemma reverse_concat {A} (ls : list (list A)) :
  reverse (concat ls) = concat (reverse (map reverse ls)).
Proof.
  induction ls as [|l ls IH]; [done|]. cbn [concat map].
  rewrite reverse_app, IH, reverse_cons, concat_app. cbn. by rewrite app_nil_r.
Qed.

Lemma TrimSpace_bytes_empty b : TrimSpace_bytes b = [] ↔ blank b.
Proof.
  unfold TrimSpace_bytes, trim_front. split.
  - intros H. apply (f_equal reverse) in H. rewrite reverse_involutive in H.
    destruct (trim_front_with_split (length b) space_encodings b) as (ps & Hps & Hb).
    set (x := trim_front_with (length b) space_encodings b) in *.
    destruct (trim_front_with_split (length (reverse x)) (map reverse space_encodings) (reverse x))
      as (qs & Hqs & Hx).
    rewrite H, app_nil_r in Hx. apply (f_equal reverse) in Hx.
    rewrite reverse_involutive, reverse_concat in Hx.
    exists (ps ++ reverse (map reverse qs)). split; [|by rewrite concat_app, <- Hx].
    apply Forall_app. split; [done|]. apply Forall_reverse, Forall_map.
    eapply Forall_impl; [|exact Hqs]. intros q Hq. cbv beta in Hq.
    apply list_elem_of_fmap in Hq as (p & -> & Hp). by rewrite reverse_involutive.
  - intros (ps & Hps & ->). rewrite trim_front_with_blank by (done || by apply length_concat_encodings).
    done.
Qed.

Lemma TrimSpace_empty s : TrimSpace s = ""%string ↔ blank (string_bytes s).
Proof.
  unfold TrimSpace. rewrite <- TrimSpace_bytes_empty. split; [|by intros ->].
  intros H. apply (f_equal String.list_byte_of_string) in H.
  by rewrite String.list_byte_of_string_of_list_byte in H.
Qed.
