(* ===== verification/Partition.v ===== *)
(** * Partition routing (internal/wire/partition.go)

    [PartitionOf] and the seeded xxHash64 it is built on, statement by
    statement.  The two [for len(remaining) >= n] loops are well-founded
    recursions on the length of [remaining]. *)

From Equations Require Import Equations.
From S2P Require Import Prelude GoErrors GoStd.

Local Open Scope go_scope.

Definition partitionSeed : Z := 0x9E3779B185EBCA87.

Definition ErrInvalidPartitionCount : err :=
  New "wire.ErrInvalidPartitionCount" "partition count must be greater than zero".

Definition xxPrime1 : Z := 11400714785074694791.
Definition xxPrime2 : Z := 14029467366897019727.
Definition xxPrime3 : Z := 1609587929392839161.
Definition xxPrime4 : Z := 9650029242287828579.
Definition xxPrime5 : Z := 2870177450012600261.

Definition xxRound (accumulator input : Z) : Z :=
  let accumulator := accumulator +% input *% xxPrime2 in
  let accumulator := RotateLeft64 accumulator 31 in
  accumulator *% xxPrime1.

Definition xxMergeRound (accumulator value : Z) : Z :=
  let accumulator := accumulator ^% xxRound 0 value in
  accumulator *% xxPrime1 +% xxPrime4.

(** The four accumulators [v1] to [v4] of the stripe loop. *)
Record xxState := mkXX { xx_v1 : Z; xx_v2 : Z; xx_v3 : Z; xx_v4 : Z }.

(** [remaining[lo:hi]] *)
Definition subslice (b : bytes) (lo hi : nat) : bytes := take (hi - lo) (drop lo b).

Definition xxStripe (v : xxState) (remaining : bytes) : xxState :=
  {| xx_v1 := xxRound (xx_v1 v) (LittleEndian_Uint64 (subslice remaining 0 8));
     xx_v2 := xxRound (xx_v2 v) (LittleEndian_Uint64 (subslice remaining 8 16));
     xx_v3 := xxRound (xx_v3 v) (LittleEndian_Uint64 (subslice remaining 16 24));
     xx_v4 := xxRound (xx_v4 v) (LittleEndian_Uint64 (subslice remaining 24 32)) |}.

(** [for len(remaining) >= 32]: the final accumulators and [remaining]. *)
Equations? xxStripes (remaining : bytes) (v : xxState) : xxState * bytes
  by wf (length remaining) lt :=
  xxStripes remaining v with Z_le_dec 32 (len remaining) => {
    | left _ => xxStripes (drop 32 remaining) (xxStripe v remaining)
    | right _ => (v, remaining) }.
Proof. unfold len in *. rewrite length_skipn. lia. Qed.

Definition xxInit (seed : Z) : xxState :=
  {| xx_v1 := seed +% xxPrime1 +% xxPrime2;
     xx_v2 := seed +% xxPrime2;
     xx_v3 := seed;
     xx_v4 := seed -% xxPrime1 |}.

Definition xxMerge (v : xxState) : Z :=
  let hash := RotateLeft64 (xx_v1 v) 1 +% RotateLeft64 (xx_v2 v) 7 +%
              RotateLeft64 (xx_v3 v) 12 +% RotateLeft64 (xx_v4 v) 18 in
  let hash := xxMergeRound hash (xx_v1 v) in
  let hash := xxMergeRound hash (xx_v2 v) in
  let hash := xxMergeRound hash (xx_v3 v) in
  xxMergeRound hash (xx_v4 v).

(** One iteration of [for len(remaining) >= 8]. *)
Definition xxWord (hash : Z) (word : bytes) : Z :=
  let k := xxRound 0 (LittleEndian_Uint64 word) in
  let hash := hash ^% k in
  RotateLeft64 hash 27 *% xxPrime1 +% xxPrime4.

Equations? xxWords (remaining : bytes) (hash : Z) : Z * bytes
  by wf (length remaining) lt :=
  xxWords remaining hash with Z_le_dec 8 (len remaining) => {
    | left _ => xxWords (drop 8 remaining) (xxWord hash (subslice remaining 0 8))
    | right _ => (hash, remaining) }.
Proof. unfold len in *. rewrite length_skipn. lia. Qed.

(** [if len(remaining) >= 4] *)
Definition xxHalfWord (hash : Z) (half : bytes) : Z :=
  let hash := hash ^% (LittleEndian_Uint32 half *% xxPrime1) in
  RotateLeft64 hash 23 *% xxPrime2 +% xxPrime3.

(** One iteration of [for _, b := range remaining]. *)
Definition xxByte (hash : Z) (b : byte) : Z :=
  let hash := hash ^% (byte_Z b *% xxPrime5) in
  RotateLeft64 hash 11 *% xxPrime1.

Definition xxAvalanche (hash : Z) : Z :=
  let hash := hash ^% (hash >>% 33) in
  let hash := hash *% xxPrime2 in
  let hash := hash ^% (hash >>% 29) in
  let hash := hash *% xxPrime3 in
  hash ^% (hash >>% 32).

(** The part of [xxHash64] before [hash += uint64(len(data))]. *)
Definition xxHead (data : bytes) (seed : Z) : Z * bytes :=
  if 32 <=? len data then
    let '(v, remaining) := xxStripes data (xxInit seed) in
    (xxMerge v, remaining)
  else (seed +% xxPrime5, data).

(** The part between [hash += uint64(len(data))] and the avalanche. *)
Definition xxTail (hash : Z) (remaining : bytes) : Z :=
  let '(hash, remaining) := xxWords remaining hash in
  let '(hash, remaining) :=
    if 4 <=? len remaining
    then (xxHalfWord hash (subslice remaining 0 4), drop 4 remaining)
    else (hash, remaining) in
  foldl xxByte hash remaining.

Definition xxHash64 (data : bytes) (seed : Z) : Z :=
  let '(hash, remaining) := xxHead data seed in
  let hash := hash +% to_uint64 (len data) in
  xxAvalanche (xxTail hash remaining).

Definition validatePartitionCount (partitionCount : Z) : error :=
  if partitionCount =? 0 then Some ErrInvalidPartitionCount else None.

Definition PartitionOf (key : bytes) (partitionCount : Z) : outcome Z :=
  match validatePartitionCount partitionCount with
  | Some e => Panics e
  | None => Returns (to_uint32 (xxHash64 key partitionSeed mod to_uint64 partitionCount))
  end.
