(* ===== verification/PartitionSpec.v ===== *)
(** * Partition routing: the reference hash and the properties of routing

    [Ref.xxh64] is the published description of XXH64 in index form: lane [i]
    folds the words at offsets [32 j + 8 i], the rest of the input is read at
    absolute offsets, and every operation is arithmetic on [Z] modulo [2^64].
    The loops of [Partition] compute it. *)

From Equations Require Import Equations.
From S2P Require Import Prelude GoErrors GoStd Partition.

Local Open Scope go_scope.

(** ** The reference *)
Module Ref.
Definition P1 : Z := 0x9E3779B185EBCA87.
Definition P2 : Z := 0xC2B2AE3D27D4EB4F.
Definition P3 : Z := 0x165667B19E3779F9.
Definition P4 : Z := 0x85EBCA77C2B2AE63.
Definition P5 : Z := 0x27D4EB2F165667C5.
Definition M : Z := 2 ^ 64.

Definition rotl (x k : Z) : Z := (x * 2 ^ k) mod M + x / 2 ^ (64 - k).

(** The [w]-byte little-endian word of [data] at [off]. *)
Definition word (data : bytes) (off w : nat) : Z := le_value (take w (drop off data)).

Definition round (acc lane : Z) : Z := (rotl ((acc + lane * P2) mod M) 31 * P1) mod M.

Definition lane (data : bytes) (i : nat) (init : Z) : Z :=
  foldl (λ acc j, round acc (word data (32 * j + 8 * i) 8)) init
    (seq 0 (length data / 32)).

Definition merge (acc v : Z) : Z := (Z.lxor acc (round 0 v) * P1 + P4) mod M.

Definition converge (data : bytes) (seed : Z) : Z :=
  if decide (length data < 32)%nat then (seed + P5) mod M
  else
    let v1 := lane data 0 ((seed + P1 + P2) mod M) in
    let v2 := lane data 1 ((seed + P2) mod M) in
    let v3 := lane data 2 seed in
    let v4 := lane data 3 ((seed - P1) mod M) in
    merge (merge (merge (merge
      ((rotl v1 1 + rotl v2 7 + rotl v3 12 + rotl v4 18) mod M) v1) v2) v3) v4.

Definition step8 (acc w : Z) : Z := (rotl (Z.lxor acc (round 0 w)) 27 * P1 + P4) mod M.
Definition step4 (acc w : Z) : Z :=
  (rotl (Z.lxor acc ((w * P1) mod M)) 23 * P2 + P3) mod M.
Definition step1 (acc : Z) (b : byte) : Z :=
  (rotl (Z.lxor acc ((byte_Z b * P5) mod M)) 11 * P1) mod M.

(** What is left of the input after the stripes, from its first offset. *)
Definition consume (rest : bytes) (acc : Z) : Z :=
  let l := length rest in
  let acc := foldl (λ acc j, step8 acc (word rest (8 * j) 8)) acc (seq 0 (l / 8)) in
  let acc := if decide (4 <= l `mod` 8)%nat
             then step4 acc (word rest (8 * (l / 8)) 4) else acc in
  foldl step1 acc (drop (4 * (l / 4)) rest).

Definition avalanche (acc : Z) : Z :=
  let acc := Z.lxor acc (acc / 2 ^ 33) in
  let acc := (acc * P2) mod M in
  let acc := Z.lxor acc (acc / 2 ^ 29) in
  let acc := (acc * P3) mod M in
  Z.lxor acc (acc / 2 ^ 32).

Definition xxh64 (data : bytes) (seed : Z) : Z :=
  let acc := (converge data seed + Z.of_nat (length data)) mod M in
  avalanche (consume (drop (32 * (length data / 32)) data) acc).
End Ref.

(** ** Chunked folds *)

Lemma foldl_seq_shift {A} (f : A → nat → A) (a : A) (n : nat) :
  foldl f a (seq 1 n) = foldl (λ acc j, f acc (S j)) a (seq 0 n).
Proof.
  rewrite <- fmap_S_seq. revert a. induction (seq 0 n) as [|j js IH]; intros a; [done|].
  simpl. apply IH.
Qed.

Lemma foldl_ext_in {A B} (f g : A → B → A) (a : A) (l : list B) (P : A → Prop) :
  P a → (∀ a b, P a → b ∈ l → P (g a b) ∧ f a b = g a b) → foldl f a l = foldl g a l.
Proof.
  revert a. induction l as [|b l IH]; intros a Ha H; [done|]. simpl.
  destruct (H a b Ha ltac:(left)) as [Hg ->]. apply IH; [done|].
  intros a' b' Ha' Hb'. apply H; [done|by right].
Qed.

(** The fold over [n] consecutive chunks of [c] bytes consumes the first. *)
Lemma foldl_chunks_S {A} (f : A → bytes → A) (c : nat) (data : bytes) (n : nat) (a : A) :
  foldl (λ acc j, f acc (drop (c * j) data)) a (seq 0 (S n)) =
  foldl (λ acc j, f acc (drop (c * j) (drop c data))) (f a data) (seq 0 n).
Proof.
  cbn [seq foldl]. rewrite Nat.mul_0_r, drop_0, foldl_seq_shift.
  generalize (f a data). induction (seq 0 n) as [|j js IH]; intros a'; [done|].
  cbn [foldl]. rewrite drop_drop. replace (c * S j)%nat with (c + c * j)%nat by lia. apply IH.
Qed.

Lemma div_step (c l : nat) : (0 < c)%nat → (c <= l)%nat → (l / c = S ((l - c) / c))%nat.
Proof.
  intros Hc Hl. replace l with (1 * c + (l - c))%nat at 1 by lia.
  rewrite Nat.div_add_l by lia. lia.
Qed.

(** ** Operation by operation, the code is the reference *)

Lemma primes_eq :
  xxPrime1 = Ref.P1 ∧ xxPrime2 = Ref.P2 ∧ xxPrime3 = Ref.P3 ∧
  xxPrime4 = Ref.P4 ∧ xxPrime5 = Ref.P5.
Proof. done. Qed.

Lemma rotl_eq x k : 0 < k < 64 → u64 x → RotateLeft64 x k = Ref.rotl x k.
Proof.
  intros Hk Hx. rewrite RotateLeft64_value by done. unfold Ref.rotl, Ref.M.
  replace (2 ^ 64) with (2 ^ (64 - k) * 2 ^ k) by (rewrite <- Z.pow_add_r by lia; f_equal; lia).
  rewrite Z.mul_mod_distr_r by lia. done.
Qed.

Lemma xxRound_u64 acc v : u64 (xxRound acc v).
Proof. unfold xxRound. auto with go_int. Qed.
Lemma xxMergeRound_u64 acc v : u64 (xxMergeRound acc v).
Proof. unfold xxMergeRound. auto with go_int. Qed.
Lemma xxWord_u64 h w : u64 (xxWord h w).
Proof. unfold xxWord. auto with go_int. Qed.
Lemma xxHalfWord_u64 h w : u64 (xxHalfWord h w).
Proof. unfold xxHalfWord. auto with go_int. Qed.
Lemma xxByte_u64 h b : u64 (xxByte h b).
Proof. unfold xxByte. auto with go_int. Qed.
#[export] Hint Resolve xxRound_u64 xxMergeRound_u64 xxWord_u64 xxHalfWord_u64 xxByte_u64 : go_int.

Lemma zero_u64 : u64 0.
Proof. done. Qed.
#[export] Hint Resolve zero_u64 : go_int.

Lemma xxRound_eq acc v : xxRound acc v = Ref.round acc v.
Proof.
  unfold xxRound. rewrite rotl_eq by (lia || auto with go_int).
  unfold Ref.round, add64, mul64, wrap. destruct primes_eq as (-> & -> & _).
  by rewrite Z.add_mod_idemp_r by done.
Qed.

Lemma xxMergeRound_eq acc v : xxMergeRound acc v = Ref.merge acc v.
Proof.
  unfold xxMergeRound, Ref.merge, add64, mul64, wrap. rewrite xxRound_eq.
  by rewrite Z.add_mod_idemp_l by done.
Qed.

Lemma xxWord_eq h w :
  u64 h → length w = 8%nat → xxWord h w = Ref.step8 h (le_value w).
Proof.
  intros Hh Hw. unfold xxWord. rewrite rotl_eq by (lia || auto with go_int).
  unfold Ref.step8, add64, mul64, wrap. rewrite xxRound_eq, LittleEndian_Uint64_value by done.
  by rewrite Z.add_mod_idemp_l by done.
Qed.

Lemma xxHalfWord_eq h w :
  u64 h → length w = 4%nat → xxHalfWord h w = Ref.step4 h (le_value w).
Proof.
  intros Hh Hw. unfold xxHalfWord. rewrite rotl_eq by (lia || auto with go_int).
  unfold Ref.step4, add64, mul64, wrap. rewrite LittleEndian_Uint32_value by done.
  by rewrite Z.add_mod_idemp_l by done.
Qed.

Lemma xxByte_eq h b : u64 h → xxByte h b = Ref.step1 h b.
Proof.
  intros Hh. unfold xxByte. rewrite rotl_eq by (lia || auto with go_int). done.
Qed.

Lemma xxAvalanche_eq h : u64 h → xxAvalanche h = Ref.avalanche h.
Proof.
  intros Hh. unfold xxAvalanche, Ref.avalanche, mul64, wrap.
  rewrite !Z.shiftr_div_pow2 by lia. done.
Qed.

(** ** The loops *)

Lemma length_subslice b lo hi :
  (lo <= hi)%nat → (hi <= length b)%nat → length (subslice b lo hi) = (hi - lo)%nat.
Proof. intros. unfold subslice. rewrite length_take, length_drop. lia. Qed.

Lemma le_value_subslice b lo hi : le_value (subslice b lo hi) = Ref.word b lo (hi - lo).
Proof. done. Qed.

(** [xxStripes] exits with fewer than 32 bytes left, having consumed whole
    stripes and folded each lane over its words. *)
Definition lane_fold (data : bytes) (i : nat) (init : Z) (n : nat) : Z :=
  foldl (λ acc j, Ref.round acc (Ref.word (drop (32 * j) data) (8 * i) 8)) init (seq 0 n).

Lemma lane_fold_eq data i init : lane_fold data i init (length data / 32) = Ref.lane data i init.
Proof.
  unfold lane_fold, Ref.lane. apply (foldl_ext_in _ _ _ _ (λ _, True)); [done|].
  intros a j _ _. split; [done|]. unfold Ref.word. by rewrite drop_drop.
Qed.

Lemma xxStripe_lanes v r :
  32 <= len r →
  xxStripe v r = {| xx_v1 := Ref.round (xx_v1 v) (Ref.word r 0 8);
                    xx_v2 := Ref.round (xx_v2 v) (Ref.word r 8 8);
                    xx_v3 := Ref.round (xx_v3 v) (Ref.word r 16 8);
                    xx_v4 := Ref.round (xx_v4 v) (Ref.word r 24 8) |}.
Proof.
  intros Hr. unfold len in Hr. unfold xxStripe. rewrite !xxRound_eq.
  rewrite !LittleEndian_Uint64_value by (rewrite length_subslice; lia).
  by rewrite !le_value_subslice.
Qed.

Lemma xxStripes_spec r v :
  xxStripes r v =
  let n := (length r / 32)%nat in
  ({| xx_v1 := lane_fold r 0 (xx_v1 v) n; xx_v2 := lane_fold r 1 (xx_v2 v) n;
      xx_v3 := lane_fold r 2 (xx_v3 v) n; xx_v4 := lane_fold r 3 (xx_v4 v) n |},
   drop (32 * n) r).
Proof.
  funelim (xxStripes r v); cbv zeta.
  - match goal with IH : xxStripes _ _ = (_, _) |- _ => rewrite IH end.
    assert (32 <= length remaining)%nat as Hl by (unfold len in *; lia).
    cbv zeta. rewrite (div_step 32 (length remaining)) by lia.
    rewrite length_drop, (xxStripe_lanes v) by done. cbn [xx_v1 xx_v2 xx_v3 xx_v4].
    unfold lane_fold.
    rewrite !(foldl_chunks_S (λ acc d, Ref.round acc (Ref.word d _ 8)) 32).
    f_equal. rewrite drop_drop. f_equal. lia.
  - assert (length remaining < 32)%nat by (unfold len in *; lia).
    rewrite Nat.div_small by done. destruct v. done.
Qed.

Lemma xxWords_spec r h :
  u64 h →
  xxWords r h =
  (foldl (λ acc j, Ref.step8 acc (Ref.word r (8 * j) 8)) h (seq 0 (length r / 8)),
   drop (8 * (length r / 8)) r).
Proof.
  funelim (xxWords r h); intros Hh.
  - match goal with IH : u64 _ → xxWords _ _ = _ |- _ => rewrite IH by auto with go_int end.
    assert (8 <= length remaining)%nat as Hl by (unfold len in *; lia).
    rewrite (div_step 8 (length remaining)), length_drop by lia.
    rewrite xxWord_eq by (done || rewrite length_subslice; lia).
    rewrite le_value_subslice. f_equal.
    + symmetry. unfold Ref.word. rewrite drop_0.
      apply (foldl_chunks_S (λ acc d, Ref.step8 acc (le_value (take 8 d))) 8).
    + rewrite drop_drop. f_equal. lia.
  - assert (length remaining < 8)%nat by (unfold len in *; lia).
    by rewrite Nat.div_small by done.
Qed.

Lemma xxWords_u64 r h : u64 h → u64 (xxWords r h).1.
Proof. funelim (xxWords r h); auto with go_int. Qed.

Lemma foldl_xxByte_u64 r h : u64 h → u64 (foldl xxByte h r).
Proof. revert h. induction r; simpl; auto with go_int. Qed.

Lemma foldl_xxByte_eq r h : u64 h → foldl xxByte h r = foldl Ref.step1 h r.
Proof.
  revert h. induction r as [|b r IH]; intros h Hh; [done|]. simpl.
  rewrite IH by auto with go_int. by rewrite xxByte_eq.
Qed.

Lemma xxTail_eq h r : u64 h → xxTail h r = Ref.consume r h.
Proof.
  intros Hh. unfold xxTail, Ref.consume.
  pose proof (xxWords_u64 r h Hh) as Hu. rewrite xxWords_spec in * by done.
  cbn [fst] in Hu. cbv zeta. set (acc := foldl _ h _) in *.
  assert (len (drop (8 * (length r / 8)) r) = Z.of_nat (length r `mod` 8)) as Hlen.
  { unfold len. rewrite length_drop. pose proof (Nat.div_mod_eq (length r) 8). lia. }
  rewrite Hlen.
  pose proof (Nat.div_mod_eq (length r) 8). pose proof (Nat.mod_upper_bound (length r) 8 ltac:(lia)).
  pose proof (Nat.div_mod_eq (length r) 4). pose proof (Nat.mod_upper_bound (length r) 4 ltac:(lia)).
  destruct (Z.leb_spec 4 (Z.of_nat (length r `mod` 8))); case_decide; try lia.
  - assert (4 <= length (drop (8 * (length r / 8)) r))%nat by (unfold len in Hlen; lia).
    rewrite foldl_xxByte_eq by auto with go_int.
    rewrite xxHalfWord_eq by (done || rewrite length_subslice; lia).
    rewrite le_value_subslice, drop_drop. unfold Ref.word at 1. rewrite drop_0.
    unfold Ref.word. f_equal. f_equal. lia.
  - rewrite foldl_xxByte_eq by done. f_equal. f_equal. lia.
Qed.

Lemma lane_u64 data i init : u64 init → u64 (Ref.lane data i init).
Proof.
  intros Hi. unfold Ref.lane. revert init Hi.
  induction (seq 0 (length data / 32)) as [|j js IH]; intros init Hi; [done|].
  cbn [foldl]. apply IH. rewrite <- xxRound_eq. auto with go_int.
Qed.

Lemma add64_add64 a b c : a +% b +% c = (a + b + c) mod 2 ^ 64.
Proof. unfold add64, wrap. by rewrite Z.add_mod_idemp_l by lia. Qed.

Lemma xxMerge_eq v :
  u64 (xx_v1 v) → u64 (xx_v2 v) → u64 (xx_v3 v) → u64 (xx_v4 v) →
  xxMerge v =
  Ref.merge (Ref.merge (Ref.merge (Ref.merge
    ((Ref.rotl (xx_v1 v) 1 + Ref.rotl (xx_v2 v) 7 + Ref.rotl (xx_v3 v) 12 +
      Ref.rotl (xx_v4 v) 18) mod Ref.M) (xx_v1 v)) (xx_v2 v)) (xx_v3 v)) (xx_v4 v).
Proof.
  intros. unfold xxMerge. rewrite !xxMergeRound_eq, !rotl_eq by (done || lia).
  rewrite add64_add64. unfold add64, wrap.
  rewrite <- (Z.add_assoc (_ mod _)), Z.add_mod_idemp_l, Z.add_assoc by lia. done.
Qed.

Lemma xxHead_eq data seed :
  u64 seed →
  xxHead data seed = (Ref.converge data seed, drop (32 * (length data / 32)) data).
Proof.
  intros Hs. unfold xxHead, Ref.converge.
  destruct (Z.leb_spec 32 (len data)); case_decide; unfold len in *; try lia.
  - rewrite xxStripes_spec. cbv zeta. cbn [xxInit xx_v1 xx_v2 xx_v3 xx_v4].
    rewrite !lane_fold_eq, xxMerge_eq by (apply lane_u64; auto with go_int).
    cbn [xx_v1 xx_v2 xx_v3 xx_v4]. by rewrite add64_add64.
  - by rewrite Nat.div_small by lia.
Qed.

Lemma xxTail_u64 (h : Z) (r : bytes) : u64 h → u64 (xxTail h r).
Proof.
  intros Hh. unfold xxTail. pose proof (xxWords_u64 r h Hh) as Hw.
  destruct (xxWords r h) as [h' r']. cbn [fst] in Hw.
  destruct (4 <=? len r'); apply foldl_xxByte_u64; auto with go_int.
Qed.

Lemma xxAvalanche_u64 h : u64 h → u64 (xxAvalanche h).
Proof. intros. unfold xxAvalanche. auto 10 with go_int. Qed.

Lemma xxHash64_u64 data seed : u64 (xxHash64 data seed).
Proof.
  unfold xxHash64. destruct (xxHead data seed) as [h r].
  apply xxAvalanche_u64, xxTail_u64. auto with go_int.
Qed.
#[export] Hint Resolve xxHash64_u64 : go_int.

Lemma xxHash64_is_xxh64' data seed : u64 seed → xxHash64 data seed = Ref.xxh64 data seed.
Proof.
  intros Hs. unfold xxHash64, Ref.xxh64. rewrite xxHead_eq by done.
  rewrite <- xxTail_eq by (apply Z.mod_pos_bound; done).
  rewrite <- xxAvalanche_eq by (apply xxTail_u64, Z.mod_pos_bound; done).
  unfold add64, wrap, to_uint64, wrap, len, Ref.M.
  by rewrite Z.add_mod_idemp_r by lia.
Qed.

(** ** Properties of the hash *)

(** C14. The loops of [xxHash64] compute the published XXH64 function: for
    every input and every 64-bit seed the result is that of the reference,
    which reads the lanes and the tail at absolute offsets. *)
Theorem xxHash64_is_xxh64 (data : bytes) (seed : Z) :
  u64 seed → xxHash64 data seed = Ref.xxh64 data seed.
Proof.
  apply xxHash64_is_xxh64'.
Qed.

Lemma xxHash64_is_xxh64_witness :
  u64 partitionSeed ∧
  xxHash64 (string_bytes "abc") partitionSeed = Ref.xxh64 (string_bytes "abc") partitionSeed.
Proof.
  split; [by vm_compute | apply (xxHash64_is_xxh64 (string_bytes "abc")); by vm_compute].
Defined.

(** ** No collision between keys that differ in one unit

    Below 32 bytes the hash consumes its input in units: whole 8-byte words,
    then one 4-byte half word, then single bytes.  Every step is a bijection
    of the 64-bit state for a fixed unit, and injective in the unit for a
    fixed state. *)

(** Multiplicative inverses of the primes modulo [2^64]. *)
Definition inv1 : Z := 614540362697595703.
Definition inv2 : Z := 839798700976720815.
Definition inv3 : Z := 16855272203555305545.
Definition inv5 : Z := 14236653164957433613.

Lemma inverses :
  wrap 64 (xxPrime1 * inv1) = 1 ∧ wrap 64 (xxPrime2 * inv2) = 1 ∧
  wrap 64 (xxPrime3 * inv3) = 1 ∧ wrap 64 (xxPrime5 * inv5) = 1.
Proof. done. Qed.

(** Peels one invertible operation off both sides of an equation. *)
Ltac peel_step H :=
  first
    [ apply add64_inj_l in H; [|solve [auto with go_int]..]
    | apply (mul64_inj _ inv1) in H; [|done|solve [auto with go_int]..]
    | apply (mul64_inj _ inv2) in H; [|done|solve [auto with go_int]..]
    | apply (mul64_inj _ inv3) in H; [|done|solve [auto with go_int]..]
    | apply (mul64_inj _ inv5) in H; [|done|solve [auto with go_int]..]
    | apply RotateLeft64_inj in H; [|lia|solve [auto with go_int]..]
    | apply lxor_inj_r in H
    | apply xorshift_inj in H; [|lia|solve [auto 8 with go_int]..]
    | apply lxor_inj_l in H
    | apply add64_inj_r in H; [|solve [auto with go_int]..] ].
Ltac peel H := repeat (peel_step H).

Lemma xxRound_inj acc v w : u64 v → u64 w → xxRound acc v = xxRound acc w → v = w.
Proof. intros Hv Hw H. unfold xxRound in H. peel H. done. Qed.

Lemma xxWord_inj_state w h1 h2 : u64 h1 → u64 h2 → xxWord h1 w = xxWord h2 w → h1 = h2.
Proof. intros H1 H2 H. unfold xxWord in H. peel H. done. Qed.

Lemma le_value_u64 w : (length w <= 8)%nat → u64 (le_value w).
Proof.
  intros Hw. pose proof (le_value_range w) as Hr. unfold u64, len in *.
  assert (256 ^ Z.of_nat (length w) <= 256 ^ 8) by (apply Z.pow_le_mono_r; lia). lia.
Qed.

Lemma xxWord_inj_word h w1 w2 :
  u64 h → length w1 = 8%nat → length w2 = 8%nat → xxWord h w1 = xxWord h w2 → w1 = w2.
Proof.
  intros Hh H1 H2 H. unfold xxWord in H.
  rewrite !LittleEndian_Uint64_value in H by done.
  do 3 peel_step H. apply lxor_inj_l in H.
  apply xxRound_inj in H; [|apply le_value_u64; lia..].
  apply le_value_inj; [congruence|done].
Qed.

Lemma xxHalfWord_inj_state w h1 h2 :
  u64 h1 → u64 h2 → xxHalfWord h1 w = xxHalfWord h2 w → h1 = h2.
Proof. intros H1 H2 H. unfold xxHalfWord in H. peel H. done. Qed.

Lemma xxHalfWord_inj_word h w1 w2 :
  u64 h → length w1 = 4%nat → length w2 = 4%nat →
  xxHalfWord h w1 = xxHalfWord h w2 → w1 = w2.
Proof.
  intros Hh H1 H2 H. unfold xxHalfWord in H.
  rewrite !LittleEndian_Uint32_value in H by done.
  do 3 peel_step H. apply lxor_inj_l in H.
  apply (mul64_inj _ inv1) in H; [|done|apply le_value_u64; lia..].
  apply le_value_inj; [congruence|done].
Qed.

Lemma xxByte_inj_state b h1 h2 : u64 h1 → u64 h2 → xxByte h1 b = xxByte h2 b → h1 = h2.
Proof. intros H1 H2 H. unfold xxByte in H. peel H. done. Qed.

Lemma xxByte_inj_byte h b c : u64 h → xxByte h b = xxByte h c → b = c.
Proof.
  intros Hh H. unfold xxByte in H. do 2 peel_step H. apply lxor_inj_l in H.
  apply (mul64_inj _ inv5) in H; [|done|apply byte_Z_u64..]. by apply byte_Z_inj.
Qed.

Lemma xxAvalanche_inj h1 h2 : u64 h1 → u64 h2 → xxAvalanche h1 = xxAvalanche h2 → h1 = h2.
Proof. intros H1 H2 H. unfold xxAvalanche in H. peel H. done. Qed.

Lemma foldl_xxByte_inj r h1 h2 :
  u64 h1 → u64 h2 → foldl xxByte h1 r = foldl xxByte h2 r → h1 = h2.
Proof.
  revert h1 h2. induction r as [|b r IH]; intros h1 h2 H1 H2 H; [done|]. simpl in H.
  apply IH in H; [|auto with go_int..]. by apply xxByte_inj_state in H.
Qed.

(** *** The tail as a fold over units *)

Lemma xxTail_word h w r :
  length w = 8%nat → xxTail h (w ++ r) = xxTail (xxWord h w) r.
Proof.
  intros Hw. unfold xxTail. rewrite (xxWords_equation_1 (w ++ r)). unfold xxWords_unfold_clause_1.
  destruct (Z_le_dec 8 (len (w ++ r))) as [Hl|Hl].
  - unfold subslice. by rewrite drop_app_length', drop_0, take_app_length' by done.
  - exfalso. apply Hl. rewrite len_app. pose proof (len_nonneg r). unfold len in *. lia.
Qed.

(** With fewer than 8 bytes left the word loop is over. *)
Lemma xxTail_short h r :
  len r < 8 →
  xxTail h r = if 4 <=? len r
               then foldl xxByte (xxHalfWord h (take 4 r)) (drop 4 r)
               else foldl xxByte h r.
Proof.
  intros Hr. unfold xxTail. rewrite xxWords_equation_1. unfold xxWords_unfold_clause_1.
  destruct (Z_le_dec 8 (len r)); [lia|]. unfold subslice. rewrite drop_0.
  by destruct (4 <=? len r).
Qed.

Lemma take_drop_8 (r : bytes) :
  8 <= len r → r = take 8 r ++ drop 8 r ∧ length (take 8 r) = 8%nat.
Proof.
  intros H. rewrite take_drop, length_take. unfold len in H. split; [done|lia].
Qed.

Lemma xxTail_inj r h1 h2 : u64 h1 → u64 h2 → xxTail h1 r = xxTail h2 r → h1 = h2.
Proof.
  revert h1 h2. induction r as [r IH] using (induction_ltof1 _ (@length byte)).
  unfold ltof in IH. intros h1 h2 H1 H2 H.
  destruct (Z_lt_le_dec (len r) 8) as [Hs|Hs].
  - rewrite !xxTail_short in H by done. destruct (4 <=? len r).
    + apply foldl_xxByte_inj in H; [|auto with go_int..]. by apply xxHalfWord_inj_state in H.
    + by apply foldl_xxByte_inj in H.
  - destruct (take_drop_8 r Hs) as [Hr Hw]. rewrite Hr, !xxTail_word in H by done.
    apply IH in H; [|rewrite length_drop; unfold len in Hs; lia|auto with go_int..].
    by apply xxWord_inj_state in H.
Qed.

(** A prefix of whole words only changes the state. *)
Lemma xxTail_words (p : bytes) (n : nat) h :
  length p = (8 * n)%nat → u64 h →
  ∃ h', u64 h' ∧ ∀ r, xxTail h (p ++ r) = xxTail h' r.
Proof.
  revert p h. induction n as [|n IH]; intros p h Hp Hh.
  - destruct p; [|discriminate]. eauto.
  - assert (8 <= len p) as Hl by (unfold len; lia).
    destruct (take_drop_8 p Hl) as [Hr Hw].
    destruct (IH (drop 8 p) (xxWord h (take 8 p))) as (h' & Hh' & Heq);
      [rewrite length_drop; lia|auto with go_int|].
    exists h'. split; [done|]. intros r. rewrite Hr, <- app_assoc, xxTail_word by done.
    apply Heq.
Qed.

(** [w] is read as one unit in [p ++ w ++ s]. *)
Definition one_unit (p w s : bytes) : Prop :=
  (length w = 8%nat ∧ (length p `mod` 8 = 0)%nat) ∨
  (length w = 4%nat ∧ (length p `mod` 8 = 0)%nat ∧ (length s < 4)%nat) ∨
  (length w = 1%nat ∧
   (4 * ((length p + length w + length s) / 4) <= length p)%nat).

Lemma split_words (p : bytes) :
  ∃ q t, p = q ++ t ∧ length q = (8 * (length p / 8))%nat ∧ length t = (length p `mod` 8)%nat.
Proof.
  exists (take (8 * (length p / 8)) p), (drop (8 * (length p / 8)) p).
  rewrite take_drop, length_take, length_drop.
  pose proof (Nat.div_mod_eq (length p) 8). repeat split; lia.
Qed.

Lemma foldl_xxByte_unit_inj t b c s h :
  u64 h → foldl xxByte h (t ++ b :: s) = foldl xxByte h (t ++ c :: s) → b = c.
Proof.
  intros Hh H. rewrite !foldl_app in H. simpl in H.
  pose proof (foldl_xxByte_u64 t h Hh).
  apply foldl_xxByte_inj in H; [|auto with go_int..]. by apply xxByte_inj_byte in H.
Qed.

(** A byte after the half word, if there is one, is read by the byte loop. *)
Lemma xxTail_byte_inj h t b c s :
  u64 h → (length t < 8)%nat → (length t `mod` 4 + 1 + length s < 4)%nat →
  xxTail h (t ++ b :: s) = xxTail h (t ++ c :: s) → b = c.
Proof.
  intros Hh Ht Hs H.
  pose proof (Nat.div_mod_eq (length t) 4).
  assert (∀ x, len (t ++ x :: s) = len t + 1 + len s) as Hl
    by (intros; rewrite len_app, len_cons; lia).
  rewrite !xxTail_short, !Hl in H by (rewrite Hl; unfold len; lia).
  destruct (Z.leb_spec 4 (len t + 1 + len s)); [|by apply foldl_xxByte_unit_inj in H].
  assert (4 <= length t)%nat by (unfold len in *; lia).
  rewrite !take_app_le, !drop_app_le in H by lia.
  apply foldl_xxByte_unit_inj in H; auto with go_int.
Qed.

Lemma xxTail_unit_inj h p w1 w2 s :
  u64 h → length w1 = length w2 → one_unit p w1 s →
  xxTail h (p ++ w1 ++ s) = xxTail h (p ++ w2 ++ s) → w1 = w2.
Proof.
  intros Hh Hlen Hunit H.
  destruct (split_words p) as (q & t & Hp & Hq & Ht). rewrite Hp in H.
  rewrite <- !app_assoc in H.
  destruct (xxTail_words q (length p / 8) h Hq Hh) as (h' & Hh' & Hw).
  rewrite !Hw in H. clear Hw.
  pose proof (Nat.div_mod_eq (length p) 8).
  destruct Hunit as [[H8 Hm]|[(H4 & Hm & Hs)|[H1 Hpos]]].
  - rewrite Hm in Ht. destruct t; [|discriminate]. cbn [app] in H.
    rewrite !xxTail_word in H by congruence.
    apply xxTail_inj in H; [|auto with go_int..]. apply xxWord_inj_word in H; congruence.
  - rewrite Hm in Ht. destruct t; [|discriminate]. cbn [app] in H.
    rewrite !xxTail_short in H by (rewrite len_app; unfold len; lia).
    destruct (Z.leb_spec 4 (len (w1 ++ s))), (Z.leb_spec 4 (len (w2 ++ s)));
      try (rewrite len_app in *; unfold len in *; lia).
    rewrite !take_app_length', !drop_app_length' in H by congruence.
    apply foldl_xxByte_inj in H; [|auto with go_int..]. apply xxHalfWord_inj_word in H; congruence.
  - destruct w1 as [|b [|]], w2 as [|c [|]]; try discriminate. cbn [app length] in *.
    f_equal. apply xxTail_byte_inj in H; [done|done| |].
    + rewrite Ht. apply Nat.mod_upper_bound. lia.
    + rewrite Ht.
      pose proof (Nat.div_mod_eq (length p `mod` 8) 4).
      pose proof (Nat.mod_upper_bound (length p `mod` 8) 4 ltac:(lia)).
      pose proof (Nat.div_mod_eq (length p + 1 + length s) 4).
      pose proof (Nat.mod_upper_bound (length p + 1 + length s) 4 ltac:(lia)). lia.
Qed.

(** C38. Keys of the same length below 32 bytes that differ in a single unit
    (an aligned 8-byte word, the 4-byte half word, or one of the trailing
    bytes) never collide under [xxHash64]; in particular the hash is
    injective on 8-byte keys and on 4-byte keys. *)
Theorem xxHash64_unit_injective (p w1 w2 s : bytes) (seed : Z) :
  u64 seed → length w1 = length w2 → one_unit p w1 s →
  (length p + length w1 + length s < 32)%nat → w1 ≠ w2 →
  xxHash64 (p ++ w1 ++ s) seed ≠ xxHash64 (p ++ w2 ++ s) seed.
Proof.
  intros Hseed Hlen Hunit Hshort Hne H. apply Hne.
  assert (∀ w, length w = length w1 → xxHash64 (p ++ w ++ s) seed =
    xxAvalanche (xxTail (seed +% xxPrime5 +% to_uint64 (len p + len w1 + len s)) (p ++ w ++ s)))
    as Heq.
  { intros w Hw. unfold xxHash64, xxHead. rewrite !len_app.
    destruct (Z.leb_spec 32 (len p + (len w + len s))); [unfold len in *; lia|].
    do 4 f_equal. unfold len. lia. }
  rewrite !Heq in H by congruence.
  apply xxAvalanche_inj in H; [|apply xxTail_u64; auto with go_int..].
  by apply xxTail_unit_inj in H; [|auto with go_int|..].
Qed.

Lemma xxHash64_unit_injective_witness :
  xxHash64 (string_bytes "tenants/" ++ string_bytes "1" ++ string_bytes "") partitionSeed ≠
  xxHash64 (string_bytes "tenants/" ++ string_bytes "2" ++ string_bytes "") partitionSeed.
Proof.
  apply xxHash64_unit_injective; [by vm_compute|done|right; right; split; [done|]|simpl; lia|done].
  vm_compute. lia.
Defined.

(** ** Routing *)

(** testdata/partition_vectors.json: key bytes, partition count, partition. *)
Definition partition_vectors : list (bytes * Z * Z) :=
  let asc := map to_byte (seqZ 0 32) in
  let desc := map (λ i, to_byte (255 - i)) (seqZ 0 32) in
  let gossipcache := string_bytes "gossipcache" in
  let hello := string_bytes "hello" ++ [x00] ++ string_bytes "world" in
  [([], 1, 0); ([], 16, 7); (string_bytes "a", 2, 0); (string_bytes "a", 257, 232);
   (gossipcache, 3, 2); (gossipcache, 16, 2); (hello, 16, 13); (hello, 257, 16);
   (asc, 16, 12); (asc, 257, 13); (desc, 16, 9); (desc, 257, 183)].

(** [PartitionOf] reproduces every frozen vector of
    testdata/partition_vectors.json. *)
Lemma PartitionOf_golden_vectors :
  Forall (λ '(key, count, id), PartitionOf key count = Returns id) partition_vectors.
Proof. repeat constructor. Qed.

(** [PartitionOf] panics exactly when the partition count is zero;
    otherwise it returns a partition in range, the reference hash of the key
    modulo the count, so that every process routes a key alike. *)
Lemma PartitionOf_total (key : bytes) (partitionCount : Z) :
  u32 partitionCount →
  (partitionCount = 0 → PartitionOf key partitionCount = Panics ErrInvalidPartitionCount) ∧
  (partitionCount ≠ 0 →
   PartitionOf key partitionCount =
     Returns (Ref.xxh64 key partitionSeed mod partitionCount) ∧
   0 <= Ref.xxh64 key partitionSeed mod partitionCount < partitionCount).
Proof.
  intros Hc. unfold PartitionOf, validatePartitionCount.
  destruct (Z.eqb_spec partitionCount 0) as [->|Hne]; split; try done; intros _.
  rewrite <- xxHash64_is_xxh64' by done.
  rewrite to_uint64_id by solve_int.
  pose proof (Z.mod_pos_bound (xxHash64 key partitionSeed) partitionCount) as Hm.
  rewrite to_uint32_id by (unfold u32 in *; lia). unfold u32 in *. split; [done|lia].
Qed.

Lemma PartitionOf_total_witness :
  PartitionOf (string_bytes "a") 257 = Returns 232 ∧
  PartitionOf (string_bytes "a") 0 = Panics ErrInvalidPartitionCount.
Proof.
  split.
  - destruct (proj2 (PartitionOf_total (string_bytes "a") 257 ltac:(done)) ltac:(done)) as [-> _].
    by vm_compute.
  - apply (proj1 (PartitionOf_total (string_bytes "a") 0 ltac:(done))). done.
Defined.
