(* ===== verification/PartitionSteps.v ===== *)
(** * The loops of the partition hash as a machine (internal/wire/partition.go)

    [Partition] models the loops of [xxHash64] as functions.  Here the same
    code is a machine whose configurations are the heads of its three loops;
    a step runs one iteration, or leaves the loop and runs the straight code
    up to the next one.  The machine is proved to stop with the value of the
    function, within an explicit number of iterations. *)

From Equations Require Import Equations.
From stdpp Require Import relations.
From S2P Require Import Prelude GoErrors GoStd Partition.

Local Open Scope go_scope.

Inductive xxConfig :=
| AtStripes (v : xxState) (remaining : bytes)
| AtWords (hash : Z) (remaining : bytes)
| AtBytes (hash : Z) (remaining : bytes)
| Hashed (hash : Z).

(** From the entry of [xxHash64] to its first loop head. *)
Definition xxEnter (data : bytes) (seed : Z) : xxConfig :=
  if 32 <=? len data then AtStripes (xxInit seed) data
  else AtWords (seed +% xxPrime5 +% to_uint64 (len data)) data.

Definition xxNext (data : bytes) (c : xxConfig) : option xxConfig :=
  match c with
  | AtStripes v remaining =>
      Some (if 32 <=? len remaining
            then AtStripes (xxStripe v remaining) (drop 32 remaining)
            else AtWords (xxMerge v +% to_uint64 (len data)) remaining)
  | AtWords hash remaining =>
      Some (if 8 <=? len remaining
            then AtWords (xxWord hash (subslice remaining 0 8)) (drop 8 remaining)
            else if 4 <=? len remaining
            then AtBytes (xxHalfWord hash (subslice remaining 0 4)) (drop 4 remaining)
            else AtBytes hash remaining)
  | AtBytes hash (b :: remaining) => Some (AtBytes (xxByte hash b) remaining)
  | AtBytes hash [] => Some (Hashed (xxAvalanche hash))
  | Hashed _ => None
  end.

(** [xxSteps data] is the step relation of the machine hashing [data]. *)
Definition xxSteps (data : bytes) (c c' : xxConfig) : Prop := xxNext data c = Some c'.

(** What is left to read, and how many loops. *)
Definition xxMeasure (c : xxConfig) : nat :=
  match c with
  | AtStripes _ remaining => length remaining + 3
  | AtWords _ remaining => length remaining + 2
  | AtBytes _ remaining => length remaining + 1
  | Hashed _ => 0
  end.

Lemma xxSteps_measure data c c' : xxSteps data c c' → (xxMeasure c' < xxMeasure c)%nat.
Proof.
  unfold xxSteps. destruct c as [v r|h r|h [|b r]|h]; cbn [xxNext]; intros [= <-].
  - case_if; cbn; rewrite ?length_drop; unfold len in *; lia.
  - repeat case_if; cbn; rewrite ?length_drop; unfold len in *; lia.
  - cbn. lia.
  - cbn. lia.
Qed.

Lemma xxSteps_terminates data c : sn (xxSteps data) c.
Proof.
  induction (Wf_nat.well_founded_ltof _ xxMeasure c) as [c _ IH].
  constructor. intros c' Hc. apply IH, (xxSteps_measure data), Hc.
Qed.

(** The machine is deterministic, so all its executions are prefixes of one. *)
Lemma xxSteps_final data c h c' :
  rtc (xxSteps data) c (Hashed h) → rtc (xxSteps data) c c' → nf (xxSteps data) c' →
  c' = Hashed h.
Proof.
  intros Hh. revert c'. remember (Hashed h) as d eqn:Ed. induction Hh as [|x y z Hxy _ IH]; subst.
  - intros c' Hc _. inversion Hc as [|? y ? Hy]; subst; [done|discriminate Hy].
  - intros c' Hc Hnf. inversion Hc as [|? y' ? Hy' Hc']; subst.
    + destruct Hnf. by exists y.
    + unfold xxSteps in *. replace y' with y in Hc' by congruence. by apply IH.
Qed.

(** ** The loops *)

Lemma xxStripes_run data remaining v :
  ∃ n, let '(v', rest) := xxStripes remaining v in
    nsteps (xxSteps data) n (AtStripes v remaining) (AtStripes v' rest) ∧
    (length remaining = 32 * n + length rest)%nat ∧ (length rest < 32)%nat.
Proof.
  funelim (xxStripes remaining v).
  - destruct (H data) as (n & Hn). exists (S n).
    destruct (xxStripes _ _) as [v' rest]. destruct Hn as (Hn & Hl & Hr).
    rewrite length_drop in Hl. unfold len in *. split_and!; [|lia|done].
    econstructor; [|exact Hn]. unfold xxSteps. cbn [xxNext].
    destruct (Z.leb_spec 32 (len remaining)); [done|unfold len in *; lia].
  - exists 0%nat. unfold len in *. split_and!; [constructor|lia..].
Qed.

Lemma xxWords_run data remaining hash :
  ∃ n, let '(hash', rest) := xxWords remaining hash in
    nsteps (xxSteps data) n (AtWords hash remaining) (AtWords hash' rest) ∧
    (length remaining = 8 * n + length rest)%nat ∧ (length rest < 8)%nat.
Proof.
  funelim (xxWords remaining hash).
  - destruct (H data) as (n & Hn). exists (S n).
    destruct (xxWords _ _) as [h' rest]. destruct Hn as (Hn & Hl & Hr).
    rewrite length_drop in Hl. unfold len in *. split_and!; [|lia|done].
    econstructor; [|exact Hn]. unfold xxSteps. cbn [xxNext].
    destruct (Z.leb_spec 8 (len remaining)); [done|unfold len in *; lia].
  - exists 0%nat. unfold len in *. split_and!; [constructor|lia..].
Qed.

Lemma xxBytes_run data remaining hash :
  nsteps (xxSteps data) (S (length remaining)) (AtBytes hash remaining)
    (Hashed (xxAvalanche (foldl xxByte hash remaining))).
Proof.
  revert hash. induction remaining as [|b r IH]; intros hash; cbn [length foldl].
  - econstructor; [done|constructor].
  - econstructor; [done|apply IH].
Qed.

(** The half word and the bytes: at most 3 bytes are left after it. *)
Lemma xxTail_run data remaining hash :
  ∃ n, (n <= length remaining / 8 + 5)%nat ∧
    nsteps (xxSteps data) n (AtWords hash remaining) (Hashed (xxAvalanche (xxTail hash remaining))).
Proof.
  destruct (xxWords_run data remaining hash) as [n Hn]. unfold xxTail.
  destruct (xxWords remaining hash) as [h rest]. destruct Hn as (Hn & Hl & Hr).
  assert (n = length remaining / 8)%nat as Hdiv.
  { apply (Nat.div_unique _ _ _ (length rest)); lia. }
  assert (xxNext data (AtWords h rest) = Some (if 4 <=? len rest
    then AtBytes (xxHalfWord h (subslice rest 0 4)) (drop 4 rest) else AtBytes h rest)) as Hnext.
  { cbn [xxNext]. destruct (Z.leb_spec 8 (len rest)); [unfold len in *; lia|done]. }
  destruct (Z.leb_spec 4 (len rest)).
  - exists (n + S (S (length (drop 4 rest))))%nat. rewrite length_drop.
    split; [unfold len in *; lia|].
    eapply nsteps_trans; [done|]. econstructor; [exact Hnext|]. rewrite <- length_drop.
    apply xxBytes_run.
  - exists (n + S (S (length rest)))%nat. split; [unfold len in *; lia|].
    eapply nsteps_trans; [done|]. econstructor; [exact Hnext|]. apply xxBytes_run.
Qed.

Lemma xxHash64_run data seed :
  ∃ n, (n <= length data / 32 + 9)%nat ∧
    nsteps (xxSteps data) n (xxEnter data seed) (Hashed (xxHash64 data seed)).
Proof.
  unfold xxEnter, xxHash64, xxHead. destruct (Z.leb_spec 32 (len data)) as [Hge|Hlt].
  - destruct (xxStripes_run data data (xxInit seed)) as [n Hn].
    destruct (xxStripes data (xxInit seed)) as [v rest]. destruct Hn as (Hn & Hl & Hr).
    destruct (xxTail_run data rest (xxMerge v +% to_uint64 (len data))) as (m & Hm & Hrun).
    assert (n = length data / 32)%nat as Hdiv.
    { apply (Nat.div_unique _ _ _ (length rest)); lia. }
    assert (length rest / 8 < 4)%nat by (apply Nat.Div0.div_lt_upper_bound; lia).
    exists (n + S m)%nat. split; [lia|].
    eapply nsteps_trans; [done|]. econstructor; [|exact Hrun].
    unfold xxSteps. cbn [xxNext]. destruct (Z.leb_spec 32 (len rest)); [unfold len in *; lia|done].
  - destruct (xxTail_run data data (seed +% xxPrime5 +% to_uint64 (len data))) as (m & Hm & Hrun).
    assert (length data / 8 < 4)%nat
      by (apply Nat.Div0.div_lt_upper_bound; unfold len in *; lia).
    exists m. split; [lia|done].
Qed.

(** C26. Hashing terminates, in time linear in the key: from the entry of
    [xxHash64] every execution of its loops is finite, ends with the value
    that [xxHash64] is proved correct for, and takes at most one iteration
    per 32 bytes of input and nine more steps. *)
Theorem xxHash64_terminates (data : bytes) (seed : Z) :
  sn (xxSteps data) (xxEnter data seed) ∧
  (∀ c, rtc (xxSteps data) (xxEnter data seed) c → nf (xxSteps data) c →
     c = Hashed (xxHash64 data seed)) ∧
  ∃ n, (n <= length data / 32 + 9)%nat ∧
    nsteps (xxSteps data) n (xxEnter data seed) (Hashed (xxHash64 data seed)).
Proof.
  destruct (xxHash64_run data seed) as (n & Hn & Hrun).
  split_and!; [apply xxSteps_terminates| |by exists n].
  intros c Hc Hnf. eapply xxSteps_final; [|done..]. apply rtc_nsteps. by exists n.
Qed.
