(* ===== verification/WireStatus.v ===== *)
(** * Data-plane status codes (internal/wire/status.go) *)

From S2P Require Import Prelude GoErrors GoStd.

(** A [Status] is a [uint16]; every value of the type exists at run time. *)
Definition StatusOK : Z := 0.
Definition StatusNotFound : Z := 1.
Definition StatusNotCaughtUp : Z := 2.
Definition StatusErrDurabilityUnavailable : Z := 3.
Definition StatusErrBadGeneration : Z := 4.
Definition StatusErrRateLimited : Z := 5.
Definition StatusErrInvalidArgument : Z := 6.
Definition StatusErrWriteConfirmTimeout : Z := 7.
Definition StatusErrInternal : Z := 8.

Inductive StatusClass :=
| StatusClassSuccess
| StatusClassRetryable
| StatusClassTerminal.

#[export] Instance StatusClass_eq_dec : EqDecision StatusClass.
Proof. solve_decision. Defined.

Definition Status_Valid (s : Z) : bool := s <=? StatusErrInternal.

Definition Status_Class (s : Z) : StatusClass :=
  if (s =? StatusOK) || (s =? StatusNotFound) || (s =? StatusErrWriteConfirmTimeout)
  then StatusClassSuccess
  else if (s =? StatusNotCaughtUp) || (s =? StatusErrRateLimited)
  then StatusClassRetryable
  else StatusClassTerminal.

Definition Status_Retryable (s : Z) : bool :=
  bool_decide (Status_Class s = StatusClassRetryable).

Definition Status_Terminal (s : Z) : bool :=
  bool_decide (Status_Class s = StatusClassTerminal).

Definition Status_String (s : Z) : string :=
  if s =? StatusOK then "OK"
  else if s =? StatusNotFound then "NOT_FOUND"
  else if s =? StatusNotCaughtUp then "NOT_CAUGHT_UP"
  else if s =? StatusErrDurabilityUnavailable then "ERR_DURABILITY_UNAVAILABLE"
  else if s =? StatusErrBadGeneration then "ERR_BAD_GENERATION"
  else if s =? StatusErrRateLimited then "ERR_RATE_LIMITED"
  else if s =? StatusErrInvalidArgument then "ERR_INVALID_ARGUMENT"
  else if s =? StatusErrWriteConfirmTimeout then "ERR_WRITE_CONFIRM_TIMEOUT"
  else if s =? StatusErrInternal then "ERR_INTERNAL"
  else ("Status(" ++ FormatUint10 (to_uint64 s) ++ ")")%string.

(** Unfolds the status constants, the tags the integer solver must see. *)
Ltac unfold_status :=
  unfold StatusOK, StatusNotFound, StatusNotCaughtUp, StatusErrDurabilityUnavailable,
    StatusErrBadGeneration, StatusErrRateLimited, StatusErrInvalidArgument,
    StatusErrWriteConfirmTimeout, StatusErrInternal in *.

(** A valid status is one of the nine constants. *)
Lemma Status_Valid_cases s :
  u16 s → Status_Valid s = true →
  s = 0 ∨ s = 1 ∨ s = 2 ∨ s = 3 ∨ s = 4 ∨ s = 5 ∨ s = 6 ∨ s = 7 ∨ s = 8.
Proof. unfold Status_Valid, u16. unfold_status. lia. Qed.

(** The protocol spelling is injective on the whole of [uint16]: the nine
    names are distinct, and no unknown status is spelled like a known one or
    like another unknown one. *)
Lemma Status_String_injective (s t : Z) :
  u16 s → u16 t → s ≠ t → Status_String s ≠ Status_String t.
Proof.
  unfold u16. intros Hs Ht Hne H. apply Hne. unfold Status_String in H. unfold_status.
  rewrite !to_uint64_id in H by solve_int.
  repeat case_if; try lia; try discriminate.
  injection H as H. change (FormatUint10 s +:+ ")" = FormatUint10 t +:+ ")") in H.
  apply string_app_inj_r in H. apply FormatUint10_inj in H; lia.
Qed.

Lemma Status_String_injective_witness : Status_String 8 ≠ Status_String 9.
Proof. apply (Status_String_injective 8 9); done. Defined.

(** The frozen classification: success statuses complete the operation,
    retryable ones are exactly NOT_CAUGHT_UP and ERR_RATE_LIMITED, and every
    other code, the unknown ones included, is terminal; a status has exactly
    one class. *)
Lemma Status_Class_partition (s : Z) :
  (Status_Class s = StatusClassSuccess ↔
     s = StatusOK ∨ s = StatusNotFound ∨ s = StatusErrWriteConfirmTimeout) ∧
  (Status_Retryable s = true ↔ s = StatusNotCaughtUp ∨ s = StatusErrRateLimited) ∧
  (Status_Terminal s = true ↔
     s = StatusErrDurabilityUnavailable ∨ s = StatusErrBadGeneration ∨
     s = StatusErrInvalidArgument ∨ s = StatusErrInternal ∨ s < 0 ∨ StatusErrInternal < s) ∧
  (Status_Valid s = false → 0 <= s → Status_Terminal s = true).
Proof.
  unfold Status_Terminal, Status_Retryable, Status_Class, Status_Valid. rewrite !bool_decide_eq_true.
  unfold_status.
  repeat case_if; repeat split; intros; try discriminate; try done; lia.
Qed.
