(* ===== verification/WireProtocol.v ===== *)
(** * Protocol version negotiation (internal/wire/protocol.go) *)

From S2P Require Import Prelude GoErrors.

Local Open Scope go_scope.

(** A [ProtocolVersion] is a [uint16]. *)
Definition CurrentProtocolVersion : Z := 1.
Definition MinSupportedProtocolVersion : Z := 1.

Definition ErrInvalidProtocolRange : err :=
  New "wire.ErrInvalidProtocolRange" "invalid protocol version range".
Definition ErrIncompatibleProtocolRanges : err :=
  New "wire.ErrIncompatibleProtocolRanges" "protocol version ranges do not overlap".

Record ProtocolRange := mkProtocolRange { pr_Version : Z; pr_MinSupported : Z }.

#[export] Instance ProtocolRange_eq_dec : EqDecision ProtocolRange.
Proof. solve_decision. Defined.
#[export] Instance ProtocolRange_typed : GoTyped ProtocolRange :=
  λ r, u16 (pr_Version r) ∧ u16 (pr_MinSupported r).

Definition CurrentProtocolRange : ProtocolRange :=
  {| pr_Version := CurrentProtocolVersion;
     pr_MinSupported := MinSupportedProtocolVersion |}.

Definition ProtocolRange_Validate (r : ProtocolRange) : error :=
  if (pr_MinSupported r =? 0) || (pr_Version r =? 0) || (pr_MinSupported r >? pr_Version r)
  then Some (Wrapf "%w: min=%d version=%d" ErrInvalidProtocolRange
               [AInt (pr_MinSupported r); AInt (pr_Version r)])
  else None.

Definition ProtocolRange_Negotiate (r peer : ProtocolRange) : Z * error :=
  match ProtocolRange_Validate r with Some e => (0, Some e) | None =>
  match ProtocolRange_Validate peer with Some e => (0, Some e) | None =>
  let version := Z.min (pr_Version r) (pr_Version peer) in
  let minimum := Z.max (pr_MinSupported r) (pr_MinSupported peer) in
  if version <? minimum
  then (0, Some (Wrapf "%w: local=%d-%d peer=%d-%d" ErrIncompatibleProtocolRanges
                   [AInt (pr_MinSupported r); AInt (pr_Version r);
                    AInt (pr_MinSupported peer); AInt (pr_Version peer)]))
  else (version, None)
  end end.

(** [v] is a version the range accepts. *)
Definition speaks (r : ProtocolRange) (v : Z) : Prop :=
  pr_MinSupported r <= v <= pr_Version r.

Lemma ProtocolRange_Validate_ok r :
  go_typed r →
  ProtocolRange_Validate r = None ↔
  1 <= pr_MinSupported r ∧ pr_MinSupported r <= pr_Version r.
Proof.
  intros [H1 H2]. unfold ProtocolRange_Validate, u16 in *.
  case_if; split; intros; try done; lia.
Qed.

(** What a negotiation promises: the highest version both peers speak, or an
    error when a range is malformed or no version is shared. *)
Definition negotiate_spec (r peer : ProtocolRange) (res : Z * error) : Prop :=
  match res with
  | (v, None) =>
      speaks r v ∧ speaks peer v ∧ 1 <= v ∧ ∀ w, speaks r w → speaks peer w → w <= v
  | (v, Some e) =>
      v = 0 ∧
      ((errors_Is e ErrInvalidProtocolRange = true ∧
        (ProtocolRange_Validate r ≠ None ∨ ProtocolRange_Validate peer ≠ None)) ∨
       (errors_Is e ErrIncompatibleProtocolRanges = true ∧
        ¬ ∃ w, speaks r w ∧ speaks peer w))
  end.

(** Negotiation is symmetric in the selected version and in whether it fails. *)
Lemma ProtocolRange_Negotiate_symmetric (r peer : ProtocolRange) :
  (ProtocolRange_Negotiate r peer).1 = (ProtocolRange_Negotiate peer r).1 ∧
  ((ProtocolRange_Negotiate r peer).2 = None ↔ (ProtocolRange_Negotiate peer r).2 = None).
Proof.
  unfold ProtocolRange_Negotiate.
  rewrite (Z.min_comm (pr_Version peer)), (Z.max_comm (pr_MinSupported peer)).
  destruct (ProtocolRange_Validate r), (ProtocolRange_Validate peer); try done.
  cbv zeta. by case_if.
Qed.

(** C32. [Negotiate] refines its specification: on success it selects the
    highest version in both ranges, and it fails closed, with a zero version,
    exactly when a range is malformed or the ranges share no version.  Both
    peers reach the same outcome, whichever of them computes it. *)
Theorem ProtocolRange_Negotiate_spec (r peer : ProtocolRange) :
  go_typed r → go_typed peer →
  negotiate_spec r peer (ProtocolRange_Negotiate r peer) ∧
  (ProtocolRange_Negotiate r peer).1 = (ProtocolRange_Negotiate peer r).1 ∧
  ((ProtocolRange_Negotiate r peer).2 = None ↔ (ProtocolRange_Negotiate peer r).2 = None).
Proof.
  intros Hr Hp. split; [|apply ProtocolRange_Negotiate_symmetric]. unfold ProtocolRange_Negotiate.
  pose proof (ProtocolRange_Validate_ok r Hr) as Vr.
  pose proof (ProtocolRange_Validate_ok peer Hp) as Vp.
  destruct (ProtocolRange_Validate r) as [e|] eqn:Er.
  { split; [done|]. left. split; [|left; congruence].
    unfold ProtocolRange_Validate in Er. case_ifs. by injection Er as <-. }
  destruct (ProtocolRange_Validate peer) as [e|] eqn:Ep.
  { split; [done|]. left. split; [|right; congruence].
    unfold ProtocolRange_Validate in Ep. case_ifs. by injection Ep as <-. }
  destruct Vr as [Vr _], Vp as [Vp _]. specialize (Vr eq_refl). specialize (Vp eq_refl).
  cbv zeta. destruct (Z.ltb_spec (pr_Version r `min` pr_Version peer)
    (pr_MinSupported r `max` pr_MinSupported peer)); cbn [negotiate_spec]; unfold speaks.
  - split; [done|]. right. split; [done|]. intros (w & ? & ?). lia.
  - repeat split; lia.
Qed.

Lemma ProtocolRange_Negotiate_spec_witness :
  negotiate_spec (mkProtocolRange 5 2) (mkProtocolRange 7 4)
    (ProtocolRange_Negotiate (mkProtocolRange 5 2) (mkProtocolRange 7 4)).
Proof.
  apply (ProtocolRange_Negotiate_spec (mkProtocolRange 5 2) (mkProtocolRange 7 4)); by split.
Defined.
