(* ===== verification/WireTypes.v ===== *)
(** * Shared wire models (internal/wire/types.go)

    Version tags, mutation identities, write options and the bounded request
    models, with their validators. *)

From S2P Require Import Prelude GoErrors GoStd Partition.

Local Open Scope go_scope.

(** ** Limits *)
Definition MaxKeyLen : Z := 4 * 1024.
Definition MaxValueLen : Z := Z.shiftl 1 20.
Definition TTLNone : Z := 0.
Definition MaxWriteTimeoutMillis : Z := 4294967295. (* math.MaxUint32 *)

(** ** Sentinel errors *)
Definition ErrKeyEmpty : err := New "wire.ErrKeyEmpty" "key must not be empty".
Definition ErrKeyTooLarge : err := New "wire.ErrKeyTooLarge" "key exceeds maximum length".
Definition ErrValueTooLarge : err := New "wire.ErrValueTooLarge" "value exceeds maximum length".
Definition ErrMutationIDRequired : err :=
  New "wire.ErrMutationIDRequired" "mutation ID must not be zero".
Definition ErrInvalidWriteMode : err := New "wire.ErrInvalidWriteMode" "invalid write mode".
Definition ErrInvalidConfirmLevel : err :=
  New "wire.ErrInvalidConfirmLevel" "invalid confirmation level".
Definition ErrInvalidStorageProfile : err :=
  New "wire.ErrInvalidStorageProfile" "invalid storage profile".
Definition ErrPersistenceConfigRequired : err :=
  New "wire.ErrPersistenceConfigRequired" "durable storage requires persistence configuration".
Definition ErrInvalidWriteTimeout : err :=
  New "wire.ErrInvalidWriteTimeout" "write timeout must not be negative".
Definition ErrTimeoutNotWholeMillis : err :=
  New "wire.ErrTimeoutNotWholeMillis" "write timeout must be a whole number of milliseconds".
Definition ErrWriteTimeoutTooLarge : err :=
  New "wire.ErrWriteTimeoutTooLarge" "write timeout exceeds maximum representable milliseconds".
Definition ErrTTLNotWholeMilliseconds : err :=
  New "wire.ErrTTLNotWholeMilliseconds" "ttl must be a whole number of milliseconds".

(** ** VersionTag *)
Record VersionTag := mkVersionTag { vt_PartitionID : Z; vt_Sequence : Z }.

#[export] Instance VersionTag_eq_dec : EqDecision VersionTag.
Proof. solve_decision. Defined.
#[export] Instance VersionTag_typed : GoTyped VersionTag :=
  λ v, u32 (vt_PartitionID v) ∧ u64 (vt_Sequence v).

(** The zero value [VersionTag{}]. *)
Definition zero_VersionTag : VersionTag := {| vt_PartitionID := 0; vt_Sequence := 0 |}.

Definition VersionTag_IsZero (v : VersionTag) : bool := bool_decide (v = zero_VersionTag).

Definition VersionTag_IsNewer (v other : VersionTag) : bool :=
  (vt_PartitionID v =? vt_PartitionID other) && (vt_Sequence v >? vt_Sequence other).

(** ** RecordKind, WriteMode, StorageProfile, ConfirmLevel: [uint8] enumerations *)
Definition RecordValue : Z := 0.
Definition RecordTombstone : Z := 1.
Definition RecordKind_Valid (k : Z) : bool := (k =? RecordValue) || (k =? RecordTombstone).

Definition WriteFast : Z := 0.
Definition WriteSync : Z := 1.
Definition WriteMode_Valid (m : Z) : bool := (m =? WriteFast) || (m =? WriteSync).

Definition StorageMemory : Z := 0.
Definition StorageDurable : Z := 1.
Definition StorageProfile_Valid (p : Z) : bool := (p =? StorageMemory) || (p =? StorageDurable).

Definition StorageProfile_Validate (p : Z) (persistenceConfigured : bool) : error :=
  if negb (StorageProfile_Valid p)
  then Some (Wrapf "%w: %d" ErrInvalidStorageProfile [AInt p])
  else if (p =? StorageDurable) && negb persistenceConfigured
  then Some ErrPersistenceConfigRequired
  else None.

Definition ConfirmInvalidateApplied : Z := 0.
Definition ConfirmLevel_Valid (c : Z) : bool := c =? ConfirmInvalidateApplied.

(** ** MutationID: [[16]byte] *)
Abbreviation MutationID := (list byte).

Definition MutationID_typed (id : MutationID) : Prop := length id = 16%nat.

Definition NewMutationID (nodeEpoch counter : Z) : MutationID :=
  BigEndian_PutUint64 nodeEpoch ++ BigEndian_PutUint64 counter.

Definition MutationID_NodeEpoch (id : MutationID) : Z := BigEndian_Uint64 (take 8 id).
Definition MutationID_Counter (id : MutationID) : Z := BigEndian_Uint64 (drop 8 id).
Definition MutationID_IsZero (id : MutationID) : bool := bool_decide (id = zero_bytes 16).

(** ** WriteOptions *)
Record WriteOptions := mkWriteOptions {
  wo_W : Z; wo_Mode : Z; wo_ConfirmLevel : Z; wo_Timeout : Z }.

#[export] Instance WriteOptions_eq_dec : EqDecision WriteOptions.
Proof. solve_decision. Defined.
#[export] Instance WriteOptions_typed : GoTyped WriteOptions :=
  λ o, u16 (wo_W o) ∧ u8 (wo_Mode o) ∧ u8 (wo_ConfirmLevel o) ∧ i64 (wo_Timeout o).

(** [%] and [/] truncate toward zero. *)
Definition WriteOptions_Validate (o : WriteOptions) : error :=
  if negb (WriteMode_Valid (wo_Mode o))
  then Some (Wrapf "%w: %d" ErrInvalidWriteMode [AInt (wo_Mode o)])
  else if negb (ConfirmLevel_Valid (wo_ConfirmLevel o))
  then Some (Wrapf "%w: %d" ErrInvalidConfirmLevel [AInt (wo_ConfirmLevel o)])
  else if wo_Timeout o <? 0 then Some ErrInvalidWriteTimeout
  else if negb (Z.rem (wo_Timeout o) Millisecond =? 0) then Some ErrTimeoutNotWholeMillis
  else if Z.quot (wo_Timeout o) Millisecond >? MaxWriteTimeoutMillis
  then Some ErrWriteTimeoutTooLarge
  else None.

(** ** Requests *)
Definition validateKey (key : bytes) : error :=
  if len key =? 0 then Some ErrKeyEmpty
  else if len key >? MaxKeyLen
  then Some (Wrapf "%w: got %d, max %d" ErrKeyTooLarge [AInt (len key); AInt MaxKeyLen])
  else None.

Record wire_GetRequest := mkWireGetRequest {
  wgr_Key : bytes; wgr_MinVersion : option VersionTag }.

Definition wire_GetRequest_Validate (r : wire_GetRequest) (partitionCount : Z) : outcome error :=
  match validateKey (wgr_Key r) with Some e => Returns (Some e) | None =>
  match validatePartitionCount partitionCount with Some e => Returns (Some e) | None =>
  match wgr_MinVersion r with
  | None => Returns None
  | Some v =>
      match PartitionOf (wgr_Key r) partitionCount with
      | Panics e => Panics e
      | Returns p =>
          if negb (vt_PartitionID v =? p)
          then Returns (Some (Errorf
                 "minimum version partition %d does not match routed partition"
                 [AInt (vt_PartitionID v)]))
          else Returns None
      end
  end end end.

Record SetRequest := mkSetRequest {
  sr_Key : bytes; sr_Value : bytes; sr_TTLMillis : Z;
  sr_MutationID : MutationID; sr_Options : WriteOptions }.

Definition SetRequest_Validate (r : SetRequest) : error :=
  try validateKey (sr_Key r) ;;
  if len (sr_Value r) >? MaxValueLen
  then Some (Wrapf "%w: got %d, max %d" ErrValueTooLarge
               [AInt (len (sr_Value r)); AInt MaxValueLen])
  else if MutationID_IsZero (sr_MutationID r) then Some ErrMutationIDRequired
  else WriteOptions_Validate (sr_Options r).

Record DeleteRequest := mkDeleteRequest {
  dr_Key : bytes; dr_MutationID : MutationID; dr_Options : WriteOptions }.

Definition DeleteRequest_Validate (r : DeleteRequest) : error :=
  try validateKey (dr_Key r) ;;
  if MutationID_IsZero (dr_MutationID r) then Some ErrMutationIDRequired
  else WriteOptions_Validate (dr_Options r).

(** [append([]byte(nil), b...)]: a fresh slice with the same elements. *)
Definition CopyBytes (b : bytes) : bytes := [] ++ b.

Definition TTLMillis (ttl : Z) : Z * error :=
  if ttl <? 0 then (0, Some (Errorf "ttl must not be negative" []))
  else if negb (Z.rem ttl Millisecond =? 0) then (0, Some ErrTTLNotWholeMilliseconds)
  else (to_uint64 (Z.quot ttl Millisecond), None).

Definition PersistenceConfigured (dataDir : string) : bool :=
  negb (bool_decide (TrimSpace dataDir = ""%string)).

(** ** Automation: case analysis of a validator *)

Ltac unfold_enums :=
  unfold RecordKind_Valid, WriteMode_Valid, StorageProfile_Valid, ConfirmLevel_Valid,
    RecordValue, RecordTombstone, WriteFast, WriteSync, StorageMemory, StorageDurable,
    ConfirmInvalidateApplied in *.

(** Decides a statement about a validator by splitting on each of its guards. *)
Ltac validate_cases :=
  unfold_enums; cbv beta zeta in *;
  repeat case_if; repeat case_bool_decide; simplify_eq/=;
  try done; try lia; repeat split; intros; simplify_eq/=;
  destruct_ands; simplify_eq/=; try done; try lia;
  try (intuition (try done; try lia; try congruence)).

(** ** Keys *)

Definition key_ok (key : bytes) : Prop := 1 <= len key <= MaxKeyLen.

Lemma validateKey_ok key : validateKey key = None ↔ key_ok key.
Proof.
  unfold validateKey, key_ok. pose proof (len_nonneg key). validate_cases.
Qed.

(** ** Version tags *)

(** [IsNewer] is a strict order that relates tags of one partition only,
    and there it is total: of two distinct tags of a partition exactly one is
    newer. *)
Lemma VersionTag_IsNewer_order :
  (∀ v, VersionTag_IsNewer v v = false) ∧
  (∀ u v w, VersionTag_IsNewer u v = true → VersionTag_IsNewer v w = true →
            VersionTag_IsNewer u w = true) ∧
  (∀ v w, VersionTag_IsNewer v w = true →
          vt_PartitionID v = vt_PartitionID w ∧ VersionTag_IsNewer w v = false) ∧
  (∀ v w, vt_PartitionID v = vt_PartitionID w →
          v = w ∨ VersionTag_IsNewer v w = true ∨ VersionTag_IsNewer w v = true).
Proof.
  unfold VersionTag_IsNewer. repeat split; intros; try lia.
  destruct v as [p s], w as [q t]; cbn in *. subst.
  destruct (Z.lt_trichotomy s t) as [?|[->|?]]; [|by left|]; right; lia.
Qed.

Lemma VersionTag_IsZero_iff v :
  VersionTag_IsZero v = true ↔ vt_PartitionID v = 0 ∧ vt_Sequence v = 0.
Proof.
  unfold VersionTag_IsZero, zero_VersionTag. rewrite bool_decide_eq_true.
  destruct v; cbn. split; [by intros [= -> ->]|by intros [-> ->]].
Qed.

(** ** Mutation identities *)

Lemma NewMutationID_typed e c : MutationID_typed (NewMutationID e c).
Proof. done. Qed.

Lemma MutationID_halves id :
  MutationID_typed id → length (take 8 id) = 8%nat ∧ length (drop 8 id) = 8%nat.
Proof. unfold MutationID_typed. intros H. rewrite length_take, length_drop. lia. Qed.

(** The epoch and the counter a mutation identity is made of are read
    back from its 16 bytes, every identity is the one made of the components
    it reads as, and only epoch zero with counter zero makes the zero
    identity the validators reject. *)
Lemma NewMutationID_roundtrip :
  (∀ e c, u64 e → u64 c →
     MutationID_NodeEpoch (NewMutationID e c) = e ∧
     MutationID_Counter (NewMutationID e c) = c ∧
     (MutationID_IsZero (NewMutationID e c) = true ↔ e = 0 ∧ c = 0)) ∧
  (∀ id, MutationID_typed id →
     NewMutationID (MutationID_NodeEpoch id) (MutationID_Counter id) = id ∧
     u64 (MutationID_NodeEpoch id) ∧ u64 (MutationID_Counter id)).
Proof.
  assert (∀ e c, u64 e → u64 c → MutationID_NodeEpoch (NewMutationID e c) = e ∧
    MutationID_Counter (NewMutationID e c) = c) as Hread.
  { intros e c He Hc. unfold MutationID_NodeEpoch, MutationID_Counter, NewMutationID.
    rewrite take_app_length', drop_app_length' by done.
    by rewrite !BigEndian_Uint64_PutUint64. }
  split.
  - intros e c He Hc. destruct (Hread e c He Hc) as [Ee Ec]. split; [done|]. split; [done|].
    unfold MutationID_IsZero. rewrite bool_decide_eq_true. split.
    + intros H. split; [rewrite <- Ee|rewrite <- Ec]; by rewrite H.
    + by intros [-> ->].
  - intros id Hid. destruct (MutationID_halves id Hid) as [Ht Hd].
    assert (u64 (MutationID_NodeEpoch id) ∧ u64 (MutationID_Counter id)) as [He Hc]
      by (split; by apply BigEndian_Uint64_range).
    split; [|done]. destruct (Hread _ _ He Hc) as [Ee Ec].
    unfold MutationID_NodeEpoch, MutationID_Counter in Ee, Ec.
    apply BigEndian_Uint64_inj in Ee; [|done..]. apply BigEndian_Uint64_inj in Ec; [|done..].
    unfold MutationID_NodeEpoch, MutationID_Counter.
    rewrite <- (take_drop 8 (NewMutationID _ _)), Ee, Ec. apply take_drop.
Qed.

(** ** Storage profiles, write options, TTLs *)

(** A storage profile is accepted exactly when it is known and, if
    durable, persistence is configured; a data directory configures
    persistence unless it is made of white space only. *)
Lemma StorageProfile_Validate_spec (p : Z) (dataDir : string) :
  (StorageProfile_Validate p (PersistenceConfigured dataDir) = None ↔
     p = StorageMemory ∨ (p = StorageDurable ∧ ¬ blank (string_bytes dataDir))) ∧
  (StorageProfile_Validate p (PersistenceConfigured dataDir) = Some ErrPersistenceConfigRequired ↔
     p = StorageDurable ∧ blank (string_bytes dataDir)).
Proof.
  unfold StorageProfile_Validate, PersistenceConfigured.
  rewrite <- TrimSpace_empty. generalize (TrimSpace dataDir) as d. intros d.
  unfold_enums. destruct (Z.eqb_spec p 0), (Z.eqb_spec p 1), (decide (d = ""%string));
    subst; validate_cases.
Qed.

(** The options a request may carry: the timeout is a [uint32] number of
    milliseconds. *)
Definition options_ok (o : WriteOptions) : Prop :=
  (wo_Mode o = WriteFast ∨ wo_Mode o = WriteSync) ∧
  wo_ConfirmLevel o = ConfirmInvalidateApplied ∧
  ∃ ms, u32 ms ∧ wo_Timeout o = ms * Millisecond.

Lemma whole_millis t :
  0 <= t → Z.rem t Millisecond = 0 → t = Z.quot t Millisecond * Millisecond.
Proof. unfold Millisecond. intros. rewrite (Z.quot_rem t 1000000) at 1 by lia. lia. Qed.

Lemma quot_millis ms :
  Z.rem (ms * Millisecond) Millisecond = 0 ∧ Z.quot (ms * Millisecond) Millisecond = ms.
Proof.
  unfold Millisecond. split; [apply Z.rem_mul; lia|apply Z.quot_mul; lia].
Qed.

Lemma WriteOptions_Validate_ok' o : WriteOptions_Validate o = None ↔ options_ok o.
Proof.
  unfold WriteOptions_Validate, options_ok. split.
  - intros H. case_ifs. unfold_enums. split; [lia|]. split; [lia|].
    exists (Z.quot (wo_Timeout o) Millisecond).
    assert (0 <= wo_Timeout o) by lia. assert (Z.rem (wo_Timeout o) Millisecond = 0) by lia.
    pose proof (whole_millis (wo_Timeout o) ltac:(done) ltac:(done)).
    split; [|done]. unfold MaxWriteTimeoutMillis in *. unfold u32.
    split; [apply Z.quot_pos; unfold Millisecond; lia|lia].
  - intros (Hm & Hc & ms & Hms & Ht). rewrite Ht. destruct (quot_millis ms) as [-> ->].
    unfold u32, MaxWriteTimeoutMillis, Millisecond in *. validate_cases.
Qed.

(** Write options are accepted exactly when the mode and the confirmation
    level are known and the timeout is a whole number of milliseconds that a
    [uint32] holds; each rejection reports the first guard that fails. *)
Lemma WriteOptions_Validate_spec (o : WriteOptions) :
  let r := WriteOptions_Validate o in
  (r = None ↔ options_ok o) ∧
  (is_error r ErrInvalidWriteMode = true ↔ WriteMode_Valid (wo_Mode o) = false) ∧
  (is_error r ErrInvalidConfirmLevel = true ↔
     WriteMode_Valid (wo_Mode o) = true ∧ wo_ConfirmLevel o ≠ ConfirmInvalidateApplied) ∧
  (∀ ms, wo_Timeout o = ms * Millisecond → WriteMode_Valid (wo_Mode o) = true →
     wo_ConfirmLevel o = ConfirmInvalidateApplied →
     (ms < 0 → r = Some ErrInvalidWriteTimeout) ∧
     (2 ^ 32 <= ms → r = Some ErrWriteTimeoutTooLarge)).
Proof.
  cbv zeta. split; [apply WriteOptions_Validate_ok'|].
  unfold WriteOptions_Validate. repeat split; intros; try (validate_cases; fail).
  - match goal with H : wo_Timeout o = _ |- _ => rewrite H end.
    unfold Millisecond in *. validate_cases.
  - match goal with H : wo_Timeout o = _ |- _ => rewrite H end.
    destruct (quot_millis ms) as [-> ->]. unfold Millisecond, MaxWriteTimeoutMillis in *.
    validate_cases.
Qed.

(** [TTLMillis] is exact: a non-negative duration of whole milliseconds
    is converted without loss into a [uint64], every other duration is
    refused and the refusal carries the value zero. *)
Lemma TTLMillis_spec (ttl : Z) :
  i64 ttl →
  match TTLMillis ttl with
  | (ms, None) => ttl = ms * Millisecond ∧ u64 ms
  | (ms, Some e) => ms = 0 ∧ (ttl < 0 ∨ ¬ (Millisecond | ttl))
  end.
Proof.
  intros Ht. unfold TTLMillis. case_if; [split; [done|lia]|].
  destruct (Z.eqb_spec (Z.rem ttl Millisecond) 0) as [Hr|Hr]; cbn [negb].
  - pose proof (whole_millis ttl ltac:(lia) Hr) as Heq.
    assert (0 <= Z.quot ttl Millisecond) by (apply Z.quot_pos; unfold Millisecond; lia).
    assert (u64 (Z.quot ttl Millisecond)) by (unfold u64, i64, Millisecond in *; lia).
    by rewrite to_uint64_id.
  - split; [done|]. right. intros Hd. apply Hr. by apply Z.rem_divide.
Qed.

Lemma TTLMillis_spec_witness :
  1500000000 = (TTLMillis 1500000000).1 * Millisecond ∧ u64 (TTLMillis 1500000000).1.
Proof.
  assert (i64 1500000000) as Ht by done.
  exact (TTLMillis_spec 1500000000 Ht).
Defined.

(** ** Requests *)

Definition value_ok (value : bytes) : Prop := len value <= MaxValueLen.

Lemma WriteOptions_Validate_errors o e :
  WriteOptions_Validate o = Some e →
  e ≠ ErrMutationIDRequired ∧ e ≠ ErrKeyEmpty ∧
  errors_Is e ErrKeyTooLarge = false ∧ errors_Is e ErrValueTooLarge = false.
Proof. unfold WriteOptions_Validate. intros H. case_ifs; by injection H as <-. Qed.

Lemma SetRequest_Validate_ok r :
  SetRequest_Validate r = None ↔
  key_ok (sr_Key r) ∧ value_ok (sr_Value r) ∧
  MutationID_IsZero (sr_MutationID r) = false ∧ options_ok (sr_Options r).
Proof.
  rewrite <- WriteOptions_Validate_ok', <- validateKey_ok. unfold SetRequest_Validate, value_ok.
  destruct (validateKey (sr_Key r)); [by split; [|intros [? _]]|]. validate_cases.
Qed.

Lemma DeleteRequest_Validate_ok r :
  DeleteRequest_Validate r = None ↔
  key_ok (dr_Key r) ∧ MutationID_IsZero (dr_MutationID r) = false ∧ options_ok (dr_Options r).
Proof.
  rewrite <- WriteOptions_Validate_ok', <- validateKey_ok. unfold DeleteRequest_Validate.
  destruct (validateKey (dr_Key r)); [by split; [|intros [? _]]|]. validate_cases.
Qed.

(** Options with a [uint32] timeout in milliseconds fail only on an enumeration. *)
Lemma WriteOptions_Validate_millis o ms :
  u32 ms → wo_Timeout o = ms * Millisecond →
  WriteOptions_Validate o =
  if negb (WriteMode_Valid (wo_Mode o))
  then Some (Wrapf "%w: %d" ErrInvalidWriteMode [AInt (wo_Mode o)])
  else if negb (ConfirmLevel_Valid (wo_ConfirmLevel o))
  then Some (Wrapf "%w: %d" ErrInvalidConfirmLevel [AInt (wo_ConfirmLevel o)])
  else None.
Proof.
  intros Hms Ht. unfold WriteOptions_Validate. rewrite Ht.
  destruct (quot_millis ms) as [-> ->]. unfold u32, Millisecond, MaxWriteTimeoutMillis in *.
  repeat case_if; try done; lia.
Qed.

(** A set is accepted exactly when its key and value are within bounds,
    its mutation identity is not zero and its options are acceptable, and
    each error is returned exactly when its guard is the first to fail; a
    delete is validated as a set with the value left out. *)
Lemma SetRequest_Validate_spec (r : SetRequest) :
  let res := SetRequest_Validate r in
  (res = None ↔ key_ok (sr_Key r) ∧ value_ok (sr_Value r) ∧
     MutationID_IsZero (sr_MutationID r) = false ∧ options_ok (sr_Options r)) ∧
  (res = Some ErrKeyEmpty ↔ sr_Key r = []) ∧
  (is_error res ErrKeyTooLarge = true ↔ MaxKeyLen < len (sr_Key r)) ∧
  (is_error res ErrValueTooLarge = true ↔ key_ok (sr_Key r) ∧ MaxValueLen < len (sr_Value r)) ∧
  (res = Some ErrMutationIDRequired ↔
     key_ok (sr_Key r) ∧ value_ok (sr_Value r) ∧ MutationID_IsZero (sr_MutationID r) = true) ∧
  (value_ok (sr_Value r) →
   DeleteRequest_Validate {| dr_Key := sr_Key r; dr_MutationID := sr_MutationID r;
                             dr_Options := sr_Options r |} = res).
Proof.
  cbv zeta. rewrite <- WriteOptions_Validate_ok', <- len_nil_iff.
  unfold SetRequest_Validate, DeleteRequest_Validate, validateKey, key_ok, value_ok.
  cbn [dr_Key dr_MutationID dr_Options].
  pose proof (WriteOptions_Validate_errors (sr_Options r)) as He.
  pose proof (len_nonneg (sr_Key r)).
  change MaxKeyLen with 4096. change MaxValueLen with 1048576.
  destruct (WriteOptions_Validate (sr_Options r)) as [e|].
  - specialize (He e eq_refl) as (? & ? & Hk & Hv).
    repeat case_if; cbn [is_error]; rewrite ?Hk, ?Hv; validate_cases.
  - repeat case_if; validate_cases.
Qed.

Lemma PartitionOf_nonzero key n : n ≠ 0 → ∃ p, PartitionOf key n = Returns p.
Proof.
  intros Hn. unfold PartitionOf, validatePartitionCount.
  destruct (Z.eqb_spec n 0); [done|by eexists].
Qed.

Lemma PartitionOf_returns_nonzero key n p : PartitionOf key n = Returns p → n ≠ 0.
Proof.
  unfold PartitionOf, validatePartitionCount. by destruct (Z.eqb_spec n 0).
Qed.

(** A minimum version, when given, belongs to the partition [key] routes to. *)
Definition min_version_routed (key : bytes) (v : option VersionTag) (n : Z) : Prop :=
  match v with
  | None => True
  | Some v => PartitionOf key n = Returns (vt_PartitionID v)
  end.

Lemma wire_GetRequest_Validate_ok r n :
  wire_GetRequest_Validate r n = Returns None ↔
  key_ok (wgr_Key r) ∧ n ≠ 0 ∧ min_version_routed (wgr_Key r) (wgr_MinVersion r) n.
Proof.
  rewrite <- validateKey_ok. unfold wire_GetRequest_Validate, min_version_routed.
  destruct (validateKey (wgr_Key r)); [by split; [|intros [? _]]|].
  unfold validatePartitionCount. destruct (Z.eqb_spec n 0) as [->|Hn]; [by split; [|intros (_ & ? & _)]|].
  destruct (wgr_MinVersion r) as [v|]; [|done].
  destruct (PartitionOf_nonzero (wgr_Key r) n Hn) as [p Hp]. rewrite Hp.
  destruct (Z.eqb_spec (vt_PartitionID v) p); cbn [negb]; subst; [done|].
  split; [done|]. intros (_ & _ & [= ->]). done.
Qed.

(** Validating a read never panics, whatever the partition count, and it
    succeeds exactly when the key is within bounds, the count is not zero and
    the minimum version is of the partition the key routes to. *)
Lemma wire_GetRequest_Validate_spec (r : wire_GetRequest) (partitionCount : Z) :
  (∀ e, wire_GetRequest_Validate r partitionCount ≠ Panics e) ∧
  (wire_GetRequest_Validate r partitionCount = Returns None ↔
     key_ok (wgr_Key r) ∧ partitionCount ≠ 0 ∧
     min_version_routed (wgr_Key r) (wgr_MinVersion r) partitionCount).
Proof.
  split; [|apply wire_GetRequest_Validate_ok].
  intros e. unfold wire_GetRequest_Validate.
  destruct (validateKey (wgr_Key r)); [done|].
  unfold validatePartitionCount. destruct (Z.eqb_spec partitionCount 0); [done|].
  destruct (wgr_MinVersion r); [|done].
  destruct (PartitionOf_nonzero (wgr_Key r) partitionCount) as [p ->]; [done|]. by case_if.
Qed.
