(* ===== verification/WireRecord.v ===== *)
(** * Authoritative-read record validation (internal/wire/record.go) *)

From S2P Require Import Prelude GoErrors GoStd WireStatus WireTypes.

Local Open Scope go_scope.

Definition ErrInvalidGetStatus : err :=
  New "wire.ErrInvalidGetStatus" "invalid status for get result".
Definition ErrMissingVersion : err :=
  New "wire.ErrMissingVersion" "successful record is missing a version".
Definition ErrUnexpectedVersion : err :=
  New "wire.ErrUnexpectedVersion" "result status must not carry a version".
Definition ErrUnexpectedValue : err :=
  New "wire.ErrUnexpectedValue" "result status must not carry a value".
Definition ErrInvalidRecordKind : err :=
  New "wire.ErrInvalidRecordKind" "invalid record kind".
Definition ErrInvalidResultTTL : err :=
  New "wire.ErrInvalidResultTTL" "invalid result ttl".

Definition VersionTag_ValidateCommitted (v : VersionTag) : error :=
  if vt_Sequence v =? 0 then Some ErrMissingVersion else None.

Record GetRecordFields := mkGetRecordFields {
  grf_Status : Z; grf_Version : VersionTag; grf_Kind : Z; grf_Value : bytes }.

#[export] Instance GetRecordFields_typed : GoTyped GetRecordFields :=
  λ r, u16 (grf_Status r) ∧ go_typed (grf_Version r) ∧ u8 (grf_Kind r).

Definition GetRecordFields_Validate (r : GetRecordFields) : error :=
  if negb (Status_Valid (grf_Status r)) || (grf_Status r =? StatusErrWriteConfirmTimeout)
  then Some (Wrapf "%w: %s" ErrInvalidGetStatus [AStr (Status_String (grf_Status r))])
  else if grf_Status r =? StatusOK then
    try VersionTag_ValidateCommitted (grf_Version r) ;;
    if negb (RecordKind_Valid (grf_Kind r))
    then Some (Wrapf "%w: %d" ErrInvalidRecordKind [AInt (grf_Kind r)])
    else if (grf_Kind r =? RecordTombstone) && negb (len (grf_Value r) =? 0)
    then Some ErrUnexpectedValue
    else if len (grf_Value r) >? MaxValueLen
    then Some (Wrapf "%w: got %d, max %d" ErrValueTooLarge
                 [AInt (len (grf_Value r)); AInt MaxValueLen])
    else None
  else if negb (VersionTag_IsZero (grf_Version r)) then Some ErrUnexpectedVersion
  else if negb (len (grf_Value r) =? 0) then Some ErrUnexpectedValue
  else if negb (grf_Kind r =? 0)
  then Some (Wrapf "%w: %d" ErrInvalidRecordKind [AInt (grf_Kind r)])
  else None.

(** ** The records a read may return, as data

    A read finds a committed value or tombstone, or reports one of the other
    get statuses with no record at all. *)
Inductive get_record :=
| GRValue (version : VersionTag) (value : bytes)
| GRTombstone (version : VersionTag)
| GRStatus (status : Z).

Definition get_record_wf (g : get_record) : Prop :=
  match g with
  | GRValue v value => vt_Sequence v ≠ 0 ∧ value_ok value
  | GRTombstone v => vt_Sequence v ≠ 0
  | GRStatus s =>
      s ∈ [StatusNotFound; StatusNotCaughtUp; StatusErrDurabilityUnavailable;
           StatusErrBadGeneration; StatusErrRateLimited; StatusErrInvalidArgument;
           StatusErrInternal]
  end.

Definition get_record_fields (g : get_record) : GetRecordFields :=
  match g with
  | GRValue v value => mkGetRecordFields StatusOK v RecordValue value
  | GRTombstone v => mkGetRecordFields StatusOK v RecordTombstone []
  | GRStatus s => mkGetRecordFields s zero_VersionTag 0 []
  end.

Lemma VersionTag_ValidateCommitted_ok v :
  VersionTag_ValidateCommitted v = None ↔ vt_Sequence v ≠ 0.
Proof. unfold VersionTag_ValidateCommitted. validate_cases. Qed.

Lemma GetRecordFields_Validate_sound g :
  get_record_wf g → GetRecordFields_Validate (get_record_fields g) = None.
Proof.
  destruct g as [v value|v|s]; cbn [get_record_wf get_record_fields];
    unfold GetRecordFields_Validate; cbn [grf_Status grf_Version grf_Kind grf_Value].
  - intros [Hv Hlen]. apply VersionTag_ValidateCommitted_ok in Hv. cbn. rewrite Hv.
    unfold value_ok in Hlen. validate_cases.
  - intros Hv. apply VersionTag_ValidateCommitted_ok in Hv. cbn. by rewrite Hv.
  - intros Hs. repeat (apply elem_of_cons in Hs as [->|Hs]; [by vm_compute|]).
    by apply elem_of_nil in Hs.
Qed.

Lemma GetRecordFields_Validate_complete r :
  go_typed r → GetRecordFields_Validate r = None →
  ∃ g, get_record_wf g ∧ r = get_record_fields g.
Proof.
  destruct r as [s v k value]. unfold GetRecordFields_Validate.
  intros (Hs & Hv & Hk) H. cbn [grf_Status grf_Version grf_Kind grf_Value] in *.
  destruct (Status_Valid s) eqn:Es; [|discriminate].
  apply Status_Valid_cases in Es; [|done]. cbn [negb orb] in H. unfold_status.
  destruct (Z.eqb_spec s 7); [discriminate|]. destruct (Z.eqb_spec s 0) as [->|Hs0].
  - destruct (VersionTag_ValidateCommitted v) eqn:Ev; [discriminate|].
    apply VersionTag_ValidateCommitted_ok in Ev. unfold_enums.
    destruct (Z.eqb_spec k 0) as [->|]; cbn in H.
    + exists (GRValue v value). split; [|done]. split; [done|]. unfold value_ok.
      case_ifs. lia.
    + destruct (Z.eqb_spec k 1) as [->|]; cbn in H; [|discriminate].
      exists (GRTombstone v). split; [done|]. case_ifs.
      destruct value; [done|]. unfold len in *. simpl in *. lia.
  - exists (GRStatus s). case_ifs.
    assert (value = []) as -> by (apply len_nil_iff; lia).
    assert (k = 0) as -> by lia.
    assert (v = zero_VersionTag) as ->.
    { unfold VersionTag_IsZero in *. case_bool_decide; done. }
    split; [|done]. cbn [get_record_wf]. unfold_status.
    destruct Es as [?|[?|[?|[?|[?|[?|[?|[?|?]]]]]]]]; subst; try done; set_solver.
Qed.

(** C30. The field records the validator accepts are exactly those that
    represent a well-formed read result: a committed value within bounds, a
    committed tombstone without a value, or a status other than
    write-confirm-timeout with no record data at all. *)
Theorem GetRecordFields_Validate_spec (r : GetRecordFields) :
  go_typed r →
  GetRecordFields_Validate r = None ↔ ∃ g, get_record_wf g ∧ r = get_record_fields g.
Proof.
  intros Hr. split.
  - by apply GetRecordFields_Validate_complete.
  - intros (g & Hg & ->). by apply GetRecordFields_Validate_sound.
Qed.

Lemma GetRecordFields_Validate_spec_witness :
  let r := mkGetRecordFields StatusOK (mkVersionTag 3 9) RecordTombstone [] in
  ∃ g, get_record_wf g ∧ r = get_record_fields g.
Proof. apply GetRecordFields_Validate_spec; [done|by vm_compute]. Defined.
