(* ===== verification/PbCommon.v ===== *)
(** * Generated protobuf types: common.proto (api/gen/gossipcache/v1/common.pb.go)

    Enumerations are [int32] values with their name tables; a message is the
    record of its fields, a pointer to a message is an [option], and the
    getters are nil-safe as generated.  The methods that call the protobuf
    runtime are in [PbMethods], the encoding is in [PbMessages]. *)

From S2P Require Import Prelude.

(** ** Status *)
Definition pb_Status_STATUS_OK : Z := 0.
Definition pb_Status_STATUS_NOT_FOUND : Z := 1.
Definition pb_Status_STATUS_NOT_CAUGHT_UP : Z := 2.
Definition pb_Status_STATUS_ERR_DURABILITY_UNAVAILABLE : Z := 3.
Definition pb_Status_STATUS_ERR_BAD_GENERATION : Z := 4.
Definition pb_Status_STATUS_ERR_RATE_LIMITED : Z := 5.
Definition pb_Status_STATUS_ERR_INVALID_ARGUMENT : Z := 6.
Definition pb_Status_STATUS_ERR_WRITE_CONFIRM_TIMEOUT : Z := 7.
Definition pb_Status_STATUS_ERR_INTERNAL : Z := 8.

Definition pb_Status_name : list (Z * string) :=
  [(0, "STATUS_OK"%string);
   (1, "STATUS_NOT_FOUND"%string);
   (2, "STATUS_NOT_CAUGHT_UP"%string);
   (3, "STATUS_ERR_DURABILITY_UNAVAILABLE"%string);
   (4, "STATUS_ERR_BAD_GENERATION"%string);
   (5, "STATUS_ERR_RATE_LIMITED"%string);
   (6, "STATUS_ERR_INVALID_ARGUMENT"%string);
   (7, "STATUS_ERR_WRITE_CONFIRM_TIMEOUT"%string);
   (8, "STATUS_ERR_INTERNAL"%string)].

Definition pb_Status_value : list (string * Z) :=
  [("STATUS_OK"%string, 0);
   ("STATUS_NOT_FOUND"%string, 1);
   ("STATUS_NOT_CAUGHT_UP"%string, 2);
   ("STATUS_ERR_DURABILITY_UNAVAILABLE"%string, 3);
   ("STATUS_ERR_BAD_GENERATION"%string, 4);
   ("STATUS_ERR_RATE_LIMITED"%string, 5);
   ("STATUS_ERR_INVALID_ARGUMENT"%string, 6);
   ("STATUS_ERR_WRITE_CONFIRM_TIMEOUT"%string, 7);
   ("STATUS_ERR_INTERNAL"%string, 8)].

(** ** RecordKind *)
Definition pb_RecordKind_RECORD_KIND_VALUE : Z := 0.
Definition pb_RecordKind_RECORD_KIND_TOMBSTONE : Z := 1.

Definition pb_RecordKind_name : list (Z * string) :=
  [(0, "RECORD_KIND_VALUE"%string);
   (1, "RECORD_KIND_TOMBSTONE"%string)].

Definition pb_RecordKind_value : list (string * Z) :=
  [("RECORD_KIND_VALUE"%string, 0);
   ("RECORD_KIND_TOMBSTONE"%string, 1)].

(** ** WriteMode *)
Definition pb_WriteMode_WRITE_MODE_FAST : Z := 0.
Definition pb_WriteMode_WRITE_MODE_SYNC : Z := 1.

Definition pb_WriteMode_name : list (Z * string) :=
  [(0, "WRITE_MODE_FAST"%string);
   (1, "WRITE_MODE_SYNC"%string)].

Definition pb_WriteMode_value : list (string * Z) :=
  [("WRITE_MODE_FAST"%string, 0);
   ("WRITE_MODE_SYNC"%string, 1)].

(** ** StorageProfile *)
Definition pb_StorageProfile_STORAGE_PROFILE_MEMORY : Z := 0.
Definition pb_StorageProfile_STORAGE_PROFILE_DURABLE : Z := 1.

Definition pb_StorageProfile_name : list (Z * string) :=
  [(0, "STORAGE_PROFILE_MEMORY"%string);
   (1, "STORAGE_PROFILE_DURABLE"%string)].

Definition pb_StorageProfile_value : list (string * Z) :=
  [("STORAGE_PROFILE_MEMORY"%string, 0);
   ("STORAGE_PROFILE_DURABLE"%string, 1)].

(** ** ConfirmLevel *)
Definition pb_ConfirmLevel_CONFIRM_LEVEL_INVALIDATE_APPLIED : Z := 0.

Definition pb_ConfirmLevel_name : list (Z * string) :=
  [(0, "CONFIRM_LEVEL_INVALIDATE_APPLIED"%string)].

Definition pb_ConfirmLevel_value : list (string * Z) :=
  [("CONFIRM_LEVEL_INVALIDATE_APPLIED"%string, 0)].


(** ** VersionTag *)
Record pb_VersionTag := mk_pb_VersionTag {
  pb_VersionTag_PartitionId : Z;
  pb_VersionTag_Sequence : Z }.

#[export] Instance pb_VersionTag_typed : GoTyped pb_VersionTag :=
  λ m, u32 (pb_VersionTag_PartitionId m) ∧
    u64 (pb_VersionTag_Sequence m).

Definition pb_VersionTag_GetPartitionId (x : option pb_VersionTag) : Z :=
  match x with Some x => pb_VersionTag_PartitionId x | None => 0 end.
Definition pb_VersionTag_GetSequence (x : option pb_VersionTag) : Z :=
  match x with Some x => pb_VersionTag_Sequence x | None => 0 end.

(** ** MutationID *)
Record pb_MutationID := mk_pb_MutationID {
  pb_MutationID_Id : bytes }.

#[export] Instance pb_MutationID_typed : GoTyped pb_MutationID :=
  λ m, True.

Definition pb_MutationID_GetId (x : option pb_MutationID) : bytes :=
  match x with Some x => pb_MutationID_Id x | None => [] end.
