(* ===== verification/PbControl.v ===== *)
(** * Generated protobuf types: control.proto (api/gen/gossipcache/v1/control.pb.go)

    The bodies of the two stream envelopes are interface values: nil, or a
    pointer to one of the wrapper structs.  A wrapper pointer may itself be
    nil, and so may the message it wraps, hence the two levels of [option]
    in the constructors. *)

From S2P Require Import Prelude GoErrors PbCommon.


(** ** ControlError *)
Record pb_ControlError := mk_pb_ControlError {
  pb_ControlError_Status : Z;
  pb_ControlError_Detail : string }.

#[export] Instance pb_ControlError_typed : GoTyped pb_ControlError :=
  λ m, i32 (pb_ControlError_Status m).

Definition pb_ControlError_GetStatus (x : option pb_ControlError) : Z :=
  match x with Some x => pb_ControlError_Status x | None => 0 end.
Definition pb_ControlError_GetDetail (x : option pb_ControlError) : string :=
  match x with Some x => pb_ControlError_Detail x | None => ""%string end.

(** ** StreamWatermark *)
Record pb_StreamWatermark := mk_pb_StreamWatermark {
  pb_StreamWatermark_StreamId : Z;
  pb_StreamWatermark_AppliedThrough : Z;
  pb_StreamWatermark_HubGeneration : Z }.

#[export] Instance pb_StreamWatermark_typed : GoTyped pb_StreamWatermark :=
  λ m, u32 (pb_StreamWatermark_StreamId m) ∧
    u64 (pb_StreamWatermark_AppliedThrough m) ∧
    u64 (pb_StreamWatermark_HubGeneration m).

Definition pb_StreamWatermark_GetStreamId (x : option pb_StreamWatermark) : Z :=
  match x with Some x => pb_StreamWatermark_StreamId x | None => 0 end.
Definition pb_StreamWatermark_GetAppliedThrough (x : option pb_StreamWatermark) : Z :=
  match x with Some x => pb_StreamWatermark_AppliedThrough x | None => 0 end.
Definition pb_StreamWatermark_GetHubGeneration (x : option pb_StreamWatermark) : Z :=
  match x with Some x => pb_StreamWatermark_HubGeneration x | None => 0 end.

(** ** Hello *)
Record pb_Hello := mk_pb_Hello {
  pb_Hello_NodeId : Z;
  pb_Hello_ProtocolVersion : Z;
  pb_Hello_MinSupportedVersion : Z;
  pb_Hello_Subscriptions : list (option pb_StreamWatermark);
  pb_Hello_ClusterId : string;
  pb_Hello_ExpectedHubGeneration : Z }.

#[export] Instance pb_Hello_typed : GoTyped pb_Hello :=
  λ m, u64 (pb_Hello_NodeId m) ∧
    u32 (pb_Hello_ProtocolVersion m) ∧
    u32 (pb_Hello_MinSupportedVersion m) ∧
    go_typed (pb_Hello_Subscriptions m) ∧
    u64 (pb_Hello_ExpectedHubGeneration m).

Definition pb_Hello_GetNodeId (x : option pb_Hello) : Z :=
  match x with Some x => pb_Hello_NodeId x | None => 0 end.
Definition pb_Hello_GetProtocolVersion (x : option pb_Hello) : Z :=
  match x with Some x => pb_Hello_ProtocolVersion x | None => 0 end.
Definition pb_Hello_GetMinSupportedVersion (x : option pb_Hello) : Z :=
  match x with Some x => pb_Hello_MinSupportedVersion x | None => 0 end.
Definition pb_Hello_GetSubscriptions (x : option pb_Hello) : list (option pb_StreamWatermark) :=
  match x with Some x => pb_Hello_Subscriptions x | None => [] end.
Definition pb_Hello_GetClusterId (x : option pb_Hello) : string :=
  match x with Some x => pb_Hello_ClusterId x | None => ""%string end.
Definition pb_Hello_GetExpectedHubGeneration (x : option pb_Hello) : Z :=
  match x with Some x => pb_Hello_ExpectedHubGeneration x | None => 0 end.

(** ** Subscribe *)
Record pb_Subscribe := mk_pb_Subscribe {
  pb_Subscribe_HubGeneration : Z;
  pb_Subscribe_StreamIds : list Z }.

#[export] Instance pb_Subscribe_typed : GoTyped pb_Subscribe :=
  λ m, u64 (pb_Subscribe_HubGeneration m) ∧
    Forall u32 (pb_Subscribe_StreamIds m).

Definition pb_Subscribe_GetHubGeneration (x : option pb_Subscribe) : Z :=
  match x with Some x => pb_Subscribe_HubGeneration x | None => 0 end.
Definition pb_Subscribe_GetStreamIds (x : option pb_Subscribe) : list Z :=
  match x with Some x => pb_Subscribe_StreamIds x | None => [] end.

(** ** InvalidationEvent *)
Record pb_InvalidationEvent := mk_pb_InvalidationEvent {
  pb_InvalidationEvent_StreamSequence : Z;
  pb_InvalidationEvent_Key : bytes;
  pb_InvalidationEvent_Version : option pb_VersionTag;
  pb_InvalidationEvent_Kind : Z;
  pb_InvalidationEvent_MutationId : option pb_MutationID }.

#[export] Instance pb_InvalidationEvent_typed : GoTyped pb_InvalidationEvent :=
  λ m, u64 (pb_InvalidationEvent_StreamSequence m) ∧
    go_typed (pb_InvalidationEvent_Version m) ∧
    i32 (pb_InvalidationEvent_Kind m) ∧
    go_typed (pb_InvalidationEvent_MutationId m).

Definition pb_InvalidationEvent_GetStreamSequence (x : option pb_InvalidationEvent) : Z :=
  match x with Some x => pb_InvalidationEvent_StreamSequence x | None => 0 end.
Definition pb_InvalidationEvent_GetKey (x : option pb_InvalidationEvent) : bytes :=
  match x with Some x => pb_InvalidationEvent_Key x | None => [] end.
Definition pb_InvalidationEvent_GetVersion (x : option pb_InvalidationEvent) : option pb_VersionTag :=
  match x with Some x => pb_InvalidationEvent_Version x | None => None end.
Definition pb_InvalidationEvent_GetKind (x : option pb_InvalidationEvent) : Z :=
  match x with Some x => pb_InvalidationEvent_Kind x | None => 0 end.
Definition pb_InvalidationEvent_GetMutationId (x : option pb_InvalidationEvent) : option pb_MutationID :=
  match x with Some x => pb_InvalidationEvent_MutationId x | None => None end.

(** ** InvalidationBatch *)
Record pb_InvalidationBatch := mk_pb_InvalidationBatch {
  pb_InvalidationBatch_StreamId : Z;
  pb_InvalidationBatch_HubGeneration : Z;
  pb_InvalidationBatch_Events : list (option pb_InvalidationEvent) }.

#[export] Instance pb_InvalidationBatch_typed : GoTyped pb_InvalidationBatch :=
  λ m, u32 (pb_InvalidationBatch_StreamId m) ∧
    u64 (pb_InvalidationBatch_HubGeneration m) ∧
    go_typed (pb_InvalidationBatch_Events m).

Definition pb_InvalidationBatch_GetStreamId (x : option pb_InvalidationBatch) : Z :=
  match x with Some x => pb_InvalidationBatch_StreamId x | None => 0 end.
Definition pb_InvalidationBatch_GetHubGeneration (x : option pb_InvalidationBatch) : Z :=
  match x with Some x => pb_InvalidationBatch_HubGeneration x | None => 0 end.
Definition pb_InvalidationBatch_GetEvents (x : option pb_InvalidationBatch) : list (option pb_InvalidationEvent) :=
  match x with Some x => pb_InvalidationBatch_Events x | None => [] end.

(** ** StreamAcknowledgement *)
Record pb_StreamAcknowledgement := mk_pb_StreamAcknowledgement {
  pb_StreamAcknowledgement_StreamId : Z;
  pb_StreamAcknowledgement_AppliedThrough : Z }.

#[export] Instance pb_StreamAcknowledgement_typed : GoTyped pb_StreamAcknowledgement :=
  λ m, u32 (pb_StreamAcknowledgement_StreamId m) ∧
    u64 (pb_StreamAcknowledgement_AppliedThrough m).

Definition pb_StreamAcknowledgement_GetStreamId (x : option pb_StreamAcknowledgement) : Z :=
  match x with Some x => pb_StreamAcknowledgement_StreamId x | None => 0 end.
Definition pb_StreamAcknowledgement_GetAppliedThrough (x : option pb_StreamAcknowledgement) : Z :=
  match x with Some x => pb_StreamAcknowledgement_AppliedThrough x | None => 0 end.

(** ** StreamCheckpoint *)
Record pb_StreamCheckpoint := mk_pb_StreamCheckpoint {
  pb_StreamCheckpoint_StreamId : Z;
  pb_StreamCheckpoint_HubGeneration : Z;
  pb_StreamCheckpoint_StreamHead : Z }.

#[export] Instance pb_StreamCheckpoint_typed : GoTyped pb_StreamCheckpoint :=
  λ m, u32 (pb_StreamCheckpoint_StreamId m) ∧
    u64 (pb_StreamCheckpoint_HubGeneration m) ∧
    u64 (pb_StreamCheckpoint_StreamHead m).

Definition pb_StreamCheckpoint_GetStreamId (x : option pb_StreamCheckpoint) : Z :=
  match x with Some x => pb_StreamCheckpoint_StreamId x | None => 0 end.
Definition pb_StreamCheckpoint_GetHubGeneration (x : option pb_StreamCheckpoint) : Z :=
  match x with Some x => pb_StreamCheckpoint_HubGeneration x | None => 0 end.
Definition pb_StreamCheckpoint_GetStreamHead (x : option pb_StreamCheckpoint) : Z :=
  match x with Some x => pb_StreamCheckpoint_StreamHead x | None => 0 end.

(** ** ReplayRequest *)
Record pb_ReplayRequest := mk_pb_ReplayRequest {
  pb_ReplayRequest_StreamId : Z;
  pb_ReplayRequest_FromSequence : Z;
  pb_ReplayRequest_ToSequence : Z }.

#[export] Instance pb_ReplayRequest_typed : GoTyped pb_ReplayRequest :=
  λ m, u32 (pb_ReplayRequest_StreamId m) ∧
    u64 (pb_ReplayRequest_FromSequence m) ∧
    u64 (pb_ReplayRequest_ToSequence m).

Definition pb_ReplayRequest_GetStreamId (x : option pb_ReplayRequest) : Z :=
  match x with Some x => pb_ReplayRequest_StreamId x | None => 0 end.
Definition pb_ReplayRequest_GetFromSequence (x : option pb_ReplayRequest) : Z :=
  match x with Some x => pb_ReplayRequest_FromSequence x | None => 0 end.
Definition pb_ReplayRequest_GetToSequence (x : option pb_ReplayRequest) : Z :=
  match x with Some x => pb_ReplayRequest_ToSequence x | None => 0 end.

(** ** ReplayUnavailable *)
Record pb_ReplayUnavailable := mk_pb_ReplayUnavailable {
  pb_ReplayUnavailable_StreamId : Z;
  pb_ReplayUnavailable_HubGeneration : Z;
  pb_ReplayUnavailable_RequestedFrom : Z;
  pb_ReplayUnavailable_OldestAvailable : Z;
  pb_ReplayUnavailable_StreamHead : Z }.

#[export] Instance pb_ReplayUnavailable_typed : GoTyped pb_ReplayUnavailable :=
  λ m, u32 (pb_ReplayUnavailable_StreamId m) ∧
    u64 (pb_ReplayUnavailable_HubGeneration m) ∧
    u64 (pb_ReplayUnavailable_RequestedFrom m) ∧
    u64 (pb_ReplayUnavailable_OldestAvailable m) ∧
    u64 (pb_ReplayUnavailable_StreamHead m).

Definition pb_ReplayUnavailable_GetStreamId (x : option pb_ReplayUnavailable) : Z :=
  match x with Some x => pb_ReplayUnavailable_StreamId x | None => 0 end.
Definition pb_ReplayUnavailable_GetHubGeneration (x : option pb_ReplayUnavailable) : Z :=
  match x with Some x => pb_ReplayUnavailable_HubGeneration x | None => 0 end.
Definition pb_ReplayUnavailable_GetRequestedFrom (x : option pb_ReplayUnavailable) : Z :=
  match x with Some x => pb_ReplayUnavailable_RequestedFrom x | None => 0 end.
Definition pb_ReplayUnavailable_GetOldestAvailable (x : option pb_ReplayUnavailable) : Z :=
  match x with Some x => pb_ReplayUnavailable_OldestAvailable x | None => 0 end.
Definition pb_ReplayUnavailable_GetStreamHead (x : option pb_ReplayUnavailable) : Z :=
  match x with Some x => pb_ReplayUnavailable_StreamHead x | None => 0 end.

(** ** InvalidateConfirm *)
Record pb_InvalidateConfirm := mk_pb_InvalidateConfirm {
  pb_InvalidateConfirm_StreamId : Z;
  pb_InvalidateConfirm_StreamSequence : Z;
  pb_InvalidateConfirm_NodeId : Z }.

#[export] Instance pb_InvalidateConfirm_typed : GoTyped pb_InvalidateConfirm :=
  λ m, u32 (pb_InvalidateConfirm_StreamId m) ∧
    u64 (pb_InvalidateConfirm_StreamSequence m) ∧
    u64 (pb_InvalidateConfirm_NodeId m).

Definition pb_InvalidateConfirm_GetStreamId (x : option pb_InvalidateConfirm) : Z :=
  match x with Some x => pb_InvalidateConfirm_StreamId x | None => 0 end.
Definition pb_InvalidateConfirm_GetStreamSequence (x : option pb_InvalidateConfirm) : Z :=
  match x with Some x => pb_InvalidateConfirm_StreamSequence x | None => 0 end.
Definition pb_InvalidateConfirm_GetNodeId (x : option pb_InvalidateConfirm) : Z :=
  match x with Some x => pb_InvalidateConfirm_NodeId x | None => 0 end.

(** The field of a wrapper struct, read through its pointer. *)
Definition oneof_field {P} (w : option (option P)) : outcome (option P) :=
  match w with Some p => Returns p | None => Panics nil_dereference end.

(** ** ControlClientMessage *)
Inductive pb_ControlClientMessage_Body :=
| CCM_Hello (w : option (option pb_Hello))
| CCM_Subscribe (w : option (option pb_Subscribe))
| CCM_StreamAcknowledgement (w : option (option pb_StreamAcknowledgement))
| CCM_ReplayRequest (w : option (option pb_ReplayRequest))
| CCM_InvalidateConfirm (w : option (option pb_InvalidateConfirm)).

Record pb_ControlClientMessage := mk_pb_ControlClientMessage {
  pb_ControlClientMessage_Body_field : option pb_ControlClientMessage_Body }.

Definition pb_ControlClientMessage_GetBody (x : option pb_ControlClientMessage) :
    option pb_ControlClientMessage_Body :=
  match x with Some x => pb_ControlClientMessage_Body_field x | None => None end.

(** The getters of the body's fields: the message of the wrapper that is there,
    which panics when the wrapper pointer is nil. *)
Definition pb_ControlClientMessage_GetHello (x : option pb_ControlClientMessage) : outcome (option pb_Hello) :=
  match x with
  | Some x =>
      match pb_ControlClientMessage_Body_field x with Some (CCM_Hello w) => oneof_field w | _ => Returns None end
  | None => Returns None
  end.
Definition pb_ControlClientMessage_GetSubscribe (x : option pb_ControlClientMessage) : outcome (option pb_Subscribe) :=
  match x with
  | Some x =>
      match pb_ControlClientMessage_Body_field x with Some (CCM_Subscribe w) => oneof_field w | _ => Returns None end
  | None => Returns None
  end.
Definition pb_ControlClientMessage_GetStreamAcknowledgement (x : option pb_ControlClientMessage) : outcome (option pb_StreamAcknowledgement) :=
  match x with
  | Some x =>
      match pb_ControlClientMessage_Body_field x with Some (CCM_StreamAcknowledgement w) => oneof_field w | _ => Returns None end
  | None => Returns None
  end.
Definition pb_ControlClientMessage_GetReplayRequest (x : option pb_ControlClientMessage) : outcome (option pb_ReplayRequest) :=
  match x with
  | Some x =>
      match pb_ControlClientMessage_Body_field x with Some (CCM_ReplayRequest w) => oneof_field w | _ => Returns None end
  | None => Returns None
  end.
Definition pb_ControlClientMessage_GetInvalidateConfirm (x : option pb_ControlClientMessage) : outcome (option pb_InvalidateConfirm) :=
  match x with
  | Some x =>
      match pb_ControlClientMessage_Body_field x with Some (CCM_InvalidateConfirm w) => oneof_field w | _ => Returns None end
  | None => Returns None
  end.

(** ** ControlServerMessage *)
Inductive pb_ControlServerMessage_Body :=
| CSM_InvalidationBatch (w : option (option pb_InvalidationBatch))
| CSM_StreamCheckpoint (w : option (option pb_StreamCheckpoint))
| CSM_ReplayUnavailable (w : option (option pb_ReplayUnavailable))
| CSM_ControlError (w : option (option pb_ControlError)).

Record pb_ControlServerMessage := mk_pb_ControlServerMessage {
  pb_ControlServerMessage_Body_field : option pb_ControlServerMessage_Body }.

Definition pb_ControlServerMessage_GetBody (x : option pb_ControlServerMessage) :
    option pb_ControlServerMessage_Body :=
  match x with Some x => pb_ControlServerMessage_Body_field x | None => None end.

(** The getters of the body's fields: the message of the wrapper that is there,
    which panics when the wrapper pointer is nil. *)
Definition pb_ControlServerMessage_GetInvalidationBatch (x : option pb_ControlServerMessage) : outcome (option pb_InvalidationBatch) :=
  match x with
  | Some x =>
      match pb_ControlServerMessage_Body_field x with Some (CSM_InvalidationBatch w) => oneof_field w | _ => Returns None end
  | None => Returns None
  end.
Definition pb_ControlServerMessage_GetStreamCheckpoint (x : option pb_ControlServerMessage) : outcome (option pb_StreamCheckpoint) :=
  match x with
  | Some x =>
      match pb_ControlServerMessage_Body_field x with Some (CSM_StreamCheckpoint w) => oneof_field w | _ => Returns None end
  | None => Returns None
  end.
Definition pb_ControlServerMessage_GetReplayUnavailable (x : option pb_ControlServerMessage) : outcome (option pb_ReplayUnavailable) :=
  match x with
  | Some x =>
      match pb_ControlServerMessage_Body_field x with Some (CSM_ReplayUnavailable w) => oneof_field w | _ => Returns None end
  | None => Returns None
  end.
Definition pb_ControlServerMessage_GetControlError (x : option pb_ControlServerMessage) : outcome (option pb_ControlError) :=
  match x with
  | Some x =>
      match pb_ControlServerMessage_Body_field x with Some (CSM_ControlError w) => oneof_field w | _ => Returns None end
  | None => Returns None
  end.

(** A getter returns a message exactly when the body is the wrapper of its
    kind that holds it, so at most one getter of an envelope returns one. *)
Lemma client_getters m :
  (∀ p, pb_ControlClientMessage_GetHello m = Returns (Some p) ↔
     pb_ControlClientMessage_GetBody m = Some (CCM_Hello (Some (Some p)))) ∧
  (∀ p, pb_ControlClientMessage_GetSubscribe m = Returns (Some p) ↔
     pb_ControlClientMessage_GetBody m = Some (CCM_Subscribe (Some (Some p)))) ∧
  (∀ p, pb_ControlClientMessage_GetStreamAcknowledgement m = Returns (Some p) ↔
     pb_ControlClientMessage_GetBody m = Some (CCM_StreamAcknowledgement (Some (Some p)))) ∧
  (∀ p, pb_ControlClientMessage_GetReplayRequest m = Returns (Some p) ↔
     pb_ControlClientMessage_GetBody m = Some (CCM_ReplayRequest (Some (Some p)))) ∧
  (∀ p, pb_ControlClientMessage_GetInvalidateConfirm m = Returns (Some p) ↔
     pb_ControlClientMessage_GetBody m = Some (CCM_InvalidateConfirm (Some (Some p)))).
Proof. destruct m as [[[[[[w|]|]|[[w|]|]|[[w|]|]|[[w|]|]|[[w|]|]]|]]|]; split_and!; intros p; split; by intros [= <-]. Qed.

Lemma server_getters m :
  (∀ p, pb_ControlServerMessage_GetInvalidationBatch m = Returns (Some p) ↔
     pb_ControlServerMessage_GetBody m = Some (CSM_InvalidationBatch (Some (Some p)))) ∧
  (∀ p, pb_ControlServerMessage_GetStreamCheckpoint m = Returns (Some p) ↔
     pb_ControlServerMessage_GetBody m = Some (CSM_StreamCheckpoint (Some (Some p)))) ∧
  (∀ p, pb_ControlServerMessage_GetReplayUnavailable m = Returns (Some p) ↔
     pb_ControlServerMessage_GetBody m = Some (CSM_ReplayUnavailable (Some (Some p)))) ∧
  (∀ p, pb_ControlServerMessage_GetControlError m = Returns (Some p) ↔
     pb_ControlServerMessage_GetBody m = Some (CSM_ControlError (Some (Some p)))).
Proof. destruct m as [[[[[[w|]|]|[[w|]|]|[[w|]|]|[[w|]|]]|]]|]; split_and!; intros p; split; by intros [= <-]. Qed.
