(* ===== verification/PbData.v ===== *)
(** * Generated protobuf types: data.proto (api/gen/gossipcache/v1/data.pb.go) *)

From S2P Require Import Prelude PbCommon.

(** ** MutationOp *)
Definition pb_MutationOp_MUTATION_OP_UNSPECIFIED : Z := 0.
Definition pb_MutationOp_MUTATION_OP_SET : Z := 1.
Definition pb_MutationOp_MUTATION_OP_DELETE : Z := 2.

Definition pb_MutationOp_name : list (Z * string) :=
  [(0, "MUTATION_OP_UNSPECIFIED"%string);
   (1, "MUTATION_OP_SET"%string);
   (2, "MUTATION_OP_DELETE"%string)].

Definition pb_MutationOp_value : list (string * Z) :=
  [("MUTATION_OP_UNSPECIFIED"%string, 0);
   ("MUTATION_OP_SET"%string, 1);
   ("MUTATION_OP_DELETE"%string, 2)].


(** ** HandshakeRequest *)
Record pb_HandshakeRequest := mk_pb_HandshakeRequest {
  pb_HandshakeRequest_ProtocolVersion : Z;
  pb_HandshakeRequest_MinSupportedVersion : Z;
  pb_HandshakeRequest_ClusterId : string;
  pb_HandshakeRequest_ExpectedHubGeneration : Z }.

#[export] Instance pb_HandshakeRequest_typed : GoTyped pb_HandshakeRequest :=
  λ m, u32 (pb_HandshakeRequest_ProtocolVersion m) ∧
    u32 (pb_HandshakeRequest_MinSupportedVersion m) ∧
    u64 (pb_HandshakeRequest_ExpectedHubGeneration m).

Definition pb_HandshakeRequest_GetProtocolVersion (x : option pb_HandshakeRequest) : Z :=
  match x with Some x => pb_HandshakeRequest_ProtocolVersion x | None => 0 end.
Definition pb_HandshakeRequest_GetMinSupportedVersion (x : option pb_HandshakeRequest) : Z :=
  match x with Some x => pb_HandshakeRequest_MinSupportedVersion x | None => 0 end.
Definition pb_HandshakeRequest_GetClusterId (x : option pb_HandshakeRequest) : string :=
  match x with Some x => pb_HandshakeRequest_ClusterId x | None => ""%string end.
Definition pb_HandshakeRequest_GetExpectedHubGeneration (x : option pb_HandshakeRequest) : Z :=
  match x with Some x => pb_HandshakeRequest_ExpectedHubGeneration x | None => 0 end.

(** ** HandshakeResponse *)
Record pb_HandshakeResponse := mk_pb_HandshakeResponse {
  pb_HandshakeResponse_ProtocolVersion : Z;
  pb_HandshakeResponse_HubGeneration : Z;
  pb_HandshakeResponse_PartitionCount : Z;
  pb_HandshakeResponse_StorageProfile : Z;
  pb_HandshakeResponse_DurableHealthy : bool;
  pb_HandshakeResponse_ClusterId : string }.

#[export] Instance pb_HandshakeResponse_typed : GoTyped pb_HandshakeResponse :=
  λ m, u32 (pb_HandshakeResponse_ProtocolVersion m) ∧
    u64 (pb_HandshakeResponse_HubGeneration m) ∧
    u32 (pb_HandshakeResponse_PartitionCount m) ∧
    i32 (pb_HandshakeResponse_StorageProfile m).

Definition pb_HandshakeResponse_GetProtocolVersion (x : option pb_HandshakeResponse) : Z :=
  match x with Some x => pb_HandshakeResponse_ProtocolVersion x | None => 0 end.
Definition pb_HandshakeResponse_GetHubGeneration (x : option pb_HandshakeResponse) : Z :=
  match x with Some x => pb_HandshakeResponse_HubGeneration x | None => 0 end.
Definition pb_HandshakeResponse_GetPartitionCount (x : option pb_HandshakeResponse) : Z :=
  match x with Some x => pb_HandshakeResponse_PartitionCount x | None => 0 end.
Definition pb_HandshakeResponse_GetStorageProfile (x : option pb_HandshakeResponse) : Z :=
  match x with Some x => pb_HandshakeResponse_StorageProfile x | None => 0 end.
Definition pb_HandshakeResponse_GetDurableHealthy (x : option pb_HandshakeResponse) : bool :=
  match x with Some x => pb_HandshakeResponse_DurableHealthy x | None => false end.
Definition pb_HandshakeResponse_GetClusterId (x : option pb_HandshakeResponse) : string :=
  match x with Some x => pb_HandshakeResponse_ClusterId x | None => ""%string end.

(** ** HubStatusRequest *)
Record pb_HubStatusRequest := mk_pb_HubStatusRequest {
  pb_HubStatusRequest_HubGeneration : Z }.

#[export] Instance pb_HubStatusRequest_typed : GoTyped pb_HubStatusRequest :=
  λ m, u64 (pb_HubStatusRequest_HubGeneration m).

Definition pb_HubStatusRequest_GetHubGeneration (x : option pb_HubStatusRequest) : Z :=
  match x with Some x => pb_HubStatusRequest_HubGeneration x | None => 0 end.

(** ** HubStatusResponse *)
Record pb_HubStatusResponse := mk_pb_HubStatusResponse {
  pb_HubStatusResponse_HubGeneration : Z;
  pb_HubStatusResponse_StorageProfile : Z;
  pb_HubStatusResponse_DurableHealthy : bool;
  pb_HubStatusResponse_Status : Z }.

#[export] Instance pb_HubStatusResponse_typed : GoTyped pb_HubStatusResponse :=
  λ m, u64 (pb_HubStatusResponse_HubGeneration m) ∧
    i32 (pb_HubStatusResponse_StorageProfile m) ∧
    i32 (pb_HubStatusResponse_Status m).

Definition pb_HubStatusResponse_GetHubGeneration (x : option pb_HubStatusResponse) : Z :=
  match x with Some x => pb_HubStatusResponse_HubGeneration x | None => 0 end.
Definition pb_HubStatusResponse_GetStorageProfile (x : option pb_HubStatusResponse) : Z :=
  match x with Some x => pb_HubStatusResponse_StorageProfile x | None => 0 end.
Definition pb_HubStatusResponse_GetDurableHealthy (x : option pb_HubStatusResponse) : bool :=
  match x with Some x => pb_HubStatusResponse_DurableHealthy x | None => false end.
Definition pb_HubStatusResponse_GetStatus (x : option pb_HubStatusResponse) : Z :=
  match x with Some x => pb_HubStatusResponse_Status x | None => 0 end.

(** ** GetRequest *)
Record pb_GetRequest := mk_pb_GetRequest {
  pb_GetRequest_Key : bytes;
  pb_GetRequest_MinVersion : option pb_VersionTag;
  pb_GetRequest_HubGeneration : Z }.

#[export] Instance pb_GetRequest_typed : GoTyped pb_GetRequest :=
  λ m, go_typed (pb_GetRequest_MinVersion m) ∧
    u64 (pb_GetRequest_HubGeneration m).

Definition pb_GetRequest_GetKey (x : option pb_GetRequest) : bytes :=
  match x with Some x => pb_GetRequest_Key x | None => [] end.
Definition pb_GetRequest_GetMinVersion (x : option pb_GetRequest) : option pb_VersionTag :=
  match x with Some x => pb_GetRequest_MinVersion x | None => None end.
Definition pb_GetRequest_GetHubGeneration (x : option pb_GetRequest) : Z :=
  match x with Some x => pb_GetRequest_HubGeneration x | None => 0 end.

(** ** GetResponse *)
Record pb_GetResponse := mk_pb_GetResponse {
  pb_GetResponse_Status : Z;
  pb_GetResponse_HubGeneration : Z;
  pb_GetResponse_Version : option pb_VersionTag;
  pb_GetResponse_Value : bytes;
  pb_GetResponse_TtlMillis : Z;
  pb_GetResponse_Kind : Z }.

#[export] Instance pb_GetResponse_typed : GoTyped pb_GetResponse :=
  λ m, i32 (pb_GetResponse_Status m) ∧
    u64 (pb_GetResponse_HubGeneration m) ∧
    go_typed (pb_GetResponse_Version m) ∧
    u64 (pb_GetResponse_TtlMillis m) ∧
    i32 (pb_GetResponse_Kind m).

Definition pb_GetResponse_GetStatus (x : option pb_GetResponse) : Z :=
  match x with Some x => pb_GetResponse_Status x | None => 0 end.
Definition pb_GetResponse_GetHubGeneration (x : option pb_GetResponse) : Z :=
  match x with Some x => pb_GetResponse_HubGeneration x | None => 0 end.
Definition pb_GetResponse_GetVersion (x : option pb_GetResponse) : option pb_VersionTag :=
  match x with Some x => pb_GetResponse_Version x | None => None end.
Definition pb_GetResponse_GetValue (x : option pb_GetResponse) : bytes :=
  match x with Some x => pb_GetResponse_Value x | None => [] end.
Definition pb_GetResponse_GetTtlMillis (x : option pb_GetResponse) : Z :=
  match x with Some x => pb_GetResponse_TtlMillis x | None => 0 end.
Definition pb_GetResponse_GetKind (x : option pb_GetResponse) : Z :=
  match x with Some x => pb_GetResponse_Kind x | None => 0 end.

(** ** MutationRequest *)
Record pb_MutationRequest := mk_pb_MutationRequest {
  pb_MutationRequest_Op : Z;
  pb_MutationRequest_Key : bytes;
  pb_MutationRequest_Value : bytes;
  pb_MutationRequest_TtlMillis : Z;
  pb_MutationRequest_MutationId : option pb_MutationID;
  pb_MutationRequest_Mode : Z;
  pb_MutationRequest_W : Z;
  pb_MutationRequest_Confirm : Z;
  pb_MutationRequest_TimeoutMillis : Z;
  pb_MutationRequest_HubGeneration : Z }.

#[export] Instance pb_MutationRequest_typed : GoTyped pb_MutationRequest :=
  λ m, i32 (pb_MutationRequest_Op m) ∧
    u64 (pb_MutationRequest_TtlMillis m) ∧
    go_typed (pb_MutationRequest_MutationId m) ∧
    i32 (pb_MutationRequest_Mode m) ∧
    u32 (pb_MutationRequest_W m) ∧
    i32 (pb_MutationRequest_Confirm m) ∧
    u32 (pb_MutationRequest_TimeoutMillis m) ∧
    u64 (pb_MutationRequest_HubGeneration m).

Definition pb_MutationRequest_GetOp (x : option pb_MutationRequest) : Z :=
  match x with Some x => pb_MutationRequest_Op x | None => 0 end.
Definition pb_MutationRequest_GetKey (x : option pb_MutationRequest) : bytes :=
  match x with Some x => pb_MutationRequest_Key x | None => [] end.
Definition pb_MutationRequest_GetValue (x : option pb_MutationRequest) : bytes :=
  match x with Some x => pb_MutationRequest_Value x | None => [] end.
Definition pb_MutationRequest_GetTtlMillis (x : option pb_MutationRequest) : Z :=
  match x with Some x => pb_MutationRequest_TtlMillis x | None => 0 end.
Definition pb_MutationRequest_GetMutationId (x : option pb_MutationRequest) : option pb_MutationID :=
  match x with Some x => pb_MutationRequest_MutationId x | None => None end.
Definition pb_MutationRequest_GetMode (x : option pb_MutationRequest) : Z :=
  match x with Some x => pb_MutationRequest_Mode x | None => 0 end.
Definition pb_MutationRequest_GetW (x : option pb_MutationRequest) : Z :=
  match x with Some x => pb_MutationRequest_W x | None => 0 end.
Definition pb_MutationRequest_GetConfirm (x : option pb_MutationRequest) : Z :=
  match x with Some x => pb_MutationRequest_Confirm x | None => 0 end.
Definition pb_MutationRequest_GetTimeoutMillis (x : option pb_MutationRequest) : Z :=
  match x with Some x => pb_MutationRequest_TimeoutMillis x | None => 0 end.
Definition pb_MutationRequest_GetHubGeneration (x : option pb_MutationRequest) : Z :=
  match x with Some x => pb_MutationRequest_HubGeneration x | None => 0 end.

(** ** MutationResponse *)
Record pb_MutationResponse := mk_pb_MutationResponse {
  pb_MutationResponse_Status : Z;
  pb_MutationResponse_HubGeneration : Z;
  pb_MutationResponse_Version : option pb_VersionTag }.

#[export] Instance pb_MutationResponse_typed : GoTyped pb_MutationResponse :=
  λ m, i32 (pb_MutationResponse_Status m) ∧
    u64 (pb_MutationResponse_HubGeneration m) ∧
    go_typed (pb_MutationResponse_Version m).

Definition pb_MutationResponse_GetStatus (x : option pb_MutationResponse) : Z :=
  match x with Some x => pb_MutationResponse_Status x | None => 0 end.
Definition pb_MutationResponse_GetHubGeneration (x : option pb_MutationResponse) : Z :=
  match x with Some x => pb_MutationResponse_HubGeneration x | None => 0 end.
Definition pb_MutationResponse_GetVersion (x : option pb_MutationResponse) : option pb_VersionTag :=
  match x with Some x => pb_MutationResponse_Version x | None => None end.
