(* ===== verification/RpcTypes.v ===== *)
(** * Data-plane messages (internal/rpc/types.go, status.go, ports.go)

    The domain messages of the Data service, their validators, and the
    classification of statuses by what a response carries. *)

From S2P Require Import Prelude GoErrors GoStd Partition WireStatus WireProtocol WireTypes.
From S2P Require Import WireRecord.

Local Open Scope go_scope.

Definition DefaultRPCPort : Z := 7400.

(** ** Sentinel errors *)
Definition rpc_ErrInvalidHubGeneration : err :=
  New "rpc.ErrInvalidHubGeneration" "hub generation must not be zero".
Definition ErrInvalidDurableHealth : err :=
  New "rpc.ErrInvalidDurableHealth" "memory profile cannot advertise durable health".
Definition ErrInvalidOp : err := New "rpc.ErrInvalidOp" "invalid mutation operation".
Definition ErrUnexpectedTTL : err := New "rpc.ErrUnexpectedTTL" "message must not carry a ttl".
Definition ErrInvalidMutationStatus : err :=
  New "rpc.ErrInvalidMutationStatus" "invalid status for mutation response".
Definition rpc_ErrInvalidNodeID : err :=
  New "rpc.ErrInvalidNodeID" "node ID must not be zero".
Definition ErrMutationFingerprintMismatch : err :=
  New "rpc.ErrMutationFingerprintMismatch"
    "mutation fingerprint does not match retained request".
Definition ErrInvalidStatus : err := New "rpc.ErrInvalidStatus" "invalid status".
Definition ErrInvalidEnum : err := New "rpc.ErrInvalidEnum" "invalid protobuf enum value".
Definition rpc_ErrInvalidClusterID : err :=
  New "rpc.ErrInvalidClusterID" "cluster id must not be empty".

(** Aliases of the errors of the wire package, so that callers can use either. *)
Definition rpc_ErrUnexpectedValue : err := ErrUnexpectedValue.
Definition rpc_ErrUnexpectedVersion : err := ErrUnexpectedVersion.
Definition rpc_ErrMissingVersion : err := ErrMissingVersion.
Definition rpc_ErrInvalidGetStatus : err := ErrInvalidGetStatus.
Definition rpc_ErrInvalidRecordKind : err := ErrInvalidRecordKind.
Definition rpc_ErrInvalidResultTTL : err := ErrInvalidResultTTL.

(** ** Op: a [uint8] *)
Definition OpSet : Z := 1.
Definition OpDelete : Z := 2.
Definition Op_Valid (o : Z) : bool := (o =? OpSet) || (o =? OpDelete).

(** ** status.go *)
Definition StatusCarriesCommittedVersion (s : Z) : bool :=
  (s =? StatusOK) || (s =? StatusErrWriteConfirmTimeout).
Definition StatusCarriesGetRecord (s : Z) : bool := s =? StatusOK.
Definition RetrySameMutationID (s : Z) : bool := Status_Retryable s.

(** ** Keys and cluster identities *)
Definition rpc_validateKey (key : bytes) : error :=
  if len key =? 0 then Some ErrKeyEmpty
  else if len key >? MaxKeyLen
  then Some (Wrapf "%w: got %d, max %d" ErrKeyTooLarge [AInt (len key); AInt MaxKeyLen])
  else None.

Definition validateClusterID (id : string) : error :=
  if bool_decide (TrimSpace id = ""%string) then Some rpc_ErrInvalidClusterID else None.

(** ** HandshakeRequest *)
Record HandshakeRequest := mkHandshakeRequest {
  hsr_Protocol : ProtocolRange; hsr_ClusterID : string; hsr_ExpectedHubGeneration : Z }.

#[export] Instance HandshakeRequest_eq_dec : EqDecision HandshakeRequest.
Proof. solve_decision. Defined.
#[export] Instance HandshakeRequest_typed : GoTyped HandshakeRequest :=
  λ m, go_typed (hsr_Protocol m) ∧ u64 (hsr_ExpectedHubGeneration m).

Definition HandshakeRequest_Validate (m : HandshakeRequest) : error :=
  try ProtocolRange_Validate (hsr_Protocol m) ;;
  validateClusterID (hsr_ClusterID m).

(** ** Handshake *)
Record Handshake := mkHandshake {
  hs_ProtocolVersion : Z; hs_HubGeneration : Z; hs_PartitionCount : Z;
  hs_StorageProfile : Z; hs_DurableHealthy : bool; hs_ClusterID : string }.

#[export] Instance Handshake_eq_dec : EqDecision Handshake.
Proof. solve_decision. Defined.
#[export] Instance Handshake_typed : GoTyped Handshake :=
  λ m, u16 (hs_ProtocolVersion m) ∧ u64 (hs_HubGeneration m) ∧
    u32 (hs_PartitionCount m) ∧ u8 (hs_StorageProfile m).

Definition Handshake_Validate (m : Handshake) : error :=
  if (hs_ProtocolVersion m <? MinSupportedProtocolVersion) ||
     (hs_ProtocolVersion m >? CurrentProtocolVersion)
  then Some (Wrapf "%w: unsupported protocol version %d" ErrIncompatibleProtocolRanges
               [AInt (hs_ProtocolVersion m)])
  else if hs_HubGeneration m =? 0 then Some rpc_ErrInvalidHubGeneration
  else if hs_PartitionCount m =? 0 then Some ErrInvalidPartitionCount
  else if negb (StorageProfile_Valid (hs_StorageProfile m))
  then Some (Wrapf "%w: %d" ErrInvalidStorageProfile [AInt (hs_StorageProfile m)])
  else if (hs_StorageProfile m =? StorageMemory) && hs_DurableHealthy m
  then Some ErrInvalidDurableHealth
  else validateClusterID (hs_ClusterID m).

(** ** HubStatusRequest *)
Record HubStatusRequest := mkHubStatusRequest { hsq_HubGeneration : Z }.

#[export] Instance HubStatusRequest_eq_dec : EqDecision HubStatusRequest.
Proof. solve_decision. Defined.
#[export] Instance HubStatusRequest_typed : GoTyped HubStatusRequest :=
  λ m, u64 (hsq_HubGeneration m).

Definition HubStatusRequest_Validate (m : HubStatusRequest) : error :=
  if hsq_HubGeneration m =? 0 then Some rpc_ErrInvalidHubGeneration else None.

(** ** HubStatus *)
Record HubStatus := mkHubStatus {
  hst_HubGeneration : Z; hst_StorageProfile : Z; hst_DurableHealthy : bool; hst_Status : Z }.

#[export] Instance HubStatus_eq_dec : EqDecision HubStatus.
Proof. solve_decision. Defined.
#[export] Instance HubStatus_typed : GoTyped HubStatus :=
  λ m, u64 (hst_HubGeneration m) ∧ u8 (hst_StorageProfile m) ∧ u16 (hst_Status m).

Definition HubStatus_Validate (m : HubStatus) : error :=
  if hst_HubGeneration m =? 0 then Some rpc_ErrInvalidHubGeneration
  else if negb (Status_Valid (hst_Status m))
  then Some (Wrapf "%w: %s" ErrInvalidStatus [AStr (Status_String (hst_Status m))])
  else if hst_Status m =? StatusOK then
    if negb (StorageProfile_Valid (hst_StorageProfile m))
    then Some (Wrapf "%w: %d" ErrInvalidStorageProfile [AInt (hst_StorageProfile m)])
    else if (hst_StorageProfile m =? StorageMemory) && hst_DurableHealthy m
    then Some ErrInvalidDurableHealth
    else None
  else if (hst_Status m =? StatusErrBadGeneration) || (hst_Status m =? StatusErrInvalidArgument)
  then None
  else Some (Wrapf "%w: unexpected hub status %s" ErrInvalidStatus
               [AStr (Status_String (hst_Status m))]).

(** ** GetRequest *)
Record rpc_GetRequest := mkRpcGetRequest {
  rgr_Key : bytes; rgr_MinVersion : option VersionTag; rgr_HubGeneration : Z }.

#[export] Instance rpc_GetRequest_eq_dec : EqDecision rpc_GetRequest.
Proof. solve_decision. Defined.
#[export] Instance rpc_GetRequest_typed : GoTyped rpc_GetRequest :=
  λ m, go_typed (rgr_MinVersion m) ∧ u64 (rgr_HubGeneration m).

Definition rpc_GetRequest_Validate (m : rpc_GetRequest) : error :=
  if rgr_HubGeneration m =? 0 then Some rpc_ErrInvalidHubGeneration
  else rpc_validateKey (rgr_Key m).

Definition rpc_GetRequest_ValidateForPartitions (m : rpc_GetRequest) (partitionCount : Z) :
    outcome error :=
  match rpc_GetRequest_Validate m with
  | Some e => Returns (Some e)
  | None => wire_GetRequest_Validate
              {| wgr_Key := rgr_Key m; wgr_MinVersion := rgr_MinVersion m |} partitionCount
  end.

(** ** GetResponse *)
Record GetResponse := mkGetResponse {
  gp_Status : Z; gp_HubGeneration : Z; gp_Version : VersionTag; gp_Value : bytes;
  gp_TTLMillis : Z; gp_Kind : Z }.

#[export] Instance GetResponse_eq_dec : EqDecision GetResponse.
Proof. solve_decision. Defined.
#[export] Instance GetResponse_typed : GoTyped GetResponse :=
  λ m, u16 (gp_Status m) ∧ u64 (gp_HubGeneration m) ∧ go_typed (gp_Version m) ∧
    u64 (gp_TTLMillis m) ∧ u8 (gp_Kind m).

Definition GetResponse_Validate (m : GetResponse) : error :=
  if gp_HubGeneration m =? 0 then Some rpc_ErrInvalidHubGeneration
  else
    try GetRecordFields_Validate
          {| grf_Status := gp_Status m; grf_Version := gp_Version m;
             grf_Kind := gp_Kind m; grf_Value := gp_Value m |} ;;
    if negb (StatusCarriesGetRecord (gp_Status m)) && negb (gp_TTLMillis m =? 0)
    then Some ErrInvalidResultTTL
    else None.

(** ** MutationRequest *)
Record MutationRequest := mkMutationRequest {
  mr_Op : Z; mr_Key : bytes; mr_Value : bytes; mr_TTLMillis : Z;
  mr_MutationID : MutationID; mr_Mode : Z; mr_W : Z; mr_Confirm : Z;
  mr_Timeout : Z; mr_HubGeneration : Z }.

#[export] Instance MutationRequest_eq_dec : EqDecision MutationRequest.
Proof. solve_decision. Defined.
#[export] Instance MutationRequest_typed : GoTyped MutationRequest :=
  λ m, u8 (mr_Op m) ∧ u64 (mr_TTLMillis m) ∧ MutationID_typed (mr_MutationID m) ∧
    u8 (mr_Mode m) ∧ u16 (mr_W m) ∧ u8 (mr_Confirm m) ∧ u32 (mr_Timeout m) ∧
    u64 (mr_HubGeneration m).

(** [time.Duration(m.Timeout) * time.Millisecond] is an [int64] product. *)
Definition MutationRequest_WriteOptions (m : MutationRequest) : WriteOptions :=
  {| wo_W := mr_W m;
     wo_Mode := mr_Mode m;
     wo_ConfirmLevel := mr_Confirm m;
     wo_Timeout := to_int64 (to_int64 (mr_Timeout m) * Millisecond) |}.

Definition MutationRequest_Validate (m : MutationRequest) : error :=
  if mr_HubGeneration m =? 0 then Some rpc_ErrInvalidHubGeneration
  else if negb (Op_Valid (mr_Op m)) then Some (Wrapf "%w: %d" ErrInvalidOp [AInt (mr_Op m)])
  else
    let opts := MutationRequest_WriteOptions m in
    if mr_Op m =? OpSet then
      SetRequest_Validate
        {| sr_Key := mr_Key m; sr_Value := mr_Value m; sr_TTLMillis := mr_TTLMillis m;
           sr_MutationID := mr_MutationID m; sr_Options := opts |}
    else if mr_Op m =? OpDelete then
      if negb (len (mr_Value m) =? 0) then Some ErrUnexpectedValue
      else if negb (mr_TTLMillis m =? 0) then Some ErrUnexpectedTTL
      else DeleteRequest_Validate
             {| dr_Key := mr_Key m; dr_MutationID := mr_MutationID m; dr_Options := opts |}
    else Some (Wrapf "%w: %d" ErrInvalidOp [AInt (mr_Op m)]).

(** ** MutationResponse *)
Record MutationResponse := mkMutationResponse {
  mp_Status : Z; mp_HubGeneration : Z; mp_Version : VersionTag }.

#[export] Instance MutationResponse_eq_dec : EqDecision MutationResponse.
Proof. solve_decision. Defined.
#[export] Instance MutationResponse_typed : GoTyped MutationResponse :=
  λ m, u16 (mp_Status m) ∧ u64 (mp_HubGeneration m) ∧ go_typed (mp_Version m).

Definition MutationResponse_Validate (m : MutationResponse) : error :=
  if negb (Status_Valid (mp_Status m))
  then Some (Wrapf "%w: %s" ErrInvalidMutationStatus [AStr (Status_String (mp_Status m))])
  else if (mp_Status m =? StatusNotFound) || (mp_Status m =? StatusNotCaughtUp)
  then Some (Wrapf "%w: %s" ErrInvalidMutationStatus [AStr (Status_String (mp_Status m))])
  else if mp_HubGeneration m =? 0 then Some rpc_ErrInvalidHubGeneration
  else if StatusCarriesCommittedVersion (mp_Status m)
  then VersionTag_ValidateCommitted (mp_Version m)
  else if negb (VersionTag_IsZero (mp_Version m)) then Some ErrUnexpectedVersion
  else None.

(** ** Lemmas *)

Lemma rpc_validateKey_eq key : rpc_validateKey key = validateKey key.
Proof. done. Qed.

(** The product of a [uint32] number of milliseconds fits an [int64] of nanoseconds. *)
Lemma timeout_no_overflow t : u32 t → to_int64 (to_int64 t * Millisecond) = t * Millisecond.
Proof.
  unfold u32, Millisecond. intros. rewrite (to_int64_id t) by (unfold i64; lia).
  apply to_int64_id. unfold i64. lia.
Qed.

Lemma MutationRequest_options_ok m :
  go_typed m →
  options_ok (MutationRequest_WriteOptions m) ↔
  WriteMode_Valid (mr_Mode m) = true ∧ mr_Confirm m = ConfirmInvalidateApplied.
Proof.
  intros (_ & _ & _ & _ & _ & _ & Ht & _).
  unfold options_ok, MutationRequest_WriteOptions. cbn [wo_Mode wo_ConfirmLevel wo_Timeout].
  rewrite timeout_no_overflow by done. unfold_enums. split.
  - intros (Hm & Hc & _). split; lia.
  - intros [Hm Hc]. split; [lia|]. split; [done|]. by exists (mr_Timeout m).
Qed.

Lemma validateClusterID_ok id :
  validateClusterID id = None ↔ ¬ blank (string_bytes id).
Proof.
  unfold validateClusterID. rewrite <- TrimSpace_empty. by case_bool_decide.
Qed.

(** ** Requests *)

(** What a mutation asks for. *)
Inductive mutation_op :=
| MSet (value : bytes) (ttl : Z)
| MDelete.

Definition mutation_op_of (m : MutationRequest) (op : mutation_op) : Prop :=
  match op with
  | MSet value ttl =>
      mr_Op m = OpSet ∧ mr_Value m = value ∧ mr_TTLMillis m = ttl ∧ value_ok value
  | MDelete => mr_Op m = OpDelete ∧ mr_Value m = [] ∧ mr_TTLMillis m = 0
  end.

Lemma MutationRequest_Validate_ok m :
  go_typed m →
  MutationRequest_Validate m = None ↔
    mr_HubGeneration m ≠ 0 ∧ key_ok (mr_Key m) ∧ MutationID_IsZero (mr_MutationID m) = false ∧
    WriteMode_Valid (mr_Mode m) = true ∧ mr_Confirm m = ConfirmInvalidateApplied ∧
    ∃ op, mutation_op_of m op.
Proof.
  intros Hm. pose proof (MutationRequest_options_ok m Hm) as Ho.
  unfold MutationRequest_Validate, Op_Valid, OpSet, OpDelete in *. cbv zeta.
  destruct (Z.eqb_spec (mr_HubGeneration m) 0); [by split; [|intros [? _]]|].
  destruct (Z.eqb_spec (mr_Op m) 1) as [E1|N1]; cbn [orb negb].
  - rewrite SetRequest_Validate_ok. cbn [sr_Key sr_Value sr_MutationID sr_Options].
    rewrite Ho. split.
    + intros (? & ? & ? & ? & ?). split_and!; try done. by exists (MSet (mr_Value m) (mr_TTLMillis m)).
    + intros (_ & ? & ? & ? & ? & op & Hop). destruct op; cbn in Hop; unfold OpSet, OpDelete in Hop.
      * destruct Hop as (_ & <- & _ & ?). done.
      * lia.
  - destruct (Z.eqb_spec (mr_Op m) 2) as [E2|N2]; cbn [orb negb].
    + destruct (Z.eqb_spec (len (mr_Value m)) 0) as [Hv|Hv]; cbn [negb].
      2:{ split; [done|]. intros (_ & _ & _ & _ & _ & op & Hop). exfalso.
          destruct op; cbn in Hop; unfold OpSet, OpDelete in Hop; [lia|].
          destruct Hop as (_ & Hnil & _). rewrite Hnil in Hv. done. }
      destruct (Z.eqb_spec (mr_TTLMillis m) 0) as [Hl|Hl]; cbn [negb].
      2:{ split; [done|]. intros (_ & _ & _ & _ & _ & op & Hop). exfalso.
          destruct op; cbn in Hop; unfold OpSet, OpDelete in Hop; lia. }
      rewrite DeleteRequest_Validate_ok. cbn [dr_Key dr_MutationID dr_Options]. rewrite Ho.
      apply len_nil_iff in Hv. split.
      * intros (? & ? & ? & ?). split_and!; try done. by exists MDelete.
      * intros (_ & ? & ? & ? & ? & _). done.
    + split; [done|]. intros (_ & _ & _ & _ & _ & op & Hop).
      destruct op; cbn in Hop; unfold OpSet, OpDelete in Hop; lia.
Qed.

Lemma MutationRequest_Validate_timeout m :
  go_typed m →
  let r := MutationRequest_Validate m in
  is_error r ErrInvalidWriteTimeout = false ∧ is_error r ErrTimeoutNotWholeMillis = false ∧
  is_error r ErrWriteTimeoutTooLarge = false.
Proof.
  intros Hm. assert (u32 (mr_Timeout m)) as Ht by apply Hm.
  cbv zeta. unfold MutationRequest_Validate, SetRequest_Validate, DeleteRequest_Validate,
    validateKey. cbv zeta. cbn [sr_Key sr_Value sr_MutationID sr_Options dr_Key dr_MutationID dr_Options].
  rewrite (WriteOptions_Validate_millis (MutationRequest_WriteOptions m) _ Ht (timeout_no_overflow _ Ht)).
  repeat case_if; done.
Qed.

(** C31. A mutation request is accepted exactly when it is a well-formed set,
    or a delete that carries neither value nor TTL, for a non-zero hub
    generation, with a key within bounds, a non-zero mutation identity and
    known write options.  The millisecond timeout of a request always
    converts without overflow and is never a reason to reject it. *)
Theorem MutationRequest_Validate_spec (m : MutationRequest) :
  go_typed m →
  (MutationRequest_Validate m = None ↔
     mr_HubGeneration m ≠ 0 ∧ key_ok (mr_Key m) ∧ MutationID_IsZero (mr_MutationID m) = false ∧
     WriteMode_Valid (mr_Mode m) = true ∧ mr_Confirm m = ConfirmInvalidateApplied ∧
     ∃ op, mutation_op_of m op) ∧
  wo_Timeout (MutationRequest_WriteOptions m) = mr_Timeout m * Millisecond ∧
  is_error (MutationRequest_Validate m) ErrInvalidWriteTimeout = false ∧
  is_error (MutationRequest_Validate m) ErrTimeoutNotWholeMillis = false ∧
  is_error (MutationRequest_Validate m) ErrWriteTimeoutTooLarge = false.
Proof.
  intros Hm. split; [by apply MutationRequest_Validate_ok|].
  split; [apply timeout_no_overflow, Hm|]. by apply MutationRequest_Validate_timeout.
Qed.

Lemma MutationRequest_Validate_spec_witness :
  let m := mkMutationRequest OpDelete (string_bytes "k") [] 0 (NewMutationID 1 1)
             WriteSync 2 0 4294967295 7 in
  MutationRequest_Validate m = None ∧
  wo_Timeout (MutationRequest_WriteOptions m) = 4294967295000000.
Proof.
  cbv zeta. set (m := mkMutationRequest _ _ _ _ _ _ _ _ _ _).
  destruct (MutationRequest_Validate_spec m ltac:(by vm_compute)) as (Hok & Ht & _).
  split; [apply Hok|exact Ht].
  split_and!; try done. by exists MDelete.
Defined.

(** A handshake request is accepted exactly when its version range is
    ordered and non-zero and it names a cluster; a hub handshake exactly when
    it selects a supported version, names a generation, a partition count and
    a cluster, and only a durable hub claims durable health. *)
Lemma Handshake_Validate_spec (q : HandshakeRequest) (h : Handshake) :
  go_typed q →
  (HandshakeRequest_Validate q = None ↔
     1 <= pr_MinSupported (hsr_Protocol q) <= pr_Version (hsr_Protocol q) ∧
     ¬ blank (string_bytes (hsr_ClusterID q))) ∧
  (Handshake_Validate h = None ↔
     hs_ProtocolVersion h = CurrentProtocolVersion ∧ hs_HubGeneration h ≠ 0 ∧
     hs_PartitionCount h ≠ 0 ∧
     (hs_StorageProfile h = StorageDurable ∨
      (hs_StorageProfile h = StorageMemory ∧ hs_DurableHealthy h = false)) ∧
     ¬ blank (string_bytes (hs_ClusterID h))).
Proof.
  intros [Hr _]. rewrite <- !validateClusterID_ok. split.
  - unfold HandshakeRequest_Validate. pose proof (ProtocolRange_Validate_ok _ Hr) as Hp.
    destruct (ProtocolRange_Validate (hsr_Protocol q)); [|by rewrite <- Hp; naive_solver].
    split; [done|]. intros [H _]. by apply Hp in H.
  - unfold Handshake_Validate, MinSupportedProtocolVersion, CurrentProtocolVersion.
    unfold_enums. destruct (hs_DurableHealthy h), (validateClusterID (hs_ClusterID h));
      validate_cases.
Qed.

Lemma Handshake_Validate_spec_witness :
  HandshakeRequest_Validate (mkHandshakeRequest CurrentProtocolRange "prod" 0) = None ∧
  Handshake_Validate (mkHandshake 1 42 16 StorageDurable true "prod") = None.
Proof.
  assert (¬ blank (string_bytes "prod")) as Hb
    by (rewrite <- TrimSpace_empty; by vm_compute).
  destruct (Handshake_Validate_spec (mkHandshakeRequest CurrentProtocolRange "prod" 0)
    (mkHandshake 1 42 16 StorageDurable true "prod") ltac:(done)) as [Hq Hh].
  split; [by apply Hq|]. apply Hh. split_and!; try done. by left.
Defined.

(** A hub status is accepted exactly when it names a generation and is
    either an OK status with a coherent storage posture, or one of the two
    rejections ERR_BAD_GENERATION and ERR_INVALID_ARGUMENT, whose posture
    fields are not looked at. *)
Lemma HubStatus_Validate_spec (m : HubStatus) :
  HubStatus_Validate m = None ↔
  hst_HubGeneration m ≠ 0 ∧
  ((hst_Status m = StatusOK ∧
    (hst_StorageProfile m = StorageDurable ∨
     (hst_StorageProfile m = StorageMemory ∧ hst_DurableHealthy m = false))) ∨
   hst_Status m = StatusErrBadGeneration ∨ hst_Status m = StatusErrInvalidArgument).
Proof.
  unfold HubStatus_Validate, Status_Valid. unfold_enums. unfold_status.
  destruct (hst_DurableHealthy m); validate_cases.
Qed.

(** A read request passes the partition check exactly when it names a
    generation and its key and minimum version agree with the routing; the
    check never panics, a partition count of zero being reported as an
    error before any routing. *)
Lemma rpc_GetRequest_ValidateForPartitions_spec (m : rpc_GetRequest) (partitionCount : Z) :
  (rpc_GetRequest_ValidateForPartitions m partitionCount = Returns None ↔
     rgr_HubGeneration m ≠ 0 ∧ key_ok (rgr_Key m) ∧ partitionCount ≠ 0 ∧
     min_version_routed (rgr_Key m) (rgr_MinVersion m) partitionCount) ∧
  (rpc_GetRequest_Validate m = None ↔ rgr_HubGeneration m ≠ 0 ∧ key_ok (rgr_Key m)) ∧
  (rpc_GetRequest_Validate m = None →
   rpc_GetRequest_ValidateForPartitions m 0 = Returns (Some ErrInvalidPartitionCount)).
Proof.
  unfold rpc_GetRequest_ValidateForPartitions, rpc_GetRequest_Validate.
  rewrite rpc_validateKey_eq, <- validateKey_ok.
  destruct (Z.eqb_spec (rgr_HubGeneration m) 0); [naive_solver|].
  destruct (validateKey (rgr_Key m)) eqn:Ek; [naive_solver|].
  rewrite wire_GetRequest_Validate_ok, <- validateKey_ok. cbn [wgr_Key wgr_MinVersion].
  unfold wire_GetRequest_Validate. cbn [wgr_Key]. rewrite Ek. naive_solver.
Qed.

(** ** Responses *)

Lemma GetResponse_Validate_ok m :
  go_typed m →
  GetResponse_Validate m = None ↔
  gp_HubGeneration m ≠ 0 ∧
  (∃ g, get_record_wf g ∧
        mkGetRecordFields (gp_Status m) (gp_Version m) (gp_Kind m) (gp_Value m) =
        get_record_fields g) ∧
  (gp_Status m ≠ StatusOK → gp_TTLMillis m = 0).
Proof.
  intros (Hs & _ & Hv & _ & Hk). unfold GetResponse_Validate, StatusCarriesGetRecord.
  set (r := mkGetRecordFields _ _ _ _).
  assert (GetRecordFields_Validate r = None ↔ ∃ g, get_record_wf g ∧ r = get_record_fields g)
    as Hr.
  { split; [by apply GetRecordFields_Validate_complete|].
    intros (g & Hg & ->). by apply GetRecordFields_Validate_sound. }
  rewrite <- Hr. unfold_status.
  destruct (Z.eqb_spec (gp_HubGeneration m) 0); [naive_solver|].
  destruct (GetRecordFields_Validate r); [naive_solver|]. validate_cases.
Qed.

(** A read response is accepted exactly when it names a generation, its
    record is a well-formed read result, and only an OK response has a TTL. *)
Lemma GetResponse_Validate_spec (m : GetResponse) :
  go_typed m →
  GetResponse_Validate m = None ↔
  gp_HubGeneration m ≠ 0 ∧
  (∃ g, get_record_wf g ∧
        mkGetRecordFields (gp_Status m) (gp_Version m) (gp_Kind m) (gp_Value m) =
        get_record_fields g) ∧
  (gp_Status m ≠ StatusOK → gp_TTLMillis m = 0).
Proof. apply GetResponse_Validate_ok. Qed.

Lemma GetResponse_Validate_spec_witness :
  GetResponse_Validate
    (mkGetResponse StatusOK 7 (mkVersionTag 1 5) (string_bytes "v") 1000 RecordValue) = None.
Proof.
  apply GetResponse_Validate_spec; [by vm_compute|]. split_and!; [done| |done].
  exists (GRValue (mkVersionTag 1 5) (string_bytes "v")). by vm_compute.
Defined.

(** The outcome a mutation response reports. *)
Inductive mutation_outcome :=
| Committed (confirmed : bool) (version : VersionTag)
| Rejected (status : Z).

Definition mutation_outcome_of (m : MutationResponse) (o : mutation_outcome) : Prop :=
  match o with
  | Committed confirmed v =>
      mp_Status m = (if confirmed then StatusOK else StatusErrWriteConfirmTimeout) ∧
      mp_Version m = v ∧ vt_Sequence v ≠ 0
  | Rejected s =>
      mp_Status m = s ∧ mp_Version m = zero_VersionTag ∧
      s ∈ [StatusErrDurabilityUnavailable; StatusErrBadGeneration; StatusErrRateLimited;
           StatusErrInvalidArgument; StatusErrInternal]
  end.

Lemma VersionTag_IsZero_false v : VersionTag_IsZero v = false ↔ v ≠ zero_VersionTag.
Proof. unfold VersionTag_IsZero. by rewrite bool_decide_eq_false. Qed.

Lemma MutationResponse_Validate_ok m :
  go_typed m →
  MutationResponse_Validate m = None ↔
  mp_HubGeneration m ≠ 0 ∧ ∃ o, mutation_outcome_of m o.
Proof.
  intros (Hs & _ & _). split.
  - unfold MutationResponse_Validate. intros H.
    destruct (Status_Valid (mp_Status m)) eqn:Es; [|discriminate]. cbn [negb] in H.
    apply Status_Valid_cases in Es; [|done].
    destruct (_ || _) eqn:Eg; [discriminate|].
    destruct (Z.eqb_spec (mp_HubGeneration m) 0); [discriminate|]. split; [done|].
    unfold StatusCarriesCommittedVersion in H. unfold_status.
    destruct (Z.eqb_spec (mp_Status m) 0); [|destruct (Z.eqb_spec (mp_Status m) 7)];
      cbn [orb] in H.
    + apply VersionTag_ValidateCommitted_ok in H. by exists (Committed true (mp_Version m)).
    + apply VersionTag_ValidateCommitted_ok in H. by exists (Committed false (mp_Version m)).
    + exists (Rejected (mp_Status m)). split; [done|].
      destruct (VersionTag_IsZero (mp_Version m)) eqn:Ez; [|discriminate].
      unfold VersionTag_IsZero in Ez. case_bool_decide; [|done]. split; [done|].
      rewrite !elem_of_cons. unfold_status. lia.
  - intros (Hg & o & Ho). unfold MutationResponse_Validate.
    destruct o as [c v|s]; cbn in Ho.
    + destruct Ho as (-> & -> & Hv). apply VersionTag_ValidateCommitted_ok in Hv.
      destruct c; cbn; rewrite (proj2 (Z.eqb_neq _ _) Hg); done.
    + destruct Ho as (-> & -> & Hin). clear Hs.
      repeat (apply elem_of_cons in Hin as [->|Hin];
              [cbn; by rewrite (proj2 (Z.eqb_neq _ _) Hg)|]).
      by apply elem_of_nil in Hin.
Qed.

(** C28. A mutation response is accepted exactly when it names a generation
    and reports either a commit, with the committed version, whether the
    peers confirmed it or the confirmation timed out, or a rejection that
    carries no version. *)
Theorem MutationResponse_Validate_spec (m : MutationResponse) :
  go_typed m →
  MutationResponse_Validate m = None ↔
  mp_HubGeneration m ≠ 0 ∧ ∃ o, mutation_outcome_of m o.
Proof. apply MutationResponse_Validate_ok. Qed.

Lemma MutationResponse_Validate_spec_witness :
  MutationResponse_Validate
    (mkMutationResponse StatusErrWriteConfirmTimeout 7 (mkVersionTag 1 5)) = None.
Proof.
  apply MutationResponse_Validate_spec; [by vm_compute|]. split; [done|].
  by exists (Committed false (mkVersionTag 1 5)).
Defined.

(** C29. A commit is never retried: if a valid mutation response leaves the
    mutation eligible for retry under the same identity, nothing was
    committed (the response carries no version), and if it carries a
    committed version its status is a success for the caller. *)
Theorem retry_never_repeats_a_commit (m : MutationResponse) :
  go_typed m → MutationResponse_Validate m = None →
  (RetrySameMutationID (mp_Status m) = true →
     StatusCarriesCommittedVersion (mp_Status m) = false ∧ mp_Version m = zero_VersionTag) ∧
  (VersionTag_IsZero (mp_Version m) = false →
     Status_Class (mp_Status m) = StatusClassSuccess ∧ RetrySameMutationID (mp_Status m) = false).
Proof.
  intros Hm Hok. apply MutationResponse_Validate_ok in Hok as (_ & o & Ho); [|done].
  rewrite VersionTag_IsZero_false.
  destruct o as [[|] v|s]; cbn in Ho.
  1,2: destruct Ho as (-> & -> & Hv); by split.
  destruct Ho as (-> & -> & Hin).
  split; [|done]. intros Hr. split; [|done].
  repeat (apply elem_of_cons in Hin as [->|Hin]; [by vm_compute in Hr |- *|]).
  by apply elem_of_nil in Hin.
Qed.

Lemma retry_never_repeats_a_commit_witness :
  let m := mkMutationResponse StatusErrRateLimited 7 zero_VersionTag in
  RetrySameMutationID (mp_Status m) = true ∧ mp_Version m = zero_VersionTag.
Proof.
  cbv zeta. split; [done|].
  apply (retry_never_repeats_a_commit (mkMutationResponse StatusErrRateLimited 7 zero_VersionTag));
    by vm_compute.
Defined.
