(* ===== verification/Codec.v ===== *)
(** * The interface of a message conversion

    A message type of the domain and its protobuf counterpart are connected
    by a [ProtoX] function, a [FromProtoX] function and the validator of the
    domain type.  [MessageCodec] states what the conversion of one message
    promises to the code that composes conversions (the stream envelopes of
    the control plane): decoding an encoded valid message returns it, and a
    message is returned without error only if it is valid and within the
    ranges of its Go types ([mc_wf]); the fields of an encoded message are
    within the ranges of the protobuf types ([mc_typed]). *)

From S2P Require Import Prelude GoErrors.

Class MessageCodec (D P : Type) `{GoTyped P} := {
  mc_wf : D → Prop;
  mc_validate : D → error;
  mc_proto : D → P;
  mc_fromproto : option P → D * error;
  mc_roundtrip : ∀ d, mc_wf d → mc_validate d = None →
    mc_fromproto (Some (mc_proto d)) = (d, None);
  mc_sound : ∀ p d, mc_fromproto p = (d, None) → mc_validate d = None;
  mc_inrange : ∀ q d, go_typed q → mc_fromproto (Some q) = (d, None) → mc_wf d;
  mc_nil : (mc_fromproto None).2 ≠ None;
  mc_typed : ∀ d, mc_wf d → go_typed (mc_proto d);
}.

Section codec.
Context {D P : Type} `{MessageCodec D P}.

(** A decoded message is stable: encoding it and decoding it again returns
    it, so a hub and a node that forward a message agree on it. *)
Lemma mc_reencode (q : P) (d : D) :
  go_typed q → mc_fromproto (Some q) = (d, None) →
  mc_fromproto (Some (mc_proto d)) = (d, None).
Proof.
  intros Hq Hd. apply mc_roundtrip; [by eapply mc_inrange|by eapply mc_sound].
Qed.

(** Encoding is injective on valid messages. *)
Lemma mc_proto_inj (d e : D) :
  mc_wf d → mc_wf e → mc_validate d = None → mc_validate e = None →
  mc_proto d = mc_proto e → d = e.
Proof.
  intros Hd He Vd Ve Heq.
  pose proof (mc_roundtrip d Hd Vd) as Rd. pose proof (mc_roundtrip e He Ve) as Re.
  rewrite Heq in Rd. congruence.
Qed.
End codec.

(** The error of a conversion that ends in [return out, out.Validate()]. *)
Lemma validated_ok {D} (validate : D → error) (out d : D) :
  (out, validate out) = (d, None) → out = d ∧ validate d = None.
Proof. intros [= -> <-]. done. Qed.

(** [codec_ok D P]: a valid message survives the round trip, so no two valid
    messages have the same encoding; an accepted protobuf message decodes to a
    valid message, and re-encoding that message is stable. *)
Definition codec_ok (D P : Type) `{MessageCodec D P} : Prop :=
  (∀ d, mc_wf d → mc_validate d = None → mc_fromproto (Some (mc_proto d)) = (d, None)) ∧
  (∀ p d, mc_fromproto p = (d, None) → p ≠ None ∧ mc_validate d = None) ∧
  (∀ q d, go_typed q → mc_fromproto (Some q) = (d, None) →
     mc_fromproto (Some (mc_proto d)) = (d, None)) ∧
  (∀ d e, mc_wf d → mc_wf e → mc_validate d = None → mc_validate e = None →
     mc_proto d = mc_proto e → d = e).

Lemma codec_ok_instance (D P : Type) `{MessageCodec D P} : codec_ok D P.
Proof.
  split_and!; [apply mc_roundtrip| |apply mc_reencode|apply mc_proto_inj].
  intros p d Hd. split; [|by eapply mc_sound].
  intros ->. apply mc_nil. by rewrite Hd.
Qed.

(** [codec_typed D P]: the conversions keep every field within its type.  A
    domain value in range encodes to a protobuf value in range, and what is
    decoded without error from a protobuf value in range is in range.  That the
    values are moreover the same is [keeps_fields] of [ConversionsExact]. *)
Definition codec_typed (D P : Type) `{GoTyped D} `{MessageCodec D P} : Prop :=
  (∀ d, mc_wf d → go_typed d) ∧
  (∀ d, mc_wf d → go_typed (mc_proto d)) ∧
  (∀ q d, go_typed q → mc_fromproto (Some q) = (d, None) → go_typed d).

Lemma codec_typed_instance (D P : Type) `{GoTyped D} `{MessageCodec D P} :
  (∀ d, mc_wf d → go_typed d) → codec_typed D P.
Proof.
  intros Hwf. split_and!; [done|apply mc_typed|].
  intros q d Hq Hd. by eapply Hwf, mc_inrange.
Qed.
