(* ===== verification/RpcConvert.v ===== *)
(** * Data-plane conversions (internal/rpc/convert.go)

    [ProtoX] and [FromProtoX] for every message of the Data service.  A
    [FromProtoX] returns the pair of a domain value and an error, and like
    the code it returns the converted value also when its validation fails. *)

From S2P Require Import Prelude GoErrors GoStd Partition WireStatus WireProtocol WireTypes.
From S2P Require Import WireRecord PbCommon PbData RpcTypes Codec.

Local Open Scope go_scope.

(** ** wire domain → protobuf *)

Definition ProtoStatus (s : Z) : Z := to_int32 s.
Definition ProtoRecordKind (k : Z) : Z := to_int32 k.
Definition ProtoWriteMode (m : Z) : Z := to_int32 m.
Definition ProtoStorageProfile (p : Z) : Z := to_int32 p.
Definition ProtoConfirmLevel (c : Z) : Z := to_int32 c.

Definition ProtoMutationOp (op : Z) : Z :=
  if op =? OpSet then pb_MutationOp_MUTATION_OP_SET
  else if op =? OpDelete then pb_MutationOp_MUTATION_OP_DELETE
  else pb_MutationOp_MUTATION_OP_UNSPECIFIED.

Definition ProtoVersionTag (v : VersionTag) : pb_VersionTag :=
  {| pb_VersionTag_PartitionId := vt_PartitionID v;
     pb_VersionTag_Sequence := vt_Sequence v |}.

(** [id] is the function's own copy of the array, so [id[:]] aliases nothing
    the caller holds. *)
Definition ProtoMutationID (id : MutationID) : pb_MutationID := {| pb_MutationID_Id := id |}.

Definition ProtoHandshakeRequest (m : HandshakeRequest) : pb_HandshakeRequest :=
  {| pb_HandshakeRequest_ProtocolVersion := to_uint32 (pr_Version (hsr_Protocol m));
     pb_HandshakeRequest_MinSupportedVersion := to_uint32 (pr_MinSupported (hsr_Protocol m));
     pb_HandshakeRequest_ClusterId := hsr_ClusterID m;
     pb_HandshakeRequest_ExpectedHubGeneration := hsr_ExpectedHubGeneration m |}.

Definition ProtoHandshake (m : Handshake) : pb_HandshakeResponse :=
  {| pb_HandshakeResponse_ProtocolVersion := to_uint32 (hs_ProtocolVersion m);
     pb_HandshakeResponse_HubGeneration := hs_HubGeneration m;
     pb_HandshakeResponse_PartitionCount := hs_PartitionCount m;
     pb_HandshakeResponse_StorageProfile := ProtoStorageProfile (hs_StorageProfile m);
     pb_HandshakeResponse_DurableHealthy := hs_DurableHealthy m;
     pb_HandshakeResponse_ClusterId := hs_ClusterID m |}.

Definition ProtoHubStatusRequest (m : HubStatusRequest) : pb_HubStatusRequest :=
  {| pb_HubStatusRequest_HubGeneration := hsq_HubGeneration m |}.

Definition ProtoHubStatus (m : HubStatus) : pb_HubStatusResponse :=
  {| pb_HubStatusResponse_HubGeneration := hst_HubGeneration m;
     pb_HubStatusResponse_StorageProfile := ProtoStorageProfile (hst_StorageProfile m);
     pb_HubStatusResponse_DurableHealthy := hst_DurableHealthy m;
     pb_HubStatusResponse_Status := ProtoStatus (hst_Status m) |}.

Definition ProtoGetRequest (m : rpc_GetRequest) : pb_GetRequest :=
  {| pb_GetRequest_Key := CopyBytes (rgr_Key m);
     pb_GetRequest_MinVersion :=
       match rgr_MinVersion m with Some v => Some (ProtoVersionTag v) | None => None end;
     pb_GetRequest_HubGeneration := rgr_HubGeneration m |}.

Definition ProtoGetResponse (m : GetResponse) : pb_GetResponse :=
  {| pb_GetResponse_Status := ProtoStatus (gp_Status m);
     pb_GetResponse_HubGeneration := gp_HubGeneration m;
     pb_GetResponse_Version := Some (ProtoVersionTag (gp_Version m));
     pb_GetResponse_Value := CopyBytes (gp_Value m);
     pb_GetResponse_TtlMillis := gp_TTLMillis m;
     pb_GetResponse_Kind := ProtoRecordKind (gp_Kind m) |}.

Definition ProtoMutationRequest (m : MutationRequest) : pb_MutationRequest :=
  {| pb_MutationRequest_Op := ProtoMutationOp (mr_Op m);
     pb_MutationRequest_Key := CopyBytes (mr_Key m);
     pb_MutationRequest_Value := CopyBytes (mr_Value m);
     pb_MutationRequest_TtlMillis := mr_TTLMillis m;
     pb_MutationRequest_MutationId := Some (ProtoMutationID (mr_MutationID m));
     pb_MutationRequest_Mode := ProtoWriteMode (mr_Mode m);
     pb_MutationRequest_W := to_uint32 (mr_W m);
     pb_MutationRequest_Confirm := ProtoConfirmLevel (mr_Confirm m);
     pb_MutationRequest_TimeoutMillis := mr_Timeout m;
     pb_MutationRequest_HubGeneration := mr_HubGeneration m |}.

Definition ProtoMutationResponse (m : MutationResponse) : pb_MutationResponse :=
  {| pb_MutationResponse_Status := ProtoStatus (mp_Status m);
     pb_MutationResponse_HubGeneration := mp_HubGeneration m;
     pb_MutationResponse_Version := Some (ProtoVersionTag (mp_Version m)) |}.

(** ** protobuf → wire domain: enumerations

    The operand of [%v] is kept as the number; its spelling is the protobuf
    runtime's. *)

Definition FromProtoStatus (s : Z) : Z * error :=
  if s =? pb_Status_STATUS_OK then (StatusOK, None)
  else if s =? pb_Status_STATUS_NOT_FOUND then (StatusNotFound, None)
  else if s =? pb_Status_STATUS_NOT_CAUGHT_UP then (StatusNotCaughtUp, None)
  else if s =? pb_Status_STATUS_ERR_DURABILITY_UNAVAILABLE
  then (StatusErrDurabilityUnavailable, None)
  else if s =? pb_Status_STATUS_ERR_BAD_GENERATION then (StatusErrBadGeneration, None)
  else if s =? pb_Status_STATUS_ERR_RATE_LIMITED then (StatusErrRateLimited, None)
  else if s =? pb_Status_STATUS_ERR_INVALID_ARGUMENT then (StatusErrInvalidArgument, None)
  else if s =? pb_Status_STATUS_ERR_WRITE_CONFIRM_TIMEOUT
  then (StatusErrWriteConfirmTimeout, None)
  else if s =? pb_Status_STATUS_ERR_INTERNAL then (StatusErrInternal, None)
  else (0, Some (Wrapf "%w: %v" ErrInvalidStatus [AInt s])).

Definition FromProtoRecordKind (k : Z) : Z * error :=
  if k =? pb_RecordKind_RECORD_KIND_VALUE then (RecordValue, None)
  else if k =? pb_RecordKind_RECORD_KIND_TOMBSTONE then (RecordTombstone, None)
  else (0, Some (Wrapf "%w: record kind %v" ErrInvalidEnum [AInt k])).

Definition FromProtoWriteMode (m : Z) : Z * error :=
  if m =? pb_WriteMode_WRITE_MODE_FAST then (WriteFast, None)
  else if m =? pb_WriteMode_WRITE_MODE_SYNC then (WriteSync, None)
  else (0, Some (Wrapf "%w: write mode %v" ErrInvalidEnum [AInt m])).

Definition FromProtoStorageProfile (p : Z) : Z * error :=
  if p =? pb_StorageProfile_STORAGE_PROFILE_MEMORY then (StorageMemory, None)
  else if p =? pb_StorageProfile_STORAGE_PROFILE_DURABLE then (StorageDurable, None)
  else (0, Some (Wrapf "%w: storage profile %v" ErrInvalidEnum [AInt p])).

Definition FromProtoConfirmLevel (c : Z) : Z * error :=
  if c =? pb_ConfirmLevel_CONFIRM_LEVEL_INVALIDATE_APPLIED then (ConfirmInvalidateApplied, None)
  else (0, Some (Wrapf "%w: confirm level %v" ErrInvalidEnum [AInt c])).

Definition FromProtoMutationOp (op : Z) : Z * error :=
  if op =? pb_MutationOp_MUTATION_OP_SET then (OpSet, None)
  else if op =? pb_MutationOp_MUTATION_OP_DELETE then (OpDelete, None)
  else (0, Some (Wrapf "%w: %v" ErrInvalidOp [AInt op])).

(** math.MaxUint16 *)
Definition MaxUint16 : Z := 65535.

Definition rpc_protocolVersionFromUint32 (v : Z) : Z * error :=
  if v >? MaxUint16
  then (0, Some (Wrapf "%w: protocol version %d exceeds uint16" ErrInvalidProtocolRange [AInt v]))
  else (to_uint16 v, None).

Definition FromProtoVersionTag (v : option pb_VersionTag) : VersionTag :=
  match v with
  | None => zero_VersionTag
  | Some _ => {| vt_PartitionID := pb_VersionTag_GetPartitionId v;
                 vt_Sequence := pb_VersionTag_GetSequence v |}
  end.

Definition FromProtoMutationID (m : option pb_MutationID) : MutationID * error :=
  let id := zero_bytes 16 in
  match m with
  | None => (id, Some ErrMutationIDRequired)
  | Some _ =>
      let raw := pb_MutationID_GetId m in
      if len raw =? 0 then (id, Some ErrMutationIDRequired)
      else if negb (len raw =? len id)
      then (id, Some (Errorf "mutation id must be %d bytes, got %d"
                        [AInt (len id); AInt (len raw)]))
      else (raw, None) (* copy(id[:], raw) *)
  end.

(** ** protobuf → wire domain: messages *)

Definition zero_ProtocolRange : ProtocolRange := mkProtocolRange 0 0.
Definition zero_HandshakeRequest : HandshakeRequest :=
  mkHandshakeRequest zero_ProtocolRange "" 0.
Definition zero_Handshake : Handshake := mkHandshake 0 0 0 0 false "".
Definition zero_HubStatusRequest : HubStatusRequest := mkHubStatusRequest 0.
Definition zero_HubStatus : HubStatus := mkHubStatus 0 0 false 0.
Definition zero_rpc_GetRequest : rpc_GetRequest := mkRpcGetRequest [] None 0.
Definition zero_GetResponse : GetResponse := mkGetResponse 0 0 zero_VersionTag [] 0 0.
Definition zero_MutationRequest : MutationRequest :=
  mkMutationRequest 0 [] [] 0 (zero_bytes 16) 0 0 0 0 0.
Definition zero_MutationResponse : MutationResponse := mkMutationResponse 0 0 zero_VersionTag.

Definition FromProtoHandshakeRequest (m : option pb_HandshakeRequest) : HandshakeRequest * error :=
  match m with
  | None => (zero_HandshakeRequest, Some (Errorf "nil handshake request" []))
  | Some _ =>
      let? version := rpc_protocolVersionFromUint32 (pb_HandshakeRequest_GetProtocolVersion m)
        or zero_HandshakeRequest in
      let? minimum := rpc_protocolVersionFromUint32 (pb_HandshakeRequest_GetMinSupportedVersion m)
        or zero_HandshakeRequest in
      let out :=
        {| hsr_Protocol := {| pr_Version := version; pr_MinSupported := minimum |};
           hsr_ClusterID := pb_HandshakeRequest_GetClusterId m;
           hsr_ExpectedHubGeneration := pb_HandshakeRequest_GetExpectedHubGeneration m |} in
      (out, HandshakeRequest_Validate out)
  end.

Definition FromProtoHandshake (m : option pb_HandshakeResponse) : Handshake * error :=
  match m with
  | None => (zero_Handshake, Some (Errorf "nil handshake response" []))
  | Some _ =>
      let? version := rpc_protocolVersionFromUint32 (pb_HandshakeResponse_GetProtocolVersion m)
        or zero_Handshake in
      let? profile := FromProtoStorageProfile (pb_HandshakeResponse_GetStorageProfile m)
        or zero_Handshake in
      let out :=
        {| hs_ProtocolVersion := version;
           hs_HubGeneration := pb_HandshakeResponse_GetHubGeneration m;
           hs_PartitionCount := pb_HandshakeResponse_GetPartitionCount m;
           hs_StorageProfile := profile;
           hs_DurableHealthy := pb_HandshakeResponse_GetDurableHealthy m;
           hs_ClusterID := pb_HandshakeResponse_GetClusterId m |} in
      (out, Handshake_Validate out)
  end.

Definition FromProtoHubStatusRequest (m : option pb_HubStatusRequest) : HubStatusRequest * error :=
  match m with
  | None => (zero_HubStatusRequest, Some (Errorf "nil hub status request" []))
  | Some _ =>
      let out := {| hsq_HubGeneration := pb_HubStatusRequest_GetHubGeneration m |} in
      (out, HubStatusRequest_Validate out)
  end.

Definition FromProtoHubStatus (m : option pb_HubStatusResponse) : HubStatus * error :=
  match m with
  | None => (zero_HubStatus, Some (Errorf "nil hub status" []))
  | Some _ =>
      let? status := FromProtoStatus (pb_HubStatusResponse_GetStatus m) or zero_HubStatus in
      let? profile := FromProtoStorageProfile (pb_HubStatusResponse_GetStorageProfile m)
        or zero_HubStatus in
      let out :=
        {| hst_HubGeneration := pb_HubStatusResponse_GetHubGeneration m;
           hst_StorageProfile := profile;
           hst_DurableHealthy := pb_HubStatusResponse_GetDurableHealthy m;
           hst_Status := status |} in
      (out, HubStatus_Validate out)
  end.

Definition FromProtoGetRequest (m : option pb_GetRequest) : rpc_GetRequest * error :=
  match m with
  | None => (zero_rpc_GetRequest, Some (Errorf "nil get request" []))
  | Some p =>
      let out :=
        {| rgr_Key := CopyBytes (pb_GetRequest_GetKey m);
           rgr_MinVersion :=
             match pb_GetRequest_MinVersion p with
             | Some _ => Some (FromProtoVersionTag (pb_GetRequest_GetMinVersion m))
             | None => None
             end;
           rgr_HubGeneration := pb_GetRequest_GetHubGeneration m |} in
      (out, rpc_GetRequest_Validate out)
  end.

Definition FromProtoGetResponse (m : option pb_GetResponse) : GetResponse * error :=
  match m with
  | None => (zero_GetResponse, Some (Errorf "nil get response" []))
  | Some _ =>
      let? status := FromProtoStatus (pb_GetResponse_GetStatus m) or zero_GetResponse in
      let? kind := FromProtoRecordKind (pb_GetResponse_GetKind m) or zero_GetResponse in
      let out :=
        {| gp_Status := status;
           gp_HubGeneration := pb_GetResponse_GetHubGeneration m;
           gp_Version := FromProtoVersionTag (pb_GetResponse_GetVersion m);
           gp_Value := CopyBytes (pb_GetResponse_GetValue m);
           gp_TTLMillis := pb_GetResponse_GetTtlMillis m;
           gp_Kind := kind |} in
      (out, GetResponse_Validate out)
  end.

Definition FromProtoMutationRequest (m : option pb_MutationRequest) : MutationRequest * error :=
  match m with
  | None => (zero_MutationRequest, Some (Errorf "nil mutation request" []))
  | Some _ =>
      let? id := FromProtoMutationID (pb_MutationRequest_GetMutationId m)
        or zero_MutationRequest in
      if pb_MutationRequest_GetW m >? MaxUint16
      then (zero_MutationRequest, Some (Wrapf "%w: w out of range" ErrInvalidWriteTimeout []))
      else
      let? op := FromProtoMutationOp (pb_MutationRequest_GetOp m) or zero_MutationRequest in
      let? mode := FromProtoWriteMode (pb_MutationRequest_GetMode m) or zero_MutationRequest in
      let? confirm := FromProtoConfirmLevel (pb_MutationRequest_GetConfirm m)
        or zero_MutationRequest in
      let out :=
        {| mr_Op := op;
           mr_Key := CopyBytes (pb_MutationRequest_GetKey m);
           mr_Value := CopyBytes (pb_MutationRequest_GetValue m);
           mr_TTLMillis := pb_MutationRequest_GetTtlMillis m;
           mr_MutationID := id;
           mr_Mode := mode;
           mr_W := to_uint16 (pb_MutationRequest_GetW m);
           mr_Confirm := confirm;
           mr_Timeout := pb_MutationRequest_GetTimeoutMillis m;
           mr_HubGeneration := pb_MutationRequest_GetHubGeneration m |} in
      (out, MutationRequest_Validate out)
  end.

Definition FromProtoMutationResponse (m : option pb_MutationResponse) : MutationResponse * error :=
  match m with
  | None => (zero_MutationResponse, Some (Errorf "nil mutation response" []))
  | Some _ =>
      let? status := FromProtoStatus (pb_MutationResponse_GetStatus m) or zero_MutationResponse in
      let out :=
        {| mp_Status := status;
           mp_HubGeneration := pb_MutationResponse_GetHubGeneration m;
           mp_Version := FromProtoVersionTag (pb_MutationResponse_GetVersion m) |} in
      (out, MutationResponse_Validate out)
  end.

(** ** Lemmas: each conversion of a field decodes what it encodes

    The rewrite base [from_proto] holds one decode-after-encode equation per
    field conversion. *)

Create Rewrite HintDb from_proto.

Ltac unfold_pb_enums :=
  unfold pb_Status_STATUS_OK, pb_Status_STATUS_NOT_FOUND, pb_Status_STATUS_NOT_CAUGHT_UP,
    pb_Status_STATUS_ERR_DURABILITY_UNAVAILABLE, pb_Status_STATUS_ERR_BAD_GENERATION,
    pb_Status_STATUS_ERR_RATE_LIMITED, pb_Status_STATUS_ERR_INVALID_ARGUMENT,
    pb_Status_STATUS_ERR_WRITE_CONFIRM_TIMEOUT, pb_Status_STATUS_ERR_INTERNAL,
    pb_RecordKind_RECORD_KIND_VALUE, pb_RecordKind_RECORD_KIND_TOMBSTONE,
    pb_WriteMode_WRITE_MODE_FAST, pb_WriteMode_WRITE_MODE_SYNC,
    pb_StorageProfile_STORAGE_PROFILE_MEMORY, pb_StorageProfile_STORAGE_PROFILE_DURABLE,
    pb_ConfirmLevel_CONFIRM_LEVEL_INVALIDATE_APPLIED,
    pb_MutationOp_MUTATION_OP_SET, pb_MutationOp_MUTATION_OP_DELETE,
    pb_MutationOp_MUTATION_OP_UNSPECIFIED, OpSet, OpDelete in *.

(** Decides a statement about the conversion of an enumeration. *)
Ltac enum_cases :=
  unfold_enums; unfold_pb_enums; unfold_status;
  repeat case_if; simplify_eq/=; try done; repeat f_equal; try lia.

Lemma FromProtoStatus_valid s :
  u16 s → Status_Valid s = true → FromProtoStatus (ProtoStatus s) = (s, None).
Proof.
  intros Hs Hv. apply Status_Valid_cases in Hv; [|done].
  unfold ProtoStatus. rewrite to_int32_id by auto with go_int.
  by destruct Hv as [->|[->|[->|[->|[->|[->|[->|[->| ->]]]]]]]].
Qed.

Lemma FromProtoRecordKind_valid k :
  RecordKind_Valid k = true → FromProtoRecordKind (ProtoRecordKind k) = (k, None).
Proof. unfold_enums. intros H. by assert (k = 0 ∨ k = 1) as [->| ->] by lia. Qed.

Lemma FromProtoWriteMode_valid m :
  WriteMode_Valid m = true → FromProtoWriteMode (ProtoWriteMode m) = (m, None).
Proof. unfold_enums. intros H. by assert (m = 0 ∨ m = 1) as [->| ->] by lia. Qed.

Lemma FromProtoStorageProfile_valid p :
  StorageProfile_Valid p = true → FromProtoStorageProfile (ProtoStorageProfile p) = (p, None).
Proof. unfold_enums. intros H. by assert (p = 0 ∨ p = 1) as [->| ->] by lia. Qed.

Lemma FromProtoConfirmLevel_valid c :
  c = ConfirmInvalidateApplied → FromProtoConfirmLevel (ProtoConfirmLevel c) = (c, None).
Proof. by intros ->. Qed.

Lemma FromProtoMutationOp_valid op :
  Op_Valid op = true → FromProtoMutationOp (ProtoMutationOp op) = (op, None).
Proof. unfold Op_Valid, OpSet, OpDelete. intros H. by assert (op = 1 ∨ op = 2) as [->| ->] by lia. Qed.

Lemma rpc_protocolVersionFromUint32_id v :
  u16 v → rpc_protocolVersionFromUint32 (to_uint32 v) = (v, None).
Proof.
  intros Hv. unfold rpc_protocolVersionFromUint32, MaxUint16.
  rewrite to_uint32_id, to_uint16_id by auto with go_int. unfold u16 in Hv.
  case_if; [lia|done].
Qed.

Lemma FromProtoVersionTag_id v : FromProtoVersionTag (Some (ProtoVersionTag v)) = v.
Proof. by destruct v. Qed.

Lemma FromProtoMutationID_id id :
  MutationID_typed id → FromProtoMutationID (Some (ProtoMutationID id)) = (id, None).
Proof.
  unfold MutationID_typed, FromProtoMutationID. cbn [pb_MutationID_GetId ProtoMutationID pb_MutationID_Id].
  intros H. unfold len. rewrite H. done.
Qed.

Lemma CopyBytes_id b : CopyBytes b = b.
Proof. done. Qed.

#[export] Hint Rewrite FromProtoStatus_valid FromProtoRecordKind_valid FromProtoWriteMode_valid
  FromProtoStorageProfile_valid FromProtoConfirmLevel_valid FromProtoMutationOp_valid
  rpc_protocolVersionFromUint32_id FromProtoMutationID_id using (first [done | tauto]) : from_proto.
#[export] Hint Rewrite FromProtoVersionTag_id CopyBytes_id : from_proto.

(** Each field conversion that succeeds returns a value in range. *)

Lemma FromProtoStatus_ok s t :
  FromProtoStatus s = (t, None) → u16 t ∧ Status_Valid t = true ∧ s = t.
Proof.
  unfold FromProtoStatus. unfold_pb_enums. unfold_status.
  repeat case_if; intros [= <-]; (split; [done|split; [done|lia]]).
Qed.

Lemma FromProtoRecordKind_ok k t :
  FromProtoRecordKind k = (t, None) → u8 t ∧ RecordKind_Valid t = true ∧ k = t.
Proof.
  unfold FromProtoRecordKind. unfold_pb_enums. unfold_enums.
  repeat case_if; intros [= <-]; (split; [done|split; [done|lia]]).
Qed.

Lemma FromProtoWriteMode_ok k t :
  FromProtoWriteMode k = (t, None) → u8 t ∧ WriteMode_Valid t = true ∧ k = t.
Proof.
  unfold FromProtoWriteMode. unfold_pb_enums. unfold_enums.
  repeat case_if; intros [= <-]; (split; [done|split; [done|lia]]).
Qed.

Lemma FromProtoStorageProfile_ok k t :
  FromProtoStorageProfile k = (t, None) → u8 t ∧ StorageProfile_Valid t = true ∧ k = t.
Proof.
  unfold FromProtoStorageProfile. unfold_pb_enums. unfold_enums.
  repeat case_if; intros [= <-]; (split; [done|split; [done|lia]]).
Qed.

Lemma FromProtoConfirmLevel_ok k t :
  FromProtoConfirmLevel k = (t, None) → u8 t ∧ ConfirmLevel_Valid t = true ∧ k = t.
Proof.
  unfold FromProtoConfirmLevel. unfold_pb_enums. unfold_enums.
  repeat case_if; intros [= <-]; (split; [done|split; [done|lia]]).
Qed.

Lemma FromProtoMutationOp_ok k t :
  FromProtoMutationOp k = (t, None) → u8 t ∧ Op_Valid t = true ∧ k = t.
Proof.
  unfold FromProtoMutationOp, Op_Valid. unfold_pb_enums.
  repeat case_if; intros [= <-]; (split; [done|split; [done|lia]]).
Qed.

Lemma rpc_protocolVersionFromUint32_ok v t :
  u32 v → rpc_protocolVersionFromUint32 v = (t, None) → u16 t ∧ v = t.
Proof.
  unfold rpc_protocolVersionFromUint32, MaxUint16. intros Hv.
  case_if; intros [= <-]. assert (u16 v) by (unfold u16, u32 in *; lia).
  by rewrite to_uint16_id.
Qed.

Lemma FromProtoMutationID_ok m t : FromProtoMutationID m = (t, None) → MutationID_typed t.
Proof.
  unfold FromProtoMutationID, MutationID_typed. destruct m as [[raw]|]; [|done].
  cbn [pb_MutationID_GetId pb_MutationID_Id].
  repeat case_if; intros [= <-]. unfold len in *. change (length (zero_bytes 16)) with 16%nat in *. lia.
Qed.

Lemma FromProtoVersionTag_typed v : go_typed v → go_typed (FromProtoVersionTag v).
Proof. destruct v as [[p s]|]; [done|]. intros _. done. Qed.

(** Destructs the field conversions of a successful [FromProtoX]. *)
Ltac invert_fromproto H :=
  repeat match type of H with
  | match ?r with (_, _) => _ end = _ =>
      let x := fresh "x" in let E := fresh "E" in
      destruct r as [x [?|]] eqn:E; [discriminate H|]
  | (if ?b then _ else _) = _ => let E := fresh "E" in destruct b eqn:E; [discriminate H|]
  end.

(** ** The conversions implement the codec interface *)

Ltac roundtrip :=
  cbn -[go_typed FromProtoStatus FromProtoRecordKind FromProtoWriteMode FromProtoStorageProfile
        FromProtoConfirmLevel FromProtoMutationOp FromProtoMutationID FromProtoVersionTag
        rpc_protocolVersionFromUint32 ProtoStatus ProtoRecordKind ProtoWriteMode
        ProtoStorageProfile ProtoConfirmLevel ProtoMutationOp ProtoMutationID ProtoVersionTag
        CopyBytes to_uint32 to_uint16 MaxUint16 Z.gtb zero_bytes].

Lemma HandshakeRequest_roundtrip d :
  go_typed d → HandshakeRequest_Validate d = None →
  FromProtoHandshakeRequest (Some (ProtoHandshakeRequest d)) = (d, None).
Proof.
  destruct d as [[v min] c g]. intros [[Hv Hmin] Hg] H. cbn in Hv, Hmin. roundtrip.
  autorewrite with from_proto. by rewrite H.
Qed.

Lemma Handshake_roundtrip d :
  go_typed d → Handshake_Validate d = None →
  FromProtoHandshake (Some (ProtoHandshake d)) = (d, None).
Proof.
  destruct d as [v g n p h c]. intros (Hv & _) H. cbn in Hv.
  assert (StorageProfile_Valid p = true) as Hp.
  { unfold Handshake_Validate in H. cbn in H. case_ifs. by apply negb_false_iff. }
  roundtrip. autorewrite with from_proto. by rewrite H.
Qed.

Lemma HubStatusRequest_roundtrip d :
  HubStatusRequest_Validate d = None →
  FromProtoHubStatusRequest (Some (ProtoHubStatusRequest d)) = (d, None).
Proof. destruct d. intros H. roundtrip. by rewrite H. Qed.

(** A rejected hub status may carry an unknown storage profile, which has no
    protobuf value; the round trip needs the profile to be known. *)
Lemma HubStatus_roundtrip d :
  go_typed d → StorageProfile_Valid (hst_StorageProfile d) = true → HubStatus_Validate d = None →
  FromProtoHubStatus (Some (ProtoHubStatus d)) = (d, None).
Proof.
  destruct d as [g p h s]. cbn. intros (_ & _ & Hs) Hp H. cbn in Hs.
  assert (Status_Valid s = true) as Hv.
  { unfold HubStatus_Validate in H. cbn in H. case_ifs; by apply negb_false_iff. }
  roundtrip. autorewrite with from_proto. by rewrite H.
Qed.

Lemma rpc_GetRequest_roundtrip d :
  rpc_GetRequest_Validate d = None →
  FromProtoGetRequest (Some (ProtoGetRequest d)) = (d, None).
Proof.
  destruct d as [k [[p s]|] g]; intros H; roundtrip; autorewrite with from_proto; by rewrite H.
Qed.

Lemma GetResponse_roundtrip d :
  go_typed d → GetResponse_Validate d = None →
  FromProtoGetResponse (Some (ProtoGetResponse d)) = (d, None).
Proof.
  intros Hd H. pose proof H as Hok. apply GetResponse_Validate_ok in Hok; [|done].
  destruct d as [s g v value ttl k]. destruct Hd as (Hs & _). cbn in Hs.
  destruct Hok as (_ & (r & Hr & Heq) & _). cbn in Heq.
  assert (Status_Valid s = true ∧ RecordKind_Valid k = true) as [Hv Hk].
  { destruct r; cbn in Heq, Hr; simplify_eq; [done..|]. split; [|done].
    repeat (apply elem_of_cons in Hr as [->|Hr]; [done|]). by apply elem_of_nil in Hr. }
  roundtrip. autorewrite with from_proto. by rewrite H.
Qed.

Lemma MutationRequest_roundtrip d :
  go_typed d → MutationRequest_Validate d = None →
  FromProtoMutationRequest (Some (ProtoMutationRequest d)) = (d, None).
Proof.
  intros Hd H. pose proof H as Hok.
  apply MutationRequest_Validate_ok in Hok as (_ & _ & _ & Hmode & Hc & op & Hop); [|done].
  assert (Op_Valid (mr_Op d) = true) as Ho.
  { destruct op; cbn in Hop; [destruct Hop as [-> _]|destruct Hop as [-> _]]; done. }
  clear Hop. destruct d as [o key value ttl id mode w c t g].
  destruct Hd as (_ & _ & Hid & _ & Hw & _). cbn in Hid, Hw, Hmode, Hc, Ho.
  roundtrip. autorewrite with from_proto.
  rewrite to_uint32_id by auto with go_int. unfold MaxUint16.
  destruct (Z.gtb_spec w 65535); [unfold u16 in Hw; lia|].
  autorewrite with from_proto. rewrite to_uint16_id by done. by rewrite H.
Qed.

Lemma MutationResponse_roundtrip d :
  go_typed d → MutationResponse_Validate d = None →
  FromProtoMutationResponse (Some (ProtoMutationResponse d)) = (d, None).
Proof.
  destruct d as [s g v]. intros (Hs & _) H. cbn in Hs.
  assert (Status_Valid s = true) as Hv.
  { unfold MutationResponse_Validate in H. cbn in H. case_ifs; by apply negb_false_iff. }
  roundtrip. autorewrite with from_proto. by rewrite H.
Qed.

(** What a decoder that returns no error returns has passed its validator. *)
Ltac decode_sound :=
  intros p d H; destruct p as [p|]; [|discriminate H];
  cbn beta iota zeta delta [FromProtoHandshakeRequest FromProtoHandshake FromProtoHubStatusRequest
    FromProtoHubStatus FromProtoGetRequest FromProtoGetResponse FromProtoMutationRequest
    FromProtoMutationResponse] in H;
  invert_fromproto H; by apply validated_ok in H as [<- ?].

Lemma HandshakeRequest_sound p d :
  FromProtoHandshakeRequest p = (d, None) → HandshakeRequest_Validate d = None.
Proof. revert p d. decode_sound. Qed.
Lemma Handshake_sound p d : FromProtoHandshake p = (d, None) → Handshake_Validate d = None.
Proof. revert p d. decode_sound. Qed.
Lemma HubStatusRequest_sound p d :
  FromProtoHubStatusRequest p = (d, None) → HubStatusRequest_Validate d = None.
Proof. revert p d. decode_sound. Qed.
Lemma HubStatus_sound p d : FromProtoHubStatus p = (d, None) → HubStatus_Validate d = None.
Proof. revert p d. decode_sound. Qed.
Lemma rpc_GetRequest_sound p d :
  FromProtoGetRequest p = (d, None) → rpc_GetRequest_Validate d = None.
Proof. revert p d. decode_sound. Qed.
Lemma GetResponse_sound p d : FromProtoGetResponse p = (d, None) → GetResponse_Validate d = None.
Proof. revert p d. decode_sound. Qed.
Lemma MutationRequest_sound p d :
  FromProtoMutationRequest p = (d, None) → MutationRequest_Validate d = None.
Proof. revert p d. decode_sound. Qed.
Lemma MutationResponse_sound p d :
  FromProtoMutationResponse p = (d, None) → MutationResponse_Validate d = None.
Proof. revert p d. decode_sound. Qed.

(** The fields of a decoded message are in the ranges of their Go types. *)
Ltac field_ranges :=
  repeat match goal with
  | E : FromProtoStatus _ = (_, None) |- _ => apply FromProtoStatus_ok in E as (? & ? & ?)
  | E : FromProtoRecordKind _ = (_, None) |- _ => apply FromProtoRecordKind_ok in E as (? & ? & ?)
  | E : FromProtoWriteMode _ = (_, None) |- _ => apply FromProtoWriteMode_ok in E as (? & ? & ?)
  | E : FromProtoStorageProfile _ = (_, None) |- _ =>
      apply FromProtoStorageProfile_ok in E as (? & ? & ?)
  | E : FromProtoConfirmLevel _ = (_, None) |- _ =>
      apply FromProtoConfirmLevel_ok in E as (? & ? & ?)
  | E : FromProtoMutationOp _ = (_, None) |- _ => apply FromProtoMutationOp_ok in E as (? & ? & ?)
  | E : FromProtoMutationID _ = (_, None) |- _ => apply FromProtoMutationID_ok in E
  | E : rpc_protocolVersionFromUint32 _ = (_, None) |- _ =>
      apply rpc_protocolVersionFromUint32_ok in E as [? ?]; [|assumption]
  end.

Lemma HandshakeRequest_inrange q d :
  go_typed q → FromProtoHandshakeRequest (Some q) = (d, None) → go_typed d.
Proof.
  destruct q as [v m c g]. intros (Hv & Hm & Hg). cbn in Hv, Hm, Hg.
  unfold FromProtoHandshakeRequest. cbn -[rpc_protocolVersionFromUint32]. intros H.
  invert_fromproto H. field_ranges. apply validated_ok in H as [<- _].
  split; [by split|done].
Qed.

Lemma Handshake_inrange q d :
  go_typed q → FromProtoHandshake (Some q) = (d, None) → go_typed d.
Proof.
  destruct q as [v g n p h c]. intros (Hv & Hg & Hn & Hp). cbn in Hv, Hg, Hn, Hp.
  unfold FromProtoHandshake. cbn -[rpc_protocolVersionFromUint32 FromProtoStorageProfile]. intros H.
  invert_fromproto H. field_ranges. apply validated_ok in H as [<- _]. done.
Qed.

Lemma HubStatusRequest_inrange q d :
  go_typed q → FromProtoHubStatusRequest (Some q) = (d, None) → go_typed d.
Proof.
  destruct q as [g]. intros Hg H. unfold FromProtoHubStatusRequest in H.
  apply validated_ok in H as [<- _]. exact Hg.
Qed.

Lemma HubStatus_inrange q d :
  go_typed q → FromProtoHubStatus (Some q) = (d, None) →
  go_typed d ∧ StorageProfile_Valid (hst_StorageProfile d) = true.
Proof.
  destruct q as [g p h s]. intros (Hg & _). cbn in Hg. unfold FromProtoHubStatus.
  cbn -[FromProtoStatus FromProtoStorageProfile]. intros H.
  invert_fromproto H. field_ranges. by apply validated_ok in H as [<- _].
Qed.

Lemma rpc_GetRequest_inrange q d :
  go_typed q → FromProtoGetRequest (Some q) = (d, None) → go_typed d.
Proof.
  destruct q as [k v g]. intros (Hv & Hg). cbn in Hv, Hg. unfold FromProtoGetRequest.
  intros H. apply validated_ok in H as [<- _]. split; [|done].
  destruct v as [v|]; [|done]. by apply (FromProtoVersionTag_typed (Some v)).
Qed.

Lemma GetResponse_inrange q d :
  go_typed q → FromProtoGetResponse (Some q) = (d, None) → go_typed d.
Proof.
  destruct q as [s g v value ttl k]. intros (_ & Hg & Hv & Httl & _). cbn in Hg, Hv, Httl.
  unfold FromProtoGetResponse. cbn -[FromProtoStatus FromProtoRecordKind FromProtoVersionTag].
  intros H. invert_fromproto H. field_ranges. apply validated_ok in H as [<- _].
  split_and!; try done. by apply FromProtoVersionTag_typed.
Qed.

Lemma MutationRequest_inrange q d :
  go_typed q → FromProtoMutationRequest (Some q) = (d, None) → go_typed d.
Proof.
  destruct q as [o k value ttl id m w c t g]. intros (_ & Httl & _ & _ & Hw & _ & Ht & Hg).
  cbn in Httl, Hw, Ht, Hg. unfold FromProtoMutationRequest.
  cbn -[FromProtoMutationOp FromProtoMutationID FromProtoWriteMode FromProtoConfirmLevel
        to_uint16 MaxUint16 Z.gtb].
  intros H. invert_fromproto H. field_ranges. apply validated_ok in H as [<- _].
  split_and!; try done. by apply (wrap_range 16).
Qed.

Lemma MutationResponse_inrange q d :
  go_typed q → FromProtoMutationResponse (Some q) = (d, None) → go_typed d.
Proof.
  destruct q as [s g v]. intros (_ & Hg & Hv). cbn in Hg, Hv. unfold FromProtoMutationResponse.
  cbn -[FromProtoStatus FromProtoVersionTag]. intros H.
  invert_fromproto H. field_ranges. apply validated_ok in H as [<- _].
  split_and!; try done. by apply FromProtoVersionTag_typed.
Qed.

(** The fields of an encoded message are in the ranges of the protobuf types. *)

Lemma to_int32_range z : i32 (to_int32 z).
Proof. unfold i32, to_int32. pose proof (wrap_range 32 (z + 2 ^ 31)). lia. Qed.
Lemma to_uint32_range z : u32 (to_uint32 z).
Proof. by apply (wrap_range 32). Qed.
Lemma ProtoMutationOp_range op : i32 (ProtoMutationOp op).
Proof. unfold ProtoMutationOp. by repeat case_if. Qed.

#[export] Hint Resolve to_int32_range to_uint32_range ProtoMutationOp_range : go_int.

(** Splits the typing condition of an encoded message into its fields. *)
Ltac proto_typed :=
  split_and!; first
    [ assumption | apply to_int32_range | apply to_uint32_range | apply ProtoMutationOp_range
    | by split | exact I ].

Lemma ProtoVersionTag_typed v : go_typed v → go_typed (ProtoVersionTag v).
Proof. by destruct v. Qed.

Lemma HandshakeRequest_proto_typed d : go_typed d → go_typed (ProtoHandshakeRequest d).
Proof. destruct d. intros [_ Hg]. proto_typed. Qed.
Lemma Handshake_proto_typed d : go_typed d → go_typed (ProtoHandshake d).
Proof. destruct d. intros (_ & Hg & Hn & _). proto_typed. Qed.
Lemma HubStatusRequest_proto_typed d : go_typed d → go_typed (ProtoHubStatusRequest d).
Proof. by destruct d. Qed.
Lemma HubStatus_proto_typed d : go_typed d → go_typed (ProtoHubStatus d).
Proof. destruct d. intros (Hg & _). proto_typed. Qed.
Lemma rpc_GetRequest_proto_typed d : go_typed d → go_typed (ProtoGetRequest d).
Proof.
  destruct d as [k [v|] g]; intros [Hv Hg]; (split; [|exact Hg]); [|done].
  by apply ProtoVersionTag_typed.
Qed.
Lemma GetResponse_proto_typed d : go_typed d → go_typed (ProtoGetResponse d).
Proof. destruct d. intros (_ & Hg & [Hp Hq] & Ht & _). proto_typed. Qed.
Lemma MutationRequest_proto_typed d : go_typed d → go_typed (ProtoMutationRequest d).
Proof. destruct d. intros (_ & Httl & _ & _ & _ & _ & Ht & Hg). proto_typed. Qed.
Lemma MutationResponse_proto_typed d : go_typed d → go_typed (ProtoMutationResponse d).
Proof. destruct d. intros (_ & Hg & [Hp Hq]). proto_typed. Qed.

(** ** Instances *)

#[export] Instance HandshakeRequest_codec :
  MessageCodec HandshakeRequest pb_HandshakeRequest :=
  {| mc_roundtrip := HandshakeRequest_roundtrip;
     mc_sound := HandshakeRequest_sound; mc_inrange := HandshakeRequest_inrange;
     mc_nil := ltac:(done);
     mc_typed := HandshakeRequest_proto_typed |}.

#[export] Instance Handshake_codec : MessageCodec Handshake pb_HandshakeResponse :=
  {| mc_roundtrip := Handshake_roundtrip;
     mc_sound := Handshake_sound; mc_inrange := Handshake_inrange; mc_nil := ltac:(done);
     mc_typed := Handshake_proto_typed |}.

#[export] Instance HubStatusRequest_codec : MessageCodec HubStatusRequest pb_HubStatusRequest :=
  {| mc_wf := go_typed; mc_roundtrip d _ := HubStatusRequest_roundtrip d;
     mc_sound := HubStatusRequest_sound; mc_inrange := HubStatusRequest_inrange;
     mc_nil := ltac:(done);
     mc_typed := HubStatusRequest_proto_typed |}.

#[export] Instance HubStatus_codec : MessageCodec HubStatus pb_HubStatusResponse :=
  {| mc_wf d := go_typed d ∧ StorageProfile_Valid (hst_StorageProfile d) = true;
     mc_roundtrip d H := HubStatus_roundtrip d (proj1 H) (proj2 H);
     mc_sound := HubStatus_sound; mc_inrange := HubStatus_inrange; mc_nil := ltac:(done);
     mc_typed d H := HubStatus_proto_typed d (proj1 H) |}.

#[export] Instance rpc_GetRequest_codec : MessageCodec rpc_GetRequest pb_GetRequest :=
  {| mc_wf := go_typed; mc_roundtrip d _ := rpc_GetRequest_roundtrip d;
     mc_sound := rpc_GetRequest_sound; mc_inrange := rpc_GetRequest_inrange;
     mc_nil := ltac:(done);
     mc_typed := rpc_GetRequest_proto_typed |}.

#[export] Instance GetResponse_codec : MessageCodec GetResponse pb_GetResponse :=
  {| mc_roundtrip := GetResponse_roundtrip;
     mc_sound := GetResponse_sound; mc_inrange := GetResponse_inrange; mc_nil := ltac:(done);
     mc_typed := GetResponse_proto_typed |}.

#[export] Instance MutationRequest_codec : MessageCodec MutationRequest pb_MutationRequest :=
  {| mc_roundtrip := MutationRequest_roundtrip;
     mc_sound := MutationRequest_sound; mc_inrange := MutationRequest_inrange;
     mc_nil := ltac:(done);
     mc_typed := MutationRequest_proto_typed |}.

#[export] Instance MutationResponse_codec : MessageCodec MutationResponse pb_MutationResponse :=
  {| mc_roundtrip := MutationResponse_roundtrip;
     mc_sound := MutationResponse_sound; mc_inrange := MutationResponse_inrange;
     mc_nil := ltac:(done);
     mc_typed := MutationResponse_proto_typed |}.

(** ** Properties of the data-plane conversions *)

Lemma FromProtoMutationID_exact m id :
  FromProtoMutationID m = (id, None) → m = Some (ProtoMutationID id).
Proof.
  unfold FromProtoMutationID. destruct m as [[raw]|]; [|done].
  cbn [pb_MutationID_GetId pb_MutationID_Id]. repeat case_if; by intros [= <-].
Qed.

Lemma ProtoMutationOp_valid op : Op_Valid op = true → ProtoMutationOp op = op.
Proof. unfold Op_Valid, OpSet, OpDelete. intros H. by assert (op = 1 ∨ op = 2) as [->| ->] by lia. Qed.

Lemma FromProtoMutationRequest_exact q d :
  go_typed q → FromProtoMutationRequest (Some q) = (d, None) → ProtoMutationRequest d = q.
Proof.
  destruct q as [o k value ttl id m w c t g]. intros (_ & _ & _ & _ & Hw & _). cbn in Hw.
  unfold FromProtoMutationRequest.
  cbn -[FromProtoMutationOp FromProtoMutationID FromProtoWriteMode FromProtoConfirmLevel
        to_uint16 MaxUint16 Z.gtb].
  intros H. invert_fromproto H. apply validated_ok in H as [<- _].
  match goal with E : FromProtoMutationID _ = _ |- _ => apply FromProtoMutationID_exact in E end.
  field_ranges. unfold MaxUint16, u32 in *. subst.
  unfold ProtoMutationRequest, ProtoWriteMode, ProtoConfirmLevel. cbn -[to_uint16 to_uint32 to_int32].
  rewrite ProtoMutationOp_valid, !to_int32_id by (done || eauto with go_int).
  rewrite to_uint16_id by (unfold u16; lia). by rewrite to_uint32_id.
Qed.

(** C1. The conversion of mutation requests is a bijection between the valid
    requests and the protobuf messages the decoder accepts: decoding an
    encoded valid request returns it, and an accepted message is the encoding
    of the valid request it decodes to, so no field is truncated, defaulted
    or dropped on the way to the hub. *)
Theorem MutationRequest_codec_bijection (d : MutationRequest) (q : pb_MutationRequest) :
  go_typed q →
  (go_typed d ∧ MutationRequest_Validate d = None ∧ ProtoMutationRequest d = q) ↔
  FromProtoMutationRequest (Some q) = (d, None).
Proof.
  intros Hq. split.
  - intros (Hd & Hv & <-). by apply MutationRequest_roundtrip.
  - intros H. split_and!; [by eapply MutationRequest_inrange|by eapply MutationRequest_sound|].
    by apply FromProtoMutationRequest_exact.
Qed.

Lemma MutationRequest_codec_bijection_witness :
  let d := mkMutationRequest OpSet (string_bytes "k") (string_bytes "v") 60000
             (NewMutationID 3 9) WriteSync 2 0 250 7 in
  FromProtoMutationRequest (Some (ProtoMutationRequest d)) = (d, None).
Proof.
  cbv zeta. apply MutationRequest_codec_bijection; [by vm_compute|].
  split_and!; by vm_compute.
Defined.

(** The errors of the field conversions, whatever the message around them. *)
Definition mutation_request_rejects (q : pb_MutationRequest) (target : err) : Prop :=
  (FromProtoMutationRequest (Some q)).1 = zero_MutationRequest ∧
  is_error (FromProtoMutationRequest (Some q)).2 target = true.

(** C33. The mutation decoder fails closed: a missing identity, a W that does
    not fit its 16 bits, and an unknown operation, mode or confirmation level
    are each refused, in this order, with the zero request, before any
    validation of the content.  An identity of another length is refused
    too. *)
Theorem FromProtoMutationRequest_fails_closed (q : pb_MutationRequest) (id : MutationID) :
  (pb_MutationRequest_MutationId q = None ∨
   pb_MutationRequest_MutationId q = Some (mk_pb_MutationID []) →
   mutation_request_rejects q ErrMutationIDRequired) ∧
  (∀ raw, pb_MutationRequest_MutationId q = Some (mk_pb_MutationID raw) → len raw ≠ 16 →
     (FromProtoMutationRequest (Some q)).1 = zero_MutationRequest ∧
     (FromProtoMutationRequest (Some q)).2 ≠ None) ∧
  (pb_MutationRequest_MutationId q = Some (ProtoMutationID id) → MutationID_typed id →
   (65535 < pb_MutationRequest_W q → mutation_request_rejects q ErrInvalidWriteTimeout) ∧
   (pb_MutationRequest_W q <= 65535 →
    (Op_Valid (pb_MutationRequest_Op q) = false → mutation_request_rejects q ErrInvalidOp) ∧
    (Op_Valid (pb_MutationRequest_Op q) = true →
     WriteMode_Valid (pb_MutationRequest_Mode q) = false ∨
     ConfirmLevel_Valid (pb_MutationRequest_Confirm q) = false →
     mutation_request_rejects q ErrInvalidEnum))).
Proof.
  destruct q as [o k value ttl i m w c t g]. cbn.
  unfold mutation_request_rejects, FromProtoMutationRequest.
  cbn -[FromProtoMutationOp FromProtoMutationID FromProtoWriteMode FromProtoConfirmLevel
        to_uint16 MaxUint16 Z.gtb]. split_and!.
  - by intros [->| ->].
  - intros raw -> Hraw. unfold FromProtoMutationID.
    cbn [pb_MutationID_GetId pb_MutationID_Id]. change (len (zero_bytes 16)) with 16.
    destruct (Z.eqb_spec (len raw) 0); [done|]. by destruct (Z.eqb_spec (len raw) 16).
  - intros -> Hid. rewrite FromProtoMutationID_id by done. unfold MaxUint16.
    destruct (Z.gtb_spec w 65535); (split; [intros ?; try done; lia|]); [lia|].
    intros _. unfold FromProtoMutationOp, FromProtoWriteMode, FromProtoConfirmLevel, Op_Valid.
    unfold_pb_enums. unfold_enums. split; intros; enum_cases; naive_solver lia.
Qed.

Lemma FromProtoMutationRequest_fails_closed_witness :
  mutation_request_rejects
    (mk_pb_MutationRequest 1 [] [] 0 (Some (ProtoMutationID (NewMutationID 1 2))) 0 65536 0 0 7)
    ErrInvalidWriteTimeout.
Proof.
  apply (FromProtoMutationRequest_fails_closed
    (mk_pb_MutationRequest 1 [] [] 0 (Some (ProtoMutationID (NewMutationID 1 2))) 0 65536 0 0 7)
    (NewMutationID 1 2)); done.
Defined.

(** A protobuf protocol version is never truncated into an acceptable one:
    the handshake decoder refuses a version that does not fit 16 bits as an
    invalid range, and an accepted handshake request is the encoding of the
    valid request it decodes to. *)
Lemma FromProtoHandshakeRequest_no_truncation (q : pb_HandshakeRequest) :
  go_typed q →
  (65535 < pb_HandshakeRequest_ProtocolVersion q ∨
   65535 < pb_HandshakeRequest_MinSupportedVersion q →
   (FromProtoHandshakeRequest (Some q)).1 = zero_HandshakeRequest ∧
   is_error (FromProtoHandshakeRequest (Some q)).2 ErrInvalidProtocolRange = true) ∧
  (∀ d, FromProtoHandshakeRequest (Some q) = (d, None) →
   ProtoHandshakeRequest d = q ∧ HandshakeRequest_Validate d = None ∧
   speaks (hsr_Protocol d) (pb_HandshakeRequest_ProtocolVersion q)).
Proof.
  destruct q as [v m c g]. intros (Hv & Hm & Hg). cbn in Hv, Hm, Hg.
  unfold FromProtoHandshakeRequest.
  cbn -[rpc_protocolVersionFromUint32]. split.
  - unfold rpc_protocolVersionFromUint32, MaxUint16.
    destruct (Z.gtb_spec v 65535), (Z.gtb_spec m 65535); try done; lia.
  - intros d H. invert_fromproto H. field_ranges. subst.
    apply validated_ok in H as [<- H].
    unfold ProtoHandshakeRequest. cbn [hsr_Protocol hsr_ClusterID hsr_ExpectedHubGeneration
      pr_Version pr_MinSupported].
    rewrite !to_uint32_id by done. split_and!; [done|done|].
    unfold HandshakeRequest_Validate in H. cbn [hsr_Protocol] in H.
    destruct (ProtocolRange_Validate _) eqn:E; [discriminate|].
    apply ProtocolRange_Validate_ok in E; [|by split]. unfold speaks. cbn in *. lia.
Qed.

Lemma FromProtoHandshakeRequest_no_truncation_witness :
  is_error (FromProtoHandshakeRequest (Some (mk_pb_HandshakeRequest 65537 1 "prod" 0))).2
    ErrInvalidProtocolRange = true.
Proof.
  apply (FromProtoHandshakeRequest_no_truncation (mk_pb_HandshakeRequest 65537 1 "prod" 0));
    [by vm_compute|by left].
Defined.

(** The numbers of an enumeration's generated name table. *)
Definition enum_numbers (names : list (Z * string)) : list Z := map fst names.

(** [conv] accepts exactly the numbers in [ns], each as itself. *)
Definition accepts_exactly (conv : Z → Z * error) (ns : list Z) : Prop :=
  (∀ n, n ∈ ns → conv n = (n, None)) ∧
  (∀ n, n ∉ ns → (conv n).1 = 0 ∧ (conv n).2 ≠ None).

(** Each enumeration decoder accepts exactly the numbers of the generated
    protobuf name table, each as the domain value of the same number, and
    maps every unknown number to an error rather than to a known value; a
    mutation operation may in addition not be UNSPECIFIED. *)
Lemma enum_decoders_closed :
  accepts_exactly FromProtoStatus (enum_numbers pb_Status_name) ∧
  accepts_exactly FromProtoRecordKind (enum_numbers pb_RecordKind_name) ∧
  accepts_exactly FromProtoWriteMode (enum_numbers pb_WriteMode_name) ∧
  accepts_exactly FromProtoStorageProfile (enum_numbers pb_StorageProfile_name) ∧
  accepts_exactly FromProtoConfirmLevel (enum_numbers pb_ConfirmLevel_name) ∧
  accepts_exactly FromProtoMutationOp
    (filter (λ n, n ≠ pb_MutationOp_MUTATION_OP_UNSPECIFIED) (enum_numbers pb_MutationOp_name)).
Proof.
  unfold FromProtoStatus, FromProtoRecordKind, FromProtoWriteMode, FromProtoStorageProfile,
    FromProtoConfirmLevel, FromProtoMutationOp, accepts_exactly, enum_numbers.
  cbn [pb_Status_name pb_RecordKind_name pb_WriteMode_name pb_StorageProfile_name
    pb_ConfirmLevel_name pb_MutationOp_name map fst].
  change (filter _ _) with [1; 2].
  split_and!; intros n Hn; rewrite ?elem_of_cons, elem_of_nil in Hn;
    enum_cases; naive_solver lia.
Qed.

(** The side condition on hub statuses is needed: a rejection may pass
    [HubStatus.Validate] with an unknown storage profile, and its encoding is
    then refused by the decoder of the other side. *)
Lemma HubStatus_undecodable :
  ∃ d : HubStatus, go_typed d ∧ HubStatus_Validate d = None ∧
    (FromProtoHubStatus (Some (ProtoHubStatus d))).2 ≠ None.
Proof. exists (mkHubStatus 7 9 false StatusErrBadGeneration). by vm_compute. Qed.

(** C23. Every message of the Data service converts faithfully: valid messages
    round-trip through protobuf, whatever the decoder accepts has passed the
    domain validator, and a forwarded message is stable.  The one message that
    needs more than validity is the hub status: its storage profile must be
    known, which the validator checks for OK statuses only, and there is a
    valid rejection that the peer cannot decode. *)
Theorem data_plane_codecs :
  codec_ok HandshakeRequest pb_HandshakeRequest ∧ codec_ok Handshake pb_HandshakeResponse ∧
  codec_ok HubStatusRequest pb_HubStatusRequest ∧ codec_ok HubStatus pb_HubStatusResponse ∧
  codec_ok rpc_GetRequest pb_GetRequest ∧ codec_ok GetResponse pb_GetResponse ∧
  codec_ok MutationRequest pb_MutationRequest ∧ codec_ok MutationResponse pb_MutationResponse ∧
  ∃ d : HubStatus, go_typed d ∧ HubStatus_Validate d = None ∧
    (FromProtoHubStatus (Some (ProtoHubStatus d))).2 ≠ None.
Proof. split_and!; [apply codec_ok_instance..|apply HubStatus_undecodable]. Qed.
