(* ===== verification/RpcDedup.v ===== *)
(** * Mutation deduplication keys and fingerprints (internal/rpc/dedup.go) *)

From S2P Require Import Prelude GoErrors GoStd WireTypes RpcTypes.

Definition DefaultDedupWindow : Z := 5 * Minute.

Record DedupKey := mkDedupKey { dk_NodeID : Z; dk_MutationID : MutationID }.

#[export] Instance DedupKey_eq_dec : EqDecision DedupKey.
Proof. solve_decision. Defined.

Definition DedupKey_Validate (k : DedupKey) : error :=
  if dk_NodeID k =? 0 then Some rpc_ErrInvalidNodeID
  else if MutationID_IsZero (dk_MutationID k) then Some ErrMutationIDRequired
  else None.

Record MutationFingerprint := mkMutationFingerprint {
  fp_Op : Z; fp_Key : bytes; fp_Value : bytes; fp_TTLMillis : Z;
  fp_Mode : Z; fp_W : Z; fp_Confirm : Z }.

Definition Fingerprint (req : MutationRequest) : MutationFingerprint :=
  {| fp_Op := mr_Op req;
     fp_Key := CopyBytes (mr_Key req);
     fp_Value := CopyBytes (mr_Value req);
     fp_TTLMillis := mr_TTLMillis req;
     fp_Mode := mr_Mode req;
     fp_W := mr_W req;
     fp_Confirm := mr_Confirm req |}.

Definition MutationFingerprint_Equal (f other : MutationFingerprint) : bool :=
  (fp_Op f =? fp_Op other) &&
  (fp_TTLMillis f =? fp_TTLMillis other) &&
  (fp_Mode f =? fp_Mode other) &&
  (fp_W f =? fp_W other) &&
  (fp_Confirm f =? fp_Confirm other) &&
  bytes_Equal (fp_Key f) (fp_Key other) &&
  bytes_Equal (fp_Value f) (fp_Value other).

Definition MutationFingerprint_CheckMatch (f other : MutationFingerprint) : error :=
  if negb (MutationFingerprint_Equal f other) then Some ErrMutationFingerprintMismatch else None.

(** [Equal] decides equality of fingerprints. *)
Lemma MutationFingerprint_Equal_iff f g : MutationFingerprint_Equal f g = true ↔ f = g.
Proof.
  unfold MutationFingerprint_Equal, bytes_Equal.
  rewrite !andb_true_iff, !Z.eqb_eq, !bool_decide_eq_true.
  destruct f, g; cbn. split; [|by intros [=]; subst].
  intros ((((((-> & ->) & ->) & ->) & ->) & ->) & ->). done.
Qed.

(** What a retry of [req] may change: the time it waits, and the generation
    and identity it is sent under. *)
Definition retry_of (req : MutationRequest) (id : MutationID) (timeout gen : Z) :
    MutationRequest :=
  {| mr_Op := mr_Op req; mr_Key := mr_Key req; mr_Value := mr_Value req;
     mr_TTLMillis := mr_TTLMillis req; mr_MutationID := id; mr_Mode := mr_Mode req;
     mr_W := mr_W req; mr_Confirm := mr_Confirm req; mr_Timeout := timeout;
     mr_HubGeneration := gen |}.

(** Reusing a mutation identity matches the retained request exactly when
    the new request differs from it in nothing but the timeout (and the
    envelope fields, identity and generation); any other difference is
    refused as a fingerprint mismatch, in whichever order the two requests
    are compared. *)
Lemma Fingerprint_match_iff_retry (req req' : MutationRequest) :
  (MutationFingerprint_CheckMatch (Fingerprint req) (Fingerprint req') = None ↔
     ∃ id timeout gen, req' = retry_of req id timeout gen) ∧
  (MutationFingerprint_CheckMatch (Fingerprint req) (Fingerprint req') ≠ None →
     MutationFingerprint_CheckMatch (Fingerprint req) (Fingerprint req') =
       Some ErrMutationFingerprintMismatch) ∧
  MutationFingerprint_CheckMatch (Fingerprint req) (Fingerprint req') =
    MutationFingerprint_CheckMatch (Fingerprint req') (Fingerprint req).
Proof.
  unfold MutationFingerprint_CheckMatch.
  pose proof (MutationFingerprint_Equal_iff (Fingerprint req) (Fingerprint req')) as Hfg.
  pose proof (MutationFingerprint_Equal_iff (Fingerprint req') (Fingerprint req)) as Hgf.
  assert (Fingerprint req = Fingerprint req' ↔ ∃ id t g, req' = retry_of req id t g) as Hretry.
  { split.
    - destruct req', req. unfold Fingerprint, retry_of, CopyBytes. cbn. intros [=]. subst. eauto.
    - by intros (id & t & g & ->). }
  rewrite <- Hretry.
  destruct (MutationFingerprint_Equal (Fingerprint req) (Fingerprint req')),
    (MutationFingerprint_Equal (Fingerprint req') (Fingerprint req)); naive_solver.
Qed.

(** A dedup key is accepted exactly when it names a node and a mutation. *)
Lemma DedupKey_Validate_spec (k : DedupKey) :
  (DedupKey_Validate k = None ↔
     dk_NodeID k ≠ 0 ∧ MutationID_IsZero (dk_MutationID k) = false) ∧
  (DedupKey_Validate k = Some rpc_ErrInvalidNodeID ↔ dk_NodeID k = 0).
Proof. unfold DedupKey_Validate. validate_cases. Qed.
