(* ===== verification/Exchange.v ===== *)
(** * Exchanges of a node and a hub

    The contracts of the other files composed as a node and a hub of this
    build compose them: a message is encoded by one side and decoded by the
    other, and the decoded message is handed to the negotiation or to the
    deduplication.  Neither the node nor the hub is in the repository; the
    functions here only chain the functions that are. *)

From S2P Require Import Prelude GoErrors GoStd WireProtocol WireTypes PbCommon PbData RpcTypes.
From S2P Require Import Codec RpcConvert RpcDedup.

Local Open Scope go_scope.

(** ** Handshake *)

(** The hub decodes a handshake request and negotiates with its own range. *)
Definition hub_selects (hub : ProtocolRange) (q : option pb_HandshakeRequest) : Z * error :=
  let? d := FromProtoHandshakeRequest q or 0 in
  ProtocolRange_Negotiate hub (hsr_Protocol d).

(** The response [resp] with the selected version. *)
Definition with_version (resp : Handshake) (v : Z) : Handshake :=
  {| hs_ProtocolVersion := v; hs_HubGeneration := hs_HubGeneration resp;
     hs_PartitionCount := hs_PartitionCount resp; hs_StorageProfile := hs_StorageProfile resp;
     hs_DurableHealthy := hs_DurableHealthy resp; hs_ClusterID := hs_ClusterID resp |}.

(** The node's view of a response: the decoded handshake, if it is accepted. *)
Definition node_accepts (resp : Handshake) : option Handshake :=
  match FromProtoHandshake (Some (ProtoHandshake resp)) with
  | (h, None) => Some h
  | (_, Some _) => None
  end.

Lemma hub_selects_encoded hub d :
  go_typed d → HandshakeRequest_Validate d = None →
  hub_selects hub (Some (ProtoHandshakeRequest d)) = ProtocolRange_Negotiate hub (hsr_Protocol d).
Proof. intros Hd Hv. unfold hub_selects. by rewrite (HandshakeRequest_roundtrip d Hd Hv). Qed.

Lemma node_accepts_valid resp :
  go_typed resp → Handshake_Validate resp = None → node_accepts resp = Some resp.
Proof. intros Hr Hv. unfold node_accepts. by rewrite (Handshake_roundtrip resp Hr Hv). Qed.

(** The zero version of a failed negotiation is never accepted. *)
Lemma node_refuses_zero resp : node_accepts (with_version resp 0) = None.
Proof.
  unfold node_accepts. destruct (FromProtoHandshake _) as [h [e|]] eqn:E; [done|]. exfalso.
  unfold FromProtoHandshake in E. cbn -[FromProtoStorageProfile ProtoStorageProfile] in E.
  invert_fromproto E. apply validated_ok in E as [<- Hv].
  match goal with H : rpc_protocolVersionFromUint32 _ = _ |- _ => injection H as <- end.
  by vm_compute in Hv.
Qed.

(** What [Negotiate] selects when it succeeds. *)
Lemma Negotiate_selects r peer v :
  ProtocolRange_Negotiate r peer = (v, None) →
  speaks r v ∧ speaks peer v ∧ ∀ w, speaks r w → speaks peer w → w <= v.
Proof.
  unfold ProtocolRange_Negotiate, speaks.
  destruct (ProtocolRange_Validate r), (ProtocolRange_Validate peer); try done. cbv zeta.
  destruct (Z.ltb_spec (pr_Version r `min` pr_Version peer)
    (pr_MinSupported r `max` pr_MinSupported peer)); intros [= <-].
  repeat split; intros; lia.
Qed.

Lemma Negotiate_fails r peer v e :
  ProtocolRange_Negotiate r peer = (v, Some e) →
  v = 0 ∧ (ProtocolRange_Validate r ≠ None ∨ ProtocolRange_Validate peer ≠ None ∨
           ¬ ∃ w, speaks r w ∧ speaks peer w).
Proof.
  unfold ProtocolRange_Negotiate, speaks.
  destruct (ProtocolRange_Validate r), (ProtocolRange_Validate peer);
    try (intros [= <- _]; naive_solver). cbv zeta.
  destruct (Z.ltb_spec (pr_Version r `min` pr_Version peer)
    (pr_MinSupported r `max` pr_MinSupported peer)); intros [= <- _].
  split; [done|]. right. right. intros (w & ? & ?). lia.
Qed.

(** C25. A handshake ends in agreement or in failure on both sides.  A node of
    this build sends its valid request to a hub of any version range; the hub
    answers with the version it selects.  If it selects one, the node accepts
    the response as sent and the version is the highest both speak; if it
    selects none, no version is common (or the hub's own range is malformed),
    and the response, which then carries the zero version, is refused by the
    node. *)
Theorem handshake_agreement (hub : ProtocolRange) (d : HandshakeRequest) (resp : Handshake) :
  go_typed d → HandshakeRequest_Validate d = None → hsr_Protocol d = CurrentProtocolRange →
  go_typed resp → Handshake_Validate (with_version resp CurrentProtocolVersion) = None →
  match hub_selects hub (Some (ProtoHandshakeRequest d)) with
  | (v, None) =>
      node_accepts (with_version resp v) = Some (with_version resp v) ∧
      speaks hub v ∧ speaks CurrentProtocolRange v ∧
      ∀ w, speaks hub w → speaks CurrentProtocolRange w → w <= v
  | (v, Some _) =>
      node_accepts (with_version resp v) = None ∧
      (ProtocolRange_Validate hub ≠ None ∨
       ¬ ∃ w, speaks hub w ∧ speaks CurrentProtocolRange w)
  end.
Proof.
  intros Hd Hv Hp Hr Hresp. rewrite (hub_selects_encoded hub d Hd Hv), Hp.
  destruct (ProtocolRange_Negotiate hub CurrentProtocolRange) as [v [e|]] eqn:E.
  - apply Negotiate_fails in E as [-> Hno]. split; [apply node_refuses_zero|]. naive_solver.
  - apply Negotiate_selects in E as (Hh & Hn & Hmax). split; [|done].
    assert (v = CurrentProtocolVersion) as ->.
    { unfold speaks, CurrentProtocolRange, CurrentProtocolVersion,
        MinSupportedProtocolVersion in *. cbn in Hn. lia. }
    apply node_accepts_valid; [|done]. destruct Hr as (_ & Hr). by split.
Qed.

Lemma handshake_agreement_witness :
  let resp := mkHandshake 0 42 16 StorageDurable true "prod" in
  node_accepts (with_version resp 0) = None ∧
  ¬ ∃ w, speaks (mkProtocolRange 3 2) w ∧ speaks CurrentProtocolRange w.
Proof.
  cbv zeta. pose proof (handshake_agreement (mkProtocolRange 3 2)
    (mkHandshakeRequest CurrentProtocolRange "prod" 0) (mkHandshake 0 42 16 StorageDurable true "prod")
    ltac:(by vm_compute) ltac:(by vm_compute) ltac:(done) ltac:(by vm_compute)
    ltac:(by vm_compute)) as H.
  destruct (hub_selects _ _) as [v [e|]] eqn:E; vm_compute in E; [|discriminate E].
  injection E as <- _. destruct H as [Hn [Hbad|Hno]]; [by vm_compute in Hbad|by split].
Defined.

(** ** Mutations and their retries *)

(** A protobuf request sent again with another timeout and generation. *)
Definition pb_retry (q : pb_MutationRequest) (timeout gen : Z) : pb_MutationRequest :=
  {| pb_MutationRequest_Op := pb_MutationRequest_Op q;
     pb_MutationRequest_Key := pb_MutationRequest_Key q;
     pb_MutationRequest_Value := pb_MutationRequest_Value q;
     pb_MutationRequest_TtlMillis := pb_MutationRequest_TtlMillis q;
     pb_MutationRequest_MutationId := pb_MutationRequest_MutationId q;
     pb_MutationRequest_Mode := pb_MutationRequest_Mode q;
     pb_MutationRequest_W := pb_MutationRequest_W q;
     pb_MutationRequest_Confirm := pb_MutationRequest_Confirm q;
     pb_MutationRequest_TimeoutMillis := timeout;
     pb_MutationRequest_HubGeneration := gen |}.

(** The hub keeps the identity and the fingerprint of a request, and takes a
    later one for a retry when both match. *)
Definition hub_takes_for_retry (node : Z) (kept req : MutationRequest) : bool :=
  bool_decide (mkDedupKey node (mr_MutationID kept) = mkDedupKey node (mr_MutationID req)) &&
  bool_decide (MutationFingerprint_CheckMatch (Fingerprint kept) (Fingerprint req) = None).

Lemma hub_takes_for_retry_iff node d1 d2 :
  hub_takes_for_retry node d1 d2 = true ↔
  d2 = retry_of d1 (mr_MutationID d1) (mr_Timeout d2) (mr_HubGeneration d2).
Proof.
  unfold hub_takes_for_retry, MutationFingerprint_CheckMatch.
  rewrite andb_true_iff, !bool_decide_eq_true.
  pose proof (MutationFingerprint_Equal_iff (Fingerprint d1) (Fingerprint d2)) as Heq.
  destruct (MutationFingerprint_Equal _ _); cbn [negb].
  - destruct Heq as [Heq _]. specialize (Heq eq_refl). destruct d1, d2.
    unfold Fingerprint, retry_of, CopyBytes in *. cbn in *.
    injection Heq as -> -> -> -> -> -> ->. split; [by intros [[= ->] _]|by intros [= <-]].
  - split; [by intros []|]. intros Hd. destruct Heq as [_ Heq].
    discriminate Heq. by rewrite Hd.
Qed.

Lemma pb_retry_encoded d timeout gen :
  pb_retry (ProtoMutationRequest d) timeout gen =
  ProtoMutationRequest (retry_of d (mr_MutationID d) timeout gen).
Proof. done. Qed.

(** A retry of a valid request is valid. *)
Lemma retry_valid d timeout gen :
  go_typed d → MutationRequest_Validate d = None → u32 timeout → u64 gen → gen ≠ 0 →
  go_typed (retry_of d (mr_MutationID d) timeout gen) ∧
  MutationRequest_Validate (retry_of d (mr_MutationID d) timeout gen) = None.
Proof.
  intros Hd Hv Ht Hg Hg0.
  assert (go_typed (retry_of d (mr_MutationID d) timeout gen)) as Hr.
  { destruct Hd as (? & ? & ? & ? & ? & ? & _). by split_and!. }
  split; [done|]. apply MutationRequest_Validate_ok in Hv as (_ & Hrest); [|done].
  by apply MutationRequest_Validate_ok.
Qed.

(** C22. Retries across the wire.  The hub decodes two requests of a node and
    takes the second for a retry of the first (same identity, matching
    fingerprint) exactly when the two protobuf messages are equal up to the
    timeout and the generation, so neither the encoding nor the fingerprint
    loses a difference.  A retry of an accepted request, with any timeout and
    any generation, is itself accepted and taken for a retry, and the
    deduplication key of an accepted request is valid. *)
Theorem retry_across_the_wire (node : Z) (q1 q2 : pb_MutationRequest) (d1 d2 : MutationRequest) :
  go_typed q1 → go_typed q2 → node ≠ 0 →
  FromProtoMutationRequest (Some q1) = (d1, None) →
  FromProtoMutationRequest (Some q2) = (d2, None) →
  DedupKey_Validate (mkDedupKey node (mr_MutationID d1)) = None ∧
  (hub_takes_for_retry node d1 d2 = true ↔
     q2 = pb_retry q1 (pb_MutationRequest_TimeoutMillis q2)
            (pb_MutationRequest_HubGeneration q2)) ∧
  (∀ timeout gen, u32 timeout → u64 gen → gen ≠ 0 →
     ∃ d, FromProtoMutationRequest (Some (pb_retry q1 timeout gen)) = (d, None) ∧
          hub_takes_for_retry node d1 d = true).
Proof.
  intros H1 H2 Hnode E1 E2.
  pose proof (MutationRequest_inrange q1 d1 H1 E1) as T1.
  pose proof (MutationRequest_sound _ d1 E1) as V1.
  pose proof (MutationRequest_inrange q2 d2 H2 E2) as T2.
  pose proof (MutationRequest_sound _ d2 E2) as V2.
  apply FromProtoMutationRequest_exact in E1 as <-; [|done].
  apply FromProtoMutationRequest_exact in E2 as <-; [|done].
  assert (∀ timeout gen, u32 timeout → u64 gen → gen ≠ 0 →
    FromProtoMutationRequest (Some (pb_retry (ProtoMutationRequest d1) timeout gen)) =
      (retry_of d1 (mr_MutationID d1) timeout gen, None)) as Hretry.
  { intros timeout gen Ht Hg Hg0. rewrite pb_retry_encoded.
    destruct (retry_valid d1 timeout gen) as [Tr Vr]; [done..|]. by apply MutationRequest_roundtrip. }
  pose proof V1 as Ok1. apply MutationRequest_Validate_ok in Ok1 as (_ & _ & Hid & _); [|done].
  pose proof V2 as Ok2. apply MutationRequest_Validate_ok in Ok2 as (Hg2 & _); [|done].
  split_and!.
  - unfold DedupKey_Validate. cbn. rewrite Hid. by destruct (Z.eqb_spec node 0).
  - rewrite hub_takes_for_retry_iff. split.
    + intros Hd. rewrite Hd at 1. done.
    + intros Hq. pose proof T2 as (_ & _ & _ & _ & _ & _ & Ht2 & Hgen2).
      change (ProtoMutationRequest d2 = pb_retry (ProtoMutationRequest d1) (mr_Timeout d2)
        (mr_HubGeneration d2)) in Hq.
      pose proof (MutationRequest_roundtrip d2 T2 V2) as R2. rewrite Hq, Hretry in R2 by done.
      congruence.
  - intros timeout gen Ht Hg Hg0. exists (retry_of d1 (mr_MutationID d1) timeout gen).
    split; [by apply Hretry|]. by apply hub_takes_for_retry_iff.
Qed.

(** A write sent again to the next generation with a longer timeout. *)
Definition sample_write : pb_MutationRequest :=
  ProtoMutationRequest (mkMutationRequest OpSet (string_bytes "k") (string_bytes "v") 60000
    (NewMutationID 3 9) WriteSync 2 0 250 7).

Lemma retry_across_the_wire_witness :
  hub_takes_for_retry 11 (FromProtoMutationRequest (Some sample_write)).1
    (FromProtoMutationRequest (Some (pb_retry sample_write 500 8))).1 = true.
Proof.
  apply (retry_across_the_wire 11 sample_write (pb_retry sample_write 500 8)); by vm_compute.
Defined.
