(* ===== verification/L1.v ===== *)
(** * The node's hub-client seam (internal/l1/hub.go, fake_contract.go)

    The [HubClient] interface has no implementation in the repository; it is
    the record of operations [HubClient].  [GetResult] and [Mutation] are the
    values that cross the seam. *)

From S2P Require Import Prelude GoErrors GoStd WireStatus WireTypes WireRecord RpcTypes.

Local Open Scope go_scope.

(** ** Aliases of the wire package *)
Definition l1_ErrInvalidGetStatus : err := ErrInvalidGetStatus.
Definition l1_ErrMissingVersion : err := ErrMissingVersion.
Definition l1_ErrUnexpectedVersion : err := ErrUnexpectedVersion.
Definition l1_ErrUnexpectedValue : err := ErrUnexpectedValue.
Definition l1_ErrInvalidRecordKind : err := ErrInvalidRecordKind.
Definition l1_ErrInvalidResultTTL : err := ErrInvalidResultTTL.
Definition l1_WriteOptions : Type := WriteOptions.
Definition l1_RecordValue : Z := RecordValue.
Definition l1_RecordTombstone : Z := RecordTombstone.

(** ** GetResult: the TTL is a [time.Duration] *)
Record GetResult := mkGetResult {
  gr_Value : bytes; gr_HubGeneration : Z; gr_Version : VersionTag; gr_TTL : Z;
  gr_Kind : Z; gr_Status : Z }.

#[export] Instance GetResult_typed : GoTyped GetResult :=
  λ r, u64 (gr_HubGeneration r) ∧ go_typed (gr_Version r) ∧ i64 (gr_TTL r) ∧
    u8 (gr_Kind r) ∧ u16 (gr_Status r).

Definition GetResult_Validate (r : GetResult) : error :=
  if gr_TTL r <? 0 then Some l1_ErrInvalidResultTTL
  else
    try GetRecordFields_Validate
          {| grf_Status := gr_Status r; grf_Version := gr_Version r;
             grf_Kind := gr_Kind r; grf_Value := gr_Value r |} ;;
    if negb (gr_Status r =? StatusOK) && negb (gr_TTL r =? 0)
    then Some l1_ErrInvalidResultTTL
    else None.

(** ** The seam: each call returns a result and an error, in some effect [M] *)
Record HubClient (M : Type → Type) := mkHubClient {
  hub_Get : bytes → option VersionTag → M (GetResult * error)%type;
  hub_Set : bytes → bytes → Z → l1_WriteOptions → M (VersionTag * error)%type;
  hub_Delete : bytes → l1_WriteOptions → M (VersionTag * error)%type }.

(** ** fake_contract.go *)
Inductive l1_Op := OpGet | l1_OpSet | l1_OpDelete.

Record Mutation := mkMutation {
  mu_Op : l1_Op; mu_Key : bytes; mu_Value : bytes; mu_TTL : Z; mu_Options : l1_WriteOptions }.

(** The callbacks of a deterministic fake, in some effect [M].  Each may be nil
    (not set), and the two barriers may return a nil release function. *)
Record FakeHooks (M : Type → Type) := mkFakeHooks {
  BeforeGetReturn : option (bytes → M (option (M unit)));
  BeforeCommit : option (Mutation → M (option (M unit)));
  FailNext : option (l1_Op → M error) }.

(** ** The two seams of a read

    A response of the data plane and a result of the hub client have the same
    content when their fields are equal and the duration of the result is sent
    as the TTL of the response by the code's own conversion [TTLMillis]. *)
Definition same_content (m : GetResponse) (g : GetResult) : Prop :=
  gr_Value g = gp_Value m ∧ gr_HubGeneration g = gp_HubGeneration m ∧
  gr_Version g = gp_Version m ∧ gr_Kind g = gp_Kind m ∧ gr_Status g = gp_Status m ∧
  TTLMillis (gr_TTL g) = (gp_TTLMillis m, None).

Lemma TTLMillis_ok ttl ms :
  i64 ttl → TTLMillis ttl = (ms, None) ↔ 0 <= ttl ∧ ttl = ms * Millisecond.
Proof.
  intros Ht. split.
  - intros H. pose proof (TTLMillis_spec ttl Ht) as Hs. rewrite H in Hs. destruct Hs as [-> Hm].
    split; [|done]. unfold u64, Millisecond in *. lia.
  - intros [H0 ->]. unfold TTLMillis. case_if; [lia|].
    rewrite Z.rem_mul by done. cbn [negb Z.eqb]. rewrite Z.quot_mul by done.
    rewrite to_uint64_id; [done|]. unfold u64, i64, Millisecond in *. lia.
Qed.

Lemma same_content_accepted m g :
  i64 (gr_TTL g) → same_content m g →
  (GetResponse_Validate m = None ↔ gp_HubGeneration m ≠ 0 ∧ GetResult_Validate g = None) ∧
  (gp_HubGeneration m ≠ 0 → GetResponse_Validate m = GetResult_Validate g).
Proof.
  intros Ht (Hv & Hg & Hver & Hk & Hs & Httl). apply TTLMillis_ok in Httl as [H0 Httl]; [|done].
  unfold GetResponse_Validate, GetResult_Validate, StatusCarriesGetRecord.
  rewrite Hv, Hver, Hk, Hs.
  destruct (Z.ltb_spec (gr_TTL g) 0); [lia|].
  assert ((gr_TTL g =? 0) = (gp_TTLMillis m =? 0)) as -> by (unfold Millisecond in *; lia).
  destruct (Z.eqb_spec (gp_HubGeneration m) 0); [naive_solver|].
  destruct (GetRecordFields_Validate _); naive_solver.
Qed.

Lemma response_has_result m :
  go_typed m →
  (∃ g, go_typed g ∧ same_content m g) ↔ gp_TTLMillis m * Millisecond < 2 ^ 63.
Proof.
  intros (Hs & Hg & Hv & Ht & Hk). split.
  - intros (g & (_ & _ & Hi & _) & (_ & _ & _ & _ & _ & H)).
    apply TTLMillis_ok in H as [_ <-]; [apply Hi|done].
  - intros Hb.
    assert (i64 (gp_TTLMillis m * Millisecond)) by (unfold i64, u64, Millisecond in *; lia).
    exists (mkGetResult (gp_Value m) (gp_HubGeneration m) (gp_Version m)
              (gp_TTLMillis m * Millisecond) (gp_Kind m) (gp_Status m)).
    split; [done|]. repeat split. cbn. apply TTLMillis_ok; [done|].
    unfold u64, Millisecond in *. lia.
Qed.

Lemma result_has_response g :
  go_typed g →
  (∃ m, go_typed m ∧ same_content m g) ↔ 0 <= gr_TTL g ∧ (Millisecond | gr_TTL g).
Proof.
  intros (Hg & Hv & Ht & Hk & Hs). split.
  - intros (m & _ & (_ & _ & _ & _ & _ & H)). apply TTLMillis_ok in H as [? Heq]; [|done].
    split; [done|by exists (gp_TTLMillis m)].
  - intros [H0 [ms Heq]].
    assert (u64 ms) by (unfold u64, i64, Millisecond in *; lia).
    exists (mkGetResponse (gr_Status g) (gr_HubGeneration g) (gr_Version g) (gr_Value g) ms
              (gr_Kind g)).
    split; [done|]. repeat split. by apply TTLMillis_ok.
Qed.

(** C39. The two seams of an authoritative read agree.  A data-plane response
    and a node result with the same content, the duration sent by [TTLMillis],
    are accepted alike, except that only the response must name the hub
    generation, and when it does they are refused with the same error.  A
    response has such a result exactly when its TTL fits a [time.Duration],
    so the longer TTLs that the response validator accepts cannot be handed to
    the node; a result has such a response exactly when its TTL is a
    non-negative number of whole milliseconds. *)
Theorem get_seams_agree (m : GetResponse) (g : GetResult) :
  go_typed m → go_typed g →
  (same_content m g →
     (GetResponse_Validate m = None ↔ gp_HubGeneration m ≠ 0 ∧ GetResult_Validate g = None) ∧
     (gp_HubGeneration m ≠ 0 → GetResponse_Validate m = GetResult_Validate g)) ∧
  ((∃ g', go_typed g' ∧ same_content m g') ↔ gp_TTLMillis m * Millisecond < 2 ^ 63) ∧
  ((∃ m', go_typed m' ∧ same_content m' g) ↔ 0 <= gr_TTL g ∧ (Millisecond | gr_TTL g)).
Proof.
  intros Hm Hg. split_and!; [|by apply response_has_result|by apply result_has_response].
  apply same_content_accepted. apply Hg.
Qed.

Lemma get_seams_agree_witness :
  let m := mkGetResponse StatusOK 7 (mkVersionTag 1 5) (string_bytes "v") 1000 RecordValue in
  let g := mkGetResult (string_bytes "v") 7 (mkVersionTag 1 5) 1000000000 RecordValue StatusOK in
  GetResponse_Validate m = None ∧ GetResult_Validate g = None.
Proof.
  intros m g. assert (go_typed m) as Hm by by vm_compute. assert (go_typed g) as Hg by by vm_compute.
  destruct (get_seams_agree m g Hm Hg) as [H _].
  destruct (H ltac:(by vm_compute)) as [[_ Hr] _].
  assert (GetResult_Validate g = None) by by vm_compute.
  split; [by apply Hr|done].
Defined.
