(* ===== verification/ControlTypes.v ===== *)
(** * Control-plane messages (internal/control/types.go)

    The domain messages of the Control stream and their validators.  Client to
    hub: [Hello], [Subscribe], [StreamAcknowledgement], [ReplayRequest] and
    [InvalidateConfirm]; hub to client: [InvalidationBatch],
    [StreamCheckpoint], [ReplayUnavailable] and [ControlError].  The [map]
    a validator uses as a set of stream identities is a [gset Z]. *)

From S2P Require Import Prelude GoErrors GoStd WireStatus WireProtocol WireTypes.

Local Open Scope go_scope.

(** ** Limits and defaults *)
Definition MaxBatchEvents : Z := 4096.
Definition MaxControlMessageBytes : Z := Z.shiftl 3 20.
Definition controlMessageOverhead : Z := 128.
Definition eventEncodedOverhead : Z := 64.
Definition MaxSubscriptions : Z := 4096.
Definition DefaultSubscriberQueue : Z := 4096.
Definition DefaultCheckpointInterval : Z := Second.
Definition DefaultStreamFreshnessTimeout : Z := 3 * Second.
Definition MaxControlErrorDetail : Z := 256.

(** ** Sentinel errors *)
Definition control_ErrInvalidHubGeneration : err :=
  New "control.ErrInvalidHubGeneration" "hub generation must not be zero".
Definition control_ErrInvalidNodeID : err :=
  New "control.ErrInvalidNodeID" "node ID must not be zero".
Definition ErrInvalidSequence : err :=
  New "control.ErrInvalidSequence" "stream sequence must not be zero".
Definition ErrInvalidSequenceRange : err :=
  New "control.ErrInvalidSequenceRange" "invalid stream sequence range".
Definition ErrNonContiguousBatch : err :=
  New "control.ErrNonContiguousBatch" "invalidation batch is not contiguous".
Definition ErrPartitionMismatch : err :=
  New "control.ErrPartitionMismatch" "event version partition does not match stream".
Definition control_ErrInvalidRecordKind : err :=
  New "control.ErrInvalidRecordKind" "invalid invalidation record kind".
Definition ErrTooManyEvents : err :=
  New "control.ErrTooManyEvents" "invalidation batch exceeds event limit".
Definition ErrBatchTooLarge : err :=
  New "control.ErrBatchTooLarge" "invalidation batch exceeds encoded size limit".
Definition ErrTooManySubscriptions : err :=
  New "control.ErrTooManySubscriptions" "subscription count exceeds limit".
Definition ErrDuplicateSubscription : err :=
  New "control.ErrDuplicateSubscription" "duplicate stream subscription".
Definition ErrEmptySubscriptions : err :=
  New "control.ErrEmptySubscriptions" "subscription list must not be empty".
Definition ErrEmptyInvalidationBatch : err :=
  New "control.ErrEmptyInvalidationBatch" "invalidation batch must not be empty".
Definition ErrInvalidMessage : err :=
  New "control.ErrInvalidMessage" "invalid control message".
Definition control_ErrInvalidClusterID : err :=
  New "control.ErrInvalidClusterID" "cluster id must not be empty".
Definition ErrInvalidControlStatus : err :=
  New "control.ErrInvalidControlStatus" "invalid control error status".
Definition ErrControlDetailTooLarge : err :=
  New "control.ErrControlDetailTooLarge" "control error detail exceeds limit".

(** ** Hello *)
Record StreamWatermark := mkStreamWatermark {
  sw_StreamID : Z; sw_AppliedThrough : Z; sw_HubGeneration : Z }.

#[export] Instance StreamWatermark_typed : GoTyped StreamWatermark :=
  λ s, u32 (sw_StreamID s) ∧ u64 (sw_AppliedThrough s) ∧ u64 (sw_HubGeneration s).

Record Hello := mkHello {
  he_NodeID : Z; he_Protocol : ProtocolRange; he_Subscriptions : list StreamWatermark;
  he_ClusterID : string; he_ExpectedHubGeneration : Z }.

#[export] Instance Hello_typed : GoTyped Hello :=
  λ m, u64 (he_NodeID m) ∧ go_typed (he_Protocol m) ∧ go_typed (he_Subscriptions m) ∧
    u64 (he_ExpectedHubGeneration m).

(** The loop over the subscriptions, with the set of identities seen so far. *)
Fixpoint Hello_subscriptions (seen : gset Z) (subscriptions : list StreamWatermark) : error :=
  match subscriptions with
  | [] => None
  | s :: rest =>
      if sw_HubGeneration s =? 0 then Some control_ErrInvalidHubGeneration
      else if bool_decide (sw_StreamID s ∈ seen)
      then Some (Wrapf "%w: %d" ErrDuplicateSubscription [AInt (sw_StreamID s)])
      else Hello_subscriptions ({[sw_StreamID s]} ∪ seen) rest
  end.

Definition Hello_Validate (m : Hello) : error :=
  if he_NodeID m =? 0 then Some control_ErrInvalidNodeID
  else
    try ProtocolRange_Validate (he_Protocol m) ;;
    if bool_decide (TrimSpace (he_ClusterID m) = ""%string)
    then Some control_ErrInvalidClusterID
    else if len (he_Subscriptions m) >? MaxSubscriptions then Some ErrTooManySubscriptions
    else Hello_subscriptions ∅ (he_Subscriptions m).

(** ** Subscribe *)
Record Subscribe := mkSubscribe { su_HubGeneration : Z; su_StreamIDs : list Z }.

#[export] Instance Subscribe_typed : GoTyped Subscribe :=
  λ m, u64 (su_HubGeneration m) ∧ Forall u32 (su_StreamIDs m).

Fixpoint Subscribe_streams (seen : gset Z) (ids : list Z) : error :=
  match ids with
  | [] => None
  | id :: rest =>
      if bool_decide (id ∈ seen)
      then Some (Wrapf "%w: %d" ErrDuplicateSubscription [AInt id])
      else Subscribe_streams ({[id]} ∪ seen) rest
  end.

Definition Subscribe_Validate (m : Subscribe) : error :=
  if su_HubGeneration m =? 0 then Some control_ErrInvalidHubGeneration
  else if len (su_StreamIDs m) =? 0 then Some ErrEmptySubscriptions
  else if len (su_StreamIDs m) >? MaxSubscriptions then Some ErrTooManySubscriptions
  else Subscribe_streams ∅ (su_StreamIDs m).

(** ** InvalidationBatch *)
Record InvalidationEvent := mkInvalidationEvent {
  ev_StreamSequence : Z; ev_Key : bytes; ev_Version : VersionTag; ev_Kind : Z;
  ev_MutationID : MutationID }.

#[export] Instance InvalidationEvent_typed : GoTyped InvalidationEvent :=
  λ e, u64 (ev_StreamSequence e) ∧ go_typed (ev_Version e) ∧ u8 (ev_Kind e) ∧
    MutationID_typed (ev_MutationID e).

Record InvalidationBatch := mkInvalidationBatch {
  ib_StreamID : Z; ib_HubGeneration : Z; ib_Events : list InvalidationEvent }.

#[export] Instance InvalidationBatch_typed : GoTyped InvalidationBatch :=
  λ m, u32 (ib_StreamID m) ∧ u64 (ib_HubGeneration m) ∧ go_typed (ib_Events m).

Definition InvalidationEvent_validate (e : InvalidationEvent) (streamID : Z) : error :=
  if (ev_StreamSequence e =? 0) || (vt_Sequence (ev_Version e) =? 0)
  then Some ErrInvalidSequence
  else if len (ev_Key e) =? 0 then Some ErrKeyEmpty
  else if len (ev_Key e) >? MaxKeyLen then Some ErrKeyTooLarge
  else if negb (vt_PartitionID (ev_Version e) =? streamID) then Some ErrPartitionMismatch
  else if negb (RecordKind_Valid (ev_Kind e)) then Some control_ErrInvalidRecordKind
  else if MutationID_IsZero (ev_MutationID e) then Some ErrMutationIDRequired
  else None.

(** The loop over the events; [i] is the index and [previous] the sequence of
    the event before, in [uint64]. *)
Fixpoint InvalidationBatch_events (streamID i previous : Z) (events : list InvalidationEvent) :
    error :=
  match events with
  | [] => None
  | event :: rest =>
      match InvalidationEvent_validate event streamID with
      | Some e => Some (Wrapf "event %d: %w" e [AInt i])
      | None =>
          if (i >? 0) && negb (ev_StreamSequence event =? previous +% 1)
          then Some (Wrapf "%w: previous=%d current=%d" ErrNonContiguousBatch
                       [AInt previous; AInt (ev_StreamSequence event)])
          else InvalidationBatch_events streamID (i + 1) (ev_StreamSequence event) rest
      end
  end.

(** [int] is 64 bits wide; its additions wrap. *)
Definition InvalidationBatch_EstimatedEncodedSize (m : InvalidationBatch) : Z :=
  fold_left (λ n event, to_int64 (n + to_int64 (eventEncodedOverhead + len (ev_Key event))))
    (ib_Events m) controlMessageOverhead.

Definition InvalidationBatch_Validate (m : InvalidationBatch) : error :=
  if ib_HubGeneration m =? 0 then Some control_ErrInvalidHubGeneration
  else if len (ib_Events m) =? 0 then Some ErrEmptyInvalidationBatch
  else if len (ib_Events m) >? MaxBatchEvents then Some ErrTooManyEvents
  else
    try InvalidationBatch_events (ib_StreamID m) 0 0 (ib_Events m) ;;
    if InvalidationBatch_EstimatedEncodedSize m >? MaxControlMessageBytes
    then Some (Wrapf "%w: estimated %d bytes, max %d" ErrBatchTooLarge
                 [AInt (InvalidationBatch_EstimatedEncodedSize m); AInt MaxControlMessageBytes])
    else None.

(** ** StreamAcknowledgement *)
Record StreamAcknowledgement := mkStreamAcknowledgement {
  sa_StreamID : Z; sa_AppliedThrough : Z }.

#[export] Instance StreamAcknowledgement_typed : GoTyped StreamAcknowledgement :=
  λ m, u32 (sa_StreamID m) ∧ u64 (sa_AppliedThrough m).

Definition StreamAcknowledgement_Validate (m : StreamAcknowledgement) : error :=
  if sa_AppliedThrough m =? 0 then Some ErrInvalidSequence else None.

(** ** StreamCheckpoint *)
Record StreamCheckpoint := mkStreamCheckpoint {
  sc_StreamID : Z; sc_HubGeneration : Z; sc_StreamHead : Z }.

#[export] Instance StreamCheckpoint_typed : GoTyped StreamCheckpoint :=
  λ m, u32 (sc_StreamID m) ∧ u64 (sc_HubGeneration m) ∧ u64 (sc_StreamHead m).

Definition StreamCheckpoint_Validate (m : StreamCheckpoint) : error :=
  if sc_HubGeneration m =? 0 then Some control_ErrInvalidHubGeneration else None.

(** ** ReplayRequest *)
Record ReplayRequest := mkReplayRequest {
  rr_StreamID : Z; rr_FromSequence : Z; rr_ToSequence : Z }.

#[export] Instance ReplayRequest_typed : GoTyped ReplayRequest :=
  λ m, u32 (rr_StreamID m) ∧ u64 (rr_FromSequence m) ∧ u64 (rr_ToSequence m).

Definition ReplayRequest_Validate (m : ReplayRequest) : error :=
  if (rr_FromSequence m =? 0) || (rr_ToSequence m <? rr_FromSequence m)
  then Some ErrInvalidSequenceRange else None.

(** ** ReplayUnavailable *)
Record ReplayUnavailable := mkReplayUnavailable {
  ru_StreamID : Z; ru_HubGeneration : Z; ru_RequestedFrom : Z; ru_OldestAvailable : Z;
  ru_StreamHead : Z }.

#[export] Instance ReplayUnavailable_typed : GoTyped ReplayUnavailable :=
  λ m, u32 (ru_StreamID m) ∧ u64 (ru_HubGeneration m) ∧ u64 (ru_RequestedFrom m) ∧
    u64 (ru_OldestAvailable m) ∧ u64 (ru_StreamHead m).

Definition ReplayUnavailable_Validate (m : ReplayUnavailable) : error :=
  if ru_HubGeneration m =? 0 then Some control_ErrInvalidHubGeneration
  else if (ru_RequestedFrom m =? 0) || (ru_OldestAvailable m =? 0)
  then Some ErrInvalidSequenceRange
  else if ru_RequestedFrom m >=? ru_OldestAvailable m then Some ErrInvalidSequenceRange
  else if (ru_OldestAvailable m >? ru_StreamHead m) &&
          negb (ru_OldestAvailable m -% ru_StreamHead m =? 1)
  then Some ErrInvalidSequenceRange
  else None.

(** ** InvalidateConfirm *)
Record InvalidateConfirm := mkInvalidateConfirm {
  ic_StreamID : Z; ic_StreamSequence : Z; ic_NodeID : Z }.

#[export] Instance InvalidateConfirm_typed : GoTyped InvalidateConfirm :=
  λ m, u32 (ic_StreamID m) ∧ u64 (ic_StreamSequence m) ∧ u64 (ic_NodeID m).

Definition InvalidateConfirm_Validate (m : InvalidateConfirm) : error :=
  if ic_StreamSequence m =? 0 then Some ErrInvalidSequence
  else if ic_NodeID m =? 0 then Some control_ErrInvalidNodeID
  else None.

(** ** ControlError *)
Record ControlError := mkControlError { ce_Status : Z; ce_Detail : string }.

#[export] Instance ControlError_typed : GoTyped ControlError := λ m, u16 (ce_Status m).

Definition ControlError_Validate (m : ControlError) : error :=
  if (ce_Status m =? StatusErrRateLimited) || (ce_Status m =? StatusErrBadGeneration) ||
     (ce_Status m =? StatusErrInvalidArgument) || (ce_Status m =? StatusErrInternal)
  then if string_len (ce_Detail m) >? MaxControlErrorDetail
       then Some ErrControlDetailTooLarge else None
  else Some (Wrapf "%w: %s" ErrInvalidControlStatus [AStr (Status_String (ce_Status m))]).

(** ** Subscriptions *)

Lemma Subscribe_streams_ok seen ids :
  Subscribe_streams seen ids = None ↔ NoDup ids ∧ ∀ id, id ∈ ids → id ∉ seen.
Proof.
  revert seen. induction ids as [|a ids IH]; intros seen; cbn [Subscribe_streams].
  { split; [|done]. intros _. split; [constructor|set_solver]. }
  rewrite list.NoDup_cons. case_bool_decide as Ha.
  - split; [done|]. intros [_ H]. destruct (H a); [set_solver|done].
  - rewrite IH. set_solver.
Qed.

Lemma Subscribe_streams_dup seen ids id :
  Subscribe_streams seen ids = Some (Wrapf "%w: %d" ErrDuplicateSubscription [AInt id]) ↔
  ∃ pre post, ids = pre ++ id :: post ∧ NoDup pre ∧ (∀ x, x ∈ pre → x ∉ seen) ∧
              (id ∈ seen ∨ id ∈ pre).
Proof.
  revert seen. induction ids as [|a ids IH]; intros seen; cbn [Subscribe_streams].
  { split; [done|]. by intros ([|] & ? & ? & _). }
  case_bool_decide as Ha.
  - split.
    + intros [= ->]. exists [], ids. split_and!; [done|constructor|set_solver|by left].
    + intros ([|b pre] & post & Heq & _ & Hs & Hid); [by injection Heq as -> _|].
      injection Heq as <- _. destruct (Hs a); [set_solver|done].
  - rewrite IH. split.
    + intros (pre & post & -> & Hn & Hs & Hid). exists (a :: pre), post.
      split_and!; [done|apply list.NoDup_cons; set_solver|set_solver|set_solver].
    + intros ([|b pre] & post & Heq & Hn & Hs & Hid).
      { injection Heq as -> _. set_solver. }
      injection Heq as <- ->. apply list.NoDup_cons in Hn as [Hb Hn].
      exists pre, post. set_solver.
Qed.

Lemma Hello_subscriptions_streams seen subs :
  Forall (λ s, sw_HubGeneration s ≠ 0) subs →
  Hello_subscriptions seen subs = Subscribe_streams seen (map sw_StreamID subs).
Proof.
  intros H. revert seen. induction H as [|s subs Hs _ IH]; intros seen; [done|].
  cbn. rewrite (proj2 (Z.eqb_neq _ _) Hs). by rewrite IH.
Qed.

Lemma Hello_subscriptions_gens seen subs :
  Hello_subscriptions seen subs = None → Forall (λ s, sw_HubGeneration s ≠ 0) subs.
Proof.
  revert seen. induction subs as [|s subs IH]; intros seen; cbn; [constructor|].
  destruct (Z.eqb_spec (sw_HubGeneration s) 0); [done|].
  case_bool_decide; [done|]. intros ?. constructor; [done|by eapply IH].
Qed.

Lemma Hello_subscriptions_ok subs :
  Hello_subscriptions ∅ subs = None ↔
  Forall (λ s, sw_HubGeneration s ≠ 0) subs ∧ NoDup (map sw_StreamID subs).
Proof.
  split.
  - intros H. pose proof (Hello_subscriptions_gens _ _ H) as Hg. split; [done|].
    rewrite Hello_subscriptions_streams in H by done. by apply Subscribe_streams_ok in H as [? _].
  - intros [Hg Hn]. rewrite Hello_subscriptions_streams by done.
    apply Subscribe_streams_ok. set_solver.
Qed.

Lemma Hello_Validate_ok (m : Hello) :
  go_typed m →
  Hello_Validate m = None ↔
    he_NodeID m ≠ 0 ∧
    1 <= pr_MinSupported (he_Protocol m) <= pr_Version (he_Protocol m) ∧
    ¬ blank (string_bytes (he_ClusterID m)) ∧
    len (he_Subscriptions m) <= MaxSubscriptions ∧
    Forall (λ s, sw_HubGeneration s ≠ 0) (he_Subscriptions m) ∧
    NoDup (map sw_StreamID (he_Subscriptions m)).
Proof.
  intros (_ & Hp & _). apply ProtocolRange_Validate_ok in Hp.
  rewrite <- TrimSpace_empty, <- Hello_subscriptions_ok, <- Hp. unfold Hello_Validate.
  destruct (Z.eqb_spec (he_NodeID m) 0); [naive_solver|].
  destruct (ProtocolRange_Validate (he_Protocol m)); [naive_solver|].
  case_bool_decide; [naive_solver|].
  destruct (Z.gtb_spec (len (he_Subscriptions m)) MaxSubscriptions); [|naive_solver].
  split; [done|]. intros (_ & _ & _ & ? & _). lia.
Qed.

(** A hello is accepted exactly when it names a node and a cluster,
    offers an ordered version range, and resumes at most [MaxSubscriptions]
    pairwise distinct streams, each under a non-zero generation; the
    expected generation is free, zero meaning bootstrap. *)
Lemma Hello_Validate_spec (m : Hello) :
  go_typed m →
  Hello_Validate m = None ↔
    he_NodeID m ≠ 0 ∧
    1 <= pr_MinSupported (he_Protocol m) <= pr_Version (he_Protocol m) ∧
    ¬ blank (string_bytes (he_ClusterID m)) ∧
    len (he_Subscriptions m) <= MaxSubscriptions ∧
    Forall (λ s, sw_HubGeneration s ≠ 0) (he_Subscriptions m) ∧
    NoDup (map sw_StreamID (he_Subscriptions m)).
Proof. apply Hello_Validate_ok. Qed.

Lemma Hello_Validate_spec_witness :
  Hello_Validate (mkHello 1 CurrentProtocolRange
    [mkStreamWatermark 4 10 7; mkStreamWatermark 2 0 7] "prod" 0) = None.
Proof.
  apply Hello_Validate_spec; [repeat constructor; done|].
  split_and!; try done.
  - rewrite <- TrimSpace_empty. by vm_compute.
  - by repeat constructor.
  - apply (bool_decide_unpack (NoDup [4; 2])). by vm_compute.
Defined.

(** A subscription request is accepted exactly when it names a generation
    and between one and [MaxSubscriptions] pairwise distinct streams, and a
    duplicate is reported with the first stream identity that repeats. *)
Lemma Subscribe_Validate_spec (m : Subscribe) :
  (Subscribe_Validate m = None ↔
     su_HubGeneration m ≠ 0 ∧ 1 <= len (su_StreamIDs m) <= MaxSubscriptions ∧
     NoDup (su_StreamIDs m)) ∧
  (∀ id, Subscribe_Validate m =
           Some (Wrapf "%w: %d" ErrDuplicateSubscription [AInt id]) ↔
     su_HubGeneration m ≠ 0 ∧ len (su_StreamIDs m) <= MaxSubscriptions ∧
     ∃ pre post, su_StreamIDs m = pre ++ id :: post ∧ NoDup pre ∧ id ∈ pre) ∧
  (Subscribe_Validate m = Some ErrEmptySubscriptions ↔
     su_HubGeneration m ≠ 0 ∧ su_StreamIDs m = []) ∧
  (Subscribe_Validate m = Some ErrTooManySubscriptions ↔
     su_HubGeneration m ≠ 0 ∧ MaxSubscriptions < len (su_StreamIDs m)).
Proof.
  destruct m as [g ids]. unfold Subscribe_Validate. cbn [su_HubGeneration su_StreamIDs].
  rewrite <- len_nil_iff. pose proof (len_nonneg ids) as Hl.
  pose proof (Subscribe_streams_ok ∅ ids) as Hok.
  assert (∀ id, Subscribe_streams ∅ ids =
      Some (Wrapf "%w: %d" ErrDuplicateSubscription [AInt id]) ↔
    ∃ pre post, ids = pre ++ id :: post ∧ NoDup pre ∧ id ∈ pre) as Hdup.
  { intros id. rewrite Subscribe_streams_dup. set_solver. }
  assert (∀ e, Subscribe_streams ∅ ids = Some e → e ≠ ErrEmptySubscriptions ∧
    e ≠ ErrTooManySubscriptions) as He.
  { generalize (∅ : gset Z). clear. induction ids as [|a ids IH]; intros seen e; cbn; [done|].
    case_bool_decide; [by intros [= <-]|apply IH]. }
  destruct (Z.eqb_spec g 0); [naive_solver|].
  destruct (Z.eqb_spec (len ids) 0) as [E|].
  { apply len_nil_iff in E as ->. unfold MaxSubscriptions, len. cbn.
    split_and!; [naive_solver lia| |naive_solver|naive_solver lia].
    intros id. split; [done|]. by intros (_ & _ & [|] & ? & ? & _). }
  destruct (Z.gtb_spec (len ids) MaxSubscriptions); unfold MaxSubscriptions in *.
  { split_and!; naive_solver lia. }
  rewrite Hok. split_and!; [set_solver by lia|naive_solver|naive_solver lia|naive_solver lia].
Qed.

(** ** Invalidation batches *)

(** What one event of stream [streamID] has to be. *)
Definition event_ok (streamID : Z) (e : InvalidationEvent) : Prop :=
  ev_StreamSequence e ≠ 0 ∧ vt_Sequence (ev_Version e) ≠ 0 ∧ key_ok (ev_Key e) ∧
  vt_PartitionID (ev_Version e) = streamID ∧ RecordKind_Valid (ev_Kind e) = true ∧
  MutationID_IsZero (ev_MutationID e) = false.

Lemma InvalidationEvent_validate_ok e streamID :
  InvalidationEvent_validate e streamID = None ↔ event_ok streamID e.
Proof.
  unfold InvalidationEvent_validate, event_ok, key_ok. pose proof (len_nonneg (ev_Key e)).
  destruct (MutationID_IsZero (ev_MutationID e)); validate_cases.
Qed.

(** After the first event the loop demands the successor of the previous
    sequence; as the successor wraps to zero, which no event may carry, an
    accepted run never passes the largest [uint64]. *)
Lemma InvalidationBatch_events_tail streamID i previous events :
  0 < i → u64 previous → go_typed events →
  InvalidationBatch_events streamID i previous events = None ↔
  Forall (event_ok streamID) events ∧
  map ev_StreamSequence events = seqZ (previous + 1) (len events).
Proof.
  revert i previous. induction events as [|e events IH]; intros i previous Hi Hp Ht;
    cbn [InvalidationBatch_events map].
  { split; [|done]. by split; [constructor|]. }
  apply go_typed_cons in Ht as [He Ht]. assert (u64 (ev_StreamSequence e)) as Hs by apply He.
  rewrite list.Forall_cons, <- InvalidationEvent_validate_ok, len_cons.
  pose proof (len_nonneg events). rewrite seqZ_cons by lia.
  replace (Z.pred (1 + len events)) with (len events) by lia.
  destruct (InvalidationEvent_validate e streamID) eqn:Ee; [naive_solver|].
  apply InvalidationEvent_validate_ok in Ee as [Hnz _].
  destruct (Z.gtb_spec i 0); [|lia]. cbn [andb].
  destruct (Z.eqb_spec (ev_StreamSequence e) (previous +% 1)) as [E|E]; cbn [negb].
  - assert (ev_StreamSequence e = previous + 1) as E'.
    { destruct (decide (previous + 1 < 2 ^ 64)).
      - rewrite E. unfold_ints. by rewrite Z.mod_small by lia.
      - exfalso. apply Hnz. rewrite E. unfold u64 in Hp.
        by replace previous with (2 ^ 64 - 1) by lia. }
    rewrite IH by (done || lia). rewrite E', Z.add_1_r. naive_solver congruence.
  - split; [done|]. intros [_ [= E']]. exfalso. apply E. rewrite E'.
    unfold_ints. by rewrite Z.mod_small by lia.
Qed.

Lemma InvalidationBatch_events_ok streamID events :
  go_typed events →
  InvalidationBatch_events streamID 0 0 events = None ↔
  Forall (event_ok streamID) events ∧
  ∃ start, map ev_StreamSequence events = seqZ start (len events).
Proof.
  destruct events as [|e events]; intros Ht.
  { split; [|done]. intros _. split; [constructor|]. by exists 0. }
  apply go_typed_cons in Ht as [He Ht]. cbn [InvalidationBatch_events map].
  rewrite list.Forall_cons, <- InvalidationEvent_validate_ok, len_cons.
  destruct (InvalidationEvent_validate e streamID); [naive_solver|]. cbn [Z.gtb Z.compare andb].
  rewrite InvalidationBatch_events_tail by (done || apply He).
  pose proof (len_nonneg events). split.
  - intros [? Heq]. split; [done|]. exists (ev_StreamSequence e).
    rewrite seqZ_cons by lia. rewrite Heq. f_equal. f_equal; lia.
  - intros [[_ ?] [start Heq]]. split; [done|]. rewrite seqZ_cons in Heq by lia.
    injection Heq as -> ->. f_equal; lia.
Qed.

(** The size estimate as a sum of integers. *)
Definition batch_size (events : list InvalidationEvent) : Z :=
  foldr (λ e n, eventEncodedOverhead + len (ev_Key e) + n) 0 events.

Lemma batch_size_cons e events :
  batch_size (e :: events) = eventEncodedOverhead + len (ev_Key e) + batch_size events.
Proof. done. Qed.

Lemma batch_size_nonneg events : 0 <= batch_size events.
Proof.
  induction events as [|e events IH]; [done|]. rewrite batch_size_cons.
  pose proof (len_nonneg (ev_Key e)). unfold eventEncodedOverhead. lia.
Qed.

Lemma batch_size_bound events :
  Forall (λ e, len (ev_Key e) <= MaxKeyLen) events →
  batch_size events <= len events * (eventEncodedOverhead + MaxKeyLen).
Proof.
  induction 1 as [|e events He _ IH]; [done|]. rewrite batch_size_cons, len_cons. lia.
Qed.

Lemma EstimatedEncodedSize_fold n events :
  0 <= n → n + batch_size events < 2 ^ 63 →
  fold_left (λ n event, to_int64 (n + to_int64 (eventEncodedOverhead + len (ev_Key event))))
    events n = n + batch_size events.
Proof.
  revert n. induction events as [|e events IH]; intros n Hn Hb; [cbn; lia|].
  cbn [fold_left]. rewrite batch_size_cons in *.
  pose proof (batch_size_nonneg events). pose proof (len_nonneg (ev_Key e)).
  unfold eventEncodedOverhead in *.
  rewrite !to_int64_id by (unfold i64; rewrite ?to_int64_id by (unfold i64; lia); lia).
  rewrite IH by lia. lia.
Qed.

Lemma EstimatedEncodedSize_eq m :
  batch_size (ib_Events m) < 2 ^ 62 →
  InvalidationBatch_EstimatedEncodedSize m = controlMessageOverhead + batch_size (ib_Events m).
Proof.
  intros H. apply EstimatedEncodedSize_fold; unfold controlMessageOverhead; lia.
Qed.

Lemma event_ok_key streamID events :
  Forall (event_ok streamID) events → Forall (λ e, len (ev_Key e) <= MaxKeyLen) events.
Proof. apply Forall_impl. intros e (_ & _ & [_ ?] & _). done. Qed.

Lemma event_ok_batch_size streamID events :
  Forall (event_ok streamID) events → len events <= MaxBatchEvents →
  batch_size events < 2 ^ 62.
Proof.
  intros He Hl. apply event_ok_key, batch_size_bound in He. revert He Hl.
  change MaxBatchEvents with 4096. change (eventEncodedOverhead + MaxKeyLen) with 4160. lia.
Qed.

Lemma InvalidationBatch_Validate_ok m :
  go_typed m →
  InvalidationBatch_Validate m = None ↔
    ib_HubGeneration m ≠ 0 ∧ 1 <= len (ib_Events m) <= MaxBatchEvents ∧
    Forall (event_ok (ib_StreamID m)) (ib_Events m) ∧
    (∃ start, map ev_StreamSequence (ib_Events m) = seqZ start (len (ib_Events m))) ∧
    controlMessageOverhead + batch_size (ib_Events m) <= MaxControlMessageBytes.
Proof.
  intros (_ & _ & Ht). pose proof (InvalidationBatch_events_ok (ib_StreamID m) _ Ht) as Hloop.
  unfold InvalidationBatch_Validate. pose proof (len_nonneg (ib_Events m)).
  destruct (Z.eqb_spec (ib_HubGeneration m) 0); [naive_solver|].
  destruct (Z.eqb_spec (len (ib_Events m)) 0); [split; [done|lia]|].
  destruct (Z.gtb_spec (len (ib_Events m)) MaxBatchEvents); [split; [done|lia]|].
  destruct (InvalidationBatch_events _ _ _ _); [naive_solver|].
  destruct Hloop as [[He Hs] _]; [done|].
  rewrite EstimatedEncodedSize_eq by (by eapply event_ok_batch_size).
  destruct (Z.gtb_spec (controlMessageOverhead + batch_size (ib_Events m))
    MaxControlMessageBytes); [split; [done|lia]|].
  split; [|done]. intros _. split_and!; try done; lia.
Qed.

(** C4. An invalidation batch is accepted exactly when it names a generation,
    holds between one and [MaxBatchEvents] well-formed events of its stream,
    numbers them consecutively, and its estimated encoding fits a control
    message.  The numbering of an accepted batch never wraps around, and the
    estimate is exact integer arithmetic. *)
Theorem InvalidationBatch_Validate_spec (m : InvalidationBatch) :
  go_typed m →
  (InvalidationBatch_Validate m = None ↔
     ib_HubGeneration m ≠ 0 ∧ 1 <= len (ib_Events m) <= MaxBatchEvents ∧
     Forall (event_ok (ib_StreamID m)) (ib_Events m) ∧
     (∃ start, map ev_StreamSequence (ib_Events m) = seqZ start (len (ib_Events m))) ∧
     controlMessageOverhead + batch_size (ib_Events m) <= MaxControlMessageBytes) ∧
  (InvalidationBatch_Validate m = None →
     InvalidationBatch_EstimatedEncodedSize m =
       controlMessageOverhead + batch_size (ib_Events m) ∧
     ∀ i j e f, ib_Events m !! i = Some e → ib_Events m !! j = Some f →
       ev_StreamSequence f - ev_StreamSequence e = Z.of_nat j - Z.of_nat i).
Proof.
  intros Ht. pose proof (InvalidationBatch_Validate_ok m Ht) as Hok. split; [done|].
  intros Hv. apply Hok in Hv as (_ & [_ Hl] & He & [start Hs] & _). split.
  { apply EstimatedEncodedSize_eq. by eapply event_ok_batch_size. }
  assert (∀ i e, ib_Events m !! i = Some e → ev_StreamSequence e = start + Z.of_nat i) as Hi.
  { intros i e Hi. assert (map ev_StreamSequence (ib_Events m) !! i = Some (ev_StreamSequence e))
      as Hm by (by rewrite list_lookup_fmap, Hi).
    rewrite Hs in Hm. apply lookup_seqZ in Hm as [-> _]. lia. }
  intros i j e f Hie Hjf. rewrite (Hi _ _ Hie), (Hi _ _ Hjf). lia.
Qed.

Lemma InvalidationBatch_Validate_spec_witness :
  let ev n := mkInvalidationEvent n (string_bytes "k") (mkVersionTag 3 n) RecordValue
                (NewMutationID 1 n) in
  InvalidationBatch_Validate (mkInvalidationBatch 3 7 [ev 8; ev 9]) = None.
Proof.
  cbv zeta. apply InvalidationBatch_Validate_spec; [by repeat constructor|].
  split_and!; try (by vm_compute).
  - by repeat constructor; vm_compute.
  - by exists 8.
Defined.

(** ** Replay *)

(** C8. A replay request is accepted exactly when it is a non-empty range of
    non-zero sequences.  An unavailability report is accepted exactly when the
    requested start lies before the retained window and the window
    [oldest .. head] is well formed, where [oldest = head + 1] says it is
    empty: the wrapping [uint64] difference of the code means that, so no
    accepted report covers the start of the request it answers. *)
Theorem Replay_Validate_spec (q : ReplayRequest) (r : ReplayUnavailable) :
  go_typed q → go_typed r →
  (ReplayRequest_Validate q = None ↔ 1 <= rr_FromSequence q <= rr_ToSequence q) ∧
  (ReplayUnavailable_Validate r = None ↔
     ru_HubGeneration r ≠ 0 ∧
     1 <= ru_RequestedFrom r < ru_OldestAvailable r ∧
     ru_OldestAvailable r <= ru_StreamHead r + 1) ∧
  (ReplayUnavailable_Validate r = None → rr_FromSequence q = ru_RequestedFrom r →
     ¬ ru_OldestAvailable r <= rr_FromSequence q <= ru_StreamHead r).
Proof.
  destruct q as [s f t], r as [s' g f' o h].
  intros (_ & Hf & Ht) (_ & Hg & Hf' & Ho & Hh). cbn in *.
  assert (ReplayUnavailable_Validate (mkReplayUnavailable s' g f' o h) = None ↔
    g ≠ 0 ∧ 1 <= f' < o ∧ o <= h + 1) as Hr.
  { unfold ReplayUnavailable_Validate. cbn.
    destruct (Z.gtb_spec o h); [|unfold u64 in *; validate_cases].
    assert (o -% h = o - h) as -> by (unfold_ints; rewrite Z.mod_small; lia).
    unfold u64 in *. validate_cases. }
  split_and!; [|done|].
  - unfold ReplayRequest_Validate, u64 in *. cbn. validate_cases.
  - rewrite Hr. lia.
Qed.

Lemma Replay_Validate_spec_witness :
  ReplayRequest_Validate (mkReplayRequest 3 5 9) = None ∧
  ReplayUnavailable_Validate (mkReplayUnavailable 3 7 5 10 9) = None.
Proof.
  destruct (Replay_Validate_spec (mkReplayRequest 3 5 9) (mkReplayUnavailable 3 7 5 10 9))
    as (Hq & Hr & _); [done..|].
  split; [apply Hq; cbn; lia|apply Hr; cbn; lia].
Defined.

(** ** Control errors and stream positions *)

(** The statuses a control error may report. *)
Definition control_error_statuses : list Z :=
  [StatusErrRateLimited; StatusErrBadGeneration; StatusErrInvalidArgument; StatusErrInternal].

(** A control error is accepted exactly when its status is one of the
    four of the protocol and its detail is within bounds; none of the four is
    a success, a status outside the four is refused as such whatever the
    detail. *)
Lemma ControlError_Validate_spec (m : ControlError) :
  (ControlError_Validate m = None ↔
     ce_Status m ∈ control_error_statuses ∧ string_len (ce_Detail m) <= MaxControlErrorDetail) ∧
  (ControlError_Validate m = None → Status_Class (ce_Status m) ≠ StatusClassSuccess) ∧
  (is_error (ControlError_Validate m) ErrInvalidControlStatus = true ↔
     ce_Status m ∉ control_error_statuses).
Proof.
  unfold ControlError_Validate, control_error_statuses.
  rewrite !elem_of_cons, elem_of_nil.
  destruct (_ || _) eqn:E.
  - assert (ce_Status m = 5 ∨ ce_Status m = 4 ∨ ce_Status m = 6 ∨ ce_Status m = 8) as Hs
      by (unfold_status; lia). unfold_status.
    destruct (Z.gtb_spec (string_len (ce_Detail m)) MaxControlErrorDetail);
      split_and!; try (intuition (try done; lia)).
    intros _. by destruct Hs as [->|[->|[->| ->]]].
  - unfold_status. split_and!; intuition (try done; lia).
Qed.

(** The messages that carry stream positions are accepted exactly when
    the identities they must name are not zero: an acknowledgement its
    sequence, a confirmation its sequence and its node, a checkpoint its
    generation; the head of a checkpoint may be zero, an empty stream. *)
Lemma stream_positions_spec (a : StreamAcknowledgement) (c : StreamCheckpoint)
    (i : InvalidateConfirm) :
  (StreamAcknowledgement_Validate a = None ↔ sa_AppliedThrough a ≠ 0) ∧
  (StreamCheckpoint_Validate c = None ↔ sc_HubGeneration c ≠ 0) ∧
  (InvalidateConfirm_Validate i = None ↔ ic_StreamSequence i ≠ 0 ∧ ic_NodeID i ≠ 0) ∧
  (InvalidateConfirm_Validate i = Some control_ErrInvalidNodeID ↔
     ic_StreamSequence i ≠ 0 ∧ ic_NodeID i = 0).
Proof.
  unfold StreamAcknowledgement_Validate, StreamCheckpoint_Validate, InvalidateConfirm_Validate.
  split_and!; validate_cases.
Qed.
