(* ===== verification/ControlConvert.v ===== *)
(** * Control-plane conversions (internal/control/convert.go)

    [ProtoX] and [FromProtoX] for every message of the Control stream and for
    its two envelopes. *)

From S2P Require Import Prelude GoErrors GoStd WireStatus WireProtocol WireTypes WireRecord.
From S2P Require Import PbCommon PbControl PbData RpcTypes Codec RpcConvert ControlTypes.

Local Open Scope go_scope.

(** ** domain → protobuf *)

Definition ProtoHello (m : Hello) : pb_Hello :=
  {| pb_Hello_NodeId := he_NodeID m;
     pb_Hello_ProtocolVersion := to_uint32 (pr_Version (he_Protocol m));
     pb_Hello_MinSupportedVersion := to_uint32 (pr_MinSupported (he_Protocol m));
     pb_Hello_Subscriptions :=
       map (λ s, Some {| pb_StreamWatermark_StreamId := sw_StreamID s;
                         pb_StreamWatermark_AppliedThrough := sw_AppliedThrough s;
                         pb_StreamWatermark_HubGeneration := sw_HubGeneration s |})
         (he_Subscriptions m);
     pb_Hello_ClusterId := he_ClusterID m;
     pb_Hello_ExpectedHubGeneration := he_ExpectedHubGeneration m |}.

Definition ProtoControlError (m : ControlError) : pb_ControlError :=
  {| pb_ControlError_Status := to_int32 (ce_Status m);
     pb_ControlError_Detail := ce_Detail m |}.

(** [append([]uint32(nil), m.StreamIDs...)] has the same elements. *)
Definition ProtoSubscribe (m : Subscribe) : pb_Subscribe :=
  {| pb_Subscribe_HubGeneration := su_HubGeneration m;
     pb_Subscribe_StreamIds := [] ++ su_StreamIDs m |}.

(** The loop variable is new in each iteration (Go 1.22 and later), so each
    [e.MutationID[:]] is a slice of an array of its own. *)
Definition ProtoInvalidationBatch (m : InvalidationBatch) : pb_InvalidationBatch :=
  {| pb_InvalidationBatch_StreamId := ib_StreamID m;
     pb_InvalidationBatch_HubGeneration := ib_HubGeneration m;
     pb_InvalidationBatch_Events :=
       map (λ e, Some
         {| pb_InvalidationEvent_StreamSequence := ev_StreamSequence e;
            pb_InvalidationEvent_Key := CopyBytes (ev_Key e);
            pb_InvalidationEvent_Version :=
              Some {| pb_VersionTag_PartitionId := vt_PartitionID (ev_Version e);
                      pb_VersionTag_Sequence := vt_Sequence (ev_Version e) |};
            pb_InvalidationEvent_Kind := to_int32 (ev_Kind e);
            pb_InvalidationEvent_MutationId :=
              Some {| pb_MutationID_Id := ev_MutationID e |} |})
         (ib_Events m) |}.

Definition ProtoStreamAcknowledgement (m : StreamAcknowledgement) : pb_StreamAcknowledgement :=
  {| pb_StreamAcknowledgement_StreamId := sa_StreamID m;
     pb_StreamAcknowledgement_AppliedThrough := sa_AppliedThrough m |}.

Definition ProtoStreamCheckpoint (m : StreamCheckpoint) : pb_StreamCheckpoint :=
  {| pb_StreamCheckpoint_StreamId := sc_StreamID m;
     pb_StreamCheckpoint_HubGeneration := sc_HubGeneration m;
     pb_StreamCheckpoint_StreamHead := sc_StreamHead m |}.

Definition ProtoReplayRequest (m : ReplayRequest) : pb_ReplayRequest :=
  {| pb_ReplayRequest_StreamId := rr_StreamID m;
     pb_ReplayRequest_FromSequence := rr_FromSequence m;
     pb_ReplayRequest_ToSequence := rr_ToSequence m |}.

Definition ProtoReplayUnavailable (m : ReplayUnavailable) : pb_ReplayUnavailable :=
  {| pb_ReplayUnavailable_StreamId := ru_StreamID m;
     pb_ReplayUnavailable_HubGeneration := ru_HubGeneration m;
     pb_ReplayUnavailable_RequestedFrom := ru_RequestedFrom m;
     pb_ReplayUnavailable_OldestAvailable := ru_OldestAvailable m;
     pb_ReplayUnavailable_StreamHead := ru_StreamHead m |}.

Definition ProtoInvalidateConfirm (m : InvalidateConfirm) : pb_InvalidateConfirm :=
  {| pb_InvalidateConfirm_StreamId := ic_StreamID m;
     pb_InvalidateConfirm_StreamSequence := ic_StreamSequence m;
     pb_InvalidateConfirm_NodeId := ic_NodeID m |}.

(** ** Stream payloads

    A value of type [any] as the envelope functions see it: nil, a message, a
    pointer to a message (nil or not), or a value of another type, of which
    only the name of the type is observed. *)
Inductive payload :=
| PNil
| PHello (v : Hello) | PHelloPtr (v : option Hello)
| PSubscribe (v : Subscribe) | PSubscribePtr (v : option Subscribe)
| PStreamAcknowledgement (v : StreamAcknowledgement)
| PStreamAcknowledgementPtr (v : option StreamAcknowledgement)
| PReplayRequest (v : ReplayRequest) | PReplayRequestPtr (v : option ReplayRequest)
| PInvalidateConfirm (v : InvalidateConfirm) | PInvalidateConfirmPtr (v : option InvalidateConfirm)
| PInvalidationBatch (v : InvalidationBatch) | PInvalidationBatchPtr (v : option InvalidationBatch)
| PStreamCheckpoint (v : StreamCheckpoint) | PStreamCheckpointPtr (v : option StreamCheckpoint)
| PReplayUnavailable (v : ReplayUnavailable) | PReplayUnavailablePtr (v : option ReplayUnavailable)
| PControlError (v : ControlError) | PControlErrorPtr (v : option ControlError)
| POther (type_name : string).

(** What the verb [%T] prints. *)
Definition payload_type (body : payload) : string :=
  match body with
  | PNil => "<nil>"
  | PHello _ => "control.Hello" | PHelloPtr _ => "*control.Hello"
  | PSubscribe _ => "control.Subscribe" | PSubscribePtr _ => "*control.Subscribe"
  | PStreamAcknowledgement _ => "control.StreamAcknowledgement"
  | PStreamAcknowledgementPtr _ => "*control.StreamAcknowledgement"
  | PReplayRequest _ => "control.ReplayRequest" | PReplayRequestPtr _ => "*control.ReplayRequest"
  | PInvalidateConfirm _ => "control.InvalidateConfirm"
  | PInvalidateConfirmPtr _ => "*control.InvalidateConfirm"
  | PInvalidationBatch _ => "control.InvalidationBatch"
  | PInvalidationBatchPtr _ => "*control.InvalidationBatch"
  | PStreamCheckpoint _ => "control.StreamCheckpoint"
  | PStreamCheckpointPtr _ => "*control.StreamCheckpoint"
  | PReplayUnavailable _ => "control.ReplayUnavailable"
  | PReplayUnavailablePtr _ => "*control.ReplayUnavailable"
  | PControlError _ => "control.ControlError" | PControlErrorPtr _ => "*control.ControlError"
  | POther t => t
  end.

Definition client_message (body : pb_ControlClientMessage_Body) :
    option pb_ControlClientMessage * error :=
  (Some {| pb_ControlClientMessage_Body_field := Some body |}, None).

Definition ProtoClientMessage (body : payload) : option pb_ControlClientMessage * error :=
  match body with
  | PHello v => client_message (CCM_Hello (Some (Some (ProtoHello v))))
  | PHelloPtr None => (None, Some (Wrapf "%w: nil *Hello" ErrInvalidMessage []))
  | PHelloPtr (Some v) => client_message (CCM_Hello (Some (Some (ProtoHello v))))
  | PSubscribe v => client_message (CCM_Subscribe (Some (Some (ProtoSubscribe v))))
  | PSubscribePtr None => (None, Some (Wrapf "%w: nil *Subscribe" ErrInvalidMessage []))
  | PSubscribePtr (Some v) => client_message (CCM_Subscribe (Some (Some (ProtoSubscribe v))))
  | PStreamAcknowledgement v =>
      client_message (CCM_StreamAcknowledgement (Some (Some (ProtoStreamAcknowledgement v))))
  | PStreamAcknowledgementPtr None =>
      (None, Some (Wrapf "%w: nil *StreamAcknowledgement" ErrInvalidMessage []))
  | PStreamAcknowledgementPtr (Some v) =>
      client_message (CCM_StreamAcknowledgement (Some (Some (ProtoStreamAcknowledgement v))))
  | PReplayRequest v => client_message (CCM_ReplayRequest (Some (Some (ProtoReplayRequest v))))
  | PReplayRequestPtr None => (None, Some (Wrapf "%w: nil *ReplayRequest" ErrInvalidMessage []))
  | PReplayRequestPtr (Some v) =>
      client_message (CCM_ReplayRequest (Some (Some (ProtoReplayRequest v))))
  | PInvalidateConfirm v =>
      client_message (CCM_InvalidateConfirm (Some (Some (ProtoInvalidateConfirm v))))
  | PInvalidateConfirmPtr None =>
      (None, Some (Wrapf "%w: nil *InvalidateConfirm" ErrInvalidMessage []))
  | PInvalidateConfirmPtr (Some v) =>
      client_message (CCM_InvalidateConfirm (Some (Some (ProtoInvalidateConfirm v))))
  | _ => (None, Some (Wrapf "%w: unsupported client body %T" ErrInvalidMessage
                        [AStr (payload_type body)]))
  end.

Definition server_message (body : pb_ControlServerMessage_Body) :
    option pb_ControlServerMessage * error :=
  (Some {| pb_ControlServerMessage_Body_field := Some body |}, None).

Definition ProtoServerMessage (body : payload) : option pb_ControlServerMessage * error :=
  match body with
  | PInvalidationBatch v =>
      server_message (CSM_InvalidationBatch (Some (Some (ProtoInvalidationBatch v))))
  | PInvalidationBatchPtr None =>
      (None, Some (Wrapf "%w: nil *InvalidationBatch" ErrInvalidMessage []))
  | PInvalidationBatchPtr (Some v) =>
      server_message (CSM_InvalidationBatch (Some (Some (ProtoInvalidationBatch v))))
  | PStreamCheckpoint v =>
      server_message (CSM_StreamCheckpoint (Some (Some (ProtoStreamCheckpoint v))))
  | PStreamCheckpointPtr None =>
      (None, Some (Wrapf "%w: nil *StreamCheckpoint" ErrInvalidMessage []))
  | PStreamCheckpointPtr (Some v) =>
      server_message (CSM_StreamCheckpoint (Some (Some (ProtoStreamCheckpoint v))))
  | PReplayUnavailable v =>
      server_message (CSM_ReplayUnavailable (Some (Some (ProtoReplayUnavailable v))))
  | PReplayUnavailablePtr None =>
      (None, Some (Wrapf "%w: nil *ReplayUnavailable" ErrInvalidMessage []))
  | PReplayUnavailablePtr (Some v) =>
      server_message (CSM_ReplayUnavailable (Some (Some (ProtoReplayUnavailable v))))
  | PControlError v => server_message (CSM_ControlError (Some (Some (ProtoControlError v))))
  | PControlErrorPtr None => (None, Some (Wrapf "%w: nil *ControlError" ErrInvalidMessage []))
  | PControlErrorPtr (Some v) =>
      server_message (CSM_ControlError (Some (Some (ProtoControlError v))))
  | _ => (None, Some (Wrapf "%w: unsupported server body %T" ErrInvalidMessage
                        [AStr (payload_type body)]))
  end.

(** ** protobuf → domain: fields *)

Definition mutationIDFromProto (m : option pb_MutationID) : MutationID * error :=
  let id := zero_bytes 16 in
  match m with
  | None => (id, Some ErrMutationIDRequired)
  | Some _ =>
      let raw := pb_MutationID_GetId m in
      if len raw =? 0 then (id, Some ErrMutationIDRequired)
      else if negb (len raw =? len id)
      then (id, Some (Errorf "mutation id must be %d bytes, got %d"
                        [AInt (len id); AInt (len raw)]))
      else (raw, None) (* copy(id[:], raw) *)
  end.

Definition recordKindFromProto (k : Z) : Z * error :=
  if k =? pb_RecordKind_RECORD_KIND_VALUE then (RecordValue, None)
  else if k =? pb_RecordKind_RECORD_KIND_TOMBSTONE then (RecordTombstone, None)
  else (0, Some (Wrapf "%w: record kind %v" control_ErrInvalidRecordKind [AInt k])).

Definition statusFromProto (s : Z) : Z * error :=
  if s =? pb_Status_STATUS_OK then (StatusOK, None)
  else if s =? pb_Status_STATUS_NOT_FOUND then (StatusNotFound, None)
  else if s =? pb_Status_STATUS_NOT_CAUGHT_UP then (StatusNotCaughtUp, None)
  else if s =? pb_Status_STATUS_ERR_DURABILITY_UNAVAILABLE
  then (StatusErrDurabilityUnavailable, None)
  else if s =? pb_Status_STATUS_ERR_BAD_GENERATION then (StatusErrBadGeneration, None)
  else if s =? pb_Status_STATUS_ERR_RATE_LIMITED then (StatusErrRateLimited, None)
  else if s =? pb_Status_STATUS_ERR_INVALID_ARGUMENT then (StatusErrInvalidArgument, None)
  else if s =? pb_Status_STATUS_ERR_WRITE_CONFIRM_TIMEOUT
  then (StatusErrWriteConfirmTimeout, None)
  else if s =? pb_Status_STATUS_ERR_INTERNAL then (StatusErrInternal, None)
  else (0, Some (Wrapf "%w: %v" ErrInvalidControlStatus [AInt s])).

Definition control_protocolVersionFromUint32 (v : Z) : Z * error :=
  if v >? MaxUint16
  then (0, Some (Wrapf "%w: protocol version %d exceeds uint16" ErrInvalidProtocolRange [AInt v]))
  else (to_uint16 v, None).

(** ** protobuf → domain: messages *)

Definition zero_Hello : Hello := mkHello 0 zero_ProtocolRange [] "" 0.
Definition zero_Subscribe : Subscribe := mkSubscribe 0 [].
Definition zero_InvalidationBatch : InvalidationBatch := mkInvalidationBatch 0 0 [].
Definition zero_StreamAcknowledgement : StreamAcknowledgement := mkStreamAcknowledgement 0 0.
Definition zero_StreamCheckpoint : StreamCheckpoint := mkStreamCheckpoint 0 0 0.
Definition zero_ReplayRequest : ReplayRequest := mkReplayRequest 0 0 0.
Definition zero_ReplayUnavailable : ReplayUnavailable := mkReplayUnavailable 0 0 0 0 0.
Definition zero_InvalidateConfirm : InvalidateConfirm := mkInvalidateConfirm 0 0 0.
Definition zero_ControlError : ControlError := mkControlError 0 "".

(** The loop over the subscriptions: the watermarks, or the error the
    function returns with the zero hello. *)
Fixpoint FromProtoHello_subscriptions (subscriptions : list (option pb_StreamWatermark)) :
    list StreamWatermark * error :=
  match subscriptions with
  | [] => ([], None)
  | None :: _ => ([], Some (Wrapf "%w: nil subscription watermark" ErrInvalidMessage []))
  | (Some _ as s) :: rest =>
      let? out := FromProtoHello_subscriptions rest or [] in
      ({| sw_StreamID := pb_StreamWatermark_GetStreamId s;
          sw_AppliedThrough := pb_StreamWatermark_GetAppliedThrough s;
          sw_HubGeneration := pb_StreamWatermark_GetHubGeneration s |} :: out, None)
  end.

Definition FromProtoHello (m : option pb_Hello) : Hello * error :=
  match m with
  | None => (zero_Hello, Some (Wrapf "%w: nil hello" ErrInvalidMessage []))
  | Some _ =>
      let? version := control_protocolVersionFromUint32 (pb_Hello_GetProtocolVersion m)
        or zero_Hello in
      let? minimum := control_protocolVersionFromUint32 (pb_Hello_GetMinSupportedVersion m)
        or zero_Hello in
      let? subscriptions := FromProtoHello_subscriptions (pb_Hello_GetSubscriptions m)
        or zero_Hello in
      let out :=
        {| he_NodeID := pb_Hello_GetNodeId m;
           he_Protocol := {| pr_Version := version; pr_MinSupported := minimum |};
           he_Subscriptions := subscriptions;
           he_ClusterID := pb_Hello_GetClusterId m;
           he_ExpectedHubGeneration := pb_Hello_GetExpectedHubGeneration m |} in
      (out, Hello_Validate out)
  end.

Definition FromProtoSubscribe (m : option pb_Subscribe) : Subscribe * error :=
  match m with
  | None => (zero_Subscribe, Some (Wrapf "%w: nil subscribe" ErrInvalidMessage []))
  | Some _ =>
      let out :=
        {| su_HubGeneration := pb_Subscribe_GetHubGeneration m;
           su_StreamIDs := [] ++ pb_Subscribe_GetStreamIds m |} in
      (out, Subscribe_Validate out)
  end.

(** The loop over the events: the converted events, or the error the function
    returns with the zero batch. *)
Fixpoint FromProtoInvalidationBatch_events (i : Z) (events : list (option pb_InvalidationEvent)) :
    list InvalidationEvent * error :=
  match events with
  | [] => ([], None)
  | None :: _ => ([], Some (Wrapf "%w: nil event at index %d" ErrInvalidMessage [AInt i]))
  | (Some _ as e) :: rest =>
      let? id := mutationIDFromProto (pb_InvalidationEvent_GetMutationId e) or [] in
      let? kind := recordKindFromProto (pb_InvalidationEvent_GetKind e) or [] in
      let version :=
        match pb_InvalidationEvent_GetVersion e with
        | None => zero_VersionTag
        | Some _ as v => {| vt_PartitionID := pb_VersionTag_GetPartitionId v;
                            vt_Sequence := pb_VersionTag_GetSequence v |}
        end in
      let? out := FromProtoInvalidationBatch_events (i + 1) rest or [] in
      ({| ev_StreamSequence := pb_InvalidationEvent_GetStreamSequence e;
          ev_Key := CopyBytes (pb_InvalidationEvent_GetKey e);
          ev_Version := version; ev_Kind := kind; ev_MutationID := id |} :: out, None)
  end.

Definition FromProtoInvalidationBatch (m : option pb_InvalidationBatch) :
    InvalidationBatch * error :=
  match m with
  | None => (zero_InvalidationBatch, Some (Wrapf "%w: nil invalidation batch" ErrInvalidMessage []))
  | Some _ =>
      let? events := FromProtoInvalidationBatch_events 0 (pb_InvalidationBatch_GetEvents m)
        or zero_InvalidationBatch in
      let out :=
        {| ib_StreamID := pb_InvalidationBatch_GetStreamId m;
           ib_HubGeneration := pb_InvalidationBatch_GetHubGeneration m;
           ib_Events := events |} in
      (out, InvalidationBatch_Validate out)
  end.

Definition FromProtoStreamAcknowledgement (m : option pb_StreamAcknowledgement) :
    StreamAcknowledgement * error :=
  match m with
  | None => (zero_StreamAcknowledgement,
             Some (Wrapf "%w: nil stream acknowledgement" ErrInvalidMessage []))
  | Some _ =>
      let out :=
        {| sa_StreamID := pb_StreamAcknowledgement_GetStreamId m;
           sa_AppliedThrough := pb_StreamAcknowledgement_GetAppliedThrough m |} in
      (out, StreamAcknowledgement_Validate out)
  end.

Definition FromProtoStreamCheckpoint (m : option pb_StreamCheckpoint) : StreamCheckpoint * error :=
  match m with
  | None => (zero_StreamCheckpoint, Some (Wrapf "%w: nil stream checkpoint" ErrInvalidMessage []))
  | Some _ =>
      let out :=
        {| sc_StreamID := pb_StreamCheckpoint_GetStreamId m;
           sc_HubGeneration := pb_StreamCheckpoint_GetHubGeneration m;
           sc_StreamHead := pb_StreamCheckpoint_GetStreamHead m |} in
      (out, StreamCheckpoint_Validate out)
  end.

Definition FromProtoReplayRequest (m : option pb_ReplayRequest) : ReplayRequest * error :=
  match m with
  | None => (zero_ReplayRequest, Some (Wrapf "%w: nil replay request" ErrInvalidMessage []))
  | Some _ =>
      let out :=
        {| rr_StreamID := pb_ReplayRequest_GetStreamId m;
           rr_FromSequence := pb_ReplayRequest_GetFromSequence m;
           rr_ToSequence := pb_ReplayRequest_GetToSequence m |} in
      (out, ReplayRequest_Validate out)
  end.

Definition FromProtoReplayUnavailable (m : option pb_ReplayUnavailable) :
    ReplayUnavailable * error :=
  match m with
  | None => (zero_ReplayUnavailable, Some (Wrapf "%w: nil replay unavailable" ErrInvalidMessage []))
  | Some _ =>
      let out :=
        {| ru_StreamID := pb_ReplayUnavailable_GetStreamId m;
           ru_HubGeneration := pb_ReplayUnavailable_GetHubGeneration m;
           ru_RequestedFrom := pb_ReplayUnavailable_GetRequestedFrom m;
           ru_OldestAvailable := pb_ReplayUnavailable_GetOldestAvailable m;
           ru_StreamHead := pb_ReplayUnavailable_GetStreamHead m |} in
      (out, ReplayUnavailable_Validate out)
  end.

Definition FromProtoInvalidateConfirm (m : option pb_InvalidateConfirm) :
    InvalidateConfirm * error :=
  match m with
  | None => (zero_InvalidateConfirm, Some (Wrapf "%w: nil invalidate confirm" ErrInvalidMessage []))
  | Some _ =>
      let out :=
        {| ic_StreamID := pb_InvalidateConfirm_GetStreamId m;
           ic_StreamSequence := pb_InvalidateConfirm_GetStreamSequence m;
           ic_NodeID := pb_InvalidateConfirm_GetNodeId m |} in
      (out, InvalidateConfirm_Validate out)
  end.

Definition FromProtoControlError (m : option pb_ControlError) : ControlError * error :=
  match m with
  | None => (zero_ControlError, Some (Wrapf "%w: nil control error" ErrInvalidMessage []))
  | Some _ =>
      let? status := statusFromProto (pb_ControlError_GetStatus m) or zero_ControlError in
      let out := {| ce_Status := status; ce_Detail := pb_ControlError_GetDetail m |} in
      (out, ControlError_Validate out)
  end.

(** ** protobuf → domain: envelopes

    Reading a field of a nil wrapper pointer panics.  The value returned next
    to an error is the converted message, not a nil interface. *)

Definition unwrap {P D} (w : option (option P)) (convert : option P → D * error)
    (any : D → payload) : outcome (payload * error) :=
  match w with
  | None => Panics nil_dereference
  | Some p => let (v, e) := convert p in Returns (any v, e)
  end.

Definition FromProtoClientMessage (m : option pb_ControlClientMessage) : outcome (payload * error) :=
  match m with
  | None => Returns (PNil, Some (Wrapf "%w: nil client message" ErrInvalidMessage []))
  | Some _ =>
      match pb_ControlClientMessage_GetBody m with
      | Some (CCM_Hello w) => unwrap w FromProtoHello PHello
      | Some (CCM_Subscribe w) => unwrap w FromProtoSubscribe PSubscribe
      | Some (CCM_StreamAcknowledgement w) =>
          unwrap w FromProtoStreamAcknowledgement PStreamAcknowledgement
      | Some (CCM_ReplayRequest w) => unwrap w FromProtoReplayRequest PReplayRequest
      | Some (CCM_InvalidateConfirm w) => unwrap w FromProtoInvalidateConfirm PInvalidateConfirm
      | None => Returns (PNil, Some (Wrapf "%w: empty client body" ErrInvalidMessage []))
      end
  end.

Definition FromProtoServerMessage (m : option pb_ControlServerMessage) : outcome (payload * error) :=
  match m with
  | None => Returns (PNil, Some (Wrapf "%w: nil server message" ErrInvalidMessage []))
  | Some _ =>
      match pb_ControlServerMessage_GetBody m with
      | Some (CSM_InvalidationBatch w) => unwrap w FromProtoInvalidationBatch PInvalidationBatch
      | Some (CSM_StreamCheckpoint w) => unwrap w FromProtoStreamCheckpoint PStreamCheckpoint
      | Some (CSM_ReplayUnavailable w) => unwrap w FromProtoReplayUnavailable PReplayUnavailable
      | Some (CSM_ControlError w) => unwrap w FromProtoControlError PControlError
      | None => Returns (PNil, Some (Wrapf "%w: empty server body" ErrInvalidMessage []))
      end
  end.

(** ** Lemmas: fields *)

(** The two packages convert identities and versions alike. *)
Lemma mutationIDFromProto_eq m : mutationIDFromProto m = FromProtoMutationID m.
Proof. done. Qed.
Lemma control_protocolVersionFromUint32_eq v :
  control_protocolVersionFromUint32 v = rpc_protocolVersionFromUint32 v.
Proof. done. Qed.

Lemma recordKindFromProto_valid k :
  RecordKind_Valid k = true → recordKindFromProto (to_int32 k) = (k, None).
Proof. unfold_enums. intros H. by assert (k = 0 ∨ k = 1) as [->| ->] by lia. Qed.

Lemma statusFromProto_valid s :
  u16 s → Status_Valid s = true → statusFromProto (to_int32 s) = (s, None).
Proof.
  intros Hs Hv. apply Status_Valid_cases in Hv; [|done].
  rewrite to_int32_id by auto with go_int.
  by destruct Hv as [->|[->|[->|[->|[->|[->|[->|[->| ->]]]]]]]].
Qed.

Lemma control_protocolVersionFromUint32_id v :
  u16 v → control_protocolVersionFromUint32 (to_uint32 v) = (v, None).
Proof. apply rpc_protocolVersionFromUint32_id. Qed.

Lemma mutationIDFromProto_id id :
  MutationID_typed id → mutationIDFromProto (Some {| pb_MutationID_Id := id |}) = (id, None).
Proof. apply FromProtoMutationID_id. Qed.

#[export] Hint Rewrite recordKindFromProto_valid statusFromProto_valid
  control_protocolVersionFromUint32_id mutationIDFromProto_id using (first [done | tauto])
  : from_proto.

Lemma recordKindFromProto_ok k t :
  recordKindFromProto k = (t, None) → u8 t ∧ RecordKind_Valid t = true ∧ k = t.
Proof.
  unfold recordKindFromProto. unfold_pb_enums. unfold_enums.
  repeat case_if; intros [= <-]; (split; [done|split; [done|lia]]).
Qed.

Lemma statusFromProto_ok s t :
  statusFromProto s = (t, None) → u16 t ∧ Status_Valid t = true ∧ s = t.
Proof.
  unfold statusFromProto. unfold_pb_enums. unfold_status.
  repeat case_if; intros [= <-]; (split; [done|split; [done|lia]]).
Qed.

(** ** Lemmas: the loops *)

Lemma FromProtoHello_subscriptions_id subs :
  FromProtoHello_subscriptions
    (map (λ s, Some {| pb_StreamWatermark_StreamId := sw_StreamID s;
                       pb_StreamWatermark_AppliedThrough := sw_AppliedThrough s;
                       pb_StreamWatermark_HubGeneration := sw_HubGeneration s |}) subs) =
  (subs, None).
Proof. induction subs as [|[i a g] subs IH]; cbn; [done|]. by rewrite IH. Qed.

Lemma FromProtoHello_subscriptions_inrange ps subs :
  go_typed ps → FromProtoHello_subscriptions ps = (subs, None) → go_typed subs.
Proof.
  revert subs. induction ps as [|[[i a g]|] ps IH]; cbn; intros subs Ht H; [|..|done].
  { injection H as <-. constructor. }
  apply go_typed_cons in Ht as [Hp Ht]. invert_fromproto H. injection H as <-.
  apply go_typed_cons. split; [exact Hp|by apply IH].
Qed.

Lemma FromProtoInvalidationBatch_events_id i s g events :
  Forall (λ e, RecordKind_Valid (ev_Kind e) = true) events → go_typed events →
  FromProtoInvalidationBatch_events i (pb_InvalidationBatch_Events
    (ProtoInvalidationBatch (mkInvalidationBatch s g events))) = (events, None).
Proof.
  cbn [ProtoInvalidationBatch pb_InvalidationBatch_Events ib_Events]. intros Hk. revert i.
  induction Hk as [|[sq k [p q] kd id] events Hk _ IH]; intros i Ht; [done|].
  apply go_typed_cons in Ht as [(_ & _ & _ & Hid) Ht]. cbn in Hid, Hk.
  cbn -[mutationIDFromProto recordKindFromProto CopyBytes].
  autorewrite with from_proto. by rewrite IH.
Qed.

Lemma FromProtoInvalidationBatch_events_inrange i ps events :
  go_typed ps → FromProtoInvalidationBatch_events i ps = (events, None) → go_typed events.
Proof.
  revert i events. induction ps as [|[[s k v kd id]|] ps IH]; cbn -[recordKindFromProto mutationIDFromProto];
    intros i events Ht H; [|..|done].
  { injection H as <-. constructor. }
  apply go_typed_cons in Ht as [(Hs & Hv & _) Ht]. cbn in Hs, Hv.
  invert_fromproto H. injection H as <-.
  apply go_typed_cons. split; [|by eapply IH].
  match goal with E : mutationIDFromProto _ = _ |- _ =>
    rewrite mutationIDFromProto_eq in E; apply FromProtoMutationID_ok in E end.
  match goal with E : recordKindFromProto _ = _ |- _ =>
    apply recordKindFromProto_ok in E as (? & _ & _) end.
  split_and!; try done. by destruct v as [[]|].
Qed.

(** ** The conversions implement the codec interface *)

Lemma Hello_roundtrip d :
  go_typed d → Hello_Validate d = None → FromProtoHello (Some (ProtoHello d)) = (d, None).
Proof.
  destruct d as [n [v m] s c g]. intros (_ & [Hv Hm] & _) H. cbn in Hv, Hm.
  cbn -[FromProtoHello_subscriptions control_protocolVersionFromUint32 to_uint32].
  autorewrite with from_proto. rewrite FromProtoHello_subscriptions_id. by rewrite H.
Qed.

Lemma Subscribe_roundtrip d :
  Subscribe_Validate d = None → FromProtoSubscribe (Some (ProtoSubscribe d)) = (d, None).
Proof. destruct d as [g ids]. intros H. unfold FromProtoSubscribe. cbn -[Subscribe_Validate]. by rewrite H. Qed.

Lemma InvalidationBatch_roundtrip d :
  go_typed d → InvalidationBatch_Validate d = None →
  FromProtoInvalidationBatch (Some (ProtoInvalidationBatch d)) = (d, None).
Proof.
  intros Hd H. pose proof H as Hok.
  apply InvalidationBatch_Validate_ok in Hok as (_ & _ & He & _); [|done].
  destruct d as [s g events]. destruct Hd as (_ & _ & Ht). cbn in He, Ht.
  unfold FromProtoInvalidationBatch. cbn [pb_InvalidationBatch_GetEvents].
  rewrite FromProtoInvalidationBatch_events_id; [cbn -[InvalidationBatch_Validate]; by rewrite H| |done].
  revert He. apply Forall_impl. by intros e (_ & _ & _ & _ & ? & _).
Qed.

Lemma ControlError_roundtrip d :
  go_typed d → ControlError_Validate d = None →
  FromProtoControlError (Some (ProtoControlError d)) = (d, None).
Proof.
  destruct d as [s t]. intros Hs H. change (u16 s) in Hs.
  assert (Status_Valid s = true) as Hv.
  { unfold ControlError_Validate in H. cbn in H. unfold_status. unfold Status_Valid, StatusErrInternal.
    case_if; [lia|done]. }
  cbn -[statusFromProto to_int32]. autorewrite with from_proto. by rewrite H.
Qed.

Lemma StreamAcknowledgement_roundtrip d :
  StreamAcknowledgement_Validate d = None →
  FromProtoStreamAcknowledgement (Some (ProtoStreamAcknowledgement d)) = (d, None).
Proof. destruct d. intros H. unfold FromProtoStreamAcknowledgement. by f_equal. Qed.
Lemma StreamCheckpoint_roundtrip d :
  StreamCheckpoint_Validate d = None →
  FromProtoStreamCheckpoint (Some (ProtoStreamCheckpoint d)) = (d, None).
Proof. destruct d. intros H. unfold FromProtoStreamCheckpoint. by f_equal. Qed.
Lemma ReplayRequest_roundtrip d :
  ReplayRequest_Validate d = None →
  FromProtoReplayRequest (Some (ProtoReplayRequest d)) = (d, None).
Proof. destruct d. intros H. unfold FromProtoReplayRequest. by f_equal. Qed.
Lemma ReplayUnavailable_roundtrip d :
  ReplayUnavailable_Validate d = None →
  FromProtoReplayUnavailable (Some (ProtoReplayUnavailable d)) = (d, None).
Proof. destruct d. intros H. unfold FromProtoReplayUnavailable. by f_equal. Qed.
Lemma InvalidateConfirm_roundtrip d :
  InvalidateConfirm_Validate d = None →
  FromProtoInvalidateConfirm (Some (ProtoInvalidateConfirm d)) = (d, None).
Proof. destruct d. intros H. unfold FromProtoInvalidateConfirm. by f_equal. Qed.

(** What a decoder that returns no error returns has passed its validator. *)
Ltac control_sound :=
  intros p d H; destruct p as [p|]; [|discriminate H];
  cbn beta iota zeta delta [FromProtoHello FromProtoSubscribe FromProtoInvalidationBatch
    FromProtoStreamAcknowledgement FromProtoStreamCheckpoint FromProtoReplayRequest
    FromProtoReplayUnavailable FromProtoInvalidateConfirm FromProtoControlError] in H;
  invert_fromproto H; by apply validated_ok in H as [<- ?].

Lemma Hello_sound p d : FromProtoHello p = (d, None) → Hello_Validate d = None.
Proof. revert p d. control_sound. Qed.
Lemma Subscribe_sound p d : FromProtoSubscribe p = (d, None) → Subscribe_Validate d = None.
Proof. revert p d. control_sound. Qed.
Lemma InvalidationBatch_sound p d :
  FromProtoInvalidationBatch p = (d, None) → InvalidationBatch_Validate d = None.
Proof. revert p d. control_sound. Qed.
Lemma StreamAcknowledgement_sound p d :
  FromProtoStreamAcknowledgement p = (d, None) → StreamAcknowledgement_Validate d = None.
Proof. revert p d. control_sound. Qed.
Lemma StreamCheckpoint_sound p d :
  FromProtoStreamCheckpoint p = (d, None) → StreamCheckpoint_Validate d = None.
Proof. revert p d. control_sound. Qed.
Lemma ReplayRequest_sound p d :
  FromProtoReplayRequest p = (d, None) → ReplayRequest_Validate d = None.
Proof. revert p d. control_sound. Qed.
Lemma ReplayUnavailable_sound p d :
  FromProtoReplayUnavailable p = (d, None) → ReplayUnavailable_Validate d = None.
Proof. revert p d. control_sound. Qed.
Lemma InvalidateConfirm_sound p d :
  FromProtoInvalidateConfirm p = (d, None) → InvalidateConfirm_Validate d = None.
Proof. revert p d. control_sound. Qed.
Lemma ControlError_sound p d :
  FromProtoControlError p = (d, None) → ControlError_Validate d = None.
Proof. revert p d. control_sound. Qed.

Lemma Hello_inrange q d : go_typed q → FromProtoHello (Some q) = (d, None) → go_typed d.
Proof.
  destruct q as [n v m s c g]. intros (Hn & Hv & Hm & Hs & Hg). cbn in Hn, Hv, Hm, Hs, Hg.
  unfold FromProtoHello. cbn -[control_protocolVersionFromUint32 FromProtoHello_subscriptions].
  intros H. invert_fromproto H.
  rewrite control_protocolVersionFromUint32_eq in *. field_ranges. apply validated_ok in H as [<- _].
  split; [done|]. split; [by split|]. split; [|done]. by eapply FromProtoHello_subscriptions_inrange.
Qed.

Lemma InvalidationBatch_inrange q d :
  go_typed q → FromProtoInvalidationBatch (Some q) = (d, None) → go_typed d.
Proof.
  destruct q as [s g e]. intros (Hs & Hg & He). cbn in Hs, Hg, He.
  unfold FromProtoInvalidationBatch. cbn -[FromProtoInvalidationBatch_events]. intros H.
  invert_fromproto H. apply validated_ok in H as [<- _].
  split; [done|]. split; [done|]. by eapply FromProtoInvalidationBatch_events_inrange.
Qed.

Lemma ControlError_inrange q d :
  go_typed q → FromProtoControlError (Some q) = (d, None) → go_typed d.
Proof.
  destruct q as [s t]. intros _. unfold FromProtoControlError. cbn -[statusFromProto]. intros H.
  invert_fromproto H. apply validated_ok in H as [<- _].
  match goal with E : statusFromProto _ = _ |- _ => apply statusFromProto_ok in E as (? & _) end.
  done.
Qed.

(** The messages without conversions of fields. *)
Ltac copied_inrange :=
  intros [] d Hq H;
  cbn beta iota zeta delta [FromProtoSubscribe FromProtoStreamAcknowledgement
    FromProtoStreamCheckpoint FromProtoReplayRequest FromProtoReplayUnavailable
    FromProtoInvalidateConfirm] in H;
  apply validated_ok in H as [<- _]; exact Hq.

Lemma Subscribe_inrange q d :
  go_typed q → FromProtoSubscribe (Some q) = (d, None) → go_typed d.
Proof. revert q d. copied_inrange. Qed.
Lemma StreamAcknowledgement_inrange q d :
  go_typed q → FromProtoStreamAcknowledgement (Some q) = (d, None) → go_typed d.
Proof. revert q d. copied_inrange. Qed.
Lemma StreamCheckpoint_inrange q d :
  go_typed q → FromProtoStreamCheckpoint (Some q) = (d, None) → go_typed d.
Proof. revert q d. copied_inrange. Qed.
Lemma ReplayRequest_inrange q d :
  go_typed q → FromProtoReplayRequest (Some q) = (d, None) → go_typed d.
Proof. revert q d. copied_inrange. Qed.
Lemma ReplayUnavailable_inrange q d :
  go_typed q → FromProtoReplayUnavailable (Some q) = (d, None) → go_typed d.
Proof. revert q d. copied_inrange. Qed.
Lemma InvalidateConfirm_inrange q d :
  go_typed q → FromProtoInvalidateConfirm (Some q) = (d, None) → go_typed d.
Proof. revert q d. copied_inrange. Qed.

Lemma Hello_proto_typed d : go_typed d → go_typed (ProtoHello d).
Proof.
  destruct d as [n r subs c g]. intros (Hn & _ & Hs & Hg). cbn in Hn, Hs, Hg.
  repeat split; try apply to_uint32_range; try (apply Hn || apply Hg).
  cbn. induction subs as [|[i a h] subs IH]; [constructor|].
  apply go_typed_cons in Hs as [? ?]. cbn. apply go_typed_cons. split; [done|by apply IH].
Qed.
Lemma Subscribe_proto_typed d : go_typed d → go_typed (ProtoSubscribe d).
Proof. by destruct d. Qed.
Lemma InvalidationBatch_proto_typed d : go_typed d → go_typed (ProtoInvalidationBatch d).
Proof.
  destruct d as [s g events]. intros (Hs & Hg & He). cbn in Hs, Hg, He.
  split_and!; [exact Hs|exact Hg|].
  cbn. induction events as [|[sq k [p q] kd id] events IH]; [constructor|].
  apply go_typed_cons in He as [(Hsq & [Hp Hq] & _) ?]. cbn. apply go_typed_cons.
  split; [|by apply IH]. repeat split; try apply to_int32_range; (apply Hsq || apply Hp || apply Hq).
Qed.
Lemma ControlError_proto_typed d : go_typed d → go_typed (ProtoControlError d).
Proof. intros _. apply to_int32_range. Qed.
Lemma StreamAcknowledgement_proto_typed d : go_typed d → go_typed (ProtoStreamAcknowledgement d).
Proof. by destruct d. Qed.
Lemma StreamCheckpoint_proto_typed d : go_typed d → go_typed (ProtoStreamCheckpoint d).
Proof. by destruct d. Qed.
Lemma ReplayRequest_proto_typed d : go_typed d → go_typed (ProtoReplayRequest d).
Proof. by destruct d. Qed.
Lemma ReplayUnavailable_proto_typed d : go_typed d → go_typed (ProtoReplayUnavailable d).
Proof. by destruct d. Qed.
Lemma InvalidateConfirm_proto_typed d : go_typed d → go_typed (ProtoInvalidateConfirm d).
Proof. by destruct d. Qed.

(** ** Instances *)

#[export] Instance Hello_codec : MessageCodec Hello pb_Hello :=
  {| mc_roundtrip := Hello_roundtrip; mc_sound := Hello_sound;
     mc_inrange := Hello_inrange; mc_nil := ltac:(done);
     mc_typed := Hello_proto_typed |}.
#[export] Instance Subscribe_codec : MessageCodec Subscribe pb_Subscribe :=
  {| mc_wf := go_typed; mc_roundtrip d _ := Subscribe_roundtrip d; mc_sound := Subscribe_sound;
     mc_inrange := Subscribe_inrange; mc_nil := ltac:(done);
     mc_typed := Subscribe_proto_typed |}.
#[export] Instance InvalidationBatch_codec : MessageCodec InvalidationBatch pb_InvalidationBatch :=
  {| mc_roundtrip := InvalidationBatch_roundtrip; mc_sound := InvalidationBatch_sound;
     mc_inrange := InvalidationBatch_inrange; mc_nil := ltac:(done);
     mc_typed := InvalidationBatch_proto_typed |}.
#[export] Instance StreamAcknowledgement_codec :
  MessageCodec StreamAcknowledgement pb_StreamAcknowledgement :=
  {| mc_wf := go_typed; mc_roundtrip d _ := StreamAcknowledgement_roundtrip d;
     mc_sound := StreamAcknowledgement_sound; mc_inrange := StreamAcknowledgement_inrange;
     mc_nil := ltac:(done);
     mc_typed := StreamAcknowledgement_proto_typed |}.
#[export] Instance StreamCheckpoint_codec : MessageCodec StreamCheckpoint pb_StreamCheckpoint :=
  {| mc_wf := go_typed; mc_roundtrip d _ := StreamCheckpoint_roundtrip d;
     mc_sound := StreamCheckpoint_sound; mc_inrange := StreamCheckpoint_inrange;
     mc_nil := ltac:(done);
     mc_typed := StreamCheckpoint_proto_typed |}.
#[export] Instance ReplayRequest_codec : MessageCodec ReplayRequest pb_ReplayRequest :=
  {| mc_wf := go_typed; mc_roundtrip d _ := ReplayRequest_roundtrip d;
     mc_sound := ReplayRequest_sound; mc_inrange := ReplayRequest_inrange;
     mc_nil := ltac:(done);
     mc_typed := ReplayRequest_proto_typed |}.
#[export] Instance ReplayUnavailable_codec : MessageCodec ReplayUnavailable pb_ReplayUnavailable :=
  {| mc_wf := go_typed; mc_roundtrip d _ := ReplayUnavailable_roundtrip d;
     mc_sound := ReplayUnavailable_sound; mc_inrange := ReplayUnavailable_inrange;
     mc_nil := ltac:(done);
     mc_typed := ReplayUnavailable_proto_typed |}.
#[export] Instance InvalidateConfirm_codec : MessageCodec InvalidateConfirm pb_InvalidateConfirm :=
  {| mc_wf := go_typed; mc_roundtrip d _ := InvalidateConfirm_roundtrip d;
     mc_sound := InvalidateConfirm_sound; mc_inrange := InvalidateConfirm_inrange;
     mc_nil := ltac:(done);
     mc_typed := InvalidateConfirm_proto_typed |}.
#[export] Instance ControlError_codec : MessageCodec ControlError pb_ControlError :=
  {| mc_roundtrip := ControlError_roundtrip; mc_sound := ControlError_sound;
     mc_inrange := ControlError_inrange; mc_nil := ltac:(done);
     mc_typed := ControlError_proto_typed |}.

(** C24. Every message of the Control stream converts faithfully: valid
    messages round-trip through protobuf, whatever the decoder accepts has
    passed the domain validator, a forwarded message is stable, and a nil
    message is refused as an invalid control message. *)
Theorem control_plane_codecs :
  codec_ok Hello pb_Hello ∧ codec_ok Subscribe pb_Subscribe ∧
  codec_ok InvalidationBatch pb_InvalidationBatch ∧
  codec_ok StreamAcknowledgement pb_StreamAcknowledgement ∧
  codec_ok StreamCheckpoint pb_StreamCheckpoint ∧ codec_ok ReplayRequest pb_ReplayRequest ∧
  codec_ok ReplayUnavailable pb_ReplayUnavailable ∧
  codec_ok InvalidateConfirm pb_InvalidateConfirm ∧ codec_ok ControlError pb_ControlError ∧
  Forall (λ e, is_error e ErrInvalidMessage = true)
    [(FromProtoHello None).2; (FromProtoSubscribe None).2; (FromProtoInvalidationBatch None).2;
     (FromProtoStreamAcknowledgement None).2; (FromProtoStreamCheckpoint None).2;
     (FromProtoReplayRequest None).2; (FromProtoReplayUnavailable None).2;
     (FromProtoInvalidateConfirm None).2; (FromProtoControlError None).2].
Proof. split_and!; [apply codec_ok_instance..|by repeat constructor]. Qed.

(** ** Envelopes *)

Section unwrap.
Context {D P : Type} `{MessageCodec D P} (any : D → payload).

Lemma unwrap_roundtrip (d : D) :
  mc_wf d → mc_validate d = None →
  unwrap (Some (Some (mc_proto d))) mc_fromproto any = Returns (any d, None).
Proof. intros Hd Hv. unfold unwrap. by rewrite mc_roundtrip. Qed.

Lemma unwrap_sound (w : option (option P)) v :
  unwrap w mc_fromproto any = Returns (v, None) →
  ∃ p d, w = Some (Some p) ∧ v = any d ∧ mc_fromproto (Some p) = (d, None) ∧
         mc_validate d = None.
Proof.
  unfold unwrap. destruct w as [[p|]|]; [|..|done].
  - destruct (mc_fromproto (Some p)) as [d e] eqn:E. intros [= <- ->].
    exists p, d. split_and!; try done. by eapply mc_sound.
  - destruct (mc_fromproto None) as [d e] eqn:E. intros [= _ ->].
    destruct mc_nil. by rewrite E.
Qed.

Lemma unwrap_panics (w : option (option P)) :
  unwrap w mc_fromproto any = Panics nil_dereference ↔ w = None.
Proof. unfold unwrap. destruct w as [p|]; [|done]. by destruct (mc_fromproto p). Qed.
End unwrap.

#[export] Instance client_body_typed : GoTyped pb_ControlClientMessage_Body :=
  λ b, match b with
       | CCM_Hello w => go_typed w
       | CCM_Subscribe w => go_typed w
       | CCM_StreamAcknowledgement w => go_typed w
       | CCM_ReplayRequest w => go_typed w
       | CCM_InvalidateConfirm w => go_typed w
       end.
#[export] Instance server_body_typed : GoTyped pb_ControlServerMessage_Body :=
  λ b, match b with
       | CSM_InvalidationBatch w => go_typed w
       | CSM_StreamCheckpoint w => go_typed w
       | CSM_ReplayUnavailable w => go_typed w
       | CSM_ControlError w => go_typed w
       end.
#[export] Instance client_message_typed : GoTyped pb_ControlClientMessage :=
  λ m, go_typed (pb_ControlClientMessage_Body_field m).
#[export] Instance server_message_typed : GoTyped pb_ControlServerMessage :=
  λ m, go_typed (pb_ControlServerMessage_Body_field m).

(** The message a payload stands for, pointers followed. *)
Definition deref (b : payload) : payload :=
  match b with
  | PHelloPtr (Some v) => PHello v
  | PSubscribePtr (Some v) => PSubscribe v
  | PStreamAcknowledgementPtr (Some v) => PStreamAcknowledgement v
  | PReplayRequestPtr (Some v) => PReplayRequest v
  | PInvalidateConfirmPtr (Some v) => PInvalidateConfirm v
  | PInvalidationBatchPtr (Some v) => PInvalidationBatch v
  | PStreamCheckpointPtr (Some v) => PStreamCheckpoint v
  | PReplayUnavailablePtr (Some v) => PReplayUnavailable v
  | PControlErrorPtr (Some v) => PControlError v
  | _ => b
  end.

(** The two directions of the stream. *)
Definition client_payload (b : payload) : bool :=
  match deref b with
  | PHello _ | PSubscribe _ | PStreamAcknowledgement _ | PReplayRequest _
  | PInvalidateConfirm _ => true
  | _ => false
  end.

Definition server_payload (b : payload) : bool :=
  match deref b with
  | PInvalidationBatch _ | PStreamCheckpoint _ | PReplayUnavailable _ | PControlError _ => true
  | _ => false
  end.

(** A payload that is a valid message. *)
Definition message_ok (b : payload) : Prop :=
  match deref b with
  | PHello v => go_typed v ∧ Hello_Validate v = None
  | PSubscribe v => go_typed v ∧ Subscribe_Validate v = None
  | PStreamAcknowledgement v => go_typed v ∧ StreamAcknowledgement_Validate v = None
  | PReplayRequest v => go_typed v ∧ ReplayRequest_Validate v = None
  | PInvalidateConfirm v => go_typed v ∧ InvalidateConfirm_Validate v = None
  | PInvalidationBatch v => go_typed v ∧ InvalidationBatch_Validate v = None
  | PStreamCheckpoint v => go_typed v ∧ StreamCheckpoint_Validate v = None
  | PReplayUnavailable v => go_typed v ∧ ReplayUnavailable_Validate v = None
  | PControlError v => go_typed v ∧ ControlError_Validate v = None
  | _ => False
  end.

Definition client_transmits (b b' : payload) : Prop :=
  ∃ m, ProtoClientMessage b = (Some m, None) ∧
       FromProtoClientMessage (Some m) = Returns (b', None).
Definition server_transmits (b b' : payload) : Prop :=
  ∃ m, ProtoServerMessage b = (Some m, None) ∧
       FromProtoServerMessage (Some m) = Returns (b', None).

Ltac transmit Ht Hv :=
  eexists; split; [reflexivity|];
  cbn [FromProtoClientMessage FromProtoServerMessage deref
    pb_ControlClientMessage_GetBody pb_ControlClientMessage_Body_field
    pb_ControlServerMessage_GetBody pb_ControlServerMessage_Body_field];
  match goal with
  | |- unwrap (Some (Some (?proto ?v))) ?from ?any = _ =>
      let P := type of (proto v) in exact (unwrap_roundtrip (P := P) any v Ht Hv)
  end.

Lemma client_transmits_ok b : message_ok b → client_payload b = true → client_transmits b (deref b).
Proof.
  destruct b as [| | [] | | [] | | [] | | [] | | [] | | [] | | [] | | [] | | [] |];
    intros Hok Hc; try discriminate Hc; destruct Hok as [Ht Hv]; transmit Ht Hv.
Qed.

Lemma server_transmits_ok b : message_ok b → server_payload b = true → server_transmits b (deref b).
Proof.
  destruct b as [| | [] | | [] | | [] | | [] | | [] | | [] | | [] | | [] | | [] |];
    intros Hok Hc; try discriminate Hc; destruct Hok as [Ht Hv]; transmit Ht Hv.
Qed.

(** C2. The envelopes of the Control stream transmit messages faithfully: a
    valid message handed to its direction's encoder, by value or by pointer,
    is encoded without error, and the peer's decoder returns the same message,
    of the same kind, by value. *)
Theorem control_envelopes_roundtrip (b : payload) :
  message_ok b →
  (client_payload b = true → client_transmits b (deref b)) ∧
  (server_payload b = true → server_transmits b (deref b)).
Proof. intros Hb. split; intros Hd; [by apply client_transmits_ok|by apply server_transmits_ok]. Qed.

Lemma control_envelopes_roundtrip_witness :
  server_transmits (PReplayUnavailablePtr (Some (mkReplayUnavailable 3 7 5 10 9)))
    (PReplayUnavailable (mkReplayUnavailable 3 7 5 10 9)).
Proof.
  apply (control_envelopes_roundtrip (PReplayUnavailablePtr (Some (mkReplayUnavailable 3 7 5 10 9))));
    by vm_compute.
Defined.

(** A decoded payload is a valid message of the direction. *)
Ltac unwrap_cases H :=
  match type of H with
  | @unwrap ?P _ ?w _ ?any = Returns (?v, _) =>
      let L := constr:(unwrap_sound (P := P) any w v) in
      apply L in H as (p & d & -> & -> & Hd & Hv)
  end.

Lemma FromProtoClientMessage_ok m v :
  go_typed m → FromProtoClientMessage (Some m) = Returns (v, None) →
  message_ok v ∧ client_payload v = true ∧ deref v = v.
Proof.
  destruct m as [[[w|w|w|w|w]|]]; cbn [FromProtoClientMessage pb_ControlClientMessage_GetBody
    pb_ControlClientMessage_Body_field]; intros Ht H; [..|discriminate H];
    change (go_typed w) in Ht; unwrap_cases H;
    (split; [|done]); (split; [exact (mc_inrange p d Ht Hd)|exact Hv]).
Qed.

Lemma FromProtoServerMessage_ok m v :
  go_typed m → FromProtoServerMessage (Some m) = Returns (v, None) →
  message_ok v ∧ server_payload v = true ∧ deref v = v.
Proof.
  destruct m as [[[w|w|w|w]|]]; cbn [FromProtoServerMessage pb_ControlServerMessage_GetBody
    pb_ControlServerMessage_Body_field]; intros Ht H; [..|discriminate H];
    change (go_typed w) in Ht; unwrap_cases H;
    (split; [|done]); (split; [exact (mc_inrange p d Ht Hd)|exact Hv]).
Qed.

(** C3. Whatever the envelope decoders accept is a valid message of their
    direction, and forwarding it, encoded again, is accepted as the same
    message, so intermediaries cannot disagree on what was said. *)
Theorem control_envelopes_sound (c : pb_ControlClientMessage) (s : pb_ControlServerMessage) :
  go_typed c → go_typed s →
  (∀ v, FromProtoClientMessage (Some c) = Returns (v, None) →
     message_ok v ∧ client_payload v = true ∧ client_transmits v v) ∧
  (∀ v, FromProtoServerMessage (Some s) = Returns (v, None) →
     message_ok v ∧ server_payload v = true ∧ server_transmits v v).
Proof.
  intros Hc Hs. split; intros v Hv.
  - apply FromProtoClientMessage_ok in Hv as (Hok & Hp & Hd); [|done].
    split_and!; [done..|]. rewrite <- Hd at 2. by apply client_transmits_ok.
  - apply FromProtoServerMessage_ok in Hv as (Hok & Hp & Hd); [|done].
    split_and!; [done..|]. rewrite <- Hd at 2. by apply server_transmits_ok.
Qed.

Lemma control_envelopes_sound_witness :
  client_payload (PReplayRequest (mkReplayRequest 3 5 9)) = true ∧
  message_ok (PReplayRequest (mkReplayRequest 3 5 9)).
Proof.
  pose (c := mk_pb_ControlClientMessage
    (Some (CCM_ReplayRequest (Some (Some (mk_pb_ReplayRequest 3 5 9)))))).
  destruct (control_envelopes_sound c (mk_pb_ControlServerMessage None)
    ltac:(by vm_compute) I) as [Hc _].
  destruct (Hc (PReplayRequest (mkReplayRequest 3 5 9)) eq_refl) as (? & ? & _). done.
Defined.

Ltac unwrap_panic_cases :=
  match goal with
  | |- @unwrap ?P ?D ?w _ ?any = _ ↔ _ =>
      etransitivity; [exact (unwrap_panics (P := P) (D := D) any w)|naive_solver]
  end.

(** The encoder refuses the payload, with a nil message. *)
Definition refuses {M} (r : option M * error) : Prop :=
  r.1 = None ∧ is_error r.2 ErrInvalidMessage = true.

(** C34. The envelope functions fail closed.  An encoder refuses exactly the
    payloads that are not messages of its direction (nil, a nil pointer, a
    message of the other direction, any other type).  A decoder refuses a nil
    message and an empty body as invalid, and the one input that makes it
    panic is a body whose wrapper pointer is nil, which the protobuf runtime
    does not produce. *)
Theorem control_envelopes_fail_closed (b : payload) (c : pb_ControlClientMessage_Body)
    (s : pb_ControlServerMessage_Body) :
  (if client_payload b then (ProtoClientMessage b).2 = None else refuses (ProtoClientMessage b)) ∧
  (if server_payload b then (ProtoServerMessage b).2 = None else refuses (ProtoServerMessage b)) ∧
  (∀ m, m = None ∨ m = Some (mk_pb_ControlClientMessage None) →
     ∃ e, FromProtoClientMessage m = Returns (PNil, Some e) ∧ errors_Is e ErrInvalidMessage = true) ∧
  (∀ m, m = None ∨ m = Some (mk_pb_ControlServerMessage None) →
     ∃ e, FromProtoServerMessage m = Returns (PNil, Some e) ∧ errors_Is e ErrInvalidMessage = true) ∧
  (FromProtoClientMessage (Some (mk_pb_ControlClientMessage (Some c))) = Panics nil_dereference ↔
     c ∈ [CCM_Hello None; CCM_Subscribe None; CCM_StreamAcknowledgement None;
          CCM_ReplayRequest None; CCM_InvalidateConfirm None]) ∧
  (FromProtoServerMessage (Some (mk_pb_ControlServerMessage (Some s))) = Panics nil_dereference ↔
     s ∈ [CSM_InvalidationBatch None; CSM_StreamCheckpoint None; CSM_ReplayUnavailable None;
          CSM_ControlError None]).
Proof.
  split_and!.
  - by destruct b as [| | [] | | [] | | [] | | [] | | [] | | [] | | [] | | [] | | [] |].
  - by destruct b as [| | [] | | [] | | [] | | [] | | [] | | [] | | [] | | [] | | [] |].
  - intros m [->| ->]; by eexists.
  - intros m [->| ->]; by eexists.
  - rewrite !elem_of_cons, elem_of_nil.
    destruct c as [w|w|w|w|w]; cbn [FromProtoClientMessage pb_ControlClientMessage_GetBody
      pb_ControlClientMessage_Body_field];
      unwrap_panic_cases.
  - rewrite !elem_of_cons, elem_of_nil.
    destruct s as [w|w|w|w]; cbn [FromProtoServerMessage pb_ControlServerMessage_GetBody
      pb_ControlServerMessage_Body_field];
      unwrap_panic_cases.
Qed.
