(* ===== verification/ConversionsExact.v ===== *)
(** * No conversion changes a field (internal/rpc/convert.go, internal/control/convert.go)

    A decoder narrows fields ([uint16(v)] for versions and for W, the
    enumerations) and builds a message of the domain from the getters.  Here
    each decoder is inverted: encoding what a decoder accepted gives back the
    protobuf message it was decoded from, field by field, so an accepted field
    has not been truncated, swapped or dropped.  One difference is allowed,
    and stated: a version tag the sender left out is decoded as the zero tag
    and so is written out when the message is encoded again ([..._explicit]).

    [keeps_fields] is the promise, one lemma [..._exact] discharges it for each
    of the 17 messages. *)

From S2P Require Import Prelude GoErrors GoStd WireStatus WireProtocol WireTypes WireRecord.
From S2P Require Import PbCommon PbControl PbData RpcTypes Codec RpcConvert ControlTypes.
From S2P Require Import ControlConvert.

(** The fields stay within their types, and a message that is accepted is,
    after [explicit], the encoding of the value it decodes to. *)
Definition keeps_fields (D P : Type) `{GoTyped D} `{MessageCodec D P} (explicit : P → P) : Prop :=
  codec_typed D P ∧
  ∀ q d, go_typed q → mc_fromproto (Some q) = (d, None) → mc_proto d = explicit q.

(** ** Version tags that were left out *)

Definition version_explicit (v : option pb_VersionTag) : option pb_VersionTag :=
  Some (default (mk_pb_VersionTag 0 0) v).

Definition get_response_explicit (q : pb_GetResponse) : pb_GetResponse :=
  {| pb_GetResponse_Status := pb_GetResponse_Status q;
     pb_GetResponse_HubGeneration := pb_GetResponse_HubGeneration q;
     pb_GetResponse_Version := version_explicit (pb_GetResponse_Version q);
     pb_GetResponse_Value := pb_GetResponse_Value q;
     pb_GetResponse_TtlMillis := pb_GetResponse_TtlMillis q;
     pb_GetResponse_Kind := pb_GetResponse_Kind q |}.

Definition mutation_response_explicit (q : pb_MutationResponse) : pb_MutationResponse :=
  {| pb_MutationResponse_Status := pb_MutationResponse_Status q;
     pb_MutationResponse_HubGeneration := pb_MutationResponse_HubGeneration q;
     pb_MutationResponse_Version := version_explicit (pb_MutationResponse_Version q) |}.

Definition event_explicit (e : pb_InvalidationEvent) : pb_InvalidationEvent :=
  {| pb_InvalidationEvent_StreamSequence := pb_InvalidationEvent_StreamSequence e;
     pb_InvalidationEvent_Key := pb_InvalidationEvent_Key e;
     pb_InvalidationEvent_Version := version_explicit (pb_InvalidationEvent_Version e);
     pb_InvalidationEvent_Kind := pb_InvalidationEvent_Kind e;
     pb_InvalidationEvent_MutationId := pb_InvalidationEvent_MutationId e |}.

Definition batch_explicit (q : pb_InvalidationBatch) : pb_InvalidationBatch :=
  {| pb_InvalidationBatch_StreamId := pb_InvalidationBatch_StreamId q;
     pb_InvalidationBatch_HubGeneration := pb_InvalidationBatch_HubGeneration q;
     pb_InvalidationBatch_Events := map (option_map event_explicit) (pb_InvalidationBatch_Events q) |}.

(** ** Fields *)

Lemma ProtoVersionTag_explicit v :
  Some (ProtoVersionTag (FromProtoVersionTag v)) = version_explicit v.
Proof. by destruct v as [[]|]. Qed.

(** An accepted version is the number that was sent. *)
Lemma version_exact v w :
  u32 v → rpc_protocolVersionFromUint32 v = (w, None) → to_uint32 w = v.
Proof.
  intros Hv. unfold rpc_protocolVersionFromUint32, MaxUint16. case_if; intros [= <-].
  rewrite to_uint16_id by (unfold u16, u32 in *; lia). by rewrite to_uint32_id.
Qed.

(** Replaces each decoded field by the field it was decoded from. *)
Ltac fields_exact :=
  rewrite ?control_protocolVersionFromUint32_eq, ?mutationIDFromProto_eq in *;
  repeat match goal with
  | E : rpc_protocolVersionFromUint32 _ = (_, None) |- _ => apply version_exact in E; [|assumption]
  | E : FromProtoMutationID _ = (_, None) |- _ => apply FromProtoMutationID_exact in E
  | E : recordKindFromProto _ = (_, None) |- _ => apply recordKindFromProto_ok in E as (? & ? & ->)
  | E : statusFromProto _ = (_, None) |- _ => apply statusFromProto_ok in E as (? & ? & ->)
  | E : FromProtoStatus _ = (_, None) |- _ => apply FromProtoStatus_ok in E as (? & ? & ->)
  | E : FromProtoRecordKind _ = (_, None) |- _ => apply FromProtoRecordKind_ok in E as (? & ? & ->)
  | E : FromProtoStorageProfile _ = (_, None) |- _ =>
      apply FromProtoStorageProfile_ok in E as (? & ? & ->)
  end;
  unfold ProtoStatus, ProtoRecordKind, ProtoStorageProfile;
  rewrite ?to_int32_id by (eauto with go_int).

(** Computes the getters of a known message and the encoder, not the
    conversions of fields. *)
Ltac open_fields :=
  cbn -[FromProtoStatus FromProtoRecordKind FromProtoStorageProfile FromProtoMutationID
        FromProtoVersionTag statusFromProto recordKindFromProto mutationIDFromProto
        rpc_protocolVersionFromUint32 control_protocolVersionFromUint32
        FromProtoHello_subscriptions FromProtoInvalidationBatch_events
        ProtoStatus ProtoRecordKind ProtoStorageProfile ProtoVersionTag
        to_uint32 to_uint16 to_int32 version_explicit u32 u64 i32] in *.

(** A decoder of a message whose fields are known: either it returns an error
    or the encoder gives the message back. *)
Ltac decode_exact H :=
  cbn beta iota zeta delta
    [FromProtoHandshakeRequest FromProtoHandshake FromProtoHubStatusRequest FromProtoHubStatus
     FromProtoGetRequest FromProtoGetResponse FromProtoMutationResponse FromProtoHello
     FromProtoSubscribe FromProtoInvalidationBatch FromProtoStreamAcknowledgement
     FromProtoStreamCheckpoint FromProtoReplayRequest FromProtoReplayUnavailable
     FromProtoInvalidateConfirm FromProtoControlError] in H;
  invert_fromproto H; apply validated_ok in H as [<- _];
  open_fields; fields_exact; rewrite ?ProtoVersionTag_explicit.

(** ** The Data service *)

Lemma HandshakeRequest_exact q d :
  go_typed q → FromProtoHandshakeRequest (Some q) = (d, None) → ProtoHandshakeRequest d = q.
Proof.
  destruct q as [v m c g]. intros (Hv & Hm & _) H. decode_exact H.
  unfold ProtoHandshakeRequest. open_fields. congruence.
Qed.

Lemma Handshake_exact q d :
  go_typed q → FromProtoHandshake (Some q) = (d, None) → ProtoHandshake d = q.
Proof.
  destruct q as [v g n p h c]. intros (Hv & _) H. decode_exact H.
  unfold ProtoHandshake. open_fields. fields_exact. congruence.
Qed.

Lemma HubStatusRequest_exact q d :
  FromProtoHubStatusRequest (Some q) = (d, None) → ProtoHubStatusRequest d = q.
Proof. destruct q. intros H. by decode_exact H. Qed.

Lemma HubStatus_exact q d :
  FromProtoHubStatus (Some q) = (d, None) → ProtoHubStatus d = q.
Proof.
  destruct q as [g p h s]. intros H. decode_exact H.
  unfold ProtoHubStatus. open_fields. by fields_exact.
Qed.

Lemma rpc_GetRequest_exact q d :
  FromProtoGetRequest (Some q) = (d, None) → ProtoGetRequest d = q.
Proof. destruct q as [k [[p s]|] g]; intros H; by decode_exact H. Qed.

Lemma GetResponse_exact q d :
  FromProtoGetResponse (Some q) = (d, None) → ProtoGetResponse d = get_response_explicit q.
Proof.
  destruct q as [s g v value ttl k]. intros H. decode_exact H.
  unfold ProtoGetResponse, get_response_explicit. open_fields. fields_exact.
  by rewrite ProtoVersionTag_explicit.
Qed.

Lemma MutationResponse_exact q d :
  FromProtoMutationResponse (Some q) = (d, None) →
  ProtoMutationResponse d = mutation_response_explicit q.
Proof.
  destruct q as [s g v]. intros H. decode_exact H.
  unfold ProtoMutationResponse, mutation_response_explicit. open_fields. fields_exact.
  by rewrite ProtoVersionTag_explicit.
Qed.

(** ** The Control stream *)

Lemma FromProtoHello_subscriptions_exact ps subs :
  FromProtoHello_subscriptions ps = (subs, None) →
  map (λ s, Some {| pb_StreamWatermark_StreamId := sw_StreamID s;
                    pb_StreamWatermark_AppliedThrough := sw_AppliedThrough s;
                    pb_StreamWatermark_HubGeneration := sw_HubGeneration s |}) subs = ps.
Proof.
  revert subs. induction ps as [|[[i a g]|] ps IH]; cbn; intros subs H; [|..|done].
  { by injection H as <-. }
  invert_fromproto H. injection H as <-. cbn. by erewrite IH.
Qed.

Lemma Hello_exact q d :
  go_typed q → FromProtoHello (Some q) = (d, None) → ProtoHello d = q.
Proof.
  destruct q as [n v m s c g]. intros (_ & Hv & Hm & _) H. decode_exact H.
  match goal with E : FromProtoHello_subscriptions _ = _ |- _ =>
    apply FromProtoHello_subscriptions_exact in E end.
  unfold ProtoHello. open_fields. congruence.
Qed.

Lemma FromProtoInvalidationBatch_events_exact i s g ps events :
  FromProtoInvalidationBatch_events i ps = (events, None) →
  pb_InvalidationBatch_Events (ProtoInvalidationBatch (mkInvalidationBatch s g events)) =
  map (option_map event_explicit) ps.
Proof.
  cbn [ProtoInvalidationBatch pb_InvalidationBatch_Events ib_Events].
  revert i events. induction ps as [|[[sq k v kd id]|] ps IH];
    cbn -[recordKindFromProto mutationIDFromProto to_int32 CopyBytes version_explicit];
    intros i events H; [|..|done].
  { by injection H as <-. }
  invert_fromproto H. injection H as <-. fields_exact.
  cbn -[to_int32 CopyBytes version_explicit]. erewrite IH by done. fields_exact. subst.
  f_equal. f_equal. unfold event_explicit. cbn -[version_explicit].
  by destruct v as [[]|].
Qed.

Lemma InvalidationBatch_exact q d :
  FromProtoInvalidationBatch (Some q) = (d, None) → ProtoInvalidationBatch d = batch_explicit q.
Proof.
  destruct q as [s g e]. intros H. decode_exact H.
  match goal with E : FromProtoInvalidationBatch_events _ _ = _ |- _ =>
    apply (FromProtoInvalidationBatch_events_exact _ s g) in E end.
  unfold batch_explicit. cbn [pb_InvalidationBatch_Events] in *.
  match goal with E : _ = map _ e |- _ => rewrite <- E end. done.
Qed.

Lemma ControlError_exact q d :
  FromProtoControlError (Some q) = (d, None) → ProtoControlError d = q.
Proof.
  destruct q as [s t]. intros H. decode_exact H.
  unfold ProtoControlError. open_fields. by fields_exact.
Qed.

Lemma Subscribe_exact q d : FromProtoSubscribe (Some q) = (d, None) → ProtoSubscribe d = q.
Proof. destruct q. intros H. by decode_exact H. Qed.
Lemma StreamAcknowledgement_exact q d :
  FromProtoStreamAcknowledgement (Some q) = (d, None) → ProtoStreamAcknowledgement d = q.
Proof. destruct q. intros H. by decode_exact H. Qed.
Lemma StreamCheckpoint_exact q d :
  FromProtoStreamCheckpoint (Some q) = (d, None) → ProtoStreamCheckpoint d = q.
Proof. destruct q. intros H. by decode_exact H. Qed.
Lemma ReplayRequest_exact q d :
  FromProtoReplayRequest (Some q) = (d, None) → ProtoReplayRequest d = q.
Proof. destruct q. intros H. by decode_exact H. Qed.
Lemma ReplayUnavailable_exact q d :
  FromProtoReplayUnavailable (Some q) = (d, None) → ProtoReplayUnavailable d = q.
Proof. destruct q. intros H. by decode_exact H. Qed.
Lemma InvalidateConfirm_exact q d :
  FromProtoInvalidateConfirm (Some q) = (d, None) → ProtoInvalidateConfirm d = q.
Proof. destruct q. intros H. by decode_exact H. Qed.

(** ** All messages *)

Lemma keeps_fields_intro (D P : Type) `{GoTyped D} `{MessageCodec D P} (explicit : P → P) :
  (∀ d, mc_wf d → go_typed d) →
  (∀ q d, go_typed q → mc_fromproto (Some q) = (d, None) → mc_proto d = explicit q) →
  keeps_fields D P explicit.
Proof. intros Hwf Hex. split; [by apply codec_typed_instance|exact Hex]. Qed.

(** C27. No conversion of either service changes a field of a message that is
    accepted.  Domain messages within the ranges of their Go types encode to
    messages within the ranges of the protobuf types, what a decoder accepts
    is within the ranges of the Go types, and encoding an accepted value gives
    back the very message it was decoded from: no version, W, enumeration or
    other field was truncated, swapped, replaced or dropped.  In the get and
    mutation responses and in the events of a batch a version tag that was
    left out comes back as the explicit zero tag, and nothing else differs. *)
Theorem conversions_keep_every_field :
  keeps_fields HandshakeRequest pb_HandshakeRequest id ∧
  keeps_fields Handshake pb_HandshakeResponse id ∧
  keeps_fields HubStatusRequest pb_HubStatusRequest id ∧
  keeps_fields HubStatus pb_HubStatusResponse id ∧
  keeps_fields rpc_GetRequest pb_GetRequest id ∧
  keeps_fields GetResponse pb_GetResponse get_response_explicit ∧
  keeps_fields MutationRequest pb_MutationRequest id ∧
  keeps_fields MutationResponse pb_MutationResponse mutation_response_explicit ∧
  keeps_fields Hello pb_Hello id ∧ keeps_fields Subscribe pb_Subscribe id ∧
  keeps_fields InvalidationBatch pb_InvalidationBatch batch_explicit ∧
  keeps_fields StreamAcknowledgement pb_StreamAcknowledgement id ∧
  keeps_fields StreamCheckpoint pb_StreamCheckpoint id ∧
  keeps_fields ReplayRequest pb_ReplayRequest id ∧
  keeps_fields ReplayUnavailable pb_ReplayUnavailable id ∧
  keeps_fields InvalidateConfirm pb_InvalidateConfirm id ∧
  keeps_fields ControlError pb_ControlError id.
Proof.
  split_and!; (apply keeps_fields_intro; [first [by intros d|by intros d []]|]); intros q d Hq.
  - by apply HandshakeRequest_exact.
  - by apply Handshake_exact.
  - apply HubStatusRequest_exact.
  - apply HubStatus_exact.
  - apply rpc_GetRequest_exact.
  - apply GetResponse_exact.
  - by apply FromProtoMutationRequest_exact.
  - apply MutationResponse_exact.
  - by apply Hello_exact.
  - apply Subscribe_exact.
  - apply InvalidationBatch_exact.
  - apply StreamAcknowledgement_exact.
  - apply StreamCheckpoint_exact.
  - apply ReplayRequest_exact.
  - apply ReplayUnavailable_exact.
  - apply InvalidateConfirm_exact.
  - apply ControlError_exact.
Qed.
