(* ===== verification/ControlSize.v ===== *)
(** * Encoded sizes of control messages (internal/control, api/proto)

    [MaxControlMessageBytes] is meant to bound the protobuf encoding of every
    message of the stream, and [EstimatedEncodedSize] to bound the encoding of
    an invalidation batch.  The encoder is the protobuf runtime, which is not
    part of the repository: its [Size] is the class [ProtoSize], whose laws are
    the documented rules of the proto3 wire format applied to the fields that
    api/proto/gossipcache/v1 declares (all field numbers are below 16, so a
    tag is one byte).  The bytes of the messages are in [PbBytes]. *)

From S2P Require Import Prelude GoErrors GoStd WireStatus WireProtocol WireTypes WireRecord.
From S2P Require Import PbCommon PbControl RpcTypes Codec RpcConvert ControlTypes.
From S2P Require Import ControlConvert.

Local Open Scope go_scope.

(** ** The encoding of a field, given the size of a varint *)
Section fields.
Variable vs : Z → Z.

(** A varint field is omitted when it has its zero value. *)
Definition varint_field (n : Z) : Z := if n =? 0 then 0 else 1 + vs n.
(** Tag, length and contents. *)
Definition delimited (n : Z) : Z := 1 + vs n + n.
Definition bytes_field (n : Z) : Z := if n =? 0 then 0 else delimited n.
Definition message_field {A} (size : A → Z) (m : option A) : Z :=
  match m with Some m => delimited (size m) | None => 0 end.
Definition repeated_field {A} (size : A → Z) (l : list (option A)) : Z :=
  foldr (λ m n, delimited (match m with Some m => size m | None => 0 end) + n) 0 l.
(** A repeated [uint32] is packed. *)
Definition packed_field (l : list Z) : Z :=
  bytes_field (foldr (λ x n, vs x + n) 0 l).
End fields.

(** ** The documented sizes *)
Class ProtoSize := {
  vs : Z → Z;
  vs_range : ∀ k n, 1 <= k → 0 <= n < 2 ^ (7 * k) → 1 <= vs n <= k;

  size_VersionTag : pb_VersionTag → Z;
  size_VersionTag_rule : ∀ m, size_VersionTag m =
    varint_field vs (pb_VersionTag_PartitionId m) + varint_field vs (pb_VersionTag_Sequence m);
  size_MutationID : pb_MutationID → Z;
  size_MutationID_rule : ∀ m, size_MutationID m = bytes_field vs (len (pb_MutationID_Id m));
  size_StreamWatermark : pb_StreamWatermark → Z;
  size_StreamWatermark_rule : ∀ m, size_StreamWatermark m =
    varint_field vs (pb_StreamWatermark_StreamId m) +
    varint_field vs (pb_StreamWatermark_AppliedThrough m) +
    varint_field vs (pb_StreamWatermark_HubGeneration m);
  size_Hello : pb_Hello → Z;
  size_Hello_rule : ∀ m, size_Hello m =
    varint_field vs (pb_Hello_NodeId m) + varint_field vs (pb_Hello_ProtocolVersion m) +
    varint_field vs (pb_Hello_MinSupportedVersion m) +
    repeated_field vs size_StreamWatermark (pb_Hello_Subscriptions m) +
    bytes_field vs (string_len (pb_Hello_ClusterId m)) +
    varint_field vs (pb_Hello_ExpectedHubGeneration m);
  size_Subscribe : pb_Subscribe → Z;
  size_Subscribe_rule : ∀ m, size_Subscribe m =
    varint_field vs (pb_Subscribe_HubGeneration m) + packed_field vs (pb_Subscribe_StreamIds m);
  size_InvalidationEvent : pb_InvalidationEvent → Z;
  size_InvalidationEvent_rule : ∀ m, size_InvalidationEvent m =
    varint_field vs (pb_InvalidationEvent_StreamSequence m) +
    bytes_field vs (len (pb_InvalidationEvent_Key m)) +
    message_field vs size_VersionTag (pb_InvalidationEvent_Version m) +
    varint_field vs (to_uint64 (pb_InvalidationEvent_Kind m)) +
    message_field vs size_MutationID (pb_InvalidationEvent_MutationId m);
  size_InvalidationBatch : pb_InvalidationBatch → Z;
  size_InvalidationBatch_rule : ∀ m, size_InvalidationBatch m =
    varint_field vs (pb_InvalidationBatch_StreamId m) +
    varint_field vs (pb_InvalidationBatch_HubGeneration m) +
    repeated_field vs size_InvalidationEvent (pb_InvalidationBatch_Events m);
  size_StreamAcknowledgement : pb_StreamAcknowledgement → Z;
  size_StreamAcknowledgement_rule : ∀ m, size_StreamAcknowledgement m =
    varint_field vs (pb_StreamAcknowledgement_StreamId m) +
    varint_field vs (pb_StreamAcknowledgement_AppliedThrough m);
  size_StreamCheckpoint : pb_StreamCheckpoint → Z;
  size_StreamCheckpoint_rule : ∀ m, size_StreamCheckpoint m =
    varint_field vs (pb_StreamCheckpoint_StreamId m) +
    varint_field vs (pb_StreamCheckpoint_HubGeneration m) +
    varint_field vs (pb_StreamCheckpoint_StreamHead m);
  size_ReplayRequest : pb_ReplayRequest → Z;
  size_ReplayRequest_rule : ∀ m, size_ReplayRequest m =
    varint_field vs (pb_ReplayRequest_StreamId m) +
    varint_field vs (pb_ReplayRequest_FromSequence m) +
    varint_field vs (pb_ReplayRequest_ToSequence m);
  size_ReplayUnavailable : pb_ReplayUnavailable → Z;
  size_ReplayUnavailable_rule : ∀ m, size_ReplayUnavailable m =
    varint_field vs (pb_ReplayUnavailable_StreamId m) +
    varint_field vs (pb_ReplayUnavailable_HubGeneration m) +
    varint_field vs (pb_ReplayUnavailable_RequestedFrom m) +
    varint_field vs (pb_ReplayUnavailable_OldestAvailable m) +
    varint_field vs (pb_ReplayUnavailable_StreamHead m);
  size_InvalidateConfirm : pb_InvalidateConfirm → Z;
  size_InvalidateConfirm_rule : ∀ m, size_InvalidateConfirm m =
    varint_field vs (pb_InvalidateConfirm_StreamId m) +
    varint_field vs (pb_InvalidateConfirm_StreamSequence m) +
    varint_field vs (pb_InvalidateConfirm_NodeId m);
  size_ControlError : pb_ControlError → Z;
  size_ControlError_rule : ∀ m, size_ControlError m =
    varint_field vs (to_uint64 (pb_ControlError_Status m)) +
    bytes_field vs (string_len (pb_ControlError_Detail m));

  (** The body of an envelope is one field of its oneof. *)
  size_client : pb_ControlClientMessage → Z;
  size_client_rule : ∀ b n,
    match b with
    | CCM_Hello (Some (Some m)) => Some (size_Hello m)
    | CCM_Subscribe (Some (Some m)) => Some (size_Subscribe m)
    | CCM_StreamAcknowledgement (Some (Some m)) => Some (size_StreamAcknowledgement m)
    | CCM_ReplayRequest (Some (Some m)) => Some (size_ReplayRequest m)
    | CCM_InvalidateConfirm (Some (Some m)) => Some (size_InvalidateConfirm m)
    | _ => None
    end = Some n →
    size_client (mk_pb_ControlClientMessage (Some b)) = delimited vs n;
  size_server : pb_ControlServerMessage → Z;
  size_server_rule : ∀ b n,
    match b with
    | CSM_InvalidationBatch (Some (Some m)) => Some (size_InvalidationBatch m)
    | CSM_StreamCheckpoint (Some (Some m)) => Some (size_StreamCheckpoint m)
    | CSM_ReplayUnavailable (Some (Some m)) => Some (size_ReplayUnavailable m)
    | CSM_ControlError (Some (Some m)) => Some (size_ControlError m)
    | _ => None
    end = Some n →
    size_server (mk_pb_ControlServerMessage (Some b)) = delimited vs n;
}.

(** ** The rules are satisfiable: the usual base-128 varint *)
Definition base128_size (n : Z) : Z :=
  if n <=? 0 then 1 else Z.log2 n / 7 + 1.

Lemma base128_range k n : 1 <= k → 0 <= n < 2 ^ (7 * k) → 1 <= base128_size n <= k.
Proof.
  intros Hk [Hn Hb]. unfold base128_size. destruct (Z.leb_spec n 0); [lia|].
  apply Z.log2_lt_pow2 in Hb; [|lia]. pose proof (Z.log2_nonneg n).
  assert (0 <= Z.log2 n / 7) by (apply Z.div_pos; lia).
  assert (Z.log2 n / 7 < k) by (apply Z.div_lt_upper_bound; lia). lia.
Qed.

Definition proto3_sizes : ProtoSize.
Proof.
  refine {|
    vs := base128_size; vs_range := base128_range;
    size_VersionTag := _; size_VersionTag_rule := λ m, eq_refl;
    size_MutationID := _; size_MutationID_rule := λ m, eq_refl;
    size_StreamWatermark := _; size_StreamWatermark_rule := λ m, eq_refl;
    size_Hello := _; size_Hello_rule := λ m, eq_refl;
    size_Subscribe := _; size_Subscribe_rule := λ m, eq_refl;
    size_InvalidationEvent := _; size_InvalidationEvent_rule := λ m, eq_refl;
    size_InvalidationBatch := _; size_InvalidationBatch_rule := λ m, eq_refl;
    size_StreamAcknowledgement := _; size_StreamAcknowledgement_rule := λ m, eq_refl;
    size_StreamCheckpoint := _; size_StreamCheckpoint_rule := λ m, eq_refl;
    size_ReplayRequest := _; size_ReplayRequest_rule := λ m, eq_refl;
    size_ReplayUnavailable := _; size_ReplayUnavailable_rule := λ m, eq_refl;
    size_InvalidateConfirm := _; size_InvalidateConfirm_rule := λ m, eq_refl;
    size_ControlError := _; size_ControlError_rule := λ m, eq_refl;
    size_client := λ m,
      match pb_ControlClientMessage_Body_field m with
      | Some (CCM_Hello (Some (Some m))) => delimited base128_size _
      | Some (CCM_Subscribe (Some (Some m))) => delimited base128_size _
      | Some (CCM_StreamAcknowledgement (Some (Some m))) => delimited base128_size _
      | Some (CCM_ReplayRequest (Some (Some m))) => delimited base128_size _
      | Some (CCM_InvalidateConfirm (Some (Some m))) => delimited base128_size _
      | _ => 0
      end;
    size_server := λ m,
      match pb_ControlServerMessage_Body_field m with
      | Some (CSM_InvalidationBatch (Some (Some m))) => delimited base128_size _
      | Some (CSM_StreamCheckpoint (Some (Some m))) => delimited base128_size _
      | Some (CSM_ReplayUnavailable (Some (Some m))) => delimited base128_size _
      | Some (CSM_ControlError (Some (Some m))) => delimited base128_size _
      | _ => 0
      end |}.
  - by intros [[[]|]|[[]|]|[[]|]|[[]|]|[[]|]] n [= <-].
  - by intros [[[]|]|[[]|]|[[]|]|[[]|]] n [= <-].
Defined.

(** ** Bounds *)
Section bounds.
Context `{ProtoSize}.

Lemma varint_field_bound k n :
  1 <= k → 0 <= n < 2 ^ (7 * k) → 0 <= varint_field vs n <= 1 + k.
Proof.
  intros Hk Hn. pose proof (vs_range k n Hk Hn). unfold varint_field. case_if; lia.
Qed.

Lemma varint_field_u32 n : u32 n → 0 <= varint_field vs n <= 6.
Proof. intros Hn. apply (varint_field_bound 5); unfold u32 in *; lia. Qed.
Lemma varint_field_u64 n : u64 n → 0 <= varint_field vs n <= 11.
Proof. intros Hn. apply (varint_field_bound 10); unfold u64 in *; lia. Qed.

Lemma delimited_bound k n :
  1 <= k → 0 <= n < 2 ^ (7 * k) → n + 2 <= delimited vs n <= 1 + k + n.
Proof. intros Hk Hn. pose proof (vs_range k n Hk Hn). unfold delimited. lia. Qed.

(** Tag and length of contents below 2 MiB take at most four bytes. *)
Lemma delimited_small n : 0 <= n < 2 ^ 21 → n + 2 <= delimited vs n <= n + 4.
Proof. intros Hn. pose proof (delimited_bound 3 n ltac:(lia) Hn). lia. Qed.

Lemma bytes_field_bound k n :
  1 <= k → 0 <= n < 2 ^ (7 * k) → n <= bytes_field vs n <= 1 + k + n.
Proof.
  intros Hk Hn. pose proof (delimited_bound k n Hk Hn). unfold bytes_field. case_if; lia.
Qed.

Lemma size_VersionTag_bound v : go_typed v → 0 <= size_VersionTag v <= 17.
Proof.
  intros [Hp Hs]. rewrite size_VersionTag_rule.
  pose proof (varint_field_u32 _ Hp). pose proof (varint_field_u64 _ Hs). lia.
Qed.

Lemma size_StreamWatermark_bound w : go_typed w → 0 <= size_StreamWatermark w <= 28.
Proof.
  intros (Hi & Ha & Hg). rewrite size_StreamWatermark_rule.
  pose proof (varint_field_u32 _ Hi). pose proof (varint_field_u64 _ Ha).
  pose proof (varint_field_u64 _ Hg). lia.
Qed.

Lemma size_MutationID_bound id :
  MutationID_typed id → 0 <= size_MutationID {| pb_MutationID_Id := id |} <= 18.
Proof.
  intros Hid. rewrite size_MutationID_rule. cbn [pb_MutationID_Id].
  assert (len id = 16) as -> by (unfold MutationID_typed, len in *; lia).
  pose proof (bytes_field_bound 1 16 ltac:(lia) ltac:(lia)). lia.
Qed.

(** The sum over a repeated field of small messages. *)
Lemma repeated_field_bound {A} (size : A → Z) (bound : A → Z) (l : list A) :
  Forall (λ x, 0 <= size x <= bound x ∧ bound x < 2 ^ 21) l →
  0 <= repeated_field vs size (map Some l) <= foldr (λ x n, 4 + bound x + n) 0 l.
Proof.
  induction 1 as [|x l [Hx Hb] _ IH]; [done|].
  cbn [map]. unfold repeated_field in *. cbn [foldr].
  pose proof (delimited_small (size x) ltac:(lia)). lia.
Qed.

(** ** Invalidation batches *)

Definition proto_event (e : InvalidationEvent) : pb_InvalidationEvent :=
  {| pb_InvalidationEvent_StreamSequence := ev_StreamSequence e;
     pb_InvalidationEvent_Key := CopyBytes (ev_Key e);
     pb_InvalidationEvent_Version :=
       Some {| pb_VersionTag_PartitionId := vt_PartitionID (ev_Version e);
               pb_VersionTag_Sequence := vt_Sequence (ev_Version e) |};
     pb_InvalidationEvent_Kind := to_int32 (ev_Kind e);
     pb_InvalidationEvent_MutationId := Some {| pb_MutationID_Id := ev_MutationID e |} |}.

Lemma proto_events_eq m :
  pb_InvalidationBatch_Events (ProtoInvalidationBatch m) =
  map Some (map proto_event (ib_Events m)).
Proof. by rewrite map_map. Qed.

Lemma size_InvalidationEvent_bound streamID e :
  go_typed e → event_ok streamID e →
  0 <= size_InvalidationEvent (proto_event e) <= 55 + len (ev_Key e).
Proof.
  intros (Hs & Hv & _ & Hid) (_ & _ & [_ Hk] & _ & Hkind & _).
  rewrite size_InvalidationEvent_rule. destruct e as [s k [p q] kd id].
  cbn -[to_uint64 to_int32 Z.pow] in *.
  change MaxKeyLen with 4096 in Hk. pose proof (len_nonneg k).
  pose proof (varint_field_u64 _ Hs).
  pose proof (bytes_field_bound 2 (len k) ltac:(lia) ltac:(lia)).
  pose proof (size_VersionTag_bound (mk_pb_VersionTag p q) Hv).
  pose proof (delimited_bound 1 (size_VersionTag (mk_pb_VersionTag p q)) ltac:(lia) ltac:(lia)).
  pose proof (size_MutationID_bound id Hid).
  pose proof (delimited_bound 1 (size_MutationID (mk_pb_MutationID id)) ltac:(lia) ltac:(lia)).
  assert (0 <= varint_field vs (to_uint64 (to_int32 kd)) <= 2).
  { assert (kd = 0 ∨ kd = 1) as [->| ->] by (unfold_enums; lia);
      apply (varint_field_bound 1); done || lia. }
  lia.
Qed.

Lemma size_events_bound streamID events :
  go_typed events → Forall (event_ok streamID) events →
  0 <= repeated_field vs size_InvalidationEvent (map Some (map proto_event events))
    <= batch_size events.
Proof.
  intros Ht He. induction He as [|e events He _ IH]; [done|].
  apply go_typed_cons in Ht as [Hte Ht]. specialize (IH Ht).
  rewrite batch_size_cons. unfold repeated_field in *. cbn [map foldr].
  pose proof (size_InvalidationEvent_bound streamID e Hte He).
  destruct He as (_ & _ & [_ Hk] & _). change MaxKeyLen with 4096 in Hk.
  assert (0 <= size_InvalidationEvent (proto_event e) < 2 ^ 21) as Hd by lia.
  apply delimited_small in Hd. unfold eventEncodedOverhead. lia.
Qed.

Lemma size_batch_bound m :
  go_typed m → InvalidationBatch_Validate m = None →
  0 <= size_server (mk_pb_ControlServerMessage
         (Some (CSM_InvalidationBatch (Some (Some (ProtoInvalidationBatch m)))))) <=
    InvalidationBatch_EstimatedEncodedSize m ∧
  InvalidationBatch_EstimatedEncodedSize m <= MaxControlMessageBytes.
Proof.
  intros Ht Hv. apply InvalidationBatch_Validate_ok in Hv as (_ & [_ Hl] & He & _ & Hsize); [|done].
  destruct Ht as (Hi & Hg & Ht).
  rewrite EstimatedEncodedSize_eq by (by eapply event_ok_batch_size).
  split; [|done]. change MaxControlMessageBytes with 3145728 in Hsize.
  erewrite size_server_rule by reflexivity.
  pose proof (size_events_bound _ _ Ht He) as Hev.
  assert (0 <= size_InvalidationBatch (ProtoInvalidationBatch m) <= 17 + batch_size (ib_Events m))
    as Hb.
  { rewrite size_InvalidationBatch_rule, proto_events_eq. cbn [ProtoInvalidationBatch
      pb_InvalidationBatch_StreamId pb_InvalidationBatch_HubGeneration].
    pose proof (varint_field_u32 _ Hi). pose proof (varint_field_u64 _ Hg). lia. }
  unfold controlMessageOverhead in *.
  assert (0 <= size_InvalidationBatch (ProtoInvalidationBatch m) < 2 ^ (7 * 4)) as Hd by lia.
  apply (delimited_bound 4 (size_InvalidationBatch (ProtoInvalidationBatch m))) in Hd; lia.
Qed.

(** ** The other messages *)

Lemma size_subscriptions_bound subs :
  go_typed subs →
  0 <= repeated_field vs size_StreamWatermark
         (map Some (map (λ s, {| pb_StreamWatermark_StreamId := sw_StreamID s;
                                 pb_StreamWatermark_AppliedThrough := sw_AppliedThrough s;
                                 pb_StreamWatermark_HubGeneration := sw_HubGeneration s |}) subs))
    <= 32 * len subs.
Proof.
  induction subs as [|s subs IH]; intros Ht; [done|].
  apply go_typed_cons in Ht as [Hs Ht]. specialize (IH Ht). rewrite len_cons.
  unfold repeated_field in *. cbn [map foldr].
  set (w := mk_pb_StreamWatermark _ _ _).
  pose proof (size_StreamWatermark_bound w Hs) as Hw.
  assert (0 <= size_StreamWatermark w < 2 ^ 21) as Hd by lia.
  apply delimited_small in Hd. lia.
Qed.

Lemma packed_bound ids :
  Forall u32 ids → 0 <= foldr (λ x n, vs x + n) 0 ids <= 5 * len ids.
Proof.
  induction 1 as [|x ids Hx _ IH]; [done|]. rewrite len_cons. cbn [foldr].
  pose proof (vs_range 5 x ltac:(lia) ltac:(unfold u32 in Hx; lia)). lia.
Qed.

Lemma size_Hello_bound h :
  go_typed h → Hello_Validate h = None → string_len (he_ClusterID h) < 2 ^ 21 →
  0 <= size_Hello (ProtoHello h) <= 131132 + string_len (he_ClusterID h).
Proof.
  intros Ht Hv Hc. apply Hello_Validate_ok in Hv as (_ & _ & _ & Hl & _); [|done].
  destruct h as [n [v m] subs c g]. destruct Ht as (Hn & [Hpv Hpm] & Hs & Hg).
  rewrite size_Hello_rule. cbn -[Z.pow to_uint32 repeated_field] in *.
  change MaxSubscriptions with 4096 in Hl.
  rewrite !to_uint32_id by auto with go_int.
  pose proof (varint_field_u64 n Hn). pose proof (varint_field_u64 g Hg).
  pose proof (varint_field_u32 v (u16_u32 _ Hpv)). pose proof (varint_field_u32 m (u16_u32 _ Hpm)).
  assert (0 <= string_len c < 2 ^ 21) as Hsc
    by (split; [unfold string_len; lia|done]).
  pose proof (bytes_field_bound 3 _ ltac:(lia) Hsc).
  pose proof (size_subscriptions_bound subs Hs) as Hsubs. rewrite map_map in Hsubs. cbv beta in Hsubs.
  lia.
Qed.

Lemma size_Subscribe_bound m :
  go_typed m → Subscribe_Validate m = None → 0 <= size_Subscribe (ProtoSubscribe m) <= 20495.
Proof.
  destruct m as [g ids]. intros [Hg Hids] Hv. cbn in Hg, Hids.
  assert (len ids <= 4096) as Hl.
  { unfold Subscribe_Validate in Hv. cbn in Hv. change MaxSubscriptions with 4096 in Hv.
    case_ifs. lia. }
  rewrite size_Subscribe_rule. cbn [ProtoSubscribe pb_Subscribe_HubGeneration
    pb_Subscribe_StreamIds su_HubGeneration su_StreamIDs app].
  pose proof (varint_field_u64 _ Hg). pose proof (packed_bound ids Hids). pose proof (len_nonneg ids).
  unfold packed_field.
  assert (0 <= foldr (λ x n, vs x + n) 0 ids < 2 ^ 21) as Hsum by lia.
  pose proof (bytes_field_bound 3 _ ltac:(lia) Hsum). lia.
Qed.

(** Messages of a few integers. *)
Ltac positions Ht rule :=
  rewrite rule; cbn -[Z.pow to_uint64 to_int32];
  repeat match goal with
  | |- context [varint_field vs ?n] =>
      let B := fresh "B" in
      assert (0 <= varint_field vs n <= 11) as B
        by (first [apply varint_field_u64; apply Ht
                  |pose proof (varint_field_u32 n ltac:(apply Ht)); lia]);
      generalize dependent (varint_field vs n); intros
  end; lia.

Lemma size_positions_bound :
  (∀ m, go_typed m → 0 <= size_StreamAcknowledgement (ProtoStreamAcknowledgement m) <= 55) ∧
  (∀ m, go_typed m → 0 <= size_StreamCheckpoint (ProtoStreamCheckpoint m) <= 55) ∧
  (∀ m, go_typed m → 0 <= size_ReplayRequest (ProtoReplayRequest m) <= 55) ∧
  (∀ m, go_typed m → 0 <= size_ReplayUnavailable (ProtoReplayUnavailable m) <= 55) ∧
  (∀ m, go_typed m → 0 <= size_InvalidateConfirm (ProtoInvalidateConfirm m) <= 55).
Proof.
  split_and!; intros m Ht.
  - positions Ht size_StreamAcknowledgement_rule.
  - positions Ht size_StreamCheckpoint_rule.
  - positions Ht size_ReplayRequest_rule.
  - positions Ht size_ReplayUnavailable_rule.
  - positions Ht size_InvalidateConfirm_rule.
Qed.

Lemma size_ControlError_bound m :
  go_typed m → ControlError_Validate m = None →
  0 <= size_ControlError (ProtoControlError m) <= 270.
Proof.
  destruct m as [s d]. intros _ Hv.
  assert ((s = 5 ∨ s = 4 ∨ s = 6 ∨ s = 8) ∧ string_len d <= 256) as [Hs Hd].
  { unfold ControlError_Validate in Hv. unfold_status. cbn in Hv.
    change MaxControlErrorDetail with 256 in Hv. case_ifs. lia. }
  rewrite size_ControlError_rule. cbn [ProtoControlError pb_ControlError_Status
    pb_ControlError_Detail ce_Status ce_Detail].
  assert (0 <= string_len d < 2 ^ 14) as Hl by (split; [unfold string_len|]; lia).
  pose proof (bytes_field_bound 2 _ ltac:(lia) Hl).
  assert (0 <= varint_field vs (to_uint64 (to_int32 s)) <= 2).
  { destruct Hs as [->|[->|[->| ->]]]; apply (varint_field_bound 1); done || lia. }
  lia.
Qed.
End bounds.

(** C13. [EstimatedEncodedSize] is the upper bound it is documented to be: for
    every accepted batch it is at least the protobuf size of the batch in its
    server envelope, and at most [MaxControlMessageBytes], so an accepted
    batch always fits a control message. *)
Theorem EstimatedEncodedSize_sound `{ProtoSize} (m : InvalidationBatch) :
  go_typed m → InvalidationBatch_Validate m = None →
  ∃ msg, ProtoServerMessage (PInvalidationBatch m) = (Some msg, None) ∧
    size_server msg <= InvalidationBatch_EstimatedEncodedSize m <= MaxControlMessageBytes.
Proof.
  intros Ht Hv. eexists. split; [reflexivity|].
  pose proof (size_batch_bound m Ht Hv). lia.
Qed.

Lemma EstimatedEncodedSize_sound_witness :
  let ev n := mkInvalidationEvent n (string_bytes "k") (mkVersionTag 3 n) RecordValue
                (NewMutationID 1 n) in
  ∃ msg, ProtoServerMessage (PInvalidationBatch (mkInvalidationBatch 3 7 [ev 8; ev 9])) =
           (Some msg, None) ∧ @size_server proto3_sizes msg <= 258.
Proof.
  cbv zeta. set (m := mkInvalidationBatch _ _ _).
  destruct (EstimatedEncodedSize_sound (H := proto3_sizes) m) as (msg & Hm & Hs & _).
  - by repeat constructor.
  - by vm_compute.
  - exists msg. split; [exact Hm|]. exact Hs.
Defined.

(** The encoded size of a payload in the envelope of its direction. *)
Definition fits `{ProtoSize} (b : payload) (bound : Z) : Prop :=
  (client_payload b = true →
   ∃ m, ProtoClientMessage b = (Some m, None) ∧ size_client m <= bound) ∧
  (server_payload b = true →
   ∃ m, ProtoServerMessage b = (Some m, None) ∧ size_server m <= bound).

Lemma delimited_fits `{ProtoSize} n : 0 <= n < 2 ^ 21 + 2 ^ 18 → delimited vs n <= 3145728.
Proof. intros Hn. pose proof (delimited_bound 4 n ltac:(lia) ltac:(lia)). lia. Qed.

(** Closes the bound on an envelope from the bound on its body. *)
Ltac fits_by bound :=
  eexists; split; [reflexivity|];
  first [erewrite size_client_rule by reflexivity|erewrite size_server_rule by reflexivity];
  apply delimited_fits; pose proof bound; lia.

Lemma valid_messages_fit `{ProtoSize} (b : payload) :
  message_ok b →
  (∀ h, deref b = PHello h → string_len (he_ClusterID h) < 2 ^ 21) →
  fits b MaxControlMessageBytes.
Proof.
  intros Hok Hhello. change MaxControlMessageBytes with 3145728.
  destruct size_positions_bound as (Ba & Bc & Bq & Bu & Bi).
  destruct b as [| | [] | | [] | | [] | | [] | | [] | | [] | | [] | | [] | | [] |];
    (split; intros Hd; try discriminate Hd); destruct Hok as [Ht Hv];
    try (specialize (Hhello _ eq_refl));
    first
      [ fits_by (size_Hello_bound _ Ht Hv Hhello) | fits_by (size_Subscribe_bound _ Ht Hv)
      | fits_by (Ba _ Ht) | fits_by (Bc _ Ht) | fits_by (Bq _ Ht) | fits_by (Bu _ Ht)
      | fits_by (Bi _ Ht) | fits_by (size_ControlError_bound _ Ht Hv)
      | eexists; split; [reflexivity|]; pose proof (size_batch_bound _ Ht Hv);
        change MaxControlMessageBytes with 3145728 in *; lia ].
Qed.

(** Every valid message of the stream, of either direction, fits
    [MaxControlMessageBytes] when it is encoded in its envelope, provided the
    cluster identity of a hello is shorter than 2 MiB: for all other fields
    the validators are enough. *)
Lemma control_messages_fit `{ProtoSize} (b : payload) :
  message_ok b →
  (∀ h, deref b = PHello h → string_len (he_ClusterID h) < 2 ^ 21) →
  fits b MaxControlMessageBytes.
Proof. apply valid_messages_fit. Qed.

Lemma control_messages_fit_witness :
  @fits proto3_sizes (PSubscribe (mkSubscribe 7 [1; 2; 3])) MaxControlMessageBytes.
Proof.
  apply (control_messages_fit (H := proto3_sizes) (PSubscribe (mkSubscribe 7 [1; 2; 3]))).
  - by repeat constructor.
  - done.
Defined.

Lemma string_of_bytes_length l : String.length (String.string_of_list_byte l) = length l.
Proof. induction l as [|b l IH]; [done|]. exact (f_equal S IH). Qed.

Lemma letters_not_blank n : ¬ blank (replicate (S n) x61).
Proof.
  intros (ps & Hps & Heq). destruct Hps as [|p ps Hp _]; [done|]. cbn [concat replicate] in Heq.
  pose proof (encoding_nonempty p Hp).
  assert (head p = Some x61) as Hx by (destruct p; [cbn in *; lia|by injection Heq as ->]).
  clear Heq. unfold space_encodings in Hp. rewrite list_elem_of_In in Hp. cbn [In] in Hp.
  repeat destruct Hp as [<-|Hp]; done.
Qed.

(** A hello of the smallest kind for a cluster whose name has [n + 1] letters. *)
Definition hello_of_cluster (n : nat) : Hello :=
  mkHello 1 CurrentProtocolRange [] (String.string_of_list_byte (replicate (S n) x61)) 0.

Lemma hello_of_cluster_ok n :
  go_typed (hello_of_cluster n) ∧ Hello_Validate (hello_of_cluster n) = None.
Proof.
  assert (go_typed (hello_of_cluster n)) as Ht by (split_and!; try done; by constructor).
  split; [done|]. apply Hello_Validate_ok; [done|]. unfold hello_of_cluster.
  cbn [he_NodeID he_Protocol he_ClusterID he_Subscriptions map].
  split_and!; try done; [|by constructor..].
  unfold string_bytes. rewrite String.list_byte_of_string_of_list_byte. apply letters_not_blank.
Qed.

Lemma vs_pos `{ProtoSize} n : 0 <= n → 1 <= vs n.
Proof.
  intros Hn. apply (vs_range (n + 1)); [lia|]. split; [done|].
  assert (7 * (n + 1) < 2 ^ (7 * (n + 1))) by (apply Z.pow_gt_lin_r; lia). lia.
Qed.

Lemma hello_of_cluster_size `{ProtoSize} n :
  Z.of_nat n < size_Hello (ProtoHello (hello_of_cluster n)).
Proof.
  rewrite size_Hello_rule.
  cbn [ProtoHello hello_of_cluster pb_Hello_NodeId pb_Hello_ProtocolVersion
    pb_Hello_MinSupportedVersion pb_Hello_Subscriptions pb_Hello_ClusterId
    pb_Hello_ExpectedHubGeneration he_NodeID he_Protocol he_Subscriptions he_ClusterID
    he_ExpectedHubGeneration map repeated_field foldr].
  unfold string_len. rewrite string_of_bytes_length, length_replicate.
  change (to_uint32 _) with 1. unfold varint_field. cbn [Z.eqb].
  pose proof (vs_pos 1 ltac:(lia)). pose proof (vs_pos (Z.of_nat (S n)) ltac:(lia)).
  unfold bytes_field, delimited. destruct (Z.eqb_spec (Z.of_nat (S n)) 0); lia.
Qed.

(** C40. The proviso on hellos is needed: [Hello.Validate] does not bound the
    cluster identity, so for every limit there is a valid hello whose encoded
    envelope exceeds it, [MaxControlMessageBytes] included. *)
Theorem Hello_size_unbounded `{ProtoSize} (limit : nat) :
  ∃ h, go_typed h ∧ Hello_Validate h = None ∧
    ∃ m, ProtoClientMessage (PHello h) = (Some m, None) ∧ Z.of_nat limit < size_client m.
Proof.
  exists (hello_of_cluster limit). destruct (hello_of_cluster_ok limit) as [Ht Hv].
  split; [done|]. split; [done|]. eexists. split; [reflexivity|].
  erewrite size_client_rule by reflexivity.
  pose proof (hello_of_cluster_size limit).
  assert (0 <= size_Hello (ProtoHello (hello_of_cluster limit))) as Hs by lia.
  apply vs_pos in Hs. unfold delimited. lia.
Qed.

Lemma Hello_size_unbounded_witness :
  ∃ h m, Hello_Validate h = None ∧ ProtoClientMessage (PHello h) = (Some m, None) ∧
    MaxControlMessageBytes < @size_client proto3_sizes m.
Proof.
  destruct (Hello_size_unbounded (H := proto3_sizes) (Z.to_nat MaxControlMessageBytes))
    as (h & _ & Hv & m & Hm & Hs).
  exists h, m. rewrite Z2Nat.id in Hs; [done|]. by apply Z.leb_le.
Defined.
