(* ===== verification/Heap.v ===== *)
(** * A shared heap of slices and pointers

    In the files that model the packages a slice is the list of its elements.
    Here a slice is a header that refers to an array of a shared heap, so that
    two slices may alias, and nil differs from empty; a pointer refers to an
    object of the heap.  The class [Owned] says which objects a value refers to
    and which domain value it stands for, and [converts] is what the Clone
    methods and the conversions promise: a result that stands for the right
    value and shares no memory with anything that existed before. *)

From S2P Require Import Prelude GoErrors GoStd WireTypes PbCommon PbControl ControlTypes.

(** A call whose error is returned at once, with the value [d]. *)
Notation "'let!' x ':=' e 'or' d 'on' h 'in' k" :=
  (match e with (x, None) => k | (_, Some er) => ((d, Some er), h) end)
  (at level 10, x name, e at level 100, d at level 100, h at level 100, k at level 200)
  : go_scope.

(** ** The heap *)

Abbreviation loc := positive.

(** A slice header; [None] is the array pointer of a nil slice. *)
Record slice := mkSlice { sl_array : option loc; sl_off : nat; sl_len : nat }.
Definition nil_slice : slice := mkSlice None 0 0.

(** An event as it lies in an array: its key is a slice. *)
Record h_InvalidationEvent := mk_h_InvalidationEvent {
  hev_StreamSequence : Z; hev_Key : slice; hev_Version : VersionTag; hev_Kind : Z;
  hev_MutationID : MutationID }.

(** The generated structs that hold slices or pointers. *)
Record h_pb_MutationID := mk_h_pb_MutationID { hpi_Id : slice }.
Record h_pb_GetRequest := mk_h_pb_GetRequest {
  hpgq_Key : slice; hpgq_MinVersion : option loc; hpgq_HubGeneration : Z }.
Record h_pb_GetResponse := mk_h_pb_GetResponse {
  hpgp_Status : Z; hpgp_HubGeneration : Z; hpgp_Version : option loc; hpgp_Value : slice;
  hpgp_TtlMillis : Z; hpgp_Kind : Z }.
Record h_pb_MutationRequest := mk_h_pb_MutationRequest {
  hpmq_Op : Z; hpmq_Key : slice; hpmq_Value : slice; hpmq_TtlMillis : Z;
  hpmq_MutationId : option loc; hpmq_Mode : Z; hpmq_W : Z; hpmq_Confirm : Z;
  hpmq_TimeoutMillis : Z; hpmq_HubGeneration : Z }.
Record h_pb_Hello := mk_h_pb_Hello {
  hphe_NodeId : Z; hphe_ProtocolVersion : Z; hphe_MinSupportedVersion : Z;
  hphe_Subscriptions : slice; hphe_ClusterId : string; hphe_ExpectedHubGeneration : Z }.
Record h_pb_Subscribe := mk_h_pb_Subscribe { hpsu_HubGeneration : Z; hpsu_StreamIds : slice }.
Record h_pb_InvalidationEvent := mk_h_pb_InvalidationEvent {
  hpev_StreamSequence : Z; hpev_Key : slice; hpev_Version : option loc; hpev_Kind : Z;
  hpev_MutationId : option loc }.
Record h_pb_InvalidationBatch := mk_h_pb_InvalidationBatch {
  hpib_StreamId : Z; hpib_HubGeneration : Z; hpib_Events : slice }.

(** An object: an array, or a variable that a pointer refers to. *)
Inductive obj :=
| OBytes (cells : list byte)
| OUint32s (cells : list Z)
| OWatermarks (cells : list StreamWatermark)
| OEvents (cells : list h_InvalidationEvent)
| OPointers (cells : list (option loc))
| OVersion (v : VersionTag)
| OPbVersion (v : pb_VersionTag)
| OPbWatermark (s : pb_StreamWatermark)
| OPbMutationID (m : h_pb_MutationID)
| OPbGetRequest (m : h_pb_GetRequest)
| OPbGetResponse (m : h_pb_GetResponse)
| OPbMutationRequest (m : h_pb_MutationRequest)
| OPbHello (m : h_pb_Hello)
| OPbSubscribe (m : h_pb_Subscribe)
| OPbEvent (e : h_pb_InvalidationEvent)
| OPbBatch (m : h_pb_InvalidationBatch).

Abbreviation heap := (gmap loc obj).

(** The types that occur as elements of slices. *)
Class Elem (A : Type) := {
  inj : list A → obj;
  prj : obj → option (list A);
  prj_inj : ∀ l, prj (inj l) = Some l }.

#[export] Instance byte_elem : Elem byte :=
  {| inj := OBytes; prj o := match o with OBytes l => Some l | _ => None end;
     prj_inj _ := eq_refl |}.
#[export] Instance uint32_elem : Elem Z :=
  {| inj := OUint32s; prj o := match o with OUint32s l => Some l | _ => None end;
     prj_inj _ := eq_refl |}.
#[export] Instance watermark_elem : Elem StreamWatermark :=
  {| inj := OWatermarks; prj o := match o with OWatermarks l => Some l | _ => None end;
     prj_inj _ := eq_refl |}.
#[export] Instance event_elem : Elem h_InvalidationEvent :=
  {| inj := OEvents; prj o := match o with OEvents l => Some l | _ => None end;
     prj_inj _ := eq_refl |}.
#[export] Instance pointer_elem : Elem (option loc) :=
  {| inj := OPointers; prj o := match o with OPointers l => Some l | _ => None end;
     prj_inj _ := eq_refl |}.

(** The types that pointers refer to. *)
Class Boxed (A : Type) := {
  box : A → obj;
  unbox : obj → option A;
  unbox_box : ∀ a, unbox (box a) = Some a }.

#[export] Instance version_boxed : Boxed VersionTag :=
  {| box := OVersion; unbox o := match o with OVersion v => Some v | _ => None end;
     unbox_box _ := eq_refl |}.
#[export] Instance pb_version_boxed : Boxed pb_VersionTag :=
  {| box := OPbVersion; unbox o := match o with OPbVersion v => Some v | _ => None end;
     unbox_box _ := eq_refl |}.
#[export] Instance pb_watermark_boxed : Boxed pb_StreamWatermark :=
  {| box := OPbWatermark; unbox o := match o with OPbWatermark v => Some v | _ => None end;
     unbox_box _ := eq_refl |}.
#[export] Instance pb_id_boxed : Boxed h_pb_MutationID :=
  {| box := OPbMutationID; unbox o := match o with OPbMutationID m => Some m | _ => None end;
     unbox_box _ := eq_refl |}.
#[export] Instance pb_get_request_boxed : Boxed h_pb_GetRequest :=
  {| box := OPbGetRequest; unbox o := match o with OPbGetRequest m => Some m | _ => None end;
     unbox_box _ := eq_refl |}.
#[export] Instance pb_get_response_boxed : Boxed h_pb_GetResponse :=
  {| box := OPbGetResponse; unbox o := match o with OPbGetResponse m => Some m | _ => None end;
     unbox_box _ := eq_refl |}.
#[export] Instance pb_mutation_request_boxed : Boxed h_pb_MutationRequest :=
  {| box := OPbMutationRequest;
     unbox o := match o with OPbMutationRequest m => Some m | _ => None end;
     unbox_box _ := eq_refl |}.
#[export] Instance pb_hello_boxed : Boxed h_pb_Hello :=
  {| box := OPbHello; unbox o := match o with OPbHello m => Some m | _ => None end;
     unbox_box _ := eq_refl |}.
#[export] Instance pb_subscribe_boxed : Boxed h_pb_Subscribe :=
  {| box := OPbSubscribe; unbox o := match o with OPbSubscribe m => Some m | _ => None end;
     unbox_box _ := eq_refl |}.
#[export] Instance pb_event_boxed : Boxed h_pb_InvalidationEvent :=
  {| box := OPbEvent; unbox o := match o with OPbEvent e => Some e | _ => None end;
     unbox_box _ := eq_refl |}.
#[export] Instance pb_batch_boxed : Boxed h_pb_InvalidationBatch :=
  {| box := OPbBatch; unbox o := match o with OPbBatch m => Some m | _ => None end;
     unbox_box _ := eq_refl |}.

(** ** Operations *)

Definition elements {A} `{Elem A} (h : heap) (s : slice) : list A :=
  match sl_array s with
  | None => []
  | Some l => match h !! l ≫= prj with
              | Some cells => take (sl_len s) (drop (sl_off s) cells)
              | None => []
              end
  end.

(** A new object. *)
Definition alloc (o : obj) (h : heap) : option loc * heap :=
  let l := fresh (dom h) in (Some l, <[l := o]> h).

(** [&T{...}], or [&v] for a local variable [v]. *)
Definition new_var {A} `{Boxed A} (a : A) (h : heap) : option loc * heap := alloc (box a) h.

(** A slice of all the elements of a new array. *)
Definition new_array (A : Type) `{Elem A} (cells : list A) (h : heap) : slice * heap :=
  let (l, h) := alloc (inj cells) h in (mkSlice l 0 (length cells), h).

(** [append([]T(nil), s...)]: nil when there is nothing to append, otherwise
    a slice of a new array.  The spare capacity of the new array is not
    represented, as nothing reslices it. *)
Definition append_to_nil (A : Type) `{Elem A} (s : slice) (h : heap) : slice * heap :=
  if bool_decide (sl_len s = 0%nat) then (nil_slice, h)
  else new_array A (elements h s) h.

Definition h_CopyBytes (b : slice) (h : heap) : slice * heap := append_to_nil byte b h.

(** [make([]T, 0, n)], with the zero value of [T]. *)
Definition make_empty {A} `{Elem A} (zero : A) (n : nat) (h : heap) : slice * heap :=
  let (l, h) := alloc (inj (replicate n zero)) h in (mkSlice l 0 0, h).

(** [append(s, x)]: in place when the array has room (nothing of the program
    limits a capacity below the array), otherwise in a new array. *)
Definition append_one {A} `{Elem A} (s : slice) (x : A) (h : heap) : slice * heap :=
  let grown := new_array A (elements h s ++ [x]) h in
  match sl_array s with
  | None => grown
  | Some l =>
      match h !! l ≫= prj with
      | Some cells =>
          if bool_decide (sl_off s + sl_len s < length cells)%nat
          then (mkSlice (Some l) (sl_off s) (S (sl_len s)),
                <[l := inj (<[(sl_off s + sl_len s)%nat := x]> cells)]> h)
          else grown
      | None => grown
      end
  end.

(** [if p == nil { return nil_result }], and then code that uses [*p].  A
    pointer that is not nil refers to an object of its type. *)
Definition deref {A B} `{Boxed A} (p : option loc) (nil_result : B)
    (code : A → heap → B * heap) (h : heap) : B * heap :=
  match p with
  | None => (nil_result, h)
  | Some l => match h !! l ≫= unbox with Some a => code a h | None => (nil_result, h) end
  end.

(** [for i, a := range src { b, err := body(i, a); if err != nil { return err };
    out = append(out, b) }]: the elements are read as the loop reaches them. *)
Fixpoint range_append {A B} `{Elem A, Elem B} (body : nat → A → heap → (B * error) * heap)
    (src : slice) (idx : list nat) (out : slice) (h : heap) : (slice * error) * heap :=
  match idx with
  | [] => ((out, None), h)
  | i :: idx =>
      match elements (A := A) h src !! i with
      | None => ((out, None), h)
      | Some a =>
          match body i a h with
          | ((_, Some e), h) => ((nil_slice, Some e), h)
          | ((b, None), h) =>
              let (out, h) := append_one out b h in range_append body src idx out h
          end
      end
  end.

(** [out := make([]B, 0, len(src))] and the loop. *)
Definition collect_range {A B} `{Elem A, Elem B} (zero : B)
    (body : nat → A → heap → (B * error) * heap) (src : slice) (h : heap) :
    (slice * error) * heap :=
  let (out, h) := make_empty zero (sl_len src) h in
  range_append body src (seq 0 (sl_len src)) out h.
