(* ===== verification/Owned.v ===== *)
(** * Ownership of memory: the interface of copying code

    [Owned A V]: a heap value of type [A] stands for a domain value of type
    [V] and refers to certain objects.  [converts g f]: the code [f] returns a
    value that stands for the image under [g] of what its argument stands for,
    leaves every existing object as it was, and refers to new objects only.
    The lemmas build [converts] for a function from its parts: pairs, structs,
    pointers, fallible code, and loops that append to a new slice. *)

From S2P Require Import Prelude GoErrors GoStd WireTypes PbCommon PbControl ControlTypes Heap.

(** ** Ownership

    A type of heap values has the objects it refers to ([o_fp]), the value it
    stands for ([o_abs]) and a well-formedness condition (no dangling
    reference), which depend on those objects only. *)
Class Owned (A V : Type) := {
  o_wf : heap → A → Prop;
  o_fp : heap → A → gset loc;
  o_abs : heap → A → V;
  o_dom : ∀ h a, o_wf h a → o_fp h a ⊆ dom h;
  o_local : ∀ h h2 a, o_wf h a → (∀ l, l ∈ o_fp h a → h2 !! l = h !! l) →
    o_wf h2 a ∧ o_fp h2 a = o_fp h a ∧ o_abs h2 a = o_abs h a }.

(** [r] is a value and the heap after code that ran in [h]: the heap extends
    [h], and the value stands for [w] and refers to new objects only. *)
Definition returns {B W} `{Owned B W} (h : heap) (w : W) (r : B * heap) : Prop :=
  h ⊆ r.2 ∧ o_wf (V := W) r.2 r.1 ∧ o_abs r.2 r.1 = w ∧ o_fp (V := W) r.2 r.1 ## dom h.

Definition converts {A B V W} `{Owned A V, Owned B W} (g : V → W) (f : A → heap → B * heap) :
    Prop :=
  ∀ h a, o_wf (V := V) h a → returns h (g (o_abs h a)) (f a h).

Definition clones {A B V} `{Owned A V, Owned B V} (clone : A → heap → B * heap) : Prop :=
  converts (λ v : V, v) clone.

(** What this means to the caller: whatever is later written to objects that
    existed before the call does not change the result, and whatever is
    written to the new objects does not change the argument. *)
Definition isolates {A B V W} `{Owned A V, Owned B W} (g : V → W) (f : A → heap → B * heap) :
    Prop :=
  ∀ h a, o_wf (V := V) h a →
    let r := f a h in
    o_abs r.2 r.1 = g (o_abs h a) ∧
    (∀ h2, (∀ l, l ∉ dom h → h2 !! l = r.2 !! l) → o_abs h2 r.1 = g (o_abs h a)) ∧
    (∀ h2, (∀ l, l ∈ dom h → h2 !! l = r.2 !! l) → o_abs (V := V) h2 a = o_abs h a).

Definition independent {A B V} `{Owned A V, Owned B V} (clone : A → heap → B * heap) : Prop :=
  isolates (λ v : V, v) clone.

Section owned.
Context {A V : Type} `{Owned A V}.

Lemma o_weaken h h2 (a : A) :
  h ⊆ h2 → o_wf (V := V) h a →
  o_wf (V := V) h2 a ∧ o_fp (V := V) h2 a = o_fp (V := V) h a ∧
  o_abs (V := V) h2 a = o_abs h a.
Proof.
  intros Hsub Ha. apply o_local; [done|]. intros l Hl.
  apply o_dom in Ha. apply Ha, elem_of_dom in Hl as [o Ho].
  rewrite Ho. by eapply lookup_weaken.
Qed.

Lemma converts_isolates {B W} `{Owned B W} (g : V → W) (f : A → heap → B * heap) :
  converts g f → isolates g f.
Proof.
  intros Hc h a Ha. destruct (Hc h a Ha) as (Hsub & Hwf & Habs & Hfp).
  cbv zeta. split; [done|]. split; intros h2 Hh2.
  - rewrite <- Habs. apply o_local; [done|]. intros l Hl. apply Hh2. set_solver.
  - apply o_local; [done|]. intros l Hl. apply o_dom in Ha. apply Ha in Hl.
    rewrite Hh2 by done. apply elem_of_dom in Hl as [o Ho].
    rewrite Ho. by eapply lookup_weaken.
Qed.
End owned.

(** *** Values without references *)

Section flat.
Context {A : Type}.
Definition flat_owned : Owned A A.
Proof.
  refine {| o_wf _ _ := True; o_fp _ _ := ∅; o_abs _ a := a |}; [set_solver|done].
Defined.
End flat.

(** An error, and an array that is a value of its own ([[16]byte]), refer to
    nothing. *)
#[export] Instance error_owned : Owned error error := flat_owned.
Definition MutationID_owned : Owned MutationID MutationID := flat_owned.

(** *** Slices and pointers *)

Section slices.
Context {A : Type} `{Elem A}.

Definition slice_wf (h : heap) (s : slice) : Prop :=
  match sl_array s with
  | None => sl_len s = 0%nat
  | Some l => ∃ cells : list A,
      h !! l ≫= prj = Some cells ∧ (sl_off s + sl_len s <= length cells)%nat
  end.

Definition slice_fp (s : slice) : gset loc :=
  match sl_array s with None => ∅ | Some l => {[l]} end.

Lemma slice_dom h s : slice_wf h s → slice_fp s ⊆ dom h.
Proof.
  destruct s as [[l|] off len]; cbn; [|set_solver].
  intros (cells & Hc & _). destruct (h !! l) eqn:E; [|done].
  apply singleton_subseteq_l, elem_of_dom. by eexists.
Qed.

Lemma slice_local h h2 s :
  slice_wf h s → (∀ l, l ∈ slice_fp s → h2 !! l = h !! l) →
  slice_wf h2 s ∧ slice_fp s = slice_fp s ∧ elements (A := A) h2 s = elements h s.
Proof.
  destruct s as [[l|] off len]; unfold slice_wf, elements; cbn; [|done].
  intros Hs Hl. by rewrite Hl by set_solver.
Qed.

Lemma length_elements h s : slice_wf h s → length (elements (A := A) h s) = sl_len s.
Proof.
  destruct s as [[l|] off len].
  - intros (cells & Hc & Hl). unfold elements. cbn. rewrite Hc.
    rewrite length_take, length_drop. cbn in *. lia.
  - by intros ->.
Qed.
End slices.

#[export] Instance slice_owned {A} `{Elem A} : Owned slice (list A) :=
  {| o_wf := slice_wf (A := A); o_fp _ := slice_fp; o_abs := elements;
     o_dom := slice_dom; o_local := slice_local |}.

(** A slice whose elements refer to memory themselves. *)
Section arrays.
Context {A V : Type} `{Elem A, Owned A V}.

Definition elems_fp (h : heap) (es : list A) : gset loc := ⋃ (map (o_fp (V := V) h) es).

Lemma elems_dom h es : Forall (o_wf (V := V) h) es → elems_fp h es ⊆ dom h.
Proof.
  unfold elems_fp. induction 1 as [|e es He _ IH]; cbn; [set_solver|].
  apply o_dom in He. set_solver.
Qed.

Lemma elems_local h h2 es :
  Forall (o_wf (V := V) h) es → (∀ l, l ∈ elems_fp h es → h2 !! l = h !! l) →
  Forall (o_wf (V := V) h2) es ∧ elems_fp h2 es = elems_fp h es ∧
  map (o_abs (V := V) h2) es = map (o_abs h) es.
Proof.
  unfold elems_fp. induction 1 as [|e es He _ IH]; intros Hl; [done|]. cbn in *.
  destruct (o_local h h2 e He) as (? & -> & ->); [set_solver|].
  destruct IH as (? & -> & ->); [set_solver|]. split; [by constructor|done].
Qed.

Definition array_wf (h : heap) (s : slice) : Prop :=
  slice_wf (A := A) h s ∧ Forall (o_wf (V := V) h) (elements h s).
Definition array_fp (h : heap) (s : slice) : gset loc :=
  slice_fp s ∪ elems_fp h (elements h s).
Definition array_abs (h : heap) (s : slice) : list V := map (o_abs h) (elements (A := A) h s).

Lemma array_dom h s : array_wf h s → array_fp h s ⊆ dom h.
Proof. intros [Hs%slice_dom He%elems_dom]. unfold array_fp. set_solver. Qed.

Lemma array_local h h2 s :
  array_wf h s → (∀ l, l ∈ array_fp h s → h2 !! l = h !! l) →
  array_wf h2 s ∧ array_fp h2 s = array_fp h s ∧ array_abs h2 s = array_abs h s.
Proof.
  intros [Hs He] Hl. unfold array_wf, array_fp, array_abs in *.
  destruct (slice_local h h2 s Hs) as (Hw & _ & ->); [set_solver|].
  destruct (elems_local h h2 _ He) as (? & -> & ->); [set_solver|]. done.
Qed.

Definition array_owned : Owned slice (list V) :=
  {| o_wf := array_wf; o_fp := array_fp; o_abs := array_abs;
     o_dom := array_dom; o_local := array_local |}.
End arrays.
Arguments array_owned A {V _ _}.

Section pointers.
Context {A V : Type} `{Boxed A, Owned A V}.

Definition ptr_wf (h : heap) (p : option loc) : Prop :=
  match p with None => True | Some l => ∃ a, h !! l ≫= unbox = Some a ∧ o_wf (V := V) h a end.
Definition ptr_fp (h : heap) (p : option loc) : gset loc :=
  match p with
  | None => ∅
  | Some l => {[l]} ∪ match h !! l ≫= unbox with Some a => o_fp (V := V) h a | None => ∅ end
  end.
Definition ptr_abs (h : heap) (p : option loc) : option V :=
  match p with
  | None => None
  | Some l => match h !! l ≫= unbox with Some a => Some (o_abs h a) | None => None end
  end.

Lemma ptr_dom h p : ptr_wf h p → ptr_fp h p ⊆ dom h.
Proof.
  destruct p as [l|]; [|set_solver]. intros (a & Ha & Hw). cbn. rewrite Ha.
  apply o_dom in Hw. destruct (h !! l) eqn:E; [|done].
  assert (l ∈ dom h) by (apply elem_of_dom; by eexists). set_solver.
Qed.

Lemma ptr_local h h2 p :
  ptr_wf h p → (∀ l, l ∈ ptr_fp h p → h2 !! l = h !! l) →
  ptr_wf h2 p ∧ ptr_fp h2 p = ptr_fp h p ∧ ptr_abs h2 p = ptr_abs h p.
Proof.
  destruct p as [l|]; [|done]. cbn. intros (a & Ha & Hw) Hl. rewrite Ha in Hl.
  rewrite (Hl l) by set_solver. rewrite Ha.
  destruct (o_local h h2 a Hw) as (? & -> & ->); [set_solver|]. split; [by exists a|done].
Qed.

Definition ptr_owned : Owned (option loc) (option V) :=
  {| o_wf := ptr_wf; o_fp := ptr_fp; o_abs := ptr_abs; o_dom := ptr_dom; o_local := ptr_local |}.
End pointers.
Arguments ptr_owned A {V _ _}.

#[export] Instance version_owned : Owned (option loc) (option VersionTag) :=
  ptr_owned VersionTag (H0 := flat_owned).
#[export] Instance pb_version_owned : Owned (option loc) (option pb_VersionTag) :=
  ptr_owned pb_VersionTag (H0 := flat_owned).

(** *** Structs: a struct owns what its parts own *)

Section pairs.
Context {A B V W : Type} `{Owned A V, Owned B W}.

Lemma pair_dom h (p : A * B) :
  o_wf (V := V) h p.1 ∧ o_wf (V := W) h p.2 →
  o_fp (V := V) h p.1 ∪ o_fp (V := W) h p.2 ⊆ dom h.
Proof. intros [Ha Hb]. apply o_dom in Ha, Hb. set_solver. Qed.

Lemma pair_local h h2 (p : A * B) :
  o_wf (V := V) h p.1 ∧ o_wf (V := W) h p.2 →
  (∀ l, l ∈ o_fp (V := V) h p.1 ∪ o_fp (V := W) h p.2 → h2 !! l = h !! l) →
  (o_wf (V := V) h2 p.1 ∧ o_wf (V := W) h2 p.2) ∧
  o_fp (V := V) h2 p.1 ∪ o_fp (V := W) h2 p.2 = o_fp (V := V) h p.1 ∪ o_fp (V := W) h p.2 ∧
  (o_abs (V := V) h2 p.1, o_abs (V := W) h2 p.2) = (o_abs h p.1, o_abs h p.2).
Proof.
  intros [Ha Hb] Hl.
  destruct (o_local h h2 p.1 Ha) as (? & -> & ->); [set_solver|].
  destruct (o_local h h2 p.2 Hb) as (? & -> & ->); [set_solver|]. done.
Qed.

#[export] Instance pair_owned : Owned (A * B) (V * W) :=
  {| o_wf h p := o_wf (V := V) h p.1 ∧ o_wf (V := W) h p.2;
     o_fp h p := o_fp (V := V) h p.1 ∪ o_fp (V := W) h p.2;
     o_abs h p := (o_abs h p.1, o_abs h p.2);
     o_dom := pair_dom; o_local := pair_local |}.
End pairs.

Section via.
Context {S P V W : Type} `{Owned P W} (parts : S → P) (view : S → W → V).

Lemma via_local h h2 (s : S) :
  o_wf (V := W) h (parts s) →
  (∀ l, l ∈ o_fp (V := W) h (parts s) → h2 !! l = h !! l) →
  o_wf (V := W) h2 (parts s) ∧ o_fp (V := W) h2 (parts s) = o_fp (V := W) h (parts s) ∧
  view s (o_abs h2 (parts s)) = view s (o_abs h (parts s)).
Proof. intros Hs Hl. destruct (o_local h h2 _ Hs Hl) as (? & -> & ->). done. Qed.

(** [S] is a struct whose references are [parts]. *)
Definition owned_via : Owned S V :=
  {| o_wf h s := o_wf (V := W) h (parts s);
     o_fp h s := o_fp (V := W) h (parts s);
     o_abs h s := view s (o_abs h (parts s));
     o_dom h s := o_dom h (parts s); o_local := via_local |}.
End via.

(** ** Building [converts] from the parts of a function *)

Lemma fresh_dom (h : heap) : h !! fresh (dom h) = None.
Proof. apply not_elem_of_dom, is_fresh. Qed.

Lemma insert_fresh (h : heap) o : h ⊆ <[fresh (dom h) := o]> h.
Proof. apply insert_subseteq, fresh_dom. Qed.

(** A value without references, in a heap that has grown. *)
Lemma returns_flat {B W} `{Owned B W} (h h' : heap) (b : B) (w : W) :
  h ⊆ h' → o_wf (V := W) h' b → o_abs h' b = w → o_fp (V := W) h' b = ∅ → returns h w (b, h').
Proof. intros Hsub Hw Ha Hf. split_and!; cbn; [done..|]. rewrite Hf. set_solver. Qed.

(** The code runs on in a heap that has grown. *)
Lemma returns_after {B W} `{Owned B W} (h h1 : heap) (w : W) (r : B * heap) :
  h ⊆ h1 → returns h1 w r → returns h w r.
Proof.
  intros Hsub (Hs & Hw & Ha & Hf). split_and!; [by etransitivity|done..|].
  apply subseteq_dom in Hsub. set_solver.
Qed.

(** Two results, the second computed after the first. *)
Lemma returns_pair {A B V W} `{Owned A V, Owned B W} (h : heap) v w (r1 : A * heap) (r2 : B * heap) :
  returns h v r1 → returns r1.2 w r2 → returns h (v, w) ((r1.1, r2.1), r2.2).
Proof.
  intros (Hs1 & Hw1 & Ha1 & Hf1) (Hs2 & Hw2 & Ha2 & Hf2).
  destruct (o_weaken _ _ _ Hs2 Hw1) as (Hw & Hf & Ha).
  apply subseteq_dom in Hs1 as Hd1.
  split_and!; cbn; [by etransitivity|done|by rewrite Ha, Ha1, Ha2|set_solver].
Qed.

Lemma converts_pair {A A' B B' V V' W W'} `{Owned A V, Owned A' V', Owned B W, Owned B' W'}
    (g1 : V → V') (g2 : W → W') (f1 : A → heap → A' * heap) (f2 : B → heap → B' * heap) :
  converts g1 f1 → converts g2 f2 →
  converts (λ p, (g1 p.1, g2 p.2)) (λ p h,
    let (a, h) := f1 p.1 h in let (b, h) := f2 p.2 h in ((a, b), h)).
Proof.
  intros Hf Hg h [a b] [Ha Hb]. cbn in Ha, Hb |- *.
  pose proof (Hf h a Ha) as Hr1. destruct (f1 a h) as [a' h1].
  destruct (o_weaken h h1 b (proj1 Hr1) Hb) as (Hb1 & _ & <-).
  pose proof (Hg h1 b Hb1) as Hr2. destruct (f2 b h1) as [b' h2].
  exact (returns_pair h _ _ (a', h1) (b', h2) Hr1 Hr2).
Qed.

(** A function that converts the references of a struct and builds a struct of
    the results. *)
Lemma converts_via {S S' P P' V V' W W'} `{Owned P W, Owned P' W'}
    (parts : S → P) (view : S → W → V) (parts' : S' → P') (view' : S' → W' → V')
    (gp : W → W') (G : V → V') (f : P → heap → P' * heap) (g : S → heap → S' * heap) :
  converts gp f →
  (∀ h s, (g s h).2 = (f (parts s) h).2 ∧ parts' (g s h).1 = (f (parts s) h).1 ∧
          ∀ w, view' (g s h).1 (gp w) = G (view s w)) →
  @converts S S' V V' (owned_via parts view) (owned_via parts' view') G g.
Proof.
  intros Hf Hg h s Hs. destruct (Hf h (parts s) Hs) as (Hsub & Hwf & Habs & Hfp).
  destruct (Hg h s) as (Eh & Ep & Ev).
  unfold returns. cbn. rewrite Eh, Ep, Habs, Ev. done.
Qed.

(** A pointer to a new variable that holds a result. *)
Lemma returns_alloc {B W} `{Boxed B, Owned B W} (h h1 : heap) (w : W) (b : B) :
  returns h w (b, h1) → @returns _ _ (ptr_owned B) h (Some w) (new_var b h1).
Proof.
  intros (Hsub & Hw & <- & Hfp). cbn in *. unfold new_var, alloc. set (l := fresh (dom h1)).
  destruct (o_weaken h1 (<[l := box b]> h1) b (insert_fresh _ _) Hw) as (Hw2 & Hf2 & Ha2).
  assert (<[l := box b]> h1 !! l ≫= unbox = Some b) as Hl
    by (rewrite lookup_insert_eq; cbn; apply unbox_box).
  unfold returns. cbn. rewrite Hl. split_and!.
  - etransitivity; [done|apply insert_fresh].
  - by exists b.
  - by rewrite Ha2.
  - rewrite Hf2. assert (l ∉ dom h1) by apply is_fresh. apply subseteq_dom in Hsub. set_solver.
Qed.

Lemma returns_new {A} `{Boxed A} (h : heap) (a : A) :
  @returns _ _ (ptr_owned A (H0 := flat_owned)) h (Some a) (new_var a h).
Proof. apply (@returns_alloc A A _ flat_owned). by apply returns_flat. Qed.

Lemma new_var_converts {A} `{Boxed A} :
  @converts A _ A _ flat_owned (ptr_owned A (H0 := flat_owned)) Some new_var.
Proof. intros h a _. apply returns_new. Qed.

Lemma converts_deref {A B V W} `{Boxed A, Owned A V, Owned B W} (g : option V → W)
    (nil_result : B) (code : A → heap → B * heap) :
  (∀ h, returns h (g None) (nil_result, h)) → converts (λ v, g (Some v)) code →
  @converts _ _ _ _ (ptr_owned A) _ g (λ p h, deref p nil_result code h).
Proof.
  intros Hnil Hc h [l|] Hp; [|apply Hnil]. destruct Hp as (a & Ha & Hw). cbn. rewrite Ha.
  by apply Hc.
Qed.

(** Code that ends in [return out, out.Validate()]: the validator reads what
    the result stands for. *)
Lemma returns_validated {B W} `{Owned B W} (validate : W → error) (h h1 : heap) (w : W) (b : B) :
  returns h w (b, h1) → returns h (w, validate w) ((b, validate (o_abs h1 b)), h1).
Proof.
  intros (Hsub & Hw & <- & Hfp). split_and!; cbn; [done..|set_solver].
Qed.

(** Code that cannot fail, as the body of a loop. *)
Lemma returns_ok {B W} `{Owned B W} (h : heap) (w : W) (r : B * heap) :
  returns h w r → returns (B := B * error) h (w, None) (let (b, h) := r in ((b, None), h)).
Proof. destruct r. apply (returns_validated (λ _, None)). Qed.

(** A struct of results. *)
Lemma returns_struct {S P V W} `{Owned P W} (parts : S → P) (view : S → W → V) (h h1 : heap)
    (w : W) (v : V) (s : S) :
  returns h w (parts s, h1) → view s w = v → @returns _ _ (owned_via parts view) h v (s, h1).
Proof. intros (Hsub & Hw & <- & Hfp) <-. by split_and!. Qed.

(** A call in a heap that has grown. *)
Lemma converts_later {A B V W} `{Owned A V, Owned B W} {g : V → W} {f : A → heap → B * heap}
    {C U} `{Owned C U} {h h1 : heap} {u : U} {c : C} (a : A) :
  converts g f → returns h u (c, h1) → o_wf (V := V) h a →
  returns h1 (g (o_abs h a)) (f a h1).
Proof.
  intros Hc [Hsub _] Ha. destruct (o_weaken h h1 a Hsub Ha) as (Ha1 & _ & <-). by apply Hc.
Qed.

Lemma new_array_returns A `{Elem A} (cells : list A) (h : heap) :
  returns h cells (new_array A cells h).
Proof.
  unfold new_array, alloc. set (l := fresh (dom h)).
  assert (<[l := inj cells]> h !! l ≫= prj = Some cells) as Hl
    by (by rewrite lookup_insert_eq; cbn; rewrite prj_inj).
  split_and!; cbn.
  - apply insert_fresh.
  - exists cells. split; [done|]. cbn. lia.
  - unfold elements. cbn [sl_array sl_off sl_len]. rewrite Hl. cbn. by apply take_ge.
  - pose proof (fresh_dom h). apply disjoint_singleton_l, not_elem_of_dom. done.
Qed.

Lemma new_array_converts A `{Elem A} :
  @converts _ _ _ _ flat_owned slice_owned (λ cells, cells) (new_array A).
Proof. intros h cells _. apply new_array_returns. Qed.

Lemma append_to_nil_clones A `{Elem A} : clones (V := list A) (append_to_nil A).
Proof.
  intros h s Hs. pose proof (length_elements h s Hs) as Hlen.
  unfold append_to_nil. case_bool_decide as Hz; [|apply new_array_returns].
  apply returns_flat; [done|done| |done]. symmetry. apply length_zero_iff_nil. cbn. lia.
Qed.

Lemma h_CopyBytes_clones : clones (V := bytes) h_CopyBytes.
Proof. apply append_to_nil_clones. Qed.

(** ** Loops that fill a new array *)

Lemma insert_at {A} (front back : list A) (x y : A) (i : nat) :
  length front = i → <[i := x]> (front ++ y :: back) = front ++ x :: back.
Proof. intros <-. by rewrite insert_app_r_alt, Nat.sub_diag. Qed.

Section building.
(** The heap before the call, and the array being filled. *)
Context (h : heap) (l : loc) (Hl : l ∉ dom h).

Definition keeps (hk hk' : heap) : Prop := ∀ l', l' ≠ l → l' ∈ dom hk → hk' !! l' = hk !! l'.

Lemma keeps_dom hk hk' : keeps hk hk' → l ∈ dom hk' → dom hk ⊆ dom hk'.
Proof.
  intros Hk Hin l' Hl'. destruct (decide (l' = l)) as [->|]; [done|].
  apply elem_of_dom. rewrite Hk by done. by apply elem_of_dom.
Qed.

Lemma keeps_subseteq hk hk' : h ⊆ hk → keeps hk hk' → h ⊆ hk'.
Proof.
  intros Hsub Hk. apply map_subseteq_spec. intros l' o Ho.
  assert (l' ∈ dom h) by (apply elem_of_dom; by eexists).
  rewrite Hk; [by eapply lookup_weaken|set_solver|].
  apply subseteq_dom in Hsub. set_solver.
Qed.

Context {B W : Type} `{Owned B W}.

(** In heap [hk], [b] stands for [w], in memory of its own. *)
Definition placed (hk : heap) (w : W) (b : B) : Prop :=
  o_wf (V := W) hk b ∧ o_abs hk b = w ∧ o_fp (V := W) hk b ## {[l]} ∪ dom h.

Lemma placed_keeps hk hk' w b : placed hk w b → keeps hk hk' → placed hk' w b.
Proof.
  intros (Hw & <- & Hd) Hk.
  destruct (o_local hk hk' b Hw) as (Hw' & Hf & Ha).
  { intros l' Hl'. apply o_dom in Hw as Hdom. apply Hk; set_solver. }
  split; [done|]. split; [done|]. by rewrite Hf.
Qed.

Lemma all_placed_keeps hk hk' ws bs :
  Forall2 (placed hk) ws bs → keeps hk hk' → Forall2 (placed hk') ws bs.
Proof. intros Hall Hk. induction Hall; constructor; [by eapply placed_keeps|done]. Qed.

(** A value is computed, and something is written to the array. *)
Lemma place hk w b h2 o :
  h ⊆ hk → l ∈ dom hk → returns hk w (b, h2) →
  h2 !! l = hk !! l ∧ keeps hk (<[l := o]> h2) ∧ placed (<[l := o]> h2) w b.
Proof.
  intros Hsub Hin (Hsub2 & Hw & Ha & Hf). cbn in Hsub2, Hw, Ha, Hf.
  assert (∀ l', l' ∈ dom hk → h2 !! l' = hk !! l') as Hsame.
  { intros l' [o' Ho']%elem_of_dom. rewrite Ho'. by eapply lookup_weaken. }
  split; [by apply Hsame|]. split.
  { intros l' Hne Hin'. rewrite lookup_insert_ne by done. by apply Hsame. }
  apply subseteq_dom in Hsub. destruct (o_local h2 (<[l := o]> h2) b Hw) as (Hw3 & Hf3 & Ha3).
  { intros l' Hl'. apply lookup_insert_ne. set_solver. }
  split; [done|]. rewrite Ha3, Hf3. split; [done|set_solver].
Qed.

(** The filled array, possibly with room after its elements. *)
Lemma filled `{Elem B} hk ws bs room n :
  h ⊆ hk → hk !! l = Some (inj (bs ++ room)) → n = length bs → Forall2 (placed hk) ws bs →
  @returns _ _ (array_owned B) h ws (mkSlice (Some l) 0 n, hk).
Proof.
  intros Hsub Hk -> Hall.
  assert (elements hk (mkSlice (Some l) 0 (length bs)) = bs) as Hel.
  { unfold elements. cbn [sl_array sl_off sl_len]. rewrite Hk. cbn. rewrite prj_inj.
    rewrite drop_0. apply take_app_length. }
  assert (Forall (o_wf (V := W) hk) bs ∧ map (o_abs hk) bs = ws ∧
    elems_fp hk bs ## dom h) as (Hw & Ha & Hd).
  { unfold elems_fp. clear -Hall. induction Hall as [|w b ws bs (Hw & Ha & Hd) _ (IHw & IHa & IHd)].
    - split_and!; [done|done|set_solver].
    - cbn. rewrite IHa, Ha. split_and!; [by constructor|done|set_solver]. }
  unfold returns. cbn -[elements]. unfold array_wf, array_abs, array_fp. rewrite Hel.
  split_and!; [done| |done|done|cbn; set_solver].
  exists (bs ++ room). cbn. rewrite Hk. cbn. rewrite prj_inj, length_app. split; [done|lia].
Qed.
End building.

Local Open Scope go_scope.

(** What a loop [for i, v := range vs { w, err := g(i, v); ... }] collects. *)
Fixpoint collect {V W} (g : Z → V → W * error) (i : Z) (vs : list V) : list W * error :=
  match vs with
  | [] => ([], None)
  | v :: vs =>
      let? w := g i v or [] in
      let? ws := collect g (i + 1) vs or [] in
      (w :: ws, None)
  end.

Lemma returns_fst {B W} `{Owned B W} (h : heap) (w : W) (e e' : error) (b : B) h2 :
  returns h (w, e) ((b, e'), h2) → returns h w (b, h2) ∧ e' = e.
Proof.
  intros (Hs & [Hw _] & Ha & Hf). cbn in *. injection Ha as Ha ->.
  split; [|done]. split_and!; [done..|set_solver].
Qed.

Section range.
Context {A V B W : Type} `{Elem A, Owned A V, Elem B, Owned B W}.
Context (g : Z → V → W * error) (body : nat → A → heap → (B * error) * heap) (zero : B).
Context (Hbody : ∀ i : nat, converts (g (Z.of_nat i)) (body i)).
Context (h : heap) (l : loc) (src : slice) (Hl : l ∉ dom h).
Context (Hsrc : array_wf (A := A) (V := V) h src).

(** The source is read through the heaps of the loop as it was at first. *)
Lemma source_stable hk : h ⊆ hk → elements (A := A) hk src = elements h src.
Proof. intros Hsub. destruct Hsrc as [Hs _]. by destruct (@o_weaken _ _ slice_owned h hk src Hsub Hs) as (_ & _ & ?). Qed.

Lemma source_element hk a :
  h ⊆ hk → a ∈ elements (A := A) h src →
  o_wf (V := V) hk a ∧ o_abs hk a = o_abs h a.
Proof.
  intros Hsub Ha. destruct Hsrc as [_ Hs]. rewrite list.Forall_forall in Hs.
  by destruct (o_weaken h hk a Hsub (Hs a Ha)) as (? & _ & ?).
Qed.

(** The outcome of the rest of the loop, when [done] has been appended. *)
Definition loop_result (ws : list W) (bs : list B) (res : list W * error)
    (r : (slice * error) * heap) : Prop :=
  h ⊆ r.2 ∧
  match res with
  | (ws', None) => ∃ bs', r.1 = (mkSlice (Some l) 0 (sl_len src), None) ∧
      r.2 !! l = Some (inj (bs ++ bs')) ∧ Forall2 (placed h l r.2) (ws ++ ws') (bs ++ bs')
  | (_, Some e) => r.1 = (nil_slice, Some e)
  end.

Lemma range_append_run (n : nat) : ∀ front todo hk ws bs,
  elements (A := A) h src = front ++ todo → length todo = n → length bs = length front →
  h ⊆ hk → hk !! l = Some (inj (bs ++ replicate n zero)) → Forall2 (placed h l hk) ws bs →
  loop_result ws bs (collect g (Z.of_nat (length front)) (map (o_abs h) todo))
    (range_append body src (seq (length front) n) (mkSlice (Some l) 0 (length front)) hk).
Proof.
  destruct Hsrc as [Hs _]. pose proof (length_elements h src Hs) as Hlen.
  induction n as [|n IH]; intros front todo hk ws bs Hel Hn Hbs Hsub Hk Hall.
  { apply length_zero_iff_nil in Hn as ->. rewrite app_nil_r in Hel. rewrite Hel in Hlen.
    cbn. split; [done|]. exists []. rewrite Hlen, !app_nil_r in *. done. }
  destruct todo as [|a todo]; [done|]. injection Hn as Hn. cbn [seq range_append map collect].
  rewrite source_stable, Hel, list_lookup_middle by done.
  destruct (source_element hk a Hsub) as [Hwa Haa]; [rewrite Hel; set_solver|].
  pose proof (Hbody (length front) hk a Hwa) as Hret. rewrite Haa in Hret.
  destruct (g (Z.of_nat (length front)) (o_abs h a)) as [w e] eqn:Eg.
  destruct (body (length front) a hk) as [[b e'] h2].
  apply returns_fst in Hret as [Hret ->]. destruct e as [e|].
  { split; [|done]. destruct Hret as [Hsub2 _]. by etransitivity. }
  set (h3 := <[l := inj (bs ++ b :: replicate n zero)]> h2).
  destruct (place h l Hl hk w b h2 (inj (bs ++ b :: replicate n zero)) Hsub) as (Hl2 & Hkeep & Hp).
  { apply elem_of_dom. by eexists. } { done. }
  assert (append_one (mkSlice (Some l) 0 (length front)) b h2 =
    (mkSlice (Some l) 0 (S (length front)), h3)) as ->.
  { unfold append_one. cbn [sl_array sl_off sl_len]. rewrite Hl2, Hk. cbn. rewrite prj_inj.
    rewrite bool_decide_true by (rewrite length_app, length_cons, length_replicate; lia).
    unfold h3. cbn [replicate]. by rewrite insert_at. }
  destruct (IH (front ++ [a]) todo h3 (ws ++ [w]) (bs ++ [b])) as [Hsub' Hr].
  { by rewrite <- app_assoc. } { done. } { rewrite !length_app. cbn. lia. }
  { by eapply keeps_subseteq. }
  { unfold h3. rewrite lookup_insert_eq, <- app_assoc. done. }
  { apply Forall2_app; [by eapply all_placed_keeps|constructor; [exact Hp|constructor]]. }
  rewrite length_app, Nat.add_1_r in Hsub', Hr. split; [done|].
  replace (Z.of_nat (length front) + 1) with (Z.of_nat (S (length front))) by lia.
  destruct (collect g _ (map _ todo)) as [ws' [e|]]; [done|].
  destruct Hr as (bs' & Hr1 & Hr2 & Hr3). exists (b :: bs').
  rewrite <- !app_assoc in *. done.
Qed.
End range.

Lemma array_nil {A V} `{Elem A, Owned A V} (h : heap) :
  array_wf (A := A) (V := V) h nil_slice ∧ array_fp (A := A) (V := V) h nil_slice = ∅.
Proof.
  split; [by split; [|apply list.Forall_nil]|]. unfold array_fp, elems_fp. cbn. set_solver.
Qed.

Lemma collect_error {V W} (g : Z → V → W * error) (i : Z) (vs : list V) ws e :
  collect g i vs = (ws, Some e) → ws = [].
Proof.
  destruct vs as [|v vs]; cbn; [done|]. destruct (g i v) as [w [?|]]; [by intros [= <- _]|].
  by destruct (collect g (i + 1) vs) as [ws' [?|]]; intros [= <- _].
Qed.

Lemma collect_length {V W} (g : Z → V → W * error) (i : Z) (vs : list V) ws :
  collect g i vs = (ws, None) → length ws = length vs.
Proof.
  revert i ws. induction vs as [|v vs IH]; cbn; intros i ws; [by intros [= <-]|].
  destruct (g i v) as [w [?|]]; [done|].
  destruct (collect g (i + 1) vs) as [ws' [?|]] eqn:E; [done|]. intros [= <-].
  cbn. by rewrite (IH _ _ E).
Qed.

Lemma collect_range_converts {A V B W} `{Elem A, Owned A V, Elem B, Owned B W}
    (g : Z → V → W * error) (body : nat → A → heap → (B * error) * heap) (zero : B) :
  (∀ i : nat, converts (g (Z.of_nat i)) (body i)) →
  @converts _ _ _ _ (array_owned A) (@pair_owned _ _ _ _ (array_owned B) error_owned)
    (collect g 0) (collect_range zero body).
Proof.
  intros Hbody h src Hsrc. pose proof (length_elements h src (proj1 Hsrc)) as Hlen.
  unfold collect_range, make_empty, alloc. set (l := fresh (dom h)).
  set (h1 := <[l := inj (replicate (sl_len src) zero)]> h).
  assert (l ∉ dom h) as Hl by apply is_fresh.
  destruct (range_append_run g body zero Hbody h l src Hl Hsrc (sl_len src) []
    (elements h src) h1 [] []) as [Hsub Hr]; [done..| | |constructor|].
  { apply insert_fresh. } { unfold h1. by rewrite lookup_insert_eq. }
  cbn [length] in Hsub, Hr. cbn [o_abs array_owned]. unfold array_abs.
  change (Z.of_nat 0) with 0 in Hr.
  destruct (range_append body src _ _ h1) as [[out e] hk]. cbn [fst snd] in Hsub, Hr.
  destruct (collect g 0 _) as [ws [e'|]] eqn:Ec.
  - injection Hr as -> ->. apply collect_error in Ec as ->.
    destruct (array_nil (A := B) (V := W) hk) as [Hnw Hnf].
    apply returns_flat; [done|by split|done|]. cbn. rewrite Hnf. set_solver.
  - destruct Hr as (bs & [= -> ->] & Hk & Hall). cbn in Hk, Hall.
    destruct (filled h l Hl hk ws bs [] (sl_len src) Hsub) as (_ & Hw & Ha & Hf); [| |done|].
    { by rewrite app_nil_r. }
    { apply Forall2_length in Hall. apply collect_length in Ec. rewrite length_map in Ec. lia. }
    split_and!; cbn; [done|by split|by rewrite <- Ha|set_solver].
Qed.

(** *** Loops over elements without references *)

Section flat_arrays.
Context {A : Type} `{Elem A}.

Lemma flat_elems_fp (h : heap) (es : list A) : elems_fp (H0 := flat_owned) h es = ∅.
Proof. unfold elems_fp. induction es as [|e es IH]; [done|].
  change (∅ ∪ ⋃ (map (@o_fp A A flat_owned h) es) = ∅). rewrite IH. set_solver.
Qed.

(** A slice of such elements owns its array only. *)
Lemma flat_array (h : heap) (s : slice) :
  (slice_wf (A := A) h s ↔ array_wf (A := A) (H0 := flat_owned) h s) ∧
  array_fp (A := A) (H0 := flat_owned) h s = slice_fp s ∧
  array_abs (A := A) (H0 := flat_owned) h s = elements h s.
Proof.
  unfold array_wf, array_fp, array_abs. rewrite flat_elems_fp. split_and!.
  - split; [|by intros []]. intros Hs. split; [done|]. by apply list.Forall_true.
  - set_solver.
  - apply map_id.
Qed.

Lemma returns_flat_array h (ws : list A) (s : slice) h1 :
  @returns _ _ (array_owned A (H0 := flat_owned)) h ws (s, h1) →
  returns h ws (s, h1).
Proof.
  intros (Hsub & Hw & Ha & Hf). cbn [o_wf o_abs o_fp array_owned fst snd] in *.
  destruct (flat_array h1 s) as (Ew & Ef & Ea). rewrite Ef in Hf. rewrite Ea in Ha.
  split_and!; [done|by apply Ew|done|done].
Qed.
End flat_arrays.

(** A loop over elements without references, and a loop that collects such
    elements. *)
Lemma collect_range_source {A B W} `{Elem A, Elem B, Owned B W} (g : Z → A → W * error)
    (body : nat → A → heap → (B * error) * heap) (zero : B) :
  (∀ i : nat, @converts _ _ _ _ flat_owned _ (g (Z.of_nat i)) (body i)) →
  @converts _ _ _ _ slice_owned (@pair_owned _ _ _ _ (array_owned B) error_owned)
    (collect g 0) (collect_range zero body).
Proof.
  intros Hbody h src Hsrc. destruct (flat_array (A := A) h src) as (Ew & _ & Ea).
  cbn [o_abs slice_owned]. rewrite <- Ea.
  exact (@collect_range_converts A A B W _ flat_owned _ _ g body zero Hbody h src (proj1 Ew Hsrc)).
Qed.

(** A loop whose body cannot fail maps it over the elements. *)
Lemma collect_map {V W} (f : V → W) (i : Z) (vs : list V) :
  collect (λ _ v, (f v, None)) i vs = (map f vs, None).
Proof. revert i. induction vs as [|v vs IH]; intros i; cbn; [done|]. by rewrite IH. Qed.

(** Runs one call of the code: [lem] is the [converts] of the function called,
    [H] the well-formedness of its argument; [prev] describes the call before. *)
Ltac name_call R :=
  cbv beta in R; lazymatch type of R with returns _ _ ?call => destruct call as [? ?] end.
Tactic Notation "run" constr(lem) "on" hyp(H) "as" ident(R) :=
  pose proof (lem _ _ H) as R; name_call R.
Tactic Notation "run" constr(lem) "on" hyp(H) "after" hyp(prev) "as" ident(R) :=
  pose proof (converts_later _ lem prev H) as R; name_call R.
(** The same for an argument [a] without references. *)
Tactic Notation "run" constr(lem) "at" constr(a) "as" ident(R) :=
  lazymatch goal with |- returns ?h _ _ => pose proof (lem h a I) as R end; name_call R.
Tactic Notation "run" constr(lem) "at" constr(a) "after" hyp(prev) "as" ident(R) :=
  lazymatch type of prev with returns _ _ (_, ?h) => pose proof (lem h a I) as R end; name_call R.
