(* ===== verification/Ownership.v ===== *)
(** * Ownership: the Clone methods

    The structs of internal/wire, internal/rpc, internal/control and
    internal/l1 that hold slices or pointers, as they lie on the heap of
    [Heap], with their [Clone] methods and [Fingerprint].  Each is proved to
    return a value that shares no memory with any object that existed before,
    by the lemmas of [Owned]. *)

From S2P Require Import Prelude GoErrors GoStd WireStatus WireProtocol WireTypes WireRecord.
From S2P Require Import RpcTypes RpcDedup L1 ControlTypes Heap Owned.

(** [version := *p; &version] for a non-nil [p]. *)
Definition clone_version (p : option loc) (h : heap) : option loc * heap :=
  deref (A := VersionTag) p None new_var h.

(** ** Structs with slices and pointers, and their Clone methods *)

(** internal/wire *)
Record h_wire_GetRequest := mk_h_wire_GetRequest {
  hwgr_Key : slice; hwgr_MinVersion : option loc }.

Definition wire_GetRequest_Clone (r : h_wire_GetRequest) (h : heap) : h_wire_GetRequest * heap :=
  let (key, h) := h_CopyBytes (hwgr_Key r) h in
  let (version, h) := clone_version (hwgr_MinVersion r) h in
  (mk_h_wire_GetRequest key version, h).

Record h_SetRequest := mk_h_SetRequest {
  hset_Key : slice; hset_Value : slice; hset_TTLMillis : Z; hset_MutationID : MutationID;
  hset_Options : WriteOptions }.

Definition SetRequest_Clone (r : h_SetRequest) (h : heap) : h_SetRequest * heap :=
  let (key, h) := h_CopyBytes (hset_Key r) h in
  let (value, h) := h_CopyBytes (hset_Value r) h in
  (mk_h_SetRequest key value (hset_TTLMillis r) (hset_MutationID r) (hset_Options r), h).

Record h_DeleteRequest := mk_h_DeleteRequest {
  hdr_Key : slice; hdr_MutationID : MutationID; hdr_Options : WriteOptions }.

Definition DeleteRequest_Clone (r : h_DeleteRequest) (h : heap) : h_DeleteRequest * heap :=
  let (key, h) := h_CopyBytes (hdr_Key r) h in
  (mk_h_DeleteRequest key (hdr_MutationID r) (hdr_Options r), h).

(** internal/rpc *)
Record h_rpc_GetRequest := mk_h_rpc_GetRequest {
  hrgr_Key : slice; hrgr_MinVersion : option loc; hrgr_HubGeneration : Z }.

Definition rpc_GetRequest_Clone (m : h_rpc_GetRequest) (h : heap) : h_rpc_GetRequest * heap :=
  let (key, h) := h_CopyBytes (hrgr_Key m) h in
  let (version, h) := clone_version (hrgr_MinVersion m) h in
  (mk_h_rpc_GetRequest key version (hrgr_HubGeneration m), h).

Record h_GetResponse := mk_h_GetResponse {
  hgp_Status : Z; hgp_HubGeneration : Z; hgp_Version : VersionTag; hgp_Value : slice;
  hgp_TTLMillis : Z; hgp_Kind : Z }.

Definition GetResponse_Clone (m : h_GetResponse) (h : heap) : h_GetResponse * heap :=
  let (value, h) := h_CopyBytes (hgp_Value m) h in
  (mk_h_GetResponse (hgp_Status m) (hgp_HubGeneration m) (hgp_Version m) value
     (hgp_TTLMillis m) (hgp_Kind m), h).

Record h_MutationRequest := mk_h_MutationRequest {
  hmr_Op : Z; hmr_Key : slice; hmr_Value : slice; hmr_TTLMillis : Z;
  hmr_MutationID : MutationID; hmr_Mode : Z; hmr_W : Z; hmr_Confirm : Z;
  hmr_Timeout : Z; hmr_HubGeneration : Z }.

Definition MutationRequest_Clone (m : h_MutationRequest) (h : heap) : h_MutationRequest * heap :=
  let (key, h) := h_CopyBytes (hmr_Key m) h in
  let (value, h) := h_CopyBytes (hmr_Value m) h in
  (mk_h_MutationRequest (hmr_Op m) key value (hmr_TTLMillis m) (hmr_MutationID m) (hmr_Mode m)
     (hmr_W m) (hmr_Confirm m) (hmr_Timeout m) (hmr_HubGeneration m), h).

Record h_MutationFingerprint := mk_h_MutationFingerprint {
  hfp_Op : Z; hfp_Key : slice; hfp_Value : slice; hfp_TTLMillis : Z;
  hfp_Mode : Z; hfp_W : Z; hfp_Confirm : Z }.

Definition MutationFingerprint_Clone (f : h_MutationFingerprint) (h : heap) :
    h_MutationFingerprint * heap :=
  let (key, h) := h_CopyBytes (hfp_Key f) h in
  let (value, h) := h_CopyBytes (hfp_Value f) h in
  (mk_h_MutationFingerprint (hfp_Op f) key value (hfp_TTLMillis f) (hfp_Mode f) (hfp_W f)
     (hfp_Confirm f), h).

(** [Fingerprint] retains copies of the request's bytes. *)
Definition h_Fingerprint (req : h_MutationRequest) (h : heap) : h_MutationFingerprint * heap :=
  let (key, h) := h_CopyBytes (hmr_Key req) h in
  let (value, h) := h_CopyBytes (hmr_Value req) h in
  (mk_h_MutationFingerprint (hmr_Op req) key value (hmr_TTLMillis req) (hmr_Mode req)
     (hmr_W req) (hmr_Confirm req), h).

(** internal/l1 *)
Record h_GetResult := mk_h_GetResult {
  hgr_Value : slice; hgr_HubGeneration : Z; hgr_Version : VersionTag; hgr_TTL : Z;
  hgr_Kind : Z; hgr_Status : Z }.

Definition GetResult_Clone (r : h_GetResult) (h : heap) : h_GetResult * heap :=
  let (value, h) := h_CopyBytes (hgr_Value r) h in
  (mk_h_GetResult value (hgr_HubGeneration r) (hgr_Version r) (hgr_TTL r) (hgr_Kind r)
     (hgr_Status r), h).

Record h_Mutation := mk_h_Mutation {
  hmu_Op : l1_Op; hmu_Key : slice; hmu_Value : slice; hmu_TTL : Z; hmu_Options : WriteOptions }.

Definition Mutation_Clone (m : h_Mutation) (h : heap) : h_Mutation * heap :=
  let (key, h) := h_CopyBytes (hmu_Key m) h in
  let (value, h) := h_CopyBytes (hmu_Value m) h in
  (mk_h_Mutation (hmu_Op m) key value (hmu_TTL m) (hmu_Options m), h).

(** internal/control *)
Record h_Hello := mk_h_Hello {
  hhe_NodeID : Z; hhe_Protocol : ProtocolRange; hhe_Subscriptions : slice;
  hhe_ClusterID : string; hhe_ExpectedHubGeneration : Z }.

Definition Hello_Clone (m : h_Hello) (h : heap) : h_Hello * heap :=
  let (subs, h) := append_to_nil StreamWatermark (hhe_Subscriptions m) h in
  (mk_h_Hello (hhe_NodeID m) (hhe_Protocol m) subs (hhe_ClusterID m)
     (hhe_ExpectedHubGeneration m), h).

Record h_Subscribe := mk_h_Subscribe { hsu_HubGeneration : Z; hsu_StreamIDs : slice }.

Definition Subscribe_Clone (m : h_Subscribe) (h : heap) : h_Subscribe * heap :=
  let (ids, h) := append_to_nil Z (hsu_StreamIDs m) h in
  (mk_h_Subscribe (hsu_HubGeneration m) ids, h).

Record h_InvalidationBatch := mk_h_InvalidationBatch {
  hib_StreamID : Z; hib_HubGeneration : Z; hib_Events : slice }.

(** [m.Events[i].Key = wire.CopyBytes(m.Events[i].Key)]: the key of the event
    in the array is replaced by a copy. *)
Definition copy_event_key (events : slice) (i : nat) (h : heap) : heap :=
  match sl_array events, elements (A := h_InvalidationEvent) h events !! i with
  | Some l, Some e =>
      let (key, h) := h_CopyBytes (hev_Key e) h in
      match h !! l with
      | Some (OEvents cells) =>
          <[l := OEvents (<[(sl_off events + i)%nat :=
                    mk_h_InvalidationEvent (hev_StreamSequence e) key (hev_Version e)
                      (hev_Kind e) (hev_MutationID e)]> cells)]> h
      | _ => h
      end
  | _, _ => h
  end.

Definition InvalidationBatch_Clone (m : h_InvalidationBatch) (h : heap) :
    h_InvalidationBatch * heap :=
  let (events, h) := append_to_nil h_InvalidationEvent (hib_Events m) h in
  let h := fold_left (λ h i, copy_event_key events i h) (seq 0 (sl_len events)) h in
  (mk_h_InvalidationBatch (hib_StreamID m) (hib_HubGeneration m) events, h).

(** ** The structs *)

#[export] Instance wire_GetRequest_owned : Owned h_wire_GetRequest wire_GetRequest :=
  owned_via (W := bytes * option VersionTag) (λ r, (hwgr_Key r, hwgr_MinVersion r))
    (λ r w, {| wgr_Key := w.1; wgr_MinVersion := w.2 |}).
#[export] Instance SetRequest_owned : Owned h_SetRequest SetRequest :=
  owned_via (W := bytes * bytes) (λ r, (hset_Key r, hset_Value r))
    (λ r w, {| sr_Key := w.1; sr_Value := w.2; sr_TTLMillis := hset_TTLMillis r;
               sr_MutationID := hset_MutationID r; sr_Options := hset_Options r |}).
#[export] Instance DeleteRequest_owned : Owned h_DeleteRequest DeleteRequest :=
  owned_via (W := bytes) hdr_Key
    (λ r w, {| dr_Key := w; dr_MutationID := hdr_MutationID r; dr_Options := hdr_Options r |}).
#[export] Instance rpc_GetRequest_owned : Owned h_rpc_GetRequest rpc_GetRequest :=
  owned_via (W := bytes * option VersionTag) (λ r, (hrgr_Key r, hrgr_MinVersion r))
    (λ r w, {| rgr_Key := w.1; rgr_MinVersion := w.2;
               rgr_HubGeneration := hrgr_HubGeneration r |}).
#[export] Instance GetResponse_owned : Owned h_GetResponse GetResponse :=
  owned_via (W := bytes) hgp_Value
    (λ r w, {| gp_Status := hgp_Status r; gp_HubGeneration := hgp_HubGeneration r;
               gp_Version := hgp_Version r; gp_Value := w; gp_TTLMillis := hgp_TTLMillis r;
               gp_Kind := hgp_Kind r |}).
#[export] Instance MutationRequest_owned : Owned h_MutationRequest MutationRequest :=
  owned_via (W := bytes * bytes) (λ r, (hmr_Key r, hmr_Value r))
    (λ r w, {| mr_Op := hmr_Op r; mr_Key := w.1; mr_Value := w.2;
               mr_TTLMillis := hmr_TTLMillis r; mr_MutationID := hmr_MutationID r;
               mr_Mode := hmr_Mode r; mr_W := hmr_W r; mr_Confirm := hmr_Confirm r;
               mr_Timeout := hmr_Timeout r; mr_HubGeneration := hmr_HubGeneration r |}).
#[export] Instance MutationFingerprint_owned : Owned h_MutationFingerprint MutationFingerprint :=
  owned_via (W := bytes * bytes) (λ f, (hfp_Key f, hfp_Value f))
    (λ f w, {| fp_Op := hfp_Op f; fp_Key := w.1; fp_Value := w.2;
               fp_TTLMillis := hfp_TTLMillis f; fp_Mode := hfp_Mode f; fp_W := hfp_W f;
               fp_Confirm := hfp_Confirm f |}).
(** A mutation request as the fingerprint taken of it. *)
Definition fingerprint_owned : Owned h_MutationRequest MutationFingerprint :=
  owned_via (W := MutationRequest) id (λ _, Fingerprint).
#[export] Instance GetResult_owned : Owned h_GetResult GetResult :=
  owned_via (W := bytes) hgr_Value
    (λ r w, {| gr_Value := w; gr_HubGeneration := hgr_HubGeneration r;
               gr_Version := hgr_Version r; gr_TTL := hgr_TTL r; gr_Kind := hgr_Kind r;
               gr_Status := hgr_Status r |}).
#[export] Instance Mutation_owned : Owned h_Mutation Mutation :=
  owned_via (W := bytes * bytes) (λ m, (hmu_Key m, hmu_Value m))
    (λ m w, {| mu_Op := hmu_Op m; mu_Key := w.1; mu_Value := w.2; mu_TTL := hmu_TTL m;
               mu_Options := hmu_Options m |}).
#[export] Instance Hello_owned : Owned h_Hello Hello :=
  owned_via (W := list StreamWatermark) hhe_Subscriptions
    (λ m w, {| he_NodeID := hhe_NodeID m; he_Protocol := hhe_Protocol m; he_Subscriptions := w;
               he_ClusterID := hhe_ClusterID m;
               he_ExpectedHubGeneration := hhe_ExpectedHubGeneration m |}).
#[export] Instance Subscribe_owned : Owned h_Subscribe Subscribe :=
  owned_via (W := list Z) hsu_StreamIDs
    (λ m w, {| su_HubGeneration := hsu_HubGeneration m; su_StreamIDs := w |}).

Lemma clone_version_clones : clones (V := option VersionTag) clone_version.
Proof.
  refine (@converts_deref VersionTag _ VersionTag _ _ flat_owned _ (λ v, v) _ _ _ new_var_converts).
  intros h. by apply returns_flat.
Qed.

Lemma two_slices_clone :
  clones (V := bytes * bytes) (λ p h,
    let (a, h) := h_CopyBytes p.1 h in let (b, h) := h_CopyBytes p.2 h in ((a, b), h)).
Proof. apply (converts_pair _ _ _ _ h_CopyBytes_clones h_CopyBytes_clones). Qed.

Lemma key_version_clone :
  clones (V := bytes * option VersionTag) (λ p h,
    let (a, h) := h_CopyBytes p.1 h in let (b, h) := clone_version p.2 h in ((a, b), h)).
Proof. apply (converts_pair _ _ _ _ h_CopyBytes_clones clone_version_clones). Qed.

Ltac clone_steps := repeat (case_match; simplify_eq/=); try done.

Ltac struct_clone parts_clone clone :=
  apply (converts_via _ _ _ _ _ _ _ _ parts_clone); intros h s; unfold clone; cbn;
  clone_steps.

Lemma SetRequest_Clone_clones : clones (V := SetRequest) SetRequest_Clone.
Proof. struct_clone two_slices_clone SetRequest_Clone. Qed.
Lemma wire_GetRequest_Clone_clones : clones (V := wire_GetRequest) wire_GetRequest_Clone.
Proof. struct_clone key_version_clone wire_GetRequest_Clone. Qed.
Lemma DeleteRequest_Clone_clones : clones (V := DeleteRequest) DeleteRequest_Clone.
Proof. struct_clone h_CopyBytes_clones DeleteRequest_Clone. Qed.
Lemma rpc_GetRequest_Clone_clones : clones (V := rpc_GetRequest) rpc_GetRequest_Clone.
Proof. struct_clone key_version_clone rpc_GetRequest_Clone. Qed.
Lemma GetResponse_Clone_clones : clones (V := GetResponse) GetResponse_Clone.
Proof. struct_clone h_CopyBytes_clones GetResponse_Clone. Qed.
Lemma MutationRequest_Clone_clones : clones (V := MutationRequest) MutationRequest_Clone.
Proof. struct_clone two_slices_clone MutationRequest_Clone. Qed.
Lemma MutationFingerprint_Clone_clones :
  clones (V := MutationFingerprint) MutationFingerprint_Clone.
Proof. struct_clone two_slices_clone MutationFingerprint_Clone. Qed.
Lemma GetResult_Clone_clones : clones (V := GetResult) GetResult_Clone.
Proof. struct_clone h_CopyBytes_clones GetResult_Clone. Qed.
Lemma Mutation_Clone_clones : clones (V := Mutation) Mutation_Clone.
Proof. struct_clone two_slices_clone Mutation_Clone. Qed.
Lemma Hello_Clone_clones : clones (V := Hello) Hello_Clone.
Proof. struct_clone (append_to_nil_clones StreamWatermark) Hello_Clone. Qed.
Lemma Subscribe_Clone_clones : clones (V := Subscribe) Subscribe_Clone.
Proof. struct_clone (append_to_nil_clones Z) Subscribe_Clone. Qed.

Lemma h_Fingerprint_clones :
  @clones _ _ MutationFingerprint fingerprint_owned MutationFingerprint_owned h_Fingerprint.
Proof.
  refine (converts_via (λ r, (hmr_Key r, hmr_Value r)) (λ r w, Fingerprint
    {| mr_Op := hmr_Op r; mr_Key := w.1; mr_Value := w.2;
       mr_TTLMillis := hmr_TTLMillis r; mr_MutationID := hmr_MutationID r;
       mr_Mode := hmr_Mode r; mr_W := hmr_W r; mr_Confirm := hmr_Confirm r;
       mr_Timeout := hmr_Timeout r; mr_HubGeneration := hmr_HubGeneration r |})
    _ _ _ _ _ _ two_slices_clone _).
  intros h s. unfold h_Fingerprint. cbn. clone_steps.
Qed.

(** *** Invalidation batches: an array of structs with slices *)

#[export] Instance event_owned : Owned h_InvalidationEvent InvalidationEvent :=
  owned_via (W := bytes) hev_Key
    (λ e w, {| ev_StreamSequence := hev_StreamSequence e; ev_Key := w;
               ev_Version := hev_Version e; ev_Kind := hev_Kind e;
               ev_MutationID := hev_MutationID e |}).
#[export] Instance batch_owned : Owned h_InvalidationBatch InvalidationBatch :=
  owned_via (H := array_owned h_InvalidationEvent) hib_Events
    (λ m w, {| ib_StreamID := hib_StreamID m; ib_HubGeneration := hib_HubGeneration m;
               ib_Events := w |}).

(** The event with its key copied. *)
Definition copied_event (e : h_InvalidationEvent) (h : heap) : h_InvalidationEvent * heap :=
  let (key, h) := h_CopyBytes (hev_Key e) h in
  (mk_h_InvalidationEvent (hev_StreamSequence e) key (hev_Version e) (hev_Kind e)
     (hev_MutationID e), h).

Lemma copied_event_clones : clones (V := InvalidationEvent) copied_event.
Proof. struct_clone h_CopyBytes_clones copied_event. Qed.

Section batch_clone.
(** The heap before the call, and the new array of the clone. *)
Context (h : heap) (l : loc) (n : nat) (Hl : l ∉ dom h).

Lemma copy_event_key_step hk front e back :
  h ⊆ hk → hk !! l = Some (OEvents (front ++ e :: back)) →
  n = length (front ++ e :: back) → o_wf (V := InvalidationEvent) h e →
  ∃ e' hk', copy_event_key (mkSlice (Some l) 0 n) (length front) hk = hk' ∧
    hk' !! l = Some (OEvents (front ++ e' :: back)) ∧ keeps l hk hk' ∧
    placed h l hk' (o_abs h e) e'.
Proof.
  intros Hsub Hk Hn He. unfold copy_event_key. cbn [sl_array sl_off].
  assert (elements (A := h_InvalidationEvent) hk (mkSlice (Some l) 0 n) =
    front ++ e :: back) as ->.
  { unfold elements. cbn [sl_array sl_off sl_len]. rewrite Hk. cbn. by apply take_ge; lia. }
  rewrite list_lookup_middle by done.
  destruct (o_weaken h hk e Hsub He) as (Hew & _ & <-).
  pose proof (copied_event_clones hk e Hew) as Hret. unfold copied_event in Hret.
  destruct (h_CopyBytes (hev_Key e) hk) as [key h2].
  set (e' := mk_h_InvalidationEvent _ key _ _ _) in *.
  destruct (place h l Hl hk (o_abs hk e) e' h2 (OEvents (front ++ e' :: back)) Hsub)
    as (Hl2 & Hkeep & Hp); [apply elem_of_dom; by eexists|exact Hret|].
  rewrite Hl2, Hk. cbn [Nat.add]. rewrite insert_at by done.
  eexists _, _. split; [reflexivity|]. split; [by apply lookup_insert_eq|]. by split.
Qed.

Lemma copy_event_keys_loop todo :
  Forall (o_wf (V := InvalidationEvent) h) todo →
  ∀ front ws hk, h ⊆ hk → hk !! l = Some (OEvents (front ++ todo)) →
  n = length (front ++ todo) → Forall2 (placed h l hk) ws front →
  ∃ new hk',
    fold_left (λ h i, copy_event_key (mkSlice (Some l) 0 n) i h)
      (seq (length front) (length todo)) hk = hk' ∧ h ⊆ hk' ∧
    hk' !! l = Some (OEvents new) ∧ Forall2 (placed h l hk') (ws ++ map (o_abs h) todo) new.
Proof.
  induction 1 as [|e todo He _ IH]; intros front ws hk Hsub Hk Hn Hall.
  { exists front, hk. rewrite app_nil_r in *. done. }
  destruct (copy_event_key_step hk front e todo Hsub Hk Hn He) as (e' & h2 & Heq & H2 & Hk2 & Hp).
  cbn [length seq fold_left]. rewrite Heq.
  destruct (IH (front ++ [e']) (ws ++ [o_abs h e]) h2) as (new & hk' & Hfold & Hsub' & Hnew & Hall').
  { by eapply keeps_subseteq. }
  { by rewrite <- app_assoc. }
  { rewrite <- app_assoc. rewrite length_app in *. done. }
  { apply Forall2_app; [by eapply all_placed_keeps|constructor; [exact Hp|constructor]]. }
  exists new, hk'. rewrite length_app, Nat.add_1_r in Hfold. rewrite <- app_assoc in Hall'. done.
Qed.
End batch_clone.

Lemma InvalidationBatch_Clone_clones : clones (V := InvalidationBatch) InvalidationBatch_Clone.
Proof.
  intros h [st g s] [Hs He]. cbn in Hs, He. pose proof (length_elements h s Hs) as Hlen.
  unfold InvalidationBatch_Clone, append_to_nil, new_array, alloc.
  cbn [hib_Events hib_StreamID hib_HubGeneration].
  case_bool_decide as Hz; cbn [sl_len nil_slice seq fold_left].
  { destruct (array_nil (A := h_InvalidationEvent) (V := InvalidationEvent) h) as [Hw Hf].
    apply returns_flat; [done|done| |done]. cbn -[elements]. f_equal. unfold array_abs.
    by replace (elements (A := h_InvalidationEvent) h s) with (@nil h_InvalidationEvent)
      by (symmetry; apply length_zero_iff_nil; lia). }
  set (l := fresh (dom h)). set (es := elements (A := h_InvalidationEvent) h s) in *.
  assert (l ∉ dom h) as Hl by apply is_fresh.
  destruct (copy_event_keys_loop h l (length es) Hl es He [] [] (<[l := inj es]> h))
    as (new & hk & Hfold & Hsub & Hnew & Hall).
  { apply insert_fresh. } { by rewrite lookup_insert_eq. } { done. } { constructor. }
  cbn [length] in Hfold. rewrite Hfold. cbn [app] in Hall.
  destruct (filled h l Hl hk (map (o_abs h) es) new [] (length es) Hsub) as (_ & Hw & Ha & Hf); [| |done|].
  { by rewrite app_nil_r. }
  { apply Forall2_length in Hall. by rewrite length_map in Hall. }
  split; [done|]. split; [exact Hw|]. split; [|exact Hf].
  exact (f_equal (mkInvalidationBatch st g) Ha).
Qed.

(** C15. Every [Clone] method, and [Fingerprint], is ownership-independent as
    documented: the result stands for the same message, writing to any memory
    that existed before the call (the caller's buffers included) never
    changes the result, and writing to the result never changes the original.
    For a batch this covers the array of events and the key of each event. *)
Theorem Clone_independent :
  independent (V := wire_GetRequest) wire_GetRequest_Clone ∧
  independent (V := SetRequest) SetRequest_Clone ∧
  independent (V := DeleteRequest) DeleteRequest_Clone ∧
  independent (V := rpc_GetRequest) rpc_GetRequest_Clone ∧
  independent (V := GetResponse) GetResponse_Clone ∧
  independent (V := MutationRequest) MutationRequest_Clone ∧
  independent (V := MutationFingerprint) MutationFingerprint_Clone ∧
  @independent _ _ MutationFingerprint fingerprint_owned _ h_Fingerprint ∧
  independent (V := GetResult) GetResult_Clone ∧
  independent (V := Mutation) Mutation_Clone ∧
  independent (V := Hello) Hello_Clone ∧
  independent (V := Subscribe) Subscribe_Clone ∧
  independent (V := InvalidationBatch) InvalidationBatch_Clone.
Proof.
  split_and!; apply converts_isolates.
  - apply wire_GetRequest_Clone_clones.
  - apply SetRequest_Clone_clones.
  - apply DeleteRequest_Clone_clones.
  - apply rpc_GetRequest_Clone_clones.
  - apply GetResponse_Clone_clones.
  - apply MutationRequest_Clone_clones.
  - apply MutationFingerprint_Clone_clones.
  - apply h_Fingerprint_clones.
  - apply GetResult_Clone_clones.
  - apply Mutation_Clone_clones.
  - apply Hello_Clone_clones.
  - apply Subscribe_Clone_clones.
  - apply InvalidationBatch_Clone_clones.
Qed.

(** [CopyBytes] preserves nil, as documented: the copy of a slice is nil
    exactly when the slice is empty (so an empty slice that is not nil is
    copied to nil), it has the same bytes, and it leaves every existing
    object as it was. *)
Lemma CopyBytes_nil (b : slice) (h : heap) :
  slice_wf (A := byte) h b →
  let r := h_CopyBytes b h in
  (r.1 = nil_slice ↔ sl_len b = 0%nat) ∧
  elements (A := byte) r.2 r.1 = CopyBytes (elements h b) ∧ h ⊆ r.2.
Proof.
  intros Hb. destruct (h_CopyBytes_clones h b Hb) as (Hsub & _ & Ha & _).
  cbv zeta. split; [|done]. unfold h_CopyBytes, append_to_nil. by case_bool_decide.
Qed.
