(* ===== verification/RpcOwnership.v ===== *)
(** * The data-plane conversions on a shared heap (internal/rpc/convert.go)

    The conversions of the messages that hold slices or pointers, with the
    memory they allocate and read.  The protobuf message on the other side
    belongs to the transport, which may reuse its buffers; the conversions are
    proved to compute the functions of [RpcConvert] and to share no memory
    with their argument.  A protobuf message is handled through a pointer.
    The conversions of the other messages copy plain fields only. *)

From S2P Require Import Prelude GoErrors GoStd WireStatus WireProtocol WireTypes WireRecord.
From S2P Require Import PbCommon PbData PbControl RpcTypes Codec RpcConvert ControlTypes.
From S2P Require Import Heap Owned Ownership.

Local Open Scope go_scope.

(** ** What the generated structs stand for *)

#[export] Instance pb_id_owned : Owned h_pb_MutationID pb_MutationID :=
  owned_via (W := bytes) hpi_Id (λ _ w, {| pb_MutationID_Id := w |}).
#[export] Instance pb_id_ptr : Owned (option loc) (option pb_MutationID) :=
  ptr_owned h_pb_MutationID.

#[export] Instance pb_get_request_owned : Owned h_pb_GetRequest pb_GetRequest :=
  owned_via (W := bytes * option pb_VersionTag) (λ m, (hpgq_Key m, hpgq_MinVersion m))
    (λ m w, {| pb_GetRequest_Key := w.1; pb_GetRequest_MinVersion := w.2;
               pb_GetRequest_HubGeneration := hpgq_HubGeneration m |}).
#[export] Instance pb_get_request_ptr : Owned (option loc) (option pb_GetRequest) :=
  ptr_owned h_pb_GetRequest.

#[export] Instance pb_get_response_owned : Owned h_pb_GetResponse pb_GetResponse :=
  owned_via (W := option pb_VersionTag * bytes) (λ m, (hpgp_Version m, hpgp_Value m))
    (λ m w, {| pb_GetResponse_Status := hpgp_Status m;
               pb_GetResponse_HubGeneration := hpgp_HubGeneration m;
               pb_GetResponse_Version := w.1; pb_GetResponse_Value := w.2;
               pb_GetResponse_TtlMillis := hpgp_TtlMillis m;
               pb_GetResponse_Kind := hpgp_Kind m |}).
#[export] Instance pb_get_response_ptr : Owned (option loc) (option pb_GetResponse) :=
  ptr_owned h_pb_GetResponse.

#[export] Instance pb_mutation_request_owned : Owned h_pb_MutationRequest pb_MutationRequest :=
  owned_via (W := bytes * bytes * option pb_MutationID)
    (λ m, ((hpmq_Key m, hpmq_Value m), hpmq_MutationId m))
    (λ m w, {| pb_MutationRequest_Op := hpmq_Op m; pb_MutationRequest_Key := w.1.1;
               pb_MutationRequest_Value := w.1.2;
               pb_MutationRequest_TtlMillis := hpmq_TtlMillis m;
               pb_MutationRequest_MutationId := w.2; pb_MutationRequest_Mode := hpmq_Mode m;
               pb_MutationRequest_W := hpmq_W m; pb_MutationRequest_Confirm := hpmq_Confirm m;
               pb_MutationRequest_TimeoutMillis := hpmq_TimeoutMillis m;
               pb_MutationRequest_HubGeneration := hpmq_HubGeneration m |}).
#[export] Instance pb_mutation_request_ptr : Owned (option loc) (option pb_MutationRequest) :=
  ptr_owned h_pb_MutationRequest.

(** ** wire domain → protobuf *)

Definition h_ProtoVersionTag (v : VersionTag) (h : heap) : option loc * heap :=
  new_var (ProtoVersionTag v) h.

(** The parameter [id] is a variable of the function that escapes to the heap:
    [id[:]] is a slice of the function's own copy of the array. *)
Definition h_ProtoMutationID (id : MutationID) (h : heap) : option loc * heap :=
  let (id, h) := new_array byte id h in
  new_var (mk_h_pb_MutationID id) h.

Definition h_ProtoGetRequest (m : h_rpc_GetRequest) (h : heap) : option loc * heap :=
  let (key, h) := h_CopyBytes (hrgr_Key m) h in
  let (version, h) := deref (hrgr_MinVersion m) None h_ProtoVersionTag h in
  new_var (mk_h_pb_GetRequest key version (hrgr_HubGeneration m)) h.

Definition h_ProtoGetResponse (m : h_GetResponse) (h : heap) : option loc * heap :=
  let (version, h) := h_ProtoVersionTag (hgp_Version m) h in
  let (value, h) := h_CopyBytes (hgp_Value m) h in
  new_var
    (mk_h_pb_GetResponse (ProtoStatus (hgp_Status m)) (hgp_HubGeneration m) version value
       (hgp_TTLMillis m) (ProtoRecordKind (hgp_Kind m))) h.

Definition h_ProtoMutationRequest (m : h_MutationRequest) (h : heap) : option loc * heap :=
  let (key, h) := h_CopyBytes (hmr_Key m) h in
  let (value, h) := h_CopyBytes (hmr_Value m) h in
  let (id, h) := h_ProtoMutationID (hmr_MutationID m) h in
  new_var
    (mk_h_pb_MutationRequest (ProtoMutationOp (hmr_Op m)) key value (hmr_TTLMillis m) id
       (ProtoWriteMode (hmr_Mode m)) (to_uint32 (hmr_W m)) (ProtoConfirmLevel (hmr_Confirm m))
       (hmr_Timeout m) (hmr_HubGeneration m)) h.

(** ** protobuf → wire domain

    The conversions of a version tag and of an identity return a value without
    references and only read the message; so do the validators. *)

Definition h_zero_GetRequest : h_rpc_GetRequest := mk_h_rpc_GetRequest nil_slice None 0.
Definition h_zero_GetResponse : h_GetResponse :=
  mk_h_GetResponse 0 0 zero_VersionTag nil_slice 0 0.
Definition h_zero_MutationRequest : h_MutationRequest :=
  mk_h_MutationRequest 0 nil_slice nil_slice 0 (zero_bytes 16) 0 0 0 0 0.

Definition h_FromProtoGetRequest (m : option loc) (h : heap) : (h_rpc_GetRequest * error) * heap :=
  deref m (h_zero_GetRequest, Some (Errorf "nil get request" [])) (λ m h,
    let (key, h) := h_CopyBytes (hpgq_Key m) h in
    let (version, h) :=
      deref (hpgq_MinVersion m) None
        (λ v, new_var (FromProtoVersionTag (Some v))) h in
    let out := mk_h_rpc_GetRequest key version (hpgq_HubGeneration m) in
    ((out, rpc_GetRequest_Validate (o_abs h out)), h)) h.

Definition h_FromProtoGetResponse (m : option loc) (h : heap) : (h_GetResponse * error) * heap :=
  deref m (h_zero_GetResponse, Some (Errorf "nil get response" [])) (λ m h,
    let! status := FromProtoStatus (hpgp_Status m) or h_zero_GetResponse on h in
    let! kind := FromProtoRecordKind (hpgp_Kind m) or h_zero_GetResponse on h in
    let version := FromProtoVersionTag (o_abs h (hpgp_Version m)) in
    let (value, h) := h_CopyBytes (hpgp_Value m) h in
    let out := mk_h_GetResponse status (hpgp_HubGeneration m) version value
                 (hpgp_TtlMillis m) kind in
    ((out, GetResponse_Validate (o_abs h out)), h)) h.

Definition h_FromProtoMutationRequest (m : option loc) (h : heap) :
    (h_MutationRequest * error) * heap :=
  deref m (h_zero_MutationRequest, Some (Errorf "nil mutation request" [])) (λ m h,
    let! id := FromProtoMutationID (o_abs h (hpmq_MutationId m)) or h_zero_MutationRequest on h in
    if hpmq_W m >? MaxUint16
    then ((h_zero_MutationRequest, Some (Wrapf "%w: w out of range" ErrInvalidWriteTimeout [])), h)
    else
    let! op := FromProtoMutationOp (hpmq_Op m) or h_zero_MutationRequest on h in
    let! mode := FromProtoWriteMode (hpmq_Mode m) or h_zero_MutationRequest on h in
    let! confirm := FromProtoConfirmLevel (hpmq_Confirm m) or h_zero_MutationRequest on h in
    let (key, h) := h_CopyBytes (hpmq_Key m) h in
    let (value, h) := h_CopyBytes (hpmq_Value m) h in
    let out := mk_h_MutationRequest op key value (hpmq_TtlMillis m) id mode
                 (to_uint16 (hpmq_W m)) confirm (hpmq_TimeoutMillis m)
                 (hpmq_HubGeneration m) in
    ((out, MutationRequest_Validate (o_abs h out)), h)) h.

(** ** The conversions share no memory with their argument *)

Lemma h_ProtoVersionTag_converts :
  @converts _ _ _ _ flat_owned pb_version_owned (λ v, Some (ProtoVersionTag v)) h_ProtoVersionTag.
Proof. intros h v _. exact (returns_new h (ProtoVersionTag v)). Qed.

(** [&pb.MutationID{Id: raw}] *)
Lemma new_id_returns (h h1 : heap) (id : MutationID) (raw : slice) :
  returns (B := slice) h id (raw, h1) →
  @returns _ _ pb_id_ptr h (Some (mk_pb_MutationID id)) (new_var (mk_h_pb_MutationID raw) h1).
Proof. intros R. apply returns_alloc. eapply (returns_struct _ _); [exact R|done]. Qed.

Lemma h_ProtoMutationID_converts :
  @converts _ _ _ _ MutationID_owned pb_id_ptr (λ id, Some (ProtoMutationID id)) h_ProtoMutationID.
Proof.
  intros h id _. unfold h_ProtoMutationID. run (new_array_converts byte) at id as R.
  exact (new_id_returns _ _ _ _ R).
Qed.

Lemma proto_version_converts :
  converts (λ v, match v with Some v => Some (ProtoVersionTag v) | None => None end)
    (λ p h, deref p None h_ProtoVersionTag h).
Proof.
  refine (@converts_deref _ _ _ _ _ flat_owned pb_version_owned
    (λ v, match v with Some v => Some (ProtoVersionTag v) | None => None end) _ _ _
    h_ProtoVersionTag_converts).
  intros h. by apply returns_flat.
Qed.

Lemma h_ProtoGetRequest_converts :
  converts (λ m, Some (ProtoGetRequest m)) h_ProtoGetRequest.
Proof.
  intros h m [Hk Hv]. unfold h_ProtoGetRequest. cbn in Hk, Hv.
  run h_CopyBytes_clones on Hk as R. run proto_version_converts on Hv after R as R0.
  apply returns_alloc. eapply (returns_struct _ _); [exact (returns_pair _ _ _ _ _ R R0)|done].
Qed.

Lemma h_ProtoGetResponse_converts :
  converts (λ m, Some (ProtoGetResponse m)) h_ProtoGetResponse.
Proof.
  intros h m Hv. unfold h_ProtoGetResponse. cbn in Hv.
  run h_ProtoVersionTag_converts at (hgp_Version m) as R.
  run h_CopyBytes_clones on Hv after R as R0.
  apply returns_alloc. eapply (returns_struct _ _); [exact (returns_pair _ _ _ _ _ R R0)|done].
Qed.

Lemma h_ProtoMutationRequest_converts :
  converts (λ m, Some (ProtoMutationRequest m)) h_ProtoMutationRequest.
Proof.
  intros h m [Hk Hv]. unfold h_ProtoMutationRequest. cbn in Hk, Hv.
  run h_CopyBytes_clones on Hk as R. run h_CopyBytes_clones on Hv after R as R0.
  pose proof (returns_pair _ _ _ _ _ R R0) as R1. cbn [fst snd] in R1.
  run h_ProtoMutationID_converts at (hmr_MutationID m) after R1 as R2.
  apply returns_alloc. eapply (returns_struct _ _); [exact (returns_pair _ _ _ _ _ R1 R2)|done].
Qed.

(** A nil message: the zero value and the error. *)
Ltac nil_message := intros h; apply returns_flat; [done|repeat split|done|set_solver].

Lemma fromproto_version_converts :
  converts (λ v, match v with Some _ => Some (FromProtoVersionTag v) | None => None end)
    (λ p h, deref (A := pb_VersionTag) p None (λ v, new_var (FromProtoVersionTag (Some v))) h).
Proof.
  refine (@converts_deref _ _ _ _ _ flat_owned version_owned
    (λ v, match v with Some _ => Some (FromProtoVersionTag v) | None => None end) _ _ _ _).
  - intros h. by apply returns_flat.
  - intros h v _. apply returns_new.
Qed.

Lemma h_FromProtoGetRequest_converts : converts FromProtoGetRequest h_FromProtoGetRequest.
Proof.
  refine (converts_deref _ _ _ _ _); [nil_message|].
  intros h m [Hk Hv]. cbn in Hk, Hv.
  run h_CopyBytes_clones on Hk as R. run fromproto_version_converts on Hv after R as R0.
  apply (returns_validated rpc_GetRequest_Validate).
  eapply (returns_struct _ _); [exact (returns_pair _ _ _ _ _ R R0)|done].
Qed.

(** The error branches of a conversion: the zero value refers to nothing. *)
Ltac early_return := apply returns_flat; [try done|repeat split|done|set_solver].

Lemma h_FromProtoGetResponse_converts : converts FromProtoGetResponse h_FromProtoGetResponse.
Proof.
  refine (converts_deref _ _ _ _ _); [nil_message|].
  intros h m [Hv Hb]. cbn in Hv, Hb. unfold FromProtoGetResponse.
  cbn -[FromProtoStatus FromProtoRecordKind FromProtoVersionTag o_abs h_CopyBytes].
  change (pb_GetResponse_Status (o_abs h m)) with (hpgp_Status m).
  destruct (FromProtoStatus (hpgp_Status m)) as [status [e|]]; [early_return|].
  change (pb_GetResponse_Kind (o_abs h m)) with (hpgp_Kind m).
  destruct (FromProtoRecordKind (hpgp_Kind m)) as [kind [e|]]; [early_return|].
  run h_CopyBytes_clones on Hb as R. apply (returns_validated GetResponse_Validate).
  eapply (returns_struct _ _); [exact R|done].
Qed.

Lemma h_FromProtoMutationRequest_converts :
  converts FromProtoMutationRequest h_FromProtoMutationRequest.
Proof.
  refine (converts_deref _ _ _ _ _); [nil_message|].
  intros h m [[Hk Hv] Hi]. cbn in Hk, Hv, Hi. unfold FromProtoMutationRequest.
  cbn -[FromProtoMutationID FromProtoMutationOp FromProtoWriteMode FromProtoConfirmLevel
        o_abs h_CopyBytes MaxUint16 to_uint16 Z.gtb].
  change (pb_MutationRequest_MutationId (o_abs h m))
    with (o_abs (V := option pb_MutationID) h (hpmq_MutationId m)).
  destruct (FromProtoMutationID (o_abs h (hpmq_MutationId m))) as [id [e|]]; [early_return|].
  change (pb_MutationRequest_W (o_abs h m)) with (hpmq_W m).
  destruct (hpmq_W m >? MaxUint16); [early_return|].
  change (pb_MutationRequest_Op (o_abs h m)) with (hpmq_Op m).
  destruct (FromProtoMutationOp (hpmq_Op m)) as [op [e|]]; [early_return|].
  change (pb_MutationRequest_Mode (o_abs h m)) with (hpmq_Mode m).
  destruct (FromProtoWriteMode (hpmq_Mode m)) as [mode [e|]]; [early_return|].
  change (pb_MutationRequest_Confirm (o_abs h m)) with (hpmq_Confirm m).
  destruct (FromProtoConfirmLevel (hpmq_Confirm m)) as [confirm [e|]]; [early_return|].
  run h_CopyBytes_clones on Hk as R. run h_CopyBytes_clones on Hv after R as R0.
  apply (returns_validated MutationRequest_Validate).
  eapply (returns_struct _ _); [exact (returns_pair _ _ _ _ _ R R0)|done].
Qed.

(** C21. The conversions of the Data service that handle byte slices refine
    the functions of [RpcConvert] and isolate the two sides: the result stands
    for what the function returns, nothing later written to the argument or to
    any memory that existed before the call (the transport's buffers, the
    caller's key) changes the result, and nothing written to the result
    changes the argument.  The sliced identity [id[:]] is the function's own
    copy. *)
Theorem rpc_conversions_isolated :
  isolates (λ m, Some (ProtoGetRequest m)) h_ProtoGetRequest ∧
  isolates (λ m, Some (ProtoGetResponse m)) h_ProtoGetResponse ∧
  isolates (λ m, Some (ProtoMutationRequest m)) h_ProtoMutationRequest ∧
  isolates FromProtoGetRequest h_FromProtoGetRequest ∧
  isolates FromProtoGetResponse h_FromProtoGetResponse ∧
  isolates FromProtoMutationRequest h_FromProtoMutationRequest.
Proof.
  split_and!; apply converts_isolates.
  - apply h_ProtoGetRequest_converts.
  - apply h_ProtoGetResponse_converts.
  - apply h_ProtoMutationRequest_converts.
  - apply h_FromProtoGetRequest_converts.
  - apply h_FromProtoGetResponse_converts.
  - apply h_FromProtoMutationRequest_converts.
Qed.
