(* ===== verification/ControlOwnership.v ===== *)
(** * The control-plane conversions on a shared heap (internal/control/convert.go)

    Hello, Subscribe and InvalidationBatch hold slices, in protobuf slices of
    pointers.  Their conversions are modelled with the loops that append one
    converted element at a time, and proved to compute the functions of
    [ControlConvert] and to share no memory with their argument.  The other
    messages of the stream are plain fields. *)

From S2P Require Import Prelude GoErrors GoStd WireStatus WireProtocol WireTypes WireRecord.
From S2P Require Import PbCommon PbData PbControl RpcTypes Codec RpcConvert ControlTypes.
From S2P Require Import ControlConvert Heap Owned Ownership RpcOwnership.

Local Open Scope go_scope.

(** ** What the generated structs stand for *)

#[export] Instance pb_watermark_ptr : Owned (option loc) (option pb_StreamWatermark) :=
  ptr_owned pb_StreamWatermark (H0 := flat_owned).

#[export] Instance pb_hello_owned : Owned h_pb_Hello pb_Hello :=
  owned_via (H := array_owned (option loc)) hphe_Subscriptions
    (λ m w, {| pb_Hello_NodeId := hphe_NodeId m;
               pb_Hello_ProtocolVersion := hphe_ProtocolVersion m;
               pb_Hello_MinSupportedVersion := hphe_MinSupportedVersion m;
               pb_Hello_Subscriptions := w; pb_Hello_ClusterId := hphe_ClusterId m;
               pb_Hello_ExpectedHubGeneration := hphe_ExpectedHubGeneration m |}).
#[export] Instance pb_hello_ptr : Owned (option loc) (option pb_Hello) := ptr_owned h_pb_Hello.

#[export] Instance pb_subscribe_owned : Owned h_pb_Subscribe pb_Subscribe :=
  owned_via (W := list Z) hpsu_StreamIds
    (λ m w, {| pb_Subscribe_HubGeneration := hpsu_HubGeneration m;
               pb_Subscribe_StreamIds := w |}).
#[export] Instance pb_subscribe_ptr : Owned (option loc) (option pb_Subscribe) :=
  ptr_owned h_pb_Subscribe.

#[export] Instance pb_event_owned : Owned h_pb_InvalidationEvent pb_InvalidationEvent :=
  owned_via (W := bytes * option pb_VersionTag * option pb_MutationID)
    (λ e, ((hpev_Key e, hpev_Version e), hpev_MutationId e))
    (λ e w, {| pb_InvalidationEvent_StreamSequence := hpev_StreamSequence e;
               pb_InvalidationEvent_Key := w.1.1; pb_InvalidationEvent_Version := w.1.2;
               pb_InvalidationEvent_Kind := hpev_Kind e;
               pb_InvalidationEvent_MutationId := w.2 |}).
#[export] Instance pb_event_ptr : Owned (option loc) (option pb_InvalidationEvent) :=
  ptr_owned h_pb_InvalidationEvent.

#[export] Instance pb_batch_owned : Owned h_pb_InvalidationBatch pb_InvalidationBatch :=
  owned_via (H := array_owned (option loc)) hpib_Events
    (λ m w, {| pb_InvalidationBatch_StreamId := hpib_StreamId m;
               pb_InvalidationBatch_HubGeneration := hpib_HubGeneration m;
               pb_InvalidationBatch_Events := w |}).
#[export] Instance pb_batch_ptr : Owned (option loc) (option pb_InvalidationBatch) :=
  ptr_owned h_pb_InvalidationBatch.

(** ** domain → protobuf *)

(** One iteration of the loop, which cannot fail. *)
Definition h_ProtoHello_subscription (_ : nat) (s : StreamWatermark) (h : heap) :
    (option loc * error) * heap :=
  let (p, h) := new_var
    {| pb_StreamWatermark_StreamId := sw_StreamID s;
       pb_StreamWatermark_AppliedThrough := sw_AppliedThrough s;
       pb_StreamWatermark_HubGeneration := sw_HubGeneration s |} h in
  ((p, None), h).

Definition h_ProtoHello (m : h_Hello) (h : heap) : option loc * heap :=
  let '((subscriptions, _), h) :=
    collect_range None h_ProtoHello_subscription (hhe_Subscriptions m) h in
  new_var (mk_h_pb_Hello (hhe_NodeID m) (to_uint32 (pr_Version (hhe_Protocol m)))
    (to_uint32 (pr_MinSupported (hhe_Protocol m))) subscriptions (hhe_ClusterID m)
    (hhe_ExpectedHubGeneration m)) h.

Definition h_ProtoSubscribe (m : h_Subscribe) (h : heap) : option loc * heap :=
  let (ids, h) := append_to_nil Z (hsu_StreamIDs m) h in
  new_var (mk_h_pb_Subscribe (hsu_HubGeneration m) ids) h.

(** One iteration of the loop, which cannot fail.  The loop variable [e] is a
    new variable of each iteration (Go 1.22 and later), so [e.MutationID[:]] is
    a slice of an array of its own. *)
Definition h_ProtoInvalidationBatch_event (_ : nat) (e : h_InvalidationEvent) (h : heap) :
    (option loc * error) * heap :=
  let (key, h) := h_CopyBytes (hev_Key e) h in
  let (version, h) := new_var
    {| pb_VersionTag_PartitionId := vt_PartitionID (hev_Version e);
       pb_VersionTag_Sequence := vt_Sequence (hev_Version e) |} h in
  let (raw, h) := new_array byte (hev_MutationID e) h in
  let (id, h) := new_var (mk_h_pb_MutationID raw) h in
  let (p, h) := new_var (mk_h_pb_InvalidationEvent (hev_StreamSequence e) key version
                   (to_int32 (hev_Kind e)) id) h in
  ((p, None), h).

Definition h_ProtoInvalidationBatch (m : h_InvalidationBatch) (h : heap) : option loc * heap :=
  let '((events, _), h) :=
    collect_range None h_ProtoInvalidationBatch_event (hib_Events m) h in
  new_var (mk_h_pb_InvalidationBatch (hib_StreamID m) (hib_HubGeneration m) events) h.

(** ** protobuf → domain *)

Definition h_zero_Hello : h_Hello := mk_h_Hello 0 zero_ProtocolRange nil_slice "" 0.
Definition h_zero_Subscribe : h_Subscribe := mk_h_Subscribe 0 nil_slice.
Definition h_zero_InvalidationBatch : h_InvalidationBatch := mk_h_InvalidationBatch 0 0 nil_slice.
Definition zero_StreamWatermark : StreamWatermark := mkStreamWatermark 0 0 0.
Definition h_zero_InvalidationEvent : h_InvalidationEvent :=
  mk_h_InvalidationEvent 0 nil_slice zero_VersionTag 0 (zero_bytes 16).

Definition h_FromProtoHello_subscription (_ : nat) (s : option loc) (h : heap) :
    (StreamWatermark * error) * heap :=
  deref s (zero_StreamWatermark, Some (Wrapf "%w: nil subscription watermark" ErrInvalidMessage []))
    (λ s h, (({| sw_StreamID := pb_StreamWatermark_StreamId s;
                 sw_AppliedThrough := pb_StreamWatermark_AppliedThrough s;
                 sw_HubGeneration := pb_StreamWatermark_HubGeneration s |}, None), h)) h.

Definition h_FromProtoHello (m : option loc) (h : heap) : (h_Hello * error) * heap :=
  deref m (h_zero_Hello, Some (Wrapf "%w: nil hello" ErrInvalidMessage [])) (λ m h,
    let! version := control_protocolVersionFromUint32 (hphe_ProtocolVersion m)
      or h_zero_Hello on h in
    let! minimum := control_protocolVersionFromUint32 (hphe_MinSupportedVersion m)
      or h_zero_Hello on h in
    let (res, h) := collect_range zero_StreamWatermark h_FromProtoHello_subscription
                      (hphe_Subscriptions m) h in
    let! subscriptions := res or h_zero_Hello on h in
    let out := mk_h_Hello (hphe_NodeId m) {| pr_Version := version; pr_MinSupported := minimum |}
                 subscriptions (hphe_ClusterId m) (hphe_ExpectedHubGeneration m) in
    ((out, Hello_Validate (o_abs h out)), h)) h.

Definition h_FromProtoSubscribe (m : option loc) (h : heap) : (h_Subscribe * error) * heap :=
  deref m (h_zero_Subscribe, Some (Wrapf "%w: nil subscribe" ErrInvalidMessage [])) (λ m h,
    let (ids, h) := append_to_nil Z (hpsu_StreamIds m) h in
    let out := mk_h_Subscribe (hpsu_HubGeneration m) ids in
    ((out, Subscribe_Validate (o_abs h out)), h)) h.

Definition h_FromProtoInvalidationBatch_event (i : nat) (e : option loc) (h : heap) :
    (h_InvalidationEvent * error) * heap :=
  deref e (h_zero_InvalidationEvent,
           Some (Wrapf "%w: nil event at index %d" ErrInvalidMessage [AInt (Z.of_nat i)]))
    (λ e h,
      let! id := mutationIDFromProto (o_abs h (hpev_MutationId e))
        or h_zero_InvalidationEvent on h in
      let! kind := recordKindFromProto (hpev_Kind e) or h_zero_InvalidationEvent on h in
      let version :=
        match o_abs h (hpev_Version e) with
        | None => zero_VersionTag
        | Some _ as v => {| vt_PartitionID := pb_VersionTag_GetPartitionId v;
                            vt_Sequence := pb_VersionTag_GetSequence v |}
        end in
      let (key, h) := h_CopyBytes (hpev_Key e) h in
      ((mk_h_InvalidationEvent (hpev_StreamSequence e) key version kind id, None), h)) h.

Definition h_FromProtoInvalidationBatch (m : option loc) (h : heap) :
    (h_InvalidationBatch * error) * heap :=
  deref m (h_zero_InvalidationBatch,
           Some (Wrapf "%w: nil invalidation batch" ErrInvalidMessage [])) (λ m h,
    let (res, h) := collect_range h_zero_InvalidationEvent h_FromProtoInvalidationBatch_event
                      (hpib_Events m) h in
    let! events := res or h_zero_InvalidationBatch on h in
    let out := mk_h_InvalidationBatch (hpib_StreamId m) (hpib_HubGeneration m) events in
    ((out, InvalidationBatch_Validate (o_abs h out)), h)) h.

(** ** The loops

    What an iteration computes, as [ControlConvert] has it. *)

Definition watermark_to_proto (s : StreamWatermark) : option pb_StreamWatermark :=
  Some {| pb_StreamWatermark_StreamId := sw_StreamID s;
          pb_StreamWatermark_AppliedThrough := sw_AppliedThrough s;
          pb_StreamWatermark_HubGeneration := sw_HubGeneration s |}.

Definition event_to_proto (e : InvalidationEvent) : option pb_InvalidationEvent :=
  Some {| pb_InvalidationEvent_StreamSequence := ev_StreamSequence e;
           pb_InvalidationEvent_Key := CopyBytes (ev_Key e);
           pb_InvalidationEvent_Version :=
             Some {| pb_VersionTag_PartitionId := vt_PartitionID (ev_Version e);
                     pb_VersionTag_Sequence := vt_Sequence (ev_Version e) |};
           pb_InvalidationEvent_Kind := to_int32 (ev_Kind e);
           pb_InvalidationEvent_MutationId :=
             Some {| pb_MutationID_Id := ev_MutationID e |} |}.

Definition watermark_from_proto (_ : Z) (s : option pb_StreamWatermark) :
    StreamWatermark * error :=
  match s with
  | None => (zero_StreamWatermark,
             Some (Wrapf "%w: nil subscription watermark" ErrInvalidMessage []))
  | Some _ => ({| sw_StreamID := pb_StreamWatermark_GetStreamId s;
                  sw_AppliedThrough := pb_StreamWatermark_GetAppliedThrough s;
                  sw_HubGeneration := pb_StreamWatermark_GetHubGeneration s |}, None)
  end.

Definition zero_InvalidationEvent : InvalidationEvent :=
  mkInvalidationEvent 0 [] zero_VersionTag 0 (zero_bytes 16).

Definition event_from_proto (i : Z) (e : option pb_InvalidationEvent) :
    InvalidationEvent * error :=
  match e with
  | None => (zero_InvalidationEvent,
             Some (Wrapf "%w: nil event at index %d" ErrInvalidMessage [AInt i]))
  | Some _ =>
      let? id := mutationIDFromProto (pb_InvalidationEvent_GetMutationId e)
        or zero_InvalidationEvent in
      let? kind := recordKindFromProto (pb_InvalidationEvent_GetKind e)
        or zero_InvalidationEvent in
      let version :=
        match pb_InvalidationEvent_GetVersion e with
        | None => zero_VersionTag
        | Some _ as v => {| vt_PartitionID := pb_VersionTag_GetPartitionId v;
                            vt_Sequence := pb_VersionTag_GetSequence v |}
        end in
      ({| ev_StreamSequence := pb_InvalidationEvent_GetStreamSequence e;
          ev_Key := CopyBytes (pb_InvalidationEvent_GetKey e);
          ev_Version := version; ev_Kind := kind; ev_MutationID := id |}, None)
  end.

(** The loops of [ControlConvert] collect these. *)
Lemma FromProtoHello_subscriptions_collect i ps :
  FromProtoHello_subscriptions ps = collect watermark_from_proto i ps.
Proof.
  revert i. induction ps as [|[s|] ps IH]; intros i; cbn; [done| |done]. by rewrite (IH (i + 1)).
Qed.

Lemma FromProtoInvalidationBatch_events_collect i ps :
  FromProtoInvalidationBatch_events i ps = collect event_from_proto i ps.
Proof.
  revert i. induction ps as [|[e|] ps IH]; intros i; [done| |done].
  cbn -[mutationIDFromProto recordKindFromProto]. rewrite IH.
  destruct (mutationIDFromProto _) as [id [?|]]; [done|].
  by destruct (recordKindFromProto _) as [kind [?|]].
Qed.

Lemma h_ProtoHello_subscription_converts (i : nat) :
  @converts _ _ _ _ flat_owned (@pair_owned _ _ _ _ pb_watermark_ptr error_owned)
    (λ s, (watermark_to_proto s, None)) (h_ProtoHello_subscription i).
Proof. intros h s _. apply returns_ok, returns_new. Qed.

Lemma h_ProtoInvalidationBatch_event_converts (i : nat) :
  @converts _ _ InvalidationEvent _ _ (@pair_owned _ _ _ _ pb_event_ptr error_owned)
    (λ e, (event_to_proto e, None)) (h_ProtoInvalidationBatch_event i).
Proof.
  intros h e Hk. unfold h_ProtoInvalidationBatch_event. cbn in Hk.
  run h_CopyBytes_clones on Hk as R.
  run (new_var_converts (A := pb_VersionTag)) at (mk_pb_VersionTag (vt_PartitionID (hev_Version e))
    (vt_Sequence (hev_Version e))) after R as R0.
  pose proof (returns_pair _ _ _ _ _ R R0) as R1. cbn [fst snd] in R1.
  run (new_array_converts byte) at (hev_MutationID e) after R1 as R2.
  pose proof (new_id_returns _ _ _ _ R2) as R3. name_call R3.
  pose proof (returns_pair _ _ _ _ _ R1 R3) as R4.
  apply returns_ok, returns_alloc. eapply (returns_struct _ _); [exact R4|done].
Qed.

Lemma h_FromProtoHello_subscription_converts (i : nat) :
  @converts _ _ _ _ pb_watermark_ptr (@pair_owned _ _ _ _ flat_owned error_owned)
    (watermark_from_proto (Z.of_nat i)) (h_FromProtoHello_subscription i).
Proof.
  refine (@converts_deref _ _ _ _ _ flat_owned _ (watermark_from_proto (Z.of_nat i)) _ _ _ _);
    [nil_message|]. intros h s _. early_return.
Qed.

Lemma h_FromProtoInvalidationBatch_event_converts (i : nat) :
  @converts _ _ _ _ pb_event_ptr (@pair_owned _ _ _ _ event_owned error_owned)
    (event_from_proto (Z.of_nat i)) (h_FromProtoInvalidationBatch_event i).
Proof.
  refine (converts_deref _ _ _ _ _); [nil_message|]. intros h e [[Hk Hv] Hi]. cbn in Hk, Hv, Hi.
  cbn -[mutationIDFromProto recordKindFromProto o_abs h_CopyBytes].
  change (pb_InvalidationEvent_MutationId (o_abs h e))
    with (o_abs (V := option pb_MutationID) h (hpev_MutationId e)).
  destruct (mutationIDFromProto (o_abs h (hpev_MutationId e))) as [id [er|]]; [early_return|].
  change (pb_InvalidationEvent_Kind (o_abs h e)) with (hpev_Kind e).
  destruct (recordKindFromProto (hpev_Kind e)) as [kind [er|]]; [early_return|].
  run h_CopyBytes_clones on Hk as R.
  apply (returns_validated (λ _ : InvalidationEvent, None)).
  eapply (returns_struct _ _); [exact R|done].
Qed.

(** ** The messages *)

Lemma h_ProtoHello_converts : converts (λ m, Some (ProtoHello m)) h_ProtoHello.
Proof.
  intros h m Hs. unfold h_ProtoHello. cbn in Hs.
  run (collect_range_source (λ _ s, (watermark_to_proto s, None)) _ None
    h_ProtoHello_subscription_converts) on Hs as R.
  rewrite collect_map in R. destruct p as [s e]. apply returns_fst in R as [R _].
  apply returns_alloc. eapply (returns_struct _ _); [exact R|done].
Qed.

Lemma h_ProtoSubscribe_converts : converts (λ m, Some (ProtoSubscribe m)) h_ProtoSubscribe.
Proof.
  intros h m Hs. unfold h_ProtoSubscribe. cbn in Hs. run (append_to_nil_clones Z) on Hs as R.
  apply returns_alloc. eapply (returns_struct _ _); [exact R|done].
Qed.

Lemma h_ProtoInvalidationBatch_converts :
  converts (λ m, Some (ProtoInvalidationBatch m)) h_ProtoInvalidationBatch.
Proof.
  intros h m Hs. unfold h_ProtoInvalidationBatch.
  run (collect_range_converts (λ _ e, (event_to_proto e, None)) _ None
    h_ProtoInvalidationBatch_event_converts) on Hs as R.
  rewrite collect_map in R. destruct p as [s e]. apply returns_fst in R as [R _].
  apply returns_alloc. eapply (returns_struct _ _); [exact R|done].
Qed.

Lemma h_FromProtoSubscribe_converts : converts FromProtoSubscribe h_FromProtoSubscribe.
Proof.
  refine (converts_deref _ _ _ _ _); [nil_message|]. intros h m Hs. cbn in Hs.
  run (append_to_nil_clones Z) on Hs as R. apply (returns_validated Subscribe_Validate).
  eapply (returns_struct _ _); [exact R|done].
Qed.

(** Splits on how a loop over [src], described by [R], ends. *)
Ltac loop_outcome R src :=
  match type of R with
  | returns _ (collect ?g ?i ?vs) (?p, _) =>
      change (collect g i src) with (collect g i vs);
      destruct p as [out e], (collect g i vs) as [ws e'];
      apply returns_fst in R as [R ->]; destruct e' as [er|]
  end.

Lemma h_FromProtoHello_converts : converts FromProtoHello h_FromProtoHello.
Proof.
  refine (converts_deref _ _ _ _ _); [nil_message|]. intros h m Hs. unfold FromProtoHello.
  cbn -[control_protocolVersionFromUint32 o_abs FromProtoHello_subscriptions collect_range].
  change (pb_Hello_ProtocolVersion (o_abs h m)) with (hphe_ProtocolVersion m).
  destruct (control_protocolVersionFromUint32 (hphe_ProtocolVersion m)) as [v [e|]];
    [early_return|].
  change (pb_Hello_MinSupportedVersion (o_abs h m)) with (hphe_MinSupportedVersion m).
  destruct (control_protocolVersionFromUint32 (hphe_MinSupportedVersion m)) as [w [e|]];
    [early_return|].
  rewrite (FromProtoHello_subscriptions_collect 0).
  run (collect_range_converts _ _ zero_StreamWatermark h_FromProtoHello_subscription_converts)
    on Hs as R.
  loop_outcome R (pb_Hello_Subscriptions (o_abs h m)); [early_return; exact (proj1 R)|].
  apply returns_flat_array in R. apply (returns_validated Hello_Validate).
  eapply (returns_struct _ _); [exact R|done].
Qed.

Lemma zero_batch_returns (h h1 : heap) (e : err) :
  h ⊆ h1 →
  returns h (zero_InvalidationBatch, Some e) ((h_zero_InvalidationBatch, Some e), h1).
Proof.
  intros Hsub. destruct (array_nil (A := h_InvalidationEvent) (V := InvalidationEvent) h1) as [Hw Hf].
  apply returns_flat; [done|by split|done|]. cbn. rewrite Hf. set_solver.
Qed.

Lemma h_FromProtoInvalidationBatch_converts :
  converts FromProtoInvalidationBatch h_FromProtoInvalidationBatch.
Proof.
  refine (converts_deref _ _ _ _ _); [intros h; by apply zero_batch_returns|]. intros h m Hs.
  unfold FromProtoInvalidationBatch.
  cbn -[o_abs FromProtoInvalidationBatch_events collect_range].
  rewrite FromProtoInvalidationBatch_events_collect.
  run (collect_range_converts _ _ h_zero_InvalidationEvent
    h_FromProtoInvalidationBatch_event_converts) on Hs as R.
  loop_outcome R (pb_InvalidationBatch_Events (o_abs h m)); [apply zero_batch_returns, R|].
  apply (returns_validated InvalidationBatch_Validate).
  eapply (returns_struct _ _); [exact R|done].
Qed.

(** C20. The conversions of the Control stream that handle slices refine the
    functions of [ControlConvert] and isolate the two sides, as those of the
    Data service do: every pointer, key, identity and array of the result is
    new.  In particular no iteration of a loop overwrites what an earlier one
    appended (each [e.MutationID[:]] is an array of its own), and a conversion
    that fails leaves the argument as it was. *)
Theorem control_conversions_isolated :
  isolates (λ m, Some (ProtoHello m)) h_ProtoHello ∧
  isolates (λ m, Some (ProtoSubscribe m)) h_ProtoSubscribe ∧
  isolates (λ m, Some (ProtoInvalidationBatch m)) h_ProtoInvalidationBatch ∧
  isolates FromProtoHello h_FromProtoHello ∧
  isolates FromProtoSubscribe h_FromProtoSubscribe ∧
  isolates FromProtoInvalidationBatch h_FromProtoInvalidationBatch.
Proof.
  split_and!; apply converts_isolates.
  - apply h_ProtoHello_converts.
  - apply h_ProtoSubscribe_converts.
  - apply h_ProtoInvalidationBatch_converts.
  - apply h_FromProtoHello_converts.
  - apply h_FromProtoSubscribe_converts.
  - apply h_FromProtoInvalidationBatch_converts.
Qed.
