(* ===== verification/OwnershipTrace.v ===== *)
(** * Programs that exchange values by copying

    The documented discipline of the repository: a value that crosses a
    goroutine or a cache boundary is cloned, a message that crosses the network
    is converted to protobuf and back, and the owner of a value may overwrite
    its own buffers at any time.  A state is the shared heap and the values
    held by the parties of the program (goroutines, caches, the transport);
    the steps of the parties interleave in any order.  The [Clone] methods and
    the conversions keep the values of different parties in disjoint memory,
    so that no party ever changes what another one sees. *)

From S2P Require Import Prelude GoErrors GoStd WireStatus WireProtocol WireTypes WireRecord.
From S2P Require Import PbCommon PbControl PbData RpcTypes Codec RpcConvert RpcDedup L1.
From S2P Require Import ControlTypes ControlConvert Heap Owned Ownership RpcOwnership.
From S2P Require Import ControlOwnership.

(** ** Values with a Clone method, and protobuf messages *)

Inductive hval :=
| HWireGetRequest (r : h_wire_GetRequest) | HSetRequest (r : h_SetRequest)
| HDeleteRequest (r : h_DeleteRequest) | HRpcGetRequest (m : h_rpc_GetRequest)
| HGetResponse (m : h_GetResponse) | HMutationRequest (m : h_MutationRequest)
| HMutationFingerprint (f : h_MutationFingerprint) | HGetResult (r : h_GetResult)
| HMutation (m : h_Mutation) | HHello (m : h_Hello) | HSubscribe (m : h_Subscribe)
| HInvalidationBatch (m : h_InvalidationBatch)
| HPbGetRequest (p : option loc) | HPbGetResponse (p : option loc)
| HPbMutationRequest (p : option loc) | HPbHello (p : option loc)
| HPbSubscribe (p : option loc) | HPbInvalidationBatch (p : option loc).

(** What they stand for. *)
Inductive dval :=
| DWireGetRequest (r : wire_GetRequest) | DSetRequest (r : SetRequest)
| DDeleteRequest (r : DeleteRequest) | DRpcGetRequest (m : rpc_GetRequest)
| DGetResponse (m : GetResponse) | DMutationRequest (m : MutationRequest)
| DMutationFingerprint (f : MutationFingerprint) | DGetResult (r : GetResult)
| DMutation (m : Mutation) | DHello (m : Hello) | DSubscribe (m : Subscribe)
| DInvalidationBatch (m : InvalidationBatch)
| DPbGetRequest (m : option pb_GetRequest) | DPbGetResponse (m : option pb_GetResponse)
| DPbMutationRequest (m : option pb_MutationRequest) | DPbHello (m : option pb_Hello)
| DPbSubscribe (m : option pb_Subscribe) | DPbInvalidationBatch (m : option pb_InvalidationBatch).

Definition hval_wf (h : heap) (v : hval) : Prop :=
  match v with
  | HWireGetRequest r => o_wf (V := wire_GetRequest) h r
  | HSetRequest r => o_wf (V := SetRequest) h r
  | HDeleteRequest r => o_wf (V := DeleteRequest) h r
  | HRpcGetRequest m => o_wf (V := rpc_GetRequest) h m
  | HGetResponse m => o_wf (V := GetResponse) h m
  | HMutationRequest m => o_wf (V := MutationRequest) h m
  | HMutationFingerprint f => o_wf (V := MutationFingerprint) h f
  | HGetResult r => o_wf (V := GetResult) h r
  | HMutation m => o_wf (V := Mutation) h m
  | HHello m => o_wf (V := Hello) h m
  | HSubscribe m => o_wf (V := Subscribe) h m
  | HInvalidationBatch m => o_wf (V := InvalidationBatch) h m
  | HPbGetRequest p => o_wf (V := option pb_GetRequest) h p
  | HPbGetResponse p => o_wf (V := option pb_GetResponse) h p
  | HPbMutationRequest p => o_wf (V := option pb_MutationRequest) h p
  | HPbHello p => o_wf (V := option pb_Hello) h p
  | HPbSubscribe p => o_wf (V := option pb_Subscribe) h p
  | HPbInvalidationBatch p => o_wf (V := option pb_InvalidationBatch) h p
  end.

Definition hval_fp (h : heap) (v : hval) : gset loc :=
  match v with
  | HWireGetRequest r => o_fp (V := wire_GetRequest) h r
  | HSetRequest r => o_fp (V := SetRequest) h r
  | HDeleteRequest r => o_fp (V := DeleteRequest) h r
  | HRpcGetRequest m => o_fp (V := rpc_GetRequest) h m
  | HGetResponse m => o_fp (V := GetResponse) h m
  | HMutationRequest m => o_fp (V := MutationRequest) h m
  | HMutationFingerprint f => o_fp (V := MutationFingerprint) h f
  | HGetResult r => o_fp (V := GetResult) h r
  | HMutation m => o_fp (V := Mutation) h m
  | HHello m => o_fp (V := Hello) h m
  | HSubscribe m => o_fp (V := Subscribe) h m
  | HInvalidationBatch m => o_fp (V := InvalidationBatch) h m
  | HPbGetRequest p => o_fp (V := option pb_GetRequest) h p
  | HPbGetResponse p => o_fp (V := option pb_GetResponse) h p
  | HPbMutationRequest p => o_fp (V := option pb_MutationRequest) h p
  | HPbHello p => o_fp (V := option pb_Hello) h p
  | HPbSubscribe p => o_fp (V := option pb_Subscribe) h p
  | HPbInvalidationBatch p => o_fp (V := option pb_InvalidationBatch) h p
  end.

Definition hval_abs (h : heap) (v : hval) : dval :=
  match v with
  | HWireGetRequest r => DWireGetRequest (o_abs h r)
  | HSetRequest r => DSetRequest (o_abs h r)
  | HDeleteRequest r => DDeleteRequest (o_abs h r)
  | HRpcGetRequest m => DRpcGetRequest (o_abs h m)
  | HGetResponse m => DGetResponse (o_abs h m)
  | HMutationRequest m => DMutationRequest (@o_abs _ _ MutationRequest_owned h m)
  | HMutationFingerprint f => DMutationFingerprint (o_abs h f)
  | HGetResult r => DGetResult (o_abs h r)
  | HMutation m => DMutation (o_abs h m)
  | HHello m => DHello (o_abs h m)
  | HSubscribe m => DSubscribe (o_abs h m)
  | HInvalidationBatch m => DInvalidationBatch (o_abs h m)
  | HPbGetRequest p => DPbGetRequest (o_abs h p)
  | HPbGetResponse p => DPbGetResponse (o_abs h p)
  | HPbMutationRequest p => DPbMutationRequest (o_abs h p)
  | HPbHello p => DPbHello (o_abs h p)
  | HPbSubscribe p => DPbSubscribe (o_abs h p)
  | HPbInvalidationBatch p => DPbInvalidationBatch (o_abs h p)
  end.

Lemma hval_dom h v : hval_wf h v → hval_fp h v ⊆ dom h.
Proof. destruct v; apply o_dom. Qed.

Lemma hval_local h h2 v :
  hval_wf h v → (∀ l, l ∈ hval_fp h v → h2 !! l = h !! l) →
  hval_wf h2 v ∧ hval_fp h2 v = hval_fp h v ∧ hval_abs h2 v = hval_abs h v.
Proof.
  destruct v as [v|v|v|v|v|v|v|v|v|v|v|v|v|v|v|v|v|v]; cbn [hval_wf hval_fp hval_abs]; intros Hv Hl;
    by destruct (o_local h h2 v Hv Hl) as (? & -> & ->).
Qed.

#[export] Instance hval_owned : Owned hval dval :=
  {| o_wf := hval_wf; o_fp := hval_fp; o_abs := hval_abs;
     o_dom := hval_dom; o_local := hval_local |}.

(** The three ways to copy a value: the Clone method of its type, the
    conversion to protobuf, and the conversion from protobuf, when the type
    has it; a decoded message is used only when the error is nil. *)
Inductive copy := Clone | Encode | Decode.

Definition wrap_copy {A} (c : A → hval) (r : A * heap) : option (hval * heap) :=
  Some (c r.1, r.2).
Definition wrap_decoded {A} (c : A → hval) (r : (A * error) * heap) : option (hval * heap) :=
  match r with ((a, None), h) => Some (c a, h) | _ => None end.

Definition hval_copy (c : copy) (v : hval) (h : heap) : option (hval * heap) :=
  match c, v with
  | Clone, HWireGetRequest r => wrap_copy HWireGetRequest (wire_GetRequest_Clone r h)
  | Clone, HSetRequest r => wrap_copy HSetRequest (SetRequest_Clone r h)
  | Clone, HDeleteRequest r => wrap_copy HDeleteRequest (DeleteRequest_Clone r h)
  | Clone, HRpcGetRequest m => wrap_copy HRpcGetRequest (rpc_GetRequest_Clone m h)
  | Clone, HGetResponse m => wrap_copy HGetResponse (GetResponse_Clone m h)
  | Clone, HMutationRequest m => wrap_copy HMutationRequest (MutationRequest_Clone m h)
  | Clone, HMutationFingerprint f =>
      wrap_copy HMutationFingerprint (MutationFingerprint_Clone f h)
  | Clone, HGetResult r => wrap_copy HGetResult (GetResult_Clone r h)
  | Clone, HMutation m => wrap_copy HMutation (Mutation_Clone m h)
  | Clone, HHello m => wrap_copy HHello (Hello_Clone m h)
  | Clone, HSubscribe m => wrap_copy HSubscribe (Subscribe_Clone m h)
  | Clone, HInvalidationBatch m => wrap_copy HInvalidationBatch (InvalidationBatch_Clone m h)
  | Encode, HRpcGetRequest m => wrap_copy HPbGetRequest (h_ProtoGetRequest m h)
  | Encode, HGetResponse m => wrap_copy HPbGetResponse (h_ProtoGetResponse m h)
  | Encode, HMutationRequest m => wrap_copy HPbMutationRequest (h_ProtoMutationRequest m h)
  | Encode, HHello m => wrap_copy HPbHello (h_ProtoHello m h)
  | Encode, HSubscribe m => wrap_copy HPbSubscribe (h_ProtoSubscribe m h)
  | Encode, HInvalidationBatch m =>
      wrap_copy HPbInvalidationBatch (h_ProtoInvalidationBatch m h)
  | Decode, HPbGetRequest p => wrap_decoded HRpcGetRequest (h_FromProtoGetRequest p h)
  | Decode, HPbGetResponse p => wrap_decoded HGetResponse (h_FromProtoGetResponse p h)
  | Decode, HPbMutationRequest p =>
      wrap_decoded HMutationRequest (h_FromProtoMutationRequest p h)
  | Decode, HPbHello p => wrap_decoded HHello (h_FromProtoHello p h)
  | Decode, HPbSubscribe p => wrap_decoded HSubscribe (h_FromProtoSubscribe p h)
  | Decode, HPbInvalidationBatch p =>
      wrap_decoded HInvalidationBatch (h_FromProtoInvalidationBatch p h)
  | _, _ => None
  end.

(** The same on values. *)
Definition wrap_ok {A} (c : A → dval) (r : A * error) : option dval :=
  match r with (a, None) => Some (c a) | _ => None end.

Definition dval_copy (c : copy) (d : dval) : option dval :=
  match c, d with
  | Clone, (DPbGetRequest _ | DPbGetResponse _ | DPbMutationRequest _ | DPbHello _
           | DPbSubscribe _ | DPbInvalidationBatch _) => None
  | Clone, _ => Some d
  | Encode, DRpcGetRequest m => Some (DPbGetRequest (Some (ProtoGetRequest m)))
  | Encode, DGetResponse m => Some (DPbGetResponse (Some (ProtoGetResponse m)))
  | Encode, DMutationRequest m => Some (DPbMutationRequest (Some (ProtoMutationRequest m)))
  | Encode, DHello m => Some (DPbHello (Some (ProtoHello m)))
  | Encode, DSubscribe m => Some (DPbSubscribe (Some (ProtoSubscribe m)))
  | Encode, DInvalidationBatch m => Some (DPbInvalidationBatch (Some (ProtoInvalidationBatch m)))
  | Decode, DPbGetRequest p => wrap_ok DRpcGetRequest (FromProtoGetRequest p)
  | Decode, DPbGetResponse p => wrap_ok DGetResponse (FromProtoGetResponse p)
  | Decode, DPbMutationRequest p => wrap_ok DMutationRequest (FromProtoMutationRequest p)
  | Decode, DPbHello p => wrap_ok DHello (FromProtoHello p)
  | Decode, DPbSubscribe p => wrap_ok DSubscribe (FromProtoSubscribe p)
  | Decode, DPbInvalidationBatch p => wrap_ok DInvalidationBatch (FromProtoInvalidationBatch p)
  | _, _ => None
  end.

(** A heap-level copy that matches the copy of the value. *)
Definition copies (h : heap) (d : option dval) (r : option (hval * heap)) : Prop :=
  match r with
  | Some r => ∃ w, d = Some w ∧ returns h w r
  | None => d = None
  end.

(** Functions on values wrapped in a constructor. *)
Section wrapped.
Context {A B V W : Type} `{Owned A V, Owned B W} (c : B → hval) (d : W → dval).
Context (Hwf : ∀ h b, hval_wf h (c b) = o_wf (V := W) h b).
Context (Hfp : ∀ h b, hval_fp h (c b) = o_fp (V := W) h b).
Context (Habs : ∀ h b, hval_abs h (c b) = d (o_abs h b)).

Lemma returns_wrapped (h h1 : heap) (w : W) (b : B) :
  returns h w (b, h1) → returns h (d w) (c b, h1).
Proof.
  intros (Hs & Hw & <- & Hf). unfold returns. cbn in *. by rewrite Hwf, Hfp, Habs.
Qed.

Lemma wrapped_copy (g : V → W) (f : A → heap → B * heap) (h : heap) (a : A) :
  converts g f → o_wf (V := V) h a →
  copies h (Some (d (g (o_abs h a)))) (wrap_copy c (f a h)).
Proof.
  intros Hc Ha. specialize (Hc h a Ha). eexists. split; [done|].
  destruct (f a h) as [b h1]. by apply returns_wrapped.
Qed.

Lemma wrapped_decoded (g : V → W * error) (f : A → heap → (B * error) * heap) (h : heap) (a : A) :
  converts g f → o_wf (V := V) h a →
  copies h (wrap_ok d (g (o_abs h a))) (wrap_decoded c (f a h)).
Proof.
  intros Hc Ha. specialize (Hc h a Ha). destruct (f a h) as [[b e] h1], (g (o_abs h a)) as [w e'].
  apply returns_fst in Hc as [Hc ->]. destruct e' as [e'|]; [done|].
  eexists. split; [done|]. by apply returns_wrapped.
Qed.
End wrapped.

Ltac copy_by lemma c d conv :=
  match goal with
  | Hv : o_wf ?h _ |- _ =>
      refine (lemma _ _ _ _ _ _ c d _ _ _ _ _ h _ conv Hv); done
  end.

Lemma hval_copy_copies c h v :
  hval_wf h v → copies h (dval_copy c (hval_abs h v)) (hval_copy c v h).
Proof.
  intros Hv. destruct c, v; try done; cbn [hval_copy dval_copy hval_abs hval_wf] in *.
  - copy_by @wrapped_copy HWireGetRequest DWireGetRequest wire_GetRequest_Clone_clones.
  - copy_by @wrapped_copy HSetRequest DSetRequest SetRequest_Clone_clones.
  - copy_by @wrapped_copy HDeleteRequest DDeleteRequest DeleteRequest_Clone_clones.
  - copy_by @wrapped_copy HRpcGetRequest DRpcGetRequest rpc_GetRequest_Clone_clones.
  - copy_by @wrapped_copy HGetResponse DGetResponse GetResponse_Clone_clones.
  - copy_by @wrapped_copy HMutationRequest DMutationRequest MutationRequest_Clone_clones.
  - copy_by @wrapped_copy HMutationFingerprint DMutationFingerprint MutationFingerprint_Clone_clones.
  - copy_by @wrapped_copy HGetResult DGetResult GetResult_Clone_clones.
  - copy_by @wrapped_copy HMutation DMutation Mutation_Clone_clones.
  - copy_by @wrapped_copy HHello DHello Hello_Clone_clones.
  - copy_by @wrapped_copy HSubscribe DSubscribe Subscribe_Clone_clones.
  - copy_by @wrapped_copy HInvalidationBatch DInvalidationBatch InvalidationBatch_Clone_clones.
  - copy_by @wrapped_copy HPbGetRequest DPbGetRequest h_ProtoGetRequest_converts.
  - copy_by @wrapped_copy HPbGetResponse DPbGetResponse h_ProtoGetResponse_converts.
  - copy_by @wrapped_copy HPbMutationRequest DPbMutationRequest h_ProtoMutationRequest_converts.
  - copy_by @wrapped_copy HPbHello DPbHello h_ProtoHello_converts.
  - copy_by @wrapped_copy HPbSubscribe DPbSubscribe h_ProtoSubscribe_converts.
  - copy_by @wrapped_copy HPbInvalidationBatch DPbInvalidationBatch h_ProtoInvalidationBatch_converts.
  - copy_by @wrapped_decoded HRpcGetRequest DRpcGetRequest h_FromProtoGetRequest_converts.
  - copy_by @wrapped_decoded HGetResponse DGetResponse h_FromProtoGetResponse_converts.
  - copy_by @wrapped_decoded HMutationRequest DMutationRequest h_FromProtoMutationRequest_converts.
  - copy_by @wrapped_decoded HHello DHello h_FromProtoHello_converts.
  - copy_by @wrapped_decoded HSubscribe DSubscribe h_FromProtoSubscribe_converts.
  - copy_by @wrapped_decoded HInvalidationBatch DInvalidationBatch h_FromProtoInvalidationBatch_converts.
Qed.

(** ** States and steps *)

Record state := mkState { st_heap : heap; st_vals : gmap nat hval }.

(** Party [i] copies its value for party [j]; party [i] writes its own value;
    party [j] builds or decodes a new value; party [i] drops its value. *)
Inductive label := LCopy (c : copy) (i j : nat) | LWrite (i : nat) | LNew (j : nat) | LDrop (i : nat).

Inductive step : state → label → state → Prop :=
| step_copy h vals c i j v v' h' :
    vals !! i = Some v → vals !! j = None → hval_copy c v h = Some (v', h') →
    step (mkState h vals) (LCopy c i j) (mkState h' (<[j := v']> vals))
| step_write h vals i v v' h' :
    vals !! i = Some v →
    (* objects outside the value stay, new ones may appear *)
    (∀ l, l ∈ dom h → l ∉ hval_fp h v → h' !! l = h !! l) →
    hval_wf h' v' → hval_fp h' v' ⊆ hval_fp h v ∪ (dom h' ∖ dom h) →
    step (mkState h vals) (LWrite i) (mkState h' (<[i := v']> vals))
| step_new h vals j v h' :
    vals !! j = None → h ⊆ h' → hval_wf h' v → hval_fp h' v ## dom h →
    step (mkState h vals) (LNew j) (mkState h' (<[j := v]> vals))
| step_drop h vals i :
    step (mkState h vals) (LDrop i) (mkState h (delete i vals)).

Inductive exec : state → list label → state → Prop :=
| exec_done s : exec s [] s
| exec_step s l s1 tr s2 : step s l s1 → exec s1 tr s2 → exec s (l :: tr) s2.

(** The values are well-formed and in disjoint memory. *)
Definition separated (s : state) : Prop :=
  (∀ i v, st_vals s !! i = Some v → hval_wf (st_heap s) v) ∧
  (∀ i j v w, i ≠ j → st_vals s !! i = Some v → st_vals s !! j = Some w →
     hval_fp (st_heap s) v ## hval_fp (st_heap s) w).

(** The value of party [k] in the two states: the same, standing for the same. *)
Definition unchanged (k : nat) (s s' : state) : Prop :=
  ∀ v, st_vals s !! k = Some v →
    st_vals s' !! k = Some v ∧ hval_abs (st_heap s') v = hval_abs (st_heap s) v.

(** The party whose value a step overwrites or drops. *)
Definition touches (l : label) : option nat :=
  match l with LWrite i | LDrop i => Some i | LCopy _ _ _ | LNew _ => None end.

(** Every step replaces or adds one value, [v'] of party [j], whose memory is
    new or that of the value it replaces, and leaves the objects of all other
    values as they were. *)
Lemma separated_update h vals h' j v' :
  separated (mkState h vals) →
  hval_wf h' v' →
  (∀ i v, i ≠ j → vals !! i = Some v → ∀ l, l ∈ hval_fp h v → h' !! l = h !! l) →
  (∀ i v, i ≠ j → vals !! i = Some v → hval_fp h v ## hval_fp h' v') →
  separated (mkState h' (<[j := v']> vals)) ∧
  ∀ k, k ≠ j → unchanged k (mkState h vals) (mkState h' (<[j := v']> vals)).
Proof.
  intros [Hwf Hsep] Hv' Hkeep Hdis. cbn in Hwf, Hsep.
  assert (∀ i v, i ≠ j → vals !! i = Some v →
    hval_wf h' v ∧ hval_fp h' v = hval_fp h v ∧ hval_abs h' v = hval_abs h v) as Hother.
  { intros i v Hi Hv. eapply hval_local; [by eapply Hwf|by eapply Hkeep]. }
  split; [split|]; cbn.
  - intros i v [[<- <-]|[Hi Hv]]%lookup_insert_Some; [done|]. by destruct (Hother i v (not_eq_sym Hi) Hv).
  - intros i k v w Hik [[<- <-]|[Hi Hv]]%lookup_insert_Some [[Hk <-]|[Hk Hw]]%lookup_insert_Some.
    + done.
    + destruct (Hother k w (not_eq_sym Hk) Hw) as (_ & -> & _). symmetry. by eapply Hdis.
    + subst k. destruct (Hother i v (not_eq_sym Hi) Hv) as (_ & -> & _). by eapply Hdis.
    + destruct (Hother k w (not_eq_sym Hk) Hw) as (_ & -> & _).
      destruct (Hother i v (not_eq_sym Hi) Hv) as (_ & -> & _). by apply (Hsep i k).
  - intros k Hk v Hv. cbn in *. rewrite lookup_insert_ne by done.
    by destruct (Hother k v Hk Hv) as (_ & _ & ->).
Qed.

(** A value in new memory. *)
Lemma separated_new h vals h' j v' :
  separated (mkState h vals) → vals !! j = None → h ⊆ h' → hval_wf h' v' →
  hval_fp h' v' ## dom h →
  separated (mkState h' (<[j := v']> vals)) ∧
  ∀ k, unchanged k (mkState h vals) (mkState h' (<[j := v']> vals)).
Proof.
  intros [Hwf Hsep] Hj Hsub Hw Hf. cbn in Hwf, Hsep.
  assert (∀ i v, vals !! i = Some v → hval_fp h v ⊆ dom h) as Hdom
    by (intros i v Hv; by eapply hval_dom, Hwf).
  destruct (separated_update h vals h' j v') as [Hs' Hu]; [by split|done|..].
  - intros i v _ Hv l Hl. apply (Hdom i v Hv), elem_of_dom in Hl as [o Ho].
    rewrite Ho. by eapply lookup_weaken.
  - intros i v _ Hv. specialize (Hdom i v Hv). set_solver.
  - split; [done|]. intros k. destruct (decide (k = j)) as [->|]; [|by apply Hu].
    intros v Hv. cbn in Hv. congruence.
Qed.

Lemma step_separated s l s' :
  step s l s' → separated s →
  separated s' ∧ ∀ k, touches l ≠ Some k → unchanged k s s'.
Proof.
  intros [h vals c i j v v' h' Hi Hj Hc|h vals i v v' h' Hi Hkeep Hw Hf
    |h vals j v h' Hj Hsub Hw Hf|h vals i] Hs.
  - pose proof (hval_copy_copies c h v (proj1 Hs i v Hi)) as Hcopy. rewrite Hc in Hcopy.
    destruct Hcopy as (w & _ & Hsub & Hw & _ & Hf). cbn in Hsub, Hw, Hf.
    destruct (separated_new h vals h' j v') as [Hs' Hu]; [done..|]. by split.
  - destruct Hs as [Hwf Hsep]. cbn in Hwf, Hsep.
    assert (∀ k w, k ≠ i → vals !! k = Some w → hval_fp h w ⊆ dom h ∧ hval_fp h w ## hval_fp h v)
      as Hd.
    { intros k w Hk Hw'. split; [by eapply hval_dom, Hwf|by apply (Hsep k i)]. }
    destruct (separated_update h vals h' i v') as [Hs' Hu]; [by split|done|..].
    + intros k w Hk Hw' x Hx. destruct (Hd k w Hk Hw'). apply Hkeep; set_solver.
    + intros k w Hk Hw'. destruct (Hd k w Hk Hw'). set_solver.
    + split; [done|]. intros k Hk. apply Hu. cbn in Hk. congruence.
  - destruct (separated_new h vals h' j v) as [Hs' Hu]; [done..|]. by split.
  - destruct Hs as [Hwf Hsep]. cbn in Hwf, Hsep. split; [split|]; cbn.
    + intros k v [_ Hv]%lookup_delete_Some. by eapply Hwf.
    + intros k k' v w Hne [_ Hv]%lookup_delete_Some [_ Hw]%lookup_delete_Some. by apply (Hsep k k').
    + intros k Hk v Hv. cbn in *. rewrite lookup_delete_ne by congruence. done.
Qed.

Lemma exec_separated s tr s' :
  exec s tr s' → separated s →
  separated s' ∧ ∀ k, (∀ l, l ∈ tr → touches l ≠ Some k) → unchanged k s s'.
Proof.
  induction 1 as [s|s l s1 tr s2 Hstep _ IH]; intros Hs.
  { split; [done|]. by intros k _ v Hv. }
  destruct (step_separated s l s1 Hstep Hs) as [Hs1 Hu1]. destruct (IH Hs1) as [Hs2 Hu2].
  split; [done|]. intros k Hk v Hv.
  destruct (Hu1 k (Hk l ltac:(set_solver)) v Hv) as [Hv1 <-].
  apply Hu2; [set_solver|done].
Qed.

Lemma step_copy_inv s c i j s1 :
  step s (LCopy c i j) s1 → separated s →
  ∃ v v' w, st_vals s !! i = Some v ∧ dval_copy c (hval_abs (st_heap s) v) = Some w ∧
    st_vals s1 !! j = Some v' ∧ hval_abs (st_heap s1) v' = w.
Proof.
  inversion 1 as [h vals ? ? ? v v' h' Hi Hj Hc| | |]; subst. intros [Hwf _].
  pose proof (hval_copy_copies c h v (Hwf i v Hi)) as Hcopy. rewrite Hc in Hcopy.
  destruct Hcopy as (w & Hw & _ & _ & Ha & _). exists v, v', w.
  split_and!; [done|done|cbn; apply lookup_insert_eq|done].
Qed.

(** A copy, some time later. *)
Lemma exec_copy s c i j tr s' v :
  separated s → exec s (LCopy c i j :: tr) s' → (∀ l, l ∈ tr → touches l ≠ Some j) →
  st_vals s !! i = Some v →
  ∃ w v', dval_copy c (hval_abs (st_heap s) v) = Some w ∧
    st_vals s' !! j = Some v' ∧ hval_abs (st_heap s') v' = w.
Proof.
  intros Hs Hexec Hj Hv. inversion Hexec as [|? ? s1 ? ? Hstep Hrest]; subst.
  destruct (step_separated _ _ _ Hstep Hs) as [Hs1 _].
  destruct (exec_separated _ _ _ Hrest Hs1) as [_ Hu].
  destruct (step_copy_inv _ _ _ _ _ Hstep Hs) as (v0 & v' & w & Hv0 & Hw & Hv' & Ha).
  simplify_eq. destruct (Hu j Hj v' Hv') as [? Hsame]. exists (hval_abs (st_heap s1) v'), v'.
  done.
Qed.

(** C16. Copying isolates the parties of a program, whatever the interleaving.
    Along every execution of clones, conversions, writes of owners to their own
    memory, new values and dropped values, the values of different parties
    stay well-formed and in disjoint memory; a value changes only by a step of
    its own party; and a copy stands for the image of the original at the time
    of the call (the value itself, its encoding or its decoding) until its own
    party writes it, even when the original is overwritten. *)
Theorem copies_stay_separated (s : state) (tr : list label) (s' : state) :
  separated s → exec s tr s' →
  separated s' ∧
  (∀ k, (∀ l, l ∈ tr → touches l ≠ Some k) → unchanged k s s') ∧
  (∀ c i j tr' v, tr = LCopy c i j :: tr' → (∀ l, l ∈ tr' → touches l ≠ Some j) →
     st_vals s !! i = Some v →
     ∃ w v', dval_copy c (hval_abs (st_heap s) v) = Some w ∧
       st_vals s' !! j = Some v' ∧ hval_abs (st_heap s') v' = w).
Proof.
  intros Hs Hexec. destruct (exec_separated s tr s' Hexec Hs) as [Hs' Hu]. split_and!; [done..|].
  intros c i j tr' v -> Hj Hv. by eapply exec_copy.
Qed.

(** A value of the program that is a valid message. *)
Definition valid_message (d : dval) : Prop :=
  match d with
  | DRpcGetRequest m => go_typed m ∧ rpc_GetRequest_Validate m = None
  | DGetResponse m => go_typed m ∧ GetResponse_Validate m = None
  | DMutationRequest m => go_typed m ∧ MutationRequest_Validate m = None
  | DHello m => go_typed m ∧ Hello_Validate m = None
  | DSubscribe m => go_typed m ∧ Subscribe_Validate m = None
  | DInvalidationBatch m => go_typed m ∧ InvalidationBatch_Validate m = None
  | _ => False
  end.

Lemma encode_decode d :
  valid_message d → ∃ w, dval_copy Encode d = Some w ∧ dval_copy Decode w = Some d.
Proof.
  destruct d; cbn [valid_message]; try done; intros [Ht Hv];
    (eexists; split; [reflexivity|]; cbn [dval_copy]).
  - by rewrite rpc_GetRequest_roundtrip.
  - by rewrite GetResponse_roundtrip.
  - by rewrite MutationRequest_roundtrip.
  - by rewrite Hello_roundtrip.
  - by rewrite Subscribe_roundtrip.
  - by rewrite InvalidationBatch_roundtrip.
Qed.

(** A message survives the network under interference: after party [i]
    encodes a valid message for the transport [j], whatever the parties do
    (party [i] overwriting or dropping its own message included) as long as
    [j] keeps the bytes it was given, decoding what [j] holds succeeds and
    returns the message that was encoded. *)
Lemma transmission_isolated (s : state) (i j : nat) (tr : list label) (s' : state) (v : hval) :
  separated s → exec s (LCopy Encode i j :: tr) s' → (∀ l, l ∈ tr → touches l ≠ Some j) →
  st_vals s !! i = Some v → valid_message (hval_abs (st_heap s) v) →
  ∃ p v' h', st_vals s' !! j = Some p ∧
    hval_copy Decode p (st_heap s') = Some (v', h') ∧
    hval_abs h' v' = hval_abs (st_heap s) v.
Proof.
  intros Hs Hexec Hj Hv Hok. destruct (exec_separated _ _ _ Hexec Hs) as [[Hwf _] _].
  destruct (exec_copy _ _ _ _ _ _ _ Hs Hexec Hj Hv) as (w & p & Hw & Hp & Ha).
  destruct (encode_decode _ Hok) as (w' & Hw' & Hd). rewrite Hw in Hw'. injection Hw' as <-.
  pose proof (hval_copy_copies Decode _ p (Hwf j p Hp)) as Hcopy. rewrite Ha, Hd in Hcopy.
  destruct (hval_copy Decode p (st_heap s')) as [[v' h']|] eqn:E; [|discriminate Hcopy].
  destruct Hcopy as (u & [= <-] & _ & _ & Hu & _). by exists p, v', h'.
Qed.

(** A party that holds a value in well-formed memory can copy it when the copy
    of the value exists. *)
Lemma copy_possible s c i j v w :
  separated s → st_vals s !! i = Some v → st_vals s !! j = None →
  dval_copy c (hval_abs (st_heap s) v) = Some w →
  ∃ s', step s (LCopy c i j) s' ∧ separated s' ∧
    ∃ v', st_vals s' !! j = Some v' ∧ hval_abs (st_heap s') v' = w.
Proof.
  intros Hs Hv Hj Hw. pose proof (hval_copy_copies c _ v (proj1 Hs i v Hv)) as Hcopy.
  destruct (hval_copy c v (st_heap s)) as [[v' h']|] eqn:E; [|cbn in Hcopy; congruence].
  destruct s as [h vals]. cbn in *.
  assert (step (mkState h vals) (LCopy c i j) (mkState h' (<[j := v']> vals))) as Hstep
    by by eapply step_copy.
  exists (mkState h' (<[j := v']> vals)). split; [done|].
  split; [by destruct (step_separated _ _ _ Hstep Hs)|].
  destruct Hcopy as (u & Hu & _ & _ & Ha & _). exists v'. cbn in *.
  split; [apply lookup_insert_eq|]. congruence.
Qed.

(** C17. A valid message can always be sent and always be received.  In every
    separated state a party with a valid message can encode it for a free
    transport; from then on, wherever the parties have got to, as long as the
    transport keeps what it was given, any free party can decode it, the step
    leaves the state separated, and the party then holds the message that was
    sent. *)
Theorem transmission_possible (s : state) (i j : nat) (v : hval) :
  separated s → st_vals s !! i = Some v → st_vals s !! j = None →
  valid_message (hval_abs (st_heap s) v) →
  (∃ s1, step s (LCopy Encode i j) s1) ∧
  ∀ tr s' k, exec s (LCopy Encode i j :: tr) s' → (∀ l, l ∈ tr → touches l ≠ Some j) →
    st_vals s' !! k = None →
    ∃ s2, step s' (LCopy Decode j k) s2 ∧ separated s2 ∧
      ∃ v', st_vals s2 !! k = Some v' ∧
        hval_abs (st_heap s2) v' = hval_abs (st_heap s) v.
Proof.
  intros Hs Hv Hj Hok. destruct (encode_decode _ Hok) as (w & Hw & Hd). split.
  { destruct (copy_possible s Encode i j v w Hs Hv Hj Hw) as (s1 & ? & _). by exists s1. }
  intros tr s' k Hexec Htr Hk. destruct (exec_separated _ _ _ Hexec Hs) as [Hs' _].
  destruct (exec_copy _ _ _ _ _ _ _ Hs Hexec Htr Hv) as (w' & p & Hw' & Hp & Ha).
  apply (copy_possible s' Decode j k p); [done..|]. congruence.
Qed.

(** A party holds a mutation request; it is encoded for the transport, and its
    owner then overwrites the first byte of its key. *)
Definition sample_request : hval := HMutationRequest
  (mk_h_MutationRequest OpSet (mkSlice (Some 1%positive) 0 1) nil_slice 0 (NewMutationID 1 2)
     0 0 0 0 7).
Definition sample_start : state :=
  mkState {[1%positive := OBytes (string_bytes "a")]} {[0%nat := sample_request]}.
Definition sample_copy (c : copy) : hval * heap :=
  default (sample_request, ∅) (hval_copy c sample_request (st_heap sample_start)).
Definition sample_end (c : copy) : state :=
  mkState (<[1%positive := OBytes (string_bytes "b")]> (sample_copy c).2)
    (<[0%nat := sample_request]> (<[1%nat := (sample_copy c).1]> (st_vals sample_start))).

Lemma sample_separated : separated sample_start.
Proof.
  split; cbn.
  - intros i v [<- <-]%lookup_singleton_Some. split; [|done].
    exists (string_bytes "a"). by vm_compute.
  - intros i j v w Hne [<- <-]%lookup_singleton_Some [<- <-]%lookup_singleton_Some. done.
Qed.

Lemma sample_exec c : c ≠ Decode → exec sample_start [LCopy c 0 1; LWrite 0] (sample_end c).
Proof.
  intros Hc. econstructor.
  - apply (step_copy _ _ c 0 1 sample_request (sample_copy c).1 (sample_copy c).2);
      [done|done|destruct c; [reflexivity|reflexivity|by destruct Hc]].
  - econstructor; [|constructor].
    apply (step_write _ _ _ sample_request); [done| | |set_solver].
    + intros l _ Hl. apply lookup_insert_ne. cbn in Hl. set_solver.
    + split; [|done]. exists (string_bytes "b"). cbn [hmr_Key sl_array fst].
      rewrite lookup_insert_eq. split; [done|by vm_compute].
Qed.

Lemma sample_untouched l : l ∈ [LWrite 0] → touches l ≠ Some 1%nat.
Proof. by intros ->%list_elem_of_singleton. Qed.

Lemma copies_stay_separated_witness :
  ∃ w v, dval_copy Clone (hval_abs (st_heap sample_start) sample_request) = Some w ∧
    st_vals (sample_end Clone) !! 1%nat = Some v ∧
    hval_abs (st_heap (sample_end Clone)) v = w.
Proof.
  apply (copies_stay_separated _ _ _ sample_separated (sample_exec Clone ltac:(done)))
    with (i := 0%nat) (tr' := [LWrite 0]); [done|apply sample_untouched|done].
Defined.

Lemma transmission_isolated_witness :
  ∃ p v h, st_vals (sample_end Encode) !! 1%nat = Some p ∧
    hval_copy Decode p (st_heap (sample_end Encode)) = Some (v, h) ∧
    hval_abs h v = hval_abs (st_heap sample_start) sample_request.
Proof.
  apply (transmission_isolated sample_start 0 1 [LWrite 0] (sample_end Encode) sample_request
    sample_separated (sample_exec Encode ltac:(done)) sample_untouched); by vm_compute.
Defined.

Lemma transmission_possible_witness :
  ∃ s v, step (sample_end Encode) (LCopy Decode 1 2) s ∧ st_vals s !! 2%nat = Some v ∧
    hval_abs (st_heap s) v = hval_abs (st_heap sample_start) sample_request.
Proof.
  destruct (transmission_possible sample_start 0 1 sample_request sample_separated)
    as [_ Hreceive]; [done|done|by vm_compute|].
  destruct (Hreceive [LWrite 0] (sample_end Encode) 2%nat (sample_exec Encode ltac:(done))
    sample_untouched) as (s & Hstep & _ & v & Hv & Ha); [by vm_compute|].
  exists s, v. by split_and!.
Defined.
