(* ===== verification/PbWire.v ===== *)
(** * The protobuf wire format

    The published format in which messages travel and in which the generated
    files embed their descriptors: a message is a sequence of records, each a
    field number with a base-128 varint or with a length and that many bytes.
    The encoder belongs to the protobuf runtime, which is not part of the
    repository; this file is the specification of the format, with the proof
    that a sequence of records is read back from its bytes, so that equal
    bytes mean equal records.  A reader gets any bytes: varints of more than
    64 bits, numbers out of range, truncated values and unbalanced groups are
    refused, and records of the types that no field of the schema has are
    passed over. *)

From S2P Require Import Prelude GoStd.

(** ** Varints: seven bits per byte, the lowest first, the top bit for "more" *)
Fixpoint varint_groups (k : nat) (n : Z) : bytes :=
  match k with
  | O => [to_byte n]
  | S k => if n <? 128 then [to_byte n] else to_byte (128 + n mod 128) :: varint_groups k (n / 128)
  end.

(** As many groups as the number has are enough ([parse_varint_varint]). *)
Definition varint (n : Z) : bytes := varint_groups (Z.to_nat (Z.log2 n / 7)) n.

(** At most ten bytes, of which the tenth holds the last bit of 64: [k] bytes may
    follow the first. *)
Fixpoint parse_varint_with (k : nat) (b : bytes) : option (Z * bytes) :=
  match b with
  | [] => None
  | c :: r =>
      let n := byte_Z c in
      match k with
      | O => if n <? 2 then Some (n, r) else None
      | S k =>
          if n <? 128 then Some (n, r)
          else match parse_varint_with k r with
               | Some (m, r) => Some (n - 128 + 128 * m, r)
               | None => None
               end
      end
  end.
Definition parse_varint : bytes → option (Z * bytes) := parse_varint_with 9.

(** ** Records *)
Inductive contents_of_record := PVarint (n : Z) | PLen (b : bytes).
Record wire_record := mkRecord { wr_number : Z; wr_payload : contents_of_record }.

Definition encode_record (r : wire_record) : bytes :=
  match wr_payload r with
  | PVarint n => varint (8 * wr_number r) ++ varint n
  | PLen b => varint (8 * wr_number r + 2) ++ varint (len b) ++ b
  end.

Definition encode_records (rs : list wire_record) : bytes := concat (map encode_record rs).

Definition max_field_number : Z := 2 ^ 29 - 1.
(** Inside groups, which are skipped, the runtime takes larger numbers. *)
Definition max_group_number : Z := 2 ^ 31 - 1.

(** The number and the wire type of a record, and the bytes after its tag. *)
Definition parse_tag (max : Z) (b : bytes) : option (Z * Z * bytes) :=
  match parse_varint b with
  | Some (tag, r) =>
      if (1 <=? tag / 8) && (tag / 8 <=? max) then Some (tag / 8, tag mod 8, r) else None
  | None => None
  end.

Definition split_bytes (n : Z) (b : bytes) : option (bytes * bytes) :=
  if n <=? len b then Some (take (Z.to_nat n) b, drop (Z.to_nat n) b) else None.

(** The value of a record of wire type [t].  Fields of the schema have the types
    0 (varint) and 2 (length); a value of eight (1) or four (5) bytes is passed
    over.  Groups are read by [skip_groups], and 6 and 7 are not types. *)
Definition parse_value (t : Z) (b : bytes) : option (option contents_of_record * bytes) :=
  if t =? 0 then
    match parse_varint b with Some (n, r) => Some (Some (PVarint n), r) | None => None end
  else if t =? 1 then
    match split_bytes 8 b with Some (_, r) => Some (None, r) | None => None end
  else if t =? 2 then
    match parse_varint b with
    | Some (n, r) =>
        match split_bytes n r with Some (c, r) => Some (Some (PLen c), r) | None => None end
    | None => None
    end
  else if t =? 5 then
    match split_bytes 4 b with Some (_, r) => Some (None, r) | None => None end
  else None.

(** What the format leaves to its implementation: which strings are valid UTF-8,
    and how deeply groups may be nested. *)
Class FormatRules := { utf8_valid : string → bool; group_limit : nat }.

(** Rules for examples: every string is a text. *)
Definition any_rules : FormatRules := {| utf8_valid := λ _, true; group_limit := 100 |}.

Section read.
Context `{FormatRules}.

(** The bytes after the end of the groups that are open, the innermost first: a
    group ends with the tag of type 4 with its number. *)
Fixpoint skip_groups (fuel : nat) (opened : list Z) (b : bytes) : option bytes :=
  match opened, fuel with
  | [], _ => Some b
  | _, O => None
  | num :: outer, S fuel =>
      match parse_tag max_group_number b with
      | None => None
      | Some (k, t, r) =>
          if t =? 4 then if k =? num then skip_groups fuel outer r else None
          else if t =? 3 then
            if (length opened <? group_limit)%nat then skip_groups fuel (k :: opened) r else None
          else
            match parse_value t r with
            | Some (_, r) => skip_groups fuel opened r
            | None => None
            end
      end
  end.

(** A record, if its value is of a type that fields have, and the rest. *)
Definition parse_record (b : bytes) : option (option wire_record * bytes) :=
  match parse_tag max_field_number b with
  | None => None
  | Some (k, t, r) =>
      if t =? 3 then
        if (0 <? group_limit)%nat then
          match skip_groups (length r) [k] r with Some r => Some (None, r) | None => None end
        else None
      else
        match parse_value t r with
        | Some (p, r) => Some (mkRecord k <$> p, r)
        | None => None
        end
  end.

Definition cons_option {A} (o : option A) (l : list A) : list A :=
  match o with Some x => x :: l | None => l end.

(** A record has at least one byte, so the number of bytes is enough fuel
    ([parse_with_enough]). *)
Fixpoint parse_with (fuel : nat) (b : bytes) : option (list wire_record) :=
  match b, fuel with
  | [], _ => Some []
  | _, O => None
  | _, S fuel =>
      match parse_record b with
      | Some (o, b) =>
          match parse_with fuel b with Some rs => Some (cons_option o rs) | None => None end
      | None => None
      end
  end.

Definition parse_records (b : bytes) : option (list wire_record) := parse_with (length b) b.
End read.

(** ** Varints are read back *)

Lemma varint_groups_parse k : ∀ j n r,
  0 <= n < 128 ^ (Z.of_nat k + 1) → n < 2 ^ (7 * Z.of_nat j + 1) →
  parse_varint_with j (varint_groups k n ++ r) = Some (n, r).
Proof.
  assert (∀ j n r, 0 <= n < 128 → n < 2 ^ (7 * Z.of_nat j + 1) →
    parse_varint_with j (to_byte n :: r) = Some (n, r)) as Hlast.
  { intros [|j] n r Hn Hj; cbn [parse_varint_with]; rewrite byte_Z_to_byte, Z.mod_small by lia.
    - change (2 ^ (7 * Z.of_nat 0 + 1)) with 2 in Hj. by destruct (Z.ltb_spec n 2); [|lia].
    - by destruct (Z.ltb_spec n 128); [|lia]. }
  induction k as [|k IH]; intros j n r Hn Hj; cbn [varint_groups]; [by apply Hlast|].
  destruct (Z.ltb_spec n 128) as [Hlt|Hge]; [apply Hlast; [lia|done]|].
  destruct j as [|j]; [change (2 ^ (7 * Z.of_nat 0 + 1)) with 2 in Hj; lia|].
  cbn [app parse_varint_with]. rewrite byte_Z_to_byte.
  pose proof (Z.mod_pos_bound n 128 ltac:(lia)). rewrite Z.mod_small by lia.
  destruct (Z.ltb_spec (128 + n mod 128) 128); [lia|].
  rewrite IH.
  - pose proof (Z.div_mod n 128 ltac:(lia)). do 2 f_equal. lia.
  - split; [apply Z.div_pos; lia|]. apply Z.div_lt_upper_bound; [lia|].
    rewrite Nat2Z.inj_succ in Hn.
    replace (Z.succ (Z.of_nat k) + 1) with (Z.succ (Z.of_nat k + 1)) in Hn by lia.
    rewrite Z.pow_succ_r in Hn by lia. lia.
  - apply Z.div_lt_upper_bound; [lia|].
    rewrite Nat2Z.inj_succ in Hj.
    replace (7 * Z.succ (Z.of_nat j) + 1) with (7 + (7 * Z.of_nat j + 1)) in Hj by lia.
    rewrite Z.pow_add_r in Hj by lia. change (2 ^ 7) with 128 in Hj. lia.
Qed.

Lemma varint_fuel n : 0 <= n → 0 <= n < 128 ^ (Z.of_nat (Z.to_nat (Z.log2 n / 7)) + 1).
Proof.
  intros Hn. split; [done|]. pose proof (Z.log2_nonneg n).
  rewrite Z2Nat.id by (apply Z.div_pos; lia). change 128 with (2 ^ 7).
  assert (0 <= Z.log2 n / 7) by (apply Z.div_pos; lia).
  rewrite <-Z.pow_mul_r by lia.
  destruct (decide (n = 0)) as [->|Hnz]; [done|].
  apply Z.log2_lt_pow2; [lia|].
  pose proof (Z.div_mod (Z.log2 n) 7 ltac:(lia)).
  pose proof (Z.mod_pos_bound (Z.log2 n) 7 ltac:(lia)). lia.
Qed.

Lemma parse_varint_varint n r : u64 n → parse_varint (varint n ++ r) = Some (n, r).
Proof.
  intros Hn. unfold u64 in Hn. apply varint_groups_parse; [apply varint_fuel; lia|].
  change (2 ^ (7 * Z.of_nat 9 + 1)) with (2 ^ 64). lia.
Qed.

Lemma varint_groups_length k : ∀ n, (1 <= length (varint_groups k n))%nat.
Proof. induction k as [|k IH]; intros n; cbn; [lia|]. case_if; cbn; lia. Qed.

Lemma varint_groups_bound k : ∀ j n,
  0 <= n < 128 ^ (Z.of_nat j + 1) → (length (varint_groups k n) <= j + 1)%nat.
Proof.
  induction k as [|k IH]; intros j n Hn; cbn [varint_groups length]; [lia|].
  destruct (Z.ltb_spec n 128); cbn [length]; [lia|].
  destruct j as [|j]; [rewrite Z.pow_1_r in Hn; lia|].
  specialize (IH j (n / 128)). enough (length (varint_groups k (n / 128)) <= j + 1)%nat by lia.
  apply IH. split; [apply Z.div_pos; lia|]. apply Z.div_lt_upper_bound; [lia|].
  rewrite Nat2Z.inj_succ in Hn.
  replace (Z.succ (Z.of_nat j) + 1) with (Z.succ (Z.of_nat j + 1)) in Hn by lia.
  rewrite Z.pow_succ_r in Hn by lia. lia.
Qed.

(** A number below [2 ^ (7 * k)] takes between one and [k] bytes. *)
Lemma varint_range k n : 1 <= k → 0 <= n < 2 ^ (7 * k) → 1 <= len (varint n) <= k.
Proof.
  intros Hk Hn. unfold len, varint.
  pose proof (varint_groups_length (Z.to_nat (Z.log2 n / 7)) n).
  assert (length (varint_groups (Z.to_nat (Z.log2 n / 7)) n) <= Z.to_nat (k - 1) + 1)%nat; [|lia].
  apply varint_groups_bound. rewrite Z2Nat.id, Z.sub_add by lia.
  change 128 with (2 ^ 7). rewrite <-Z.pow_mul_r by lia. done.
Qed.

(** ** Records are read back *)

(** No Go slice is as long as [2 ^ 63] bytes. *)
Definition max_len : Z := 2 ^ 63.

Definition record_ok (r : wire_record) : Prop :=
  1 <= wr_number r <= max_field_number ∧
  match wr_payload r with PVarint n => u64 n | PLen b => len b < max_len end.

Lemma split_bytes_app c b : split_bytes (len c) (c ++ b) = Some (c, b).
Proof.
  unfold split_bytes. rewrite len_app. pose proof (len_nonneg b).
  destruct (Z.leb_spec (len c) (len c + len b)); [|lia].
  unfold len. rewrite Nat2Z.id. by rewrite take_app_length, drop_app_length.
Qed.

Lemma parse_tag_varint k t r :
  1 <= k <= max_field_number → 0 <= t < 8 →
  parse_tag max_field_number (varint (8 * k + t) ++ r) = Some (k, t, r).
Proof.
  intros Hk Ht. unfold parse_tag. unfold max_field_number in *.
  rewrite parse_varint_varint by (unfold u64; lia).
  replace ((8 * k + t) / 8) with k by (rewrite Z.mul_comm, Z.div_add_l, Z.div_small by lia; lia).
  replace ((8 * k + t) mod 8) with t by (rewrite Z.mul_comm, Z.add_comm, Z_mod_plus_full, Z.mod_small by lia; lia).
  destruct (Z.leb_spec 1 k), (Z.leb_spec k (2 ^ 29 - 1)); done || lia.
Qed.

Lemma encode_record_nonempty r : (1 <= length (encode_record r))%nat.
Proof.
  unfold encode_record. destruct (wr_payload r); rewrite length_app;
    match goal with |- context [length (varint ?n)] =>
      pose proof (varint_groups_length (Z.to_nat (Z.log2 n / 7)) n) end;
    unfold varint in *; lia.
Qed.

Section read_back.
Context `{FormatRules}.

Lemma parse_record_encode r b :
  record_ok r → parse_record (encode_record r ++ b) = Some (Some r, b).
Proof.
  intros [Hnum Hp]. destruct r as [num [n|c]]; cbn [wr_number wr_payload encode_record] in *;
    unfold parse_record, encode_record; cbn [wr_number wr_payload]; rewrite <-!app_assoc.
  - rewrite <-(Z.add_0_r (8 * num)), parse_tag_varint by lia.
    unfold parse_value. cbn [Z.eqb]. by rewrite parse_varint_varint.
  - rewrite parse_tag_varint by lia. unfold parse_value. cbn [Z.eqb Pos.eqb].
    pose proof (len_nonneg c). unfold max_len in Hp.
    rewrite parse_varint_varint by (unfold u64; lia). by rewrite split_bytes_app.
Qed.

Lemma parse_with_encode rs : ∀ fuel,
  Forall record_ok rs → (length (encode_records rs) <= fuel)%nat →
  parse_with fuel (encode_records rs) = Some rs.
Proof.
  unfold encode_records.
  induction rs as [|r rs IH]; intros fuel Hok Hf; cbn [map concat] in *; [by destruct fuel|].
  apply Forall_cons_1 in Hok as [Hr Hok]. rewrite length_app in Hf.
  pose proof (encode_record_nonempty r). destruct fuel as [|fuel]; [lia|].
  pose proof (parse_record_encode r (concat (map encode_record rs)) Hr) as Hp.
  destruct (encode_record r ++ concat (map encode_record rs)) as [|c l] eqn:E.
  { apply app_eq_nil in E as [E _]. rewrite E in *. cbn in *. lia. }
  cbn [parse_with]. rewrite Hp, IH; [done|done|lia].
Qed.

(** What is written is read back, whole. *)
Lemma parse_records_encode rs :
  Forall record_ok rs → parse_records (encode_records rs) = Some rs.
Proof. intros Hok. by apply parse_with_encode. Qed.

Lemma encode_records_inj rs rs' :
  Forall record_ok rs → Forall record_ok rs' → encode_records rs = encode_records rs' → rs = rs'.
Proof.
  intros Hr Hr' E. pose proof (parse_records_encode rs Hr) as P.
  rewrite E, (parse_records_encode rs' Hr') in P. congruence.
Qed.

(** ** The fuel is enough *)

Lemma parse_varint_consumes k : ∀ b n r,
  parse_varint_with k b = Some (n, r) → (length r < length b)%nat.
Proof.
  induction k as [|k IH]; intros [|c b] n r E; cbn [parse_varint_with] in E; try done.
  - case_match; [|done]. injection E as _ <-. cbn. lia.
  - case_match; [injection E as _ <-; cbn; lia|].
    destruct (parse_varint_with k b) as [[m r']|] eqn:E'; [|done].
    injection E as _ <-. apply IH in E'. cbn. lia.
Qed.

Lemma parse_tag_consumes max b k t r : parse_tag max b = Some (k, t, r) → (length r < length b)%nat.
Proof.
  unfold parse_tag. destruct (parse_varint b) as [[tag r']|] eqn:E; [|done].
  case_match; [|done]. intros [= _ _ <-]. by apply parse_varint_consumes in E.
Qed.

Lemma split_bytes_length n b c r : split_bytes n b = Some (c, r) → (length r <= length b)%nat.
Proof. unfold split_bytes. case_match; [|done]. intros [= _ <-]. rewrite length_drop. lia. Qed.

Lemma parse_value_length t b p r : parse_value t b = Some (p, r) → (length r <= length b)%nat.
Proof.
  unfold parse_value. intros E. repeat case_match; simplify_eq;
    repeat match goal with
      | E : parse_varint _ = Some _ |- _ => apply parse_varint_consumes in E
      | E : split_bytes _ _ = Some _ |- _ => apply split_bytes_length in E
      end; lia.
Qed.

Lemma skip_groups_length fuel : ∀ opened b r,
  skip_groups fuel opened b = Some r → (length r <= length b)%nat.
Proof.
  induction fuel as [|fuel IH]; intros [|num outer] b r; cbn [skip_groups];
    try (intros [= <-]; lia); try done.
  destruct (parse_tag _ b) as [[[k t] r1]|] eqn:E; [|done]. apply parse_tag_consumes in E.
  case_match; [case_match; [|done]; intros ?%IH; lia|].
  case_match; [case_match; [|done]; intros ?%IH; lia|].
  destruct (parse_value t r1) as [[p r2]|] eqn:E'; [|done]. apply parse_value_length in E'.
  intros ?%IH. lia.
Qed.

Lemma skip_groups_enough f1 : ∀ f2 opened b,
  (length b <= f1)%nat → (length b <= f2)%nat → skip_groups f1 opened b = skip_groups f2 opened b.
Proof.
  assert (∀ fuel num outer, skip_groups fuel (num :: outer) [] = None) as Hnil
    by (intros [|fuel] num outer; reflexivity).
  induction f1 as [|f1 IH]; intros f2 [|num outer] b H1 H2;
    [by destruct f2| |by destruct f2|].
  { destruct b; [|cbn in H1; lia]. by rewrite !Hnil. }
  destruct f2 as [|f2]; [destruct b; [|cbn in H2; lia]; by rewrite !Hnil|].
  cbn [skip_groups]. destruct (parse_tag _ b) as [[[k t] r1]|] eqn:E; [|done].
  apply parse_tag_consumes in E. repeat case_match; try done; try (apply IH; lia).
  match goal with E : parse_value _ _ = Some _ |- _ => apply parse_value_length in E end.
  apply IH; lia.
Qed.

Lemma parse_record_consumes b o r : parse_record b = Some (o, r) → (length r < length b)%nat.
Proof.
  unfold parse_record. destruct (parse_tag _ b) as [[[k t] r1]|] eqn:E; [|done].
  apply parse_tag_consumes in E. intros E'. repeat case_match; simplify_eq;
    repeat match goal with
      | E : skip_groups _ _ _ = Some _ |- _ => apply skip_groups_length in E
      | E : parse_value _ _ = Some _ |- _ => apply parse_value_length in E
      end; lia.
Qed.

(** More fuel than bytes changes nothing: [parse_records] fails on malformed
    bytes only. *)
Lemma parse_with_enough f1 : ∀ f2 b,
  (length b <= f1)%nat → (length b <= f2)%nat → parse_with f1 b = parse_with f2 b.
Proof.
  induction f1 as [|f1 IH]; intros f2 [|c b] H1 H2; cbn [length] in *; try lia; try by destruct f2.
  destruct f2 as [|f2]; [lia|]. cbn [parse_with].
  destruct (parse_record (c :: b)) as [[o r]|] eqn:E; [|done].
  apply parse_record_consumes in E. cbn [length] in E. rewrite (IH f2) by lia. done.
Qed.

(** So it reads record by record. *)
Lemma parse_records_step b :
  parse_records b =
    if (length b =? 0)%nat then Some []
    else match parse_record b with
         | Some (o, r) => cons_option o <$> parse_records r
         | None => None
         end.
Proof.
  unfold parse_records. destruct b as [|c b]; [done|]. cbn [length Nat.eqb parse_with].
  destruct (parse_record (c :: b)) as [[o r]|] eqn:E; [|done].
  apply parse_record_consumes in E. cbn [length] in E.
  rewrite (parse_with_enough (length b) (length r)) by lia. by destruct (parse_with _ r).
Qed.
End read_back.

Lemma encode_records_app rs rs' :
  encode_records (rs ++ rs') = encode_records rs ++ encode_records rs'.
Proof. unfold encode_records. by rewrite map_app, concat_app. Qed.

(** The contents of a record are no longer than the whole. *)
Lemma encode_records_contents rs k b :
  mkRecord k (PLen b) ∈ rs → len b <= len (encode_records rs).
Proof.
  intros (l1 & l2 & ->)%list_elem_of_split. rewrite encode_records_app, len_app.
  unfold encode_records at 2. cbn [map concat]. rewrite len_app. unfold encode_record at 1.
  cbn [wr_payload]. rewrite !len_app.
  match goal with |- _ <= ?a + (?x + (?y + _) + ?z) =>
    assert (0 <= a) by apply len_nonneg; assert (0 <= x) by apply len_nonneg;
    assert (0 <= y) by apply len_nonneg; assert (0 <= z) by apply len_nonneg end.
  lia.
Qed.
