(* ===== verification/PbGo.v ===== *)
(** * What the generated message files declare (api/gen/gossipcache/v1/*.pb.go)

    The declarations that the protobuf runtime reads: the struct types with the
    tags of their fields, the wrapper structs of the oneofs, the embedded file
    descriptors, the tables of Go types and of dependency indices, and what the
    init functions pass besides.  The name tables of the enumerations are in
    [PbCommon] and [PbData]. *)

From S2P Require Import Prelude GoStd PbCommon PbControl PbData.
From Stdlib.Strings Require Import Ascii.

Local Open Scope string_scope.

(** ** Go types and struct declarations *)
Inductive go_type :=
| GoByte | GoUint32 | GoUint64 | GoBool | GoString
| GoNamed (T : string)
| GoPointer (T : string)
| GoSlice (t : go_type).

#[export] Instance go_type_eq_dec : EqDecision go_type.
Proof. solve_decision. Defined.

(** A field with its tag, a list of keys and quoted values. *)
Record go_field := mkField {
  gf_Name : string; gf_Type : go_type; gf_Tag : list (string * string) }.

(** ** String literals

    The descriptors are written as interpreted string literals.  The escape of
    a double quote is written [\x22] here, its other Go spelling. *)
Definition hex_digit (c : ascii) : option Z :=
  let n := Z.of_N (Ascii.N_of_ascii c) in
  (if (48 <=? n) && (n <=? 57) then Some (n - 48)
   else if (97 <=? n) && (n <=? 102) then Some (n - 87)
   else None)%Z.

Definition simple_escape (c : ascii) : option byte :=
  match c with
  | "a"%char => Some x07 | "b"%char => Some x08 | "t"%char => Some x09
  | "n"%char => Some x0a | "v"%char => Some x0b | "f"%char => Some x0c
  | "r"%char => Some x0d | "\"%char => Some x5c
  | _ => None
  end.

Fixpoint unquote (s : string) : option bytes :=
  match s with
  | "" => Some []
  | String "\"%char (String "x"%char (String h (String l r))) =>
      h ← hex_digit h; l ← hex_digit l; b ← unquote r; Some (to_byte (16 * h + l)%Z :: b)
  | String "\"%char (String c r) => c ← simple_escape c; b ← unquote r; Some (c :: b)
  | String c r => b ← unquote r; Some (byte_of_ascii c :: b)
  end.

(** The value of a sum of literals; a literal that does not parse has none. *)
Definition literal (lines : list string) : option bytes :=
  bs ← mapM unquote lines; Some (concat bs).

(** ** common.pb.go: structs *)

Definition struct_VersionTag : list go_field :=
  [mkField "state" (GoNamed "protoimpl.MessageState")
     [("protogen", "open.v1")];
   mkField "PartitionId" GoUint32
     [("protobuf", "varint,1,opt,name=partition_id,json=partitionId,proto3"); ("json", "partition_id,omitempty")];
   mkField "Sequence" GoUint64
     [("protobuf", "varint,2,opt,name=sequence,proto3"); ("json", "sequence,omitempty")];
   mkField "unknownFields" (GoNamed "protoimpl.UnknownFields") [];
   mkField "sizeCache" (GoNamed "protoimpl.SizeCache") []].

Definition struct_MutationID : list go_field :=
  [mkField "state" (GoNamed "protoimpl.MessageState")
     [("protogen", "open.v1")];
   mkField "Id" (GoSlice GoByte)
     [("protobuf", "bytes,1,opt,name=id,proto3"); ("json", "id,omitempty")];
   mkField "unknownFields" (GoNamed "protoimpl.UnknownFields") [];
   mkField "sizeCache" (GoNamed "protoimpl.SizeCache") []].

(** ** common.pb.go: descriptor and tables *)

Definition file_gossipcache_v1_common_proto_rawDesc : option bytes :=
  literal
    ["\n";
     "\x1bgossipcache/v1/common.proto\x12\x0egossipcache.v1\x22K\n";
     "\n";
     "VersionTag\x12!\n";
     "\fpartition_id\x18\x01 \x01(\rR\vpartitionId\x12\x1a\n";
     "\bsequence\x18\x02 \x01(\x04R\bsequence\x22\x1c\n";
     "\n";
     "MutationID\x12\x0e\n";
     "\x02id\x18\x01 \x01(\fR\x02id*\x8a\x02\n";
     "\x06Status\x12\r\n";
     "\tSTATUS_OK\x10\x00\x12\x14\n";
     "\x10STATUS_NOT_FOUND\x10\x01\x12\x18\n";
     "\x14STATUS_NOT_CAUGHT_UP\x10\x02\x12%\n";
     "!STATUS_ERR_DURABILITY_UNAVAILABLE\x10\x03\x12\x1d\n";
     "\x19STATUS_ERR_BAD_GENERATION\x10\x04\x12\x1b\n";
     "\x17STATUS_ERR_RATE_LIMITED\x10\x05\x12\x1f\n";
     "\x1bSTATUS_ERR_INVALID_ARGUMENT\x10\x06\x12$\n";
     " STATUS_ERR_WRITE_CONFIRM_TIMEOUT\x10\a\x12\x17\n";
     "\x13STATUS_ERR_INTERNAL\x10\b*>\n";
     "\n";
     "RecordKind\x12\x15\n";
     "\x11RECORD_KIND_VALUE\x10\x00\x12\x19\n";
     "\x15RECORD_KIND_TOMBSTONE\x10\x01*5\n";
     "\tWriteMode\x12\x13\n";
     "\x0fWRITE_MODE_FAST\x10\x00\x12\x13\n";
     "\x0fWRITE_MODE_SYNC\x10\x01*I\n";
     "\x0eStorageProfile\x12\x1a\n";
     "\x16STORAGE_PROFILE_MEMORY\x10\x00\x12\x1b\n";
     "\x17STORAGE_PROFILE_DURABLE\x10\x01*4\n";
     "\fConfirmLevel\x12$\n";
     " CONFIRM_LEVEL_INVALIDATE_APPLIED\x10\x00BGZEgithub.com/sanketn26/gossipcache/api/gen/gossipcache/v1;gossipcachev1b\x06proto3"].

Definition file_gossipcache_v1_common_proto_goTypes : list go_type :=
  [GoNamed "Status";
   GoNamed "RecordKind";
   GoNamed "WriteMode";
   GoNamed "StorageProfile";
   GoNamed "ConfirmLevel";
   GoPointer "VersionTag";
   GoPointer "MutationID"].

Definition file_gossipcache_v1_common_proto_depIdxs : list Z :=
  [0; 0; 0; 0; 0]%Z.

Definition file_gossipcache_v1_common_proto_counts : nat * nat * nat * nat := (5, 2, 0, 0)%nat.

(** The message structs of the file and, apart from them, the wrapper structs. *)
Definition common_structs : list (string * list go_field) :=
  [("VersionTag", struct_VersionTag);
   ("MutationID", struct_MutationID)].

Definition common_wrappers : list (string * list go_field) :=
  [].

Definition common_enums : list (string * (list (Z * string) * list (string * Z))) :=
  [("Status", (pb_Status_name, pb_Status_value));
   ("RecordKind", (pb_RecordKind_name, pb_RecordKind_value));
   ("WriteMode", (pb_WriteMode_name, pb_WriteMode_value));
   ("StorageProfile", (pb_StorageProfile_name, pb_StorageProfile_value));
   ("ConfirmLevel", (pb_ConfirmLevel_name, pb_ConfirmLevel_value))].

(** ** control.pb.go: structs *)

Definition struct_ControlClientMessage : list go_field :=
  [mkField "state" (GoNamed "protoimpl.MessageState")
     [("protogen", "open.v1")];
   mkField "Body" (GoNamed "isControlClientMessage_Body")
     [("protobuf_oneof", "body")];
   mkField "unknownFields" (GoNamed "protoimpl.UnknownFields") [];
   mkField "sizeCache" (GoNamed "protoimpl.SizeCache") []].

Definition struct_ControlClientMessage_Hello : list go_field :=
  [mkField "Hello" (GoPointer "Hello")
     [("protobuf", "bytes,1,opt,name=hello,proto3,oneof")]].

Definition struct_ControlClientMessage_Subscribe : list go_field :=
  [mkField "Subscribe" (GoPointer "Subscribe")
     [("protobuf", "bytes,2,opt,name=subscribe,proto3,oneof")]].

Definition struct_ControlClientMessage_StreamAcknowledgement : list go_field :=
  [mkField "StreamAcknowledgement" (GoPointer "StreamAcknowledgement")
     [("protobuf", "bytes,3,opt,name=stream_acknowledgement,json=streamAcknowledgement,proto3,oneof")]].

Definition struct_ControlClientMessage_ReplayRequest : list go_field :=
  [mkField "ReplayRequest" (GoPointer "ReplayRequest")
     [("protobuf", "bytes,4,opt,name=replay_request,json=replayRequest,proto3,oneof")]].

Definition struct_ControlClientMessage_InvalidateConfirm : list go_field :=
  [mkField "InvalidateConfirm" (GoPointer "InvalidateConfirm")
     [("protobuf", "bytes,5,opt,name=invalidate_confirm,json=invalidateConfirm,proto3,oneof")]].

Definition struct_ControlServerMessage : list go_field :=
  [mkField "state" (GoNamed "protoimpl.MessageState")
     [("protogen", "open.v1")];
   mkField "Body" (GoNamed "isControlServerMessage_Body")
     [("protobuf_oneof", "body")];
   mkField "unknownFields" (GoNamed "protoimpl.UnknownFields") [];
   mkField "sizeCache" (GoNamed "protoimpl.SizeCache") []].

Definition struct_ControlServerMessage_InvalidationBatch : list go_field :=
  [mkField "InvalidationBatch" (GoPointer "InvalidationBatch")
     [("protobuf", "bytes,1,opt,name=invalidation_batch,json=invalidationBatch,proto3,oneof")]].

Definition struct_ControlServerMessage_StreamCheckpoint : list go_field :=
  [mkField "StreamCheckpoint" (GoPointer "StreamCheckpoint")
     [("protobuf", "bytes,2,opt,name=stream_checkpoint,json=streamCheckpoint,proto3,oneof")]].

Definition struct_ControlServerMessage_ReplayUnavailable : list go_field :=
  [mkField "ReplayUnavailable" (GoPointer "ReplayUnavailable")
     [("protobuf", "bytes,3,opt,name=replay_unavailable,json=replayUnavailable,proto3,oneof")]].

Definition struct_ControlServerMessage_ControlError : list go_field :=
  [mkField "ControlError" (GoPointer "ControlError")
     [("protobuf", "bytes,4,opt,name=control_error,json=controlError,proto3,oneof")]].

Definition struct_ControlError : list go_field :=
  [mkField "state" (GoNamed "protoimpl.MessageState")
     [("protogen", "open.v1")];
   mkField "Status" (GoNamed "Status")
     [("protobuf", "varint,1,opt,name=status,proto3,enum=gossipcache.v1.Status"); ("json", "status,omitempty")];
   mkField "Detail" GoString
     [("protobuf", "bytes,2,opt,name=detail,proto3"); ("json", "detail,omitempty")];
   mkField "unknownFields" (GoNamed "protoimpl.UnknownFields") [];
   mkField "sizeCache" (GoNamed "protoimpl.SizeCache") []].

Definition struct_StreamWatermark : list go_field :=
  [mkField "state" (GoNamed "protoimpl.MessageState")
     [("protogen", "open.v1")];
   mkField "StreamId" GoUint32
     [("protobuf", "varint,1,opt,name=stream_id,json=streamId,proto3"); ("json", "stream_id,omitempty")];
   mkField "AppliedThrough" GoUint64
     [("protobuf", "varint,2,opt,name=applied_through,json=appliedThrough,proto3"); ("json", "applied_through,omitempty")];
   mkField "HubGeneration" GoUint64
     [("protobuf", "varint,3,opt,name=hub_generation,json=hubGeneration,proto3"); ("json", "hub_generation,omitempty")];
   mkField "unknownFields" (GoNamed "protoimpl.UnknownFields") [];
   mkField "sizeCache" (GoNamed "protoimpl.SizeCache") []].

Definition struct_Hello : list go_field :=
  [mkField "state" (GoNamed "protoimpl.MessageState")
     [("protogen", "open.v1")];
   mkField "NodeId" GoUint64
     [("protobuf", "varint,1,opt,name=node_id,json=nodeId,proto3"); ("json", "node_id,omitempty")];
   mkField "ProtocolVersion" GoUint32
     [("protobuf", "varint,2,opt,name=protocol_version,json=protocolVersion,proto3"); ("json", "protocol_version,omitempty")];
   mkField "MinSupportedVersion" GoUint32
     [("protobuf", "varint,3,opt,name=min_supported_version,json=minSupportedVersion,proto3"); ("json", "min_supported_version,omitempty")];
   mkField "Subscriptions" (GoSlice (GoPointer "StreamWatermark"))
     [("protobuf", "bytes,4,rep,name=subscriptions,proto3"); ("json", "subscriptions,omitempty")];
   mkField "ClusterId" GoString
     [("protobuf", "bytes,5,opt,name=cluster_id,json=clusterId,proto3"); ("json", "cluster_id,omitempty")];
   mkField "ExpectedHubGeneration" GoUint64
     [("protobuf", "varint,6,opt,name=expected_hub_generation,json=expectedHubGeneration,proto3"); ("json", "expected_hub_generation,omitempty")];
   mkField "unknownFields" (GoNamed "protoimpl.UnknownFields") [];
   mkField "sizeCache" (GoNamed "protoimpl.SizeCache") []].

Definition struct_Subscribe : list go_field :=
  [mkField "state" (GoNamed "protoimpl.MessageState")
     [("protogen", "open.v1")];
   mkField "HubGeneration" GoUint64
     [("protobuf", "varint,1,opt,name=hub_generation,json=hubGeneration,proto3"); ("json", "hub_generation,omitempty")];
   mkField "StreamIds" (GoSlice GoUint32)
     [("protobuf", "varint,2,rep,packed,name=stream_ids,json=streamIds,proto3"); ("json", "stream_ids,omitempty")];
   mkField "unknownFields" (GoNamed "protoimpl.UnknownFields") [];
   mkField "sizeCache" (GoNamed "protoimpl.SizeCache") []].

Definition struct_InvalidationEvent : list go_field :=
  [mkField "state" (GoNamed "protoimpl.MessageState")
     [("protogen", "open.v1")];
   mkField "StreamSequence" GoUint64
     [("protobuf", "varint,1,opt,name=stream_sequence,json=streamSequence,proto3"); ("json", "stream_sequence,omitempty")];
   mkField "Key" (GoSlice GoByte)
     [("protobuf", "bytes,2,opt,name=key,proto3"); ("json", "key,omitempty")];
   mkField "Version" (GoPointer "VersionTag")
     [("protobuf", "bytes,3,opt,name=version,proto3"); ("json", "version,omitempty")];
   mkField "Kind" (GoNamed "RecordKind")
     [("protobuf", "varint,4,opt,name=kind,proto3,enum=gossipcache.v1.RecordKind"); ("json", "kind,omitempty")];
   mkField "MutationId" (GoPointer "MutationID")
     [("protobuf", "bytes,5,opt,name=mutation_id,json=mutationId,proto3"); ("json", "mutation_id,omitempty")];
   mkField "unknownFields" (GoNamed "protoimpl.UnknownFields") [];
   mkField "sizeCache" (GoNamed "protoimpl.SizeCache") []].

Definition struct_InvalidationBatch : list go_field :=
  [mkField "state" (GoNamed "protoimpl.MessageState")
     [("protogen", "open.v1")];
   mkField "StreamId" GoUint32
     [("protobuf", "varint,1,opt,name=stream_id,json=streamId,proto3"); ("json", "stream_id,omitempty")];
   mkField "HubGeneration" GoUint64
     [("protobuf", "varint,2,opt,name=hub_generation,json=hubGeneration,proto3"); ("json", "hub_generation,omitempty")];
   mkField "Events" (GoSlice (GoPointer "InvalidationEvent"))
     [("protobuf", "bytes,3,rep,name=events,proto3"); ("json", "events,omitempty")];
   mkField "unknownFields" (GoNamed "protoimpl.UnknownFields") [];
   mkField "sizeCache" (GoNamed "protoimpl.SizeCache") []].

Definition struct_StreamAcknowledgement : list go_field :=
  [mkField "state" (GoNamed "protoimpl.MessageState")
     [("protogen", "open.v1")];
   mkField "StreamId" GoUint32
     [("protobuf", "varint,1,opt,name=stream_id,json=streamId,proto3"); ("json", "stream_id,omitempty")];
   mkField "AppliedThrough" GoUint64
     [("protobuf", "varint,2,opt,name=applied_through,json=appliedThrough,proto3"); ("json", "applied_through,omitempty")];
   mkField "unknownFields" (GoNamed "protoimpl.UnknownFields") [];
   mkField "sizeCache" (GoNamed "protoimpl.SizeCache") []].

Definition struct_StreamCheckpoint : list go_field :=
  [mkField "state" (GoNamed "protoimpl.MessageState")
     [("protogen", "open.v1")];
   mkField "StreamId" GoUint32
     [("protobuf", "varint,1,opt,name=stream_id,json=streamId,proto3"); ("json", "stream_id,omitempty")];
   mkField "HubGeneration" GoUint64
     [("protobuf", "varint,2,opt,name=hub_generation,json=hubGeneration,proto3"); ("json", "hub_generation,omitempty")];
   mkField "StreamHead" GoUint64
     [("protobuf", "varint,3,opt,name=stream_head,json=streamHead,proto3"); ("json", "stream_head,omitempty")];
   mkField "unknownFields" (GoNamed "protoimpl.UnknownFields") [];
   mkField "sizeCache" (GoNamed "protoimpl.SizeCache") []].

Definition struct_ReplayRequest : list go_field :=
  [mkField "state" (GoNamed "protoimpl.MessageState")
     [("protogen", "open.v1")];
   mkField "StreamId" GoUint32
     [("protobuf", "varint,1,opt,name=stream_id,json=streamId,proto3"); ("json", "stream_id,omitempty")];
   mkField "FromSequence" GoUint64
     [("protobuf", "varint,2,opt,name=from_sequence,json=fromSequence,proto3"); ("json", "from_sequence,omitempty")];
   mkField "ToSequence" GoUint64
     [("protobuf", "varint,3,opt,name=to_sequence,json=toSequence,proto3"); ("json", "to_sequence,omitempty")];
   mkField "unknownFields" (GoNamed "protoimpl.UnknownFields") [];
   mkField "sizeCache" (GoNamed "protoimpl.SizeCache") []].

Definition struct_ReplayUnavailable : list go_field :=
  [mkField "state" (GoNamed "protoimpl.MessageState")
     [("protogen", "open.v1")];
   mkField "StreamId" GoUint32
     [("protobuf", "varint,1,opt,name=stream_id,json=streamId,proto3"); ("json", "stream_id,omitempty")];
   mkField "HubGeneration" GoUint64
     [("protobuf", "varint,2,opt,name=hub_generation,json=hubGeneration,proto3"); ("json", "hub_generation,omitempty")];
   mkField "RequestedFrom" GoUint64
     [("protobuf", "varint,3,opt,name=requested_from,json=requestedFrom,proto3"); ("json", "requested_from,omitempty")];
   mkField "OldestAvailable" GoUint64
     [("protobuf", "varint,4,opt,name=oldest_available,json=oldestAvailable,proto3"); ("json", "oldest_available,omitempty")];
   mkField "StreamHead" GoUint64
     [("protobuf", "varint,5,opt,name=stream_head,json=streamHead,proto3"); ("json", "stream_head,omitempty")];
   mkField "unknownFields" (GoNamed "protoimpl.UnknownFields") [];
   mkField "sizeCache" (GoNamed "protoimpl.SizeCache") []].

Definition struct_InvalidateConfirm : list go_field :=
  [mkField "state" (GoNamed "protoimpl.MessageState")
     [("protogen", "open.v1")];
   mkField "StreamId" GoUint32
     [("protobuf", "varint,1,opt,name=stream_id,json=streamId,proto3"); ("json", "stream_id,omitempty")];
   mkField "StreamSequence" GoUint64
     [("protobuf", "varint,2,opt,name=stream_sequence,json=streamSequence,proto3"); ("json", "stream_sequence,omitempty")];
   mkField "NodeId" GoUint64
     [("protobuf", "varint,3,opt,name=node_id,json=nodeId,proto3"); ("json", "node_id,omitempty")];
   mkField "unknownFields" (GoNamed "protoimpl.UnknownFields") [];
   mkField "sizeCache" (GoNamed "protoimpl.SizeCache") []].

(** ** control.pb.go: descriptor and tables *)

Definition file_gossipcache_v1_control_proto_rawDesc : option bytes :=
  literal
    ["\n";
     "\x1cgossipcache/v1/control.proto\x12\x0egossipcache.v1\x1a\x1bgossipcache/v1/common.proto\x22\x84\x03\n";
     "\x14ControlClientMessage\x12-\n";
     "\x05hello\x18\x01 \x01(\v2\x15.gossipcache.v1.HelloH\x00R\x05hello\x129\n";
     "\tsubscribe\x18\x02 \x01(\v2\x19.gossipcache.v1.SubscribeH\x00R\tsubscribe\x12^\n";
     "\x16stream_acknowledgement\x18\x03 \x01(\v2%.gossipcache.v1.StreamAcknowledgementH\x00R\x15streamAcknowledgement\x12F\n";
     "\x0ereplay_request\x18\x04 \x01(\v2\x1d.gossipcache.v1.ReplayRequestH\x00R\rreplayRequest\x12R\n";
     "\x12invalidate_confirm\x18\x05 \x01(\v2!.gossipcache.v1.InvalidateConfirmH\x00R\x11invalidateConfirmB\x06\n";
     "\x04body\x22\xdc\x02\n";
     "\x14ControlServerMessage\x12R\n";
     "\x12invalidation_batch\x18\x01 \x01(\v2!.gossipcache.v1.InvalidationBatchH\x00R\x11invalidationBatch\x12O\n";
     "\x11stream_checkpoint\x18\x02 \x01(\v2 .gossipcache.v1.StreamCheckpointH\x00R\x10streamCheckpoint\x12R\n";
     "\x12replay_unavailable\x18\x03 \x01(\v2!.gossipcache.v1.ReplayUnavailableH\x00R\x11replayUnavailable\x12C\n";
     "\rcontrol_error\x18\x04 \x01(\v2\x1c.gossipcache.v1.ControlErrorH\x00R\fcontrolErrorB\x06\n";
     "\x04body\x22V\n";
     "\fControlError\x12.\n";
     "\x06status\x18\x01 \x01(\x0e2\x16.gossipcache.v1.StatusR\x06status\x12\x16\n";
     "\x06detail\x18\x02 \x01(\tR\x06detail\x22~\n";
     "\x0fStreamWatermark\x12\x1b\n";
     "\tstream_id\x18\x01 \x01(\rR\bstreamId\x12'\n";
     "\x0fapplied_through\x18\x02 \x01(\x04R\x0eappliedThrough\x12%\n";
     "\x0ehub_generation\x18\x03 \x01(\x04R\rhubGeneration\x22\x9d\x02\n";
     "\x05Hello\x12\x17\n";
     "\anode_id\x18\x01 \x01(\x04R\x06nodeId\x12)\n";
     "\x10protocol_version\x18\x02 \x01(\rR\x0fprotocolVersion\x122\n";
     "\x15min_supported_version\x18\x03 \x01(\rR\x13minSupportedVersion\x12E\n";
     "\rsubscriptions\x18\x04 \x03(\v2\x1f.gossipcache.v1.StreamWatermarkR\rsubscriptions\x12\x1d\n";
     "\n";
     "cluster_id\x18\x05 \x01(\tR\tclusterId\x126\n";
     "\x17expected_hub_generation\x18\x06 \x01(\x04R\x15expectedHubGeneration\x22Q\n";
     "\tSubscribe\x12%\n";
     "\x0ehub_generation\x18\x01 \x01(\x04R\rhubGeneration\x12\x1d\n";
     "\n";
     "stream_ids\x18\x02 \x03(\rR\tstreamIds\x22\xf1\x01\n";
     "\x11InvalidationEvent\x12'\n";
     "\x0fstream_sequence\x18\x01 \x01(\x04R\x0estreamSequence\x12\x10\n";
     "\x03key\x18\x02 \x01(\fR\x03key\x124\n";
     "\aversion\x18\x03 \x01(\v2\x1a.gossipcache.v1.VersionTagR\aversion\x12.\n";
     "\x04kind\x18\x04 \x01(\x0e2\x1a.gossipcache.v1.RecordKindR\x04kind\x12;\n";
     "\vmutation_id\x18\x05 \x01(\v2\x1a.gossipcache.v1.MutationIDR\n";
     "mutationId\x22\x92\x01\n";
     "\x11InvalidationBatch\x12\x1b\n";
     "\tstream_id\x18\x01 \x01(\rR\bstreamId\x12%\n";
     "\x0ehub_generation\x18\x02 \x01(\x04R\rhubGeneration\x129\n";
     "\x06events\x18\x03 \x03(\v2!.gossipcache.v1.InvalidationEventR\x06events\x22]\n";
     "\x15StreamAcknowledgement\x12\x1b\n";
     "\tstream_id\x18\x01 \x01(\rR\bstreamId\x12'\n";
     "\x0fapplied_through\x18\x02 \x01(\x04R\x0eappliedThrough\x22w\n";
     "\x10StreamCheckpoint\x12\x1b\n";
     "\tstream_id\x18\x01 \x01(\rR\bstreamId\x12%\n";
     "\x0ehub_generation\x18\x02 \x01(\x04R\rhubGeneration\x12\x1f\n";
     "\vstream_head\x18\x03 \x01(\x04R\n";
     "streamHead\x22r\n";
     "\rReplayRequest\x12\x1b\n";
     "\tstream_id\x18\x01 \x01(\rR\bstreamId\x12#\n";
     "\rfrom_sequence\x18\x02 \x01(\x04R\ffromSequence\x12\x1f\n";
     "\vto_sequence\x18\x03 \x01(\x04R\n";
     "toSequence\x22\xca\x01\n";
     "\x11ReplayUnavailable\x12\x1b\n";
     "\tstream_id\x18\x01 \x01(\rR\bstreamId\x12%\n";
     "\x0ehub_generation\x18\x02 \x01(\x04R\rhubGeneration\x12%\n";
     "\x0erequested_from\x18\x03 \x01(\x04R\rrequestedFrom\x12)\n";
     "\x10oldest_available\x18\x04 \x01(\x04R\x0foldestAvailable\x12\x1f\n";
     "\vstream_head\x18\x05 \x01(\x04R\n";
     "streamHead\x22r\n";
     "\x11InvalidateConfirm\x12\x1b\n";
     "\tstream_id\x18\x01 \x01(\rR\bstreamId\x12'\n";
     "\x0fstream_sequence\x18\x02 \x01(\x04R\x0estreamSequence\x12\x17\n";
     "\anode_id\x18\x03 \x01(\x04R\x06nodeId2d\n";
     "\aControl\x12Y\n";
     "\aConnect\x12$.gossipcache.v1.ControlClientMessage\x1a$.gossipcache.v1.ControlServerMessage(\x010\x01BGZEgithub.com/sanketn26/gossipcache/api/gen/gossipcache/v1;gossipcachev1b\x06proto3"].

Definition file_gossipcache_v1_control_proto_goTypes : list go_type :=
  [GoPointer "ControlClientMessage";
   GoPointer "ControlServerMessage";
   GoPointer "ControlError";
   GoPointer "StreamWatermark";
   GoPointer "Hello";
   GoPointer "Subscribe";
   GoPointer "InvalidationEvent";
   GoPointer "InvalidationBatch";
   GoPointer "StreamAcknowledgement";
   GoPointer "StreamCheckpoint";
   GoPointer "ReplayRequest";
   GoPointer "ReplayUnavailable";
   GoPointer "InvalidateConfirm";
   GoNamed "Status";
   GoPointer "VersionTag";
   GoNamed "RecordKind";
   GoPointer "MutationID"].

Definition file_gossipcache_v1_control_proto_depIdxs : list Z :=
  [4; 5; 8; 10; 12; 7; 9; 11; 2; 13; 3; 14; 15; 16; 6; 0; 1; 16; 15; 15; 15; 0]%Z.

(** The assignments to [OneofWrappers] in file_gossipcache_v1_control_proto_init. *)
Definition file_gossipcache_v1_control_proto_OneofWrappers : list (nat * list go_type) :=
  [(0%nat, [GoPointer "ControlClientMessage_Hello"; GoPointer "ControlClientMessage_Subscribe"; GoPointer "ControlClientMessage_StreamAcknowledgement"; GoPointer "ControlClientMessage_ReplayRequest"; GoPointer "ControlClientMessage_InvalidateConfirm"]);
   (1%nat, [GoPointer "ControlServerMessage_InvalidationBatch"; GoPointer "ControlServerMessage_StreamCheckpoint"; GoPointer "ControlServerMessage_ReplayUnavailable"; GoPointer "ControlServerMessage_ControlError"])].

Definition file_gossipcache_v1_control_proto_counts : nat * nat * nat * nat := (0, 13, 0, 1)%nat.

(** The message structs of the file and, apart from them, the wrapper structs. *)
Definition control_structs : list (string * list go_field) :=
  [("ControlClientMessage", struct_ControlClientMessage);
   ("ControlServerMessage", struct_ControlServerMessage);
   ("ControlError", struct_ControlError);
   ("StreamWatermark", struct_StreamWatermark);
   ("Hello", struct_Hello);
   ("Subscribe", struct_Subscribe);
   ("InvalidationEvent", struct_InvalidationEvent);
   ("InvalidationBatch", struct_InvalidationBatch);
   ("StreamAcknowledgement", struct_StreamAcknowledgement);
   ("StreamCheckpoint", struct_StreamCheckpoint);
   ("ReplayRequest", struct_ReplayRequest);
   ("ReplayUnavailable", struct_ReplayUnavailable);
   ("InvalidateConfirm", struct_InvalidateConfirm)].

Definition control_wrappers : list (string * list go_field) :=
  [("ControlClientMessage_Hello", struct_ControlClientMessage_Hello);
   ("ControlClientMessage_Subscribe", struct_ControlClientMessage_Subscribe);
   ("ControlClientMessage_StreamAcknowledgement", struct_ControlClientMessage_StreamAcknowledgement);
   ("ControlClientMessage_ReplayRequest", struct_ControlClientMessage_ReplayRequest);
   ("ControlClientMessage_InvalidateConfirm", struct_ControlClientMessage_InvalidateConfirm);
   ("ControlServerMessage_InvalidationBatch", struct_ControlServerMessage_InvalidationBatch);
   ("ControlServerMessage_StreamCheckpoint", struct_ControlServerMessage_StreamCheckpoint);
   ("ControlServerMessage_ReplayUnavailable", struct_ControlServerMessage_ReplayUnavailable);
   ("ControlServerMessage_ControlError", struct_ControlServerMessage_ControlError)].

Definition control_enums : list (string * (list (Z * string) * list (string * Z))) :=
  [].

(** ** data.pb.go: structs *)

Definition struct_HandshakeRequest : list go_field :=
  [mkField "state" (GoNamed "protoimpl.MessageState")
     [("protogen", "open.v1")];
   mkField "ProtocolVersion" GoUint32
     [("protobuf", "varint,1,opt,name=protocol_version,json=protocolVersion,proto3"); ("json", "protocol_version,omitempty")];
   mkField "MinSupportedVersion" GoUint32
     [("protobuf", "varint,2,opt,name=min_supported_version,json=minSupportedVersion,proto3"); ("json", "min_supported_version,omitempty")];
   mkField "ClusterId" GoString
     [("protobuf", "bytes,3,opt,name=cluster_id,json=clusterId,proto3"); ("json", "cluster_id,omitempty")];
   mkField "ExpectedHubGeneration" GoUint64
     [("protobuf", "varint,4,opt,name=expected_hub_generation,json=expectedHubGeneration,proto3"); ("json", "expected_hub_generation,omitempty")];
   mkField "unknownFields" (GoNamed "protoimpl.UnknownFields") [];
   mkField "sizeCache" (GoNamed "protoimpl.SizeCache") []].

Definition struct_HandshakeResponse : list go_field :=
  [mkField "state" (GoNamed "protoimpl.MessageState")
     [("protogen", "open.v1")];
   mkField "ProtocolVersion" GoUint32
     [("protobuf", "varint,1,opt,name=protocol_version,json=protocolVersion,proto3"); ("json", "protocol_version,omitempty")];
   mkField "HubGeneration" GoUint64
     [("protobuf", "varint,2,opt,name=hub_generation,json=hubGeneration,proto3"); ("json", "hub_generation,omitempty")];
   mkField "PartitionCount" GoUint32
     [("protobuf", "varint,3,opt,name=partition_count,json=partitionCount,proto3"); ("json", "partition_count,omitempty")];
   mkField "StorageProfile" (GoNamed "StorageProfile")
     [("protobuf", "varint,4,opt,name=storage_profile,json=storageProfile,proto3,enum=gossipcache.v1.StorageProfile"); ("json", "storage_profile,omitempty")];
   mkField "DurableHealthy" GoBool
     [("protobuf", "varint,5,opt,name=durable_healthy,json=durableHealthy,proto3"); ("json", "durable_healthy,omitempty")];
   mkField "ClusterId" GoString
     [("protobuf", "bytes,6,opt,name=cluster_id,json=clusterId,proto3"); ("json", "cluster_id,omitempty")];
   mkField "unknownFields" (GoNamed "protoimpl.UnknownFields") [];
   mkField "sizeCache" (GoNamed "protoimpl.SizeCache") []].

Definition struct_HubStatusRequest : list go_field :=
  [mkField "state" (GoNamed "protoimpl.MessageState")
     [("protogen", "open.v1")];
   mkField "HubGeneration" GoUint64
     [("protobuf", "varint,1,opt,name=hub_generation,json=hubGeneration,proto3"); ("json", "hub_generation,omitempty")];
   mkField "unknownFields" (GoNamed "protoimpl.UnknownFields") [];
   mkField "sizeCache" (GoNamed "protoimpl.SizeCache") []].

Definition struct_HubStatusResponse : list go_field :=
  [mkField "state" (GoNamed "protoimpl.MessageState")
     [("protogen", "open.v1")];
   mkField "HubGeneration" GoUint64
     [("protobuf", "varint,1,opt,name=hub_generation,json=hubGeneration,proto3"); ("json", "hub_generation,omitempty")];
   mkField "StorageProfile" (GoNamed "StorageProfile")
     [("protobuf", "varint,2,opt,name=storage_profile,json=storageProfile,proto3,enum=gossipcache.v1.StorageProfile"); ("json", "storage_profile,omitempty")];
   mkField "DurableHealthy" GoBool
     [("protobuf", "varint,3,opt,name=durable_healthy,json=durableHealthy,proto3"); ("json", "durable_healthy,omitempty")];
   mkField "Status" (GoNamed "Status")
     [("protobuf", "varint,4,opt,name=status,proto3,enum=gossipcache.v1.Status"); ("json", "status,omitempty")];
   mkField "unknownFields" (GoNamed "protoimpl.UnknownFields") [];
   mkField "sizeCache" (GoNamed "protoimpl.SizeCache") []].

Definition struct_GetRequest : list go_field :=
  [mkField "state" (GoNamed "protoimpl.MessageState")
     [("protogen", "open.v1")];
   mkField "Key" (GoSlice GoByte)
     [("protobuf", "bytes,1,opt,name=key,proto3"); ("json", "key,omitempty")];
   mkField "MinVersion" (GoPointer "VersionTag")
     [("protobuf", "bytes,2,opt,name=min_version,json=minVersion,proto3,oneof"); ("json", "min_version,omitempty")];
   mkField "HubGeneration" GoUint64
     [("protobuf", "varint,3,opt,name=hub_generation,json=hubGeneration,proto3"); ("json", "hub_generation,omitempty")];
   mkField "unknownFields" (GoNamed "protoimpl.UnknownFields") [];
   mkField "sizeCache" (GoNamed "protoimpl.SizeCache") []].

Definition struct_GetResponse : list go_field :=
  [mkField "state" (GoNamed "protoimpl.MessageState")
     [("protogen", "open.v1")];
   mkField "Status" (GoNamed "Status")
     [("protobuf", "varint,1,opt,name=status,proto3,enum=gossipcache.v1.Status"); ("json", "status,omitempty")];
   mkField "HubGeneration" GoUint64
     [("protobuf", "varint,2,opt,name=hub_generation,json=hubGeneration,proto3"); ("json", "hub_generation,omitempty")];
   mkField "Version" (GoPointer "VersionTag")
     [("protobuf", "bytes,3,opt,name=version,proto3"); ("json", "version,omitempty")];
   mkField "Value" (GoSlice GoByte)
     [("protobuf", "bytes,4,opt,name=value,proto3"); ("json", "value,omitempty")];
   mkField "TtlMillis" GoUint64
     [("protobuf", "varint,5,opt,name=ttl_millis,json=ttlMillis,proto3"); ("json", "ttl_millis,omitempty")];
   mkField "Kind" (GoNamed "RecordKind")
     [("protobuf", "varint,6,opt,name=kind,proto3,enum=gossipcache.v1.RecordKind"); ("json", "kind,omitempty")];
   mkField "unknownFields" (GoNamed "protoimpl.UnknownFields") [];
   mkField "sizeCache" (GoNamed "protoimpl.SizeCache") []].

Definition struct_MutationRequest : list go_field :=
  [mkField "state" (GoNamed "protoimpl.MessageState")
     [("protogen", "open.v1")];
   mkField "Op" (GoNamed "MutationOp")
     [("protobuf", "varint,1,opt,name=op,proto3,enum=gossipcache.v1.MutationOp"); ("json", "op,omitempty")];
   mkField "Key" (GoSlice GoByte)
     [("protobuf", "bytes,2,opt,name=key,proto3"); ("json", "key,omitempty")];
   mkField "Value" (GoSlice GoByte)
     [("protobuf", "bytes,3,opt,name=value,proto3"); ("json", "value,omitempty")];
   mkField "TtlMillis" GoUint64
     [("protobuf", "varint,4,opt,name=ttl_millis,json=ttlMillis,proto3"); ("json", "ttl_millis,omitempty")];
   mkField "MutationId" (GoPointer "MutationID")
     [("protobuf", "bytes,5,opt,name=mutation_id,json=mutationId,proto3"); ("json", "mutation_id,omitempty")];
   mkField "Mode" (GoNamed "WriteMode")
     [("protobuf", "varint,6,opt,name=mode,proto3,enum=gossipcache.v1.WriteMode"); ("json", "mode,omitempty")];
   mkField "W" GoUint32
     [("protobuf", "varint,7,opt,name=w,proto3"); ("json", "w,omitempty")];
   mkField "Confirm" (GoNamed "ConfirmLevel")
     [("protobuf", "varint,8,opt,name=confirm,proto3,enum=gossipcache.v1.ConfirmLevel"); ("json", "confirm,omitempty")];
   mkField "TimeoutMillis" GoUint32
     [("protobuf", "varint,9,opt,name=timeout_millis,json=timeoutMillis,proto3"); ("json", "timeout_millis,omitempty")];
   mkField "HubGeneration" GoUint64
     [("protobuf", "varint,10,opt,name=hub_generation,json=hubGeneration,proto3"); ("json", "hub_generation,omitempty")];
   mkField "unknownFields" (GoNamed "protoimpl.UnknownFields") [];
   mkField "sizeCache" (GoNamed "protoimpl.SizeCache") []].

Definition struct_MutationResponse : list go_field :=
  [mkField "state" (GoNamed "protoimpl.MessageState")
     [("protogen", "open.v1")];
   mkField "Status" (GoNamed "Status")
     [("protobuf", "varint,1,opt,name=status,proto3,enum=gossipcache.v1.Status"); ("json", "status,omitempty")];
   mkField "HubGeneration" GoUint64
     [("protobuf", "varint,2,opt,name=hub_generation,json=hubGeneration,proto3"); ("json", "hub_generation,omitempty")];
   mkField "Version" (GoPointer "VersionTag")
     [("protobuf", "bytes,3,opt,name=version,proto3"); ("json", "version,omitempty")];
   mkField "unknownFields" (GoNamed "protoimpl.UnknownFields") [];
   mkField "sizeCache" (GoNamed "protoimpl.SizeCache") []].

(** ** data.pb.go: descriptor and tables *)

Definition file_gossipcache_v1_data_proto_rawDesc : option bytes :=
  literal
    ["\n";
     "\x19gossipcache/v1/data.proto\x12\x0egossipcache.v1\x1a\x1bgossipcache/v1/common.proto\x22\xc8\x01\n";
     "\x10HandshakeRequest\x12)\n";
     "\x10protocol_version\x18\x01 \x01(\rR\x0fprotocolVersion\x122\n";
     "\x15min_supported_version\x18\x02 \x01(\rR\x13minSupportedVersion\x12\x1d\n";
     "\n";
     "cluster_id\x18\x03 \x01(\tR\tclusterId\x126\n";
     "\x17expected_hub_generation\x18\x04 \x01(\x04R\x15expectedHubGeneration\x22\x9f\x02\n";
     "\x11HandshakeResponse\x12)\n";
     "\x10protocol_version\x18\x01 \x01(\rR\x0fprotocolVersion\x12%\n";
     "\x0ehub_generation\x18\x02 \x01(\x04R\rhubGeneration\x12'\n";
     "\x0fpartition_count\x18\x03 \x01(\rR\x0epartitionCount\x12G\n";
     "\x0fstorage_profile\x18\x04 \x01(\x0e2\x1e.gossipcache.v1.StorageProfileR\x0estorageProfile\x12'\n";
     "\x0fdurable_healthy\x18\x05 \x01(\bR\x0edurableHealthy\x12\x1d\n";
     "\n";
     "cluster_id\x18\x06 \x01(\tR\tclusterId\x229\n";
     "\x10HubStatusRequest\x12%\n";
     "\x0ehub_generation\x18\x01 \x01(\x04R\rhubGeneration\x22\xdc\x01\n";
     "\x11HubStatusResponse\x12%\n";
     "\x0ehub_generation\x18\x01 \x01(\x04R\rhubGeneration\x12G\n";
     "\x0fstorage_profile\x18\x02 \x01(\x0e2\x1e.gossipcache.v1.StorageProfileR\x0estorageProfile\x12'\n";
     "\x0fdurable_healthy\x18\x03 \x01(\bR\x0edurableHealthy\x12.\n";
     "\x06status\x18\x04 \x01(\x0e2\x16.gossipcache.v1.StatusR\x06status\x22\x97\x01\n";
     "\n";
     "GetRequest\x12\x10\n";
     "\x03key\x18\x01 \x01(\fR\x03key\x12@\n";
     "\vmin_version\x18\x02 \x01(\v2\x1a.gossipcache.v1.VersionTagH\x00R\n";
     "minVersion\x88\x01\x01\x12%\n";
     "\x0ehub_generation\x18\x03 \x01(\x04R\rhubGenerationB\x0e\n";
     "\f_min_version\x22\xff\x01\n";
     "\vGetResponse\x12.\n";
     "\x06status\x18\x01 \x01(\x0e2\x16.gossipcache.v1.StatusR\x06status\x12%\n";
     "\x0ehub_generation\x18\x02 \x01(\x04R\rhubGeneration\x124\n";
     "\aversion\x18\x03 \x01(\v2\x1a.gossipcache.v1.VersionTagR\aversion\x12\x14\n";
     "\x05value\x18\x04 \x01(\fR\x05value\x12\x1d\n";
     "\n";
     "ttl_millis\x18\x05 \x01(\x04R\tttlMillis\x12.\n";
     "\x04kind\x18\x06 \x01(\x0e2\x1a.gossipcache.v1.RecordKindR\x04kind\x22\x84\x03\n";
     "\x0fMutationRequest\x12*\n";
     "\x02op\x18\x01 \x01(\x0e2\x1a.gossipcache.v1.MutationOpR\x02op\x12\x10\n";
     "\x03key\x18\x02 \x01(\fR\x03key\x12\x14\n";
     "\x05value\x18\x03 \x01(\fR\x05value\x12\x1d\n";
     "\n";
     "ttl_millis\x18\x04 \x01(\x04R\tttlMillis\x12;\n";
     "\vmutation_id\x18\x05 \x01(\v2\x1a.gossipcache.v1.MutationIDR\n";
     "mutationId\x12-\n";
     "\x04mode\x18\x06 \x01(\x0e2\x19.gossipcache.v1.WriteModeR\x04mode\x12\f\n";
     "\x01w\x18\a \x01(\rR\x01w\x126\n";
     "\aconfirm\x18\b \x01(\x0e2\x1c.gossipcache.v1.ConfirmLevelR\aconfirm\x12%\n";
     "\x0etimeout_millis\x18\t \x01(\rR\rtimeoutMillis\x12%\n";
     "\x0ehub_generation\x18\n";
     " \x01(\x04R\rhubGeneration\x22\x9f\x01\n";
     "\x10MutationResponse\x12.\n";
     "\x06status\x18\x01 \x01(\x0e2\x16.gossipcache.v1.StatusR\x06status\x12%\n";
     "\x0ehub_generation\x18\x02 \x01(\x04R\rhubGeneration\x124\n";
     "\aversion\x18\x03 \x01(\v2\x1a.gossipcache.v1.VersionTagR\aversion*V\n";
     "\n";
     "MutationOp\x12\x1b\n";
     "\x17MUTATION_OP_UNSPECIFIED\x10\x00\x12\x13\n";
     "\x0fMUTATION_OP_SET\x10\x01\x12\x16\n";
     "\x12MUTATION_OP_DELETE\x10\x022\xb7\x02\n";
     "\x04Data\x12P\n";
     "\tHandshake\x12 .gossipcache.v1.HandshakeRequest\x1a!.gossipcache.v1.HandshakeResponse\x12P\n";
     "\tHubStatus\x12 .gossipcache.v1.HubStatusRequest\x1a!.gossipcache.v1.HubStatusResponse\x12>\n";
     "\x03Get\x12\x1a.gossipcache.v1.GetRequest\x1a\x1b.gossipcache.v1.GetResponse\x12K\n";
     "\x06Mutate\x12\x1f.gossipcache.v1.MutationRequest\x1a .gossipcache.v1.MutationResponseBGZEgithub.com/sanketn26/gossipcache/api/gen/gossipcache/v1;gossipcachev1b\x06proto3"].

Definition file_gossipcache_v1_data_proto_goTypes : list go_type :=
  [GoNamed "MutationOp";
   GoPointer "HandshakeRequest";
   GoPointer "HandshakeResponse";
   GoPointer "HubStatusRequest";
   GoPointer "HubStatusResponse";
   GoPointer "GetRequest";
   GoPointer "GetResponse";
   GoPointer "MutationRequest";
   GoPointer "MutationResponse";
   GoNamed "StorageProfile";
   GoNamed "Status";
   GoPointer "VersionTag";
   GoNamed "RecordKind";
   GoPointer "MutationID";
   GoNamed "WriteMode";
   GoNamed "ConfirmLevel"].

Definition file_gossipcache_v1_data_proto_depIdxs : list Z :=
  [9; 9; 10; 11; 10; 11; 12; 0; 13; 14; 15; 10; 11; 1; 3; 5; 7; 2; 4; 6; 8; 17; 13; 13; 13; 0]%Z.

(** The assignments to [OneofWrappers] in file_gossipcache_v1_data_proto_init. *)
Definition file_gossipcache_v1_data_proto_OneofWrappers : list (nat * list go_type) :=
  [(4%nat, [])].

Definition file_gossipcache_v1_data_proto_counts : nat * nat * nat * nat := (1, 8, 0, 1)%nat.

(** The message structs of the file and, apart from them, the wrapper structs. *)
Definition data_structs : list (string * list go_field) :=
  [("HandshakeRequest", struct_HandshakeRequest);
   ("HandshakeResponse", struct_HandshakeResponse);
   ("HubStatusRequest", struct_HubStatusRequest);
   ("HubStatusResponse", struct_HubStatusResponse);
   ("GetRequest", struct_GetRequest);
   ("GetResponse", struct_GetResponse);
   ("MutationRequest", struct_MutationRequest);
   ("MutationResponse", struct_MutationResponse)].

Definition data_wrappers : list (string * list go_field) :=
  [].

Definition data_enums : list (string * (list (Z * string) * list (string * Z))) :=
  [("MutationOp", (pb_MutationOp_name, pb_MutationOp_value))].
