(* ===== verification/PbProto.v ===== *)
(** * The protobuf schema (api/proto/gossipcache/v1/*.proto)

    The schema is the source of truth of the format on the wire: the generated
    files and the encodings are stated to follow it.  The three files as data,
    declaration by declaration, and what protoc and protoc-gen-go are documented
    to make of them: the serialised descriptor (the field numbers are those of
    descriptor.proto) and the Go declarations. *)

From S2P Require Import Prelude GoStd PbWire PbGo.
From Stdlib.Strings Require Import Ascii.

Local Open Scope string_scope.

(** ** Schema files *)
Inductive proto_type :=
| PUint32 | PUint64 | PBool | PString | PBytes | PEnum (T : string) | PMessage (T : string).
Inductive proto_label := Singular | Optional | Repeated.
Record proto_field := mkProtoField {
  pf_label : proto_label; pf_type : proto_type; pf_name : string; pf_number : Z }.
Inductive proto_member := Field (f : proto_field) | Oneof (name : string) (fs : list proto_field).
Record proto_message := mkProtoMessage { pm_name : string; pm_members : list proto_member }.
Record proto_enum := mkProtoEnum { pe_name : string; pe_values : list (string * Z) }.
Record proto_rpc := mkProtoRpc {
  pr_name : string; pr_input : string; pr_input_stream : bool;
  pr_output : string; pr_output_stream : bool }.
Record proto_service := mkProtoService { psv_name : string; psv_rpcs : list proto_rpc }.
Record proto_file := mkProtoFile {
  pfl_path : string; pfl_package : string; pfl_imports : list string; pfl_go_package : string;
  pfl_enums : list proto_enum; pfl_messages : list proto_message;
  pfl_services : list proto_service }.

(** The members of a message in the notation of the schema:
    [fld Repeated PUint32 "stream_ids" 2] is [repeated uint32 stream_ids = 2]. *)
Definition fld l t n k : proto_member := Field (mkProtoField l t n k).

(** ** common.proto *)

Definition proto_VersionTag : proto_message :=
  mkProtoMessage "VersionTag"
    [fld Singular PUint32 "partition_id" 1;
     fld Singular PUint64 "sequence" 2].

Definition proto_Status : proto_enum :=
  mkProtoEnum "Status"
    [("STATUS_OK", 0%Z);
     ("STATUS_NOT_FOUND", 1%Z);
     ("STATUS_NOT_CAUGHT_UP", 2%Z);
     ("STATUS_ERR_DURABILITY_UNAVAILABLE", 3%Z);
     ("STATUS_ERR_BAD_GENERATION", 4%Z);
     ("STATUS_ERR_RATE_LIMITED", 5%Z);
     ("STATUS_ERR_INVALID_ARGUMENT", 6%Z);
     ("STATUS_ERR_WRITE_CONFIRM_TIMEOUT", 7%Z);
     ("STATUS_ERR_INTERNAL", 8%Z)].

Definition proto_RecordKind : proto_enum :=
  mkProtoEnum "RecordKind"
    [("RECORD_KIND_VALUE", 0%Z);
     ("RECORD_KIND_TOMBSTONE", 1%Z)].

Definition proto_WriteMode : proto_enum :=
  mkProtoEnum "WriteMode"
    [("WRITE_MODE_FAST", 0%Z);
     ("WRITE_MODE_SYNC", 1%Z)].

Definition proto_StorageProfile : proto_enum :=
  mkProtoEnum "StorageProfile"
    [("STORAGE_PROFILE_MEMORY", 0%Z);
     ("STORAGE_PROFILE_DURABLE", 1%Z)].

Definition proto_ConfirmLevel : proto_enum :=
  mkProtoEnum "ConfirmLevel"
    [("CONFIRM_LEVEL_INVALIDATE_APPLIED", 0%Z)].

Definition proto_MutationID : proto_message :=
  mkProtoMessage "MutationID"
    [fld Singular PBytes "id" 1].

Definition common_proto : proto_file :=
  mkProtoFile "gossipcache/v1/common.proto" "gossipcache.v1" []
    "github.com/sanketn26/gossipcache/api/gen/gossipcache/v1;gossipcachev1"
    [proto_Status; proto_RecordKind; proto_WriteMode; proto_StorageProfile; proto_ConfirmLevel]
    [proto_VersionTag; proto_MutationID]
    [].

(** ** control.proto *)

Definition proto_Control : proto_service :=
  mkProtoService "Control"
    [mkProtoRpc "Connect" "ControlClientMessage" true "ControlServerMessage" true].

Definition proto_ControlClientMessage : proto_message :=
  mkProtoMessage "ControlClientMessage"
    [Oneof "body"
      [mkProtoField Singular (PMessage "Hello") "hello" 1;
       mkProtoField Singular (PMessage "Subscribe") "subscribe" 2;
       mkProtoField Singular (PMessage "StreamAcknowledgement") "stream_acknowledgement" 3;
       mkProtoField Singular (PMessage "ReplayRequest") "replay_request" 4;
       mkProtoField Singular (PMessage "InvalidateConfirm") "invalidate_confirm" 5]].

Definition proto_ControlServerMessage : proto_message :=
  mkProtoMessage "ControlServerMessage"
    [Oneof "body"
      [mkProtoField Singular (PMessage "InvalidationBatch") "invalidation_batch" 1;
       mkProtoField Singular (PMessage "StreamCheckpoint") "stream_checkpoint" 2;
       mkProtoField Singular (PMessage "ReplayUnavailable") "replay_unavailable" 3;
       mkProtoField Singular (PMessage "ControlError") "control_error" 4]].

Definition proto_ControlError : proto_message :=
  mkProtoMessage "ControlError"
    [fld Singular (PEnum "Status") "status" 1;
     fld Singular PString "detail" 2].

Definition proto_StreamWatermark : proto_message :=
  mkProtoMessage "StreamWatermark"
    [fld Singular PUint32 "stream_id" 1;
     fld Singular PUint64 "applied_through" 2;
     fld Singular PUint64 "hub_generation" 3].

Definition proto_Hello : proto_message :=
  mkProtoMessage "Hello"
    [fld Singular PUint64 "node_id" 1;
     fld Singular PUint32 "protocol_version" 2;
     fld Singular PUint32 "min_supported_version" 3;
     fld Repeated (PMessage "StreamWatermark") "subscriptions" 4;
     fld Singular PString "cluster_id" 5;
     fld Singular PUint64 "expected_hub_generation" 6].

Definition proto_Subscribe : proto_message :=
  mkProtoMessage "Subscribe"
    [fld Singular PUint64 "hub_generation" 1;
     fld Repeated PUint32 "stream_ids" 2].

Definition proto_InvalidationEvent : proto_message :=
  mkProtoMessage "InvalidationEvent"
    [fld Singular PUint64 "stream_sequence" 1;
     fld Singular PBytes "key" 2;
     fld Singular (PMessage "VersionTag") "version" 3;
     fld Singular (PEnum "RecordKind") "kind" 4;
     fld Singular (PMessage "MutationID") "mutation_id" 5].

Definition proto_InvalidationBatch : proto_message :=
  mkProtoMessage "InvalidationBatch"
    [fld Singular PUint32 "stream_id" 1;
     fld Singular PUint64 "hub_generation" 2;
     fld Repeated (PMessage "InvalidationEvent") "events" 3].

Definition proto_StreamAcknowledgement : proto_message :=
  mkProtoMessage "StreamAcknowledgement"
    [fld Singular PUint32 "stream_id" 1;
     fld Singular PUint64 "applied_through" 2].

Definition proto_StreamCheckpoint : proto_message :=
  mkProtoMessage "StreamCheckpoint"
    [fld Singular PUint32 "stream_id" 1;
     fld Singular PUint64 "hub_generation" 2;
     fld Singular PUint64 "stream_head" 3].

Definition proto_ReplayRequest : proto_message :=
  mkProtoMessage "ReplayRequest"
    [fld Singular PUint32 "stream_id" 1;
     fld Singular PUint64 "from_sequence" 2;
     fld Singular PUint64 "to_sequence" 3].

Definition proto_ReplayUnavailable : proto_message :=
  mkProtoMessage "ReplayUnavailable"
    [fld Singular PUint32 "stream_id" 1;
     fld Singular PUint64 "hub_generation" 2;
     fld Singular PUint64 "requested_from" 3;
     fld Singular PUint64 "oldest_available" 4;
     fld Singular PUint64 "stream_head" 5].

Definition proto_InvalidateConfirm : proto_message :=
  mkProtoMessage "InvalidateConfirm"
    [fld Singular PUint32 "stream_id" 1;
     fld Singular PUint64 "stream_sequence" 2;
     fld Singular PUint64 "node_id" 3].

Definition control_proto : proto_file :=
  mkProtoFile "gossipcache/v1/control.proto" "gossipcache.v1" ["gossipcache/v1/common.proto"]
    "github.com/sanketn26/gossipcache/api/gen/gossipcache/v1;gossipcachev1"
    []
    [proto_ControlClientMessage; proto_ControlServerMessage; proto_ControlError; proto_StreamWatermark; proto_Hello; proto_Subscribe; proto_InvalidationEvent; proto_InvalidationBatch; proto_StreamAcknowledgement; proto_StreamCheckpoint; proto_ReplayRequest; proto_ReplayUnavailable; proto_InvalidateConfirm]
    [proto_Control].

(** ** data.proto *)

Definition proto_Data : proto_service :=
  mkProtoService "Data"
    [mkProtoRpc "Handshake" "HandshakeRequest" false "HandshakeResponse" false;
     mkProtoRpc "HubStatus" "HubStatusRequest" false "HubStatusResponse" false;
     mkProtoRpc "Get" "GetRequest" false "GetResponse" false;
     mkProtoRpc "Mutate" "MutationRequest" false "MutationResponse" false].

Definition proto_HandshakeRequest : proto_message :=
  mkProtoMessage "HandshakeRequest"
    [fld Singular PUint32 "protocol_version" 1;
     fld Singular PUint32 "min_supported_version" 2;
     fld Singular PString "cluster_id" 3;
     fld Singular PUint64 "expected_hub_generation" 4].

Definition proto_HandshakeResponse : proto_message :=
  mkProtoMessage "HandshakeResponse"
    [fld Singular PUint32 "protocol_version" 1;
     fld Singular PUint64 "hub_generation" 2;
     fld Singular PUint32 "partition_count" 3;
     fld Singular (PEnum "StorageProfile") "storage_profile" 4;
     fld Singular PBool "durable_healthy" 5;
     fld Singular PString "cluster_id" 6].

Definition proto_HubStatusRequest : proto_message :=
  mkProtoMessage "HubStatusRequest"
    [fld Singular PUint64 "hub_generation" 1].

Definition proto_HubStatusResponse : proto_message :=
  mkProtoMessage "HubStatusResponse"
    [fld Singular PUint64 "hub_generation" 1;
     fld Singular (PEnum "StorageProfile") "storage_profile" 2;
     fld Singular PBool "durable_healthy" 3;
     fld Singular (PEnum "Status") "status" 4].

Definition proto_GetRequest : proto_message :=
  mkProtoMessage "GetRequest"
    [fld Singular PBytes "key" 1;
     fld Optional (PMessage "VersionTag") "min_version" 2;
     fld Singular PUint64 "hub_generation" 3].

Definition proto_GetResponse : proto_message :=
  mkProtoMessage "GetResponse"
    [fld Singular (PEnum "Status") "status" 1;
     fld Singular PUint64 "hub_generation" 2;
     fld Singular (PMessage "VersionTag") "version" 3;
     fld Singular PBytes "value" 4;
     fld Singular PUint64 "ttl_millis" 5;
     fld Singular (PEnum "RecordKind") "kind" 6].

Definition proto_MutationOp : proto_enum :=
  mkProtoEnum "MutationOp"
    [("MUTATION_OP_UNSPECIFIED", 0%Z);
     ("MUTATION_OP_SET", 1%Z);
     ("MUTATION_OP_DELETE", 2%Z)].

Definition proto_MutationRequest : proto_message :=
  mkProtoMessage "MutationRequest"
    [fld Singular (PEnum "MutationOp") "op" 1;
     fld Singular PBytes "key" 2;
     fld Singular PBytes "value" 3;
     fld Singular PUint64 "ttl_millis" 4;
     fld Singular (PMessage "MutationID") "mutation_id" 5;
     fld Singular (PEnum "WriteMode") "mode" 6;
     fld Singular PUint32 "w" 7;
     fld Singular (PEnum "ConfirmLevel") "confirm" 8;
     fld Singular PUint32 "timeout_millis" 9;
     fld Singular PUint64 "hub_generation" 10].

Definition proto_MutationResponse : proto_message :=
  mkProtoMessage "MutationResponse"
    [fld Singular (PEnum "Status") "status" 1;
     fld Singular PUint64 "hub_generation" 2;
     fld Singular (PMessage "VersionTag") "version" 3].

Definition data_proto : proto_file :=
  mkProtoFile "gossipcache/v1/data.proto" "gossipcache.v1" ["gossipcache/v1/common.proto"]
    "github.com/sanketn26/gossipcache/api/gen/gossipcache/v1;gossipcachev1"
    [proto_MutationOp]
    [proto_HandshakeRequest; proto_HandshakeResponse; proto_HubStatusRequest; proto_HubStatusResponse; proto_GetRequest; proto_GetResponse; proto_MutationRequest; proto_MutationResponse]
    [proto_Data].

(** ** Names

    The JSON name of a field drops the underscores and capitalises the letters
    after them; the Go name capitalises the first letter too. *)
Definition upper (c : ascii) : ascii :=
  let n := N_of_ascii c in
  if ((97 <=? n) && (n <=? 122))%N then ascii_of_N (n - 32) else c.

Fixpoint camel (up : bool) (s : string) : string :=
  match s with
  | "" => ""
  | String "_"%char r => camel true r
  | String c r => String (if up then upper c else c) (camel false r)
  end.

Definition json_name : string → string := camel false.
Definition go_name : string → string := camel true.

(** ** Lookup in a message *)

(** The fields of a message in the order of the schema. *)
Definition member_fields (x : proto_member) : list proto_field :=
  match x with Field f => [f] | Oneof _ fs => fs end.
Definition message_fields (m : proto_message) : list proto_field :=
  concat (map member_fields (pm_members m)).

(** The declared oneofs, and the synthetic ones of the optional fields. *)
Definition declared_oneofs (m : proto_message) : list string :=
  concat (map (λ x, match x with Field _ => [] | Oneof n _ => [n] end) (pm_members m)).
Definition synthetic_oneof (f : proto_field) : list string :=
  match pf_label f with Optional => ["_" +:+ pf_name f] | _ => [] end.
Definition oneofs (m : proto_message) : list string :=
  declared_oneofs m ++
  concat (map (λ x, match x with Field f => synthetic_oneof f | Oneof _ _ => [] end) (pm_members m)).

Fixpoint index_of {A} `{EqDecision A} (x : A) (l : list A) : nat :=
  match l with
  | [] => O
  | y :: l => if decide (x = y) then O else S (index_of x l)
  end.

Definition type_name (t : proto_type) : list string :=
  match t with PEnum T | PMessage T => [T] | _ => [] end.

(** ** protoc: the serialised descriptor *)
Definition text_record (k : Z) (s : string) : wire_record := mkRecord k (PLen (string_bytes s)).
Definition int_record (k : Z) (n : Z) : wire_record := mkRecord k (PVarint n).
Definition sub_record (k : Z) (rs : list wire_record) : wire_record :=
  mkRecord k (PLen (encode_records rs)).
Definition flag_record (k : Z) (b : bool) : list wire_record := if b then [int_record k 1] else [].

Definition field_type (t : proto_type) : Z :=
  match t with
  | PUint64 => 4 | PBool => 8 | PString => 9 | PMessage _ => 11
  | PBytes => 12 | PUint32 => 13 | PEnum _ => 14
  end.

(** [FieldDescriptorProto]: name, number, label, type, type_name, oneof_index,
    json_name, proto3_optional. *)
Definition field_descriptor (package : string) (all : list string) (oneof : list string)
    (f : proto_field) : list wire_record :=
  [text_record 1 (pf_name f); int_record 3 (pf_number f);
   int_record 4 (match pf_label f with Repeated => 3 | _ => 1 end);
   int_record 5 (field_type (pf_type f))] ++
  map (λ T, text_record 6 ("." +:+ package +:+ "." +:+ T)) (type_name (pf_type f)) ++
  map (λ o, int_record 9 (Z.of_nat (index_of o all))) oneof ++
  [text_record 10 (json_name (pf_name f))] ++
  flag_record 17 (match pf_label f with Optional => true | _ => false end).

Definition member_descriptors (package : string) (all : list string) (x : proto_member) :
    list (list wire_record) :=
  match x with
  | Field f => [field_descriptor package all (synthetic_oneof f) f]
  | Oneof n fs => map (field_descriptor package all [n]) fs
  end.

(** [DescriptorProto]: name, field, oneof_decl. *)
Definition message_descriptor (package : string) (m : proto_message) : list wire_record :=
  [text_record 1 (pm_name m)] ++
  map (sub_record 2) (concat (map (member_descriptors package (oneofs m)) (pm_members m))) ++
  map (λ o, sub_record 8 [text_record 1 o]) (oneofs m).

(** [EnumDescriptorProto]: name, value. *)
Definition enum_descriptor (e : proto_enum) : list wire_record :=
  [text_record 1 (pe_name e)] ++
  map (λ v, sub_record 2 [text_record 1 v.1; int_record 2 v.2]) (pe_values e).

(** [ServiceDescriptorProto]: name, method with its types and streaming flags. *)
Definition rpc_descriptor (package : string) (r : proto_rpc) : list wire_record :=
  [text_record 1 (pr_name r);
   text_record 2 ("." +:+ package +:+ "." +:+ pr_input r);
   text_record 3 ("." +:+ package +:+ "." +:+ pr_output r)] ++
  flag_record 5 (pr_input_stream r) ++ flag_record 6 (pr_output_stream r).

Definition service_descriptor (package : string) (s : proto_service) : list wire_record :=
  [text_record 1 (psv_name s)] ++ map (λ r, sub_record 2 (rpc_descriptor package r)) (psv_rpcs s).

(** [FileDescriptorProto]: name, package, dependency, message_type, enum_type,
    service, options (go_package), syntax. *)
Definition file_descriptor (p : proto_file) : list wire_record :=
  [text_record 1 (pfl_path p); text_record 2 (pfl_package p)] ++
  map (text_record 3) (pfl_imports p) ++
  map (λ m, sub_record 4 (message_descriptor (pfl_package p) m)) (pfl_messages p) ++
  map (λ e, sub_record 5 (enum_descriptor e)) (pfl_enums p) ++
  map (λ s, sub_record 6 (service_descriptor (pfl_package p) s)) (pfl_services p) ++
  [sub_record 8 [text_record 11 (pfl_go_package p)]; text_record 12 "proto3"].

(** ** protoc-gen-go: the Go declarations *)
Definition go_elem (t : proto_type) : go_type :=
  match t with
  | PUint32 => GoUint32 | PUint64 => GoUint64 | PBool => GoBool | PString => GoString
  | PBytes => GoSlice GoByte | PEnum T => GoNamed T | PMessage T => GoPointer T
  end.

(** The schema has no optional field of a scalar type, which would be a pointer. *)
Definition go_type_of (f : proto_field) : go_type :=
  match pf_label f with Repeated => GoSlice (go_elem (pf_type f)) | _ => go_elem (pf_type f) end.

Definition numeric (t : proto_type) : bool :=
  match t with PString | PBytes | PMessage _ => false | _ => true end.

Definition protobuf_tag (package : string) (in_oneof : bool) (f : proto_field) : string :=
  String.concat ","
    ([(if numeric (pf_type f) then "varint" else "bytes"); FormatUint10 (pf_number f);
      (match pf_label f with Repeated => "rep" | _ => "opt" end)] ++
     (match pf_label f with Repeated => if numeric (pf_type f) then ["packed"] else [] | _ => [] end) ++
     ["name=" +:+ pf_name f] ++
     (if decide (json_name (pf_name f) = pf_name f) then [] else ["json=" +:+ json_name (pf_name f)]) ++
     ["proto3"] ++
     (match pf_type f with PEnum T => ["enum=" +:+ package +:+ "." +:+ T] | _ => [] end) ++
     (if in_oneof then ["oneof"] else [])).

Definition go_struct_field (package : string) (x : proto_member) (message : string) : go_field :=
  match x with
  | Field f =>
      mkField (go_name (pf_name f)) (go_type_of f)
        [("protobuf",
          protobuf_tag package (match pf_label f with Optional => true | _ => false end) f);
         ("json", pf_name f +:+ ",omitempty")]
  | Oneof n _ =>
      mkField (go_name n) (GoNamed ("is" +:+ message +:+ "_" +:+ go_name n)) [("protobuf_oneof", n)]
  end.

Definition go_struct (package : string) (m : proto_message) : string * list go_field :=
  (pm_name m,
   ([mkField "state" (GoNamed "protoimpl.MessageState") [("protogen", "open.v1")]] ++
   map (λ x, go_struct_field package x (pm_name m)) (pm_members m) ++
   [mkField "unknownFields" (GoNamed "protoimpl.UnknownFields") [];
    mkField "sizeCache" (GoNamed "protoimpl.SizeCache") []])%list).

(** The wrapper structs of the oneofs of a message. *)
Definition wrapper_name (m : proto_message) (f : proto_field) : string :=
  pm_name m +:+ "_" +:+ go_name (pf_name f).
Definition oneof_fields (m : proto_message) : list proto_field :=
  concat (map (λ x, match x with Field _ => [] | Oneof _ fs => fs end) (pm_members m)).
Definition go_wrappers (package : string) (m : proto_message) : list (string * list go_field) :=
  map (λ f, (wrapper_name m f,
             [mkField (go_name (pf_name f)) (go_type_of f)
                [("protobuf", protobuf_tag package true f)]])) (oneof_fields m).

(** A message with a oneof, declared or synthetic, registers its wrappers. *)
Fixpoint wrapper_tables (i : nat) (ms : list proto_message) : list (nat * list go_type) :=
  match ms with
  | [] => []
  | m :: ms =>
      (match oneofs m with
       | [] => []
       | _ => [(i, map (λ f, GoPointer (wrapper_name m f)) (oneof_fields m))]
       end) ++ wrapper_tables (S i) ms
  end.

Definition go_enum (e : proto_enum) : string * (list (Z * string) * list (string * Z)) :=
  (pe_name e, (map (λ v, (v.2, v.1)) (pe_values e), pe_values e)).

(** The types named by the fields, the inputs and the outputs, in the order of
    the table of dependencies. *)
Definition field_deps (p : proto_file) : list go_type :=
  concat (map (λ f, match pf_type f with
                    | PEnum T => [GoNamed T] | PMessage T => [GoPointer T] | _ => []
                    end) (concat (map message_fields (pfl_messages p)))).
Definition rpcs (p : proto_file) : list proto_rpc := concat (map psv_rpcs (pfl_services p)).
Definition input_deps (p : proto_file) : list go_type := map (λ r, GoPointer (pr_input r)) (rpcs p).
Definition output_deps (p : proto_file) : list go_type := map (λ r, GoPointer (pr_output r)) (rpcs p).

Definition own_types (p : proto_file) : list go_type :=
  map (λ e, GoNamed (pe_name e)) (pfl_enums p) ++ map (λ m, GoPointer (pm_name m)) (pfl_messages p).

(** The list with what it does not have yet of the other one, in order. *)
Fixpoint add_new (seen l : list go_type) : list go_type :=
  match l with
  | [] => seen
  | t :: l => if decide (t ∈ seen) then add_new seen l else add_new (seen ++ [t]) l
  end.

Definition go_types (p : proto_file) : list go_type :=
  add_new (own_types p) (field_deps p ++ input_deps p ++ output_deps p).

(** The indices, then the starts of the five sub-lists: outputs, inputs, the two
    kinds of extensions, fields. *)
Definition dep_indices (p : proto_file) : list Z :=
  let fields := Z.of_nat (length (field_deps p)) in
  let inputs := Z.of_nat (length (input_deps p)) in
  map (λ t, Z.of_nat (index_of t (go_types p))) (field_deps p ++ input_deps p ++ output_deps p) ++
  [fields + inputs; fields; fields; fields; 0]%Z.

(** ** What a generated file declares, and what it should declare *)
Record generated_file := mkGenerated {
  gen_rawDesc : option bytes;
  gen_enums : list (string * (list (Z * string) * list (string * Z)));
  gen_structs : list (string * list go_field);
  gen_wrappers : list (string * list go_field);
  gen_goTypes : list go_type;
  gen_depIdxs : list Z;
  gen_OneofWrappers : list (nat * list go_type);
  gen_counts : nat * nat * nat * nat }.

Definition generate (p : proto_file) : generated_file :=
  {| gen_rawDesc := Some (encode_records (file_descriptor p));
     gen_enums := map go_enum (pfl_enums p);
     gen_structs := map (go_struct (pfl_package p)) (pfl_messages p);
     gen_wrappers := concat (map (go_wrappers (pfl_package p)) (pfl_messages p));
     gen_goTypes := go_types p;
     gen_depIdxs := dep_indices p;
     gen_OneofWrappers := wrapper_tables 0 (pfl_messages p);
     gen_counts :=
       (length (pfl_enums p), length (pfl_messages p), 0%nat, length (pfl_services p)) |}.

Definition common_pb_go : generated_file :=
  {| gen_rawDesc := file_gossipcache_v1_common_proto_rawDesc;
     gen_enums := common_enums; gen_structs := common_structs; gen_wrappers := common_wrappers;
     gen_goTypes := file_gossipcache_v1_common_proto_goTypes;
     gen_depIdxs := file_gossipcache_v1_common_proto_depIdxs;
     gen_OneofWrappers := [];
     gen_counts := file_gossipcache_v1_common_proto_counts |}.
Definition control_pb_go : generated_file :=
  {| gen_rawDesc := file_gossipcache_v1_control_proto_rawDesc;
     gen_enums := control_enums; gen_structs := control_structs; gen_wrappers := control_wrappers;
     gen_goTypes := file_gossipcache_v1_control_proto_goTypes;
     gen_depIdxs := file_gossipcache_v1_control_proto_depIdxs;
     gen_OneofWrappers := file_gossipcache_v1_control_proto_OneofWrappers;
     gen_counts := file_gossipcache_v1_control_proto_counts |}.
Definition data_pb_go : generated_file :=
  {| gen_rawDesc := file_gossipcache_v1_data_proto_rawDesc;
     gen_enums := data_enums; gen_structs := data_structs; gen_wrappers := data_wrappers;
     gen_goTypes := file_gossipcache_v1_data_proto_goTypes;
     gen_depIdxs := file_gossipcache_v1_data_proto_depIdxs;
     gen_OneofWrappers := file_gossipcache_v1_data_proto_OneofWrappers;
     gen_counts := file_gossipcache_v1_data_proto_counts |}.

Lemma common_is_generated : common_pb_go = generate common_proto.
Proof. vm_compute. reflexivity. Qed.
Lemma control_is_generated : control_pb_go = generate control_proto.
Proof. vm_compute. reflexivity. Qed.
Lemma data_is_generated : data_pb_go = generate data_proto.
Proof. vm_compute. reflexivity. Qed.
