(* ===== verification/PbEncoding.v ===== *)
(** * Messages as bytes

    How the messages of the schema are encoded: each field that is not empty is
    a record with the number the schema gives it, and a message read from bytes
    takes from the records with the number of a field the value that the
    documented rules of the format give it.  A record whose number or wire type
    no field has is passed over; one of a field must be well formed, whether or
    not a later record replaces it.  The encoder and the decoder belong to the
    protobuf runtime; this file is the specification of their format for an
    arbitrary message of the schema, with the proof that reading gives back
    what was written.  [PbMessages] applies it to the generated types. *)

From S2P Require Import Prelude GoStd PbWire PbProto.
From stdpp Require Import list.
Local Open Scope Z_scope.

(** ** Values of fields *)

(** Sub-messages are held encoded; an integer is what its varint holds. *)
Inductive field_value :=
| VInt (n : Z)
| VBytes (b : bytes)
| VMessage (b : option bytes)
| VMessages (l : list bytes)
| VInts (l : list Z).

Definition repeated (f : proto_field) : bool :=
  match pf_label f with Repeated => true | _ => false end.

(** The value fits the declaration of the field. *)
Definition value_ok (f : proto_field) (v : field_value) : Prop :=
  match v with
  | VInt n =>
      repeated f = false ∧
      match pf_type f with
      | PUint32 => u32 n | PUint64 | PEnum _ => u64 n | PBool => n = 0 ∨ n = 1 | _ => False
      end
  | VBytes _ => repeated f = false ∧ match pf_type f with PString | PBytes => True | _ => False end
  | VMessage _ => repeated f = false ∧ match pf_type f with PMessage _ => True | _ => False end
  | VMessages _ => repeated f = true ∧ match pf_type f with PMessage _ => True | _ => False end
  | VInts l => repeated f = true ∧ pf_type f = PUint32 ∧ Forall u32 l
  end.

(** The parts of the value are no longer than a Go slice can be. *)
Definition small (v : field_value) : Prop :=
  match v with
  | VBytes b | VMessage (Some b) => len b < max_len
  | VMessages l => Forall (λ b, len b < max_len) l
  | VInts l => len (concat (map varint l)) < max_len
  | VInt _ | VMessage None => True
  end.

(** ** Writing *)

(** Zero values, empty byte strings and absent messages are not written; a
    repeated integer is packed into one record. *)
Definition bytes_records (k : Z) (b : bytes) : list wire_record :=
  match b with [] => [] | _ => [mkRecord k (PLen b)] end.

Definition value_records (k : Z) (v : field_value) : list wire_record :=
  match v with
  | VInt n => if n =? 0 then [] else [mkRecord k (PVarint n)]
  | VBytes b => bytes_records k b
  | VMessage None => []
  | VMessage (Some b) => [mkRecord k (PLen b)]
  | VMessages l => map (λ b, mkRecord k (PLen b)) l
  | VInts l => bytes_records k (concat (map varint l))
  end.

Definition all_records (fs : list proto_field) (vs : list field_value) : list wire_record :=
  concat (zip_with (λ f v, value_records (pf_number f) v) fs vs).

Definition encode_message (m : proto_message) (vs : list field_value) : bytes :=
  encode_records (all_records (message_fields m) vs).

(** ** Reading *)

Definition of_number (k : Z) (rs : list wire_record) : list contents_of_record :=
  map wr_payload (filter (λ r, wr_number r = k) rs).
Definition varints (ps : list contents_of_record) : list Z :=
  omap (λ p, match p with PVarint n => Some n | PLen _ => None end) ps.
Definition contents (ps : list contents_of_record) : list bytes :=
  omap (λ p, match p with PLen b => Some b | PVarint _ => None end) ps.

(** The contents of a packed record. *)
Fixpoint varints_with (fuel : nat) (b : bytes) : option (list Z) :=
  match b, fuel with
  | [], _ => Some []
  | _, O => None
  | _, S fuel =>
      '(n, b) ← parse_varint b; l ← varints_with fuel b; Some (n :: l)
  end.
Definition parse_varints (b : bytes) : option (list Z) := varints_with (length b) b.

(** Of a scalar field the last record counts; the records of a sub-message are
    merged, which for encoded messages is concatenation; an integer is cut to
    its type, and a repeated one may also come unpacked. *)
Definition read_value (f : proto_field) (ps : list contents_of_record) : option field_value :=
  match repeated f, pf_type f with
  | false, PUint32 => Some (VInt (to_uint32 (default 0 (last (varints ps)))))
  | false, (PUint64 | PEnum _) => Some (VInt (to_uint64 (default 0 (last (varints ps)))))
  | false, PBool => Some (VInt (if default 0 (last (varints ps)) =? 0 then 0 else 1))
  | false, (PString | PBytes) => Some (VBytes (default [] (last (contents ps))))
  | false, PMessage _ =>
      Some (VMessage (match contents ps with [] => None | l => Some (concat l) end))
  | true, PMessage _ => Some (VMessages (contents ps))
  | true, PUint32 =>
      ls ← mapM (λ p, match p with PVarint n => Some [n] | PLen b => parse_varints b end) ps;
      Some (VInts (map to_uint32 (concat ls)))
  | true, _ => None
  end.

(** Setting a field of a oneof clears the others: the records of the field
    that is set last, since it was set. *)
Definition oneof_records (fs : list proto_field) (rs : list wire_record) : list wire_record :=
  foldl (λ acc r,
    if decide (wr_number r ∈ map pf_number fs) then
      match acc with
      | a :: _ => if wr_number a =? wr_number r then acc ++ [r] else [r]
      | [] => [r]
      end
    else acc) [] rs.

Definition read_member (x : proto_member) (rs : list wire_record) : option (list field_value) :=
  match x with
  | Field f => v ← read_value f (of_number (pf_number f) rs); Some [v]
  | Oneof _ fs =>
      let rs := oneof_records fs rs in
      mapM (λ f, read_value f (of_number (pf_number f) rs)) fs
  end.

(** The wire types of a field; a repeated number may be packed. *)
Definition wire_matches (f : proto_field) (p : contents_of_record) : bool :=
  match pf_type f, p with
  | (PUint32 | PUint64 | PBool | PEnum _), PVarint _ => true
  | (PUint32 | PUint64 | PBool | PEnum _), PLen _ => repeated f
  | (PString | PBytes | PMessage _), PLen _ => true
  | (PString | PBytes | PMessage _), PVarint _ => false
  end.
Definition declares (f : proto_field) (r : wire_record) : bool :=
  (pf_number f =? wr_number r) && wire_matches f (wr_payload r).
Definition known (fs : list proto_field) (r : wire_record) : bool :=
  existsb (λ f, declares f r) fs.

Section read.
Context `{FormatRules}.
(** Whether bytes are a message of the type with that name. *)
Context (readable : string → bytes → bool).

(** A text is valid UTF-8, and a sub-message can be read, each time it occurs. *)
Definition content_ok (f : proto_field) (p : contents_of_record) : bool :=
  match pf_type f, p with
  | PString, PLen b => utf8_valid (String.string_of_list_byte b)
  | PMessage T, PLen b => readable T b
  | _, _ => true
  end.
Definition acceptable (fs : list proto_field) (r : wire_record) : bool :=
  forallb (λ f, negb (declares f r) || content_ok f (wr_payload r)) fs.

Definition decode_message (m : proto_message) (b : bytes) : option (list field_value) :=
  rs ← parse_records b;
  let rs := filter (λ r, known (message_fields m) r = true) rs in
  if forallb (acceptable (message_fields m)) rs then
    vss ← mapM (λ x, read_member x rs) (pm_members m);
    Some (concat vss)
  else None.

(** The texts and sub-messages of a value can be read. *)
Definition value_fits (f : proto_field) (v : field_value) : Prop :=
  match pf_type f, v with
  | PString, VBytes b => utf8_valid (String.string_of_list_byte b) = true
  | PMessage T, VMessage (Some b) => readable T b = true
  | PMessage T, VMessages l => Forall (λ b, readable T b = true) l
  | _, _ => True
  end.
End read.

(** ** A value is read back from its records *)

Lemma parse_varints_concat l : Forall u64 l → parse_varints (concat (map varint l)) = Some l.
Proof.
  intros Hl. unfold parse_varints.
  enough (∀ k, (length (concat (map varint l)) <= k)%nat →
    varints_with k (concat (map varint l)) = Some l) as Hk by by apply Hk.
  induction Hl as [|n l Hn _ IH]; intros k Hk; cbn [map concat] in *; [by destruct k|].
  rewrite length_app in Hk.
  pose proof (varint_groups_length (Z.to_nat (Z.log2 n / 7)) n) as Hpos.
  change (varint_groups _ n) with (varint n) in Hpos. destruct k as [|k]; [lia|].
  destruct (varint n ++ concat (map varint l)) as [|c r] eqn:E.
  { apply app_eq_nil in E as [E _]. rewrite E in Hpos. cbn in Hpos. lia. }
  cbn [varints_with]. rewrite <-E, parse_varint_varint by done. cbn [mbind option_bind].
  rewrite IH by lia. done.
Qed.

Lemma map_wr_payload k (b : bytes) : map wr_payload (bytes_records k b) =
  match b with [] => [] | _ => [PLen b] end.
Proof. by destruct b. Qed.

Lemma contents_PLen {A} (f : A → bytes) l : contents (map (λ b, PLen (f b)) l) = map f l.
Proof. induction l as [|b l IH]; [done|]. cbn. by f_equal. Qed.

Lemma map_to_uint32_id l : Forall u32 l → map to_uint32 l = l.
Proof. induction 1 as [|n l Hn _ IH]; [done|]. cbn. by rewrite to_uint32_id, IH. Qed.

Lemma read_value_records f v :
  value_ok f v → read_value f (map wr_payload (value_records (pf_number f) v)) = Some v.
Proof.
  destruct v as [n|b|[b|]|l|l]; cbn [value_ok value_records]; unfold read_value.
  - intros [-> Hn]. destruct (Z.eqb_spec n 0) as [->|Hnz]; cbn [map].
    + by destruct (pf_type f).
    + destruct (pf_type f); try done; cbn;
        [by rewrite to_uint32_id|by rewrite to_uint64_id| |by rewrite to_uint64_id].
      destruct (Z.eqb_spec n 0); [done|]. do 2 f_equal. lia.
  - intros [-> Ht]. rewrite map_wr_payload. destruct (pf_type f); try done; by destruct b.
  - intros [-> Ht]. destruct (pf_type f); try done. cbn. by rewrite app_nil_r.
  - intros [-> Ht]. by destruct (pf_type f).
  - intros [-> Ht]. destruct (pf_type f); try done. rewrite map_map.
    cbn [wr_payload]. by rewrite (contents_PLen id), map_id.
  - intros (-> & -> & Hl). rewrite map_wr_payload.
    assert (Forall u64 l) as Hpos
      by (eapply Forall_impl; [exact Hl|]; unfold u32, u64; lia).
    pose proof (parse_varints_concat l Hpos) as Hp.
    destruct (concat (map varint l)) as [|c r] eqn:E.
    + cbn in Hp. injection Hp as <-. done.
    + cbn -[parse_varints]. rewrite Hp. cbn.
      by rewrite app_nil_r, map_to_uint32_id.
Qed.

(** ** The records of one field among those of a message *)

Lemma of_number_app k rs rs' : of_number k (rs ++ rs') = of_number k rs ++ of_number k rs'.
Proof. unfold of_number. by rewrite filter_app, map_app. Qed.

Lemma filter_all {A} (P : A → Prop) `{∀ x, Decision (P x)} l : Forall P l → filter P l = l.
Proof.
  induction 1 as [|x l Hx _ IH]; [done|]. by rewrite filter_cons_True, IH.
Qed.
Lemma filter_none {A} (P : A → Prop) `{∀ x, Decision (P x)} l :
  Forall (λ x, ¬ P x) l → filter P l = [].
Proof.
  induction 1 as [|x l Hx _ IH]; [done|]. by rewrite filter_cons_False, IH.
Qed.

Lemma value_records_number k v r : r ∈ value_records k v → wr_number r = k.
Proof.
  destruct v as [n|b|[b|]|l|l]; cbn [value_records]; unfold bytes_records;
    repeat case_match; rewrite ?list_elem_of_fmap, ?list_elem_of_singleton; try set_solver.
Qed.

Lemma of_number_same k v : of_number k (value_records k v) = map wr_payload (value_records k v).
Proof.
  unfold of_number. f_equal. apply filter_all, Forall_forall. apply value_records_number.
Qed.

Lemma of_number_other k j v : k ≠ j → of_number k (value_records j v) = [].
Proof.
  intros Hkj. unfold of_number. rewrite filter_none; [done|].
  apply Forall_forall. intros r Hr Hk. apply value_records_number in Hr. congruence.
Qed.

Lemma all_records_app fs fs' vs vs' :
  length fs = length vs → all_records (fs ++ fs') (vs ++ vs') = all_records fs vs ++ all_records fs' vs'.
Proof. intros Hl. unfold all_records. by rewrite zip_with_app, concat_app. Qed.

Lemma all_records_numbers fs : ∀ vs r, r ∈ all_records fs vs → wr_number r ∈ map pf_number fs.
Proof.
  unfold all_records.
  induction fs as [|f fs IH]; intros [|v vs] r Hr; cbn [zip_with concat map] in *;
    [by apply not_elem_of_nil in Hr..|].
  apply elem_of_app in Hr as [->%value_records_number|Hr]; [by left|right; eauto].
Qed.

(** The records of some of the fields. *)
Abbreviation among fs := (filter (λ r, wr_number r ∈ map pf_number fs)).

Lemma among_all fs vs : among fs (all_records fs vs) = all_records fs vs.
Proof. apply filter_all, Forall_forall, all_records_numbers. Qed.

Lemma among_none fs rs :
  (∀ r, r ∈ rs → wr_number r ∉ map pf_number fs) → among fs rs = [].
Proof. intros Hrs. by apply filter_none, Forall_forall. Qed.

Lemma number_elem (f : proto_field) fs : f ∈ fs → pf_number f ∈ map pf_number fs.
Proof. induction 1; cbn; by constructor. Qed.

Lemma of_number_among f fs rs :
  f ∈ fs → of_number (pf_number f) (among fs rs) = of_number (pf_number f) rs.
Proof.
  intros Hf. unfold of_number.
  rewrite list_filter_filter_l; [done|]. intros r ->. by apply number_elem.
Qed.

Lemma of_number_record f fs vs v :
  NoDup (map pf_number fs) → (f, v) ∈ zip fs vs →
  of_number (pf_number f) (all_records fs vs) = map wr_payload (value_records (pf_number f) v).
Proof.
  revert vs. induction fs as [|g fs IH]; intros [|w vs] Hnd Hin;
    [by apply not_elem_of_nil in Hin..|].
  cbn [map] in Hnd. apply NoDup_cons in Hnd as [Hg Hnd].
  unfold all_records. cbn [zip_with concat]. rewrite of_number_app.
  cbn [zip zip_with] in Hin. apply elem_of_cons in Hin as [[= -> ->]|Hin].
  - rewrite of_number_same. unfold of_number. rewrite filter_none; [by rewrite app_nil_r|].
    apply Forall_forall. intros r Hr%all_records_numbers E. by rewrite E in Hr.
  - rewrite of_number_other; [by apply IH|]. intros E. apply Hg. rewrite <-E.
    by apply elem_of_zip_l, number_elem in Hin.
Qed.

(** ** Oneofs *)

(** At most one field of a oneof is set. *)
Definition one_set (fs : list proto_field) (vs : list field_value) : Prop :=
  ∀ r r', r ∈ all_records fs vs → r' ∈ all_records fs vs → wr_number r = wr_number r'.

Fixpoint oneofs_ok (xs : list proto_member) (vs : list field_value) : Prop :=
  match xs with
  | [] => True
  | x :: xs =>
      let n := length (member_fields x) in
      match x with Field _ => True | Oneof _ fs => one_set fs (take n vs) end ∧
      oneofs_ok xs (drop n vs)
  end.

Lemma oneof_records_among fs rs :
  (∀ r r', r ∈ among fs rs → r' ∈ among fs rs → wr_number r = wr_number r') →
  oneof_records fs rs = among fs rs.
Proof.
  intros Hone. unfold oneof_records.
  enough (∀ acc, (∀ r r', r ∈ acc ++ among fs rs → r' ∈ acc ++ among fs rs → wr_number r = wr_number r') →
    foldl (λ acc r,
      if decide (wr_number r ∈ map pf_number fs) then
        match acc with
        | a :: _ => if wr_number a =? wr_number r then acc ++ [r] else [r]
        | [] => [r]
        end
      else acc) acc rs = acc ++ among fs rs) as Hacc by by apply Hacc.
  clear Hone. induction rs as [|r rs IH]; intros acc Hacc; cbn [foldl]; [by rewrite app_nil_r|].
  destruct (decide (wr_number r ∈ map pf_number fs)) as [Hr|Hr].
  - rewrite filter_cons_True in Hacc |- * by done.
    assert (acc ++ r :: among fs rs = (acc ++ [r]) ++ among fs rs) as E by by rewrite <-app_assoc.
    rewrite E in Hacc |- *. rewrite <-IH by done. f_equal.
    destruct acc as [|a acc]; [done|].
    rewrite (Hacc a r), Z.eqb_refl; [done|set_solver..].
  - rewrite filter_cons_False in Hacc |- * by done. by apply IH.
Qed.

Lemma read_values fs vs rs :
  NoDup (map pf_number fs) → Forall2 value_ok fs vs → among fs rs = all_records fs vs →
  mapM (λ f, read_value f (of_number (pf_number f) rs)) fs = Some vs.
Proof.
  intros Hnd Hok Hrs. apply mapM_Some.
  assert (∀ f v, (f, v) ∈ zip fs vs → of_number (pf_number f) rs = map wr_payload (value_records (pf_number f) v)) as Hv.
  { intros f v Hin. rewrite <-(of_number_among f fs), Hrs by by eapply elem_of_zip_l.
    by apply of_number_record. }
  clear Hnd Hrs. induction Hok as [|f v fs vs Hfv _ IH]; constructor.
  - rewrite (Hv f v) by (cbn; left). by apply read_value_records.
  - apply IH. intros g w Hin. apply Hv. cbn. by right.
Qed.

Lemma read_member_ok x vs rs :
  NoDup (map pf_number (member_fields x)) → Forall2 value_ok (member_fields x) vs →
  match x with Field _ => True | Oneof _ fs => one_set fs vs end →
  among (member_fields x) rs = all_records (member_fields x) vs →
  read_member x rs = Some vs.
Proof.
  destruct x as [f|n fs]; cbn [member_fields read_member]; intros Hnd Hok Hone Hrs.
  - pose proof (read_values [f] vs rs Hnd Hok Hrs) as Hr. cbn [mapM] in Hr.
    destruct (read_value f _) as [v|]; [|done]. by destruct vs.
  - rewrite oneof_records_among by (rewrite Hrs; apply Hone).
    apply read_values; [done..|]. by rewrite Hrs, among_all.
Qed.

(** ** A message is read back *)

Lemma read_members_ok xs : ∀ vs pre,
  NoDup (map pf_number (concat (map member_fields xs))) →
  Forall2 value_ok (concat (map member_fields xs)) vs → oneofs_ok xs vs →
  (∀ r, r ∈ pre → wr_number r ∉ map pf_number (concat (map member_fields xs))) →
  ∃ vss, mapM (λ x, read_member x (pre ++ all_records (concat (map member_fields xs)) vs)) xs = Some vss ∧
    concat vss = vs.
Proof.
  induction xs as [|x xs IH]; intros vs pre Hnd Hok Hone Hpre; cbn [map concat oneofs_ok] in *.
  { inversion Hok; subst. by exists []. }
  apply Forall2_app_inv_l in Hok as (seg & rest & Hseg & Hrest & ->).
  pose proof (Forall2_length _ _ _ Hseg) as Hlen.
  rewrite Hlen, take_app_length, drop_app_length in Hone. destruct Hone as [Hx Hone].
  rewrite map_app in Hnd, Hpre. apply NoDup_app in Hnd as (Hndx & Hdisj & Hnd).
  rewrite all_records_app by done.
  destruct (IH rest (pre ++ all_records (member_fields x) seg) Hnd Hrest Hone) as (vss & Hvss & <-).
  { intros r. rewrite elem_of_app. intros [Hr|Hr%all_records_numbers] Hin; [|by apply (Hdisj _ Hr)].
    apply (Hpre r Hr). by apply elem_of_app; right. }
  exists (seg :: vss). split; [|done]. cbn [mapM].
  rewrite (read_member_ok x seg) by first [done
    |rewrite !filter_app, among_all, !among_none, app_nil_r; [done| |];
     [intros r Hr%all_records_numbers Hin; by apply (Hdisj _ Hin)
     |intros r Hr Hin; apply (Hpre r Hr), elem_of_app; by left]].
  cbn [mbind option_bind]. by rewrite <-app_assoc in Hvss; rewrite Hvss.
Qed.

(** The numbers of a schema are field numbers, and distinct. *)
Definition schema_ok (m : proto_message) : Prop :=
  NoDup (map pf_number (message_fields m)) ∧
  Forall (λ f, 1 <= pf_number f <= max_field_number) (message_fields m).

(** Every record of a message is one of the value of a field. *)
Lemma all_records_inv (P : proto_field → field_value → Prop) fs vs r :
  Forall2 P fs vs → r ∈ all_records fs vs →
  ∃ f v, f ∈ fs ∧ P f v ∧ v ∈ vs ∧ r ∈ value_records (pf_number f) v.
Proof.
  unfold all_records. induction 1 as [|f v fs vs Hv _ IH]; cbn [zip_with concat].
  { by intros ?%not_elem_of_nil. }
  intros [Hr|Hr]%elem_of_app; [|set_solver]. exists f, v. split_and!; [set_solver..|done].
Qed.

Lemma Forall2_both {A B} (P Q : A → B → Prop) l k :
  Forall2 P l k → Forall2 Q l k → Forall2 (λ x y, P x y ∧ Q x y) l k.
Proof. induction 1; intros HQ; inversion HQ; constructor; auto. Qed.

Lemma all_records_in f v fs vs r :
  (f, v) ∈ zip fs vs → r ∈ value_records (pf_number f) v → r ∈ all_records fs vs.
Proof.
  unfold all_records. revert vs. induction fs as [|g fs IH]; intros [|w vs] Hin Hr;
    [by apply not_elem_of_nil in Hin..|]. cbn [zip_with concat] in *.
  apply elem_of_app. apply elem_of_cons in Hin as [[= -> ->]|Hin]; [by left|right; eauto].
Qed.

Lemma value_record_ok f v r :
  value_ok f v → small v → 1 <= pf_number f <= max_field_number →
  r ∈ value_records (pf_number f) v → record_ok r.
Proof.
  intros Hv Hs Hf. destruct v as [n|b|[b|]|l|l]; cbn [value_records small] in *; unfold bytes_records.
  - case_match; [by intros ?%not_elem_of_nil|]. intros ->%list_elem_of_singleton.
    split; [done|]. cbn. destruct Hv as [_ Hv]. destruct (pf_type f); unfold u32, u64 in *; try lia; done.
  - case_match; [by intros ?%not_elem_of_nil|]. by intros ->%list_elem_of_singleton.
  - by intros ->%list_elem_of_singleton.
  - by intros ?%not_elem_of_nil.
  - intros (b & -> & Hb)%list_elem_of_fmap. split; [done|]. cbn. by apply (proj1 (Forall_forall _ _) Hs).
  - case_match; [by intros ?%not_elem_of_nil|]. by intros ->%list_elem_of_singleton.
Qed.

Lemma value_record_declared f v r :
  value_ok f v → r ∈ value_records (pf_number f) v → declares f r = true.
Proof.
  intros Hv Hr. unfold declares. rewrite (value_records_number _ _ _ Hr), Z.eqb_refl. cbn [andb].
  unfold wire_matches.
  destruct v as [n|b|[b|]|l|l]; cbn [value_records value_ok] in *; unfold bytes_records in Hr.
  - destruct (n =? 0); [by apply not_elem_of_nil in Hr|].
    apply list_elem_of_singleton in Hr as ->. destruct Hv as [_ Hv]. by destruct (pf_type f).
  - destruct b; [by apply not_elem_of_nil in Hr|].
    apply list_elem_of_singleton in Hr as ->. destruct Hv as [_ Hv]. by destruct (pf_type f).
  - apply list_elem_of_singleton in Hr as ->. destruct Hv as [_ Hv]. by destruct (pf_type f).
  - by apply not_elem_of_nil in Hr.
  - apply list_elem_of_fmap in Hr as (b & -> & _). destruct Hv as [_ Hv]. by destruct (pf_type f).
  - destruct (concat (map varint l)); [by apply not_elem_of_nil in Hr|].
    apply list_elem_of_singleton in Hr as ->. by destruct Hv as (-> & -> & _).
Qed.

Section read_back.
Context `{FormatRules} (readable : string → bytes → bool).

Lemma value_record_content f v r :
  value_ok f v → value_fits readable f v → r ∈ value_records (pf_number f) v →
  content_ok readable f (wr_payload r) = true.
Proof.
  unfold content_ok, value_fits. intros Hok Hv Hr.
  destruct v as [n|b|[b|]|l|l]; cbn [value_ok value_records] in *; unfold bytes_records in Hr.
  - destruct (n =? 0); [by apply not_elem_of_nil in Hr|].
    apply list_elem_of_singleton in Hr as ->. by destruct (pf_type f).
  - destruct b; [by apply not_elem_of_nil in Hr|].
    apply list_elem_of_singleton in Hr as ->. destruct Hok as [_ Hok]. by destruct (pf_type f).
  - apply list_elem_of_singleton in Hr as ->. destruct Hok as [_ Hok]. by destruct (pf_type f).
  - by apply not_elem_of_nil in Hr.
  - apply list_elem_of_fmap in Hr as (b & -> & Hb). destruct Hok as [_ Hok].
    destruct (pf_type f); try done. by apply (proj1 (Forall_forall _ _) Hv).
  - destruct Hok as (_ & -> & _). by destruct (wr_payload r).
Qed.

Lemma number_unique (fs : list proto_field) f g :
  NoDup (map pf_number fs) → f ∈ fs → g ∈ fs → pf_number f = pf_number g → f = g.
Proof.
  induction fs as [|h fs IH]; intros Hnd Hf Hg E; [by apply not_elem_of_nil in Hf|].
  cbn [map] in Hnd. apply NoDup_cons in Hnd as [Hh Hnd].
  apply elem_of_cons in Hf as [->|Hf], Hg as [->|Hg]; [done|..|by apply IH];
    destruct Hh; [rewrite E|rewrite <-E]; by apply number_elem.
Qed.

(** What is written is read back. *)
Lemma decode_encode m vs :
  schema_ok m → Forall2 value_ok (message_fields m) vs → oneofs_ok (pm_members m) vs →
  Forall2 (value_fits readable) (message_fields m) vs → Forall small vs →
  decode_message readable m (encode_message m vs) = Some vs.
Proof.
  intros [Hnd Hnum] Hok Hone Hfit Hsmall. unfold decode_message, encode_message.
  assert (∀ r, r ∈ all_records (message_fields m) vs →
    record_ok r ∧ known (message_fields m) r = true ∧ acceptable readable (message_fields m) r = true) as Hr.
  { intros r Hr. destruct (all_records_inv (λ f v, value_ok f v ∧ value_fits readable f v)
      (message_fields m) vs r) as (f & v & Hf & [Hv Hc] & Hin & Hrv);
      [by apply Forall2_both|done|].
    pose proof (value_record_declared f v r Hv Hrv) as Hd. split_and!.
    - eapply value_record_ok; [done| | |done].
      + by apply (proj1 (Forall_forall _ _) Hsmall).
      + by apply (proj1 (Forall_forall _ _) Hnum).
    - apply existsb_exists. exists f. split; [by apply list_elem_of_In|done].
    - apply forallb_forall. intros g Hg%list_elem_of_In. destruct (declares g r) eqn:Hdg; [|done].
      apply andb_true_iff in Hd as [Hd%Z.eqb_eq _], Hdg as [Hdg%Z.eqb_eq _].
      assert (g = f) as -> by (apply (number_unique (message_fields m)); congruence).
      by apply (value_record_content f v). }
  rewrite parse_records_encode by (apply Forall_forall; intros r Hin; apply (Hr r Hin)).
  cbn [mbind option_bind].
  rewrite filter_all by (apply Forall_forall; intros r Hin; apply (Hr r Hin)).
  assert (forallb (acceptable readable (message_fields m)) (all_records (message_fields m) vs) = true) as ->.
  { apply forallb_forall. intros r ?%list_elem_of_In. by apply Hr. }
  destruct (read_members_ok (pm_members m) vs [] Hnd Hok Hone) as (vss & Hvss & <-).
  { by intros r ?%not_elem_of_nil. }
  cbn [app] in Hvss. unfold message_fields. by rewrite Hvss.
Qed.

(** An encoding that a Go slice can hold has parts that it can hold. *)
Lemma encode_message_small m vs :
  length (message_fields m) = length vs → len (encode_message m vs) < max_len → Forall small vs.
Proof.
  intros Hl Hlen. unfold encode_message in Hlen. apply Forall_forall. intros v Hv.
  apply list_elem_of_lookup in Hv as [i Hv].
  destruct (lookup_lt_is_Some_2 (message_fields m) i) as [f Hf].
  { rewrite Hl. by eapply lookup_lt_Some. }
  assert ((f, v) ∈ zip (message_fields m) vs) as Hin.
  { apply list_elem_of_lookup. exists i. apply lookup_zip_with_Some. eauto. }
  assert (∀ b, mkRecord (pf_number f) (PLen b) ∈ value_records (pf_number f) v → len b < max_len) as Hb.
  { intros b Hb. pose proof (encode_records_contents _ _ _ (all_records_in f v _ _ _ Hin Hb)). lia. }
  destruct v as [n|b|[b|]|l|l]; cbn [small value_records] in *; unfold bytes_records in Hb; try done.
  - destruct b; [done|]. apply Hb. set_solver.
  - apply Hb. set_solver.
  - apply Forall_forall. intros b ?. apply Hb, list_elem_of_fmap. eauto.
  - destruct (concat (map varint l)); [done|]. apply Hb. set_solver.
Qed.
End read_back.

(** ** Whatever is read fits the schema *)

Lemma to_uint32_u32 n : u32 (to_uint32 n).
Proof. by apply wrap_range. Qed.
Lemma to_uint64_u64 n : u64 (to_uint64 n).
Proof. by apply wrap_range. Qed.

Lemma read_value_ok f ps v : read_value f ps = Some v → value_ok f v.
Proof.
  unfold read_value. destruct (repeated f) eqn:Hr, (pf_type f) eqn:Ht; try done;
    try (intros [= <-]; cbn; rewrite Hr, Ht; split; [done|];
      first [done|apply to_uint32_u32|apply to_uint64_u64|case_match; by auto]).
  intros (ls & _ & [= <-])%bind_Some. cbn. split_and!; [done..|].
  apply Forall_fmap, Forall_forall. intros n _. apply to_uint32_u32.
Qed.

Lemma read_values_ok fs ps vs :
  mapM (λ f, read_value f (ps f)) fs = Some vs → Forall2 value_ok fs vs.
Proof.
  intros Hvs%mapM_Some. induction Hvs as [|f v fs vs Hv _ IH]; constructor; [|done].
  by eapply read_value_ok.
Qed.

Lemma decode_message_ok `{FormatRules} readable m b vs :
  decode_message readable m b = Some vs → Forall2 value_ok (message_fields m) vs.
Proof.
  unfold decode_message, message_fields. intros (rs & _ & Hd)%bind_Some.
  case_match; [|done]. apply bind_Some in Hd as (vss & Hvss & [= <-]). apply mapM_Some in Hvss.
  induction Hvss as [|x vs xs vss Hx _ IH]; [constructor|].
  cbn [map concat]. apply Forall2_app; [|done]. destruct x as [f|n fs]; cbn in Hx.
  - apply bind_Some in Hx as (v & Hv & [= <-]). constructor; [by eapply read_value_ok|constructor].
  - by apply read_values_ok in Hx.
Qed.

(** ** Descriptors are well formed records *)

(** A record that holds bytes is well formed when the whole is not too long. *)
Lemma len_records_ok (rs : list wire_record) :
  (len (encode_records rs) < max_len) →
  Forall (λ r, (1 <= wr_number r <= max_field_number) ∧
    match wr_payload r with PVarint n => u64 n | PLen _ => True end) rs →
  Forall record_ok rs.
Proof.
  intros Hlen Hrs. apply Forall_forall. intros [k [n|b]] Hr.
  - by apply (proj1 (Forall_forall _ _) Hrs).
  - pose proof (proj1 (Forall_forall _ _) Hrs _ Hr) as [Hk _]. split; [exact Hk|]. cbn.
    pose proof (encode_records_contents _ _ _ Hr). lia.
Qed.

Lemma file_descriptor_ok p :
  (len (encode_records (file_descriptor p)) < max_len) → Forall record_ok (file_descriptor p).
Proof.
  intros Hlen. apply len_records_ok; [done|]. unfold file_descriptor. rewrite !Forall_app, !Forall_fmap.
  split_and!; try (by repeat constructor); by apply Forall_forall.
Qed.
