(* ===== verification/PbMessages.v ===== *)
(** * The generated messages as bytes

    [Wire P] says how a generated message type is encoded: its message of the
    schema, the values of its fields in the order of the schema, and back.
    Every instance is proved to be read back from its bytes, and to have its
    fields in the ranges of their Go types when it is read from any bytes. *)

From S2P Require Import Prelude GoStd PbCommon PbControl PbData PbWire PbProto PbEncoding.
From S2P Require Import ControlConvert.
From stdpp Require Import list.

Local Open Scope Z_scope.

(** Readers of the sub-messages of a message, by the name of their type. *)
Definition sub_readable (l : list (string * (bytes → bool))) (T : string) (b : bytes) : bool :=
  existsb (λ x, String.eqb x.1 T && x.2 b) l.

Class Wire `{FormatRules} (P : Type) `{GoTyped P} := {
  w_schema : proto_message;
  w_subs : list (string * (bytes → bool));
  w_values : P → list field_value;
  w_of : list field_value → option P;
  (** The messages that can be written without loss: in range, with valid
      texts and without nil elements. *)
  w_ok : P → Prop;
  w_schema_ok : schema_ok w_schema;
  w_values_ok : ∀ p, w_ok p →
    Forall2 value_ok (message_fields w_schema) (w_values p) ∧
    oneofs_ok (pm_members w_schema) (w_values p);
  w_values_fit : ∀ p, w_ok p → Forall small (w_values p) →
    Forall2 (value_fits (sub_readable w_subs)) (message_fields w_schema) (w_values p);
  w_of_values : ∀ p, w_ok p → Forall small (w_values p) → w_of (w_values p) = Some p;
  w_of_typed : ∀ vs p,
    Forall2 value_ok (message_fields w_schema) vs → w_of vs = Some p → go_typed p;
}.

Section wire.
Context `{FormatRules} {P : Type} `{!GoTyped P} `{!Wire P}.

Definition marshal (p : P) : bytes := encode_message w_schema (w_values p).
Definition unmarshal (b : bytes) : option P :=
  decode_message (sub_readable w_subs) w_schema b ≫= w_of.

(** A message that can be written can be read, provided that its bytes fit in a
    Go slice. *)
Lemma unmarshal_marshal p : w_ok p → len (marshal p) < max_len → unmarshal (marshal p) = Some p.
Proof.
  intros Hok Hlen. unfold unmarshal. unfold marshal in *.
  destruct (w_values_ok p Hok) as [Hv Ho].
  assert (Forall small (w_values p)) as Hs
    by (apply (encode_message_small w_schema); [by eapply Forall2_length|done]).
  rewrite decode_encode; [by apply w_of_values|apply w_schema_ok|done|done| |done].
  by apply w_values_fit.
Qed.

Lemma unmarshal_typed b p : unmarshal b = Some p → go_typed p.
Proof.
  intros (vs & Hvs & Hp)%bind_Some. eapply w_of_typed; [|done]. by eapply decode_message_ok.
Qed.

Lemma marshal_inj p q :
  w_ok p → w_ok q → len (marshal p) < max_len → marshal p = marshal q → p = q.
Proof.
  intros Hp Hq Hlen E. pose proof (unmarshal_marshal p Hp Hlen) as U.
  rewrite E in U, Hlen. rewrite (unmarshal_marshal q Hq Hlen) in U. congruence.
Qed.

Definition readable (b : bytes) : bool := match unmarshal b with Some _ => true | None => false end.

Lemma readable_marshal p : w_ok p → len (marshal p) < max_len → readable (marshal p) = true.
Proof. intros Hp Hlen. unfold readable. by rewrite unmarshal_marshal. Qed.

(** ** Sub-messages *)

(** A nil element of a list is written as an empty message. *)
Definition marshal_elem (o : option P) : bytes := match o with Some p => marshal p | None => [] end.

Definition sub (b : option bytes) : option (option P) :=
  match b with None => Some None | Some b => p ← unmarshal b; Some (Some p) end.
Definition subs (l : list bytes) : option (list (option P)) :=
  mapM (λ b, p ← unmarshal b; Some (Some p)) l.

Definition sub_ok (o : option P) : Prop := match o with Some p => w_ok p | None => True end.
Definition subs_ok (l : list (option P)) : Prop :=
  Forall (λ o, match o with Some p => w_ok p | None => False end) l.

Lemma sub_marshal o : sub_ok o → small (VMessage (marshal <$> o)) → sub (marshal <$> o) = Some o.
Proof. destruct o as [p|]; [|done]. intros Hp Hs. cbn in *. by rewrite unmarshal_marshal. Qed.

Lemma subs_marshal l :
  subs_ok l → small (VMessages (map marshal_elem l)) → subs (map marshal_elem l) = Some l.
Proof.
  intros Hl Hs. apply mapM_Some. cbn in Hs.
  induction Hl as [|[p|] l Hp _ IH]; [constructor| |done]. cbn [map] in *.
  apply Forall_cons in Hs as [Hs1 Hs]. constructor; [|by apply IH].
  apply bind_Some. exists p. split; [by apply unmarshal_marshal|done].
Qed.

(** The sub-messages that are written can be read. *)
Lemma sub_fits T l o :
  sub_ok o → small (VMessage (marshal <$> o)) → In (T, readable) l →
  match marshal <$> o with Some b => sub_readable l T b = true | None => True end.
Proof.
  destruct o as [p|]; [|done]. intros Hp Hs Hin. cbn in *. apply existsb_exists.
  exists (T, readable). cbn. by rewrite String.eqb_refl, readable_marshal.
Qed.

Lemma subs_fit T l os :
  subs_ok os → small (VMessages (map marshal_elem os)) → In (T, readable) l →
  Forall (λ b, sub_readable l T b = true) (map marshal_elem os).
Proof.
  intros Hos Hs Hin. cbn in Hs. induction Hos as [|[p|] os Hp _ IH]; [constructor| |done].
  cbn [map] in *. apply Forall_cons in Hs as [Hs1 Hs]. constructor; [|by apply IH].
  apply existsb_exists. exists (T, readable). cbn. cbn in Hs1.
  by rewrite String.eqb_refl, readable_marshal.
Qed.

Lemma sub_typed b o : sub b = Some o → go_typed o.
Proof.
  destruct b as [b|]; cbn; [|by intros [= <-]].
  intros (p & Hp & [= <-])%bind_Some. by apply unmarshal_typed in Hp.
Qed.

Lemma subs_typed bs l : subs bs = Some l → go_typed l.
Proof.
  intros Hl%mapM_Some. induction Hl as [|b o bs l Ho _ IH]; [constructor|].
  apply bind_Some in Ho as (p & Hp & [= <-]). constructor; [|done].
  by apply unmarshal_typed in Hp.
Qed.
End wire.

(** ** Texts *)
Section text.
Context `{FormatRules}.

Definition text (b : bytes) : option string :=
  let s := String.string_of_list_byte b in if utf8_valid s then Some s else None.

Lemma string_of_bytes s : String.string_of_list_byte (string_bytes s) = s.
Proof. unfold string_bytes. by rewrite String.string_of_list_byte_of_string. Qed.

Lemma text_string s : utf8_valid s = true → text (string_bytes s) = Some s.
Proof.
  intros Hs. unfold text. by rewrite string_of_bytes, Hs.
Qed.
End text.

#[global] Arguments sub : simpl never.
#[global] Arguments subs : simpl never.
#[global] Arguments text : simpl never.
#[global] Arguments marshal : simpl never.
#[global] Arguments unmarshal : simpl never.
#[global] Arguments readable : simpl never.
#[global] Arguments sub_readable : simpl never.
#[global] Arguments string_bytes : simpl never.
#[global] Arguments to_uint64 : simpl never.
#[global] Arguments to_int32 : simpl never.

(** ** Enumerations: an [int32] travels as the 64-bit pattern of its value *)
Lemma to_int32_to_uint64 z : i32 z → to_int32 (to_uint64 z) = z.
Proof.
  unfold i32, to_int32, to_uint64, wrap. intros Hz.
  destruct (decide (0 <= z)).
  - rewrite (Z.mod_small z) by lia. rewrite Z.mod_small by lia. lia.
  - replace (z mod 2 ^ 64) with (z + 2 ^ 64).
    2:{ apply (Z.mod_unique z (2 ^ 64) (-1)); lia. }
    replace (z + 2 ^ 64 + 2 ^ 31) with (z + 2 ^ 31 + 2 ^ 32 * 2 ^ 32) by lia.
    rewrite Z_mod_plus_full, Z.mod_small by lia. lia.
Qed.

Lemma to_int32_i32 z : i32 (to_int32 z).
Proof. unfold i32, to_int32. pose proof (wrap_range 32 (z + 2 ^ 31)). lia. Qed.

(** ** The laws of an instance *)
Create HintDb wire.
#[export] Hint Unfold pb_VersionTag_typed pb_MutationID_typed pb_StreamWatermark_typed pb_Hello_typed
  pb_Subscribe_typed pb_InvalidationEvent_typed pb_InvalidationBatch_typed pb_StreamAcknowledgement_typed
  pb_StreamCheckpoint_typed pb_ReplayRequest_typed pb_ReplayUnavailable_typed pb_InvalidateConfirm_typed
  pb_ControlError_typed pb_HandshakeRequest_typed pb_HandshakeResponse_typed pb_HubStatusRequest_typed
  pb_HubStatusResponse_typed pb_GetRequest_typed pb_GetResponse_typed pb_MutationRequest_typed
  pb_MutationResponse_typed : wire.

Ltac typed_hyps :=
  unfold go_typed in *; autounfold with wire in *; cbn in * |-; destruct_ands.

Ltac split_small :=
  repeat match goal with
    | H : Forall small (_ :: _) |- _ => apply Forall_cons in H as [? H]
    | H : Forall small [] |- _ => clear H
    end.

Ltac wire_law :=
  lazymatch goal with
  | |- schema_ok _ =>
      unfold schema_ok; refine (bool_decide_eq_true_1 _ _); by vm_compute
  | |- ∀ p, _ → Forall2 _ _ _ ∧ _ =>
      intros [] Hok; typed_hyps; split;
      [cbn; repeat apply Forall2_cons_2; try apply Forall2_nil_2; cbn; split_and?;
       first [done|assumption|apply to_uint64_u64|by case_match; auto]
      |cbn; by repeat split]
  | |- ∀ p, _ → _ → Forall2 _ _ _ =>
      intros [] Hok Hs; typed_hyps; split_small;
      cbn; repeat apply Forall2_cons_2; try apply Forall2_nil_2; unfold value_fits; cbn;
      first [done|by rewrite string_of_bytes|apply sub_fits; cbn; by auto
            |apply subs_fit; cbn; by auto]
  | |- ∀ p, _ → _ → _ = Some p =>
      intros [] Hok Hs; typed_hyps; split_small; cbn;
      repeat (first [rewrite text_string by done|rewrite sub_marshal by done
        |rewrite subs_marshal by done|rewrite to_int32_to_uint64 by done]; cbn);
      first [reflexivity|by case_match]
  | |- ∀ vs p, _ → _ → go_typed p =>
      let Hv := fresh in let E := fresh in
      intros vs p Hv E; cbn in Hv;
      repeat match goal with
        | H : Forall2 value_ok (_ :: _) _ |- _ =>
            apply Forall2_cons_inv_l in H as (? & ? & ? & H & ->)
        | H : Forall2 value_ok [] _ |- _ => apply Forall2_nil_inv_l in H as ->
        end;
      repeat match type of E with context [match ?v with VInt _ => _ | _ => _ end] =>
        destruct v; try done end;
      repeat match type of E with (_ ≫= _) = Some _ =>
        apply bind_Some in E as (? & ? & E) end;
      injection E as <-; cbn in *; destruct_ands; unfold go_typed; autounfold with wire; cbn;
      split_and?; first [done|assumption|apply to_int32_i32|by eapply sub_typed|by eapply subs_typed]
  end.

(** An envelope holds no message or one: one record at most. *)
Lemma one_set_single fs vs : (length (all_records fs vs) <= 1)%nat → one_set fs vs.
Proof.
  unfold one_set. destruct (all_records fs vs) as [|r [|r' l]]; cbn; [set_solver| |lia].
  intros _ a b Ha%list_elem_of_singleton Hb%list_elem_of_singleton. congruence.
Qed.

Ltac split_body m :=
  destruct m as [[[[[p|]|]|[[p|]|]|[[p|]|]|[[p|]|]|[[p|]|]]|]] ||
  destruct m as [[[[[p|]|]|[[p|]|]|[[p|]|]|[[p|]|]]|]].

Ltac envelope_law :=
  lazymatch goal with
  | |- schema_ok _ => unfold schema_ok; refine (bool_decide_eq_true_1 _ _); by vm_compute
  | |- ∀ p, _ → Forall2 _ _ _ ∧ _ =>
      intros m Hok; split_body m; try done; clear Hok;
      (split; [cbn; repeat apply Forall2_cons_2; try apply Forall2_nil_2; by cbn
              |split; [apply one_set_single; vm_compute; by auto|exact I]])
  | |- ∀ p, _ → _ → Forall2 _ _ _ =>
      intros m Hok Hs; split_body m; try done; cbn in Hok, Hs |- *; split_small;
      repeat apply Forall2_cons_2; try apply Forall2_nil_2; unfold value_fits; cbn; try done;
      match goal with |- sub_readable ?l ?T (marshal ?p) = true =>
        apply (sub_fits T l (Some p)); cbn; by auto 10 end
  | |- ∀ p, _ → _ → _ = Some p =>
      intros m Hok Hs; split_body m; try done; cbn in Hok, Hs |- *; split_small;
      cbn in *; by rewrite ?unmarshal_marshal
  | |- ∀ vs p, _ → _ → go_typed p =>
      let Hv := fresh in let E := fresh in
      intros vs p Hv E; clear Hv;
      repeat match type of E with
        | match ?v with _ => _ end = _ => destruct v; try done
        end;
      first [apply bind_Some in E as (? & ?%unmarshal_typed & [= <-]); done
            |by injection E as <-]
  end.

Section messages.
Context `{FormatRules}.

#[export, refine] Instance VersionTag_wire : Wire pb_VersionTag :=
  {| w_schema := proto_VersionTag; w_subs := [];
     w_values m :=
        [VInt (pb_VersionTag_PartitionId m);
         VInt (pb_VersionTag_Sequence m)];
     w_of vs :=
       match vs with
       | [VInt v0; VInt v1] =>
           Some (mk_pb_VersionTag v0 v1)
       | _ => None
       end;
     w_ok m := go_typed m |}.
Proof. all: wire_law. Defined.

#[export, refine] Instance MutationID_wire : Wire pb_MutationID :=
  {| w_schema := proto_MutationID; w_subs := [];
     w_values m :=
        [VBytes (pb_MutationID_Id m)];
     w_of vs :=
       match vs with
       | [VBytes v0] =>
           Some (mk_pb_MutationID v0)
       | _ => None
       end;
     w_ok m := go_typed m |}.
Proof. all: wire_law. Defined.

#[export, refine] Instance StreamWatermark_wire : Wire pb_StreamWatermark :=
  {| w_schema := proto_StreamWatermark; w_subs := [];
     w_values m :=
        [VInt (pb_StreamWatermark_StreamId m);
         VInt (pb_StreamWatermark_AppliedThrough m);
         VInt (pb_StreamWatermark_HubGeneration m)];
     w_of vs :=
       match vs with
       | [VInt v0; VInt v1; VInt v2] =>
           Some (mk_pb_StreamWatermark v0 v1 v2)
       | _ => None
       end;
     w_ok m := go_typed m |}.
Proof. all: wire_law. Defined.

#[export, refine] Instance Hello_wire : Wire pb_Hello :=
  {| w_schema := proto_Hello; w_subs := [("StreamWatermark"%string, readable (P := pb_StreamWatermark))];
     w_values m :=
        [VInt (pb_Hello_NodeId m);
         VInt (pb_Hello_ProtocolVersion m);
         VInt (pb_Hello_MinSupportedVersion m);
         VMessages (map marshal_elem (pb_Hello_Subscriptions m));
         VBytes (string_bytes (pb_Hello_ClusterId m));
         VInt (pb_Hello_ExpectedHubGeneration m)];
     w_of vs :=
       match vs with
       | [VInt v0; VInt v1; VInt v2; VMessages v3; VBytes v4; VInt v5] =>
           v3 ← subs v3; v4 ← text v4; Some (mk_pb_Hello v0 v1 v2 v3 v4 v5)
       | _ => None
       end;
     w_ok m := go_typed m ∧ subs_ok (pb_Hello_Subscriptions m) ∧ utf8_valid (pb_Hello_ClusterId m) = true |}.
Proof. all: wire_law. Defined.

#[export, refine] Instance Subscribe_wire : Wire pb_Subscribe :=
  {| w_schema := proto_Subscribe; w_subs := [];
     w_values m :=
        [VInt (pb_Subscribe_HubGeneration m);
         VInts (pb_Subscribe_StreamIds m)];
     w_of vs :=
       match vs with
       | [VInt v0; VInts v1] =>
           Some (mk_pb_Subscribe v0 v1)
       | _ => None
       end;
     w_ok m := go_typed m |}.
Proof. all: wire_law. Defined.

#[export, refine] Instance InvalidationEvent_wire : Wire pb_InvalidationEvent :=
  {| w_schema := proto_InvalidationEvent; w_subs := [("VersionTag"%string, readable (P := pb_VersionTag)); ("MutationID"%string, readable (P := pb_MutationID))];
     w_values m :=
        [VInt (pb_InvalidationEvent_StreamSequence m);
         VBytes (pb_InvalidationEvent_Key m);
         VMessage (marshal <$> pb_InvalidationEvent_Version m);
         VInt (to_uint64 (pb_InvalidationEvent_Kind m));
         VMessage (marshal <$> pb_InvalidationEvent_MutationId m)];
     w_of vs :=
       match vs with
       | [VInt v0; VBytes v1; VMessage v2; VInt v3; VMessage v4] =>
           v2 ← sub v2; v4 ← sub v4; Some (mk_pb_InvalidationEvent v0 v1 v2 (to_int32 v3) v4)
       | _ => None
       end;
     w_ok m := go_typed m ∧ sub_ok (pb_InvalidationEvent_Version m) ∧ sub_ok (pb_InvalidationEvent_MutationId m) |}.
Proof. all: wire_law. Defined.

#[export, refine] Instance InvalidationBatch_wire : Wire pb_InvalidationBatch :=
  {| w_schema := proto_InvalidationBatch; w_subs := [("InvalidationEvent"%string, readable (P := pb_InvalidationEvent))];
     w_values m :=
        [VInt (pb_InvalidationBatch_StreamId m);
         VInt (pb_InvalidationBatch_HubGeneration m);
         VMessages (map marshal_elem (pb_InvalidationBatch_Events m))];
     w_of vs :=
       match vs with
       | [VInt v0; VInt v1; VMessages v2] =>
           v2 ← subs v2; Some (mk_pb_InvalidationBatch v0 v1 v2)
       | _ => None
       end;
     w_ok m := go_typed m ∧ subs_ok (pb_InvalidationBatch_Events m) |}.
Proof. all: wire_law. Defined.

#[export, refine] Instance StreamAcknowledgement_wire : Wire pb_StreamAcknowledgement :=
  {| w_schema := proto_StreamAcknowledgement; w_subs := [];
     w_values m :=
        [VInt (pb_StreamAcknowledgement_StreamId m);
         VInt (pb_StreamAcknowledgement_AppliedThrough m)];
     w_of vs :=
       match vs with
       | [VInt v0; VInt v1] =>
           Some (mk_pb_StreamAcknowledgement v0 v1)
       | _ => None
       end;
     w_ok m := go_typed m |}.
Proof. all: wire_law. Defined.

#[export, refine] Instance StreamCheckpoint_wire : Wire pb_StreamCheckpoint :=
  {| w_schema := proto_StreamCheckpoint; w_subs := [];
     w_values m :=
        [VInt (pb_StreamCheckpoint_StreamId m);
         VInt (pb_StreamCheckpoint_HubGeneration m);
         VInt (pb_StreamCheckpoint_StreamHead m)];
     w_of vs :=
       match vs with
       | [VInt v0; VInt v1; VInt v2] =>
           Some (mk_pb_StreamCheckpoint v0 v1 v2)
       | _ => None
       end;
     w_ok m := go_typed m |}.
Proof. all: wire_law. Defined.

#[export, refine] Instance ReplayRequest_wire : Wire pb_ReplayRequest :=
  {| w_schema := proto_ReplayRequest; w_subs := [];
     w_values m :=
        [VInt (pb_ReplayRequest_StreamId m);
         VInt (pb_ReplayRequest_FromSequence m);
         VInt (pb_ReplayRequest_ToSequence m)];
     w_of vs :=
       match vs with
       | [VInt v0; VInt v1; VInt v2] =>
           Some (mk_pb_ReplayRequest v0 v1 v2)
       | _ => None
       end;
     w_ok m := go_typed m |}.
Proof. all: wire_law. Defined.

#[export, refine] Instance ReplayUnavailable_wire : Wire pb_ReplayUnavailable :=
  {| w_schema := proto_ReplayUnavailable; w_subs := [];
     w_values m :=
        [VInt (pb_ReplayUnavailable_StreamId m);
         VInt (pb_ReplayUnavailable_HubGeneration m);
         VInt (pb_ReplayUnavailable_RequestedFrom m);
         VInt (pb_ReplayUnavailable_OldestAvailable m);
         VInt (pb_ReplayUnavailable_StreamHead m)];
     w_of vs :=
       match vs with
       | [VInt v0; VInt v1; VInt v2; VInt v3; VInt v4] =>
           Some (mk_pb_ReplayUnavailable v0 v1 v2 v3 v4)
       | _ => None
       end;
     w_ok m := go_typed m |}.
Proof. all: wire_law. Defined.

#[export, refine] Instance InvalidateConfirm_wire : Wire pb_InvalidateConfirm :=
  {| w_schema := proto_InvalidateConfirm; w_subs := [];
     w_values m :=
        [VInt (pb_InvalidateConfirm_StreamId m);
         VInt (pb_InvalidateConfirm_StreamSequence m);
         VInt (pb_InvalidateConfirm_NodeId m)];
     w_of vs :=
       match vs with
       | [VInt v0; VInt v1; VInt v2] =>
           Some (mk_pb_InvalidateConfirm v0 v1 v2)
       | _ => None
       end;
     w_ok m := go_typed m |}.
Proof. all: wire_law. Defined.

#[export, refine] Instance ControlError_wire : Wire pb_ControlError :=
  {| w_schema := proto_ControlError; w_subs := [];
     w_values m :=
        [VInt (to_uint64 (pb_ControlError_Status m));
         VBytes (string_bytes (pb_ControlError_Detail m))];
     w_of vs :=
       match vs with
       | [VInt v0; VBytes v1] =>
           v1 ← text v1; Some (mk_pb_ControlError (to_int32 v0) v1)
       | _ => None
       end;
     w_ok m := go_typed m ∧ utf8_valid (pb_ControlError_Detail m) = true |}.
Proof. all: wire_law. Defined.

#[export, refine] Instance HandshakeRequest_wire : Wire pb_HandshakeRequest :=
  {| w_schema := proto_HandshakeRequest; w_subs := [];
     w_values m :=
        [VInt (pb_HandshakeRequest_ProtocolVersion m);
         VInt (pb_HandshakeRequest_MinSupportedVersion m);
         VBytes (string_bytes (pb_HandshakeRequest_ClusterId m));
         VInt (pb_HandshakeRequest_ExpectedHubGeneration m)];
     w_of vs :=
       match vs with
       | [VInt v0; VInt v1; VBytes v2; VInt v3] =>
           v2 ← text v2; Some (mk_pb_HandshakeRequest v0 v1 v2 v3)
       | _ => None
       end;
     w_ok m := go_typed m ∧ utf8_valid (pb_HandshakeRequest_ClusterId m) = true |}.
Proof. all: wire_law. Defined.

#[export, refine] Instance HandshakeResponse_wire : Wire pb_HandshakeResponse :=
  {| w_schema := proto_HandshakeResponse; w_subs := [];
     w_values m :=
        [VInt (pb_HandshakeResponse_ProtocolVersion m);
         VInt (pb_HandshakeResponse_HubGeneration m);
         VInt (pb_HandshakeResponse_PartitionCount m);
         VInt (to_uint64 (pb_HandshakeResponse_StorageProfile m));
         VInt (if pb_HandshakeResponse_DurableHealthy m then 1 else 0);
         VBytes (string_bytes (pb_HandshakeResponse_ClusterId m))];
     w_of vs :=
       match vs with
       | [VInt v0; VInt v1; VInt v2; VInt v3; VInt v4; VBytes v5] =>
           v5 ← text v5; Some (mk_pb_HandshakeResponse v0 v1 v2 (to_int32 v3) (negb (v4 =? 0)) v5)
       | _ => None
       end;
     w_ok m := go_typed m ∧ utf8_valid (pb_HandshakeResponse_ClusterId m) = true |}.
Proof. all: wire_law. Defined.

#[export, refine] Instance HubStatusRequest_wire : Wire pb_HubStatusRequest :=
  {| w_schema := proto_HubStatusRequest; w_subs := [];
     w_values m :=
        [VInt (pb_HubStatusRequest_HubGeneration m)];
     w_of vs :=
       match vs with
       | [VInt v0] =>
           Some (mk_pb_HubStatusRequest v0)
       | _ => None
       end;
     w_ok m := go_typed m |}.
Proof. all: wire_law. Defined.

#[export, refine] Instance HubStatusResponse_wire : Wire pb_HubStatusResponse :=
  {| w_schema := proto_HubStatusResponse; w_subs := [];
     w_values m :=
        [VInt (pb_HubStatusResponse_HubGeneration m);
         VInt (to_uint64 (pb_HubStatusResponse_StorageProfile m));
         VInt (if pb_HubStatusResponse_DurableHealthy m then 1 else 0);
         VInt (to_uint64 (pb_HubStatusResponse_Status m))];
     w_of vs :=
       match vs with
       | [VInt v0; VInt v1; VInt v2; VInt v3] =>
           Some (mk_pb_HubStatusResponse v0 (to_int32 v1) (negb (v2 =? 0)) (to_int32 v3))
       | _ => None
       end;
     w_ok m := go_typed m |}.
Proof. all: wire_law. Defined.

#[export, refine] Instance GetRequest_wire : Wire pb_GetRequest :=
  {| w_schema := proto_GetRequest; w_subs := [("VersionTag"%string, readable (P := pb_VersionTag))];
     w_values m :=
        [VBytes (pb_GetRequest_Key m);
         VMessage (marshal <$> pb_GetRequest_MinVersion m);
         VInt (pb_GetRequest_HubGeneration m)];
     w_of vs :=
       match vs with
       | [VBytes v0; VMessage v1; VInt v2] =>
           v1 ← sub v1; Some (mk_pb_GetRequest v0 v1 v2)
       | _ => None
       end;
     w_ok m := go_typed m ∧ sub_ok (pb_GetRequest_MinVersion m) |}.
Proof. all: wire_law. Defined.

#[export, refine] Instance GetResponse_wire : Wire pb_GetResponse :=
  {| w_schema := proto_GetResponse; w_subs := [("VersionTag"%string, readable (P := pb_VersionTag))];
     w_values m :=
        [VInt (to_uint64 (pb_GetResponse_Status m));
         VInt (pb_GetResponse_HubGeneration m);
         VMessage (marshal <$> pb_GetResponse_Version m);
         VBytes (pb_GetResponse_Value m);
         VInt (pb_GetResponse_TtlMillis m);
         VInt (to_uint64 (pb_GetResponse_Kind m))];
     w_of vs :=
       match vs with
       | [VInt v0; VInt v1; VMessage v2; VBytes v3; VInt v4; VInt v5] =>
           v2 ← sub v2; Some (mk_pb_GetResponse (to_int32 v0) v1 v2 v3 v4 (to_int32 v5))
       | _ => None
       end;
     w_ok m := go_typed m ∧ sub_ok (pb_GetResponse_Version m) |}.
Proof. all: wire_law. Defined.

#[export, refine] Instance MutationRequest_wire : Wire pb_MutationRequest :=
  {| w_schema := proto_MutationRequest; w_subs := [("MutationID"%string, readable (P := pb_MutationID))];
     w_values m :=
        [VInt (to_uint64 (pb_MutationRequest_Op m));
         VBytes (pb_MutationRequest_Key m);
         VBytes (pb_MutationRequest_Value m);
         VInt (pb_MutationRequest_TtlMillis m);
         VMessage (marshal <$> pb_MutationRequest_MutationId m);
         VInt (to_uint64 (pb_MutationRequest_Mode m));
         VInt (pb_MutationRequest_W m);
         VInt (to_uint64 (pb_MutationRequest_Confirm m));
         VInt (pb_MutationRequest_TimeoutMillis m);
         VInt (pb_MutationRequest_HubGeneration m)];
     w_of vs :=
       match vs with
       | [VInt v0; VBytes v1; VBytes v2; VInt v3; VMessage v4; VInt v5; VInt v6; VInt v7; VInt v8; VInt v9] =>
           v4 ← sub v4; Some (mk_pb_MutationRequest (to_int32 v0) v1 v2 v3 v4 (to_int32 v5) v6 (to_int32 v7) v8 v9)
       | _ => None
       end;
     w_ok m := go_typed m ∧ sub_ok (pb_MutationRequest_MutationId m) |}.
Proof. all: wire_law. Defined.

#[export, refine] Instance MutationResponse_wire : Wire pb_MutationResponse :=
  {| w_schema := proto_MutationResponse; w_subs := [("VersionTag"%string, readable (P := pb_VersionTag))];
     w_values m :=
        [VInt (to_uint64 (pb_MutationResponse_Status m));
         VInt (pb_MutationResponse_HubGeneration m);
         VMessage (marshal <$> pb_MutationResponse_Version m)];
     w_of vs :=
       match vs with
       | [VInt v0; VInt v1; VMessage v2] =>
           v2 ← sub v2; Some (mk_pb_MutationResponse (to_int32 v0) v1 v2)
       | _ => None
       end;
     w_ok m := go_typed m ∧ sub_ok (pb_MutationResponse_Version m) |}.
Proof. all: wire_law. Defined.

(** ** The two envelopes: at most one field of the oneof is there *)

Definition body_at (n i : nat) (b : bytes) : list field_value :=
  imap (λ j _, VMessage (if Nat.eqb i j then Some b else None)) (replicate n tt).

#[export, refine] Instance ControlClientMessage_wire : Wire pb_ControlClientMessage :=
  {| w_schema := proto_ControlClientMessage;
     w_subs :=
       [("Hello", readable (P := pb_Hello)); ("Subscribe", readable (P := pb_Subscribe));
        ("StreamAcknowledgement", readable (P := pb_StreamAcknowledgement));
        ("ReplayRequest", readable (P := pb_ReplayRequest));
        ("InvalidateConfirm", readable (P := pb_InvalidateConfirm))]%string;
     w_values m :=
       match pb_ControlClientMessage_Body_field m with
       | Some (CCM_Hello (Some o)) => body_at 5 0 (marshal_elem o)
       | Some (CCM_Subscribe (Some o)) => body_at 5 1 (marshal_elem o)
       | Some (CCM_StreamAcknowledgement (Some o)) => body_at 5 2 (marshal_elem o)
       | Some (CCM_ReplayRequest (Some o)) => body_at 5 3 (marshal_elem o)
       | Some (CCM_InvalidateConfirm (Some o)) => body_at 5 4 (marshal_elem o)
       | _ => replicate 5 (VMessage None)
       end;
     w_of vs :=
       match vs with
       | [VMessage (Some b); VMessage _; VMessage _; VMessage _; VMessage _] =>
           p ← unmarshal b; Some (mk_pb_ControlClientMessage (Some (CCM_Hello (Some (Some p)))))
       | [VMessage None; VMessage (Some b); VMessage _; VMessage _; VMessage _] =>
           p ← unmarshal b; Some (mk_pb_ControlClientMessage (Some (CCM_Subscribe (Some (Some p)))))
       | [VMessage None; VMessage None; VMessage (Some b); VMessage _; VMessage _] =>
           p ← unmarshal b;
           Some (mk_pb_ControlClientMessage (Some (CCM_StreamAcknowledgement (Some (Some p)))))
       | [VMessage None; VMessage None; VMessage None; VMessage (Some b); VMessage _] =>
           p ← unmarshal b; Some (mk_pb_ControlClientMessage (Some (CCM_ReplayRequest (Some (Some p)))))
       | [VMessage None; VMessage None; VMessage None; VMessage None; VMessage (Some b)] =>
           p ← unmarshal b;
           Some (mk_pb_ControlClientMessage (Some (CCM_InvalidateConfirm (Some (Some p)))))
       | [VMessage None; VMessage None; VMessage None; VMessage None; VMessage None] =>
           Some (mk_pb_ControlClientMessage None)
       | _ => None
       end;
     w_ok m :=
       match pb_ControlClientMessage_Body_field m with
       | None => True
       | Some (CCM_Hello (Some (Some p))) => w_ok p
       | Some (CCM_Subscribe (Some (Some p))) => w_ok p
       | Some (CCM_StreamAcknowledgement (Some (Some p))) => w_ok p
       | Some (CCM_ReplayRequest (Some (Some p))) => w_ok p
       | Some (CCM_InvalidateConfirm (Some (Some p))) => w_ok p
       | _ => False
       end |}.
Proof. all: envelope_law. Defined.

#[export, refine] Instance ControlServerMessage_wire : Wire pb_ControlServerMessage :=
  {| w_schema := proto_ControlServerMessage;
     w_subs :=
       [("InvalidationBatch", readable (P := pb_InvalidationBatch));
        ("StreamCheckpoint", readable (P := pb_StreamCheckpoint));
        ("ReplayUnavailable", readable (P := pb_ReplayUnavailable));
        ("ControlError", readable (P := pb_ControlError))]%string;
     w_values m :=
       match pb_ControlServerMessage_Body_field m with
       | Some (CSM_InvalidationBatch (Some o)) => body_at 4 0 (marshal_elem o)
       | Some (CSM_StreamCheckpoint (Some o)) => body_at 4 1 (marshal_elem o)
       | Some (CSM_ReplayUnavailable (Some o)) => body_at 4 2 (marshal_elem o)
       | Some (CSM_ControlError (Some o)) => body_at 4 3 (marshal_elem o)
       | _ => replicate 4 (VMessage None)
       end;
     w_of vs :=
       match vs with
       | [VMessage (Some b); VMessage _; VMessage _; VMessage _] =>
           p ← unmarshal b;
           Some (mk_pb_ControlServerMessage (Some (CSM_InvalidationBatch (Some (Some p)))))
       | [VMessage None; VMessage (Some b); VMessage _; VMessage _] =>
           p ← unmarshal b;
           Some (mk_pb_ControlServerMessage (Some (CSM_StreamCheckpoint (Some (Some p)))))
       | [VMessage None; VMessage None; VMessage (Some b); VMessage _] =>
           p ← unmarshal b;
           Some (mk_pb_ControlServerMessage (Some (CSM_ReplayUnavailable (Some (Some p)))))
       | [VMessage None; VMessage None; VMessage None; VMessage (Some b)] =>
           p ← unmarshal b; Some (mk_pb_ControlServerMessage (Some (CSM_ControlError (Some (Some p)))))
       | [VMessage None; VMessage None; VMessage None; VMessage None] =>
           Some (mk_pb_ControlServerMessage None)
       | _ => None
       end;
     w_ok m :=
       match pb_ControlServerMessage_Body_field m with
       | None => True
       | Some (CSM_InvalidationBatch (Some (Some p))) => w_ok p
       | Some (CSM_StreamCheckpoint (Some (Some p))) => w_ok p
       | Some (CSM_ReplayUnavailable (Some (Some p))) => w_ok p
       | Some (CSM_ControlError (Some (Some p))) => w_ok p
       | _ => False
       end |}.
Proof. all: envelope_law. Defined.
End messages.
