(* ===== verification/PbRuntime.v ===== *)
(** * The package state of the generated message files

    Each message file keeps package variables: the descriptor of the file, the
    tables of enumeration and message infos, the tables of Go types and
    dependencies, and the compressed descriptor.  Its init function builds the
    types with the protobuf runtime, once, after the files it imports.  The
    runtime is third-party code: its opaque types and functions are the fields
    of the class [Protoimpl] and what is documented of them is [ProtoimplLaws].
    [Build] registers a file: it depends on the calls so far, and it panics when
    the builder does not fit its descriptor or declares what another file has
    declared; only when the documented requirements hold ([describes],
    [registrable]) is it known to return. *)

From S2P Require Import Prelude GoErrors GoStd PbWire PbGo PbProto.
From stdpp Require Import list.

Local Open Scope Z_scope.

(** ** The runtime *)

Inductive pb_file := FCommon | FControl | FData.

#[export] Instance pb_file_eq_dec : EqDecision pb_file.
Proof. solve_decision. Defined.

(** [protoimpl.TypeBuilder]: the slices of infos are filled in by [Build]; a
    nil slice of tables is [None]. *)
Record TypeBuilder (EnumInfo MessageInfo : Type) := mkTypeBuilder {
  tb_GoPackagePath : string;
  tb_RawDescriptor : option bytes;
  tb_NumEnums : nat; tb_NumMessages : nat; tb_NumExtensions : nat; tb_NumServices : nat;
  tb_GoTypes : option (list go_type);
  tb_DependencyIndexes : option (list Z);
  tb_EnumInfos : list EnumInfo;
  tb_MessageInfos : list MessageInfo }.
Arguments mkTypeBuilder {_ _}.
Arguments tb_GoPackagePath {_ _}.
Arguments tb_RawDescriptor {_ _}.
Arguments tb_NumEnums {_ _}.
Arguments tb_NumMessages {_ _}.
Arguments tb_NumExtensions {_ _}.
Arguments tb_NumServices {_ _}.
Arguments tb_GoTypes {_ _}.
Arguments tb_DependencyIndexes {_ _}.
Arguments tb_EnumInfos {_ _}.
Arguments tb_MessageInfos {_ _}.

(** What [Build] returns and leaves in the slices of infos. *)
Record TypeOut (FileDescriptor EnumInfo MessageInfo : Type) := mkTypeOut {
  out_File : option FileDescriptor;
  out_EnumInfos : list EnumInfo;
  out_MessageInfos : list MessageInfo }.
Arguments mkTypeOut {_ _ _}.
Arguments out_File {_ _ _}.
Arguments out_EnumInfos {_ _ _}.
Arguments out_MessageInfos {_ _ _}.

(** A pointer [&msgTypes[i]] or [&enumTypes[i]] of a file. *)
Record info_ref := mkRef { ref_file : pb_file; ref_index : nat }.

Class Protoimpl := {
  FileDescriptor : Type;
  EnumDescriptor : Type;
  EnumInfo : Type;
  zero_EnumInfo : EnumInfo;
  EnumInfo_Descriptor : EnumInfo → EnumDescriptor;
  EnumStringOf : EnumDescriptor → Z → string;
  MessageInfo : Type;
  zero_MessageInfo : MessageInfo;
  set_OneofWrappers : list go_type → MessageInfo → MessageInfo;   (* mi.OneofWrappers = ws *)
  Build : list (TypeBuilder EnumInfo MessageInfo) → TypeBuilder EnumInfo MessageInfo →
    outcome (TypeOut FileDescriptor EnumInfo MessageInfo);
  CompressGZIP : bytes → bytes;
  MessageState : Type;
  zero_MessageState : MessageState;
  StoreMessageInfo : info_ref → MessageState → MessageState;
  LoadMessageInfo : MessageState → option info_ref;
  (** A message is given to the runtime by its fields and its state. *)
  MessageStringOf : ∀ P : Type, option (P * MessageState) → string;
}.

(** The text of an enumeration value: its name, or its number in decimal. *)
Definition FormatInt10 (n : Z) : string :=
  if n <? 0 then "-" +:+ FormatUint10 (- n) else FormatUint10 n.
Fixpoint value_name (values : list (string * Z)) (n : Z) : option string :=
  match values with
  | [] => None
  | (s, k) :: values => if k =? n then Some s else value_name values n
  end.
Definition enum_text (values : list (string * Z)) (n : Z) : string :=
  match value_name values n with Some s => s | None => FormatInt10 n end.

(** What a builder requires: the descriptor of a file, the numbers of its
    declarations, infos for exactly its enumerations and messages, and the
    types it declares and refers to, in the documented order. *)
Definition describes {EnumInfo MessageInfo} (p : proto_file)
    (b : TypeBuilder EnumInfo MessageInfo) : Prop :=
  tb_RawDescriptor b = Some (encode_records (file_descriptor p)) ∧
  len (encode_records (file_descriptor p)) < 2 ^ 31 ∧
  tb_NumEnums b = length (pfl_enums p) ∧ tb_NumMessages b = length (pfl_messages p) ∧
  tb_NumExtensions b = 0%nat ∧ tb_NumServices b = length (pfl_services p) ∧
  length (tb_EnumInfos b) = length (pfl_enums p) ∧
  length (tb_MessageInfos b) = length (pfl_messages p) ∧
  tb_GoTypes b = Some (go_types p) ∧ tb_DependencyIndexes b = Some (dep_indices p).

(** What a file adds to the names of the program: its enumerations and their
    values, its messages and its services. *)
Definition declared_names (p : proto_file) : list string :=
  map (λ n, pfl_package p +:+ "." +:+ n)
    (map pe_name (pfl_enums p) ++ map fst (concat (map pe_values (pfl_enums p))) ++
     map pm_name (pfl_messages p) ++ map psv_name (pfl_services p)).

(** A file can be registered after the files [ps]: it imports some of them and
    declares nothing again.  (Files of other packages of a program have other
    names.) *)
Definition registrable (ps : list proto_file) (p : proto_file) : Prop :=
  pfl_path p ∉ map pfl_path ps ∧ (∀ q, q ∈ pfl_imports p → q ∈ map pfl_path ps) ∧
  NoDup (declared_names p) ∧
  ∀ n, n ∈ declared_names p → n ∉ concat (map declared_names ps).

Class ProtoimplLaws `{Protoimpl} := {
  (** [Build] returns when its requirements hold. *)
  Build_returns ps h p b :
    Forall2 describes ps h → describes p b → registrable ps p → ∃ out, Build h b = Returns out;
  (** When it returns, there is a file, and the infos are filled in place. *)
  Build_File h b out : Build h b = Returns out → out_File out ≠ None;
  Build_EnumInfos h b out :
    Build h b = Returns out → length (out_EnumInfos out) = length (tb_EnumInfos b);
  Build_MessageInfos h b out :
    Build h b = Returns out → length (out_MessageInfos out) = length (tb_MessageInfos b);
  (** The infos of the enumerations are those of the descriptor, in order. *)
  Build_enum h b out p i e info :
    Build h b = Returns out → describes p b →
    pfl_enums p !! i = Some e → Forall (λ v, 0 <= v.2 < 2 ^ 31) (pe_values e) →
    out_EnumInfos out !! i = Some info →
    ∀ n, EnumStringOf (EnumInfo_Descriptor info) n = enum_text (pe_values e) n;
  (** The state of a message holds the info that was stored last. *)
  Load_zero : LoadMessageInfo zero_MessageState = None;
  Load_Store r s : LoadMessageInfo (StoreMessageInfo r s) = Some r;
}.

Section package.
Context `{Protoimpl}.

(** ** Package variables *)
Record file_vars := mkFileVars {
  fv_File : option FileDescriptor;
  fv_rawDescOnce : bool;
  fv_rawDescData : bytes;
  fv_enumTypes : list EnumInfo;
  fv_msgTypes : list MessageInfo;
  fv_goTypes : option (list go_type);
  fv_depIdxs : option (list Z) }.

(** The variables of the three files and the calls of [Build] so far. *)
Record package := mkPackage {
  pk_common : file_vars;
  pk_control : file_vars;
  pk_data : file_vars;
  pk_builds : list (TypeBuilder EnumInfo MessageInfo) }.

Definition pk_file (f : pb_file) (s : package) : file_vars :=
  match f with FCommon => pk_common s | FControl => pk_control s | FData => pk_data s end.
Definition set_file (f : pb_file) (v : file_vars) (s : package) : package :=
  match f with
  | FCommon => mkPackage v (pk_control s) (pk_data s) (pk_builds s)
  | FControl => mkPackage (pk_common s) v (pk_data s) (pk_builds s)
  | FData => mkPackage (pk_common s) (pk_control s) v (pk_builds s)
  end.

(** Before any init function runs. *)
Definition common_vars : file_vars :=
  mkFileVars None false [] (replicate 5 zero_EnumInfo) (replicate 2 zero_MessageInfo)
    (Some file_gossipcache_v1_common_proto_goTypes) (Some file_gossipcache_v1_common_proto_depIdxs).
Definition control_vars : file_vars :=
  mkFileVars None false [] [] (replicate 13 zero_MessageInfo)
    (Some file_gossipcache_v1_control_proto_goTypes) (Some file_gossipcache_v1_control_proto_depIdxs).
Definition data_vars : file_vars :=
  mkFileVars None false [] (replicate 1 zero_EnumInfo) (replicate 8 zero_MessageInfo)
    (Some file_gossipcache_v1_data_proto_goTypes) (Some file_gossipcache_v1_data_proto_depIdxs).
Definition zero_package : package := mkPackage common_vars control_vars data_vars [].

(** ** Operations on the package: a result and the new state, or a panic *)
Definition op (A : Type) : Type := package → outcome (A * package).
#[global] Instance op_ret : MRet op := λ A a s, Returns (a, s).
#[global] Instance op_bind : MBind op := λ A B f m s,
  match m s with Returns (a, s') => f a s' | Panics e => Panics e end.

Definition index_error : err := New "runtime.boundsError" "index out of range".

(** ** The init functions *)

(** [msgTypes[i].OneofWrappers = ws] *)
Definition assign_OneofWrappers (f : pb_file) (i : nat) (ws : list go_type) : op unit := λ s,
  let v := pk_file f s in
  match fv_msgTypes v !! i with
  | None => Panics index_error
  | Some mi =>
      Returns (tt, set_file f
        (mkFileVars (fv_File v) (fv_rawDescOnce v) (fv_rawDescData v) (fv_enumTypes v)
           (<[i := set_OneofWrappers ws mi]> (fv_msgTypes v)) (fv_goTypes v) (fv_depIdxs v)) s)
  end.
Fixpoint assign_all (f : pb_file) (l : list (nat * list go_type)) : op unit :=
  match l with
  | [] => mret tt
  | (i, ws) :: l => assign_OneofWrappers f i ws ;; assign_all f l
  end.

(** [out := protoimpl.TypeBuilder{...}.Build(); File_x = out.File] and the two
    tables set to nil. *)
Definition build_types (f : pb_file) (raw : option bytes) (counts : nat * nat * nat * nat) : op unit := λ s,
  let v := pk_file f s in
  let '(enums, messages, extensions, services) := counts in
  let b := mkTypeBuilder "github.com/sanketn26/gossipcache/api/gen/gossipcache/v1" raw
             enums messages extensions services (fv_goTypes v) (fv_depIdxs v)
             (fv_enumTypes v) (fv_msgTypes v) in
  match Build (pk_builds s) b with
  | Panics e => Panics e
  | Returns out =>
      let s := set_file f (mkFileVars (out_File out) (fv_rawDescOnce v) (fv_rawDescData v)
                             (out_EnumInfos out) (out_MessageInfos out) None None) s in
      Returns (tt, mkPackage (pk_common s) (pk_control s) (pk_data s) (pk_builds s ++ [b]))
  end.

Definition file_gossipcache_v1_common_proto_init : op unit := λ s,
  match fv_File (pk_common s) with
  | Some _ => Returns (tt, s)
  | None =>
      build_types FCommon file_gossipcache_v1_common_proto_rawDesc
        file_gossipcache_v1_common_proto_counts s
  end.

Definition file_gossipcache_v1_control_proto_init : op unit := λ s,
  match fv_File (pk_control s) with
  | Some _ => Returns (tt, s)
  | None =>
      (file_gossipcache_v1_common_proto_init ;;
       assign_all FControl file_gossipcache_v1_control_proto_OneofWrappers ;;
       build_types FControl file_gossipcache_v1_control_proto_rawDesc
         file_gossipcache_v1_control_proto_counts) s
  end.

Definition file_gossipcache_v1_data_proto_init : op unit := λ s,
  match fv_File (pk_data s) with
  | Some _ => Returns (tt, s)
  | None =>
      (file_gossipcache_v1_common_proto_init ;;
       assign_all FData file_gossipcache_v1_data_proto_OneofWrappers ;;
       build_types FData file_gossipcache_v1_data_proto_rawDesc
         file_gossipcache_v1_data_proto_counts) s
  end.

Definition init (f : pb_file) : op unit :=
  match f with
  | FCommon => file_gossipcache_v1_common_proto_init
  | FControl => file_gossipcache_v1_control_proto_init
  | FData => file_gossipcache_v1_data_proto_init
  end.

Fixpoint run_inits (fs : list pb_file) : op unit :=
  match fs with [] => mret tt | f :: fs => init f ;; run_inits fs end.

(** The init functions of a package run in the order of its files. *)
Definition package_init : op unit := run_inits [FCommon; FControl; FData].

(** ** The compressed descriptors *)

Definition raw_descriptor (f : pb_file) : option bytes :=
  match f with
  | FCommon => file_gossipcache_v1_common_proto_rawDesc
  | FControl => file_gossipcache_v1_control_proto_rawDesc
  | FData => file_gossipcache_v1_data_proto_rawDesc
  end.

(** [rawDescOnce.Do]: the data is computed by the first call. *)
Definition rawDescGZIP (f : pb_file) : op bytes := λ s,
  let v := pk_file f s in
  if fv_rawDescOnce v then Returns (fv_rawDescData v, s)
  else
    let data := CompressGZIP (default [] (raw_descriptor f)) in
    Returns (data, set_file f
      (mkFileVars (fv_File v) true data (fv_enumTypes v) (fv_msgTypes v) (fv_goTypes v)
         (fv_depIdxs v)) s).

Definition file_gossipcache_v1_common_proto_rawDescGZIP : op bytes := rawDescGZIP FCommon.
Definition file_gossipcache_v1_control_proto_rawDescGZIP : op bytes := rawDescGZIP FControl.
Definition file_gossipcache_v1_data_proto_rawDescGZIP : op bytes := rawDescGZIP FData.

(** ** Pointers into the tables *)
Definition enumTypes_at (f : pb_file) (i : nat) : op EnumInfo := λ s,
  match fv_enumTypes (pk_file f s) !! i with Some e => Returns (e, s) | None => Panics index_error end.
Definition enumTypes_ref (f : pb_file) (i : nat) : op info_ref := λ s,
  match fv_enumTypes (pk_file f s) !! i with
  | Some _ => Returns (mkRef f i, s) | None => Panics index_error end.
Definition msgTypes_ref (f : pb_file) (i : nat) : op info_ref := λ s,
  match fv_msgTypes (pk_file f s) !! i with
  | Some _ => Returns (mkRef f i, s) | None => Panics index_error end.

(** ** The bodies that the generated methods share

    A generated struct is its fields, with the state of the runtime. *)
Record object (P : Type) := mkObject { ob_value : P; ob_state : MessageState }.
Arguments mkObject {P}.
Arguments ob_value {P}.
Arguments ob_state {P}.

(** A [protoreflect.Message]: the state of a message, or [mi.MessageOf(x)]. *)
Inductive reflection (P : Type) :=
| ReflectState (o : object P)
| ReflectOf (mi : info_ref) (x : option (object P)).
Arguments ReflectState {P}.
Arguments ReflectOf {P}.

(** [*x = T{}; ms := MessageStateOf(x); ms.StoreMessageInfo(&msgTypes[i])] *)
Definition Reset_with {P} (f : pb_file) (i : nat) (zero : P) (x : option (object P)) : op (object P) :=
  match x with
  | None => λ s, Panics nil_dereference
  | Some _ =>
      mi ← msgTypes_ref f i;
      mret (mkObject zero (StoreMessageInfo mi zero_MessageState))
  end.

Definition String_with {P} (x : option (object P)) : string :=
  MessageStringOf P ((λ o, (ob_value o, ob_state o)) <$> x).

(** The result, and the message with what was stored in it. *)
Definition ProtoReflect_with {P} (f : pb_file) (i : nat) (x : option (object P)) :
    op (reflection P * option (object P)) :=
  mi ← msgTypes_ref f i;
  match x with
  | Some o =>
      let o :=
        match LoadMessageInfo (ob_state o) with
        | None => mkObject (ob_value o) (StoreMessageInfo mi (ob_state o))
        | Some _ => o
        end in
      mret (ReflectState o, Some o)
  | None => mret (ReflectOf mi x, x)
  end.

(** The compressed descriptor and the path in it. *)
Definition Descriptor_with (f : pb_file) (i : nat) : op (bytes * list Z) :=
  data ← rawDescGZIP f; mret (data, [Z.of_nat i]).

Definition EnumDescriptor_with (f : pb_file) (i : nat) : op EnumDescriptor :=
  info ← enumTypes_at f i; mret (EnumInfo_Descriptor info).
End package.
Arguments mkObject {_ P}.
Arguments ob_value {_ P}.
Arguments ob_state {_ P}.
Arguments ReflectState {_ P}.
Arguments ReflectOf {_ P}.
