(* ===== verification/PbReader.v ===== *)
(** * A runtime that reads the descriptors

    The smallest runtime with the documented behaviour of [ProtoimplLaws]: it
    checks a builder against the embedded descriptor, refuses a file that it
    already has, keeps the descriptor and reads the enumerations from it.  It
    shows that the laws can hold, and runs in the examples. *)

From S2P Require Import Prelude GoErrors GoStd PbWire PbGo PbProto PbEncoding PbRuntime.
From stdpp Require Import list.

Local Open Scope Z_scope.

#[local] Existing Instance any_rules.

Definition read_value_pair (b : bytes) : string * Z :=
  match parse_records b with
  | Some rs =>
      (String.string_of_list_byte (default [] (head (contents (of_number 1 rs)))),
       default 0 (head (varints (of_number 2 rs))))
  | None => (""%string, 0)
  end.
Definition read_enum (b : bytes) : list (string * Z) :=
  match parse_records b with
  | Some rs => map read_value_pair (contents (of_number 2 rs))
  | None => []
  end.
Definition read_enums (b : bytes) : list (list (string * Z)) :=
  match parse_records b with
  | Some rs => map read_enum (contents (of_number 5 rs))
  | None => []
  end.

Lemma of_number_subs {A} (g : A → list wire_record) k j l :
  of_number k (map (λ x, sub_record j (g x)) l) =
  if k =? j then map (λ x, PLen (encode_records (g x))) l else [].
Proof.
  induction l as [|x l IH]; [by case_match|]. cbn [map].
  change (?x :: ?l) with ([x] ++ l) at 1. rewrite of_number_app, IH.
  unfold of_number, sub_record. destruct (Z.eqb_spec k j) as [->|Hkj].
  - rewrite filter_cons_True by done. done.
  - by rewrite filter_cons_False.
Qed.

Lemma read_value_pair_encode v :
  len (encode_records [text_record 1 v.1; int_record 2 v.2]) < max_len → 0 <= v.2 < 2 ^ 31 →
  read_value_pair (encode_records [text_record 1 v.1; int_record 2 v.2]) = v.
Proof.
  intros Hlen Hv. unfold read_value_pair. rewrite parse_records_encode.
  2:{ apply len_records_ok; [done|]. unfold u64.
      repeat (apply Forall_cons_2; [split; cbn; (done || lia)|]). constructor. }
  destruct v as [s n]. change ((String.string_of_list_byte (string_bytes s), n) = (s, n)).
  unfold string_bytes. by rewrite String.string_of_list_byte_of_string.
Qed.

(** The bytes of a sub-message are bytes of the whole. *)
Lemma sub_record_len k rs l :
  sub_record k rs ∈ l → len (encode_records l) < max_len → len (encode_records rs) < max_len.
Proof. intros Hin%encode_records_contents ?. lia. Qed.

Lemma read_enum_encode e :
  len (encode_records (enum_descriptor e)) < max_len →
  Forall (λ v, 0 <= v.2 < 2 ^ 31) (pe_values e) →
  read_enum (encode_records (enum_descriptor e)) = pe_values e.
Proof.
  intros Hlen Hpos. unfold read_enum. rewrite parse_records_encode.
  2:{ apply len_records_ok; [done|]. apply Forall_app; split; [by repeat constructor|].
      apply Forall_fmap, Forall_forall. done. }
  assert (Forall (λ v, len (encode_records [text_record 1 v.1; int_record 2 v.2]) < max_len)
    (pe_values e)) as Hlens.
  { apply Forall_forall. intros v Hv. eapply sub_record_len; [|exact Hlen].
    apply elem_of_app. right.
    exact (list_elem_of_fmap_2 (λ v, sub_record 2 [text_record 1 v.1; int_record 2 v.2]) _ _ Hv). }
  unfold enum_descriptor. rewrite of_number_app.
  change (of_number 2 [text_record 1 (pe_name e)]) with (@nil contents_of_record).
  rewrite (of_number_subs (λ v, [text_record 1 v.1; int_record 2 v.2])).
  cbn [app Z.eqb Pos.eqb].
  rewrite (contents_PLen (λ v, encode_records [text_record 1 v.1; int_record 2 v.2])), map_map.
  clear Hlen. induction Hpos as [|v l Hv _ IH]; [done|]. apply Forall_cons in Hlens as [Hl Hlens].
  cbn [map]. by rewrite read_value_pair_encode, IH.
Qed.

(** The records of a descriptor, by number. *)
Lemma descriptor_records p :
  of_number 1 (file_descriptor p) = [PLen (string_bytes (pfl_path p))] ∧
  of_number 4 (file_descriptor p) =
    map (λ m, PLen (encode_records (message_descriptor (pfl_package p) m))) (pfl_messages p) ∧
  of_number 5 (file_descriptor p) =
    map (λ e, PLen (encode_records (enum_descriptor e))) (pfl_enums p) ∧
  of_number 6 (file_descriptor p) =
    map (λ s, PLen (encode_records (service_descriptor (pfl_package p) s))) (pfl_services p).
Proof.
  assert (∀ k, k ≠ 3 → of_number k (map (text_record 3) (pfl_imports p)) = []) as Himp.
  { intros k Hk. unfold of_number. rewrite filter_none; [done|]. apply Forall_fmap, Forall_forall.
    intros x _ E. by apply Hk. }
  unfold file_descriptor.
  split_and!; rewrite !of_number_app, Himp by done;
    rewrite (of_number_subs (message_descriptor (pfl_package p))), (of_number_subs enum_descriptor),
      (of_number_subs (service_descriptor (pfl_package p))); cbn [Z.eqb Pos.eqb app];
    match goal with |- context [of_number ?k [sub_record 8 ?x; text_record 12 "proto3"]] =>
      change (of_number k [sub_record 8 x; text_record 12 "proto3"]) with (@nil contents_of_record) end;
    by rewrite ?app_nil_r.
Qed.

Lemma read_enums_encode p i e :
  len (encode_records (file_descriptor p)) < max_len →
  pfl_enums p !! i = Some e → Forall (λ v, 0 <= v.2 < 2 ^ 31) (pe_values e) →
  read_enums (encode_records (file_descriptor p)) !! i = Some (pe_values e).
Proof.
  intros Hlen He Hpos. unfold read_enums. rewrite parse_records_encode by by apply file_descriptor_ok.
  destruct (descriptor_records p) as (_ & _ & -> & _).
  rewrite (contents_PLen (λ e, encode_records (enum_descriptor e))), map_map.
  rewrite list_lookup_fmap, He. cbn [fmap option_fmap option_map].
  rewrite read_enum_encode; [done| |done]. eapply sub_record_len; [|exact Hlen].
  unfold file_descriptor. rewrite !elem_of_app. do 3 right. left.
  apply (list_elem_of_fmap_2 (λ e, sub_record 5 (enum_descriptor e))). by eapply list_elem_of_lookup_2.
Qed.

Definition reading_infos (raw : option bytes) (infos : list (list (string * Z))) :
    list (list (string * Z)) :=
  imap (λ i _, default [] (read_enums (default [] raw) !! i)) infos.

Lemma reading_infos_at p i e info infos :
  len (encode_records (file_descriptor p)) < max_len →
  pfl_enums p !! i = Some e → Forall (λ v, 0 <= v.2 < 2 ^ 31) (pe_values e) →
  reading_infos (Some (encode_records (file_descriptor p))) infos !! i = Some info →
  info = pe_values e.
Proof.
  intros Hlen He Hpos. unfold reading_infos. rewrite list_lookup_imap.
  intros (x & _ & ->)%fmap_Some. change (default [] (read_enums (encode_records (file_descriptor p)) !! i) = pe_values e).
  by rewrite (read_enums_encode p i e Hlen He Hpos).
Qed.

#[global] Arguments file_descriptor : simpl never.
#[global] Arguments encode_records : simpl never.

(** The path of a descriptor, and whether the numbers of a builder are its. *)
Definition read_path (raw : option bytes) : list bytes :=
  match parse_records (default [] raw) with Some rs => contents (of_number 1 rs) | None => [] end.

Definition fits_descriptor {EnumInfo MessageInfo} (b : TypeBuilder EnumInfo MessageInfo) : bool :=
  match parse_records (default [] (tb_RawDescriptor b)) with
  | Some rs =>
      let enums := length (of_number 5 rs) in
      let messages := length (of_number 4 rs) in
      forallb (λ '(m, n), m =? n)%nat
        [(tb_NumEnums b, enums); (length (tb_EnumInfos b), enums);
         (tb_NumMessages b, messages); (length (tb_MessageInfos b), messages);
         (tb_NumServices b, length (of_number 6 rs)); (tb_NumExtensions b, 0%nat)]
  | None => false
  end.

Definition build_conflict : err := New "protoimpl" "file does not fit or is already registered".

Section reader.
Context {EnumInfo MessageInfo : Type}.
Implicit Types b : TypeBuilder EnumInfo MessageInfo.

Lemma describes_parses p b :
  describes p b → parse_records (default [] (tb_RawDescriptor b)) = Some (file_descriptor p).
Proof.
  intros (-> & Hlen & _). cbn [default from_option]. apply parse_records_encode, file_descriptor_ok.
  unfold max_len. lia.
Qed.

Lemma describes_fits p b : describes p b → fits_descriptor b = true.
Proof.
  intros Hb. unfold fits_descriptor. rewrite (describes_parses p b Hb).
  destruct (descriptor_records p) as (_ & -> & -> & ->). rewrite !length_map.
  destruct Hb as (_ & _ & -> & -> & -> & -> & -> & -> & _). cbn. by rewrite !Nat.eqb_refl.
Qed.

Lemma describes_path p b : describes p b → read_path (tb_RawDescriptor b) = [string_bytes (pfl_path p)].
Proof.
  intros Hb. unfold read_path. rewrite (describes_parses p b Hb).
  by destruct (descriptor_records p) as (-> & _).
Qed.

Lemma string_bytes_inj s t : string_bytes s = string_bytes t → s = t.
Proof.
  unfold string_bytes. intros E%(f_equal String.string_of_list_byte).
  by rewrite !String.string_of_list_byte_of_string in E.
Qed.
End reader.

(** The files built before are known by their paths. *)
Definition reading_build (h : list (TypeBuilder (list (string * Z)) (list go_type)))
    (b : TypeBuilder (list (string * Z)) (list go_type)) :
    outcome (TypeOut bytes (list (string * Z)) (list go_type)) :=
  if fits_descriptor b &&
     forallb (λ b', negb (bool_decide (read_path (tb_RawDescriptor b') =
                                       read_path (tb_RawDescriptor b)))) h
  then
    Returns (mkTypeOut (Some (default [] (tb_RawDescriptor b)))
      (reading_infos (tb_RawDescriptor b) (tb_EnumInfos b)) (tb_MessageInfos b))
  else Panics build_conflict.

Definition reading_runtime : Protoimpl :=
  {| FileDescriptor := bytes; EnumDescriptor := list (string * Z);
     EnumInfo := list (string * Z); zero_EnumInfo := [];
     EnumInfo_Descriptor := id; EnumStringOf := enum_text;
     MessageInfo := list go_type; zero_MessageInfo := [];
     set_OneofWrappers ws _ := ws;
     Build := reading_build;
     CompressGZIP := id;
     MessageState := option info_ref; zero_MessageState := None;
     StoreMessageInfo r _ := Some r; LoadMessageInfo := id;
     MessageStringOf _ _ := ""%string |}.

Lemma reading_build_returns ps h p b :
  Forall2 describes ps h → describes p b → registrable ps p → ∃ out, reading_build h b = Returns out.
Proof.
  intros Hh Hb (Hpath & _). unfold reading_build. rewrite (describes_fits p b Hb). cbn [andb].
  assert (forallb (λ b', negb (bool_decide (read_path (tb_RawDescriptor b') =
    read_path (tb_RawDescriptor b)))) h = true) as ->; [|by eexists].
  apply forallb_forall. intros b' Hin%list_elem_of_In. apply negb_true_iff, bool_decide_eq_false_2.
  apply list_elem_of_lookup in Hin as [i Hi].
  destruct (Forall2_lookup_r _ _ _ _ _ Hh Hi) as (p' & Hp' & Hb').
  rewrite (describes_path p b Hb), (describes_path p' b' Hb'). intros [= E%string_bytes_inj].
  apply Hpath. rewrite <-E. apply (list_elem_of_fmap_2 pfl_path). by eapply list_elem_of_lookup_2.
Qed.

Lemma reading_build_inv h b out :
  reading_build h b = Returns out →
  out = mkTypeOut (Some (default [] (tb_RawDescriptor b)))
          (reading_infos (tb_RawDescriptor b) (tb_EnumInfos b)) (tb_MessageInfos b).
Proof. unfold reading_build. case_match; [|done]. by intros [= <-]. Qed.

#[refine] Definition reading_laws : @ProtoimplLaws reading_runtime :=
  @Build_ProtoimplLaws reading_runtime _ _ _ _ _ _ _.
Proof.
  - intros ps h p b. apply reading_build_returns.
  - by intros h b out ->%reading_build_inv.
  - intros h b out ->%reading_build_inv. apply length_imap.
  - by intros h b out ->%reading_build_inv.
  - intros h b out p i e info ->%reading_build_inv (Hraw & Hlen & _) He Hpos Hinfo n.
    change (@tb_RawDescriptor EnumInfo MessageInfo) with
      (@tb_RawDescriptor (list (string * Z)) (list go_type)) in Hraw.
    cbn [out_EnumInfos] in Hinfo. rewrite Hraw in Hinfo.
    assert (len (encode_records (file_descriptor p)) < max_len) as Hl by (unfold max_len; lia).
    by rewrite (reading_infos_at p i e info _ Hl He Hpos Hinfo).
  - done.
  - done.
Defined.
