(* ===== verification/PbInit.v ===== *)
(** * Initialisation of the generated message files

    Whatever sequence of init calls and of accesses to compressed descriptors
    runs, every file is built at most once, with all its tables, and after the
    file it imports, so that each call of [Build] meets the requirements of the
    runtime and returns; the tables are dropped when they have been used, and
    each compressed descriptor is computed once. *)

From S2P Require Import Prelude GoErrors GoStd PbWire PbGo PbProto PbRuntime PbReader.
From stdpp Require Import list.

Local Open Scope Z_scope.

Section init.
Context `{Protoimpl}.

(** ** What each file is built from *)

Definition file_wrappers (f : pb_file) : list (nat * list go_type) :=
  match f with
  | FCommon => []
  | FControl => file_gossipcache_v1_control_proto_OneofWrappers
  | FData => file_gossipcache_v1_data_proto_OneofWrappers
  end.
Definition file_counts (f : pb_file) : nat * nat * nat * nat :=
  match f with
  | FCommon => file_gossipcache_v1_common_proto_counts
  | FControl => file_gossipcache_v1_control_proto_counts
  | FData => file_gossipcache_v1_data_proto_counts
  end.
Definition start_vars (f : pb_file) : file_vars := pk_file f zero_package.

Definition with_wrappers (l : list (nat * list go_type)) (infos : list MessageInfo) : list MessageInfo :=
  foldl (λ infos x, alter (set_OneofWrappers x.2) x.1 infos) infos l.

(** The builder of a file: its descriptor, its full tables, fresh infos with
    the wrappers of the oneofs. *)
Definition file_builder (f : pb_file) : TypeBuilder EnumInfo MessageInfo :=
  let '(enums, messages, extensions, services) := file_counts f in
  mkTypeBuilder "github.com/sanketn26/gossipcache/api/gen/gossipcache/v1" (raw_descriptor f)
    enums messages extensions services
    (fv_goTypes (start_vars f)) (fv_depIdxs (start_vars f))
    (fv_enumTypes (start_vars f)) (with_wrappers (file_wrappers f) (fv_msgTypes (start_vars f))).

(** ** The requirements of the runtime *)

Definition schema_file (f : pb_file) : proto_file :=
  match f with FCommon => common_proto | FControl => control_proto | FData => data_proto end.

Lemma file_raw_descriptor f :
  raw_descriptor f = Some (encode_records (file_descriptor (schema_file f))).
Proof.
  destruct f.
  - exact (f_equal gen_rawDesc common_is_generated).
  - exact (f_equal gen_rawDesc control_is_generated).
  - exact (f_equal gen_rawDesc data_is_generated).
Qed.

(** The builder of a file fits its schema: the descriptor and the tables are
    those that protoc-gen-go makes of it, the counts are right, and there is an
    info for every enumeration and message. *)
Lemma file_builder_describes f : describes (schema_file f) (file_builder f).
Proof.
  unfold describes. rewrite <-(file_raw_descriptor f).
  split; [by destruct f|]. split; [by destruct f; vm_compute|].
  split_and!; by destruct f.
Qed.

(** A file that is new can be registered after others, if the common file is
    among them or is the file itself. *)
Lemma file_registrable order f :
  f ∉ order → (f = FCommon ∧ order = [] ∨ FCommon ∈ order) →
  registrable (map schema_file order) (schema_file f).
Proof.
  intros Hnew Hreq.
  assert (∀ g, g ∈ order → pfl_path (schema_file f) ≠ pfl_path (schema_file g) ∧
    ∀ n, n ∈ declared_names (schema_file f) → n ∉ declared_names (schema_file g)) as Hother.
  { intros g Hg. assert (f ≠ g) as Hne by (by intros ->).
    destruct f, g; try done; (split; [done|]);
      refine (proj1 (Forall_forall (.∉ declared_names _) _) _);
      refine (bool_decide_eq_true_1 _ _); by vm_compute. }
  split_and!.
  - rewrite map_map. intros (g & Heq & Hg)%list_elem_of_fmap. by destruct (Hother g Hg).
  - intros q Hq. assert (q = pfl_path common_proto ∧ f ≠ FCommon) as [-> Hf].
    { destruct f; cbn in Hq; [by apply not_elem_of_nil in Hq|..];
        by apply list_elem_of_singleton in Hq as ->. }
    destruct Hreq as [[-> _]|Hin]; [done|]. rewrite map_map.
    exact (list_elem_of_fmap_2 (λ g, pfl_path (schema_file g)) _ _ Hin).
  - destruct f; refine (bool_decide_eq_true_1 _ _); by vm_compute.
  - intros n Hn. rewrite map_map. intros Hin%list_elem_of_In%in_concat.
    destruct Hin as (l & (g & -> & Hg)%list_elem_of_In%list_elem_of_fmap & Hl%list_elem_of_In).
    by apply (proj2 (Hother g Hg) n).
Qed.

Lemma file_builds `{!ProtoimplLaws} order f :
  f ∉ order → (f = FCommon ∧ order = [] ∨ FCommon ∈ order) →
  ∃ out, Build (map file_builder order) (file_builder f) = Returns out.
Proof.
  intros Hnew Hreq. apply (Build_returns (map schema_file order) _ (schema_file f)).
  - induction order as [|g order IH]; [constructor|]. cbn. constructor; [apply file_builder_describes|].
    clear. induction order as [|h order IH]; [constructor|]. constructor; [apply file_builder_describes|done].
  - apply file_builder_describes.
  - by apply file_registrable.
Qed.

(** ** The invariant *)

Definition gzip_ok (f : pb_file) (v : file_vars) : Prop :=
  fv_rawDescData v =
    if fv_rawDescOnce v then CompressGZIP (default [] (raw_descriptor f)) else [].

Definition not_built (f : pb_file) (v : file_vars) : Prop :=
  fv_File v = None ∧ fv_enumTypes v = fv_enumTypes (start_vars f) ∧
  fv_msgTypes v = fv_msgTypes (start_vars f) ∧
  fv_goTypes v = fv_goTypes (start_vars f) ∧ fv_depIdxs v = fv_depIdxs (start_vars f).

(** Built after the files [before]: the file and its infos are what [Build] made
    of its builder, and the tables are gone. *)
Definition is_built (before : list pb_file) (f : pb_file) (v : file_vars) : Prop :=
  ∃ out, Build (map file_builder before) (file_builder f) = Returns out ∧
  fv_File v = out_File out ∧ fv_enumTypes v = out_EnumInfos out ∧
  fv_msgTypes v = out_MessageInfos out ∧ fv_goTypes v = None ∧ fv_depIdxs v = None.

(** The files are built in [order]. *)
Definition built_in (order : list pb_file) (s : package) : Prop :=
  NoDup order ∧ (order = [] ∨ head order = Some FCommon) ∧
  pk_builds s = map file_builder order ∧
  ∀ f, gzip_ok f (pk_file f s) ∧
    (f ∉ order → not_built f (pk_file f s)) ∧
    (∀ before after, order = before ++ f :: after → is_built before f (pk_file f s)).

Lemma pk_file_set f g v s : pk_file f (set_file g v s) = if decide (f = g) then v else pk_file f s.
Proof. by destruct f, g. Qed.

Lemma pk_builds_set f v s : pk_builds (set_file f v s) = pk_builds s.
Proof. by destruct f. Qed.

Lemma set_set f v v' s : set_file f v' (set_file f v s) = set_file f v' s.
Proof. by destruct f. Qed.

Lemma zero_built : built_in [] zero_package.
Proof.
  split_and!; [constructor|by left|done|].
  intros f. split_and!; [by destruct f|by intros _; destruct f|].
  intros before after E. by destruct before.
Qed.

(** ** The steps *)

Lemma assign_all_returns f l : ∀ s,
  Forall (λ x, (x.1 < length (fv_msgTypes (pk_file f s)))%nat) l →
  let v := pk_file f s in
  assign_all f l s = Returns (tt, set_file f
    (mkFileVars (fv_File v) (fv_rawDescOnce v) (fv_rawDescData v) (fv_enumTypes v)
       (with_wrappers l (fv_msgTypes v)) (fv_goTypes v) (fv_depIdxs v)) s).
Proof.
  induction l as [|[i ws] l IH]; intros s Hl v.
  - unfold v. cbn. do 2 f_equal. by destruct f, s as [[] [] [] ?].
  - apply Forall_cons in Hl as [Hi Hl]. cbn [assign_all]. unfold mbind, op_bind, assign_OneofWrappers.
    destruct (lookup_lt_is_Some_2 _ _ Hi) as [mi Hmi]. cbn [fst] in Hmi. rewrite Hmi.
    assert (<[i:=set_OneofWrappers ws mi]> (fv_msgTypes (pk_file f s)) =
            alter (set_OneofWrappers ws) i (fv_msgTypes (pk_file f s))) as ->.
    { apply list_eq. intros j. destruct (decide (i = j)) as [->|Hij].
      - rewrite list_lookup_insert_eq by done. rewrite list_lookup_alter_eq. by rewrite Hmi.
      - by rewrite list_lookup_insert_ne, list_lookup_alter_ne. }
    rewrite IH; rewrite ?pk_file_set, decide_True by done; cbn [fv_msgTypes fv_File fv_rawDescOnce
      fv_rawDescData fv_enumTypes fv_goTypes fv_depIdxs].
    + by rewrite set_set.
    + by rewrite length_alter.
Qed.

Lemma wrappers_in_range f :
  Forall (λ x, (x.1 < length (fv_msgTypes (start_vars f)))%nat) (file_wrappers f).
Proof. destruct f; cbn; repeat constructor; cbn; lia. Qed.

(** The body of an init function: the wrappers, then the types. *)
Definition build_file (f : pb_file) : op unit :=
  assign_all f (file_wrappers f) ;; build_types f (raw_descriptor f) (file_counts f).

Lemma split_at_new {A} (x y : A) l before after :
  y ∉ l → l ++ [y] = before ++ x :: after →
  (x = y ∧ before = l) ∨ (x ≠ y ∧ ∃ after', l = before ++ x :: after').
Proof.
  intros Hy E. induction after as [|z after _] using rev_ind.
  - apply app_inj_tail in E as [-> ->]. by left.
  - right. rewrite app_comm_cons, app_assoc in E. apply app_inj_tail in E as [-> _].
    split; [|by exists after]. intros ->. apply Hy. set_solver.
Qed.

Lemma build_file_step `{!ProtoimplLaws} f order s :
  built_in order s → f ∉ order → (f = FCommon ∧ order = [] ∨ FCommon ∈ order) →
  ∃ s', build_file f s = Returns (tt, s') ∧ built_in (order ++ [f]) s'.
Proof.
  intros (Hnd & Hhead & Hb & Hf) Hnew Hreq.
  destruct (Hf f) as (Hgz & Hnot & _). specialize (Hnot Hnew) as (HF & He & Hm & Hg & Hd).
  unfold build_file. unfold mbind at 1, op_bind at 1.
  rewrite assign_all_returns by (rewrite Hm; apply wrappers_in_range).
  unfold build_types. rewrite pk_file_set, decide_True, pk_builds_set by done.
  destruct (file_counts f) as [[[n1 n2] n3] n4] eqn:Hc.
  cbn [fv_msgTypes fv_File fv_rawDescOnce fv_rawDescData fv_enumTypes fv_goTypes fv_depIdxs].
  rewrite Hm, He, Hg, Hd, Hb.
  assert (mkTypeBuilder "github.com/sanketn26/gossipcache/api/gen/gossipcache/v1" (raw_descriptor f)
    n1 n2 n3 n4 (fv_goTypes (start_vars f)) (fv_depIdxs (start_vars f))
    (fv_enumTypes (start_vars f)) (with_wrappers (file_wrappers f) (fv_msgTypes (start_vars f))) =
    file_builder f) as -> by (unfold file_builder; by rewrite Hc).
  destruct (file_builds order f Hnew Hreq) as [out Hout]. rewrite Hout, set_set.
  eexists. split; [done|]. set (v' := mkFileVars _ _ _ _ _ _ _).
  assert (∀ l g, pk_file g (mkPackage (pk_common (set_file f v' s)) (pk_control (set_file f v' s))
    (pk_data (set_file f v' s)) l) = if decide (g = f) then v' else pk_file g s) as Hpk.
  { intros l g. rewrite <-pk_file_set. by destruct g. }
  split_and!.
  - apply NoDup_app. split_and!; [done| |by apply NoDup_singleton].
    intros g Hg' ->%list_elem_of_singleton. done.
  - right. destruct Hreq as [[-> ->]|Hin]; [done|]. destruct order as [|g order]; [by apply not_elem_of_nil in Hin|].
    destruct Hhead as [|Hhead]; done.
  - cbn [pk_builds]. by rewrite pk_builds_set, Hb, map_app.
  - intros g. rewrite Hpk. destruct (decide (g = f)) as [->|Hgf].
    + split_and!; [exact Hgz|by intros [_ []%not_elem_of_cons]%not_elem_of_app|]. intros before after E.
      apply split_at_new in E as [[_ ->]|[Hne _]]; [|done..]. by exists out.
    + destruct (Hf g) as (Hgz' & Hn' & Hb'). split_and!; [done|by intros [? _]%not_elem_of_app; apply Hn'|].
      intros before after E. apply split_at_new in E as [[-> _]|[_ [after' ->]]]; [done| |done].
      by eapply Hb'.
Qed.

Lemma built_File `{!ProtoimplLaws} order s f :
  built_in order s → (fv_File (pk_file f s) = None ↔ f ∉ order).
Proof.
  intros (_ & _ & _ & Hf). destruct (Hf f) as (_ & Hn & Hb). split; [|by intros [? _]%Hn].
  intros HF Hin. apply list_elem_of_split in Hin as (before & after & ->).
  destruct (Hb before after eq_refl) as (out & Hout & HF' & _). rewrite HF in HF'.
  by apply (Build_File _ _ _ Hout).
Qed.

(** The order after one more init call. *)
Definition add_file (f : pb_file) (order : list pb_file) : list pb_file :=
  if decide (f ∈ order) then order
  else (if decide (FCommon ∈ order) then order else if decide (f = FCommon) then [] else [FCommon]) ++ [f].

Lemma common_init_eq s :
  file_gossipcache_v1_common_proto_init s =
  match fv_File (pk_file FCommon s) with Some _ => Returns (tt, s) | None => build_file FCommon s end.
Proof. done. Qed.

Lemma init_eq f s :
  f ≠ FCommon →
  init f s =
  match fv_File (pk_file f s) with
  | Some _ => Returns (tt, s)
  | None => (file_gossipcache_v1_common_proto_init ;; build_file f) s
  end.
Proof. by destruct f. Qed.

Lemma init_step `{!ProtoimplLaws} f order s :
  built_in order s → ∃ s', init f s = Returns (tt, s') ∧ built_in (add_file f order) s'.
Proof.
  intros Hs.
  assert (∀ g, fv_File (pk_file g s) ≠ None ↔ g ∈ order) as HF.
  { intros g. rewrite (built_File order s g Hs). split; [|by intros ? ?]. intros Hn.
    destruct (decide (g ∈ order)); [done|]. by destruct Hn. }
  assert (∃ s1, file_gossipcache_v1_common_proto_init s = Returns (tt, s1) ∧
    built_in (if decide (FCommon ∈ order) then order else [FCommon]) s1) as (s1 & Hc & Hs1).
  { rewrite common_init_eq. specialize (HF FCommon). case_decide as Hin.
    - destruct (fv_File _); [by exists s|]. by destruct (proj2 HF Hin).
    - destruct (fv_File _) eqn:E; [by destruct Hin; apply HF|].
      assert (order = []) as ->.
      { destruct order as [|g order]; [done|]. destruct Hs as (_ & [|[= ->]] & _); [done|]. set_solver. }
      apply (build_file_step FCommon [] s Hs); [apply not_elem_of_nil|by left]. }
  unfold add_file. destruct (decide (f = FCommon)) as [->|Hne].
  { exists s1. split; [exact Hc|]. case_decide; [done|]. exact Hs1. }
  rewrite init_eq by done. specialize (HF f). destruct (decide (f ∈ order)) as [Hin|Hin].
  { exists s. destruct (fv_File _); [done|]. by destruct (proj2 HF Hin). }
  destruct (fv_File _) eqn:E; [by destruct Hin; apply HF|].
  unfold mbind, op_bind. rewrite Hc.
  apply build_file_step; [done|..]; case_decide; set_solver.
Qed.

Lemma gzip_step f order s :
  built_in order s → ∃ s', rawDescGZIP f s = Returns (CompressGZIP (default [] (raw_descriptor f)), s') ∧
    built_in order s'.
Proof.
  intros Hs. destruct Hs as (Hnd & Hhead & Hb & Hf). destruct (Hf f) as (Hgz & Hn & Hbt).
  unfold rawDescGZIP. unfold gzip_ok in Hgz. destruct (fv_rawDescOnce (pk_file f s)) eqn:Ho.
  - rewrite Hgz. exists s. by split.
  - eexists. split; [done|]. split_and!; [done..|by rewrite pk_builds_set|].
    intros g. rewrite pk_file_set. case_decide as Hg; [subst g|apply Hf].
    split_and!; [done|by intros ?%Hn|by intros ? ? ?%Hbt].
Qed.

(** ** Every sequence of calls *)
Inductive pb_event := EInit (f : pb_file) | EGzip (f : pb_file).

Fixpoint run_events (es : list pb_event) : op unit :=
  match es with
  | [] => mret tt
  | EInit f :: es => init f ;; run_events es
  | EGzip f :: es => rawDescGZIP f ;; run_events es
  end.

Definition event_order (es : list pb_event) (order : list pb_file) : list pb_file :=
  foldl (λ order e, match e with EInit f => add_file f order | EGzip _ => order end) order es.

Lemma run_events_built `{!ProtoimplLaws} es : ∀ order s,
  built_in order s → ∃ s', run_events es s = Returns (tt, s') ∧ built_in (event_order es order) s'.
Proof.
  induction es as [|[f|f] es IH]; intros order s Hs; cbn [run_events event_order foldl].
  - by exists s.
  - destruct (init_step f order s Hs) as (s1 & H1 & Hs1). destruct (IH _ s1 Hs1) as (s2 & H2 & Hs2).
    exists s2. split; [|done]. unfold mbind, op_bind. by rewrite H1.
  - destruct (gzip_step f order s Hs) as (s1 & H1 & Hs1). destruct (IH _ s1 Hs1) as (s2 & H2 & Hs2).
    exists s2. split; [|done]. unfold mbind, op_bind. by rewrite H1.
Qed.

Lemma add_file_elem f g order :
  (order = [] ∨ FCommon ∈ order) → g ∈ add_file f order ↔ g ∈ order ∨ g = f ∨ g = FCommon.
Proof.
  intros Hc. unfold add_file. repeat case_decide; rewrite ?elem_of_app, ?list_elem_of_singleton;
    destruct Hc; subst; set_solver.
Qed.

Lemma event_order_elem es : ∀ order f,
  (order = [] ∨ FCommon ∈ order) →
  f ∈ event_order es order ↔
    f ∈ order ∨ EInit f ∈ es ∨ (f = FCommon ∧ ∃ g, EInit g ∈ es).
Proof.
  induction es as [|e es IH]; intros order f Hc; [set_solver|].
  change (event_order (e :: es) order)
    with (event_order es (match e with EInit f => add_file f order | EGzip _ => order end)).
  destruct e as [g|g].
  - rewrite IH by (right; apply add_file_elem; auto). rewrite add_file_elem by done. set_solver.
  - rewrite IH by done. set_solver.
Qed.

(** C12. The generated files initialise once and in order.  Along every sequence
    of init calls and descriptor accesses from program start, nothing panics;
    the files built are those whose init was called and, before any other, the
    common file; the runtime was asked to build each of them exactly once, in
    one order, from its full tables and fresh infos; a file that is built has
    its descriptor and infos from that call and its tables dropped, one that is
    not is as at program start; and a compressed descriptor, once computed, is
    the compression of the embedded one.  Each call met what the runtime
    requires: as many infos as the descriptor has enumerations and messages, the
    counts and tables of its schema, imports that are registered, and no path or
    name that a file before it has. *)
Theorem init_builds_each_file_once `{!ProtoimplLaws} (es : list pb_event) :
  ∃ s order,
    run_events es zero_package = Returns (tt, s) ∧
    NoDup order ∧ (order = [] ∨ head order = Some FCommon) ∧
    (∀ f, f ∈ order ↔ EInit f ∈ es ∨ (f = FCommon ∧ ∃ g, EInit g ∈ es)) ∧
    pk_builds s = map file_builder order ∧
    (∀ f, gzip_ok f (pk_file f s)) ∧
    (∀ f, f ∉ order → not_built f (pk_file f s)) ∧
    (∀ f before after, order = before ++ f :: after →
       describes (schema_file f) (file_builder f) ∧
       registrable (map schema_file before) (schema_file f) ∧
       fv_File (pk_file f s) ≠ None ∧ is_built before f (pk_file f s)).
Proof.
  destruct (run_events_built es [] zero_package zero_built) as (s & Hrun & Hs).
  exists s, (event_order es []). pose proof Hs as (Hnd & Hhead & Hb & Hf).
  split_and!; [done..| |done| | |].
  - intros f. rewrite event_order_elem by by left. rewrite elem_of_nil. naive_solver.
  - intros f. apply Hf.
  - intros f. apply Hf.
  - intros f before after E. destruct (Hf f) as (_ & _ & Hbt).
    split_and!; [apply file_builder_describes| | |by eapply Hbt].
    + rewrite E in Hnd, Hhead. apply NoDup_app in Hnd as (_ & Hnd & _).
      apply file_registrable; [intros Hin; apply (Hnd f Hin); by left|].
      destruct before as [|g before]; [left|right]; destruct Hhead as [|Hhead]; try done;
        injection Hhead as ->; [done|by left].
    + intros HF. apply (built_File _ s f Hs) in HF. rewrite E in HF. set_solver.
Qed.
End init.

#[local] Existing Instances reading_runtime reading_laws.

(** The init of the data file, called first and twice, and a descriptor. *)
Lemma init_builds_each_file_once_witness :
  ∃ s, run_events [EInit FData; EGzip FControl; EInit FData; EInit FCommon] zero_package =
         Returns (tt, s) ∧
    fv_File (pk_file FControl s) = None ∧ fv_goTypes (pk_file FControl s) ≠ None.
Proof.
  destruct (init_builds_each_file_once [EInit FData; EGzip FControl; EInit FData; EInit FCommon])
    as (s & order & Hrun & _ & _ & Hin & _ & _ & Hnot & _).
  exists s. split; [exact Hrun|].
  assert (FControl ∉ order) as Hc by (rewrite Hin; clear; set_solver).
  destruct (Hnot FControl Hc) as (HF & _ & _ & Hg & _). split; [done|]. by rewrite Hg.
Defined.
