(* ===== verification/PbMethods.v ===== *)
(** * The methods of the generated types (api/gen/gossipcache/v1/*.pb.go)

    Every generated enumeration and message has methods that call the protobuf
    runtime with the entry of the package tables that belongs to its type.  The
    methods are given with the file and the index that each of them names. *)

From S2P Require Import Prelude GoErrors GoStd PbCommon PbControl PbData PbWire PbGo PbProto.
From S2P Require Import PbRuntime PbReader PbInit.
From stdpp Require Import list.

Local Open Scope Z_scope.

Section methods.
Context `{Protoimpl}.

(** ** Status *)
Definition pb_Status_Enum (x : Z) : option Z := Some x.
Definition pb_Status_Descriptor : op EnumDescriptor := EnumDescriptor_with FCommon 0.
Definition pb_Status_Number (x : Z) : Z := x.
Definition pb_Status_String (x : Z) : op string :=
  d ← pb_Status_Descriptor; mret (EnumStringOf d x).
Definition pb_Status_Type : op info_ref := enumTypes_ref FCommon 0.
Definition pb_Status_EnumDescriptor : op (bytes * list Z) := Descriptor_with FCommon 0.

(** ** RecordKind *)
Definition pb_RecordKind_Enum (x : Z) : option Z := Some x.
Definition pb_RecordKind_Descriptor : op EnumDescriptor := EnumDescriptor_with FCommon 1.
Definition pb_RecordKind_Number (x : Z) : Z := x.
Definition pb_RecordKind_String (x : Z) : op string :=
  d ← pb_RecordKind_Descriptor; mret (EnumStringOf d x).
Definition pb_RecordKind_Type : op info_ref := enumTypes_ref FCommon 1.
Definition pb_RecordKind_EnumDescriptor : op (bytes * list Z) := Descriptor_with FCommon 1.

(** ** WriteMode *)
Definition pb_WriteMode_Enum (x : Z) : option Z := Some x.
Definition pb_WriteMode_Descriptor : op EnumDescriptor := EnumDescriptor_with FCommon 2.
Definition pb_WriteMode_Number (x : Z) : Z := x.
Definition pb_WriteMode_String (x : Z) : op string :=
  d ← pb_WriteMode_Descriptor; mret (EnumStringOf d x).
Definition pb_WriteMode_Type : op info_ref := enumTypes_ref FCommon 2.
Definition pb_WriteMode_EnumDescriptor : op (bytes * list Z) := Descriptor_with FCommon 2.

(** ** StorageProfile *)
Definition pb_StorageProfile_Enum (x : Z) : option Z := Some x.
Definition pb_StorageProfile_Descriptor : op EnumDescriptor := EnumDescriptor_with FCommon 3.
Definition pb_StorageProfile_Number (x : Z) : Z := x.
Definition pb_StorageProfile_String (x : Z) : op string :=
  d ← pb_StorageProfile_Descriptor; mret (EnumStringOf d x).
Definition pb_StorageProfile_Type : op info_ref := enumTypes_ref FCommon 3.
Definition pb_StorageProfile_EnumDescriptor : op (bytes * list Z) := Descriptor_with FCommon 3.

(** ** ConfirmLevel *)
Definition pb_ConfirmLevel_Enum (x : Z) : option Z := Some x.
Definition pb_ConfirmLevel_Descriptor : op EnumDescriptor := EnumDescriptor_with FCommon 4.
Definition pb_ConfirmLevel_Number (x : Z) : Z := x.
Definition pb_ConfirmLevel_String (x : Z) : op string :=
  d ← pb_ConfirmLevel_Descriptor; mret (EnumStringOf d x).
Definition pb_ConfirmLevel_Type : op info_ref := enumTypes_ref FCommon 4.
Definition pb_ConfirmLevel_EnumDescriptor : op (bytes * list Z) := Descriptor_with FCommon 4.

(** ** VersionTag *)
Definition zero_pb_VersionTag : pb_VersionTag := mk_pb_VersionTag 0 0.

Definition pb_VersionTag_Reset : option (object pb_VersionTag) → op (object pb_VersionTag) :=
  Reset_with FCommon 0 zero_pb_VersionTag.
Definition pb_VersionTag_String (x : option (object pb_VersionTag)) : string := String_with x.
Definition pb_VersionTag_ProtoMessage (x : option (object pb_VersionTag)) : unit := tt.
Definition pb_VersionTag_ProtoReflect :
    option (object pb_VersionTag) → op (reflection pb_VersionTag * option (object pb_VersionTag)) :=
  ProtoReflect_with FCommon 0.
Definition pb_VersionTag_Descriptor : op (bytes * list Z) := Descriptor_with FCommon 0.

(** ** MutationID *)
Definition zero_pb_MutationID : pb_MutationID := mk_pb_MutationID [].

Definition pb_MutationID_Reset : option (object pb_MutationID) → op (object pb_MutationID) :=
  Reset_with FCommon 1 zero_pb_MutationID.
Definition pb_MutationID_String (x : option (object pb_MutationID)) : string := String_with x.
Definition pb_MutationID_ProtoMessage (x : option (object pb_MutationID)) : unit := tt.
Definition pb_MutationID_ProtoReflect :
    option (object pb_MutationID) → op (reflection pb_MutationID * option (object pb_MutationID)) :=
  ProtoReflect_with FCommon 1.
Definition pb_MutationID_Descriptor : op (bytes * list Z) := Descriptor_with FCommon 1.

(** ** ControlClientMessage *)
Definition zero_pb_ControlClientMessage : pb_ControlClientMessage := mk_pb_ControlClientMessage None.

Definition pb_ControlClientMessage_Reset : option (object pb_ControlClientMessage) → op (object pb_ControlClientMessage) :=
  Reset_with FControl 0 zero_pb_ControlClientMessage.
Definition pb_ControlClientMessage_String (x : option (object pb_ControlClientMessage)) : string := String_with x.
Definition pb_ControlClientMessage_ProtoMessage (x : option (object pb_ControlClientMessage)) : unit := tt.
Definition pb_ControlClientMessage_ProtoReflect :
    option (object pb_ControlClientMessage) → op (reflection pb_ControlClientMessage * option (object pb_ControlClientMessage)) :=
  ProtoReflect_with FControl 0.
Definition pb_ControlClientMessage_Descriptor : op (bytes * list Z) := Descriptor_with FControl 0.

(** ** ControlServerMessage *)
Definition zero_pb_ControlServerMessage : pb_ControlServerMessage := mk_pb_ControlServerMessage None.

Definition pb_ControlServerMessage_Reset : option (object pb_ControlServerMessage) → op (object pb_ControlServerMessage) :=
  Reset_with FControl 1 zero_pb_ControlServerMessage.
Definition pb_ControlServerMessage_String (x : option (object pb_ControlServerMessage)) : string := String_with x.
Definition pb_ControlServerMessage_ProtoMessage (x : option (object pb_ControlServerMessage)) : unit := tt.
Definition pb_ControlServerMessage_ProtoReflect :
    option (object pb_ControlServerMessage) → op (reflection pb_ControlServerMessage * option (object pb_ControlServerMessage)) :=
  ProtoReflect_with FControl 1.
Definition pb_ControlServerMessage_Descriptor : op (bytes * list Z) := Descriptor_with FControl 1.

(** ** ControlError *)
Definition zero_pb_ControlError : pb_ControlError := mk_pb_ControlError 0 ""%string.

Definition pb_ControlError_Reset : option (object pb_ControlError) → op (object pb_ControlError) :=
  Reset_with FControl 2 zero_pb_ControlError.
Definition pb_ControlError_String (x : option (object pb_ControlError)) : string := String_with x.
Definition pb_ControlError_ProtoMessage (x : option (object pb_ControlError)) : unit := tt.
Definition pb_ControlError_ProtoReflect :
    option (object pb_ControlError) → op (reflection pb_ControlError * option (object pb_ControlError)) :=
  ProtoReflect_with FControl 2.
Definition pb_ControlError_Descriptor : op (bytes * list Z) := Descriptor_with FControl 2.

(** ** StreamWatermark *)
Definition zero_pb_StreamWatermark : pb_StreamWatermark := mk_pb_StreamWatermark 0 0 0.

Definition pb_StreamWatermark_Reset : option (object pb_StreamWatermark) → op (object pb_StreamWatermark) :=
  Reset_with FControl 3 zero_pb_StreamWatermark.
Definition pb_StreamWatermark_String (x : option (object pb_StreamWatermark)) : string := String_with x.
Definition pb_StreamWatermark_ProtoMessage (x : option (object pb_StreamWatermark)) : unit := tt.
Definition pb_StreamWatermark_ProtoReflect :
    option (object pb_StreamWatermark) → op (reflection pb_StreamWatermark * option (object pb_StreamWatermark)) :=
  ProtoReflect_with FControl 3.
Definition pb_StreamWatermark_Descriptor : op (bytes * list Z) := Descriptor_with FControl 3.

(** ** Hello *)
Definition zero_pb_Hello : pb_Hello := mk_pb_Hello 0 0 0 [] ""%string 0.

Definition pb_Hello_Reset : option (object pb_Hello) → op (object pb_Hello) :=
  Reset_with FControl 4 zero_pb_Hello.
Definition pb_Hello_String (x : option (object pb_Hello)) : string := String_with x.
Definition pb_Hello_ProtoMessage (x : option (object pb_Hello)) : unit := tt.
Definition pb_Hello_ProtoReflect :
    option (object pb_Hello) → op (reflection pb_Hello * option (object pb_Hello)) :=
  ProtoReflect_with FControl 4.
Definition pb_Hello_Descriptor : op (bytes * list Z) := Descriptor_with FControl 4.

(** ** Subscribe *)
Definition zero_pb_Subscribe : pb_Subscribe := mk_pb_Subscribe 0 [].

Definition pb_Subscribe_Reset : option (object pb_Subscribe) → op (object pb_Subscribe) :=
  Reset_with FControl 5 zero_pb_Subscribe.
Definition pb_Subscribe_String (x : option (object pb_Subscribe)) : string := String_with x.
Definition pb_Subscribe_ProtoMessage (x : option (object pb_Subscribe)) : unit := tt.
Definition pb_Subscribe_ProtoReflect :
    option (object pb_Subscribe) → op (reflection pb_Subscribe * option (object pb_Subscribe)) :=
  ProtoReflect_with FControl 5.
Definition pb_Subscribe_Descriptor : op (bytes * list Z) := Descriptor_with FControl 5.

(** ** InvalidationEvent *)
Definition zero_pb_InvalidationEvent : pb_InvalidationEvent := mk_pb_InvalidationEvent 0 [] None 0 None.

Definition pb_InvalidationEvent_Reset : option (object pb_InvalidationEvent) → op (object pb_InvalidationEvent) :=
  Reset_with FControl 6 zero_pb_InvalidationEvent.
Definition pb_InvalidationEvent_String (x : option (object pb_InvalidationEvent)) : string := String_with x.
Definition pb_InvalidationEvent_ProtoMessage (x : option (object pb_InvalidationEvent)) : unit := tt.
Definition pb_InvalidationEvent_ProtoReflect :
    option (object pb_InvalidationEvent) → op (reflection pb_InvalidationEvent * option (object pb_InvalidationEvent)) :=
  ProtoReflect_with FControl 6.
Definition pb_InvalidationEvent_Descriptor : op (bytes * list Z) := Descriptor_with FControl 6.

(** ** InvalidationBatch *)
Definition zero_pb_InvalidationBatch : pb_InvalidationBatch := mk_pb_InvalidationBatch 0 0 [].

Definition pb_InvalidationBatch_Reset : option (object pb_InvalidationBatch) → op (object pb_InvalidationBatch) :=
  Reset_with FControl 7 zero_pb_InvalidationBatch.
Definition pb_InvalidationBatch_String (x : option (object pb_InvalidationBatch)) : string := String_with x.
Definition pb_InvalidationBatch_ProtoMessage (x : option (object pb_InvalidationBatch)) : unit := tt.
Definition pb_InvalidationBatch_ProtoReflect :
    option (object pb_InvalidationBatch) → op (reflection pb_InvalidationBatch * option (object pb_InvalidationBatch)) :=
  ProtoReflect_with FControl 7.
Definition pb_InvalidationBatch_Descriptor : op (bytes * list Z) := Descriptor_with FControl 7.

(** ** StreamAcknowledgement *)
Definition zero_pb_StreamAcknowledgement : pb_StreamAcknowledgement := mk_pb_StreamAcknowledgement 0 0.

Definition pb_StreamAcknowledgement_Reset : option (object pb_StreamAcknowledgement) → op (object pb_StreamAcknowledgement) :=
  Reset_with FControl 8 zero_pb_StreamAcknowledgement.
Definition pb_StreamAcknowledgement_String (x : option (object pb_StreamAcknowledgement)) : string := String_with x.
Definition pb_StreamAcknowledgement_ProtoMessage (x : option (object pb_StreamAcknowledgement)) : unit := tt.
Definition pb_StreamAcknowledgement_ProtoReflect :
    option (object pb_StreamAcknowledgement) → op (reflection pb_StreamAcknowledgement * option (object pb_StreamAcknowledgement)) :=
  ProtoReflect_with FControl 8.
Definition pb_StreamAcknowledgement_Descriptor : op (bytes * list Z) := Descriptor_with FControl 8.

(** ** StreamCheckpoint *)
Definition zero_pb_StreamCheckpoint : pb_StreamCheckpoint := mk_pb_StreamCheckpoint 0 0 0.

Definition pb_StreamCheckpoint_Reset : option (object pb_StreamCheckpoint) → op (object pb_StreamCheckpoint) :=
  Reset_with FControl 9 zero_pb_StreamCheckpoint.
Definition pb_StreamCheckpoint_String (x : option (object pb_StreamCheckpoint)) : string := String_with x.
Definition pb_StreamCheckpoint_ProtoMessage (x : option (object pb_StreamCheckpoint)) : unit := tt.
Definition pb_StreamCheckpoint_ProtoReflect :
    option (object pb_StreamCheckpoint) → op (reflection pb_StreamCheckpoint * option (object pb_StreamCheckpoint)) :=
  ProtoReflect_with FControl 9.
Definition pb_StreamCheckpoint_Descriptor : op (bytes * list Z) := Descriptor_with FControl 9.

(** ** ReplayRequest *)
Definition zero_pb_ReplayRequest : pb_ReplayRequest := mk_pb_ReplayRequest 0 0 0.

Definition pb_ReplayRequest_Reset : option (object pb_ReplayRequest) → op (object pb_ReplayRequest) :=
  Reset_with FControl 10 zero_pb_ReplayRequest.
Definition pb_ReplayRequest_String (x : option (object pb_ReplayRequest)) : string := String_with x.
Definition pb_ReplayRequest_ProtoMessage (x : option (object pb_ReplayRequest)) : unit := tt.
Definition pb_ReplayRequest_ProtoReflect :
    option (object pb_ReplayRequest) → op (reflection pb_ReplayRequest * option (object pb_ReplayRequest)) :=
  ProtoReflect_with FControl 10.
Definition pb_ReplayRequest_Descriptor : op (bytes * list Z) := Descriptor_with FControl 10.

(** ** ReplayUnavailable *)
Definition zero_pb_ReplayUnavailable : pb_ReplayUnavailable := mk_pb_ReplayUnavailable 0 0 0 0 0.

Definition pb_ReplayUnavailable_Reset : option (object pb_ReplayUnavailable) → op (object pb_ReplayUnavailable) :=
  Reset_with FControl 11 zero_pb_ReplayUnavailable.
Definition pb_ReplayUnavailable_String (x : option (object pb_ReplayUnavailable)) : string := String_with x.
Definition pb_ReplayUnavailable_ProtoMessage (x : option (object pb_ReplayUnavailable)) : unit := tt.
Definition pb_ReplayUnavailable_ProtoReflect :
    option (object pb_ReplayUnavailable) → op (reflection pb_ReplayUnavailable * option (object pb_ReplayUnavailable)) :=
  ProtoReflect_with FControl 11.
Definition pb_ReplayUnavailable_Descriptor : op (bytes * list Z) := Descriptor_with FControl 11.

(** ** InvalidateConfirm *)
Definition zero_pb_InvalidateConfirm : pb_InvalidateConfirm := mk_pb_InvalidateConfirm 0 0 0.

Definition pb_InvalidateConfirm_Reset : option (object pb_InvalidateConfirm) → op (object pb_InvalidateConfirm) :=
  Reset_with FControl 12 zero_pb_InvalidateConfirm.
Definition pb_InvalidateConfirm_String (x : option (object pb_InvalidateConfirm)) : string := String_with x.
Definition pb_InvalidateConfirm_ProtoMessage (x : option (object pb_InvalidateConfirm)) : unit := tt.
Definition pb_InvalidateConfirm_ProtoReflect :
    option (object pb_InvalidateConfirm) → op (reflection pb_InvalidateConfirm * option (object pb_InvalidateConfirm)) :=
  ProtoReflect_with FControl 12.
Definition pb_InvalidateConfirm_Descriptor : op (bytes * list Z) := Descriptor_with FControl 12.

(** ** MutationOp *)
Definition pb_MutationOp_Enum (x : Z) : option Z := Some x.
Definition pb_MutationOp_Descriptor : op EnumDescriptor := EnumDescriptor_with FData 0.
Definition pb_MutationOp_Number (x : Z) : Z := x.
Definition pb_MutationOp_String (x : Z) : op string :=
  d ← pb_MutationOp_Descriptor; mret (EnumStringOf d x).
Definition pb_MutationOp_Type : op info_ref := enumTypes_ref FData 0.
Definition pb_MutationOp_EnumDescriptor : op (bytes * list Z) := Descriptor_with FData 0.

(** ** HandshakeRequest *)
Definition zero_pb_HandshakeRequest : pb_HandshakeRequest := mk_pb_HandshakeRequest 0 0 ""%string 0.

Definition pb_HandshakeRequest_Reset : option (object pb_HandshakeRequest) → op (object pb_HandshakeRequest) :=
  Reset_with FData 0 zero_pb_HandshakeRequest.
Definition pb_HandshakeRequest_String (x : option (object pb_HandshakeRequest)) : string := String_with x.
Definition pb_HandshakeRequest_ProtoMessage (x : option (object pb_HandshakeRequest)) : unit := tt.
Definition pb_HandshakeRequest_ProtoReflect :
    option (object pb_HandshakeRequest) → op (reflection pb_HandshakeRequest * option (object pb_HandshakeRequest)) :=
  ProtoReflect_with FData 0.
Definition pb_HandshakeRequest_Descriptor : op (bytes * list Z) := Descriptor_with FData 0.

(** ** HandshakeResponse *)
Definition zero_pb_HandshakeResponse : pb_HandshakeResponse := mk_pb_HandshakeResponse 0 0 0 0 false ""%string.

Definition pb_HandshakeResponse_Reset : option (object pb_HandshakeResponse) → op (object pb_HandshakeResponse) :=
  Reset_with FData 1 zero_pb_HandshakeResponse.
Definition pb_HandshakeResponse_String (x : option (object pb_HandshakeResponse)) : string := String_with x.
Definition pb_HandshakeResponse_ProtoMessage (x : option (object pb_HandshakeResponse)) : unit := tt.
Definition pb_HandshakeResponse_ProtoReflect :
    option (object pb_HandshakeResponse) → op (reflection pb_HandshakeResponse * option (object pb_HandshakeResponse)) :=
  ProtoReflect_with FData 1.
Definition pb_HandshakeResponse_Descriptor : op (bytes * list Z) := Descriptor_with FData 1.

(** ** HubStatusRequest *)
Definition zero_pb_HubStatusRequest : pb_HubStatusRequest := mk_pb_HubStatusRequest 0.

Definition pb_HubStatusRequest_Reset : option (object pb_HubStatusRequest) → op (object pb_HubStatusRequest) :=
  Reset_with FData 2 zero_pb_HubStatusRequest.
Definition pb_HubStatusRequest_String (x : option (object pb_HubStatusRequest)) : string := String_with x.
Definition pb_HubStatusRequest_ProtoMessage (x : option (object pb_HubStatusRequest)) : unit := tt.
Definition pb_HubStatusRequest_ProtoReflect :
    option (object pb_HubStatusRequest) → op (reflection pb_HubStatusRequest * option (object pb_HubStatusRequest)) :=
  ProtoReflect_with FData 2.
Definition pb_HubStatusRequest_Descriptor : op (bytes * list Z) := Descriptor_with FData 2.

(** ** HubStatusResponse *)
Definition zero_pb_HubStatusResponse : pb_HubStatusResponse := mk_pb_HubStatusResponse 0 0 false 0.

Definition pb_HubStatusResponse_Reset : option (object pb_HubStatusResponse) → op (object pb_HubStatusResponse) :=
  Reset_with FData 3 zero_pb_HubStatusResponse.
Definition pb_HubStatusResponse_String (x : option (object pb_HubStatusResponse)) : string := String_with x.
Definition pb_HubStatusResponse_ProtoMessage (x : option (object pb_HubStatusResponse)) : unit := tt.
Definition pb_HubStatusResponse_ProtoReflect :
    option (object pb_HubStatusResponse) → op (reflection pb_HubStatusResponse * option (object pb_HubStatusResponse)) :=
  ProtoReflect_with FData 3.
Definition pb_HubStatusResponse_Descriptor : op (bytes * list Z) := Descriptor_with FData 3.

(** ** GetRequest *)
Definition zero_pb_GetRequest : pb_GetRequest := mk_pb_GetRequest [] None 0.

Definition pb_GetRequest_Reset : option (object pb_GetRequest) → op (object pb_GetRequest) :=
  Reset_with FData 4 zero_pb_GetRequest.
Definition pb_GetRequest_String (x : option (object pb_GetRequest)) : string := String_with x.
Definition pb_GetRequest_ProtoMessage (x : option (object pb_GetRequest)) : unit := tt.
Definition pb_GetRequest_ProtoReflect :
    option (object pb_GetRequest) → op (reflection pb_GetRequest * option (object pb_GetRequest)) :=
  ProtoReflect_with FData 4.
Definition pb_GetRequest_Descriptor : op (bytes * list Z) := Descriptor_with FData 4.

(** ** GetResponse *)
Definition zero_pb_GetResponse : pb_GetResponse := mk_pb_GetResponse 0 0 None [] 0 0.

Definition pb_GetResponse_Reset : option (object pb_GetResponse) → op (object pb_GetResponse) :=
  Reset_with FData 5 zero_pb_GetResponse.
Definition pb_GetResponse_String (x : option (object pb_GetResponse)) : string := String_with x.
Definition pb_GetResponse_ProtoMessage (x : option (object pb_GetResponse)) : unit := tt.
Definition pb_GetResponse_ProtoReflect :
    option (object pb_GetResponse) → op (reflection pb_GetResponse * option (object pb_GetResponse)) :=
  ProtoReflect_with FData 5.
Definition pb_GetResponse_Descriptor : op (bytes * list Z) := Descriptor_with FData 5.

(** ** MutationRequest *)
Definition zero_pb_MutationRequest : pb_MutationRequest := mk_pb_MutationRequest 0 [] [] 0 None 0 0 0 0 0.

Definition pb_MutationRequest_Reset : option (object pb_MutationRequest) → op (object pb_MutationRequest) :=
  Reset_with FData 6 zero_pb_MutationRequest.
Definition pb_MutationRequest_String (x : option (object pb_MutationRequest)) : string := String_with x.
Definition pb_MutationRequest_ProtoMessage (x : option (object pb_MutationRequest)) : unit := tt.
Definition pb_MutationRequest_ProtoReflect :
    option (object pb_MutationRequest) → op (reflection pb_MutationRequest * option (object pb_MutationRequest)) :=
  ProtoReflect_with FData 6.
Definition pb_MutationRequest_Descriptor : op (bytes * list Z) := Descriptor_with FData 6.

(** ** MutationResponse *)
Definition zero_pb_MutationResponse : pb_MutationResponse := mk_pb_MutationResponse 0 0 None.

Definition pb_MutationResponse_Reset : option (object pb_MutationResponse) → op (object pb_MutationResponse) :=
  Reset_with FData 7 zero_pb_MutationResponse.
Definition pb_MutationResponse_String (x : option (object pb_MutationResponse)) : string := String_with x.
Definition pb_MutationResponse_ProtoMessage (x : option (object pb_MutationResponse)) : unit := tt.
Definition pb_MutationResponse_ProtoReflect :
    option (object pb_MutationResponse) → op (reflection pb_MutationResponse * option (object pb_MutationResponse)) :=
  ProtoReflect_with FData 7.
Definition pb_MutationResponse_Descriptor : op (bytes * list Z) := Descriptor_with FData 7.
(** ** The methods of a type together *)
Record enum_methods := mkEnumMethods {
  em_name : string; em_value : list (string * Z);
  em_Enum : Z → option Z; em_Number : Z → Z; em_String : Z → op string;
  em_Descriptor : op EnumDescriptor; em_Type : op info_ref;
  em_EnumDescriptor : op (bytes * list Z) }.

Record message_methods := mkMessageMethods {
  mm_type : Type; mm_name : string; mm_zero : mm_type;
  mm_Reset : option (object mm_type) → op (object mm_type);
  mm_String : option (object mm_type) → string;
  mm_ProtoReflect : option (object mm_type) → op (reflection mm_type * option (object mm_type));
  mm_Descriptor : op (bytes * list Z) }.

Definition all_enums : list enum_methods :=
  [mkEnumMethods "Status" pb_Status_value pb_Status_Enum pb_Status_Number pb_Status_String
     pb_Status_Descriptor pb_Status_Type pb_Status_EnumDescriptor;
   mkEnumMethods "RecordKind" pb_RecordKind_value pb_RecordKind_Enum pb_RecordKind_Number pb_RecordKind_String
     pb_RecordKind_Descriptor pb_RecordKind_Type pb_RecordKind_EnumDescriptor;
   mkEnumMethods "WriteMode" pb_WriteMode_value pb_WriteMode_Enum pb_WriteMode_Number pb_WriteMode_String
     pb_WriteMode_Descriptor pb_WriteMode_Type pb_WriteMode_EnumDescriptor;
   mkEnumMethods "StorageProfile" pb_StorageProfile_value pb_StorageProfile_Enum pb_StorageProfile_Number pb_StorageProfile_String
     pb_StorageProfile_Descriptor pb_StorageProfile_Type pb_StorageProfile_EnumDescriptor;
   mkEnumMethods "ConfirmLevel" pb_ConfirmLevel_value pb_ConfirmLevel_Enum pb_ConfirmLevel_Number pb_ConfirmLevel_String
     pb_ConfirmLevel_Descriptor pb_ConfirmLevel_Type pb_ConfirmLevel_EnumDescriptor;
   mkEnumMethods "MutationOp" pb_MutationOp_value pb_MutationOp_Enum pb_MutationOp_Number pb_MutationOp_String
     pb_MutationOp_Descriptor pb_MutationOp_Type pb_MutationOp_EnumDescriptor].

Definition all_messages : list message_methods :=
  [mkMessageMethods pb_VersionTag "VersionTag" zero_pb_VersionTag pb_VersionTag_Reset pb_VersionTag_String
     pb_VersionTag_ProtoReflect pb_VersionTag_Descriptor;
   mkMessageMethods pb_MutationID "MutationID" zero_pb_MutationID pb_MutationID_Reset pb_MutationID_String
     pb_MutationID_ProtoReflect pb_MutationID_Descriptor;
   mkMessageMethods pb_ControlClientMessage "ControlClientMessage" zero_pb_ControlClientMessage pb_ControlClientMessage_Reset pb_ControlClientMessage_String
     pb_ControlClientMessage_ProtoReflect pb_ControlClientMessage_Descriptor;
   mkMessageMethods pb_ControlServerMessage "ControlServerMessage" zero_pb_ControlServerMessage pb_ControlServerMessage_Reset pb_ControlServerMessage_String
     pb_ControlServerMessage_ProtoReflect pb_ControlServerMessage_Descriptor;
   mkMessageMethods pb_ControlError "ControlError" zero_pb_ControlError pb_ControlError_Reset pb_ControlError_String
     pb_ControlError_ProtoReflect pb_ControlError_Descriptor;
   mkMessageMethods pb_StreamWatermark "StreamWatermark" zero_pb_StreamWatermark pb_StreamWatermark_Reset pb_StreamWatermark_String
     pb_StreamWatermark_ProtoReflect pb_StreamWatermark_Descriptor;
   mkMessageMethods pb_Hello "Hello" zero_pb_Hello pb_Hello_Reset pb_Hello_String
     pb_Hello_ProtoReflect pb_Hello_Descriptor;
   mkMessageMethods pb_Subscribe "Subscribe" zero_pb_Subscribe pb_Subscribe_Reset pb_Subscribe_String
     pb_Subscribe_ProtoReflect pb_Subscribe_Descriptor;
   mkMessageMethods pb_InvalidationEvent "InvalidationEvent" zero_pb_InvalidationEvent pb_InvalidationEvent_Reset pb_InvalidationEvent_String
     pb_InvalidationEvent_ProtoReflect pb_InvalidationEvent_Descriptor;
   mkMessageMethods pb_InvalidationBatch "InvalidationBatch" zero_pb_InvalidationBatch pb_InvalidationBatch_Reset pb_InvalidationBatch_String
     pb_InvalidationBatch_ProtoReflect pb_InvalidationBatch_Descriptor;
   mkMessageMethods pb_StreamAcknowledgement "StreamAcknowledgement" zero_pb_StreamAcknowledgement pb_StreamAcknowledgement_Reset pb_StreamAcknowledgement_String
     pb_StreamAcknowledgement_ProtoReflect pb_StreamAcknowledgement_Descriptor;
   mkMessageMethods pb_StreamCheckpoint "StreamCheckpoint" zero_pb_StreamCheckpoint pb_StreamCheckpoint_Reset pb_StreamCheckpoint_String
     pb_StreamCheckpoint_ProtoReflect pb_StreamCheckpoint_Descriptor;
   mkMessageMethods pb_ReplayRequest "ReplayRequest" zero_pb_ReplayRequest pb_ReplayRequest_Reset pb_ReplayRequest_String
     pb_ReplayRequest_ProtoReflect pb_ReplayRequest_Descriptor;
   mkMessageMethods pb_ReplayUnavailable "ReplayUnavailable" zero_pb_ReplayUnavailable pb_ReplayUnavailable_Reset pb_ReplayUnavailable_String
     pb_ReplayUnavailable_ProtoReflect pb_ReplayUnavailable_Descriptor;
   mkMessageMethods pb_InvalidateConfirm "InvalidateConfirm" zero_pb_InvalidateConfirm pb_InvalidateConfirm_Reset pb_InvalidateConfirm_String
     pb_InvalidateConfirm_ProtoReflect pb_InvalidateConfirm_Descriptor;
   mkMessageMethods pb_HandshakeRequest "HandshakeRequest" zero_pb_HandshakeRequest pb_HandshakeRequest_Reset pb_HandshakeRequest_String
     pb_HandshakeRequest_ProtoReflect pb_HandshakeRequest_Descriptor;
   mkMessageMethods pb_HandshakeResponse "HandshakeResponse" zero_pb_HandshakeResponse pb_HandshakeResponse_Reset pb_HandshakeResponse_String
     pb_HandshakeResponse_ProtoReflect pb_HandshakeResponse_Descriptor;
   mkMessageMethods pb_HubStatusRequest "HubStatusRequest" zero_pb_HubStatusRequest pb_HubStatusRequest_Reset pb_HubStatusRequest_String
     pb_HubStatusRequest_ProtoReflect pb_HubStatusRequest_Descriptor;
   mkMessageMethods pb_HubStatusResponse "HubStatusResponse" zero_pb_HubStatusResponse pb_HubStatusResponse_Reset pb_HubStatusResponse_String
     pb_HubStatusResponse_ProtoReflect pb_HubStatusResponse_Descriptor;
   mkMessageMethods pb_GetRequest "GetRequest" zero_pb_GetRequest pb_GetRequest_Reset pb_GetRequest_String
     pb_GetRequest_ProtoReflect pb_GetRequest_Descriptor;
   mkMessageMethods pb_GetResponse "GetResponse" zero_pb_GetResponse pb_GetResponse_Reset pb_GetResponse_String
     pb_GetResponse_ProtoReflect pb_GetResponse_Descriptor;
   mkMessageMethods pb_MutationRequest "MutationRequest" zero_pb_MutationRequest pb_MutationRequest_Reset pb_MutationRequest_String
     pb_MutationRequest_ProtoReflect pb_MutationRequest_Descriptor;
   mkMessageMethods pb_MutationResponse "MutationResponse" zero_pb_MutationResponse pb_MutationResponse_Reset pb_MutationResponse_String
     pb_MutationResponse_ProtoReflect pb_MutationResponse_Descriptor].

(** ** The tables after program start *)
Definition file_goTypes (f : pb_file) : list go_type :=
  match f with
  | FCommon => file_gossipcache_v1_common_proto_goTypes
  | FControl => file_gossipcache_v1_control_proto_goTypes
  | FData => file_gossipcache_v1_data_proto_goTypes
  end.

(** The files are all initialised, whatever else was called. *)
Definition started (s : package) : Prop :=
  ∃ es, run_events (map EInit [FCommon; FControl; FData] ++ es) zero_package = Returns (tt, s).

Lemma started_built `{!ProtoimplLaws} s :
  started s → ∃ order, built_in order s ∧ ∀ f, f ∈ order.
Proof.
  intros [es Hrun].
  destruct (run_events_built (map EInit [FCommon; FControl; FData] ++ es) [] zero_package zero_built)
    as (s' & Hrun' & Hs). rewrite Hrun in Hrun'. injection Hrun' as <-.
  eexists. split; [exact Hs|]. intros f. rewrite event_order_elem by by left.
  right; left. destruct f; set_solver.
Qed.

Lemma built_infos `{!ProtoimplLaws} order s f :
  built_in order s → f ∈ order →
  ∃ h out, Build h (file_builder f) = Returns out ∧
    fv_enumTypes (pk_file f s) = out_EnumInfos out ∧
    length (out_EnumInfos out) = length (fv_enumTypes (start_vars f)) ∧
    fv_msgTypes (pk_file f s) = out_MessageInfos out ∧
    length (out_MessageInfos out) = length (fv_msgTypes (start_vars f)).
Proof.
  intros (_ & _ & _ & Hf) Hin. apply list_elem_of_split in Hin as (before & after & E).
  destruct (Hf f) as (_ & _ & Hb). destruct (Hb before after E) as (out & Hout & _ & He & Hm & _).
  do 2 eexists. split_and!; [exact Hout|exact He| |exact Hm|].
  - rewrite (Build_EnumInfos _ _ _ Hout). by destruct f.
  - rewrite (Build_MessageInfos _ _ _ Hout). by destruct f.
Qed.

(** ** Every method uses the entries of its own type *)
(** The methods of the enumeration [i] of a file: their texts are those of the
    schema, and the other results refer to entry [i]. *)
Definition enum_belongs (s : package) (m : enum_methods) (f : pb_file) (i : nat) : Prop :=
  (∃ e, pfl_enums (schema_file f) !! i = Some e ∧ pe_name e = em_name m ∧ pe_values e = em_value m) ∧
  file_goTypes f !! i = Some (GoNamed (em_name m)) ∧
  (∀ x, em_Enum m x = Some x ∧ em_Number m x = x ∧
     em_String m x s = Returns (enum_text (em_value m) x, s)) ∧
  em_Type m s = Returns (mkRef f i, s) ∧
  ∃ s', started s' ∧
    em_EnumDescriptor m s =
      Returns ((CompressGZIP (default [] (raw_descriptor f)), [Z.of_nat i]), s').

(** The methods of the message [i] of a file: [Reset] leaves the zero value,
    reset and fresh messages are reflected with entry [i], and a message that
    has an info keeps it. *)
Definition message_belongs (s : package) (m : message_methods) (f : pb_file) (i : nat) : Prop :=
  pm_name <$> (pfl_messages (schema_file f) !! i) = Some (mm_name m) ∧
  file_goTypes f !! (length (pfl_enums (schema_file f)) + i)%nat = Some (GoPointer (mm_name m)) ∧
  mm_Reset m None s = Panics nil_dereference ∧
  (∀ o, ∃ o', mm_Reset m (Some o) s = Returns (o', s) ∧ ob_value o' = mm_zero m ∧
     LoadMessageInfo (ob_state o') = Some (mkRef f i)) ∧
  (∀ o, ∃ o', mm_ProtoReflect m (Some o) s = Returns ((ReflectState o', Some o'), s) ∧
     ob_value o' = ob_value o ∧
     match LoadMessageInfo (ob_state o) with
     | None => LoadMessageInfo (ob_state o') = Some (mkRef f i)
     | Some _ => o' = o
     end) ∧
  mm_ProtoReflect m None s = Returns ((ReflectOf (mkRef f i) None, None), s) ∧
  ∃ s', started s' ∧
    mm_Descriptor m s =
      Returns ((CompressGZIP (default [] (raw_descriptor f)), [Z.of_nat i]), s').

Section started.
Context `{!ProtoimplLaws}.

Lemma run_events_app es es' : ∀ s s',
  run_events es s = Returns (tt, s') → run_events (es ++ es') s = run_events es' s'.
Proof.
  induction es as [|[f|f] es IH]; intros s s'; cbn [run_events app].
  - by intros [= ->].
  - unfold mbind, op_bind. destruct (init f s) as [[? s1]|]; [apply IH|done].
  - unfold mbind, op_bind. destruct (rawDescGZIP f s) as [[? s1]|]; [apply IH|done].
Qed.

Lemma started_gzip s f :
  started s → ∃ s', started s' ∧
    rawDescGZIP f s = Returns (CompressGZIP (default [] (raw_descriptor f)), s').
Proof.
  intros Hs. destruct (started_built s Hs) as (order & Hb & _).
  destruct (gzip_step f order s Hb) as (s' & Hg & _). exists s'. split; [|done].
  destruct Hs as [es Hrun]. exists (es ++ [EGzip f]).
  rewrite (assoc_L app), (run_events_app _ _ _ _ Hrun). cbn [run_events].
  unfold mbind, op_bind. by rewrite Hg.
Qed.

Lemma Descriptor_belongs s f i :
  started s → ∃ s', started s' ∧
    Descriptor_with f i s =
      Returns ((CompressGZIP (default [] (raw_descriptor f)), [Z.of_nat i]), s').
Proof.
  intros Hs. destruct (started_gzip s f Hs) as (s' & Hs' & Hg). exists s'. split; [done|].
  unfold Descriptor_with, mbind, op_bind. by rewrite Hg.
Qed.

Lemma msgTypes_entry s f i :
  started s → (i < length (fv_msgTypes (start_vars f)))%nat →
  msgTypes_ref f i s = Returns (mkRef f i, s).
Proof.
  intros Hs Hi. destruct (started_built s Hs) as (order & Hb & Hall).
  destruct (built_infos order s f Hb (Hall f)) as (h & out & _ & _ & _ & Hm & Hl).
  unfold msgTypes_ref. rewrite Hm. rewrite <-Hl in Hi.
  by destruct (lookup_lt_is_Some_2 _ _ Hi) as [? ->].
Qed.

Lemma enumTypes_entry s f i e :
  started s → pfl_enums (schema_file f) !! i = Some e →
  (i < length (fv_enumTypes (start_vars f)))%nat → Forall (λ v, 0 <= v.2 < 2 ^ 31) (pe_values e) →
  ∃ info, fv_enumTypes (pk_file f s) !! i = Some info ∧
    ∀ n, EnumStringOf (EnumInfo_Descriptor info) n = enum_text (pe_values e) n.
Proof.
  intros Hs He Hi Hpos. destruct (started_built s Hs) as (order & Hb & Hall).
  destruct (built_infos order s f Hb (Hall f)) as (h & out & Hout & Hen & Hl & _).
  rewrite <-Hl in Hi. destruct (lookup_lt_is_Some_2 _ _ Hi) as [info Hinfo].
  exists info. split; [by rewrite Hen|]. eapply Build_enum; [exact Hout|apply file_builder_describes|done..].
Qed.

(** The bodies of the generated methods, for the entry of a type. *)
Lemma generated_enum s f i name value e :
  started s → pfl_enums (schema_file f) !! i = Some e → pe_name e = name → pe_values e = value →
  file_goTypes f !! i = Some (GoNamed name) → (i < length (fv_enumTypes (start_vars f)))%nat →
  Forall (λ v, 0 <= v.2 < 2 ^ 31) value →
  enum_belongs s
    (mkEnumMethods name value (λ x, Some x) (λ x, x)
       (λ x, d ← EnumDescriptor_with f i; mret (EnumStringOf d x))
       (EnumDescriptor_with f i) (enumTypes_ref f i) (Descriptor_with f i)) f i.
Proof.
  intros Hs He Hn Hv Hg Hi Hpos. subst name value.
  destruct (enumTypes_entry s f i e Hs He Hi Hpos) as (info & Hinfo & Ht).
  split_and!; [by exists e|done| | |by apply Descriptor_belongs].
  - intros x. split_and!; [done..|]. cbn [em_String em_value].
    unfold EnumDescriptor_with, enumTypes_at, mbind, op_bind. rewrite Hinfo.
    cbn. by rewrite Ht.
  - cbn [em_Type]. unfold enumTypes_ref. by rewrite Hinfo.
Qed.

Lemma generated_message s f i name (P : Type) (zero : P) :
  started s → pm_name <$> (pfl_messages (schema_file f) !! i) = Some name →
  file_goTypes f !! (length (pfl_enums (schema_file f)) + i)%nat = Some (GoPointer name) →
  (i < length (fv_msgTypes (start_vars f)))%nat →
  message_belongs s
    (mkMessageMethods P name zero (Reset_with f i zero) String_with (ProtoReflect_with f i)
       (Descriptor_with f i)) f i.
Proof.
  intros Hs Hn Hg Hi. pose proof (msgTypes_entry s f i Hs Hi) as Hr.
  split_and!; [done..| | | |by apply Descriptor_belongs]; cbn [mm_Reset mm_ProtoReflect mm_zero mm_type].
  - intros o. eexists. unfold Reset_with, mbind, op_bind. rewrite Hr.
    split_and!; [done..|]. apply Load_Store.
  - intros o. unfold ProtoReflect_with, mbind, op_bind. rewrite Hr.
    destruct (LoadMessageInfo (ob_state o)) eqn:Hl; eexists; split_and!; try done.
    apply Load_Store.
  - unfold ProtoReflect_with, mbind, op_bind. by rewrite Hr.
Qed.

(** C37. No generated method is wired to another type.  After program start,
    whatever init functions and descriptors were used since, each of the methods
    of an enumeration or a message works on the table entry, the Go type and the
    descriptor path of that very type; the text of an enumeration value is its
    name in the generated table, or its number; a reset message is the zero
    message of its type; nothing panics but [Reset] of a nil message; and every
    enumeration and message of the schema has its methods. *)
Theorem methods_belong_to_their_type (s : package) :
  started s →
  map em_name all_enums =
    map pe_name (concat (map (λ f, pfl_enums (schema_file f)) [FCommon; FControl; FData])) ∧
  map mm_name all_messages =
    map pm_name (concat (map (λ f, pfl_messages (schema_file f)) [FCommon; FControl; FData])) ∧
  Forall (λ m, ∃ f i, enum_belongs s m f i) all_enums ∧
  Forall (λ m, ∃ f i, message_belongs s m f i) all_messages.
Proof.
  intros Hs. split_and!; [done..| |].
  - repeat constructor; (do 2 eexists; eapply generated_enum; [done|reflexivity..| |]);
      solve [cbn; lia|by repeat constructor].
  - repeat constructor; (do 2 eexists; apply generated_message; [done|reflexivity..|cbn; lia]).
Qed.
End started.
End methods.

(** ** A program with the runtime of [PbReader] *)
#[local] Existing Instances reading_runtime reading_laws.

Lemma program_starts : ∃ s, started s.
Proof.
  destruct (run_events_built (map EInit [FCommon; FControl; FData] ++ []) [] zero_package zero_built)
    as (s & Hrun & _). exists s. by exists [].
Qed.

Lemma methods_belong_to_their_type_witness :
  ∃ s, started s ∧ pb_WriteMode_String 1 s = Returns ("WRITE_MODE_SYNC"%string, s) ∧
    pb_WriteMode_String 7 s = Returns ("7"%string, s).
Proof.
  destruct program_starts as [s Hs]. exists s. split; [exact Hs|].
  destruct (methods_belong_to_their_type s Hs) as (_ & _ & He & _).
  destruct (proj1 (Forall_lookup _ _) He 2%nat _ eq_refl) as (f & i & _ & _ & Ht & _).
  split; [apply (Ht 1)|apply (Ht 7)].
Defined.

