(* ===== verification/GrpcLib.v ===== *)
(** * What the generated stubs use of gRPC

    The gRPC module is third-party code.  Its opaque types and functions are
    the fields of the class [GrpcLib], the structs and interfaces whose fields
    the stubs name ([grpc.ServiceDesc], [grpc.MethodDesc], [grpc.StreamDesc],
    [grpc.UnaryServerInfo], [grpc.ClientConnInterface],
    [grpc.ServiceRegistrar]) are records, and what the theorems assume of its
    behaviour is the class [GrpcLaws] and the properties of connections in
    [GrpcCalls].

    A call runs in an unknown state of the programs and the network, the
    [World], and returns or panics: the effect [go].  A value of Go's
    [interface{}] that holds a message is an [any]: nil, or a typed pointer
    that may itself be nil. *)

From S2P Require Import Prelude GoErrors PbCommon PbControl PbData.

Class GrpcLib := {
  World : Type;
  before : World → World → Prop;          (* the same state or a later one of one run *)
  Ctx : Type;                             (* context.Context *)
  CallOption : Type;                      (* grpc.CallOption *)
  StaticMethod : CallOption;              (* grpc.StaticMethod() *)
  ClientStream : Type;                    (* grpc.ClientStream *)
  ServerStream : Type;                    (* grpc.ServerStream *)
  codes_OK : Z;
  codes_Unimplemented : Z;
  status_Error : Z → string → error;      (* status.Error *)
  status_Code : error → Z;                (* status.Code *)
  (** The code with which a server reports an error of a handler: that of a
      status error, those of the errors of a context, Unknown for others. *)
  reported_code : err → Z;
}.

(** What is documented of the status package: [status.Error] makes an error
    that carries the code it is given, except for the code OK, for which it is
    nil, the code of no error is OK, and a server reports a status error with
    its code.  Time is an order. *)
Class GrpcLaws `{GrpcLib} := {
  status_Code_Error c m : status_Code (status_Error c m) = c;
  status_Code_nil : status_Code None = codes_OK;
  Unimplemented_not_OK : codes_Unimplemented ≠ codes_OK;
  reported_code_Error c m e : status_Error c m = Some e → reported_code e = c;
  before_order :: PreOrder before;
}.

Section grpc.
Context `{GrpcLib}.

(** ** Effects *)

Definition go (A : Type) : Type := World → outcome A * World.

#[global] Instance go_ret : MRet go := λ A a w, (Returns a, w).
#[global] Instance go_bind : MBind go := λ A B f m w,
  match m w with
  | (Returns a, w') => f a w'
  | (Panics e, w') => (Panics e, w')
  end.
Definition panic {A} (e : err) : go A := λ w, (Panics e, w).

Lemma go_bind_returns {A B} (m : go A) (f : A → go B) w a w' :
  m w = (Returns a, w') → (m ≫= f) w = f a w'.
Proof. intros E. unfold mbind, go_bind. by rewrite E. Qed.

Lemma go_bind_inv {A B} (m : go A) (f : A → go B) w b w' :
  (m ≫= f) w = (Returns b, w') →
  ∃ a w1, m w = (Returns a, w1) ∧ f a w1 = (Returns b, w').
Proof. unfold mbind, go_bind. destruct (m w) as [[a|e] w1]; [by exists a, w1|done]. Qed.

(** ** Messages as dynamic values *)

Inductive msg_type :=
| THandshakeRequest | THandshakeResponse | THubStatusRequest | THubStatusResponse
| TGetRequest | TGetResponse | TMutationRequest | TMutationResponse.

#[global] Instance msg_type_eq_dec : EqDecision msg_type.
Proof. solve_decision. Defined.

Definition msg (t : msg_type) : Type :=
  match t with
  | THandshakeRequest => pb_HandshakeRequest | THandshakeResponse => pb_HandshakeResponse
  | THubStatusRequest => pb_HubStatusRequest | THubStatusResponse => pb_HubStatusResponse
  | TGetRequest => pb_GetRequest | TGetResponse => pb_GetResponse
  | TMutationRequest => pb_MutationRequest | TMutationResponse => pb_MutationResponse
  end.

(** [new(T)]: a pointer to the zero message. *)
Definition new (t : msg_type) : msg t :=
  match t with
  | THandshakeRequest => mk_pb_HandshakeRequest 0 0 "" 0
  | THandshakeResponse => mk_pb_HandshakeResponse 0 0 0 0 false ""
  | THubStatusRequest => mk_pb_HubStatusRequest 0
  | THubStatusResponse => mk_pb_HubStatusResponse 0 0 false 0
  | TGetRequest => mk_pb_GetRequest [] None 0
  | TGetResponse => mk_pb_GetResponse 0 0 None [] 0 0
  | TMutationRequest => mk_pb_MutationRequest 0 [] [] 0 None 0 0 0 0 0
  | TMutationResponse => mk_pb_MutationResponse 0 0 None
  end.

Inductive any :=
| AnyNil
| AnyPtr (t : msg_type) (p : option (msg t)).

(** The type assertion [a.( *T )]. *)
Definition assert_ptr (t : msg_type) (a : any) : option (option (msg t)) :=
  match a with
  | AnyNil => None
  | AnyPtr t' p =>
      match decide (t' = t) with
      | left e => Some (eq_rect t' (λ u, option (msg u)) p t e)
      | right _ => None
      end
  end.

Definition type_assertion_failed : err :=
  New "runtime.TypeAssertionError" "interface conversion".

Definition assert_msg (t : msg_type) (a : any) : go (option (msg t)) :=
  match assert_ptr t a with Some p => mret p | None => panic type_assertion_failed end.

Lemma assert_ptr_same t p : assert_ptr t (AnyPtr t p) = Some p.
Proof. unfold assert_ptr. rewrite (decide_True_pi eq_refl). done. Qed.

Lemma assert_msg_same t p : assert_msg t (AnyPtr t p) = mret p.
Proof. unfold assert_msg. by rewrite assert_ptr_same. Qed.

Lemma AnyPtr_inj t p q : AnyPtr t p = AnyPtr t q → p = q.
Proof.
  intros E. apply (f_equal (assert_ptr t)) in E. rewrite !assert_ptr_same in E. congruence.
Qed.

(** ** The two service interfaces and dynamic servers *)

(** [grpc.GenericServerStream[ControlClientMessage, ControlServerMessage]] and
    its client counterpart wrap an untyped stream. *)
Record GenericServerStream := mkGenericServerStream { gss_ServerStream : ServerStream }.
Record GenericClientStream := mkGenericClientStream { gcs_ClientStream : ClientStream }.

Record DataServer := mkDataServer {
  ds_Handshake : Ctx → option pb_HandshakeRequest → go (option pb_HandshakeResponse * error);
  ds_HubStatus : Ctx → option pb_HubStatusRequest → go (option pb_HubStatusResponse * error);
  ds_Get : Ctx → option pb_GetRequest → go (option pb_GetResponse * error);
  ds_Mutate : Ctx → option pb_MutationRequest → go (option pb_MutationResponse * error);
  ds_mustEmbedUnimplementedDataServer : go unit }.

Record ControlServer := mkControlServer {
  cs_Connect : GenericServerStream → go error;
  cs_mustEmbedUnimplementedControlServer : go unit }.

(** A server held in an [interface{}]: what the type assertions of the stubs
    find in its method set. *)
Record service := mkService {
  as_DataServer : option DataServer;
  as_ControlServer : option ControlServer;
  as_testEmbeddedByValue : option (go unit) }.

Definition assert_server {S} (as_S : service → option S) (srv : service) : go S :=
  match as_S srv with Some s => mret s | None => panic type_assertion_failed end.

(** ** Descriptions of services, connections, registrars *)

Record UnaryServerInfo := mkUnaryServerInfo { usi_Server : service; usi_FullMethod : string }.

Definition UnaryHandler : Type := Ctx → any → go (any * error).
Definition UnaryServerInterceptor : Type :=
  Ctx → any → UnaryServerInfo → UnaryHandler → go (any * error).

(** [dec t m]: the decoder called on a pointer to a message [m] of type [t]
    returns the new content of the message and an error. *)
Definition decoder : Type := ∀ t, msg t → go (msg t * error).

Record MethodDesc := mkMethodDesc {
  md_MethodName : string;
  md_Handler : service → Ctx → decoder → option UnaryServerInterceptor → go (any * error) }.

Record StreamDesc := mkStreamDesc {
  sd_StreamName : string;
  sd_Handler : service → ServerStream → go error;
  sd_ServerStreams : bool;
  sd_ClientStreams : bool }.

(** The interface type of a [HandlerType] field, [( *T )(nil)]. *)
Inductive interface := IDataServer | IControlServer.

Record ServiceDesc := mkServiceDesc {
  svc_ServiceName : string;
  svc_HandlerType : interface;
  svc_Methods : list MethodDesc;
  svc_Streams : list StreamDesc;
  svc_Metadata : string }.

(** [Invoke ctx method args t reply opts]: the call with the message [args],
    the reply being a pointer to a message [reply] of type [t]; it returns the
    new content of the reply and an error.  [NewStream] returns a stream, which
    is meaningful when there is no error. *)
Record ClientConnInterface := mkClientConn {
  cc_Invoke : Ctx → string → any → ∀ t, msg t → list CallOption → go (msg t * error);
  cc_NewStream : Ctx → StreamDesc → string → list CallOption → go (ClientStream * error) }.

Record ServiceRegistrar := mkRegistrar {
  reg_RegisterService : ServiceDesc → service → go unit }.
End grpc.
