(* ===== verification/GrpcData.v ===== *)
(** * The stubs of the Data service (api/gen/gossipcache/v1/data_grpc.pb.go)

    The client methods, the server interface with its unimplemented default,
    the handlers that decode a request and run it through an optional
    interceptor, and the service description that names them. *)

From S2P Require Import Prelude GoErrors PbCommon PbControl PbData GrpcLib.

Section data_stubs.
Context `{GrpcLib}.

(** ** Method names *)
Definition Data_Handshake_FullMethodName : string := "/gossipcache.v1.Data/Handshake".
Definition Data_HubStatus_FullMethodName : string := "/gossipcache.v1.Data/HubStatus".
Definition Data_Get_FullMethodName : string := "/gossipcache.v1.Data/Get".
Definition Data_Mutate_FullMethodName : string := "/gossipcache.v1.Data/Mutate".

(** ** Client *)
Record DataClient := mkDataClient {
  dc_Handshake : Ctx → option pb_HandshakeRequest → list CallOption →
    go (option pb_HandshakeResponse * error);
  dc_HubStatus : Ctx → option pb_HubStatusRequest → list CallOption →
    go (option pb_HubStatusResponse * error);
  dc_Get : Ctx → option pb_GetRequest → list CallOption →
    go (option pb_GetResponse * error);
  dc_Mutate : Ctx → option pb_MutationRequest → list CallOption →
    go (option pb_MutationResponse * error) }.

Record dataClient := mk_dataClient { dataClient_cc : ClientConnInterface }.

Definition dataClient_Handshake (c : dataClient) (ctx : Ctx) (in_ : option pb_HandshakeRequest)
    (opts : list CallOption) : go (option pb_HandshakeResponse * error) :=
  let cOpts := [StaticMethod] ++ opts in
  let out : msg THandshakeResponse := new THandshakeResponse in
  '(out, err) ← cc_Invoke (dataClient_cc c) ctx Data_Handshake_FullMethodName
                  (AnyPtr THandshakeRequest in_) THandshakeResponse out cOpts;
  match err with
  | Some e => mret (None, Some e)
  | None => mret (Some out, None)
  end.

Definition dataClient_HubStatus (c : dataClient) (ctx : Ctx) (in_ : option pb_HubStatusRequest)
    (opts : list CallOption) : go (option pb_HubStatusResponse * error) :=
  let cOpts := [StaticMethod] ++ opts in
  let out : msg THubStatusResponse := new THubStatusResponse in
  '(out, err) ← cc_Invoke (dataClient_cc c) ctx Data_HubStatus_FullMethodName
                  (AnyPtr THubStatusRequest in_) THubStatusResponse out cOpts;
  match err with
  | Some e => mret (None, Some e)
  | None => mret (Some out, None)
  end.

Definition dataClient_Get (c : dataClient) (ctx : Ctx) (in_ : option pb_GetRequest)
    (opts : list CallOption) : go (option pb_GetResponse * error) :=
  let cOpts := [StaticMethod] ++ opts in
  let out : msg TGetResponse := new TGetResponse in
  '(out, err) ← cc_Invoke (dataClient_cc c) ctx Data_Get_FullMethodName
                  (AnyPtr TGetRequest in_) TGetResponse out cOpts;
  match err with
  | Some e => mret (None, Some e)
  | None => mret (Some out, None)
  end.

Definition dataClient_Mutate (c : dataClient) (ctx : Ctx) (in_ : option pb_MutationRequest)
    (opts : list CallOption) : go (option pb_MutationResponse * error) :=
  let cOpts := [StaticMethod] ++ opts in
  let out : msg TMutationResponse := new TMutationResponse in
  '(out, err) ← cc_Invoke (dataClient_cc c) ctx Data_Mutate_FullMethodName
                  (AnyPtr TMutationRequest in_) TMutationResponse out cOpts;
  match err with
  | Some e => mret (None, Some e)
  | None => mret (Some out, None)
  end.

Definition NewDataClient (cc : ClientConnInterface) : DataClient :=
  let c := mk_dataClient cc in
  {| dc_Handshake := dataClient_Handshake c;
     dc_HubStatus := dataClient_HubStatus c;
     dc_Get := dataClient_Get c;
     dc_Mutate := dataClient_Mutate c |}.

(** ** Server *)

(** What [UnimplementedDataServer] answers. *)
Definition UnimplementedDataServer_Handshake (ctx : Ctx) (in_ : option pb_HandshakeRequest) :
    go (option pb_HandshakeResponse * error) :=
  mret (None, status_Error codes_Unimplemented "method Handshake not implemented").
Definition UnimplementedDataServer_HubStatus (ctx : Ctx) (in_ : option pb_HubStatusRequest) :
    go (option pb_HubStatusResponse * error) :=
  mret (None, status_Error codes_Unimplemented "method HubStatus not implemented").
Definition UnimplementedDataServer_Get (ctx : Ctx) (in_ : option pb_GetRequest) :
    go (option pb_GetResponse * error) :=
  mret (None, status_Error codes_Unimplemented "method Get not implemented").
Definition UnimplementedDataServer_Mutate (ctx : Ctx) (in_ : option pb_MutationRequest) :
    go (option pb_MutationResponse * error) :=
  mret (None, status_Error codes_Unimplemented "method Mutate not implemented").
Definition UnimplementedDataServer_mustEmbedUnimplementedDataServer : go unit := mret tt.
Definition UnimplementedDataServer_testEmbeddedByValue : go unit := mret tt.

Definition UnimplementedDataServer : DataServer :=
  {| ds_Handshake := UnimplementedDataServer_Handshake;
     ds_HubStatus := UnimplementedDataServer_HubStatus;
     ds_Get := UnimplementedDataServer_Get;
     ds_Mutate := UnimplementedDataServer_Mutate;
     ds_mustEmbedUnimplementedDataServer :=
       UnimplementedDataServer_mustEmbedUnimplementedDataServer |}.

(** A result of a method of the server as the result of a handler: the pointer,
    nil or not, becomes a non-nil [interface{}]. *)
Definition box {t : msg_type} (r : go (option (msg t) * error)) : go (any * error) :=
  '(p, e) ← r; mret (AnyPtr t p, e).

Definition Data_Handshake_Handler (srv : service) (ctx : Ctx) (dec : decoder)
    (interceptor : option UnaryServerInterceptor) : go (any * error) :=
  '(in_, err) ← dec THandshakeRequest (new THandshakeRequest);
  match err with
  | Some e => mret (AnyNil, Some e)
  | None =>
      match interceptor with
      | None =>
          s ← assert_server as_DataServer srv;
          box (t := THandshakeResponse) (ds_Handshake s ctx (Some in_))
      | Some interceptor =>
          let info := {| usi_Server := srv; usi_FullMethod := Data_Handshake_FullMethodName |} in
          let handler : UnaryHandler := λ ctx req,
            s ← assert_server as_DataServer srv;
            r ← assert_msg THandshakeRequest req;
            box (t := THandshakeResponse) (ds_Handshake s ctx r) in
          interceptor ctx (AnyPtr THandshakeRequest (Some in_)) info handler
      end
  end.

Definition Data_HubStatus_Handler (srv : service) (ctx : Ctx) (dec : decoder)
    (interceptor : option UnaryServerInterceptor) : go (any * error) :=
  '(in_, err) ← dec THubStatusRequest (new THubStatusRequest);
  match err with
  | Some e => mret (AnyNil, Some e)
  | None =>
      match interceptor with
      | None =>
          s ← assert_server as_DataServer srv;
          box (t := THubStatusResponse) (ds_HubStatus s ctx (Some in_))
      | Some interceptor =>
          let info := {| usi_Server := srv; usi_FullMethod := Data_HubStatus_FullMethodName |} in
          let handler : UnaryHandler := λ ctx req,
            s ← assert_server as_DataServer srv;
            r ← assert_msg THubStatusRequest req;
            box (t := THubStatusResponse) (ds_HubStatus s ctx r) in
          interceptor ctx (AnyPtr THubStatusRequest (Some in_)) info handler
      end
  end.

Definition Data_Get_Handler (srv : service) (ctx : Ctx) (dec : decoder)
    (interceptor : option UnaryServerInterceptor) : go (any * error) :=
  '(in_, err) ← dec TGetRequest (new TGetRequest);
  match err with
  | Some e => mret (AnyNil, Some e)
  | None =>
      match interceptor with
      | None =>
          s ← assert_server as_DataServer srv;
          box (t := TGetResponse) (ds_Get s ctx (Some in_))
      | Some interceptor =>
          let info := {| usi_Server := srv; usi_FullMethod := Data_Get_FullMethodName |} in
          let handler : UnaryHandler := λ ctx req,
            s ← assert_server as_DataServer srv;
            r ← assert_msg TGetRequest req;
            box (t := TGetResponse) (ds_Get s ctx r) in
          interceptor ctx (AnyPtr TGetRequest (Some in_)) info handler
      end
  end.

Definition Data_Mutate_Handler (srv : service) (ctx : Ctx) (dec : decoder)
    (interceptor : option UnaryServerInterceptor) : go (any * error) :=
  '(in_, err) ← dec TMutationRequest (new TMutationRequest);
  match err with
  | Some e => mret (AnyNil, Some e)
  | None =>
      match interceptor with
      | None =>
          s ← assert_server as_DataServer srv;
          box (t := TMutationResponse) (ds_Mutate s ctx (Some in_))
      | Some interceptor =>
          let info := {| usi_Server := srv; usi_FullMethod := Data_Mutate_FullMethodName |} in
          let handler : UnaryHandler := λ ctx req,
            s ← assert_server as_DataServer srv;
            r ← assert_msg TMutationRequest req;
            box (t := TMutationResponse) (ds_Mutate s ctx r) in
          interceptor ctx (AnyPtr TMutationRequest (Some in_)) info handler
      end
  end.

Definition Data_ServiceDesc : ServiceDesc :=
  {| svc_ServiceName := "gossipcache.v1.Data";
     svc_HandlerType := IDataServer;
     svc_Methods :=
       [{| md_MethodName := "Handshake"; md_Handler := Data_Handshake_Handler |};
        {| md_MethodName := "HubStatus"; md_Handler := Data_HubStatus_Handler |};
        {| md_MethodName := "Get"; md_Handler := Data_Get_Handler |};
        {| md_MethodName := "Mutate"; md_Handler := Data_Mutate_Handler |}];
     svc_Streams := [];
     svc_Metadata := "gossipcache/v1/data.proto" |}.

Definition RegisterDataServer (s : ServiceRegistrar) (srv : service) : go unit :=
  match as_testEmbeddedByValue srv with
  | Some testEmbeddedByValue =>
      testEmbeddedByValue ;; reg_RegisterService s Data_ServiceDesc srv
  | None => reg_RegisterService s Data_ServiceDesc srv
  end.
End data_stubs.
