(* ===== verification/GrpcControl.v ===== *)
(** * The stubs of the Control service (api/gen/gossipcache/v1/control_grpc.pb.go)

    One method, [Connect], a stream in both directions: the client opens it by
    the first stream of the service description, and the handler gives the
    server the typed stream. *)

From S2P Require Import Prelude GoErrors PbCommon PbControl PbData GrpcLib.

Section control_stubs.
Context `{GrpcLib}.

(** ** Description *)
Definition Control_Connect_FullMethodName : string := "/gossipcache.v1.Control/Connect".

Definition Control_Connect_Handler (srv : service) (stream : ServerStream) : go error :=
  s ← assert_server as_ControlServer srv;
  cs_Connect s {| gss_ServerStream := stream |}.

Definition Control_ServiceDesc : ServiceDesc :=
  {| svc_ServiceName := "gossipcache.v1.Control";
     svc_HandlerType := IControlServer;
     svc_Methods := [];
     svc_Streams :=
       [{| sd_StreamName := "Connect"; sd_Handler := Control_Connect_Handler;
           sd_ServerStreams := true; sd_ClientStreams := true |}];
     svc_Metadata := "gossipcache/v1/control.proto" |}.

(** ** Client *)
Definition Control_ConnectClient : Type := GenericClientStream.

Record ControlClient := mkControlClient {
  ctl_Connect : Ctx → list CallOption → go (option Control_ConnectClient * error) }.

Record controlClient := mk_controlClient { controlClient_cc : ClientConnInterface }.

(** An index out of the range of [Streams] would panic. *)
Definition index_out_of_range : err := New "runtime.boundsError" "index out of range".

Definition controlClient_Connect (c : controlClient) (ctx : Ctx) (opts : list CallOption) :
    go (option Control_ConnectClient * error) :=
  let cOpts := [StaticMethod] ++ opts in
  match svc_Streams Control_ServiceDesc !! 0%nat with
  | None => panic index_out_of_range
  | Some desc =>
      '(stream, err) ← cc_NewStream (controlClient_cc c) ctx desc
                         Control_Connect_FullMethodName cOpts;
      match err with
      | Some e => mret (None, Some e)
      | None =>
          let x := {| gcs_ClientStream := stream |} in
          mret (Some x, None)
      end
  end.

Definition NewControlClient (cc : ClientConnInterface) : ControlClient :=
  let c := mk_controlClient cc in
  {| ctl_Connect := controlClient_Connect c |}.

(** ** Server *)
Definition Control_ConnectServer : Type := GenericServerStream.

Definition UnimplementedControlServer_Connect (stream : Control_ConnectServer) : go error :=
  mret (status_Error codes_Unimplemented "method Connect not implemented").
Definition UnimplementedControlServer_mustEmbedUnimplementedControlServer : go unit := mret tt.
Definition UnimplementedControlServer_testEmbeddedByValue : go unit := mret tt.

Definition UnimplementedControlServer : ControlServer :=
  {| cs_Connect := UnimplementedControlServer_Connect;
     cs_mustEmbedUnimplementedControlServer :=
       UnimplementedControlServer_mustEmbedUnimplementedControlServer |}.

Definition RegisterControlServer (s : ServiceRegistrar) (srv : service) : go unit :=
  match as_testEmbeddedByValue srv with
  | Some testEmbeddedByValue =>
      testEmbeddedByValue ;; reg_RegisterService s Control_ServiceDesc srv
  | None => reg_RegisterService s Control_ServiceDesc srv
  end.
End control_stubs.
