(* ===== verification/GrpcCalls.v ===== *)
(** * Calls through the stubs of the Data service

    What the four methods of the Data service have in common: a client call
    is [unary_call] and a handler is [unary_handler], whatever the method.  The
    rest of the file shows that the tables of the generated code agree: a call
    made through the client stub of a method runs that method of the registered
    server, on the message sent, and returns its answer.

    The gRPC runtime between the two is a parameter; what is documented of it
    is stated as the properties [dispatches], of any network, and [lossless], of
    one without faults, which hold of the in-process connection
    [loop_connection].  Messages travel in the wire format of [PbMessages]: what
    it cannot carry ([carriable]) makes a call fail. *)

From S2P Require Import Prelude GoErrors PbCommon PbControl PbData PbWire PbEncoding PbMessages.
From S2P Require Import GrpcLib GrpcData GrpcControl.

Inductive data_rpc := RHandshake | RHubStatus | RGet | RMutate.

#[export] Instance data_rpc_eq_dec : EqDecision data_rpc.
Proof. solve_decision. Defined.

Definition rpc_in (r : data_rpc) : msg_type :=
  match r with
  | RHandshake => THandshakeRequest | RHubStatus => THubStatusRequest
  | RGet => TGetRequest | RMutate => TMutationRequest
  end.
Definition rpc_out (r : data_rpc) : msg_type :=
  match r with
  | RHandshake => THandshakeResponse | RHubStatus => THubStatusResponse
  | RGet => TGetResponse | RMutate => TMutationResponse
  end.

#[export] Instance msg_typed (t : msg_type) : GoTyped (msg t) :=
  match t with
  | THandshakeRequest => pb_HandshakeRequest_typed | THandshakeResponse => pb_HandshakeResponse_typed
  | THubStatusRequest => pb_HubStatusRequest_typed | THubStatusResponse => pb_HubStatusResponse_typed
  | TGetRequest => pb_GetRequest_typed | TGetResponse => pb_GetResponse_typed
  | TMutationRequest => pb_MutationRequest_typed | TMutationResponse => pb_MutationResponse_typed
  end.

#[export] Instance msg_wire `{FormatRules} (t : msg_type) : Wire (msg t) :=
  match t with
  | THandshakeRequest => HandshakeRequest_wire | THandshakeResponse => HandshakeResponse_wire
  | THubStatusRequest => HubStatusRequest_wire | THubStatusResponse => HubStatusResponse_wire
  | TGetRequest => GetRequest_wire | TGetResponse => GetResponse_wire
  | TMutationRequest => MutationRequest_wire | TMutationResponse => MutationResponse_wire
  end.

Section calls.
Context `{GrpcLib} `{FormatRules}.

(** ** The code of one method, by its name *)

Definition client_call (r : data_rpc) (c : DataClient) :
    Ctx → option (msg (rpc_in r)) → list CallOption → go (option (msg (rpc_out r)) * error) :=
  match r with
  | RHandshake => dc_Handshake c | RHubStatus => dc_HubStatus c
  | RGet => dc_Get c | RMutate => dc_Mutate c
  end.

Definition server_method (r : data_rpc) (s : DataServer) :
    Ctx → option (msg (rpc_in r)) → go (option (msg (rpc_out r)) * error) :=
  match r with
  | RHandshake => ds_Handshake s | RHubStatus => ds_HubStatus s
  | RGet => ds_Get s | RMutate => ds_Mutate s
  end.

Definition full_method_name (r : data_rpc) : string :=
  match r with
  | RHandshake => Data_Handshake_FullMethodName | RHubStatus => Data_HubStatus_FullMethodName
  | RGet => Data_Get_FullMethodName | RMutate => Data_Mutate_FullMethodName
  end.

Definition method_handler (r : data_rpc) :
    service → Ctx → decoder → option UnaryServerInterceptor → go (any * error) :=
  match r with
  | RHandshake => Data_Handshake_Handler | RHubStatus => Data_HubStatus_Handler
  | RGet => Data_Get_Handler | RMutate => Data_Mutate_Handler
  end.

(** ** The common shape *)

Definition unary_call (cc : ClientConnInterface) (full : string) (tin tout : msg_type)
    (ctx : Ctx) (in_ : option (msg tin)) (opts : list CallOption) :
    go (option (msg tout) * error) :=
  '(out, err) ← cc_Invoke cc ctx full (AnyPtr tin in_) tout (new tout) ([StaticMethod] ++ opts);
  match err with
  | Some e => mret (None, Some e)
  | None => mret (Some out, None)
  end.

Definition unary_handler (tin tout : msg_type) (full : string)
    (method : DataServer → Ctx → option (msg tin) → go (option (msg tout) * error))
    (srv : service) (ctx : Ctx) (dec : decoder) (interceptor : option UnaryServerInterceptor) :
    go (any * error) :=
  '(in_, err) ← dec tin (new tin);
  match err with
  | Some e => mret (AnyNil, Some e)
  | None =>
      match interceptor with
      | None => s ← assert_server as_DataServer srv; box (method s ctx (Some in_))
      | Some i =>
          i ctx (AnyPtr tin (Some in_)) {| usi_Server := srv; usi_FullMethod := full |}
            (λ ctx req,
              s ← assert_server as_DataServer srv;
              p ← assert_msg tin req;
              box (method s ctx p))
      end
  end.

Lemma client_call_unary r cc :
  client_call r (NewDataClient cc) = unary_call cc (full_method_name r) (rpc_in r) (rpc_out r).
Proof. by destruct r. Qed.

Lemma method_handler_unary r :
  method_handler r = unary_handler (rpc_in r) (rpc_out r) (full_method_name r) (server_method r).
Proof. by destruct r. Qed.

(** ** The gRPC runtime *)

(** [/service/method], the path of a method on the wire. *)
Definition full_method (desc : ServiceDesc) (name : string) : string :=
  "/" +:+ svc_ServiceName desc +:+ "/" +:+ name.

Definition serves (served : list (ServiceDesc * service)) (path : string) (md : MethodDesc)
    (srv : service) : Prop :=
  ∃ desc, (desc, srv) ∈ served ∧ md ∈ svc_Methods desc ∧ path = full_method desc (md_MethodName md).

(** The decoder of a call that carries [m]: it fills a new message with it. *)
Definition decodes (dec : decoder) {t} (m : msg t) : Prop :=
  ∀ w, dec t (new t) w = (Returns (m, None), w).

(** A nil message is sent as an empty one. *)
Definition sent {t} (p : option (msg t)) : msg t := default (new t) p.

Lemma sent_Some {t} (m : msg t) : sent (Some m) = m.
Proof. done. Qed.

(** The reply [a] that arrives when a handler returns [b]. *)
Definition delivers (b : any) {t} (a : msg t) : Prop := ∀ p, b = AnyPtr t p → a = sent p.

(** A connection, over any network, to a server with the interceptor [i]: a call
    that succeeds has run the handler registered for its path, while the call
    lasted, with a decoder of the message sent and the interceptor of the
    server, and returns the answer of the handler.  Nothing is said of a call
    that fails. *)
Definition dispatches (cc : ClientConnInterface) (served : list (ServiceDesc * service))
    (i : option UnaryServerInterceptor) : Prop :=
  ∀ ctx path tin (m : option (msg tin)) tout out opts w (a : msg tout) w',
    cc_Invoke cc ctx path (AnyPtr tin m) tout out opts w = (Returns (a, None), w') →
    ∃ md srv ctx' dec w1 w2 b,
      serves served path md srv ∧ decodes dec (sent m) ∧ before w w1 ∧ before w2 w' ∧
      md_Handler md srv ctx' dec i w1 = (Returns (b, None), w2) ∧ delivers b a.

(** What can be sent over a connection whose messages have at most [limit]
    bytes: fields in their ranges, strings that are valid UTF-8. *)
Definition carriable (limit : Z) {t} (m : msg t) : Prop := w_ok m ∧ len (marshal m) <= limit.

(** A connection over a network without faults, to a server without
    interceptors, for calls that are not cancelled and whose deadline does not
    pass: a call to a registered method with a message that can be sent runs its
    handler, once, in a context derived from the caller's, and returns its
    answer, if that can be sent; an error of the handler arrives with the code
    with which the server reports it. *)
Definition lossless (cc : ClientConnInterface) (served : list (ServiceDesc * service))
    (server_ctx : Ctx → Ctx) (limit : Z) : Prop :=
  ∀ path md srv ctx tin (m : option (msg tin)) tout out opts w,
    serves served path md srv → carriable limit (sent m) →
    ∃ dec, decodes dec (sent m) ∧
      (∀ (a : option (msg tout)) w',
         md_Handler md srv (server_ctx ctx) dec None w = (Returns (AnyPtr tout a, None), w') →
         carriable limit (sent a) →
         cc_Invoke cc ctx path (AnyPtr tin m) tout out opts w = (Returns (sent a, None), w')) ∧
      (∀ b e w',
         md_Handler md srv (server_ctx ctx) dec None w = (Returns (b, Some e), w') →
         ∃ out' e', status_Code (Some e') = reported_code e ∧
           cc_Invoke cc ctx path (AnyPtr tin m) tout out opts w =
             (Returns (out', Some e'), w')).

(** ** Lemmas *)

Lemma unary_call_success cc full tin tout ctx in_ opts w p w' :
  unary_call cc full tin tout ctx in_ opts w = (Returns (p, None), w') →
  ∃ a, p = Some a ∧
    cc_Invoke cc ctx full (AnyPtr tin in_) tout (new tout) ([StaticMethod] ++ opts) w =
      (Returns (a, None), w').
Proof.
  unfold unary_call. intros ([a [e|]] & w1 & Hcall & Hret)%go_bind_inv; [done|].
  injection Hret as <- <-. by exists a.
Qed.

Lemma box_returns {t} (m : go (option (msg t) * error)) w p e w' :
  m w = (Returns (p, e), w') → box m w = (Returns (AnyPtr t p, e), w').
Proof. intros Hm. unfold box. by rewrite (go_bind_returns _ _ _ _ _ Hm). Qed.

Lemma assert_server_inv {S} (as_S : service → option S) srv {B} (f : S → go B) w b w' :
  (assert_server as_S srv ≫= f) w = (Returns b, w') →
  ∃ s, as_S srv = Some s ∧ f s w = (Returns b, w').
Proof.
  unfold assert_server. intros (s & w1 & Hs & Hf)%go_bind_inv.
  destruct (as_S srv) as [s1|]; [|discriminate Hs]. injection Hs as <- <-. by exists s1.
Qed.

(** What a handler gives to an interceptor: the method of the server, on the
    request that the interceptor passes on. *)
Definition continuation (r : data_rpc) (srv : service) : UnaryHandler := λ ctx req,
  s ← assert_server as_DataServer srv;
  p ← assert_msg (rpc_in r) req;
  box (server_method r s ctx p).

Definition call_info (r : data_rpc) (srv : service) : UnaryServerInfo :=
  {| usi_Server := srv; usi_FullMethod := full_method_name r |}.

(** The answer to the decoded request [q] of a server with the interceptor [i]. *)
Definition answer (r : data_rpc) (srv : service) (i : option UnaryServerInterceptor) (ctx : Ctx)
    (q : msg (rpc_in r)) : go (any * error) :=
  match i with
  | None => s ← assert_server as_DataServer srv; box (server_method r s ctx (Some q))
  | Some i => i ctx (AnyPtr (rpc_in r) (Some q)) (call_info r srv) (continuation r srv)
  end.

Lemma method_handler_answers r srv ctx (dec : decoder) i (q : msg (rpc_in r)) w w' :
  dec (rpc_in r) (new (rpc_in r)) w = (Returns (q, None), w') →
  method_handler r srv ctx dec i w = answer r srv i ctx q w'.
Proof.
  intros Hdec. rewrite method_handler_unary. unfold unary_handler.
  rewrite (go_bind_returns _ _ _ _ _ Hdec). by destruct i.
Qed.

(** The continuation runs the method of its server on a request of the method,
    and panics on any other. *)
Lemma continuation_runs r srv s :
  as_DataServer srv = Some s →
  (∀ ctx p w, continuation r srv ctx (AnyPtr (rpc_in r) p) w = box (server_method r s ctx p) w) ∧
  (∀ ctx t p w, t ≠ rpc_in r →
     continuation r srv ctx (AnyPtr t p) w = (Panics type_assertion_failed, w)).
Proof.
  intros Hs. unfold continuation, assert_server. rewrite Hs. split.
  - intros ctx p w. by rewrite assert_msg_same.
  - intros ctx t p w Ht. unfold assert_msg, assert_ptr.
    by destruct (decide (t = rpc_in r)).
Qed.

Lemma direct_answer r srv ctx (q : msg (rpc_in r)) w b e w' :
  answer r srv None ctx q w = (Returns (b, e), w') →
  ∃ s a, as_DataServer srv = Some s ∧ b = AnyPtr (rpc_out r) a ∧
    server_method r s ctx (Some q) w = (Returns (a, e), w').
Proof.
  intros (s & Hs & Hbox)%assert_server_inv.
  unfold box in Hbox. apply go_bind_inv in Hbox as ([a e1] & w1 & Hm & Hret).
  injection Hret as <- <- <-. by exists s, a.
Qed.

(** The two servers of a hub. *)
Definition hub_services (data control : service) : list (ServiceDesc * service) :=
  [(Data_ServiceDesc, data); (Control_ServiceDesc, control)].

(** The tables agree: the path of a client method is that of exactly one
    registered method, whose handler is the one of that method. *)
Lemma serves_method data control r md srv :
  serves (hub_services data control) (full_method_name r) md srv ↔
  srv = data ∧ md ∈ svc_Methods Data_ServiceDesc ∧ md_Handler md = method_handler r ∧
  full_method_name r = full_method Data_ServiceDesc (md_MethodName md).
Proof.
  split.
  - intros (desc & Hd & Hm & Hpath). unfold hub_services in Hd.
    rewrite !elem_of_cons, elem_of_nil in Hd. destruct Hd as [[= -> ->]|[[= -> ->]|[]]];
      [|by apply not_elem_of_nil in Hm].
    split_and!; [done..| |done].
    cbn [svc_Methods Data_ServiceDesc] in Hm. rewrite !elem_of_cons, elem_of_nil in Hm.
    destruct Hm as [->|[->|[->|[->|[]]]]]; destruct r; first [reflexivity|discriminate Hpath].
  - intros (-> & Hm & Hh & Hpath). exists Data_ServiceDesc.
    split_and!; [apply list_elem_of_here|done|done].
Qed.

Definition rpc_name (r : data_rpc) : string :=
  match r with
  | RHandshake => "Handshake" | RHubStatus => "HubStatus" | RGet => "Get" | RMutate => "Mutate"
  end.

Lemma method_served data control r :
  serves (hub_services data control) (full_method_name r)
    {| md_MethodName := rpc_name r; md_Handler := method_handler r |} data.
Proof.
  exists Data_ServiceDesc. split_and!; [apply list_elem_of_here| |by destruct r].
  destruct r; cbn [svc_Methods Data_ServiceDesc]; repeat (apply list_elem_of_here || apply list_elem_of_further).
Qed.

(** Registering a server: a server whose embedded [UnimplementedDataServer] is
    a nil pointer panics before anything is registered; any other is registered
    under the description of the service. *)
Lemma RegisterDataServer_spec s srv w :
  (∀ check e w', as_testEmbeddedByValue srv = Some check → check w = (Panics e, w') →
     RegisterDataServer s srv w = (Panics e, w')) ∧
  (as_testEmbeddedByValue srv = None ∨
   as_testEmbeddedByValue srv = Some UnimplementedDataServer_testEmbeddedByValue →
     RegisterDataServer s srv w = reg_RegisterService s Data_ServiceDesc srv w).
Proof.
  unfold RegisterDataServer. split.
  - intros check e w' -> Hc. unfold mbind, go_bind. by rewrite Hc.
  - by intros [-> | ->].
Qed.

(** ** An in-process connection *)

Definition loop_decoder (in_ : any) : decoder := λ t z,
  match assert_ptr t in_ with
  | Some (Some m) => mret (m, None)
  | Some None => mret (z, None)
  | None => mret (z, status_Error codes_Unimplemented "cannot decode")
  end.

Definition loop_connection (data : service) : ClientConnInterface :=
  {| cc_Invoke := λ ctx path in_ tout out _,
       match List.find (λ md, String.eqb path (full_method Data_ServiceDesc (md_MethodName md)))
               (svc_Methods Data_ServiceDesc) with
       | None => mret (out, status_Error codes_Unimplemented "unknown method")
       | Some md =>
           '(b, err) ← md_Handler md data ctx (loop_decoder in_) None;
           match err with
           | Some e => mret (out, Some e)
           | None =>
               match assert_ptr tout b with
               | Some p => mret (sent p, None)
               | None => panic type_assertion_failed
               end
           end
       end;
     cc_NewStream := λ _ _ _ _, panic type_assertion_failed |}.

Lemma loop_decodes {t} (m : option (msg t)) : decodes (loop_decoder (AnyPtr t m)) (sent m).
Proof. intros w. unfold loop_decoder. rewrite assert_ptr_same. by destruct m. Qed.

Lemma assert_ptr_inv t a p : assert_ptr t a = Some p → a = AnyPtr t p.
Proof.
  destruct a as [|t' q]; [done|]. unfold assert_ptr.
  destruct (decide (t' = t)) as [->|]; [|done]. cbn. by intros [= ->].
Qed.

Lemma loop_find path md :
  md ∈ svc_Methods Data_ServiceDesc → path = full_method Data_ServiceDesc (md_MethodName md) →
  List.find (λ md, String.eqb path (full_method Data_ServiceDesc (md_MethodName md)))
    (svc_Methods Data_ServiceDesc) = Some md.
Proof.
  cbn [svc_Methods Data_ServiceDesc]. rewrite !elem_of_cons, elem_of_nil.
  by intros [->|[->|[->|[->|[]]]]] ->.
Qed.

(** In process, where errors are passed on as they are. *)
Lemma loop_lossless data control limit :
  (∀ e, status_Code (Some e) = reported_code e) →
  lossless (loop_connection data) (hub_services data control) id limit.
Proof.
  intros Hcode path md srv ctx tin m tout out opts w (desc & Hd & Hmd & Hpath) _.
  unfold hub_services in Hd. rewrite !elem_of_cons, elem_of_nil in Hd.
  destruct Hd as [[= -> ->]|[[= -> ->]|[]]]; [|by apply not_elem_of_nil in Hmd].
  exists (loop_decoder (AnyPtr tin m)). split; [apply loop_decodes|].
  cbn [cc_Invoke loop_connection]. rewrite (loop_find path md Hmd Hpath). unfold id. split.
  - intros a w' Hh _. rewrite (go_bind_returns _ _ _ _ _ Hh). by rewrite assert_ptr_same.
  - intros b e w' Hh. exists out, e. split; [apply Hcode|]. by rewrite (go_bind_returns _ _ _ _ _ Hh).
Qed.

Lemma loop_dispatches `{!GrpcLaws} data control :
  dispatches (loop_connection data) (hub_services data control) None.
Proof.
  intros ctx path tin m tout out opts w a w' Hcall. cbn [cc_Invoke loop_connection] in Hcall.
  destruct (List.find _ _) as [md|] eqn:Hf.
  - apply List.find_some in Hf as [Hmd%list_elem_of_In Hpath%String.eqb_eq].
    apply go_bind_inv in Hcall as ([b [e|]] & w1 & Hh & Hret); [done|].
    destruct (assert_ptr tout b) as [p|] eqn:Hb; [|done].
    apply assert_ptr_inv in Hb as ->. injection Hret as <- <-.
    exists md, data, ctx, (loop_decoder (AnyPtr tin m)), w, w1, (AnyPtr tout p).
    split_and!; [|apply loop_decodes|reflexivity|reflexivity|done|by intros q ->%AnyPtr_inj].
    exists Data_ServiceDesc. split_and!; [apply list_elem_of_here|done|done].
  - injection Hcall as _ Hcode _. apply (f_equal status_Code) in Hcode.
    rewrite status_Code_Error, status_Code_nil in Hcode. by apply Unimplemented_not_OK in Hcode.
Qed.

(** ** Calls reach their method *)

(** A successful client call was answered by the server. *)
Lemma client_call_success r cc data control i ctx (m : option (msg (rpc_in r))) opts w p w' :
  dispatches cc (hub_services data control) i →
  client_call r (NewDataClient cc) ctx m opts w = (Returns (p, None), w') →
  ∃ a ctx' w1 w2 b, p = Some a ∧ before w w1 ∧ before w2 w' ∧
    answer r data i ctx' (sent m) w1 = (Returns (b, None), w2) ∧ delivers b a.
Proof.
  intros Hcc Hcall. rewrite client_call_unary in Hcall.
  apply unary_call_success in Hcall as (a & -> & Hinv).
  apply Hcc in Hinv as (md & srv & ctx' & dec & w1 & w2 & b & Hmd & Hdec & Hb1 & Hb2 & Hh & Ha).
  apply serves_method in Hmd as (-> & _ & Hmd & _).
  rewrite Hmd, (method_handler_answers _ _ _ _ _ _ _ _ (Hdec w1)) in Hh.
  by exists a, ctx', w1, w2, b.
Qed.

(** C18. A call that succeeds was answered by the method it names, and no other.
    Over any network, when the client stub of a method returns without error
    from a hub that serves the two services, the result is not nil.  If the hub
    has no interceptor, the same method of its server ran on the message sent,
    while the call lasted, and returned the result.  If it has one, whatever the
    interceptor does, it was given the message sent, the path of the method and
    a continuation that runs this method of this server and panics on a request
    of another method, and the result is what it returned. *)
Theorem data_calls_reach_their_method (r : data_rpc) cc data control i ctx
    (m : option (msg (rpc_in r))) opts w p w' :
  dispatches cc (hub_services data control) i →
  client_call r (NewDataClient cc) ctx m opts w = (Returns (p, None), w') →
  ∃ a ctx' w1 w2, p = Some a ∧ before w w1 ∧ before w2 w' ∧
    match i with
    | None => ∃ s a', as_DataServer data = Some s ∧
        server_method r s ctx' (Some (sent m)) w1 = (Returns (a', None), w2) ∧ a = sent a'
    | Some i => ∃ b,
        i ctx' (AnyPtr (rpc_in r) (Some (sent m)))
          {| usi_Server := data; usi_FullMethod := full_method_name r |} (continuation r data) w1 =
          (Returns (b, None), w2) ∧
        (∀ a', b = AnyPtr (rpc_out r) a' → a = sent a') ∧
        ∀ s, as_DataServer data = Some s →
          (∀ ctx q w, continuation r data ctx (AnyPtr (rpc_in r) q) w =
             box (server_method r s ctx q) w) ∧
          (∀ ctx t q w, t ≠ rpc_in r →
             continuation r data ctx (AnyPtr t q) w = (Panics type_assertion_failed, w))
    end.
Proof.
  intros Hcc Hcall.
  destruct (client_call_success r cc data control i ctx m opts w p w' Hcc Hcall)
    as (a & ctx' & w1 & w2 & b & -> & Hb1 & Hb2 & Hans & Hdel).
  exists a, ctx', w1, w2. split_and!; [done..|]. destruct i as [i|].
  - exists b. split_and!; [done|done|]. intros s Hs. by apply continuation_runs.
  - apply direct_answer in Hans as (s & a' & Hs & -> & Hm). exists s, a'.
    split_and!; [done..|]. by apply Hdel.
Qed.

(** A lossless call is the call of the method. *)
Lemma lossless_call r cc data control sc limit s ctx (m : option (msg (rpc_in r))) opts w :
  lossless cc (hub_services data control) sc limit → as_DataServer data = Some s →
  carriable limit (sent m) →
  (∀ a w', server_method r s (sc ctx) (Some (sent m)) w = (Returns (a, None), w') →
     carriable limit (sent a) →
     client_call r (NewDataClient cc) ctx m opts w = (Returns (Some (sent a), None), w')) ∧
  (∀ p e w', server_method r s (sc ctx) (Some (sent m)) w = (Returns (p, Some e), w') →
     ∃ e', status_Code (Some e') = reported_code e ∧
       client_call r (NewDataClient cc) ctx m opts w = (Returns (None, Some e'), w')).
Proof.
  intros Hcc Hs Hm. rewrite client_call_unary.
  destruct (Hcc _ _ _ ctx _ m _ (new (rpc_out r)) ([StaticMethod] ++ opts) w
    (method_served data control r) Hm) as (dec & Hdec & Hok & Hfail).
  cbn [md_Handler] in Hok, Hfail.
  rewrite (method_handler_answers _ _ _ _ _ _ _ _ (Hdec w)) in Hok, Hfail.
  unfold answer, assert_server in Hok, Hfail. rewrite Hs in Hok, Hfail.
  unfold unary_call. split.
  - intros a w' Hr Ha. apply box_returns in Hr. apply Hok in Hr; [|done].
    by rewrite (go_bind_returns _ _ _ _ _ Hr).
  - intros p e w' Hr. apply box_returns in Hr. apply Hfail in Hr as (out & e' & Hcode & Hinv).
    exists e'. split; [done|]. by rewrite (go_bind_returns _ _ _ _ _ Hinv).
Qed.

(** A method that the server inherits from [UnimplementedDataServer]. *)
Lemma unimplemented_method `{!GrpcLaws} r ctx q w :
  ∃ e, status_Code (Some e) = codes_Unimplemented ∧ reported_code e = codes_Unimplemented ∧
    server_method r UnimplementedDataServer ctx q w = (Returns (None, Some e), w).
Proof.
  assert (∀ text, ∃ e, status_Error codes_Unimplemented text = Some e ∧
      status_Code (Some e) = codes_Unimplemented ∧ reported_code e = codes_Unimplemented) as Herr.
  { intros text. pose proof (status_Code_Error codes_Unimplemented text) as Hc.
    destruct (status_Error _ text) as [e|] eqn:He;
      [exists e; split_and!; [done|done|by eapply reported_code_Error]|].
    rewrite status_Code_nil in Hc. by destruct Unimplemented_not_OK. }
  destruct r; cbn [server_method UnimplementedDataServer ds_Handshake ds_HubStatus ds_Get
    ds_Mutate]; unfold UnimplementedDataServer_Handshake, UnimplementedDataServer_HubStatus,
      UnimplementedDataServer_Get, UnimplementedDataServer_Mutate;
    match goal with |- context [status_Error _ ?t] =>
      destruct (Herr t) as (e & -> & He & Hr) end;
    by exists e.
Qed.

(** C19. Failing calls.  On the client, over any connection: a call fails exactly
    when the connection reports an error, with that error, a nil message and no
    other effect.  On the server, for any interceptor: a request that does not
    decode is answered with the decoder's error, and neither the interceptor nor
    the server runs; without interceptor an error of the method is passed on as
    it is, with the message next to it, and a server that does not implement the
    service makes the handler panic.  A method inherited from
    [UnimplementedDataServer] answers with the code Unimplemented and changes
    nothing; over a network without faults the client sees that code. *)
Theorem data_calls_fail_cleanly `{!GrpcLaws} (r : data_rpc) :
  (∀ cc ctx m opts w,
     client_call r (NewDataClient cc) ctx m opts w =
       match cc_Invoke cc ctx (full_method_name r) (AnyPtr (rpc_in r) m) (rpc_out r)
               (new (rpc_out r)) ([StaticMethod] ++ opts) w with
       | (Returns (_, Some e), w') => (Returns (None, Some e), w')
       | (Returns (out, None), w') => (Returns (Some out, None), w')
       | (Panics e, w') => (Panics e, w')
       end) ∧
  (∀ srv ctx (dec : decoder) i w z e w',
     dec (rpc_in r) (new (rpc_in r)) w = (Returns (z, Some e), w') →
     method_handler r srv ctx dec i w = (Returns (AnyNil, Some e), w')) ∧
  (∀ srv ctx (dec : decoder) w q w1,
     dec (rpc_in r) (new (rpc_in r)) w = (Returns (q, None), w1) →
     match as_DataServer srv with
     | None => method_handler r srv ctx dec None w = (Panics type_assertion_failed, w1)
     | Some s =>
         (∀ p e w', server_method r s ctx (Some q) w1 = (Returns (p, Some e), w') →
            method_handler r srv ctx dec None w = (Returns (AnyPtr (rpc_out r) p, Some e), w')) ∧
         (server_method r s = server_method r UnimplementedDataServer →
            ∃ e, status_Code (Some e) = codes_Unimplemented ∧
              method_handler r srv ctx dec None w = (Returns (AnyPtr (rpc_out r) None, Some e), w1))
     end) ∧
  (∀ cc data control sc limit s ctx m opts w,
     lossless cc (hub_services data control) sc limit → as_DataServer data = Some s →
     server_method r s = server_method r UnimplementedDataServer → carriable limit (sent m) →
     ∃ e, status_Code (Some e) = codes_Unimplemented ∧
       client_call r (NewDataClient cc) ctx m opts w = (Returns (None, Some e), w)).
Proof.
  split_and!.
  - intros cc ctx m opts w. rewrite client_call_unary. unfold unary_call, mbind, go_bind.
    by destruct (cc_Invoke _ _ _ _ _ _ _ w) as [[[out [e|]]|e] w'].
  - intros srv ctx dec i w z e w' Hdec. rewrite method_handler_unary. unfold unary_handler.
    by rewrite (go_bind_returns _ _ _ _ _ Hdec).
  - intros srv ctx dec w q w1 Hdec. rewrite (method_handler_answers _ _ _ _ _ _ _ _ Hdec).
    unfold answer, assert_server. destruct (as_DataServer srv) as [s|]; [|done]. split.
    + intros p e w' Hm. by apply box_returns in Hm.
    + intros Hun. destruct (unimplemented_method r ctx (Some q) w1) as (e & He & _ & Hm).
      rewrite <-Hun in Hm. exists e. split; [done|]. by apply box_returns in Hm.
  - intros cc data control sc limit s ctx m opts w Hcc Hs Hun Hm.
    destruct (lossless_call r cc data control sc limit s ctx m opts w Hcc Hs Hm) as [_ Hfail].
    rewrite Hun in Hfail.
    destruct (unimplemented_method r (sc ctx) (Some (sent m)) w) as (e & _ & Hrep & Hun').
    destruct (Hfail None e w Hun') as (e' & Hcode & Hcall). exists e'. by rewrite Hcode.
Qed.
End calls.

(** ** A concrete runtime: the world is the list of the methods that ran *)
#[local] Instance traced_grpc : GrpcLib :=
  {| World := list string; Ctx := unit; CallOption := unit; StaticMethod := tt;
     ClientStream := unit; ServerStream := unit; codes_OK := 0; codes_Unimplemented := 12;
     status_Error := λ c m, if c =? 0 then None else Some (Errorf "rpc error" [AInt c; AStr m]);
     before w w' := ∃ l, w' = l ++ w;
     reported_code := λ e, match e with Errorf _ (AInt c :: _) => c | _ => 2 end;
     status_Code := λ e, match e with Some (Errorf _ (AInt c :: _)) => c | Some _ => 2 | None => 0 end |}.

#[local] Instance traced_laws : GrpcLaws.
Proof.
  split; [|done|done| |].
  - intros c m. cbn. by destruct (Z.eqb_spec c 0) as [->|].
  - intros c m e. cbn. destruct (c =? 0); [done|]. by intros [= <-].
  - split; [by exists []|]. intros w1 w2 w3 [l ->] [l' ->]. exists (l' ++ l).
    by rewrite (assoc_L app).
Qed.
#[local] Existing Instance any_rules.

Lemma traced_codes e : status_Code (Some e) = reported_code e.
Proof. by destruct e. Qed.

(** A hub that answers reads and has nothing else. *)
Definition read_only_server : DataServer :=
  {| ds_Handshake := UnimplementedDataServer_Handshake;
     ds_HubStatus := UnimplementedDataServer_HubStatus;
     ds_Get := λ _ q w,
       (Returns (Some (mk_pb_GetResponse 1 7 None [] 0 0), None), "Get"%string :: w);
     ds_Mutate := UnimplementedDataServer_Mutate;
     ds_mustEmbedUnimplementedDataServer := mret tt |}.
Definition read_only_hub : service :=
  mkService (Some read_only_server) None (Some UnimplementedDataServer_testEmbeddedByValue).

Lemma data_calls_reach_their_method_witness :
  ∃ s ctx w1 w2, before [] w1 ∧ before w2 ["Get"%string] ∧ as_DataServer read_only_hub = Some s ∧
    ∃ a, ds_Get s ctx (Some (mk_pb_GetRequest (string_bytes "k") None 7)) w1 = (Returns (a, None), w2) ∧
      mk_pb_GetResponse 1 7 None [] 0 0 = sent (t := TGetResponse) a.
Proof.
  destruct (data_calls_reach_their_method RGet (loop_connection read_only_hub) read_only_hub
    read_only_hub None tt (Some (mk_pb_GetRequest (string_bytes "k") None 7)) [] []
    (Some (mk_pb_GetResponse 1 7 None [] 0 0)) ["Get"%string])
    as (a & ctx & w1 & w2 & [= <-] & Hb1 & Hb2 & s & a' & Hs & Hm & Ha);
    [apply loop_dispatches|by vm_compute|].
  exists s, ctx, w1, w2. split_and!; [done..|]. by exists a'.
Defined.

Lemma data_calls_fail_cleanly_witness :
  ∃ e, status_Code (Some e) = 12 ∧
    dc_Mutate (NewDataClient (loop_connection read_only_hub)) tt
      (Some (mk_pb_MutationRequest 1 [] [] 0 None 0 0 0 0 7)) [] [] =
      (Returns (None, Some e), []).
Proof.
  destruct (data_calls_fail_cleanly RMutate) as (_ & _ & _ & Hun).
  apply (Hun (loop_connection read_only_hub) read_only_hub read_only_hub id 4194304
    read_only_server tt (Some (mk_pb_MutationRequest 1 [] [] 0 None 0 0 0 0 7)) [] []
    (loop_lossless _ _ _ traced_codes)); [reflexivity|reflexivity|].
  split; [|by vm_compute]. split; [|done]. by vm_compute.
Defined.
