(* ===== verification/PbAgreement.v ===== *)
(** * The generated code follows the schema

    The schema of api/proto is the source of truth of the format on the wire;
    the files under api/gen are made from it.  Here the two are compared:
    structs and tags, enumerations, embedded descriptors and tables of the
    message files, and the service descriptions, client methods and handlers
    of the gRPC files. *)

From S2P Require Import Prelude GoErrors PbCommon PbControl PbData PbWire PbGo PbProto PbEncoding.
From S2P Require Import GrpcLib GrpcData GrpcControl GrpcCalls.
From stdpp Require Import list.

Local Open Scope Z_scope.

(** ** What a call and a handler name

    A connection and a decoder that stop with what they are asked for. *)
Definition msg_type_name (t : msg_type) : string :=
  match t with
  | THandshakeRequest => "HandshakeRequest" | THandshakeResponse => "HandshakeResponse"
  | THubStatusRequest => "HubStatusRequest" | THubStatusResponse => "HubStatusResponse"
  | TGetRequest => "GetRequest" | TGetResponse => "GetResponse"
  | TMutationRequest => "MutationRequest" | TMutationResponse => "MutationResponse"
  end.

Section agreement.
Context `{GrpcLib} `{FormatRules}.

Definition any_name (a : any) : string :=
  match a with AnyNil => "nil" | AnyPtr t _ => msg_type_name t end.

Definition probe : ClientConnInterface :=
  {| cc_Invoke ctx path args t reply opts :=
       panic (New path (any_name args +:+ " " +:+ msg_type_name t));
     cc_NewStream ctx sd path opts := panic (New path (sd_StreamName sd)) |}.
Definition probe_decoder : decoder := λ t m, panic (New "decode" (msg_type_name t)).

(** The path of a method: package, service and method of the schema. *)
Definition schema_path (p : proto_file) (s : proto_service) (r : proto_rpc) : string :=
  "/" +:+ pfl_package p +:+ "." +:+ psv_name s +:+ "/" +:+ pr_name r.

(** The method of the schema that a method of the stubs stands for. *)
Definition schema_rpc (r : data_rpc) : option proto_rpc :=
  psv_rpcs proto_Data !!
    match r with RHandshake => 0%nat | RHubStatus => 1%nat | RGet => 2%nat | RMutate => 3%nat end.

(** The stubs of a unary method of Data: neither side streams, the client calls
    its path with its input and expects its output, and the handler decodes its
    input. *)
Definition unary_follows (r : data_rpc) (s : proto_rpc) : Prop :=
  pr_input_stream s = false ∧ pr_output_stream s = false ∧
  full_method_name r = schema_path data_proto proto_Data s ∧
  (∀ ctx in_ opts w,
     client_call r (NewDataClient probe) ctx in_ opts w =
       (Panics (New (schema_path data_proto proto_Data s) (pr_input s +:+ " " +:+ pr_output s)), w)) ∧
  (∀ srv ctx interceptor w,
     method_handler r srv ctx probe_decoder interceptor w = (Panics (New "decode" (pr_input s)), w)).

(** A service description names the service, its methods and its file. *)
Definition description_follows (p : proto_file) (s : proto_service) (desc : ServiceDesc) : Prop :=
  svc_ServiceName desc = pfl_package p +:+ "." +:+ psv_name s ∧
  svc_Metadata desc = pfl_path p ∧
  map md_MethodName (svc_Methods desc) =
    map pr_name (filter (λ r, pr_input_stream r || pr_output_stream r = false) (psv_rpcs s)) ∧
  map (λ d, (sd_StreamName d, sd_ClientStreams d, sd_ServerStreams d)) (svc_Streams desc) =
    map (λ r, (pr_name r, pr_input_stream r, pr_output_stream r))
      (filter (λ r, pr_input_stream r || pr_output_stream r = true) (psv_rpcs s)).

(** C11. The generated code is what the schema declares.  For each of the three
    files, the struct types with their tags, the wrapper structs of the oneofs,
    the enumerations with both name tables, the table of Go types, the table of
    dependencies, the registered wrappers and the counts are those made from
    the schema, and the embedded descriptor is the serialised descriptor of the
    schema, which reads back as that descriptor and nothing else.  The service
    descriptions, the paths that clients call, the messages they send and expect
    and the messages that handlers decode are those of the services. *)
Theorem generated_code_follows_schema :
  Forall (λ '(g, p),
      g = generate p ∧
      ∃ b, gen_rawDesc g = Some b ∧ parse_records b = Some (file_descriptor p))
    [(common_pb_go, common_proto); (control_pb_go, control_proto); (data_pb_go, data_proto)] ∧
  description_follows data_proto proto_Data Data_ServiceDesc ∧
  description_follows control_proto proto_Control Control_ServiceDesc ∧
  (∀ r, ∃ s, schema_rpc r = Some s ∧ unary_follows r s) ∧
  (∀ ctx opts w, ∃ s, psv_rpcs proto_Control = [s] ∧
     ctl_Connect (NewControlClient probe) ctx opts w =
       (Panics (New (schema_path control_proto proto_Control s) (pr_name s)), w)).
Proof.
  split.
  { rewrite common_is_generated, control_is_generated, data_is_generated.
    repeat constructor; (eexists; split; [reflexivity|]);
      apply parse_records_encode, file_descriptor_ok; by vm_compute. }
  split_and!; try done.
  - intros []; by eexists.
  - intros ctx opts w. by eexists.
Qed.
End agreement.
