(* ===== verification/ControlStream.v ===== *)
(** * The Control stream

    The stubs of the Control service agree on one bidirectional stream
    ([Connect_is_the_control_stream]).  On it a node and a hub exchange the
    envelopes of control/convert.go.  Each direction is a channel: the sender
    encodes the messages it sends, the receiver decodes what arrives and closes
    the stream on the first message it refuses.  The transport is a parameter,
    the class [OrderedStream] of the documented guarantee of gRPC that the
    messages of one stream that arrive do so in order and once. *)

From S2P Require Import Prelude GoErrors PbCommon PbControl PbData Codec ControlTypes ControlConvert.
From S2P Require Import GrpcLib GrpcData GrpcControl GrpcCalls.

(** ** The stream of the service *)
Section stubs.
Context `{GrpcLib}.

Definition serves_stream (served : list (ServiceDesc * service)) (path : string)
    (sd : StreamDesc) (srv : service) : Prop :=
  ∃ desc, (desc, srv) ∈ served ∧ sd ∈ svc_Streams desc ∧
    path = full_method desc (sd_StreamName sd).

(** The client and the server of the Control service mean the same stream.
    The client opens the stream of a description that allows messages in both
    directions, under a path at which a hub with the two services registers
    exactly that description, for its Control server, and no unary method; the
    stream is handed to the [Connect] method of the server as it is. *)
Lemma Connect_is_the_control_stream data control :
  ∃ sd, sd_ServerStreams sd = true ∧ sd_ClientStreams sd = true ∧
    (∀ cc ctx opts,
       ctl_Connect (NewControlClient cc) ctx opts =
       ('(stream, err) ← cc_NewStream cc ctx sd Control_Connect_FullMethodName (StaticMethod :: opts);
        match err with
        | Some e => mret (None, Some e)
        | None => mret (Some {| gcs_ClientStream := stream |}, None)
        end)) ∧
    (∀ sd' srv, serves_stream (hub_services data control) Control_Connect_FullMethodName sd' srv ↔
       sd' = sd ∧ srv = control) ∧
    (∀ md srv, ¬ serves (hub_services data control) Control_Connect_FullMethodName md srv) ∧
    (∀ s stream, as_ControlServer control = Some s →
       sd_Handler sd control stream = cs_Connect s {| gss_ServerStream := stream |}).
Proof.
  exists (mkStreamDesc "Connect" Control_Connect_Handler true true).
  split_and!; [done..| | |].
  - intros sd' srv. unfold serves_stream, hub_services. split.
    + intros (desc & Hd & Hsd & _). rewrite !elem_of_cons, elem_of_nil in Hd.
      destruct Hd as [[= -> ->]|[[= -> ->]|[]]]; [by apply not_elem_of_nil in Hsd|].
      by apply list_elem_of_singleton in Hsd.
    + intros [-> ->]. exists Control_ServiceDesc.
      split_and!; [set_solver|by apply list_elem_of_singleton|done].
  - intros md srv (desc & Hd & Hmd & Hpath). unfold hub_services in Hd.
    rewrite !elem_of_cons, elem_of_nil in Hd.
    destruct Hd as [[= -> ->]|[[= -> ->]|[]]]; [|by apply not_elem_of_nil in Hmd].
    cbn [svc_Methods Data_ServiceDesc] in Hmd. rewrite !elem_of_cons, elem_of_nil in Hmd.
    destruct Hmd as [->|[->|[->|[->|[]]]]]; discriminate Hpath.
  - intros s stream Hs. cbn [sd_Handler]. unfold Control_Connect_Handler, assert_server.
    by rewrite Hs.
Qed.
End stubs.

(** ** An ordered stream of messages *)

(** What gRPC documents of one direction of a stream: the messages that are
    received are received in the order in which they were sent, each once.  It
    does not promise that a message is received at all: [RecvMsg] may return
    nothing, now or, when the stream has failed, for good. *)
Class OrderedStream (P St : Type) := {
  in_flight : St → list P;
  SendMsg : P → St → St;
  RecvMsg : St → option (P * St);
  SendMsg_ordered m s : in_flight (SendMsg m s) = in_flight s ++ [m];
  RecvMsg_ordered s :
    match RecvMsg s with
    | None => True
    | Some (m, s') => in_flight s = m :: in_flight s'
    end;
}.

#[export] Instance list_stream P : OrderedStream P (list P) :=
  {| in_flight := id; SendMsg m s := s ++ [m];
     RecvMsg s := match s with [] => None | m :: s' => Some (m, s') end;
     SendMsg_ordered _ _ := eq_refl;
     RecvMsg_ordered s := match s with [] => I | _ :: _ => eq_refl end |}.

(** ** The two directions *)

Inductive direction := ToHub | ToNode.

Definition envelope (d : direction) : Type :=
  match d with ToHub => pb_ControlClientMessage | ToNode => pb_ControlServerMessage end.
Definition envelope_typed (d : direction) : envelope d → Prop :=
  match d with ToHub => client_message_typed | ToNode => server_message_typed end.
Definition encode (d : direction) : payload → option (envelope d) * error :=
  match d with ToHub => ProtoClientMessage | ToNode => ProtoServerMessage end.
Definition decode (d : direction) : option (envelope d) → outcome (payload * error) :=
  match d with ToHub => FromProtoClientMessage | ToNode => FromProtoServerMessage end.
Definition carries (d : direction) : payload → bool :=
  match d with ToHub => client_payload | ToNode => server_payload end.

Lemma encode_carries d b m : encode d b = (Some m, None) → carries d b = true.
Proof.
  destruct d; cbn [encode carries envelope] in *;
    by destruct b as [| | [] | | [] | | [] | | [] | | [] | | [] | | [] | | [] | | [] |].
Qed.

(** A valid message that is encoded is decoded as itself. *)
Lemma envelope_decodes d b m :
  encode d b = (Some m, None) → message_ok b → decode d (Some m) = Returns (deref b, None).
Proof.
  intros He Hok. pose proof (encode_carries d b m He) as Hc.
  destruct d; [destruct (client_transmits_ok b Hok Hc) as (m' & He' & Hd)
              |destruct (server_transmits_ok b Hok Hc) as (m' & He' & Hd)];
    cbn [encode decode envelope] in *; congruence.
Qed.

Lemma decode_ok d m v :
  envelope_typed d m → decode d (Some m) = Returns (v, None) → message_ok v ∧ carries d v = true.
Proof.
  destruct d; intros Ht Hd;
    [destruct (FromProtoClientMessage_ok m v Ht Hd)|destruct (FromProtoServerMessage_ok m v Ht Hd)];
    naive_solver.
Qed.

Lemma encode_valid d b :
  message_ok b → carries d b = true → ∃ m, encode d b = (Some m, None).
Proof.
  intros Hok Hc.
  destruct d; [destruct (client_transmits_ok b Hok Hc) as (m & ? & _)
              |destruct (server_transmits_ok b Hok Hc) as (m & ? & _)]; by exists m.
Qed.

(** A valid message is encoded within the ranges of the protobuf types. *)
Lemma encode_typed d b m :
  encode d b = (Some m, None) → message_ok b → envelope_typed d m.
Proof.
  destruct d; cbn [encode envelope envelope_typed] in *;
    destruct b as [| | [] | | [] | | [] | | [] | | [] | | [] | | [] | | [] | | [] |];
    intros [= <-]; (intros [Ht _] || intros []);
    solve [apply Hello_proto_typed, Ht|apply Subscribe_proto_typed, Ht
      |apply StreamAcknowledgement_proto_typed, Ht|apply ReplayRequest_proto_typed, Ht
      |apply InvalidateConfirm_proto_typed, Ht|apply InvalidationBatch_proto_typed, Ht
      |apply StreamCheckpoint_proto_typed, Ht|apply ReplayUnavailable_proto_typed, Ht
      |apply ControlError_proto_typed, Ht].
Qed.

(** The kinds of a message the sender may hold as a pointer or as a value are
    the same message. *)
Lemma deref_ok b : message_ok b → message_ok (deref b).
Proof. by destruct b as [| | [] | | [] | | [] | | [] | | [] | | [] | | [] | | [] | | [] |]. Qed.

Section channel.
Context {St : Type} (d : direction) `{!OrderedStream (envelope d) St}.

(** The sender's messages, the stream, the receiver's messages, and whether the
    receiver has closed the stream. *)
Record channel := mkChannel {
  ch_sent : list payload; ch_stream : St; ch_got : list payload; ch_closed : bool }.

(** [LSend]: the program sends a valid message.  [LForeign]: a peer of another
    build sends any envelope.  [LReceive]: the receiver decodes the next
    envelope.  [LClose]: it refuses it, or panics on it. *)
Inductive event := LSend (b : payload) | LForeign (m : envelope d) | LReceive | LClose.

Inductive chan_step : channel → event → channel → Prop :=
| chan_send c b m :
    ch_closed c = false → encode d b = (Some m, None) → message_ok b →
    chan_step c (LSend b)
      (mkChannel (ch_sent c ++ [deref b]) (SendMsg m (ch_stream c)) (ch_got c) false)
| chan_foreign c m :
    ch_closed c = false → envelope_typed d m →
    chan_step c (LForeign m)
      (mkChannel (ch_sent c) (SendMsg m (ch_stream c)) (ch_got c) false)
| chan_receive c m s v :
    ch_closed c = false → RecvMsg (ch_stream c) = Some (m, s) →
    decode d (Some m) = Returns (v, None) →
    chan_step c LReceive (mkChannel (ch_sent c) s (ch_got c ++ [v]) false)
| chan_close c m s :
    ch_closed c = false → RecvMsg (ch_stream c) = Some (m, s) →
    (∀ v, decode d (Some m) ≠ Returns (v, None)) →
    chan_step c LClose (mkChannel (ch_sent c) s (ch_got c) true).

Inductive chan_exec : channel → list event → channel → Prop :=
| chan_done c : chan_exec c [] c
| chan_more c e c1 tr c2 : chan_step c e c1 → chan_exec c1 tr c2 → chan_exec c (e :: tr) c2.

(** A new stream, with nothing in flight. *)
Definition opened (c : channel) : Prop :=
  ch_sent c = [] ∧ in_flight (ch_stream c) = [] ∧ ch_got c = [] ∧ ch_closed c = false.

(** Whoever the peer is, what was received is valid and of the direction, and
    what is in flight is in the ranges of its types. *)
Definition sane (c : channel) : Prop :=
  (∀ v, v ∈ ch_got c → message_ok v ∧ carries d v = true) ∧
  (∀ m, m ∈ in_flight (ch_stream c) → envelope_typed d m).

(** Between two programs of this build: the stream is open, and what was sent
    is what was received followed by what is in flight. *)
Definition faithful (c : channel) : Prop :=
  ch_closed c = false ∧
  ∃ pending, ch_sent c = ch_got c ++ pending ∧
    Forall2 (λ m v, decode d (Some m) = Returns (v, None)) (in_flight (ch_stream c)) pending.

Definition foreign (e : event) : bool := match e with LForeign _ => true | _ => false end.

Lemma step_sane c e c' : chan_step c e c' → sane c → sane c'.
Proof.
  intros Hstep [Hgot Hfly].
  destruct Hstep as [c b m _ He Hok|c m _ Hm|c m s v _ Hr Hd|c m s _ Hr _];
    split; cbn [ch_got ch_stream]; try done.
  - intros x. rewrite SendMsg_ordered, elem_of_app, list_elem_of_singleton.
    intros [Hx| ->]; [by apply Hfly|by eapply encode_typed].
  - intros x. rewrite SendMsg_ordered, elem_of_app, list_elem_of_singleton.
    intros [Hx| ->]; [by apply Hfly|done].
  - pose proof (RecvMsg_ordered (ch_stream c)) as Ho. rewrite Hr in Ho.
    intros x. rewrite elem_of_app, list_elem_of_singleton. intros [Hx| ->]; [by apply Hgot|].
    eapply decode_ok; [apply Hfly; rewrite Ho; apply list_elem_of_here|done].
  - pose proof (RecvMsg_ordered (ch_stream c)) as Ho. rewrite Hr in Ho.
    intros x Hx. apply Hfly. rewrite Ho. by apply list_elem_of_further.
  - pose proof (RecvMsg_ordered (ch_stream c)) as Ho. rewrite Hr in Ho.
    intros x Hx. apply Hfly. rewrite Ho. by apply list_elem_of_further.
Qed.

Lemma step_faithful c e c' :
  chan_step c e c' → foreign e = false → faithful c → faithful c' ∧ e ≠ LClose.
Proof.
  intros Hstep He (Hopen & pending & Hsent & Hfly).
  destruct Hstep as [c b m _ Hm Hok|c m _ _|c m s v _ Hr Hd|c m s _ Hr Hd]; [|done|..].
  - split; [|done]. split; [done|]. exists (pending ++ [deref b]). cbn. split.
    + by rewrite Hsent, (assoc_L app).
    + rewrite SendMsg_ordered. apply Forall2_app; [done|]. constructor; [|constructor].
      by apply envelope_decodes.
  - pose proof (RecvMsg_ordered (ch_stream c)) as Ho. rewrite Hr in Ho. rewrite Ho in Hfly.
    inversion Hfly as [|? v' ? rest Hv Hrest]; subst pending; subst. split; [|done].
    split; [done|]. exists rest. cbn. split; [|done].
    assert (v' = v) as -> by congruence. by rewrite Hsent, <- (assoc_L app).
  - pose proof (RecvMsg_ordered (ch_stream c)) as Ho. rewrite Hr in Ho. rewrite Ho in Hfly.
    inversion Hfly as [|? v' ? rest Hv Hrest]; subst. by destruct (Hd v').
Qed.

Lemma exec_sane c tr c' : chan_exec c tr c' → sane c → sane c'.
Proof. induction 1; eauto using step_sane. Qed.

Lemma exec_faithful c tr c' :
  chan_exec c tr c' → Forall (λ e, foreign e = false) tr → faithful c →
  faithful c' ∧ LClose ∉ tr.
Proof.
  induction 1 as [c|c e c1 tr c2 Hstep _ IH]; intros Htr Hc.
  { split; [done|apply not_elem_of_nil]. }
  inversion Htr as [|? ? He Hrest]; subst.
  destruct (step_faithful c e c1 Hstep He Hc) as [Hc1 Hne].
  destruct (IH Hrest Hc1) as [Hc2 Hnot]. split; [done|]. apply not_elem_of_cons.
  split; [by intros E; destruct Hne|done].
Qed.

Lemma opened_sane c : opened c → sane c.
Proof.
  intros (_ & Hfly & Hgot & _). unfold sane. rewrite Hfly, Hgot.
  split; [by intros v ?%not_elem_of_nil|by intros m ?%not_elem_of_nil].
Qed.
Lemma opened_faithful c : opened c → faithful c.
Proof.
  intros (Hs & Hfly & Hgot & Hopen). split; [done|]. exists [].
  rewrite Hs, Hfly, Hgot. split; [done|constructor].
Qed.

(** C7. What a receiver of the Control stream can rely on, along every
    execution from a newly opened stream.  Whatever the peer sends, well-formed
    or not, every message handed to the program is valid and of the direction
    of the stream.  If the peer is of this build, the receiver never closes the
    stream, and it has received exactly the messages sent so far, in order and
    once, up to those in flight, which it will decode as they were sent. *)
Theorem control_stream_invariant c tr c' :
  opened c → chan_exec c tr c' →
  (∀ v, v ∈ ch_got c' → message_ok v ∧ carries d v = true) ∧
  (Forall (λ e, foreign e = false) tr →
     (LClose ∉ tr) ∧ ch_closed c' = false ∧
     ∃ pending, ch_sent c' = ch_got c' ++ pending ∧
       Forall2 (λ m v, decode d (Some m) = Returns (v, None)) (in_flight (ch_stream c')) pending).
Proof.
  intros Hc Hexec. split.
  - apply (exec_sane c tr c' Hexec (opened_sane c Hc)).
  - intros Htr. destruct (exec_faithful c tr c' Hexec Htr (opened_faithful c Hc)) as [[? ?] ?].
    by split_and!.
Qed.
End channel.

(** A hub sends a checkpoint, by pointer, and a batch; the node has received
    the checkpoint. *)
Definition sample_checkpoint : StreamCheckpoint := mkStreamCheckpoint 3 7 5.
Definition sample_opened : channel := mkChannel (St := list (envelope ToNode)) [] [] [] false.
Definition sample_reached : channel :=
  mkChannel (St := list (envelope ToNode))
    [PStreamCheckpoint sample_checkpoint; PReplayUnavailable (mkReplayUnavailable 3 7 5 10 9)]
    [mk_pb_ControlServerMessage (Some (CSM_ReplayUnavailable (Some (Some
       (ProtoReplayUnavailable (mkReplayUnavailable 3 7 5 10 9))))))]
    [PStreamCheckpoint sample_checkpoint] false.
Definition sample_events : list (event ToNode) :=
  [LSend ToNode (PStreamCheckpointPtr (Some sample_checkpoint));
   LSend ToNode (PReplayUnavailable (mkReplayUnavailable 3 7 5 10 9)); LReceive ToNode].

Lemma sample_execution : chan_exec ToNode sample_opened sample_events sample_reached.
Proof.
  econstructor; [by apply (chan_send ToNode); [|reflexivity|vm_compute]|].
  econstructor; [by apply (chan_send ToNode); [|reflexivity|vm_compute]|].
  econstructor; [by eapply (chan_receive ToNode); [|reflexivity|reflexivity]|].
  constructor.
Qed.

Lemma control_stream_invariant_witness :
  ∃ pending, ch_sent sample_reached = ch_got sample_reached ++ pending ∧
    Forall2 (λ m v, FromProtoServerMessage (Some m) = Returns (v, None))
      (ch_stream sample_reached) pending.
Proof.
  destruct (control_stream_invariant ToNode sample_opened sample_events sample_reached)
    as [_ Hall]; [by split_and!|apply sample_execution|].
  apply Hall. by repeat constructor.
Defined.
