(* ===== verification/PbBytes.v ===== *)
(** * The conversions and the Control stream over bytes

    The domain messages on their whole way: validated, encoded by the code to a
    generated message, written in the wire format of the schema, read back and
    decoded by the code.  The bytes of a control message are also what the size
    bounds are about: the encoding of the schema is an instance of [ProtoSize]. *)

From S2P Require Import Prelude GoErrors GoStd WireTypes PbCommon PbControl PbData.
From S2P Require Import RpcTypes Codec RpcConvert ControlTypes ControlConvert ControlSize ControlStream.
From S2P Require Import PbWire PbProto PbEncoding PbMessages.
From stdpp Require Import list.

Local Open Scope Z_scope.

(** ** Sizes *)

Definition varint_size (n : Z) : Z := len (varint n).

Definition value_size (v : field_value) : Z :=
  match v with
  | VInt n => varint_field varint_size n
  | VBytes b => bytes_field varint_size (len b)
  | VMessage None => 0
  | VMessage (Some b) => delimited varint_size (len b)
  | VMessages l => foldr (λ b n, delimited varint_size (len b) + n) 0 l
  | VInts l => bytes_field varint_size (foldr (λ x n, varint_size x + n) 0 l)
  end.

(** The tag of a field with a number below 16 is one byte. *)
Lemma tag_size k t : 1 <= k < 16 → 0 <= t < 8 → len (varint (8 * k + t)) = 1.
Proof. intros Hk Ht. pose proof (varint_range 1 (8 * k + t) ltac:(lia) ltac:(lia)). lia. Qed.

Lemma len_encode_app rs rs' :
  len (encode_records (rs ++ rs')) = len (encode_records rs) + len (encode_records rs').
Proof. by rewrite encode_records_app, len_app. Qed.

Lemma len_record_int k n :
  1 <= k < 16 → len (encode_records [mkRecord k (PVarint n)]) = 1 + varint_size n.
Proof.
  intros Hk. unfold encode_records, encode_record. cbn [map concat wr_payload wr_number].
  rewrite app_nil_r, len_app. rewrite <-(Z.add_0_r (8 * k)), tag_size by lia. done.
Qed.

Lemma len_record_bytes k b :
  1 <= k < 16 → len (encode_records [mkRecord k (PLen b)]) = delimited varint_size (len b).
Proof.
  intros Hk. unfold encode_records, encode_record, delimited, varint_size.
  cbn [map concat wr_payload wr_number]. rewrite app_nil_r, !len_app, tag_size by lia. lia.
Qed.

Lemma len_bytes_records k b :
  1 <= k < 16 → len (encode_records (bytes_records k b)) = bytes_field varint_size (len b).
Proof.
  intros Hk. unfold bytes_field. destruct b as [|c b]; [done|].
  cbn [bytes_records]. rewrite len_record_bytes by done.
  rewrite len_cons. pose proof (len_nonneg b). destruct (Z.eqb_spec (1 + len b) 0); [lia|done].
Qed.

Lemma len_varints l : len (concat (map varint l)) = foldr (λ x n, varint_size x + n) 0 l.
Proof. induction l as [|x l IH]; [done|]. cbn [map concat foldr]. by rewrite len_app, IH. Qed.

Lemma len_value k v : 1 <= k < 16 → len (encode_records (value_records k v)) = value_size v.
Proof.
  intros Hk. destruct v as [n|b|[b|]|l|l]; cbn [value_records value_size].
  - unfold varint_field. case_if; [done|]. by apply len_record_int.
  - by apply len_bytes_records.
  - by apply len_record_bytes.
  - done.
  - induction l as [|b l IH]; [done|]. cbn [map foldr].
    change (mkRecord k (PLen b) :: map (λ b, mkRecord k (PLen b)) l)
      with ([mkRecord k (PLen b)] ++ map (λ b, mkRecord k (PLen b)) l).
    by rewrite len_encode_app, IH, len_record_bytes.
  - rewrite len_bytes_records by done. by rewrite len_varints.
Qed.

Lemma len_encode_message m vs :
  Forall (λ f, 1 <= pf_number f < 16) (message_fields m) →
  length (message_fields m) = length vs →
  len (encode_message m vs) = foldr (λ v n, value_size v + n) 0 vs.
Proof.
  unfold encode_message, all_records. generalize (message_fields m). intros fs Hfs. revert vs.
  induction Hfs as [|f fs Hf _ IH]; intros [|v vs] Hlen; try done.
  cbn [zip_with concat foldr]. rewrite len_encode_app, len_value by done. f_equal.
  apply IH. by injection Hlen.
Qed.

Section sizes.
Context `{FormatRules}.

Lemma len_sub {P} `{Wire P} (o : option P) :
  value_size (VMessage (marshal <$> o)) = message_field varint_size (λ p, len (marshal p)) o.
Proof. by destruct o. Qed.

Lemma len_subs {P} `{Wire P} (l : list (option P)) :
  value_size (VMessages (map marshal_elem l)) = repeated_field varint_size (λ p, len (marshal p)) l.
Proof.
  induction l as [|[p|] l IH]; [done|..]; unfold repeated_field in *; cbn [map foldr value_size] in *;
    by rewrite IH.
Qed.

Lemma len_string s : len (string_bytes s) = string_len s.
Proof. unfold len, string_len. f_equal. induction s as [|c s IH]; [done|]. exact (f_equal S IH). Qed.

Lemma len_marshal {P} `{Wire P} (p : P) :
  bool_decide (Forall (λ f, 1 <= pf_number f < 16) (message_fields w_schema)) = true →
  length (message_fields w_schema) = length (w_values p) →
  len (marshal p) = foldr (λ v n, value_size v + n) 0 (w_values p).
Proof. intros Hn%bool_decide_eq_true_1 Hl. by apply len_encode_message. Qed.

Ltac schema_size :=
  intros; rewrite len_marshal by (by vm_compute);
  cbn [w_values VersionTag_wire MutationID_wire StreamWatermark_wire Hello_wire Subscribe_wire
       InvalidationEvent_wire InvalidationBatch_wire StreamAcknowledgement_wire
       StreamCheckpoint_wire ReplayRequest_wire ReplayUnavailable_wire InvalidateConfirm_wire
       ControlError_wire foldr];
  rewrite ?len_sub, ?len_subs; cbn [value_size]; rewrite ?len_string; unfold packed_field; lia.

(** The rules of [ProtoSize] are those of the encoding of the schema. *)
#[refine] Definition schema_sizes : ProtoSize :=
  {| vs := varint_size; vs_range := varint_range;
     size_VersionTag m := len (marshal m); size_MutationID m := len (marshal m);
     size_StreamWatermark m := len (marshal m); size_Hello m := len (marshal m);
     size_Subscribe m := len (marshal m); size_InvalidationEvent m := len (marshal m);
     size_InvalidationBatch m := len (marshal m); size_StreamAcknowledgement m := len (marshal m);
     size_StreamCheckpoint m := len (marshal m); size_ReplayRequest m := len (marshal m);
     size_ReplayUnavailable m := len (marshal m); size_InvalidateConfirm m := len (marshal m);
     size_ControlError m := len (marshal m);
     size_client m := len (marshal m); size_server m := len (marshal m) |}.
Proof.
  1-13: schema_size.
  - intros b n E. destruct b as [[[p|]|]|[[p|]|]|[[p|]|]|[[p|]|]|[[p|]|]]; try done; injection E as <-;
      rewrite len_marshal by (by vm_compute); cbn; by rewrite ?Z.add_0_r.
  - intros b n E. destruct b as [[[p|]|]|[[p|]|]|[[p|]|]|[[p|]|]]; try done; injection E as <-;
      rewrite len_marshal by (by vm_compute); cbn; by rewrite ?Z.add_0_r.
Defined.
End sizes.

(** ** Conversions over bytes *)

(** What a conversion writes can be written: [cw_texts] are the strings of a
    message, which the format requires to be valid UTF-8. *)
Class CodecWire (D P : Type) `{FormatRules} `{MessageCodec D P} `{!Wire P} := {
  cw_texts : D → list string;
  cw_ok d : mc_wf d → Forall (λ s, utf8_valid s = true) (cw_texts d) → w_ok (mc_proto d);
}.

Section codec_bytes.
Context `{FormatRules}.

Definition texts_ok {D P} `{CodecWire D P} (d : D) : Prop :=
  Forall (λ s, utf8_valid s = true) (cw_texts d).

(** [bytes_ok D P]: a valid message whose texts are valid UTF-8 is read back and
    decoded from its bytes (no Go slice has [max_len] of them), no two such
    messages have the same bytes, and whatever the bytes, a message that is read
    and decoded from them without error is valid and in range. *)
Definition bytes_ok (D P : Type) `{CodecWire D P} : Prop :=
  (∀ d, mc_wf d → mc_validate d = None → texts_ok d → len (marshal (mc_proto d)) < max_len →
     ∃ p, unmarshal (marshal (mc_proto d)) = Some p ∧ mc_fromproto (Some p) = (d, None)) ∧
  (∀ d e, mc_wf d → mc_wf e → mc_validate d = None → mc_validate e = None →
     texts_ok d → texts_ok e → len (marshal (mc_proto d)) < max_len →
     marshal (mc_proto d) = marshal (mc_proto e) → d = e) ∧
  (∀ b p d, unmarshal b = Some p → mc_fromproto (Some p) = (d, None) →
     mc_wf d ∧ mc_validate d = None).

Lemma bytes_ok_instance (D P : Type) `{CodecWire D P} : bytes_ok D P.
Proof.
  split_and!.
  - intros d Hwf Hv Ht Hlen. exists (mc_proto d). split; [|by apply mc_roundtrip].
    by apply unmarshal_marshal; [apply cw_ok|].
  - intros d e Hd He Vd Ve Td Te Hlen E. apply mc_proto_inj; [done..|].
    apply marshal_inj; [by apply cw_ok..|done|done].
  - intros b p d Hp Hd. split; [|by eapply mc_sound].
    eapply mc_inrange; [|done]. by eapply unmarshal_typed.
Qed.

(** A list without nil elements can be written when its elements can. *)
Lemma subs_ok_map {A P} `{Wire P} (f : A → P) l :
  (∀ p, go_typed p → (∃ a, p = f a) → w_ok p) →
  go_typed (map (λ a, Some (f a)) l) → subs_ok (map (λ a, Some (f a)) l).
Proof.
  intros Hok Hl. induction l as [|a l IH]; [constructor|]. cbn [map] in *.
  apply go_typed_cons in Hl as [Ha Hl]. constructor; [|by apply IH].
  apply Hok; [done|by exists a].
Qed.

(** *** The messages of the Data service *)
#[export, refine] Instance HandshakeRequest_bytes : CodecWire HandshakeRequest pb_HandshakeRequest :=
  {| cw_texts d := [hsr_ClusterID d] |}.
Proof. intros d Hd [Ht _]%Forall_cons. split; [by apply mc_typed in Hd|by destruct d]. Defined.
#[export, refine] Instance Handshake_bytes : CodecWire Handshake pb_HandshakeResponse :=
  {| cw_texts d := [hs_ClusterID d] |}.
Proof. intros d Hd [Ht _]%Forall_cons. split; [by apply mc_typed in Hd|by destruct d]. Defined.
#[export, refine] Instance HubStatusRequest_bytes : CodecWire HubStatusRequest pb_HubStatusRequest :=
  {| cw_texts d := [] |}.
Proof. intros d Hd _. by apply mc_typed in Hd. Defined.
#[export, refine] Instance HubStatus_bytes : CodecWire HubStatus pb_HubStatusResponse :=
  {| cw_texts d := [] |}.
Proof. intros d Hd _. by apply mc_typed in Hd. Defined.
#[export, refine] Instance GetRequest_bytes : CodecWire rpc_GetRequest pb_GetRequest :=
  {| cw_texts d := [] |}.
Proof.
  intros d Hd _. apply mc_typed in Hd. split; [done|]. destruct Hd as [Hd _].
  by destruct (pb_GetRequest_MinVersion (mc_proto d)).
Defined.
#[export, refine] Instance GetResponse_bytes : CodecWire GetResponse pb_GetResponse :=
  {| cw_texts d := [] |}.
Proof.
  intros d Hd _. apply mc_typed in Hd. split; [done|]. destruct Hd as (_ & _ & Hd & _).
  by destruct (pb_GetResponse_Version (mc_proto d)).
Defined.
#[export, refine] Instance MutationRequest_bytes : CodecWire MutationRequest pb_MutationRequest :=
  {| cw_texts d := [] |}.
Proof.
  intros d Hd _. apply mc_typed in Hd. split; [done|]. destruct Hd as (_ & _ & Hd & _).
  by destruct (pb_MutationRequest_MutationId (mc_proto d)).
Defined.
#[export, refine] Instance MutationResponse_bytes : CodecWire MutationResponse pb_MutationResponse :=
  {| cw_texts d := [] |}.
Proof.
  intros d Hd _. apply mc_typed in Hd. split; [done|]. destruct Hd as (_ & _ & Hd).
  by destruct (pb_MutationResponse_Version (mc_proto d)).
Defined.

(** *** The messages of the Control stream *)
#[export, refine] Instance Hello_bytes : CodecWire Hello pb_Hello :=
  {| cw_texts d := [he_ClusterID d] |}.
Proof.
  intros d Hd [Ht _]%Forall_cons. split; [by apply mc_typed in Hd|]. split; [|by destruct d].
  apply subs_ok_map; [done|]. apply mc_typed in Hd. by destruct Hd as (_ & _ & _ & Hs & _).
Defined.
#[export, refine] Instance Subscribe_bytes : CodecWire Subscribe pb_Subscribe := {| cw_texts d := [] |}.
Proof. intros d Hd _. by apply mc_typed in Hd. Defined.
#[export, refine] Instance InvalidationBatch_bytes : CodecWire InvalidationBatch pb_InvalidationBatch :=
  {| cw_texts d := [] |}.
Proof.
  intros d Hd _. apply mc_typed in Hd as Ht. split; [done|].
  apply subs_ok_map; [|by destruct Ht as (_ & _ & Ht)].
  intros p Hp [e ->]. split; [done|]. split; [|done]. by destruct Hp as (_ & Hp & _).
Defined.
#[export, refine] Instance StreamAcknowledgement_bytes :
  CodecWire StreamAcknowledgement pb_StreamAcknowledgement := {| cw_texts d := [] |}.
Proof. intros d Hd _. by apply mc_typed in Hd. Defined.
#[export, refine] Instance StreamCheckpoint_bytes : CodecWire StreamCheckpoint pb_StreamCheckpoint :=
  {| cw_texts d := [] |}.
Proof. intros d Hd _. by apply mc_typed in Hd. Defined.
#[export, refine] Instance ReplayRequest_bytes : CodecWire ReplayRequest pb_ReplayRequest :=
  {| cw_texts d := [] |}.
Proof. intros d Hd _. by apply mc_typed in Hd. Defined.
#[export, refine] Instance ReplayUnavailable_bytes : CodecWire ReplayUnavailable pb_ReplayUnavailable :=
  {| cw_texts d := [] |}.
Proof. intros d Hd _. by apply mc_typed in Hd. Defined.
#[export, refine] Instance InvalidateConfirm_bytes : CodecWire InvalidateConfirm pb_InvalidateConfirm :=
  {| cw_texts d := [] |}.
Proof. intros d Hd _. by apply mc_typed in Hd. Defined.
#[export, refine] Instance ControlError_bytes : CodecWire ControlError pb_ControlError :=
  {| cw_texts d := [ce_Detail d] |}.
Proof. intros d Hd [Ht _]%Forall_cons. split; [by apply mc_typed in Hd|by destruct d]. Defined.

(** C10. Every message of the two services survives the way over the network as
    bytes: encoded by the code, written in the format of the schema, read and
    decoded, a valid message whose texts are valid UTF-8 is the same message,
    and no other such message has the same bytes; and whatever bytes arrive,
    with fields of the schema in any order, repeated, packed or not, and with
    unknown fields of any wire type between them, a message that is read and
    that the decoder accepts is valid and in the ranges of its types. *)
Theorem messages_survive_as_bytes :
  bytes_ok HandshakeRequest pb_HandshakeRequest ∧ bytes_ok Handshake pb_HandshakeResponse ∧
  bytes_ok HubStatusRequest pb_HubStatusRequest ∧ bytes_ok HubStatus pb_HubStatusResponse ∧
  bytes_ok rpc_GetRequest pb_GetRequest ∧ bytes_ok GetResponse pb_GetResponse ∧
  bytes_ok MutationRequest pb_MutationRequest ∧ bytes_ok MutationResponse pb_MutationResponse ∧
  bytes_ok Hello pb_Hello ∧ bytes_ok Subscribe pb_Subscribe ∧
  bytes_ok InvalidationBatch pb_InvalidationBatch ∧
  bytes_ok StreamAcknowledgement pb_StreamAcknowledgement ∧
  bytes_ok StreamCheckpoint pb_StreamCheckpoint ∧ bytes_ok ReplayRequest pb_ReplayRequest ∧
  bytes_ok ReplayUnavailable pb_ReplayUnavailable ∧
  bytes_ok InvalidateConfirm pb_InvalidateConfirm ∧ bytes_ok ControlError pb_ControlError.
Proof. split_and!; apply bytes_ok_instance. Qed.
End codec_bytes.

(** ** The Control stream over bytes *)
#[export] Instance envelope_go_typed (d : direction) : GoTyped (envelope d) :=
  match d with ToHub => client_message_typed | ToNode => server_message_typed end.
#[export] Instance envelope_wire `{FormatRules} (d : direction) : Wire (envelope d) :=
  match d with ToHub => ControlClientMessage_wire | ToNode => ControlServerMessage_wire end.

Section stream_bytes.
Context `{FormatRules} (d : direction).

Definition payload_texts (b : payload) : list string :=
  match deref b with PHello h => [he_ClusterID h] | PControlError e => [ce_Detail e] | _ => [] end.

Lemma envelope_ok b m :
  encode d b = (Some m, None) → message_ok b →
  Forall (λ s, utf8_valid s = true) (payload_texts b) → w_ok m.
Proof.
  intros He Hok Ht. destruct d;
    destruct b as [| | [] | | [] | | [] | | [] | | [] | | [] | | [] | | [] | | [] |];
    try discriminate He; injection He as <-; destruct Hok as [Hty Hv];
    (first [refine (cw_ok (D := Hello) (P := pb_Hello) _ Hty _)
      |refine (cw_ok (D := Subscribe) (P := pb_Subscribe) _ Hty _)
      |refine (cw_ok (D := StreamAcknowledgement) (P := pb_StreamAcknowledgement) _ Hty _)
      |refine (cw_ok (D := ReplayRequest) (P := pb_ReplayRequest) _ Hty _)
      |refine (cw_ok (D := InvalidateConfirm) (P := pb_InvalidateConfirm) _ Hty _)
      |refine (cw_ok (D := InvalidationBatch) (P := pb_InvalidationBatch) _ Hty _)
      |refine (cw_ok (D := StreamCheckpoint) (P := pb_StreamCheckpoint) _ Hty _)
      |refine (cw_ok (D := ReplayUnavailable) (P := pb_ReplayUnavailable) _ Hty _)
      |refine (cw_ok (D := ControlError) (P := pb_ControlError) _ Hty _)]); exact Ht.
Qed.

Lemma envelope_fits b m :
  encode d b = (Some m, None) → message_ok b →
  (∀ h, deref b = PHello h → string_len (he_ClusterID h) < 2 ^ 21) →
  len (marshal m) <= MaxControlMessageBytes.
Proof.
  intros He Hok Hh. pose proof (encode_carries d b m He) as Hc.
  destruct (valid_messages_fit (H := schema_sizes) b Hok Hh) as [Hcl Hsv].
  destruct d; [destruct (Hcl Hc) as (m' & Hm & Hs)|destruct (Hsv Hc) as (m' & Hm & Hs)];
    cbn [encode envelope] in *; rewrite Hm in He; by injection He as <-.
Qed.

Lemma unwrap_returns {P D} (p : option P) (f : option P → D * error) any :
  ∃ r, unwrap (Some p) f any = Returns r.
Proof. unfold unwrap. destruct (f p). by eexists. Qed.

(** An envelope read from bytes has no nil wrapper, on which the decoder panics. *)
Lemma read_envelope_decodes bs m : unmarshal bs = Some m → ∃ r, decode d (Some m) = Returns r.
Proof.
  intros (vs & _ & E)%bind_Some. clear bs.
  destruct d; cbn in E |- *;
    repeat match type of E with match ?v with _ => _ end = _ => destruct v; try done end;
    first [apply bind_Some in E as (p & _ & [= <-]); apply unwrap_returns
          |injection E as <-; by eexists].
Qed.

(** C9. The Control stream carries bytes.  A valid message of a direction whose
    texts are valid UTF-8 is encoded to an envelope whose bytes fit
    [MaxControlMessageBytes] (a hello provided its cluster identity is shorter
    than 2 MiB), and the peer reads and decodes from these bytes exactly that
    message; whatever bytes a peer sends, an envelope that is read from them, by
    the rules of the format for fields that are unknown, repeated or of another
    wire type, never makes the decoder panic, and what it returns without error
    is a valid message of the direction. *)
Theorem control_stream_carries_bytes :
  (∀ b, message_ok b → carries d b = true →
     Forall (λ s, utf8_valid s = true) (payload_texts b) →
     ∃ m, encode d b = (Some m, None) ∧
       ((∀ h, deref b = PHello h → string_len (he_ClusterID h) < 2 ^ 21) →
        len (marshal m) <= MaxControlMessageBytes) ∧
       (len (marshal m) < max_len →
        ∃ m', unmarshal (marshal m) = Some m' ∧ decode d (Some m') = Returns (deref b, None))) ∧
  (∀ bs m, unmarshal bs = Some m →
     ∃ v e, decode d (Some m) = Returns (v, e) ∧
       (e = None → message_ok v ∧ carries d v = true)).
Proof.
  split.
  - intros b Hok Hc Ht. destruct (encode_valid d b Hok Hc) as (m & Hm). exists m.
    split; [done|]. split; [by apply (envelope_fits b m)|].
    intros Hlen. exists m. split; [|by apply (envelope_decodes d b)].
    by apply unmarshal_marshal; [apply (envelope_ok b)|].
  - intros bs m Hm. destruct (read_envelope_decodes bs m Hm) as [[v e] Hv].
    exists v, e. split; [done|]. intros ->. apply (decode_ok d m); [|done].
    apply unmarshal_typed in Hm. by destruct d.
Qed.
End stream_bytes.

(** A replay request of a node, byte by byte: field 4 of the envelope, six bytes
    long, holding the fields 1, 2 and 3. *)
Example replay_request_bytes `{FormatRules} :
  marshal (mk_pb_ControlClientMessage
    (Some (CCM_ReplayRequest (Some (Some (ProtoReplayRequest (mkReplayRequest 3 5 300))))))) =
    [x22; x07; x08; x03; x10; x05; x18; xac; x02].
Proof. by vm_compute. Qed.
