(* ===== verification/Remote.v ===== *)
(** * Remote calls

    The stubs composed with the conversions of internal/rpc: a node validates
    and encodes a request, calls the stub of its method and decodes the answer
    ([node_call]); a hub decodes the message it is given, handles the request
    and encodes its answer ([serves_domain]).  Neither the node nor the hub is
    in the repository; the functions here only chain the functions that are,
    and the hub's handler is arbitrary. *)

From S2P Require Import Prelude GoErrors WireStatus WireProtocol WireTypes PbCommon PbControl PbData.
From S2P Require Import RpcTypes Codec RpcConvert PbWire PbEncoding PbMessages PbBytes.
From S2P Require Import GrpcLib GrpcData GrpcControl GrpcCalls.

(** ** The domain messages of a method *)

Definition request (r : data_rpc) : Type :=
  match r with
  | RHandshake => HandshakeRequest | RHubStatus => HubStatusRequest
  | RGet => rpc_GetRequest | RMutate => MutationRequest
  end.
Definition response (r : data_rpc) : Type :=
  match r with
  | RHandshake => Handshake | RHubStatus => HubStatus
  | RGet => GetResponse | RMutate => MutationResponse
  end.

#[export] Instance request_codec (r : data_rpc) : MessageCodec (request r) (msg (rpc_in r)) :=
  match r with
  | RHandshake => HandshakeRequest_codec | RHubStatus => HubStatusRequest_codec
  | RGet => rpc_GetRequest_codec | RMutate => MutationRequest_codec
  end.
#[export] Instance response_codec (r : data_rpc) : MessageCodec (response r) (msg (rpc_out r)) :=
  match r with
  | RHandshake => Handshake_codec | RHubStatus => HubStatus_codec
  | RGet => GetResponse_codec | RMutate => MutationResponse_codec
  end.

#[export] Instance request_bytes `{FormatRules} (r : data_rpc) :
  CodecWire (request r) (msg (rpc_in r)) :=
  match r with
  | RHandshake => HandshakeRequest_bytes | RHubStatus => HubStatusRequest_bytes
  | RGet => GetRequest_bytes | RMutate => MutationRequest_bytes
  end.
#[export] Instance response_bytes `{FormatRules} (r : data_rpc) :
  CodecWire (response r) (msg (rpc_out r)) :=
  match r with
  | RHandshake => Handshake_bytes | RHubStatus => HubStatus_bytes
  | RGet => GetResponse_bytes | RMutate => MutationResponse_bytes
  end.

Section remote.
Context `{GrpcLib} `{FormatRules} (r : data_rpc).

Abbreviation decode_request := (mc_fromproto (P := msg (rpc_in r)) (D := request r)).
Abbreviation encode_request := (mc_proto (P := msg (rpc_in r)) (D := request r)).
Abbreviation decode_response := (mc_fromproto (P := msg (rpc_out r)) (D := response r)).
Abbreviation encode_response := (mc_proto (P := msg (rpc_out r)) (D := response r)).

(** A node's call: nothing for an invalid request; the zero response next to an
    error of the call. *)
Definition node_call (c : DataClient) (ctx : Ctx) (d : request r) (opts : list CallOption) :
    go (response r * error) :=
  match mc_validate (P := msg (rpc_in r)) d with
  | Some e => mret ((decode_response None).1, Some e)
  | None =>
      '(p, err) ← client_call r c ctx (Some (encode_request d)) opts;
      match err with
      | Some e => mret ((decode_response None).1, Some e)
      | None => mret (decode_response p)
      end
  end.

(** The method of the hub's server decodes the request, which [handler]
    answers; a request that does not decode, or an error of the handler, is
    answered with an error. *)
Definition serves_domain (s : DataServer) (handler : Ctx → request r → go (response r * error)) :
    Prop :=
  ∀ ctx q w,
    match decode_request q with
    | (_, Some _) => ∃ p e w', server_method r s ctx q w = (Returns (p, Some e), w')
    | (d, None) =>
        server_method r s ctx q w =
          ('(resp, err) ← handler ctx d;
           match err with
           | Some e => mret (None, Some e)
           | None => mret (Some (encode_response resp), None)
           end) w
    end.

(** [transmits d]: the receiver decodes the request as the one sent. *)
Lemma request_transmits (d : request r) :
  mc_wf (P := msg (rpc_in r)) d → mc_validate (P := msg (rpc_in r)) d = None →
  decode_request (Some (encode_request d)) = (d, None).
Proof. apply mc_roundtrip. Qed.

Lemma response_transmits (d : response r) :
  mc_wf (P := msg (rpc_out r)) d → mc_validate (P := msg (rpc_out r)) d = None →
  decode_response (Some (encode_response d)) = (d, None).
Proof. apply mc_roundtrip. Qed.

(** What a valid message is encoded to can be carried, if its texts are valid
    UTF-8 and it is not too long. *)
Lemma request_carriable limit (d : request r) :
  mc_wf (P := msg (rpc_in r)) d → texts_ok (P := msg (rpc_in r)) d →
  len (marshal (encode_request d)) <= limit → carriable limit (encode_request d).
Proof. intros Hwf Ht Hlen. split; [by apply cw_ok|done]. Qed.

Lemma response_carriable limit (d : response r) :
  mc_wf (P := msg (rpc_out r)) d → texts_ok (P := msg (rpc_out r)) d →
  len (marshal (encode_response d)) <= limit → carriable limit (encode_response d).
Proof. intros Hwf Ht Hlen. split; [by apply cw_ok|done]. Qed.

(** C5. A remote call is a local call.  Over a network without faults, to a hub
    that serves the method without interceptors, a node's call with a valid
    request, whose texts are valid UTF-8 and whose bytes are within the limit of
    the connection, runs the hub's handler on that very request and returns its
    valid response, if that can be sent too, with the handler's effects and no
    others; an error of the handler is an error of the call, with the code with
    which a gRPC server reports it.  An invalid request is refused with the
    validator's error and nothing is sent. *)
Theorem remote_call_is_local cc data control sc limit s handler ctx (d : request r) opts w :
  lossless cc (hub_services data control) sc limit → as_DataServer data = Some s →
  serves_domain s handler →
  match mc_validate (P := msg (rpc_in r)) d with
  | Some e =>
      ∃ z, node_call (NewDataClient cc) ctx d opts w = (Returns (z, Some e), w)
  | None =>
      mc_wf (P := msg (rpc_in r)) d → texts_ok (P := msg (rpc_in r)) d →
      len (marshal (encode_request d)) <= limit →
      (∀ resp w', handler (sc ctx) d w = (Returns (resp, None), w') →
         mc_wf (P := msg (rpc_out r)) resp → mc_validate (P := msg (rpc_out r)) resp = None →
         texts_ok (P := msg (rpc_out r)) resp → len (marshal (encode_response resp)) <= limit →
         node_call (NewDataClient cc) ctx d opts w = (Returns (resp, None), w')) ∧
      (∀ z e w', handler (sc ctx) d w = (Returns (z, Some e), w') →
         ∃ z' e', status_Code (Some e') = reported_code e ∧
           node_call (NewDataClient cc) ctx d opts w = (Returns (z', Some e'), w'))
  end.
Proof.
  intros Hcc Hs Hserve. unfold node_call.
  destruct (mc_validate (P := msg (rpc_in r)) d) as [e|] eqn:Hv; [by eexists|].
  intros Hwf Ht Hlen.
  pose proof (Hserve (sc ctx) (Some (encode_request d)) w) as Hm.
  rewrite (request_transmits d Hwf Hv) in Hm.
  destruct (lossless_call r cc data control sc limit s ctx (Some (encode_request d)) opts w Hcc Hs
    (request_carriable limit d Hwf Ht Hlen)) as [Hok Hfail]. rewrite sent_Some in Hok, Hfail. split.
  - intros resp w' Hh Hrwf Hrv Hrt Hrlen. rewrite (go_bind_returns _ _ _ _ _ Hh) in Hm.
    apply Hok in Hm; [|by apply response_carriable]. rewrite (go_bind_returns _ _ _ _ _ Hm).
    cbn [mret go_ret]. rewrite sent_Some. by rewrite (response_transmits resp Hrwf Hrv).
  - intros z e w' Hh. rewrite (go_bind_returns _ _ _ _ _ Hh) in Hm.
    apply Hfail in Hm as (e' & Hcode & Hcall). exists (decode_response None).1, e'.
    split; [done|]. by rewrite (go_bind_returns _ _ _ _ _ Hcall).
Qed.

(** The continuation that an interceptor of the hub is given runs the handler on
    the request of the node. *)
Lemma continuation_serves data s handler (d : request r) :
  as_DataServer data = Some s → serves_domain s handler →
  mc_wf (P := msg (rpc_in r)) d → mc_validate (P := msg (rpc_in r)) d = None →
  ∀ ctx w, continuation r data ctx (AnyPtr (rpc_in r) (Some (encode_request d))) w =
    ('(resp, err) ← handler ctx d;
     match err with
     | Some e => mret (AnyPtr (rpc_out r) None, Some e)
     | None => mret (AnyPtr (rpc_out r) (Some (encode_response resp)), None)
     end) w.
Proof.
  intros Hs Hserve Hwf Hv ctx w. destruct (continuation_runs r data s Hs) as [-> _].
  pose proof (Hserve ctx (Some (encode_request d)) w) as Hm.
  rewrite (request_transmits d Hwf Hv) in Hm. unfold box, mbind, go_bind in *. rewrite Hm.
  destruct (handler ctx d w) as [[[resp [e|]]|e] w']; done.
Qed.

(** C6. What a node accepts, a hub said.  Over any network, when a node's call
    returns a response without error, the request and the response are valid,
    and the answer was given while the call lasted.  If the hub has no
    interceptor, its handler was run on the node's request and answered with a
    response whose encoding decodes to the response returned.  If it has one,
    the interceptor was run on the encoding of the node's request, with a
    continuation that runs the handler on that request and encodes its answer,
    and the response is what decodes from the interceptor's own answer. *)
Theorem accepted_response_was_given cc data control i s handler ctx (d : request r) opts w resp w' :
  dispatches cc (hub_services data control) i → as_DataServer data = Some s →
  serves_domain s handler → mc_wf (P := msg (rpc_in r)) d →
  node_call (NewDataClient cc) ctx d opts w = (Returns (resp, None), w') →
  mc_validate (P := msg (rpc_in r)) d = None ∧ mc_validate (P := msg (rpc_out r)) resp = None ∧
  ∃ ctx' w1 w2, before w w1 ∧ before w2 w' ∧
    match i with
    | None => ∃ given, handler ctx' d w1 = (Returns (given, None), w2) ∧
        decode_response (Some (encode_response given)) = (resp, None) ∧
        (mc_wf (P := msg (rpc_out r)) given → mc_validate (P := msg (rpc_out r)) given = None →
         given = resp)
    | Some i => ∃ b,
        i ctx' (AnyPtr (rpc_in r) (Some (encode_request d)))
          {| usi_Server := data; usi_FullMethod := full_method_name r |} (continuation r data) w1 =
          (Returns (b, None), w2) ∧
        (∀ p, b = AnyPtr (rpc_out r) p → decode_response (Some (sent p)) = (resp, None)) ∧
        ∀ ctx w, continuation r data ctx (AnyPtr (rpc_in r) (Some (encode_request d))) w =
          ('(resp, err) ← handler ctx d;
           match err with
           | Some e => mret (AnyPtr (rpc_out r) None, Some e)
           | None => mret (AnyPtr (rpc_out r) (Some (encode_response resp)), None)
           end) w
    end.
Proof.
  intros Hcc Hs Hserve Hwf. unfold node_call.
  destruct (mc_validate (P := msg (rpc_in r)) d) as [e|] eqn:Hv; [done|].
  intros ([p [e|]] & w1 & Hcall & Hret)%go_bind_inv; [done|].
  injection Hret as Hdec <-. split; [done|]. split; [by eapply mc_sound|].
  apply (client_call_success r cc data control i) in Hcall
    as (a & ctx' & w2 & w3 & b & -> & Hb1 & Hb2 & Hans & Hdel); [|done].
  exists ctx', w2, w3. split_and!; [done..|]. rewrite sent_Some in Hans.
  destruct i as [i|].
  - exists b. split_and!; [exact Hans| |by apply (continuation_serves data s)].
    intros q Hq. by rewrite <-(Hdel q Hq).
  - apply direct_answer in Hans as (s' & q & Hs' & -> & Hm).
    rewrite Hs in Hs'. injection Hs' as <-. specialize (Hdel q eq_refl). subst a.
    pose proof (Hserve ctx' (Some (encode_request d)) w2) as Hd.
    rewrite (request_transmits d Hwf Hv), Hm in Hd. symmetry in Hd.
    apply go_bind_inv in Hd as ([given [e|]] & w4 & Hh & Hret); [done|].
    injection Hret as <- ->. exists given. split_and!; [done..|].
    intros Hgwf Hgv. rewrite sent_Some in Hdec.
    rewrite (response_transmits given Hgwf Hgv) in Hdec. congruence.
Qed.
End remote.

(** ** A hub that answers every read with a miss *)
#[local] Existing Instances traced_grpc traced_laws any_rules.

Definition miss (ctx : unit) (d : rpc_GetRequest) : go (GetResponse * error) := λ w,
  (Returns (mkGetResponse StatusNotFound (rgr_HubGeneration d) zero_VersionTag [] 0 RecordValue, None),
   "miss"%string :: w).

Definition missing_server : DataServer :=
  {| ds_Handshake := UnimplementedDataServer_Handshake;
     ds_HubStatus := UnimplementedDataServer_HubStatus;
     ds_Get := λ ctx q,
       match FromProtoGetRequest q with
       | (_, Some e) => mret (None, Some e)
       | (d, None) =>
           '(resp, err) ← miss ctx d;
           match err with
           | Some e => mret (None, Some e)
           | None => mret (Some (ProtoGetResponse resp), None)
           end
       end;
     ds_Mutate := UnimplementedDataServer_Mutate;
     ds_mustEmbedUnimplementedDataServer := mret tt |}.
Definition missing_hub : service := mkService (Some missing_server) None None.

Lemma missing_hub_serves : serves_domain RGet missing_server miss.
Proof.
  intros ctx q w. cbn [mc_fromproto request_codec rpc_GetRequest_codec].
  change (FromProtoGetRequest q) with (FromProtoGetRequest q).
  cbn [server_method missing_server ds_Get].
  destruct (FromProtoGetRequest q) as [d [e|]]; [by exists None, e, w|done].
Qed.

Lemma remote_call_is_local_witness :
  node_call RGet (NewDataClient (loop_connection missing_hub)) tt
    (mkRpcGetRequest (string_bytes "k") None 7) [] [] =
    (Returns (mkGetResponse StatusNotFound 7 zero_VersionTag [] 0 RecordValue, None), ["miss"%string]).
Proof.
  pose proof (remote_call_is_local RGet (loop_connection missing_hub) missing_hub missing_hub id
    4194304 missing_server miss tt (mkRpcGetRequest (string_bytes "k") None 7) [] []
    (loop_lossless _ _ _ traced_codes) eq_refl missing_hub_serves) as Hcall.
  apply Hcall; first [by vm_compute|constructor].
Defined.

Lemma accepted_response_was_given_witness :
  mc_validate (P := msg (rpc_out RGet)) (D := GetResponse)
    (mkGetResponse StatusNotFound 7 zero_VersionTag [] 0 RecordValue) = None.
Proof.
  apply (accepted_response_was_given RGet (loop_connection missing_hub) missing_hub missing_hub
    None missing_server miss tt (mkRpcGetRequest (string_bytes "k") None 7) [] [] _ ["miss"%string]
    (loop_dispatches _ _) eq_refl missing_hub_serves); by vm_compute.
Defined.
