(* ===== verification/ErrorClasses.v ===== *)
(** * The errors of the two planes

    A caller tells errors apart with [errors.Is].  Every error that a validator
    or a decoder returns wraps one of the exported sentinel errors of its
    package or of [wire], which [classified] says, except a few errors without
    a sentinel, which are listed. *)

From S2P Require Import Prelude GoErrors GoStd WireStatus WireProtocol WireTypes WireRecord Partition.
From S2P Require Import PbCommon PbControl PbData RpcTypes RpcConvert ControlTypes ControlConvert.

Definition classified (sentinels : list err) (r : error) : Prop :=
  match r with Some e => existsb (errors_Is e) sentinels = true | None => True end.

(** ** The exported sentinels *)

Definition wire_sentinels : list err :=
  [ErrKeyEmpty; ErrKeyTooLarge; ErrValueTooLarge; ErrMutationIDRequired; ErrInvalidWriteMode;
   ErrInvalidConfirmLevel; ErrInvalidStorageProfile; ErrPersistenceConfigRequired;
   ErrInvalidWriteTimeout; ErrTimeoutNotWholeMillis; ErrWriteTimeoutTooLarge;
   ErrTTLNotWholeMilliseconds; ErrInvalidProtocolRange; ErrIncompatibleProtocolRanges;
   ErrInvalidGetStatus; ErrMissingVersion; ErrUnexpectedVersion; ErrUnexpectedValue;
   ErrInvalidRecordKind; ErrInvalidResultTTL; ErrInvalidPartitionCount].

Definition rpc_sentinels : list err :=
  [rpc_ErrInvalidHubGeneration; ErrInvalidDurableHealth; ErrInvalidOp; ErrUnexpectedTTL;
   ErrInvalidMutationStatus; rpc_ErrInvalidNodeID; ErrMutationFingerprintMismatch;
   ErrInvalidStatus; ErrInvalidEnum; rpc_ErrInvalidClusterID] ++ wire_sentinels.

Definition control_sentinels : list err :=
  [control_ErrInvalidHubGeneration; control_ErrInvalidNodeID; ErrInvalidSequence;
   ErrInvalidSequenceRange; ErrNonContiguousBatch; ErrPartitionMismatch;
   control_ErrInvalidRecordKind; ErrTooManyEvents; ErrBatchTooLarge; ErrTooManySubscriptions;
   ErrDuplicateSubscription; ErrEmptySubscriptions; ErrEmptyInvalidationBatch; ErrInvalidMessage;
   control_ErrInvalidClusterID; ErrInvalidControlStatus; ErrControlDetailTooLarge] ++ wire_sentinels.

(** ** Lemmas *)

Create HintDb classify.

Lemma classified_try S e k : classified S e → classified S k →
  classified S (match e with Some er => Some er | None => k end).
Proof. by destruct e. Qed.

Lemma classified_if S (b : bool) e k : classified S e → classified S k →
  classified S (if b then e else k).
Proof. by destruct b. Qed.

Lemma classified_let {A B} S (r : A * error) (z : B) k :
  classified S r.2 → (∀ a, classified S (k a).2) →
  classified S (match r with (a, None) => k a | (_, Some er) => (z, Some er) end).2.
Proof. by destruct r as [a [e|]]; intros; cbn. Qed.

Lemma classified_if_snd {B} S (b : bool) (e k : B * error) : classified S e.2 → classified S k.2 →
  classified S (if b then e else k).2.
Proof. by destruct b. Qed.

Lemma classified_wrap S f e args : classified S (Some e) → classified S (Some (Wrapf f e args)).
Proof. done. Qed.

Lemma classified_more S T e : classified T e → classified (S ++ T) e.
Proof. destruct e as [e|]; [|done]. cbn. rewrite existsb_app. intros ->. apply orb_true_r. Qed.

(** One step of the search: through the guards and the early returns of a
    function, to the sentinels at its leaves. *)
Ltac classify :=
  repeat first
    [ exact I
    | reflexivity
    | progress eauto with classify nocore
    | apply classified_if | apply classified_try
    | apply classified_let; [|intros ?] | apply classified_if_snd ].

(** ** wire *)

Lemma ProtocolRange_Validate_classified r : classified wire_sentinels (ProtocolRange_Validate r).
Proof. unfold ProtocolRange_Validate. classify. Qed.
Lemma validateKey_classified k : classified wire_sentinels (validateKey k).
Proof. unfold validateKey. classify. Qed.
Lemma WriteOptions_Validate_classified o : classified wire_sentinels (WriteOptions_Validate o).
Proof. unfold WriteOptions_Validate. classify. Qed.
#[export] Hint Resolve ProtocolRange_Validate_classified validateKey_classified
  WriteOptions_Validate_classified : classify.

Lemma SetRequest_Validate_classified r : classified wire_sentinels (SetRequest_Validate r).
Proof. unfold SetRequest_Validate. classify. Qed.
Lemma DeleteRequest_Validate_classified r : classified wire_sentinels (DeleteRequest_Validate r).
Proof. unfold DeleteRequest_Validate. classify. Qed.
Lemma ValidateCommitted_classified v : classified wire_sentinels (VersionTag_ValidateCommitted v).
Proof. unfold VersionTag_ValidateCommitted. classify. Qed.
#[export] Hint Resolve SetRequest_Validate_classified DeleteRequest_Validate_classified
  ValidateCommitted_classified : classify.

Lemma GetRecordFields_Validate_classified r :
  classified wire_sentinels (GetRecordFields_Validate r).
Proof. unfold GetRecordFields_Validate. classify. Qed.
Lemma Negotiate_classified r peer : classified wire_sentinels (ProtocolRange_Negotiate r peer).2.
Proof.
  unfold ProtocolRange_Negotiate. pose proof (ProtocolRange_Validate_classified r).
  pose proof (ProtocolRange_Validate_classified peer).
  destruct (ProtocolRange_Validate r), (ProtocolRange_Validate peer); try done. cbv zeta. classify.
Qed.
#[export] Hint Resolve GetRecordFields_Validate_classified : classify.

(** What is classified in [wire] is classified in the two packages. *)
Lemma rpc_of_wire e : classified wire_sentinels e → classified rpc_sentinels e.
Proof. apply classified_more. Qed.
Lemma control_of_wire e : classified wire_sentinels e → classified control_sentinels e.
Proof. apply classified_more. Qed.
#[export] Hint Resolve rpc_of_wire control_of_wire : classify.

(** ** rpc *)

Lemma validateClusterID_classified id : classified rpc_sentinels (validateClusterID id).
Proof. unfold validateClusterID. classify. Qed.
#[export] Hint Resolve validateClusterID_classified : classify.

Lemma HandshakeRequest_Validate_classified m : classified rpc_sentinels (HandshakeRequest_Validate m).
Proof. unfold HandshakeRequest_Validate. classify. Qed.
Lemma Handshake_Validate_classified m : classified rpc_sentinels (Handshake_Validate m).
Proof. unfold Handshake_Validate. classify. Qed.
Lemma HubStatusRequest_Validate_classified m : classified rpc_sentinels (HubStatusRequest_Validate m).
Proof. unfold HubStatusRequest_Validate. classify. Qed.
Lemma HubStatus_Validate_classified m : classified rpc_sentinels (HubStatus_Validate m).
Proof. unfold HubStatus_Validate. classify. Qed.
Lemma rpc_GetRequest_Validate_classified m : classified rpc_sentinels (rpc_GetRequest_Validate m).
Proof. unfold rpc_GetRequest_Validate. rewrite rpc_validateKey_eq. classify. Qed.
Lemma GetResponse_Validate_classified m : classified rpc_sentinels (GetResponse_Validate m).
Proof. unfold GetResponse_Validate. classify. Qed.
Lemma MutationRequest_Validate_classified m : classified rpc_sentinels (MutationRequest_Validate m).
Proof. unfold MutationRequest_Validate. cbv zeta. classify. Qed.
Lemma MutationResponse_Validate_classified m : classified rpc_sentinels (MutationResponse_Validate m).
Proof. unfold MutationResponse_Validate. classify. Qed.
#[export] Hint Resolve HandshakeRequest_Validate_classified Handshake_Validate_classified
  HubStatusRequest_Validate_classified HubStatus_Validate_classified
  rpc_GetRequest_Validate_classified GetResponse_Validate_classified
  MutationRequest_Validate_classified MutationResponse_Validate_classified : classify.

Ltac classify_decoder := cbv zeta; repeat (classify; cbn [snd]).

Lemma FromProtoStatus_classified s : classified rpc_sentinels (FromProtoStatus s).2.
Proof. unfold FromProtoStatus. classify_decoder. Qed.
Lemma FromProtoRecordKind_classified k : classified rpc_sentinels (FromProtoRecordKind k).2.
Proof. unfold FromProtoRecordKind. classify_decoder. Qed.
Lemma FromProtoWriteMode_classified m : classified rpc_sentinels (FromProtoWriteMode m).2.
Proof. unfold FromProtoWriteMode. classify_decoder. Qed.
Lemma FromProtoStorageProfile_classified p : classified rpc_sentinels (FromProtoStorageProfile p).2.
Proof. unfold FromProtoStorageProfile. classify_decoder. Qed.
Lemma FromProtoConfirmLevel_classified c : classified rpc_sentinels (FromProtoConfirmLevel c).2.
Proof. unfold FromProtoConfirmLevel. classify_decoder. Qed.
Lemma FromProtoMutationOp_classified o : classified rpc_sentinels (FromProtoMutationOp o).2.
Proof. unfold FromProtoMutationOp. classify_decoder. Qed.
Lemma protocolVersion_classified v : classified wire_sentinels (rpc_protocolVersionFromUint32 v).2.
Proof. unfold rpc_protocolVersionFromUint32. classify_decoder. Qed.
#[export] Hint Resolve FromProtoStatus_classified FromProtoRecordKind_classified
  FromProtoWriteMode_classified FromProtoStorageProfile_classified
  FromProtoConfirmLevel_classified FromProtoMutationOp_classified
  protocolVersion_classified : classify.

Lemma FromProtoHandshakeRequest_classified q :
  classified rpc_sentinels (FromProtoHandshakeRequest (Some q)).2.
Proof. unfold FromProtoHandshakeRequest. classify_decoder. Qed.
Lemma FromProtoHandshake_classified q : classified rpc_sentinels (FromProtoHandshake (Some q)).2.
Proof. unfold FromProtoHandshake. classify_decoder. Qed.
Lemma FromProtoHubStatusRequest_classified q :
  classified rpc_sentinels (FromProtoHubStatusRequest (Some q)).2.
Proof. unfold FromProtoHubStatusRequest. classify_decoder. Qed.
Lemma FromProtoHubStatus_classified q : classified rpc_sentinels (FromProtoHubStatus (Some q)).2.
Proof. unfold FromProtoHubStatus. classify_decoder. Qed.
Lemma FromProtoGetRequest_classified q : classified rpc_sentinels (FromProtoGetRequest (Some q)).2.
Proof. unfold FromProtoGetRequest. classify_decoder. Qed.
Lemma FromProtoGetResponse_classified q : classified rpc_sentinels (FromProtoGetResponse (Some q)).2.
Proof. unfold FromProtoGetResponse. classify_decoder. Qed.
Lemma FromProtoMutationResponse_classified q :
  classified rpc_sentinels (FromProtoMutationResponse (Some q)).2.
Proof. unfold FromProtoMutationResponse. classify_decoder. Qed.

(** A mutation identity of a length that is neither 0 nor 16 is refused with an
    error that wraps no sentinel. *)
Definition missized_id (m : option pb_MutationID) : bool :=
  match m with
  | None => false
  | Some i => negb ((len (pb_MutationID_Id i) =? 0) || (len (pb_MutationID_Id i) =? 16))
  end.
Definition id_length_error (m : option pb_MutationID) : err :=
  Errorf "mutation id must be %d bytes, got %d" [AInt 16; AInt (len (pb_MutationID_GetId m))].

Lemma FromProtoMutationID_classified m :
  if missized_id m then (FromProtoMutationID m).2 = Some (id_length_error m)
  else classified wire_sentinels (FromProtoMutationID m).2.
Proof.
  destruct m as [[id]|]; [|done]. unfold FromProtoMutationID, missized_id, id_length_error.
  cbn [pb_MutationID_GetId pb_MutationID_Id]. cbv zeta.
  change (len (zero_bytes 16)) with 16.
  destruct (len id =? 0), (len id =? 16); done.
Qed.

Lemma FromProtoMutationRequest_classified q :
  if missized_id (pb_MutationRequest_MutationId q)
  then (FromProtoMutationRequest (Some q)).2 =
         Some (id_length_error (pb_MutationRequest_MutationId q))
  else classified rpc_sentinels (FromProtoMutationRequest (Some q)).2.
Proof.
  unfold FromProtoMutationRequest. cbn [pb_MutationRequest_GetMutationId].
  pose proof (FromProtoMutationID_classified (pb_MutationRequest_MutationId q)) as Hid.
  destruct (missized_id _).
  - destruct (FromProtoMutationID _) as [id [e|]]; [|done]. by injection Hid as ->.
  - classify_decoder.
Qed.

(** ** control *)

Lemma Hello_subscriptions_classified seen l : classified control_sentinels (Hello_subscriptions seen l).
Proof. revert seen. induction l as [|s l IH]; intros; cbn [Hello_subscriptions]; classify. Qed.
Lemma Subscribe_streams_classified seen l : classified control_sentinels (Subscribe_streams seen l).
Proof. revert seen. induction l as [|s l IH]; intros; cbn [Subscribe_streams]; classify. Qed.
Lemma InvalidationEvent_validate_classified e id :
  classified control_sentinels (InvalidationEvent_validate e id).
Proof. unfold InvalidationEvent_validate. classify. Qed.
Lemma InvalidationBatch_events_classified id i p l :
  classified control_sentinels (InvalidationBatch_events id i p l).
Proof.
  revert i p. induction l as [|e l IH]; intros; cbn [InvalidationBatch_events]; [done|].
  pose proof (InvalidationEvent_validate_classified e id) as He.
  destruct (InvalidationEvent_validate e id); [by apply classified_wrap|]. classify.
Qed.
#[export] Hint Resolve Hello_subscriptions_classified Subscribe_streams_classified
  InvalidationBatch_events_classified : classify.

Lemma Hello_Validate_classified m : classified control_sentinels (Hello_Validate m).
Proof. unfold Hello_Validate. classify. Qed.
Lemma Subscribe_Validate_classified m : classified control_sentinels (Subscribe_Validate m).
Proof. unfold Subscribe_Validate. classify. Qed.
Lemma InvalidationBatch_Validate_classified m :
  classified control_sentinels (InvalidationBatch_Validate m).
Proof. unfold InvalidationBatch_Validate. classify. Qed.
Lemma StreamAcknowledgement_Validate_classified m :
  classified control_sentinels (StreamAcknowledgement_Validate m).
Proof. unfold StreamAcknowledgement_Validate. classify. Qed.
Lemma StreamCheckpoint_Validate_classified m :
  classified control_sentinels (StreamCheckpoint_Validate m).
Proof. unfold StreamCheckpoint_Validate. classify. Qed.
Lemma ReplayRequest_Validate_classified m : classified control_sentinels (ReplayRequest_Validate m).
Proof. unfold ReplayRequest_Validate. classify. Qed.
Lemma ReplayUnavailable_Validate_classified m :
  classified control_sentinels (ReplayUnavailable_Validate m).
Proof. unfold ReplayUnavailable_Validate. classify. Qed.
Lemma InvalidateConfirm_Validate_classified m :
  classified control_sentinels (InvalidateConfirm_Validate m).
Proof. unfold InvalidateConfirm_Validate. classify. Qed.
Lemma ControlError_Validate_classified m : classified control_sentinels (ControlError_Validate m).
Proof. unfold ControlError_Validate. classify. Qed.
#[export] Hint Resolve Hello_Validate_classified Subscribe_Validate_classified
  InvalidationBatch_Validate_classified StreamAcknowledgement_Validate_classified
  StreamCheckpoint_Validate_classified ReplayRequest_Validate_classified
  ReplayUnavailable_Validate_classified InvalidateConfirm_Validate_classified
  ControlError_Validate_classified : classify.

Lemma recordKindFromProto_classified k : classified control_sentinels (recordKindFromProto k).2.
Proof. unfold recordKindFromProto. classify_decoder. Qed.
Lemma statusFromProto_classified s : classified control_sentinels (statusFromProto s).2.
Proof. unfold statusFromProto. classify_decoder. Qed.
Lemma control_protocolVersion_classified v :
  classified wire_sentinels (control_protocolVersionFromUint32 v).2.
Proof. apply protocolVersion_classified. Qed.
Lemma FromProtoHello_subscriptions_classified l :
  classified control_sentinels (FromProtoHello_subscriptions l).2.
Proof. induction l as [|[s|] l IH]; cbn [FromProtoHello_subscriptions]; classify_decoder. Qed.
#[export] Hint Resolve recordKindFromProto_classified statusFromProto_classified
  control_protocolVersion_classified FromProtoHello_subscriptions_classified : classify.

(** Some event of the batch has a missized identity. *)
Definition missized_event (l : list (option pb_InvalidationEvent)) (m : option pb_MutationID) : Prop :=
  missized_id m = true ∧ ∃ e, Some e ∈ l ∧ pb_InvalidationEvent_MutationId e = m.

(** The error is classified, or is the length of some identity in the batch. *)
Definition classified_ids (l : list (option pb_InvalidationEvent)) (r : error) : Prop :=
  classified control_sentinels r ∨ ∃ m, missized_event l m ∧ r = Some (id_length_error m).

Lemma FromProtoInvalidationBatch_events_classified i l :
  classified_ids l (FromProtoInvalidationBatch_events i l).2.
Proof.
  revert i. induction l as [|[e|] l IH]; intros i; cbn [FromProtoInvalidationBatch_events];
    [by left| |by left].
  cbn [pb_InvalidationEvent_GetMutationId]. rewrite mutationIDFromProto_eq.
  pose proof (FromProtoMutationID_classified (pb_InvalidationEvent_MutationId e)) as Hid.
  destruct (missized_id _) eqn:Hm.
  { right. exists (pb_InvalidationEvent_MutationId e). split; [split; [done|]; exists e; set_solver|].
    destruct (FromProtoMutationID _) as [id [er|]]; [done|discriminate Hid]. }
  destruct (FromProtoMutationID _) as [id [er|]]; [left; by apply control_of_wire|].
  pose proof (recordKindFromProto_classified (pb_InvalidationEvent_GetKind (Some e))) as Hk.
  destruct (recordKindFromProto _) as [k [er|]]; [by left|]. cbv zeta.
  destruct (IH (i + 1)) as [Hc|(m & [Hs (e' & He' & Hid')] & Her)];
    destruct (FromProtoInvalidationBatch_events (i + 1) l) as [out [er|]]; cbn in *; try done;
    [by left|by left|].
  right. exists m. split; [split; [done|]; exists e'; set_solver|done].
Qed.

Lemma FromProtoInvalidationBatch_classified q :
  classified_ids (pb_InvalidationBatch_Events q) (FromProtoInvalidationBatch (Some q)).2.
Proof.
  unfold FromProtoInvalidationBatch. cbn [pb_InvalidationBatch_GetEvents].
  pose proof (FromProtoInvalidationBatch_events_classified 0 (pb_InvalidationBatch_Events q)) as He.
  destruct (FromProtoInvalidationBatch_events _ _) as [evs [er|]]; [done|].
  left. apply InvalidationBatch_Validate_classified.
Qed.

Lemma FromProtoHello_classified q : classified control_sentinels (FromProtoHello q).2.
Proof. destruct q; [|done]. unfold FromProtoHello. classify_decoder. Qed.
Lemma FromProtoSubscribe_classified q : classified control_sentinels (FromProtoSubscribe q).2.
Proof. destruct q; [|done]. unfold FromProtoSubscribe. classify_decoder. Qed.
Lemma FromProtoStreamAcknowledgement_classified q :
  classified control_sentinels (FromProtoStreamAcknowledgement q).2.
Proof. destruct q; [|done]. unfold FromProtoStreamAcknowledgement. classify_decoder. Qed.
Lemma FromProtoStreamCheckpoint_classified q :
  classified control_sentinels (FromProtoStreamCheckpoint q).2.
Proof. destruct q; [|done]. unfold FromProtoStreamCheckpoint. classify_decoder. Qed.
Lemma FromProtoReplayRequest_classified q : classified control_sentinels (FromProtoReplayRequest q).2.
Proof. destruct q; [|done]. unfold FromProtoReplayRequest. classify_decoder. Qed.
Lemma FromProtoReplayUnavailable_classified q :
  classified control_sentinels (FromProtoReplayUnavailable q).2.
Proof. destruct q; [|done]. unfold FromProtoReplayUnavailable. classify_decoder. Qed.
Lemma FromProtoInvalidateConfirm_classified q :
  classified control_sentinels (FromProtoInvalidateConfirm q).2.
Proof. destruct q; [|done]. unfold FromProtoInvalidateConfirm. classify_decoder. Qed.
Lemma FromProtoControlError_classified q : classified control_sentinels (FromProtoControlError q).2.
Proof. destruct q; [|done]. unfold FromProtoControlError. classify_decoder. Qed.

(** ** The planes *)

(** C36. Errors of the Data plane can be told apart.  Every error of a validator
    wraps an exported sentinel of [rpc] or [wire]; so does every error of a
    decoder for a message that is there, except that a mutation identity of a
    wrong length is refused with an error without sentinel; a missing message
    is refused by every decoder with an error without sentinel. *)
Theorem data_plane_errors_classified :
  ((∀ m, classified rpc_sentinels (HandshakeRequest_Validate m)) ∧
   (∀ m, classified rpc_sentinels (Handshake_Validate m)) ∧
   (∀ m, classified rpc_sentinels (HubStatusRequest_Validate m)) ∧
   (∀ m, classified rpc_sentinels (HubStatus_Validate m)) ∧
   (∀ m, classified rpc_sentinels (rpc_GetRequest_Validate m)) ∧
   (∀ m, classified rpc_sentinels (GetResponse_Validate m)) ∧
   (∀ m, classified rpc_sentinels (MutationRequest_Validate m)) ∧
   (∀ m, classified rpc_sentinels (MutationResponse_Validate m))) ∧
  ((∀ q, classified rpc_sentinels (FromProtoHandshakeRequest (Some q)).2) ∧
   (∀ q, classified rpc_sentinels (FromProtoHandshake (Some q)).2) ∧
   (∀ q, classified rpc_sentinels (FromProtoHubStatusRequest (Some q)).2) ∧
   (∀ q, classified rpc_sentinels (FromProtoHubStatus (Some q)).2) ∧
   (∀ q, classified rpc_sentinels (FromProtoGetRequest (Some q)).2) ∧
   (∀ q, classified rpc_sentinels (FromProtoGetResponse (Some q)).2) ∧
   (∀ q, classified rpc_sentinels (FromProtoMutationResponse (Some q)).2) ∧
   (∀ q, if missized_id (pb_MutationRequest_MutationId q)
         then (FromProtoMutationRequest (Some q)).2 =
                Some (id_length_error (pb_MutationRequest_MutationId q))
         else classified rpc_sentinels (FromProtoMutationRequest (Some q)).2)) ∧
  [(FromProtoHandshakeRequest None).2; (FromProtoHandshake None).2;
   (FromProtoHubStatusRequest None).2; (FromProtoHubStatus None).2;
   (FromProtoGetRequest None).2; (FromProtoGetResponse None).2;
   (FromProtoMutationRequest None).2; (FromProtoMutationResponse None).2] =
  (λ text, Some (Errorf text [])) <$>
    ["nil handshake request"; "nil handshake response"; "nil hub status request"; "nil hub status";
     "nil get request"; "nil get response"; "nil mutation request"; "nil mutation response"]%string.
Proof.
  split; [split_and!; auto with classify|]. split; [|reflexivity].
  split_and!; auto using FromProtoHandshakeRequest_classified, FromProtoHandshake_classified,
    FromProtoHubStatusRequest_classified, FromProtoHubStatus_classified,
    FromProtoGetRequest_classified, FromProtoGetResponse_classified,
    FromProtoMutationResponse_classified.
  apply FromProtoMutationRequest_classified.
Qed.

(** The events of a message that carries a batch. *)
Definition batch_events (s : option pb_ControlServerMessage) : list (option pb_InvalidationEvent) :=
  match pb_ControlServerMessage_GetBody s with
  | Some (CSM_InvalidationBatch (Some (Some q))) => pb_InvalidationBatch_Events q
  | _ => []
  end.

Lemma unwrap_classified {P D} (Q : error → Prop) (w : option (option P))
    (convert : option P → D * error) any v r :
  (∀ q, Q (convert q).2) → unwrap w convert any = Returns (v, r) → Q r.
Proof.
  intros Hq. destruct w as [q|]; [|done]. cbn. specialize (Hq q).
  destruct (convert q) as [a e]. by intros [= _ <-].
Qed.

(** C35. Errors of the Control plane can be told apart.  Every error of a
    validator, of an envelope encoder and of an envelope decoder wraps an
    exported sentinel of [control] or [wire], except that an invalidation whose
    mutation identity has a wrong length is refused with the error that states
    its length. *)
Theorem control_plane_errors_classified :
  ((∀ m, classified control_sentinels (Hello_Validate m)) ∧
   (∀ m, classified control_sentinels (Subscribe_Validate m)) ∧
   (∀ m, classified control_sentinels (InvalidationBatch_Validate m)) ∧
   (∀ m, classified control_sentinels (StreamAcknowledgement_Validate m)) ∧
   (∀ m, classified control_sentinels (StreamCheckpoint_Validate m)) ∧
   (∀ m, classified control_sentinels (ReplayRequest_Validate m)) ∧
   (∀ m, classified control_sentinels (ReplayUnavailable_Validate m)) ∧
   (∀ m, classified control_sentinels (InvalidateConfirm_Validate m)) ∧
   (∀ m, classified control_sentinels (ControlError_Validate m))) ∧
  (∀ b, classified control_sentinels (ProtoClientMessage b).2) ∧
  (∀ b, classified control_sentinels (ProtoServerMessage b).2) ∧
  (∀ m v r, FromProtoClientMessage m = Returns (v, r) → classified control_sentinels r) ∧
  (∀ m v r, FromProtoServerMessage m = Returns (v, r) → classified_ids (batch_events m) r).
Proof.
  split; [by split_and!; auto with classify|]. split_and!.
  - by destruct b as [| | [] | | [] | | [] | | [] | | [] | | [] | | [] | | [] | | [] |].
  - by destruct b as [| | [] | | [] | | [] | | [] | | [] | | [] | | [] | | [] | | [] |].
  - intros [[[[w|w|w|w|w]|]]|] v r; cbn; [..|by intros [= _ <-]|by intros [= _ <-]];
      apply unwrap_classified; auto using FromProtoHello_classified, FromProtoSubscribe_classified,
        FromProtoStreamAcknowledgement_classified, FromProtoReplayRequest_classified,
        FromProtoInvalidateConfirm_classified.
  - intros [[[[w|w|w|w]|]]|] v r; cbn; [|..|intros [= _ <-]; by left|intros [= _ <-]; by left].
    + destruct w as [[q|]|]; [|intros Hw; injection Hw as _ <-; by left|done].
      cbn [unwrap]. pose proof (FromProtoInvalidationBatch_classified q) as Hq.
      destruct (FromProtoInvalidationBatch (Some q)) as [a e]. by intros [= _ <-].
    + intros Hw. left. revert Hw. apply unwrap_classified, FromProtoStreamCheckpoint_classified.
    + intros Hw. left. revert Hw. apply unwrap_classified, FromProtoReplayUnavailable_classified.
    + intros Hw. left. revert Hw. apply unwrap_classified, FromProtoControlError_classified.
Qed.
