(* ===== verification/Conformance.v ===== *)
(** * The repository's tests, on the model

    The tables of the Go tests (src/internal/*/*_test.go), evaluated on the
    definitions of this development: each example carries the name of the test
    function it replays.  A row is a call and the sentinel the test expects,
    none for an accepted input.  The tests that look for aliasing after a
    [Clone] are the subject of [Ownership]. *)

From S2P Require Import Prelude GoErrors GoStd Partition WireStatus WireProtocol WireTypes WireRecord.
From S2P Require Import PbCommon PbControl PbData RpcTypes RpcConvert RpcDedup L1.
From S2P Require Import ControlTypes ControlConvert.

(** [errors.Is(err, want)] of a test, in which a nil [want] asks for no error. *)
Definition expects (row : error * error) : bool :=
  match row with
  | (r, None) => bool_decide (r = None)
  | (r, Some want) => match r with Some e => errors_Is e want | None => false end
  end.

Definition fails (r : error) : bool := negb (bool_decide (r = None)).

(** [make([]byte, n)] *)
Definition make_bytes (n : Z) : bytes := zero_bytes (Z.to_nat n).

Lemma len_make_bytes n : 0 <= n → len (make_bytes n) = n.
Proof. intros. unfold len, make_bytes. rewrite length_zero_bytes. lia. Qed.

(** ** wire/types_test.go *)

Example TestVersionTagIsNewer :
  VersionTag_IsNewer (mkVersionTag 2 11) (mkVersionTag 2 10) = true ∧
  VersionTag_IsNewer (mkVersionTag 3 11) (mkVersionTag 2 10) = false ∧
  VersionTag_IsNewer (mkVersionTag 2 10) (mkVersionTag 2 10) = false.
Proof. done. Qed.

Example TestVersionTagIsZero :
  VersionTag_IsZero (mkVersionTag 0 0) = true ∧ VersionTag_IsZero (mkVersionTag 1 0) = false.
Proof. done. Qed.

Example TestRecordKindValidation :
  RecordKind_Valid RecordValue && RecordKind_Valid RecordTombstone = true ∧
  RecordKind_Valid 2 = false.
Proof. done. Qed.

Example TestMutationIDLayout :
  let id := NewMutationID 0x0102030405060708 0x1112131415161718 in
  id = [x01; x02; x03; x04; x05; x06; x07; x08; x11; x12; x13; x14; x15; x16; x17; x18]%byte ∧
  MutationID_NodeEpoch id = 0x0102030405060708 ∧ MutationID_Counter id = 0x1112131415161718 ∧
  MutationID_IsZero id = false ∧ MutationID_IsZero (zero_bytes 16) = true.
Proof. by vm_compute. Qed.

Definition zero_WriteOptions : WriteOptions := mkWriteOptions 0 0 0 0.

Example TestZeroValueDefaults :
  wo_Mode zero_WriteOptions = WriteFast ∧
  wo_ConfirmLevel zero_WriteOptions = ConfirmInvalidateApplied ∧
  WriteOptions_Validate zero_WriteOptions = None ∧
  StorageProfile_Validate 0 false = None ∧ 0 = StorageMemory.
Proof. done. Qed.

Example TestStorageProfileValidation :
  forallb expects
    [(StorageProfile_Validate StorageDurable false, Some ErrPersistenceConfigRequired);
     (StorageProfile_Validate StorageDurable true, None);
     (StorageProfile_Validate 2 true, Some ErrInvalidStorageProfile)] = true ∧
  PersistenceConfigured (String (Ascii.ascii_of_nat 32) (String (Ascii.ascii_of_nat 9) EmptyString)) = false ∧
  PersistenceConfigured "/var/lib/gossipcache" = true.
Proof. by vm_compute. Qed.

Definition key_3 : bytes := string_bytes "key".
Definition id_1 : bytes := NewMutationID 1 1.

Example TestRequestValidationAndCloning :
  match PartitionOf key_3 16 with
  | Returns p => wire_GetRequest_Validate (mkWireGetRequest key_3 (Some (mkVersionTag p 7))) 16 =
                   Returns None
  | Panics _ => False
  end ∧
  SetRequest_Validate (mkSetRequest key_3 (string_bytes "value") 1500 id_1 zero_WriteOptions) = None ∧
  DeleteRequest_Validate (mkDeleteRequest key_3 (NewMutationID 1 2) zero_WriteOptions) = None.
Proof. by vm_compute. Qed.

(** The result of a call that did not panic. *)
Definition returned (o : outcome error) : error :=
  match o with Returns e => e | Panics e => None end.

Example TestRequestBounds :
  let deleting key opts := DeleteRequest_Validate (mkDeleteRequest key id_1 opts) in
  forallb expects
    [(returned (wire_GetRequest_Validate (mkWireGetRequest [] None) 16), Some ErrKeyEmpty);
     (deleting (make_bytes (MaxKeyLen + 1)) zero_WriteOptions, Some ErrKeyTooLarge);
     (SetRequest_Validate (mkSetRequest key_3 [] 0 (zero_bytes 16) zero_WriteOptions),
      Some ErrMutationIDRequired);
     (deleting key_3 (mkWriteOptions 0 2 0 0), Some ErrInvalidWriteMode);
     (deleting key_3 (mkWriteOptions 0 0 1 0), Some ErrInvalidConfirmLevel);
     (deleting key_3 (mkWriteOptions 0 0 0 (- Millisecond)), Some ErrInvalidWriteTimeout);
     (deleting key_3 (mkWriteOptions 0 0 0 (500 * 1000)), Some ErrTimeoutNotWholeMillis);
     (deleting key_3 (mkWriteOptions 0 0 0 ((MaxWriteTimeoutMillis + 1) * Millisecond)),
      Some ErrWriteTimeoutTooLarge)] = true ∧
  match PartitionOf key_3 16 with
  | Returns p => fails (returned (wire_GetRequest_Validate
                   (mkWireGetRequest key_3 (Some (mkVersionTag ((p + 1) mod 16) 1))) 16)) = true
  | Panics _ => False
  end ∧
  expects (SetRequest_Validate (mkSetRequest key_3 (make_bytes (MaxValueLen + 1)) 0 id_1
    zero_WriteOptions), Some ErrValueTooLarge) = true.
Proof.
  split_and!; [by vm_compute..|].
  unfold SetRequest_Validate. cbn [sr_Key sr_Value]. by rewrite len_make_bytes.
Qed.

Example TestCopyBytes : CopyBytes [] = [] ∧ CopyBytes (string_bytes "value") = string_bytes "value".
Proof. done. Qed.

Example TestTTLMillis :
  TTLMillis (1500 * Millisecond) = (1500, None) ∧ TTLMillis 0 = (TTLNone, None) ∧
  expects ((TTLMillis 1000).2, Some ErrTTLNotWholeMilliseconds) = true ∧
  fails (TTLMillis (- Millisecond)).2 = true.
Proof. by vm_compute. Qed.

(** ** wire/protocol_test.go *)

Example TestProtocolNegotiation :
  let negotiated peer := ProtocolRange_Negotiate (mkProtocolRange 4 2) peer in
  forallb (λ row, match row with (peer, want, e) =>
             ((negotiated peer).1 =? want) && expects ((negotiated peer).2, e) end)
    [(mkProtocolRange 4 2, 4, None); (mkProtocolRange 3 1, 3, None);
     (mkProtocolRange 5 3, 4, None);
     (mkProtocolRange 6 5, 0, Some ErrIncompatibleProtocolRanges);
     (mkProtocolRange 2 3, 0, Some ErrInvalidProtocolRange)] = true.
Proof. by vm_compute. Qed.

Example TestCurrentProtocolRangeIsValid :
  pr_Version CurrentProtocolRange = CurrentProtocolVersion ∧
  pr_MinSupported CurrentProtocolRange = MinSupportedProtocolVersion ∧
  ProtocolRange_Validate CurrentProtocolRange = None.
Proof. done. Qed.

Example TestStatusValuesAndNames :
  forallb (λ row, match row with (status, value, name) =>
             (status =? value) && String.eqb (Status_String status) name && Status_Valid status end)
    [(StatusOK, 0, "OK"); (StatusNotFound, 1, "NOT_FOUND");
     (StatusNotCaughtUp, 2, "NOT_CAUGHT_UP");
     (StatusErrDurabilityUnavailable, 3, "ERR_DURABILITY_UNAVAILABLE");
     (StatusErrBadGeneration, 4, "ERR_BAD_GENERATION");
     (StatusErrRateLimited, 5, "ERR_RATE_LIMITED");
     (StatusErrInvalidArgument, 6, "ERR_INVALID_ARGUMENT");
     (StatusErrWriteConfirmTimeout, 7, "ERR_WRITE_CONFIRM_TIMEOUT");
     (StatusErrInternal, 8, "ERR_INTERNAL")]%string = true ∧
  Status_Valid 9 = false ∧ Status_String 9 = "Status(9)"%string.
Proof. by vm_compute. Qed.

Example TestStatusClassification :
  let row (status : Z) (class : StatusClass) :=
    Status_Class status = class ∧
    (Status_Retryable status = true ↔ class = StatusClassRetryable) ∧
    (Status_Terminal status = true ↔ class = StatusClassTerminal) in
  row StatusOK StatusClassSuccess ∧ row StatusNotFound StatusClassSuccess ∧
  row StatusNotCaughtUp StatusClassRetryable ∧
  row StatusErrDurabilityUnavailable StatusClassTerminal ∧
  row StatusErrBadGeneration StatusClassTerminal ∧ row StatusErrRateLimited StatusClassRetryable ∧
  row StatusErrInvalidArgument StatusClassTerminal ∧
  row StatusErrWriteConfirmTimeout StatusClassSuccess ∧ row StatusErrInternal StatusClassTerminal ∧
  row 99 StatusClassTerminal.
Proof. by repeat split. Qed.

(** ** wire/record_test.go *)

Definition version_7 : VersionTag := mkVersionTag 2 7.

Example TestVersionTagValidateCommitted :
  forallb expects
    [(VersionTag_ValidateCommitted zero_VersionTag, Some ErrMissingVersion);
     (VersionTag_ValidateCommitted (mkVersionTag 1 0), Some ErrMissingVersion);
     (VersionTag_ValidateCommitted (mkVersionTag 0 1), None)] = true.
Proof. done. Qed.

Example TestGetRecordFieldsValidate :
  let row status version kind value want :=
    (GetRecordFields_Validate (mkGetRecordFields status version kind value), want) in
  forallb expects
    ([row StatusOK version_7 RecordValue (string_bytes "value") None;
      row StatusOK version_7 RecordValue [] None;
      row StatusOK version_7 RecordTombstone [] None;
      row StatusOK (mkVersionTag 0 1) RecordValue (string_bytes "v") None] ++
     map (λ status, row status zero_VersionTag 0 [] None)
       [StatusNotFound; StatusNotCaughtUp; StatusErrRateLimited; StatusErrDurabilityUnavailable;
        StatusErrBadGeneration; StatusErrInvalidArgument; StatusErrInternal] ++
     [row StatusErrWriteConfirmTimeout zero_VersionTag 0 [] (Some ErrInvalidGetStatus);
      row 99 zero_VersionTag 0 [] (Some ErrInvalidGetStatus);
      row StatusOK zero_VersionTag RecordValue (string_bytes "v") (Some ErrMissingVersion);
      row StatusOK (mkVersionTag 2 0) RecordValue (string_bytes "v") (Some ErrMissingVersion);
      row StatusOK version_7 20 [] (Some ErrInvalidRecordKind);
      row StatusOK version_7 RecordTombstone (string_bytes "x") (Some ErrUnexpectedValue);
      row StatusNotFound version_7 0 [] (Some ErrUnexpectedVersion);
      row StatusNotCaughtUp zero_VersionTag 0 (string_bytes "stale") (Some ErrUnexpectedValue);
      row StatusErrInternal zero_VersionTag RecordTombstone [] (Some ErrInvalidRecordKind);
      row StatusNotFound (mkVersionTag 1 0) 0 [] (Some ErrUnexpectedVersion)]) = true ∧
  expects (row StatusOK version_7 RecordValue (make_bytes MaxValueLen) None) = true ∧
  expects (row StatusOK version_7 RecordValue (make_bytes (MaxValueLen + 1))
             (Some ErrValueTooLarge)) = true.
Proof.
  cbv zeta. split_and!; [by vm_compute|..];
    unfold GetRecordFields_Validate; cbn [grf_Value grf_Kind grf_Status grf_Version];
    by rewrite len_make_bytes.
Qed.

(** ** wire/partition_test.go *)

Example TestXXHash64ReferenceValues :
  map (λ key, xxHash64 key partitionSeed)
    [[]; string_bytes "a"; string_bytes "gossipcache";
     map (λ n, default x00 (Byte.of_nat n)) (seq 0 32)] =
  [0x6ec6d05f61c7e7a7; 0x727c10e0d238e188; 0x0ce55a1886928622; 0xbfb3e4ef6096c49c].
Proof. by vm_compute. Qed.

Example TestPartitionOfRejectsZeroPartitions :
  match PartitionOf key_3 0 with
  | Panics e => errors_Is e ErrInvalidPartitionCount = true
  | Returns _ => False
  end.
Proof. by vm_compute. Qed.

(** ** l1/hub_test.go *)

Example TestGetResultValidate :
  let row value version ttl kind status want :=
    (GetResult_Validate (mkGetResult value 0 version ttl kind status), want) in
  let v := string_bytes "value" in
  forallb expects
    [row v version_7 Second l1_RecordValue StatusOK None;
     row [] version_7 0 l1_RecordTombstone StatusOK None;
     row [] zero_VersionTag 0 0 StatusNotFound None;
     row [] zero_VersionTag 0 0 StatusNotCaughtUp None;
     row [] zero_VersionTag 0 0 StatusErrInternal None;
     row [] zero_VersionTag 0 l1_RecordValue StatusOK (Some l1_ErrMissingVersion);
     row [] (mkVersionTag 2 0) 0 l1_RecordValue StatusOK (Some l1_ErrMissingVersion);
     row [] version_7 0 0 StatusNotFound (Some l1_ErrUnexpectedVersion);
     row v zero_VersionTag 0 0 StatusNotCaughtUp (Some l1_ErrUnexpectedValue);
     row [] version_7 0 20 StatusOK (Some l1_ErrInvalidRecordKind);
     row v version_7 0 l1_RecordTombstone StatusOK (Some l1_ErrUnexpectedValue);
     row [] version_7 (-1) l1_RecordValue StatusOK (Some l1_ErrInvalidResultTTL);
     row [] zero_VersionTag Second 0 StatusNotFound (Some l1_ErrInvalidResultTTL);
     row [] zero_VersionTag 0 0 StatusErrWriteConfirmTimeout (Some l1_ErrInvalidGetStatus);
     row [] zero_VersionTag 0 0 99 (Some l1_ErrInvalidGetStatus)] = true.
Proof. by vm_compute. Qed.

(** ** rpc/convert_test.go *)

Example TestGetRoundTrip :
  let req := mkRpcGetRequest (string_bytes "user:1") (Some (mkVersionTag 3 9)) 7 in
  let resp := mkGetResponse StatusOK 7 (mkVersionTag 3 10) (string_bytes "v") 1000 RecordValue in
  FromProtoGetRequest (Some (ProtoGetRequest req)) = (req, None) ∧
  FromProtoGetResponse (Some (ProtoGetResponse resp)) = (resp, None).
Proof. by vm_compute. Qed.

Example TestMutationRoundTripAndFingerprint :
  let req value := mkMutationRequest OpSet (string_bytes "k") value 50 (NewMutationID 1 2)
                     WriteFast 1 ConfirmInvalidateApplied 250 9 in
  let ok := mkMutationResponse StatusOK 2 (mkVersionTag 1 3) in
  let v := string_bytes "v" in
  FromProtoMutationRequest (Some (ProtoMutationRequest (req v))) = (req v, None) ∧
  MutationFingerprint_CheckMatch (Fingerprint (req v)) (Fingerprint (req v)) = None ∧
  expects (MutationFingerprint_CheckMatch (Fingerprint (req v))
             (Fingerprint (req (string_bytes "other"))), Some ErrMutationFingerprintMismatch) = true ∧
  FromProtoMutationResponse (Some (ProtoMutationResponse ok)) = (ok, None).
Proof. by vm_compute. Qed.

Example TestHandshakeAndStatusValidation :
  let req := mkHandshakeRequest CurrentProtocolRange "prod-a" 0 in
  let hs healthy := mkHandshake CurrentProtocolVersion 1 16 StorageMemory healthy "prod-a" in
  let status := mkHubStatus 1 StorageMemory false StatusOK in
  FromProtoHandshakeRequest (Some (ProtoHandshakeRequest req)) = (req, None) ∧
  FromProtoHandshake (Some (ProtoHandshake (hs false))) = (hs false, None) ∧
  expects (Handshake_Validate (hs true), Some ErrInvalidDurableHealth) = true ∧
  FromProtoHubStatus (Some (ProtoHubStatus status)) = (status, None).
Proof. by vm_compute. Qed.

Example TestStatusHelpers :
  StatusCarriesCommittedVersion StatusOK && StatusCarriesCommittedVersion StatusErrWriteConfirmTimeout
    && negb (StatusCarriesGetRecord StatusNotFound) && RetrySameMutationID StatusNotCaughtUp = true.
Proof. done. Qed.

Example TestFromProtoEnumRejectsUnknownWithoutNarrowing :
  forallb expects
    [((FromProtoStatus 65536).2, Some ErrInvalidStatus);
     ((FromProtoRecordKind 256).2, Some ErrInvalidEnum);
     ((FromProtoWriteMode 256).2, Some ErrInvalidEnum);
     ((FromProtoStorageProfile 99).2, Some ErrInvalidEnum);
     ((FromProtoConfirmLevel 7).2, Some ErrInvalidEnum)] = true.
Proof. by vm_compute. Qed.

Example TestFromProtoProtocolVersionRejectsUint16Overflow :
  forallb expects
    [((FromProtoHandshakeRequest (Some (mk_pb_HandshakeRequest (MaxUint16 + 1) 1 "prod-a" 0))).2,
      Some ErrInvalidProtocolRange);
     ((FromProtoHandshake (Some (mk_pb_HandshakeResponse (MaxUint16 + 1) 1 16
         pb_StorageProfile_STORAGE_PROFILE_MEMORY false "prod-a"))).2,
      Some ErrInvalidProtocolRange)] = true.
Proof. by vm_compute. Qed.

Example TestFromProtoGetResponseRejectsUnknownStatus :
  expects ((FromProtoGetResponse (Some (mk_pb_GetResponse 65536 1 None [] 0 0))).2,
           Some ErrInvalidStatus) = true.
Proof. by vm_compute. Qed.

(** ** control/convert_test.go *)

(** What the peer decodes of a payload sent in an envelope. *)
Definition through_server (b : payload) : outcome (payload * error) :=
  FromProtoServerMessage (ProtoServerMessage b).1.
Definition through_client (b : payload) : outcome (payload * error) :=
  FromProtoClientMessage (ProtoClientMessage b).1.

Example TestInvalidationBatchRoundTrip :
  let batch := PInvalidationBatch (mkInvalidationBatch 3 9
    [mkInvalidationEvent 10 (string_bytes "a") (mkVersionTag 3 100) RecordValue (NewMutationID 1 1);
     mkInvalidationEvent 11 (string_bytes "b") (mkVersionTag 3 101) RecordTombstone
       (NewMutationID 1 2)]) in
  through_server batch = Returns (batch, None).
Proof. by vm_compute. Qed.

Example TestClientEnvelopeRoundTrip :
  let hello := PHello (mkHello 42
    (mkProtocolRange CurrentProtocolVersion MinSupportedProtocolVersion)
    [mkStreamWatermark 1 8 2] "prod-a" 2) in
  through_client hello = Returns (hello, None).
Proof. by vm_compute. Qed.

Example TestBatchRejectsNonContiguous :
  expects (InvalidationBatch_Validate (mkInvalidationBatch 1 1
    [mkInvalidationEvent 1 (string_bytes "a") (mkVersionTag 1 1) RecordValue (NewMutationID 1 1);
     mkInvalidationEvent 3 (string_bytes "b") (mkVersionTag 1 2) RecordValue (NewMutationID 1 2)]),
    Some ErrNonContiguousBatch) = true.
Proof. by vm_compute. Qed.

Example TestReplayUnavailableValidation :
  let ok := mkReplayUnavailable 1 1 2 10 20 in
  FromProtoReplayUnavailable (Some (ProtoReplayUnavailable ok)) = (ok, None).
Proof. by vm_compute. Qed.

Example TestProtoClientMessageTypedNil :
  forallb (λ b, expects ((ProtoClientMessage b).2, Some ErrInvalidMessage))
    [PHelloPtr None; PSubscribePtr None; PStreamAcknowledgementPtr None; PReplayRequestPtr None;
     PInvalidateConfirmPtr None] = true.
Proof. done. Qed.

Example TestProtoServerMessageTypedNil :
  forallb (λ b, expects ((ProtoServerMessage b).2, Some ErrInvalidMessage))
    [PInvalidationBatchPtr None; PStreamCheckpointPtr None; PReplayUnavailablePtr None;
     PControlErrorPtr None] = true.
Proof. done. Qed.

Example TestFromProtoHelloRejectsUint16Overflow :
  expects ((FromProtoHello (Some (mk_pb_Hello 1 (MaxUint16 + 1) 1 [] "prod-a" 0))).2,
           Some ErrInvalidProtocolRange) = true.
Proof. by vm_compute. Qed.

(** 800 events with the largest key: fewer than the maximum number of events,
    and too large.  The events are evaluated with a key of one byte, which
    differs only in the size. *)
Definition numbered_event (key : bytes) (i : nat) : InvalidationEvent :=
  let n := Z.of_nat i + 1 in
  mkInvalidationEvent n key (mkVersionTag 1 n) RecordValue (NewMutationID 1 n).

Lemma numbered_events_key key l i p :
  key_ok key →
  InvalidationBatch_events 1 i p (map (numbered_event key) l) =
  InvalidationBatch_events 1 i p (map (numbered_event [x61]) l).
Proof.
  intros Hkey.
  assert (∀ n, InvalidationEvent_validate (numbered_event key n) 1 =
               InvalidationEvent_validate (numbered_event [x61] n) 1) as Hev.
  { intros n. destruct Hkey. unfold InvalidationEvent_validate. cbn [ev_Key numbered_event].
    destruct (Z.eqb_spec (len key) 0); [lia|]. by destruct (Z.gtb_spec (len key) MaxKeyLen); [lia|]. }
  revert i p. induction l as [|n l IH]; intros i p; [done|].
  cbn [map InvalidationBatch_events]. by rewrite Hev, IH.
Qed.

Lemma largest_key_ok : key_ok (make_bytes MaxKeyLen).
Proof. unfold key_ok. rewrite len_make_bytes; unfold MaxKeyLen; lia. Qed.

Lemma numbered_events_size key l :
  batch_size (map (numbered_event key) l) = len l * (eventEncodedOverhead + len key).
Proof.
  induction l as [|n l IH]; [done|]. cbn [map]. rewrite batch_size_cons, IH, len_cons.
  cbn [ev_Key numbered_event]. lia.
Qed.

Example TestBatchRejectsOversizedEncodedEstimate :
  let batch := mkInvalidationBatch 1 1
                 (map (numbered_event (make_bytes MaxKeyLen)) (seq 0 800)) in
  (InvalidationBatch_EstimatedEncodedSize batch >? MaxControlMessageBytes) = true ∧
  expects (InvalidationBatch_Validate batch, Some ErrBatchTooLarge) = true.
Proof.
  intros batch.
  assert (InvalidationBatch_EstimatedEncodedSize batch = 3328128) as Hsize.
  { rewrite EstimatedEncodedSize_eq; cbn [ib_Events batch];
      rewrite numbered_events_size, len_make_bytes; by vm_compute. }
  rewrite Hsize. split; [done|]. unfold InvalidationBatch_Validate. rewrite Hsize.
  cbn [ib_HubGeneration ib_Events ib_StreamID batch].
  rewrite numbered_events_key by apply largest_key_ok. unfold len. rewrite length_map. by vm_compute.
Qed.

Example TestControlErrorRoundTrip :
  let ce := PControlError (mkControlError StatusErrRateLimited "subscribe budget") in
  through_server ce = Returns (ce, None).
Proof. by vm_compute. Qed.

Example TestFromProtoInvalidationBatchRejectsUnknownKind :
  expects ((FromProtoInvalidationBatch (Some (mk_pb_InvalidationBatch 1 1
    [Some (mk_pb_InvalidationEvent 1 (string_bytes "k") (Some (mk_pb_VersionTag 1 1)) 256
       (Some (mk_pb_MutationID id_1)))]))).2, Some control_ErrInvalidRecordKind) = true.
Proof. by vm_compute. Qed.
